(* ===== verification/_CoqProject ===== *)
-Q . S2P
Prelude.v
Memory.v
State.v
Demo.v
Serial.v
Pmm.v
PageTable.v
Vmm.v
VmmSpec.v
VmmSpace.v
VmmTheorems.v
VmmFrame.v
Cpu.v
Pointer.v
Gdt.v
Pit.v
Idt.v
Thread.v
ThreadTheorems.v
Scheduler.v
Ipc.v
IpcTheorems.v
Syscall.v
Ata.v
Ext2.v
Ext2Theorems.v
Ext2Properties.v
Limine.v
Main.v
MainTheorems.v
MainProperties.v
Userspace.v
Init.v
InitTheorems.v
