(* ===== verification/Prelude.v ===== *)
(** * PlasmaOS: a verification library for the kernel

    PlasmaOS is a small x86-64 kernel in C and assembly, started by the Limine boot
    loader.  This library is a shallow embedding of its sources (kernel/, userland/init.c)
    with the theorems that make its parts correct.

    ** The program and its model

    Every C function is a computation in one state monad (Prelude.v) over one record,
    [State.kstate]: the static variables of the translation units, byte-addressed memory,
    the processor registers, the interrupt flag, the port input and output so far and the
    console output.  A computation returns, halts the processor, faults (an access the
    language or the processor does not define), or uses up the fuel of a loop that has no
    static bound.  [wp m s Q] says that [m] run from [s] RETURNS in a state satisfying [Q];
    a theorem in terms of [wp] therefore includes termination and the absence of faults.
    Machine integers are [Z] with the wrap-around of their C type written out.

    What is not in the sources is a parameter, the class [State.Platform]: the responses of
    the boot loader (limine.h is a submodule), the mapping in force for kernel pointers
    ([kmap]), the devices behind the ports as functions of the port history, and link-time
    addresses.  Demo.v, MainProperties.v, Ata.v, Ext2Properties.v and Init.v give concrete
    platforms, on which the witnesses show that the hypotheses of the theorems can be met.
    [wph m s Q H] is the form for programs that end by halting the processor.

    - Memory.v, State.v: memory, the C types and variables, the primitive effects;
    - Serial.v (serial.c): the UART; [console_refined] relates the console calls that the
      other files record as events to the bytes on the wire, against a specification of the
      digits that is independent of the loops of the code;
    - Pmm.v (pmm.c): the page stack, abstractly the list of free pages;
    - PageTable.v: the page walk of the processor, independent of the code; Vmm.v (vmm.c):
      the operations; VmmSpec.v, VmmSpace.v, VmmTheorems.v, VmmFrame.v: what they do to
      translation and to the rest of memory;
    - Cpu.v: push, pop, interrupt entry and return; Pointer.v: pointers that come from user
      space, translated by the tables of CR3 in the lower half, and the regions behind them;
    - Gdt.v (gdt.c, gdt_asm.asm), Pit.v (pit.c), Idt.v (idt.c, idt_asm.asm);
    - Thread.v, ThreadTheorems.v (thread.c, switch.asm, usermode.asm): threads, the scheduler,
      the context switch on registers and memory; Scheduler.v: the threads on their stacks,
      the invariant [machine] and the steps of the system that keep it;
    - Ipc.v, IpcTheorems.v (thread.c): ports and messages;
    - Syscall.v (syscall.c, syscall_asm.asm): the handler and the entry stub;
    - Ata.v (ata.c): the disk driver; the class [AtaDrive] is what it relies on, the class
      [BlockDevice] what it offers, and the file system is proved against the latter;
    - Ext2.v, Ext2Theorems.v, Ext2Properties.v (ext2.c): mounting, reading, listing;
    - Limine.v (limine.c), Main.v, MainTheorems.v, MainProperties.v (main.c): the boot;
      Userspace.v: the part of kernel_main that builds and starts the first user program;
    - Init.v (userland/init.c, the wrappers of syscall.h): the user program as the tree of its
      system calls, carried out by the entry stub and the handler of the model;
      InitTheorems.v: a rule per system call, and the run of init by these rules.

    A function that gives up the processor inside a call (thread_yield, recv, a system call,
    the test threads of main.c) is split there: the first part reports that it was suspended,
    the second one is run when the scheduler has come back to the thread.

    ** What the theorems show

    Memory: pmm_init builds exactly the usable pages of the memory map, no page is handed out
    twice; mapping and unmapping change one translation and no other, address spaces are
    isolated, creating and destroying one gives its pages back.  Processor: the descriptor
    tables decode to what the architecture requires, an interrupt restores the interrupted
    program.  Scheduling: find_next_runnable is round robin, nobody starves; thread_yield goes on
    at the return address of the thread it chooses, on that thread's stack and with its
    callee-saved registers, and parks its caller so that it comes back the same way, whatever
    the others do on their stacks meanwhile; the first user thread enters ring 3.
    Messages: sends and receives refine a FIFO queue per port with a budget of 64 messages in
    all; a blocked receiver is woken and gets its message; the system calls send and recv are
    correct from [int $0x80] to the instruction after it, in recv through the page tables of
    the program.  Disk: on a drive that keeps the protocol the sectors asked for are read; the
    port traffic of a write is given exactly; on any device the driver returns; ext2_read_file
    returns the bytes of the file the root directory names or -1 and gives back its pages.  Boot:
    the init program is loaded byte for byte; from the place where kernel_main has found it the
    first instruction of the program is reached in ring 3, code and stack open to it
    (userspace_starts); and init.c, as the only runnable thread, passes its five tests, exits and
    halts the machine (init_tests_pass).  Several theorems state what the code does where it is
    not what it means to do (message_pool_exhaustion, dead_thread_resurrected,
    ext2_zero_record_hangs).  [boot_run_view] and [init_run_view] are one complete boot and run,
    computed on a concrete machine; they are examples beside the general theorems.

    ** Bounds and fuel

    Loops with a static bound have none.  find_next_runnable has fuel for the eight threads of
    the table, proved enough by [find_next_runnable_correct]; the polling loops of ata.c have
    the bound of the code, 1,000,000; the loops over a directory need more rounds than a block
    has records (512 is enough for the 4 KiB blocks the code can handle: a record has at least
    8 bytes); the transmit loop of serial.c has fuel together with a hypothesis that the
    transmitter drains; SYS_DEBUG_PRINT has fuel for the length of the string.  Where more fuel
    does not help (a record of length 0) that is a theorem.

    ** Assumptions and what is not modelled

    Kernel pointers designate memory through the fixed map [kmap]; that the boot loader's direct
    map and, for ext2.c, its identity map of low memory hold is a hypothesis of the theorems that
    need it.  Pointers of user space are translated by the tables in memory; the write and
    no-execute bits are not checked, and the TLB is represented by the addresses given to invlpg.
    The stack frames of C functions are not laid out in memory: local arrays whose address is
    passed on have it as an argument, and the caller-saved registers after a C call are arbitrary
    ([junk]); the return address that a call of a C handler from assembly pushes is not laid out
    either, and of gdt_load the effect on the segment registers and GDTR is modelled, not the
    words its far return puts on the stack.  AtaDrive assumes that DRQ and ERR are right also
    while the drive is busy, since ata_wait_drq does not look at BSY.  The bytes of a file are
    those of its direct blocks up to the first hole, as ext2.c reads them.  pit_sleep is about a
    machine on which every hlt ends with a timer tick.  Interrupts inside kernel code are not interleaved (the kernel runs with interrupts
    disabled behind its gates).  Not modelled: the entry stub in entry.asm (it sets the stack and
    calls kernel_main), the linker scripts, the build files and image tools, the Limine headers,
    and the machine code of the init program, which is represented by its calls.

    Left to extend: the initialisation part of kernel_main before the search for the program as
    one theorem for every machine (boot_memory_ready, idt_init_correct, gdt_init_correct,
    ext2_init_correct cover its parts), and the rendezvous of two user threads with buffers in
    page tables that the switches may not touch. *)
From stdpp Require Export base gmap list numbers strings.
From Stdlib Require Export ZArith Lia.

#[global] Open Scope Z_scope.

(** ** Machine integers

    A w-bit unsigned integer of the C code is a [Z]; every operation that can
    leave the range is followed by the wrap-around the type performs. *)

Definition u8 (z : Z) : Z := z mod 256.
Definition u16 (z : Z) : Z := z mod 65536.
Definition u32 (z : Z) : Z := z mod 4294967296.
Definition u64 (z : Z) : Z := z mod 18446744073709551616.

(** Conversion to a signed integer of 32 and of 64 bits (two's complement). *)
Definition i32 (z : Z) : Z := (z + 2147483648) mod 4294967296 - 2147483648.
Definition i64 (z : Z) : Z :=
  (z + 9223372036854775808) mod 18446744073709551616 - 9223372036854775808.

(** A C condition on an integer: non-zero is true. *)
Definition truthy (z : Z) : bool := negb (z =? 0).

(** [lia] with Euclidean division by constants. *)
Ltac zlia := Z.div_mod_to_equations; lia.

Lemma u8_small z : 0 <= z < 256 -> u8 z = z.
Proof. intros. unfold u8. by rewrite Z.mod_small. Qed.
Lemma u16_small z : 0 <= z < 65536 -> u16 z = z.
Proof. intros. unfold u16. by rewrite Z.mod_small. Qed.
Lemma u32_small z : 0 <= z < 4294967296 -> u32 z = z.
Proof. intros. unfold u32. by rewrite Z.mod_small. Qed.
Lemma u64_small z : 0 <= z < 18446744073709551616 -> u64 z = z.
Proof. intros. unfold u64. by rewrite Z.mod_small. Qed.
Lemma u8_range z : 0 <= u8 z < 256.
Proof. apply Z.mod_pos_bound. lia. Qed.
Lemma u16_range z : 0 <= u16 z < 65536.
Proof. apply Z.mod_pos_bound. lia. Qed.
Lemma u32_range z : 0 <= u32 z < 4294967296.
Proof. apply Z.mod_pos_bound. lia. Qed.
Lemma u64_range z : 0 <= u64 z < 18446744073709551616.
Proof. apply Z.mod_pos_bound. lia. Qed.
Lemma i32_small z : -2147483648 <= z < 2147483648 -> i32 z = z.
Proof. intros. unfold i32. rewrite Z.mod_small; lia. Qed.
Lemma i64_small z : -9223372036854775808 <= z < 9223372036854775808 -> i64 z = z.
Proof. intros. unfold i64. rewrite Z.mod_small; lia. Qed.

(** Bitwise operations stay within a word. *)
Lemma lor_u64_range a b :
  0 <= a < 18446744073709551616 -> 0 <= b < 18446744073709551616 ->
  0 <= Z.lor a b < 18446744073709551616.
Proof.
  intros Ha Hb. split; [apply Z.lor_nonneg; lia|].
  change 18446744073709551616 with (2 ^ 64).
  destruct (decide (Z.lor a b = 0)) as [->|Hne]; [lia|].
  assert (0 <= Z.lor a b) by (apply Z.lor_nonneg; lia).
  apply Z.log2_lt_pow2; [lia|]. rewrite Z.log2_lor by lia.
  apply Z.max_lub_lt.
  - destruct (decide (a = 0)) as [->|]; [simpl; lia|]. apply Z.log2_lt_pow2; [lia|]. exact (proj2 Ha).
  - destruct (decide (b = 0)) as [->|]; [simpl; lia|]. apply Z.log2_lt_pow2; [lia|]. exact (proj2 Hb).
Qed.

Lemma ldiff_u64_range a b :
  0 <= a < 18446744073709551616 -> 0 <= Z.ldiff a b < 18446744073709551616.
Proof.
  intros Ha. change 18446744073709551616 with (2 ^ 64) in *.
  assert (Z.ldiff a b = Z.ldiff a b mod 2 ^ 64) as ->; [|apply Z.mod_pos_bound; lia].
  apply Z.bits_inj'. intros n Hn. rewrite Z.ldiff_spec.
  destruct (decide (n < 64)) as [Hl|Hl]; [by rewrite Z.mod_pow2_bits_low, Z.ldiff_spec by lia|].
  rewrite Z.mod_pow2_bits_high by lia.
  assert (Z.testbit a n = false) as ->; [|done].
  rewrite <- (Z.mod_small a (2 ^ 64)) by lia. apply Z.mod_pow2_bits_high. lia.
Qed.

(** Testing one bit with a mask. *)
Lemma truthy_land_pow2 e n : 0 <= n -> truthy (Z.land e (2 ^ n)) = Z.testbit e n.
Proof.
  intros Hn. unfold truthy. destruct (Z.testbit e n) eqn:E.
  - destruct (Z.eqb_spec (Z.land e (2 ^ n)) 0) as [H|]; [|done].
    apply (f_equal (fun z => Z.testbit z n)) in H.
    by rewrite Z.land_spec, E, Z.pow2_bits_true, Z.bits_0 in H.
  - destruct (Z.eqb_spec (Z.land e (2 ^ n)) 0) as [|H]; [done|]. exfalso. apply H.
    apply Z.bits_inj'. intros k Hk. rewrite Z.land_spec, Z.bits_0.
    destruct (decide (k = n)) as [->|Hne]; [by rewrite E|].
    by rewrite Z.pow2_bits_false, andb_false_r by lia.
Qed.

(** ** The kernel monad

    A C function is a computation on the kernel state.  It may return, halt the
    processor for good ([cli; hlt] in a loop), run into behaviour the C
    standard or the processor does not define (an access outside an array, a
    division by zero, a null pointer), or, for a loop without a static bound,
    use up the fuel the model gave it. *)

Inductive fault := OutOfBounds | DivideError | NullPointer | PageFault | BadShift.

Inductive outcome (S A : Type) :=
| Ret (a : A) (s : S)
| Halted (s : S)
| Fault (f : fault) (s : S)
| NoFuel (s : S).
Arguments Ret {S A} a s.
Arguments Halted {S A} s.
Arguments Fault {S A} f s.
Arguments NoFuel {S A} s.

Definition M (S A : Type) : Type := S -> outcome S A.

Section monad.
Context {S : Type}.

Definition ret {A} (a : A) : M S A := fun s => Ret a s.
Definition bind {A B} (m : M S A) (k : A -> M S B) : M S B := fun s =>
  match m s with
  | Ret a s' => k a s'
  | Halted s' => Halted s'
  | Fault f s' => Fault f s'
  | NoFuel s' => NoFuel s'
  end.
Definition gets {A} (f : S -> A) : M S A := fun s => Ret (f s) s.
Definition modify (f : S -> S) : M S unit := fun s => Ret tt (f s).
Definition halt {A} : M S A := fun s => Halted s.
Definition fails {A} (f : fault) : M S A := fun s => Fault f s.
Definition starve {A} : M S A := fun s => NoFuel s.

(** An access that is only defined when the option holds a value. *)
Definition need {A} (f : fault) (o : option A) : M S A :=
  match o with Some a => ret a | None => fails f end.

(** [for (i = lo; i < lo + n; i++) body(i)]. *)
Fixpoint for_n (n : nat) (lo : Z) (body : Z -> M S unit) : M S unit :=
  match n with
  | O => ret tt
  | Datatypes.S n => bind (body lo) (fun _ => for_n n (lo + 1) body)
  end.
Definition for_range (lo hi : Z) (body : Z -> M S unit) : M S unit :=
  for_n (Z.to_nat (hi - lo)) lo body.

(** A [for] loop whose body may return from the enclosing function
    ([Some r]) or go on ([None]). *)
Fixpoint for_n_ret {R} (n : nat) (lo : Z) (body : Z -> M S (option R)) :
    M S (option R) :=
  match n with
  | O => ret None
  | Datatypes.S n =>
      bind (body lo) (fun r =>
        match r with
        | Some x => ret (Some x)
        | None => for_n_ret n (lo + 1) body
        end)
  end.
End monad.

Declare Scope kernel_scope.
Delimit Scope kernel_scope with K.
Notation "x <- m ;; k" := (bind m (fun x => k))
  (at level 60, m at next level, right associativity) : kernel_scope.
Notation "m ;;; k" := (bind m (fun _ => k))
  (at level 60, right associativity) : kernel_scope.
Notation "'when' b 'do' m" := (if b then m else ret tt)
  (at level 59, b at level 200, m at level 59) : kernel_scope.
#[global] Open Scope kernel_scope.

(** ** Weakest preconditions

    [wp m s Q]: run from [s], the computation [m] returns (it neither halts,
    faults nor starves) and its result and final state satisfy [Q]. *)

Definition wp {S A} (m : M S A) (s : S) (Q : A -> S -> Prop) : Prop :=
  match m s with Ret a s' => Q a s' | _ => False end.

Section wp.
Context {S : Type}.
Implicit Types s : S.

Lemma wp_ret {A} (a : A) s Q : Q a s -> wp (ret a) s Q.
Proof. done. Qed.
Lemma wp_bind {A B} (m : M S A) (k : A -> M S B) s Q :
  wp m s (fun a s' => wp (k a) s' Q) -> wp (bind m k) s Q.
Proof. unfold wp, bind. by destruct (m s). Qed.
Lemma wp_bind_inv {A B} (m : M S A) (k : A -> M S B) s Q :
  wp (bind m k) s Q -> wp m s (fun a s' => wp (k a) s' Q).
Proof. unfold wp, bind. by destruct (m s). Qed.
Lemma wp_mono {A} (m : M S A) s (P Q : A -> S -> Prop) :
  wp m s P -> (forall a s', P a s' -> Q a s') -> wp m s Q.
Proof. unfold wp. destruct (m s); naive_solver. Qed.
Lemma wp_gets {A} (f : S -> A) s Q : Q (f s) s -> wp (gets f) s Q.
Proof. done. Qed.
Lemma wp_modify (f : S -> S) s Q : Q tt (f s) -> wp (modify f) s Q.
Proof. done. Qed.
Lemma wp_need {A} f (o : option A) a s Q :
  o = Some a -> Q a s -> wp (need f o) s Q.
Proof. by intros ->. Qed.
Lemma wp_eq {A} (m : M S A) s a s' Q : m s = Ret a s' -> Q a s' -> wp m s Q.
Proof. unfold wp. by intros ->. Qed.
Lemma wp_ret_eq {A} (m : M S A) s a s' Q : wp m s Q -> m s = Ret a s' -> Q a s'.
Proof. unfold wp. intros H E. by rewrite E in H. Qed.
Lemma wp_inv {A} (m : M S A) s Q :
  wp m s Q -> exists a s', m s = Ret a s' /\ Q a s'.
Proof. unfold wp. destruct (m s); naive_solver. Qed.
Lemma bind_ret {A B} (m : M S A) (k : A -> M S B) s a s' :
  m s = Ret a s' -> bind m k s = k a s'.
Proof. intros E. unfold bind. by rewrite E. Qed.
Lemma wp_conj {A} (m : M S A) s (P Q : A -> S -> Prop) :
  wp m s P -> wp m s Q -> wp m s (fun a s' => P a s' /\ Q a s').
Proof. unfold wp. destruct (m s); naive_solver. Qed.

(** The loop rule: an invariant indexed by the loop counter. *)
Lemma wp_for_n (Inv : Z -> S -> Prop) n lo body s (Q : unit -> S -> Prop) :
  Inv lo s ->
  (forall i s', lo <= i < lo + Z.of_nat n -> Inv i s' ->
     wp (body i) s' (fun _ s'' => Inv (i + 1) s'')) ->
  (forall s', Inv (lo + Z.of_nat n) s' -> Q tt s') ->
  wp (for_n n lo body) s Q.
Proof.
  revert lo s. induction n as [|n IH]; intros lo s HI Hstep HQ; simpl.
  - apply wp_ret, HQ. by rewrite Z.add_0_r.
  - apply wp_bind. eapply wp_mono; [apply Hstep; [lia|done]|].
    intros [] s' HI'. simpl. apply IH; [done| |].
    + intros i s'' Hi. apply Hstep. lia.
    + intros s'' H. apply HQ. replace (lo + _) with (lo + 1 + Z.of_nat n) by lia. done.
Qed.

Lemma wp_for_range (Inv : Z -> S -> Prop) lo hi body s (Q : unit -> S -> Prop) :
  lo <= hi -> Inv lo s ->
  (forall i s', lo <= i < hi -> Inv i s' ->
     wp (body i) s' (fun _ s'' => Inv (i + 1) s'')) ->
  (forall s', Inv hi s' -> Q tt s') ->
  wp (for_range lo hi body) s Q.
Proof.
  intros Hle HI Hstep HQ. unfold for_range. eapply (wp_for_n Inv); [done| |].
  - intros i s' Hi. apply Hstep. lia.
  - intros s' H. apply HQ. by replace hi with (lo + Z.of_nat (Z.to_nat (hi - lo))) by lia.
Qed.
End wp.

(** [wph m s Q H]: [m] returns with [Q] or halts the processor in a state of [H]. *)
Definition wph {S A} (m : M S A) (s : S) (Q : A -> S -> Prop) (H : S -> Prop) : Prop :=
  match m s with Ret a s' => Q a s' | Halted s' => H s' | _ => False end.

Section wph.
Context {S : Type}.
Implicit Types s : S.

Lemma wph_step {A B} (m : M S A) (k : A -> M S B) s Q H :
  wp m s (fun a s' => wph (k a) s' Q H) -> wph (bind m k) s Q H.
Proof. unfold wp, wph, bind. by destruct (m s). Qed.
Lemma wph_bind {A B} (m : M S A) (k : A -> M S B) s Q H :
  wph m s (fun a s' => wph (k a) s' Q H) H -> wph (bind m k) s Q H.
Proof. unfold wph, bind. by destruct (m s). Qed.
Lemma wph_assoc {A B C} (m : M S A) (k : A -> M S B) (l : B -> M S C) s Q H :
  wph (bind m (fun a => bind (k a) l)) s Q H -> wph (bind (bind m k) l) s Q H.
Proof. unfold wph, bind. by destruct (m s). Qed.
Lemma wph_wp {A} (m : M S A) s Q H : wp m s Q -> wph m s Q H.
Proof. unfold wp, wph. by destruct (m s). Qed.
Lemma wph_returns {A} (m : M S A) s Q : wph m s Q (fun _ => False) -> wp m s Q.
Proof. unfold wp, wph. by destruct (m s). Qed.
Lemma wph_halts {A} (m : M S A) s H : wph m s (fun _ _ => False) H -> exists s', m s = Halted s' /\ H s'.
Proof. unfold wph. destruct (m s); naive_solver. Qed.
Lemma wph_halted {A} (m : M S A) s s' Q (H : S -> Prop) : m s = Halted s' -> H s' -> wph m s Q H.
Proof. unfold wph. by intros ->. Qed.
End wph.

Create HintDb kernel.
#[export] Hint Resolve u8_range u16_range u32_range u64_range : kernel.

#[global] Arguments for_range : simpl never.
#[global] Arguments u8 : simpl never.
#[global] Arguments u16 : simpl never.
#[global] Arguments u32 : simpl never.
#[global] Arguments u64 : simpl never.
#[global] Arguments i32 : simpl never.
#[global] Arguments i64 : simpl never.

(** One step of symbolic execution under [wp]. *)
Ltac wp_step :=
  lazymatch goal with
  | |- wp (bind _ _) _ _ => apply wp_bind
  | |- wp (ret _) _ _ => apply wp_ret
  | |- wp (gets _) _ _ => apply wp_gets
  | |- wp (modify _) _ _ => apply wp_modify
  | |- wp (need _ (Some _)) _ _ => apply wp_ret
  end; cbv beta.
Ltac wp_steps := repeat wp_step.
(** Step through a call by a lemma about it and go on with its result. *)
Tactic Notation "wp_call" uconstr(lem) :=
  eapply wp_mono; [eapply lem | cbv beta].

(** ** C strings *)

(** The bytes of a string literal (without the terminating NUL). *)
Definition str (s : string) : list Z :=
  map (fun c => Z.of_N (Ascii.N_of_ascii c)) (String.list_ascii_of_string s).
