(* ===== verification/Memory.v ===== *)
(** * Byte-addressed memory

    Memory is a finite map from addresses to bytes; a cell that was never
    written reads as zero.  Multi-byte accesses are little endian, as on
    x86-64.  The laws relate a load to an earlier store: same address,
    disjoint address, and the fill of a range with zeroes. *)
From S2P Require Import Prelude.

(** ** Loads and stores *)

Definition mget (m : gmap Z Z) (a : Z) : Z := u8 (default 0 (m !! a)).
Definition mput (m : gmap Z Z) (a v : Z) : gmap Z Z := <[a := u8 v]> m.

Fixpoint load_le (n : nat) (a : Z) (m : gmap Z Z) : Z :=
  match n with
  | O => 0
  | S n => mget m a + 256 * load_le n (a + 1) m
  end.

Fixpoint store_le (n : nat) (a v : Z) (m : gmap Z Z) : gmap Z Z :=
  match n with
  | O => m
  | S n => store_le n (a + 1) (v / 256) (mput m a v)
  end.

Definition load16 := load_le 2.
Definition load32 := load_le 4.
Definition load64 := load_le 8.
Definition store32 := store_le 4.
Definition store64 := store_le 8.

(** [n] bytes of memory from address [a] on. *)
Fixpoint read_bytes (n : nat) (a : Z) (m : gmap Z Z) : list Z :=
  match n with
  | O => []
  | S n => mget m a :: read_bytes n (a + 1) m
  end.

Fixpoint write_bytes (l : list Z) (a : Z) (m : gmap Z Z) : gmap Z Z :=
  match l with
  | [] => m
  | b :: l => write_bytes l (a + 1) (mput m a b)
  end.

(** The little-endian value of a byte sequence. *)
Fixpoint le_value (l : list Z) : Z :=
  match l with [] => 0 | b :: l => b + 256 * le_value l end.

(** ** Laws *)

Lemma mget_range m a : 0 <= mget m a < 256.
Proof. apply u8_range. Qed.
Lemma mget_mput_eq m a v : mget (mput m a v) a = u8 v.
Proof.
  unfold mget, mput. rewrite lookup_insert_eq. simpl. apply u8_small, u8_range.
Qed.
Lemma mget_mput_ne m a b v : a <> b -> mget (mput m a v) b = mget m b.
Proof. intros. unfold mget, mput. by rewrite lookup_insert_ne. Qed.

Lemma load_le_range n a m : 0 <= load_le n a m < 256 ^ Z.of_nat n.
Proof.
  revert a. induction n as [|n IH]; intros a; cbn [load_le]; [lia|].
  specialize (IH (a + 1)). pose proof (mget_range m a).
  rewrite Nat2Z.inj_succ, Z.pow_succ_r by lia. lia.
Qed.
Lemma load64_range a m : 0 <= load64 a m < 18446744073709551616.
Proof. apply (load_le_range 8). Qed.
Lemma load32_range a m : 0 <= load32 a m < 4294967296.
Proof. apply (load_le_range 4). Qed.
Lemma load16_range a m : 0 <= load16 a m < 65536.
Proof. apply (load_le_range 2). Qed.

Lemma load_le_ext n a m m' :
  (forall i, a <= i < a + Z.of_nat n -> mget m' i = mget m i) ->
  load_le n a m' = load_le n a m.
Proof.
  revert a. induction n as [|n IH]; intros a H; cbn [load_le]; [done|].
  rewrite H by lia. rewrite IH; [done|]. intros. apply H. lia.
Qed.

Lemma mget_store_le_out n a v m i :
  i < a \/ a + Z.of_nat n <= i -> mget (store_le n a v m) i = mget m i.
Proof.
  revert a v m. induction n as [|n IH]; intros a v m H; cbn [store_le]; [done|].
  rewrite IH by lia. apply mget_mput_ne. lia.
Qed.

Lemma mget_store_zero n a m i :
  mget (store_le n a 0 m) i = if decide (a <= i < a + Z.of_nat n) then 0 else mget m i.
Proof.
  revert a m. induction n as [|n IH]; intros a m; cbn [store_le].
  - by rewrite decide_False by lia.
  - change (0 / 256) with 0. rewrite IH. destruct (decide (i = a)) as [->|Hne].
    + rewrite decide_False, decide_True by lia. apply mget_mput_eq.
    + rewrite mget_mput_ne by done. repeat case_decide; done || lia.
Qed.

Lemma load_store_ne n k a b v m :
  b + Z.of_nat k <= a \/ a + Z.of_nat n <= b ->
  load_le k b (store_le n a v m) = load_le k b m.
Proof. intros. apply load_le_ext. intros. apply mget_store_le_out. lia. Qed.

Lemma load_store_eq_mod n a v m :
  load_le n a (store_le n a v m) = v mod 256 ^ Z.of_nat n.
Proof.
  revert a v m. induction n as [|n IH]; intros a v m; cbn [load_le store_le].
  - by rewrite Z.mod_1_r.
  - rewrite mget_store_le_out, mget_mput_eq, IH by lia.
    rewrite Nat2Z.inj_succ, Z.pow_succ_r by lia. unfold u8.
    rewrite Z.rem_mul_r by lia. done.
Qed.

Lemma load_store64_eq a v m :
  0 <= v < 18446744073709551616 -> load64 a (store64 a v m) = v.
Proof. intros. unfold load64, store64. rewrite load_store_eq_mod. by apply Z.mod_small. Qed.
Lemma load_store64_ne a b v m :
  b + 8 <= a \/ a + 8 <= b -> load64 b (store64 a v m) = load64 b m.
Proof. intros. by apply load_store_ne. Qed.
Lemma load_store32_eq a v m :
  0 <= v < 4294967296 -> load32 a (store32 a v m) = v.
Proof. intros. unfold load32, store32. rewrite load_store_eq_mod. by apply Z.mod_small. Qed.
Lemma load_store32_ne a b v m :
  b + 4 <= a \/ a + 4 <= b -> load32 b (store32 a v m) = load32 b m.
Proof. intros. by apply load_store_ne. Qed.

Lemma load_le_zero n a m :
  (forall i, a <= i < a + Z.of_nat n -> mget m i = 0) -> load_le n a m = 0.
Proof.
  revert a. induction n as [|n IH]; intros a H; cbn [load_le]; [done|].
  rewrite H, IH; [done| |lia]. intros. apply H. lia.
Qed.

Lemma length_read_bytes n a m : length (read_bytes n a m) = n.
Proof. revert a. induction n; intros; simpl; auto. Qed.
Lemma lookup_read_bytes n a m i :
  (i < n)%nat -> read_bytes n a m !! i = Some (mget m (a + Z.of_nat i)).
Proof.
  revert a i. induction n as [|n IH]; intros a [|i] H; simpl; try lia.
  - by rewrite Z.add_0_r.
  - rewrite IH by lia. do 2 f_equal. lia.
Qed.
Lemma load_le_value n a m : load_le n a m = le_value (read_bytes n a m).
Proof. revert a. induction n; intros; simpl; congruence. Qed.

Lemma mget_write_bytes_out l a m i :
  i < a \/ a + Z.of_nat (length l) <= i -> mget (write_bytes l a m) i = mget m i.
Proof.
  revert a m. induction l as [|b l IH]; intros a m H; [done|].
  cbn [write_bytes length] in *. rewrite IH by lia. apply mget_mput_ne. lia.
Qed.
Lemma mget_write_bytes_in l a m i b :
  l !! i = Some b -> mget (write_bytes l a m) (a + Z.of_nat i) = u8 b.
Proof.
  revert a m i. induction l as [|c l IH]; intros a m i H; [done|].
  cbn [write_bytes]. destruct i as [|i]; simplify_eq/=.
  - rewrite Z.add_0_r, mget_write_bytes_out by lia. apply mget_mput_eq.
  - replace (a + Z.of_nat (S i)) with (a + 1 + Z.of_nat i) by lia. by apply IH.
Qed.

#[global] Arguments load_le : simpl never.
#[global] Arguments store_le : simpl never.
#[global] Arguments load64 : simpl never.
#[global] Arguments load32 : simpl never.
#[global] Arguments load16 : simpl never.
#[global] Arguments store64 : simpl never.
#[global] Arguments store32 : simpl never.
#[global] Arguments mget : simpl never.
#[global] Arguments mput : simpl never.
#[export] Hint Resolve mget_range load64_range load32_range load16_range : kernel.
