(* ===== verification/State.v ===== *)
(** * The kernel state

    The C types of kernel/include and the static variables of the kernel's
    translation units, the processor registers the assembly touches, and the
    parameters of the model: what the Limine boot loader, the linker and the
    devices provide ([Platform]).  Every operation of the development is a
    computation on the one record [kstate]. *)
From S2P Require Import Prelude Memory.

(** ** thread.h *)

Inductive ThreadState := THREAD_RUNNING | THREAD_BLOCKED | THREAD_DEAD.
#[global] Instance ThreadState_eq_dec : EqDecision ThreadState.
Proof. solve_decision. Defined.

(** Pointers into the static arrays [threads], [ports] and [message_pool] are
    indices; [NULL] is [None]. *)
Record Message := mkMessage {
  msg_id : Z;
  msg_data : list Z;
  msg_next : option nat;
}.

Record Port := mkPort {
  queue_head : option nat;
  queue_tail : option nat;
  message_count : Z;
  blocked_thread : option nat;
}.

Record Thread := mkThread {
  t_rsp : Z;
  t_state : ThreadState;
  waiting_on_port : option nat;
  t_next : option nat;
  kernel_rsp : Z;
  user_rsp : Z;
  is_user_mode : Z;
}.

(** The static variables of thread.c (the stacks are in memory). *)
Record sched_vars := mkSched {
  current : option nat;
  thread_list : option nat;
  threads : list Thread;
  thread_count : Z;
  ports : list Port;
  port_count : Z;
  message_pool : list Message;
  message_pool_next : Z;
}.

(** ** gdt.h *)

Record gdt_entry_t := mkGdtEntry {
  limit_low : Z;
  base_low : Z;
  base_mid : Z;
  access : Z;
  granularity : Z;
  base_high : Z;
}.

Record tss_t := mkTss {
  tss_reserved0 : Z;
  rsp0 : Z; rsp1 : Z; rsp2 : Z;
  tss_reserved1 : Z;
  ist1 : Z; ist2 : Z; ist3 : Z; ist4 : Z; ist5 : Z; ist6 : Z; ist7 : Z;
  tss_reserved2 : Z;
  tss_reserved3 : Z;
  iomap_base : Z;
}.

(** [gdt_ptr_t] and [idt_ptr_t]: the operand of lgdt and lidt. *)
Record table_ptr := mkTablePtr { ptr_limit : Z; ptr_base : Z }.

Record gdt_vars := mkGdtVars {
  gdt : list gdt_entry_t;
  gdt_pointer : table_ptr;
  tss : tss_t;
}.

(** ** idt.h *)

Record idt_entry_t := mkIdtEntry {
  offset_low : Z;
  selector : Z;
  ist : Z;
  type_attr : Z;
  offset_mid : Z;
  offset_high : Z;
  idt_reserved : Z;
}.

Record idt_vars := mkIdtVars { idt : list idt_entry_t; idt_pointer : table_ptr }.

(** ** pit.c, pmm.c, vmm.c, ext2.c *)

Record pit_vars := mkPit { pit_ticks : Z; pit_frequency : Z }.

Record pmm_vars := mkPmm {
  page_stack : gmap Z Z;
  page_stack_top : Z;
  total_pages : Z;
  free_pages : Z;
}.

Record address_space_t := mkAs { pml4 : Z; cr3_value : Z }.

(** [sb] holds the raw bytes of the superblock; its fields are read at the
    offsets of the packed struct. *)
Record ext2_vars := mkExt2 {
  sb : list Z;
  group_desc : Z;
  block_size : Z;
  ext2_ready : Z;
}.

(** ** The processor *)

Inductive reg :=
  RAX | RBX | RCX | RDX | RSI | RDI | RBP | RSP
| R8 | R9 | R10 | R11 | R12 | R13 | R14 | R15
| RIP | RFLAGS | CS | SS | DS | ES | FS | GS | TR | CR2 | CR3
| GDTR_LIMIT | GDTR_BASE | IDTR_LIMIT | IDTR_BASE.
#[global] Instance reg_eq_dec : EqDecision reg.
Proof. solve_decision. Defined.

Definition regs := reg -> Z.
Definition rset (r : reg) (v : Z) (f : regs) : regs :=
  fun r' => if decide (r = r') then v else f r'.

(** ** Observable behaviour *)

(** Port input and output, oldest first. *)
Inductive ioevent :=
| In8 (port v : Z) | Out8 (port v : Z)
| In16 (port v : Z) | Out16 (port v : Z).

(** Calls of the serial console: what was printed, oldest first. *)
Inductive conevent :=
| CPrint (s : list Z)
| CHex (v : Z)
| CDec (v : Z).

(** ** What the boot loader, the linker and the devices provide *)

Record memmap_entry := mkMemmap { mm_base : Z; mm_length : Z; mm_type : Z }.
Record framebuffer := mkFb { fb_width : Z; fb_height : Z; fb_bpp : Z; fb_address : Z }.
Record lim_file := mkFile { file_path : list Z; file_size : Z; file_address : Z }.

Class Platform := {
  (** Limine: the value of the "usable" memory-map type and the responses to
      the requests of limine.c ([None]: the response pointer is NULL). *)
  LIMINE_MEMMAP_USABLE : Z;
  lim_memmap : option (list memmap_entry);
  lim_hhdm : option Z;
  lim_executable : option (Z * Z);
  lim_framebuffers : option (list framebuffer);
  lim_modules : option (list lim_file);
  (** The mappings Limine leaves active: the byte of memory a kernel pointer
      designates. *)
  kmap : Z -> Z;
  (** Devices: the value an input instruction reads from a port, given all port
      input and output so far. *)
  dev_inb : list ioevent -> Z -> Z;
  dev_inw : list ioevent -> Z -> Z;
  (** Link-time addresses. *)
  sym_stacks : Z;
  sym_gdt : Z;
  sym_tss : Z;
  sym_idt : Z;
  sym_isr_stub : Z -> Z;
  sym_syscall_entry_asm : Z;
  sym_usermode_trampoline : Z;
  (** The return addresses of the calls of context_switch in thread_yield and
      in scheduler_start. *)
  sym_yield_return : Z;
  sym_start_return : Z;
  (** The return address of the call of jump_to_usermode in usermode_trampoline. *)
  sym_trampoline_return : Z;
}.

(** ** The state of the whole kernel *)

Record kstate := mkK {
  k_con : list conevent; (* console output *)
  k_io : list ioevent; (* port I/O, the console apart *)
  k_mem : gmap Z Z; (* physical memory and the kernel image *)
  k_regs : regs; (* processor registers *)
  k_if : bool; (* the interrupt flag of RFLAGS *)
  k_flush : list Z; (* addresses given to invlpg *)
  hhdm_offset : Z; (* limine.c *)
  k_pmm : pmm_vars; (* pmm.c *)
  kernel_address_space : address_space_t; (* vmm.c *)
  k_gdt : gdt_vars; (* gdt.c *)
  k_idt : idt_vars; (* idt.c *)
  k_pit : pit_vars; (* pit.c *)
  k_sched : sched_vars; (* thread.c *)
  k_ext2 : ext2_vars; (* ext2.c *)
  test_port : option nat; (* main.c *)
}.

Definition set_con (f : list conevent -> list conevent) (s : kstate) : kstate :=
  mkK (f (k_con s)) (k_io s) (k_mem s) (k_regs s) (k_if s) (k_flush s)
    (hhdm_offset s) (k_pmm s) (kernel_address_space s) (k_gdt s)
    (k_idt s) (k_pit s) (k_sched s) (k_ext2 s) (test_port s).
Definition set_io (f : list ioevent -> list ioevent) (s : kstate) : kstate :=
  mkK (k_con s) (f (k_io s)) (k_mem s) (k_regs s) (k_if s) (k_flush s)
    (hhdm_offset s) (k_pmm s) (kernel_address_space s) (k_gdt s)
    (k_idt s) (k_pit s) (k_sched s) (k_ext2 s) (test_port s).
Definition set_mem (f : gmap Z Z -> gmap Z Z) (s : kstate) : kstate :=
  mkK (k_con s) (k_io s) (f (k_mem s)) (k_regs s) (k_if s) (k_flush s)
    (hhdm_offset s) (k_pmm s) (kernel_address_space s) (k_gdt s)
    (k_idt s) (k_pit s) (k_sched s) (k_ext2 s) (test_port s).
Definition set_regs (f : regs -> regs) (s : kstate) : kstate :=
  mkK (k_con s) (k_io s) (k_mem s) (f (k_regs s)) (k_if s) (k_flush s)
    (hhdm_offset s) (k_pmm s) (kernel_address_space s) (k_gdt s)
    (k_idt s) (k_pit s) (k_sched s) (k_ext2 s) (test_port s).
Definition set_if (f : bool -> bool) (s : kstate) : kstate :=
  mkK (k_con s) (k_io s) (k_mem s) (k_regs s) (f (k_if s)) (k_flush s)
    (hhdm_offset s) (k_pmm s) (kernel_address_space s) (k_gdt s)
    (k_idt s) (k_pit s) (k_sched s) (k_ext2 s) (test_port s).
Definition set_flush (f : list Z -> list Z) (s : kstate) : kstate :=
  mkK (k_con s) (k_io s) (k_mem s) (k_regs s) (k_if s) (f (k_flush s))
    (hhdm_offset s) (k_pmm s) (kernel_address_space s) (k_gdt s)
    (k_idt s) (k_pit s) (k_sched s) (k_ext2 s) (test_port s).
Definition set_hhdm_offset (f : Z -> Z) (s : kstate) : kstate :=
  mkK (k_con s) (k_io s) (k_mem s) (k_regs s) (k_if s) (k_flush s)
    (f (hhdm_offset s)) (k_pmm s) (kernel_address_space s) (k_gdt s)
    (k_idt s) (k_pit s) (k_sched s) (k_ext2 s) (test_port s).
Definition set_pmm (f : pmm_vars -> pmm_vars) (s : kstate) : kstate :=
  mkK (k_con s) (k_io s) (k_mem s) (k_regs s) (k_if s) (k_flush s)
    (hhdm_offset s) (f (k_pmm s)) (kernel_address_space s) (k_gdt s)
    (k_idt s) (k_pit s) (k_sched s) (k_ext2 s) (test_port s).
Definition set_kernel_address_space (f : address_space_t -> address_space_t) (s : kstate) : kstate :=
  mkK (k_con s) (k_io s) (k_mem s) (k_regs s) (k_if s) (k_flush s)
    (hhdm_offset s) (k_pmm s) (f (kernel_address_space s)) (k_gdt s)
    (k_idt s) (k_pit s) (k_sched s) (k_ext2 s) (test_port s).
Definition set_gdt (f : gdt_vars -> gdt_vars) (s : kstate) : kstate :=
  mkK (k_con s) (k_io s) (k_mem s) (k_regs s) (k_if s) (k_flush s)
    (hhdm_offset s) (k_pmm s) (kernel_address_space s) (f (k_gdt s))
    (k_idt s) (k_pit s) (k_sched s) (k_ext2 s) (test_port s).
Definition set_idt (f : idt_vars -> idt_vars) (s : kstate) : kstate :=
  mkK (k_con s) (k_io s) (k_mem s) (k_regs s) (k_if s) (k_flush s)
    (hhdm_offset s) (k_pmm s) (kernel_address_space s) (k_gdt s)
    (f (k_idt s)) (k_pit s) (k_sched s) (k_ext2 s) (test_port s).
Definition set_pit (f : pit_vars -> pit_vars) (s : kstate) : kstate :=
  mkK (k_con s) (k_io s) (k_mem s) (k_regs s) (k_if s) (k_flush s)
    (hhdm_offset s) (k_pmm s) (kernel_address_space s) (k_gdt s)
    (k_idt s) (f (k_pit s)) (k_sched s) (k_ext2 s) (test_port s).
Definition set_sched (f : sched_vars -> sched_vars) (s : kstate) : kstate :=
  mkK (k_con s) (k_io s) (k_mem s) (k_regs s) (k_if s) (k_flush s)
    (hhdm_offset s) (k_pmm s) (kernel_address_space s) (k_gdt s)
    (k_idt s) (k_pit s) (f (k_sched s)) (k_ext2 s) (test_port s).
Definition set_ext2 (f : ext2_vars -> ext2_vars) (s : kstate) : kstate :=
  mkK (k_con s) (k_io s) (k_mem s) (k_regs s) (k_if s) (k_flush s)
    (hhdm_offset s) (k_pmm s) (kernel_address_space s) (k_gdt s)
    (k_idt s) (k_pit s) (k_sched s) (f (k_ext2 s)) (test_port s).
Definition set_test_port (f : option nat -> option nat) (s : kstate) : kstate :=
  mkK (k_con s) (k_io s) (k_mem s) (k_regs s) (k_if s) (k_flush s)
    (hhdm_offset s) (k_pmm s) (kernel_address_space s) (k_gdt s)
    (k_idt s) (k_pit s) (k_sched s) (k_ext2 s) (f (test_port s)).

(** Setters of the nested records. *)
Definition with_state (st : ThreadState) (t : Thread) : Thread :=
  mkThread (t_rsp t) st (waiting_on_port t) (t_next t) (kernel_rsp t) (user_rsp t)
    (is_user_mode t).
Definition with_waiting (p : option nat) (t : Thread) : Thread :=
  mkThread (t_rsp t) (t_state t) p (t_next t) (kernel_rsp t) (user_rsp t) (is_user_mode t).
Definition with_next (n : option nat) (t : Thread) : Thread :=
  mkThread (t_rsp t) (t_state t) (waiting_on_port t) n (kernel_rsp t) (user_rsp t)
    (is_user_mode t).
Definition with_rsp (v : Z) (t : Thread) : Thread :=
  mkThread v (t_state t) (waiting_on_port t) (t_next t) (kernel_rsp t) (user_rsp t)
    (is_user_mode t).

Definition with_blocked (t : option nat) (p : Port) : Port :=
  mkPort (queue_head p) (queue_tail p) (message_count p) t.
Definition with_msg_next (n : option nat) (m : Message) : Message :=
  mkMessage (msg_id m) (msg_data m) n.

Definition with_current (c : option nat) (v : sched_vars) : sched_vars :=
  mkSched c (thread_list v) (threads v) (thread_count v) (ports v) (port_count v)
    (message_pool v) (message_pool_next v).
Definition with_thread_list (l : option nat) (v : sched_vars) : sched_vars :=
  mkSched (current v) l (threads v) (thread_count v) (ports v) (port_count v)
    (message_pool v) (message_pool_next v).
Definition with_threads (f : list Thread -> list Thread) (v : sched_vars) : sched_vars :=
  mkSched (current v) (thread_list v) (f (threads v)) (thread_count v) (ports v)
    (port_count v) (message_pool v) (message_pool_next v).
Definition with_thread_count (c : Z) (v : sched_vars) : sched_vars :=
  mkSched (current v) (thread_list v) (threads v) c (ports v) (port_count v)
    (message_pool v) (message_pool_next v).
Definition with_ports (f : list Port -> list Port) (v : sched_vars) : sched_vars :=
  mkSched (current v) (thread_list v) (threads v) (thread_count v) (f (ports v))
    (port_count v) (message_pool v) (message_pool_next v).
Definition with_port_count (c : Z) (v : sched_vars) : sched_vars :=
  mkSched (current v) (thread_list v) (threads v) (thread_count v) (ports v) c
    (message_pool v) (message_pool_next v).
Definition with_pool (f : list Message -> list Message) (v : sched_vars) : sched_vars :=
  mkSched (current v) (thread_list v) (threads v) (thread_count v) (ports v)
    (port_count v) (f (message_pool v)) (message_pool_next v).
Definition with_pool_next (c : Z) (v : sched_vars) : sched_vars :=
  mkSched (current v) (thread_list v) (threads v) (thread_count v) (ports v)
    (port_count v) (message_pool v) c.

Definition with_rsp0 (v : Z) (t : tss_t) : tss_t :=
  mkTss (tss_reserved0 t) v (rsp1 t) (rsp2 t) (tss_reserved1 t) (ist1 t) (ist2 t)
    (ist3 t) (ist4 t) (ist5 t) (ist6 t) (ist7 t) (tss_reserved2 t) (tss_reserved3 t)
    (iomap_base t).
Definition with_iomap_base (v : Z) (t : tss_t) : tss_t :=
  mkTss (tss_reserved0 t) (rsp0 t) (rsp1 t) (rsp2 t) (tss_reserved1 t) (ist1 t) (ist2 t)
    (ist3 t) (ist4 t) (ist5 t) (ist6 t) (ist7 t) (tss_reserved2 t) (tss_reserved3 t) v.

(** ** Primitive effects *)

Abbreviation K := (M kstate).

(** A call of serial_print, serial_print_hex or serial_print_dec as the other
    components see it (Serial.v relates the calls to the bytes on the wire); [kprintln] is the
    call on a literal that ends in a newline. *)
Definition con (e : conevent) : K unit := modify (set_con (fun l => l ++ [e])).
Definition kprint (m : string) : K unit := con (CPrint (str m)).
Definition kprintln (m : string) : K unit := con (CPrint (str m ++ [10])).
Definition kprint_bytes (l : list Z) : K unit := con (CPrint l).
Definition kprint_hex (v : Z) : K unit := con (CHex v).
Definition kprint_dec (v : Z) : K unit := con (CDec v).

Definition getr (r : reg) : K Z := gets (fun s => k_regs s r).
Definition setr (r : reg) (v : Z) : K unit := modify (set_regs (rset r v)).

(** The state a computation ends in, and its result. *)
Definition run {A} (m : K A) (s : kstate) : kstate :=
  match m s with Ret _ s' | Halted s' | Fault _ s' | NoFuel s' => s' end.
Definition result {A} (m : K A) (s : kstate) (d : A) : A :=
  match m s with Ret a _ => a | _ => d end.

Section primitives.
Context {P : Platform}.

(** Memory through a kernel pointer. *)
Definition rd8 (v : Z) : K Z := gets (fun s => mget (k_mem s) (kmap v)).
Definition wr8 (v b : Z) : K unit := modify (set_mem (fun m => mput m (kmap v) b)).
Definition rd32 (v : Z) : K Z := gets (fun s => load32 (kmap v) (k_mem s)).
Definition wr32 (v w : Z) : K unit := modify (set_mem (store32 (kmap v) w)).
Definition rd64 (v : Z) : K Z := gets (fun s => load64 (kmap v) (k_mem s)).
Definition wr64 (v w : Z) : K unit := modify (set_mem (store64 (kmap v) w)).

(** inb, outb and their 16-bit forms. *)
Definition inb (port : Z) : K Z := fun s =>
  let v := u8 (dev_inb (k_io s) port) in
  Ret v (set_io (fun l => l ++ [In8 port v]) s).
Definition inw (port : Z) : K Z := fun s =>
  let v := u16 (dev_inw (k_io s) port) in
  Ret v (set_io (fun l => l ++ [In16 port v]) s).
Definition outb (port v : Z) : K unit :=
  modify (set_io (fun l => l ++ [Out8 port (u8 v)])).
Definition outw (port v : Z) : K unit :=
  modify (set_io (fun l => l ++ [Out16 port (u16 v)])).
End primitives.

(** Running through a sequence of console calls. *)
Definition printed (L : list conevent) (s : kstate) : kstate := set_con (fun l => l ++ L) s.

Lemma printed_nil s : printed [] s = s.
Proof. destruct s. unfold printed, set_con. cbn. by rewrite app_nil_r. Qed.
Lemma printed_app L L' s : printed L' (printed L s) = printed (L ++ L') s.
Proof. destruct s. unfold printed, set_con. cbn. by rewrite app_assoc. Qed.
Lemma con_run {A} e (k : K A) L s : (con e ;;; k) (printed L s) = k (printed (L ++ [e]) s).
Proof. rewrite <- printed_app. done. Qed.
Lemma con_printed e s : con e s = Ret tt (printed [e] s).
Proof. done. Qed.

(** ** The state at power-on: zero-initialised statics *)

Definition null_thread : Thread := mkThread 0 THREAD_RUNNING None None 0 0 0.
Definition null_port : Port := mkPort None None 0 None.
Definition null_message : Message := mkMessage 0 [0; 0; 0; 0] None.
Definition null_gdt_entry : gdt_entry_t := mkGdtEntry 0 0 0 0 0 0.
Definition null_tss : tss_t := mkTss 0 0 0 0 0 0 0 0 0 0 0 0 0 0 0.
Definition null_idt_entry : idt_entry_t := mkIdtEntry 0 0 0 0 0 0 0.

Definition sched_bss : sched_vars :=
  mkSched None None (replicate 8 null_thread) 0 (replicate 16 null_port) 0
    (replicate 64 null_message) 0.

Definition power_on (mem : gmap Z Z) (r : regs) : kstate :=
  mkK [] [] mem r false [] 0 (mkPmm ∅ 0 0 0) (mkAs 0 0)
    (mkGdtVars (replicate 7 null_gdt_entry) (mkTablePtr 0 0) null_tss)
    (mkIdtVars (replicate 256 null_idt_entry) (mkTablePtr 0 0))
    (mkPit 0 0) sched_bss (mkExt2 (replicate 1024 0) 0 0 0) None.
