(* ===== verification/Demo.v ===== *)
(** * A concrete platform

    One machine on which the parameters of the model take concrete values: a
    memory map of two usable regions around a reserved one, the direct map at
    0xFFFF800000000000 and the identity map below it, a UART whose transmitter
    is always empty.  The theorems are applied to it to show that their
    hypotheses can be met. *)
From S2P Require Import Prelude Memory State.

Definition demo_hhdm : Z := 0xFFFF800000000000.

Definition demo_memmap : list memmap_entry :=
  [mkMemmap 0 0x14000 0; mkMemmap 0x14000 0xEC000 1; mkMemmap 0x100000 0x10000 0].

Definition demo_kmap (v : Z) : Z :=
  if (demo_hhdm <=? v) && (v <? demo_hhdm + 0x100000000000) then v - demo_hhdm else v.

#[export] Instance demo : Platform := {|
  LIMINE_MEMMAP_USABLE := 0;
  lim_memmap := Some demo_memmap;
  lim_hhdm := Some demo_hhdm;
  lim_executable := Some (0x7E00000, 0xFFFFFFFF80000000);
  lim_framebuffers := None;
  lim_modules := None;
  kmap := demo_kmap;
  dev_inb := fun _ _ => 0x60;
  dev_inw := fun _ _ => 0;
  sym_stacks := 0xFFFFFFFF80010000;
  sym_gdt := 0xFFFFFFFF80020000;
  sym_tss := 0xFFFFFFFF80021000;
  sym_idt := 0xFFFFFFFF80022000;
  sym_isr_stub := fun i => 0xFFFFFFFF80001000 + 16 * i;
  sym_syscall_entry_asm := 0xFFFFFFFF80002000;
  sym_usermode_trampoline := 0xFFFFFFFF80003000;
  sym_yield_return := 0xFFFFFFFF80004000;
  sym_start_return := 0xFFFFFFFF80005000;
  sym_trampoline_return := 0xFFFFFFFF8000300B;
|}.

(** The machine when kernel_main starts, with the direct map known. *)
Definition demo_boot : kstate :=
  set_hhdm_offset (fun _ => demo_hhdm) (power_on ∅ (fun _ => 0)).
