(* ===== verification/Serial.v ===== *)
(** * The serial console (kernel/serial.c)

    The operations of serial.c on the port input and output of the UART, and
    the relation between the console calls of the other components and the
    bytes that reach the transmitter. *)
From S2P Require Import Prelude Memory State Demo.

Section serial.
Context {P : Platform}.

Definition COM1 : Z := 0x3F8.

Definition serial_init : K unit :=
  outb (COM1 + 1) 0x00 ;;;
  outb (COM1 + 3) 0x80 ;;;
  outb (COM1 + 0) 0x03 ;;;
  outb (COM1 + 1) 0x00 ;;;
  outb (COM1 + 3) 0x03 ;;;
  outb (COM1 + 2) 0xC7 ;;;
  outb (COM1 + 4) 0x0B ;;;
  outb (COM1 + 4) 0x1E ;;;
  outb (COM1 + 0) 0xAE ;;;
  v <- inb (COM1 + 0) ;;
  if negb (v =? 0xAE) then ret tt
  else outb (COM1 + 4) 0x0F.

Definition serial_is_transmit_empty : K Z :=
  v <- inb (COM1 + 5) ;; ret (Z.land v 0x20).

(** The busy-wait has no bound of its own: [fuel] is the number of polls. *)
Fixpoint serial_putc (fuel : nat) (c : Z) : K unit :=
  match fuel with
  | O => starve
  | S fuel =>
      e <- serial_is_transmit_empty ;;
      if truthy e then outb COM1 c else serial_putc fuel c
  end.

(** [l] is the string in memory; a NUL byte, or the end of a literal, ends it. *)
Fixpoint serial_print (fuel : nat) (l : list Z) : K unit :=
  match l with
  | [] => ret tt
  | c :: l => if truthy c then serial_putc fuel c ;;; serial_print fuel l else ret tt
  end.

Definition hex_chars : list Z := str "0123456789ABCFEF".

(** The loop of serial_print_hex; the buffer is filled from its last cell. *)
Fixpoint hex_buffer (n : nat) (value : Z) (buffer : list Z) : list Z :=
  match n with
  | O => buffer
  | S n =>
      hex_buffer n (Z.shiftr value 4)
        (nth (Z.to_nat (Z.land value 0xF)) hex_chars 0 :: buffer)
  end.

Definition serial_print_hex (fuel : nat) (value : Z) : K unit :=
  let buffer := hex_buffer 16 value [] in
  serial_print fuel (str "0x") ;;; serial_print fuel buffer.

(** The loop of serial_print_dec: [i] cells of the buffer are still free. *)
Fixpoint dec_buffer (i : nat) (value : Z) (buffer : list Z) : list Z :=
  match i with
  | O => buffer
  | S i =>
      if value >? 0 then dec_buffer i (value / 10) (48 + value mod 10 :: buffer)
      else buffer
  end.

Definition serial_print_dec (fuel : nat) (value : Z) : K unit :=
  if value =? 0 then serial_putc fuel 48
  else serial_print fuel (dec_buffer 20 value []).

(** A console call carried out on the UART. *)
Definition emit (fuel : nat) (e : conevent) : K unit :=
  match e with
  | CPrint l => serial_print fuel l
  | CHex v => serial_print_hex fuel v
  | CDec v => serial_print_dec fuel v
  end.

Fixpoint emit_all (fuel : nat) (l : list conevent) : K unit :=
  match l with [] => ret tt | e :: l => emit fuel e ;;; emit_all fuel l end.
End serial.

(** ** What a console call should put on the wire *)

(** The bytes of a C string: up to the first NUL. *)
Fixpoint cstr (l : list Z) : list Z :=
  match l with
  | [] => []
  | c :: l => if c =? 0 then [] else c :: cstr l
  end.

(** The character of a hexadecimal digit; the table of the code has F for 13. *)
Definition hex_char (d : Z) : Z := if d =? 13 then 70 else if d <? 10 then 48 + d else 55 + d.

(** The value of a string of decimal digits. *)
Definition dec_value (l : list Z) : Z := fold_left (fun acc c => acc * 10 + (c - 48)) l 0.

(** [l] is the decimal representation of [v], without leading zeros. *)
Definition decimal (v : Z) (l : list Z) : Prop :=
  Forall (fun c => 48 <= c < 58) l /\ dec_value l = v /\ (if v =? 0 then l = [48] else head l <> Some 48).

(** [l] is what the console should show for a call: a string up to its NUL, the
    sixteen hexadecimal digits of a value, its decimal representation. *)
Definition renders (e : conevent) (l : list Z) : Prop :=
  match e with
  | CPrint t => l = cstr t
  | CHex v => l = [48; 120] ++ ((fun i => hex_char (v / 16 ^ (15 - i) mod 16)) <$> seqZ 0 16)
  | CDec v => decimal v l
  end.

(** What the loops of the code compute. *)
Definition render (e : conevent) : list Z :=
  match e with
  | CPrint l => cstr l
  | CHex v => str "0x" ++ hex_buffer 16 v []
  | CDec v => if v =? 0 then [48] else dec_buffer 20 v []
  end.

(** The bytes written to the transmit register. *)
Definition transmitted (tr : list ioevent) : list Z :=
  omap (fun e => match e with Out8 p v => if p =? COM1 then Some v else None | _ => None end) tr.

(** A reader of hexadecimal numbers. *)
Definition hex_digit_value (c : Z) : Z := if c <? 58 then c - 48 else c - 55.
Definition hex_value (l : list Z) : Z :=
  fold_left (fun acc c => acc * 16 + hex_digit_value c) l 0.

(** The UART drains: whatever happened before, the transmitter-empty bit is set
    at the latest after [k] polls of the line status register. *)
Fixpoint polled {P : Platform} (tr : list ioevent) (n : nat) : list ioevent :=
  match n with
  | O => tr
  | S n => polled (tr ++ [In8 (COM1 + 5) (u8 (dev_inb tr (COM1 + 5)))]) n
  end.
Definition tx_drains {P : Platform} (k : nat) : Prop :=
  forall tr, exists n, (n < k)%nat /\
    truthy (Z.land (u8 (dev_inb (polled tr n) (COM1 + 5))) 0x20) = true.

(** ** Lemmas *)

Lemma transmitted_app l1 l2 : transmitted (l1 ++ l2) = transmitted l1 ++ transmitted l2.
Proof. apply omap_app. Qed.

(** *** Digits *)

Lemma cstr_id l : Forall (fun c => 0 < c < 256) l -> cstr l = l.
Proof.
  induction 1 as [|c l Hc Hl IH]; simpl; [done|].
  destruct (Z.eqb_spec c 0); [lia|]. by rewrite IH.
Qed.

Lemma hex_chars_at d : 0 <= d < 16 ->
  nth (Z.to_nat d) hex_chars 0 = hex_char d.
Proof.
  intros Hd. assert (Hin : d ∈ seqZ 0 16) by (apply elem_of_seqZ; lia).
  clear Hd. revert d Hin. apply Forall_forall. by repeat constructor.
Qed.

Lemma land_15 v : Z.land v 15 = v mod 16.
Proof. change 15 with (Z.ones 4). by rewrite Z.land_ones. Qed.

Lemma hex_buffer_range n v acc :
  Forall (fun c => 0 < c < 256) acc -> Forall (fun c => 0 < c < 256) (hex_buffer n v acc).
Proof.
  revert v acc. induction n as [|n IH]; intros v acc Ha; cbn [hex_buffer]; [done|].
  apply IH. constructor; [|done]. rewrite land_15, hex_chars_at by zlia.
  unfold hex_char. case_match; [lia|]. case_match; zlia.
Qed.

Lemma dec_buffer_range i v acc :
  0 <= v -> Forall (fun c => 48 <= c < 58) acc ->
  Forall (fun c => 48 <= c < 58) (dec_buffer i v acc).
Proof.
  revert v acc. induction i as [|i IH]; intros v acc Hv Ha; cbn [dec_buffer]; [done|].
  case_match; [|done]. apply IH; [zlia|]. constructor; [zlia|done].
Qed.

Lemma hex_value_app l c : hex_value (l ++ [c]) = hex_value l * 16 + hex_digit_value c.
Proof. unfold hex_value. by rewrite fold_left_app. Qed.
Lemma dec_value_app l c : dec_value (l ++ [c]) = dec_value l * 10 + (c - 48).
Proof. unfold dec_value. by rewrite fold_left_app. Qed.

(** The digits produced from [v], most significant first, without accumulator. *)
Lemma hex_buffer_acc n v acc : hex_buffer n v acc = hex_buffer n v [] ++ acc.
Proof.
  revert v acc. induction n as [|n IH]; intros v acc; cbn [hex_buffer]; [done|].
  rewrite IH, (IH _ [_]), <- app_assoc. done.
Qed.
Lemma dec_buffer_acc i v acc : dec_buffer i v acc = dec_buffer i v [] ++ acc.
Proof.
  revert v acc. induction i as [|i IH]; intros v acc; cbn [dec_buffer]; [done|].
  case_match; [|done]. rewrite IH, (IH _ [_]), <- app_assoc. done.
Qed.

(** No hexadecimal digit of [v] is 13. *)
Definition no_hex_d (n : nat) (v : Z) : Prop :=
  forall i, 0 <= i < Z.of_nat n -> Z.shiftr v (4 * i) mod 16 <> 13.

Lemma hex_buffer_value n v :
  0 <= v < 16 ^ Z.of_nat n -> no_hex_d n v -> hex_value (hex_buffer n v []) = v.
Proof.
  revert v. induction n as [|n IH]; intros v Hv Hd; cbn [hex_buffer]; [change (16 ^ Z.of_nat 0) with 1 in Hv; cbv; lia|].
  rewrite hex_buffer_acc, hex_value_app, land_15, hex_chars_at by zlia.
  pose proof (Hd 0 ltac:(lia)) as H0. rewrite Z.mul_0_r, Z.shiftr_0_r in H0.
  rewrite Nat2Z.inj_succ, Z.pow_succ_r in Hv by lia.
  rewrite Z.shiftr_div_pow2 by lia. rewrite IH.
  - unfold hex_digit_value, hex_char. destruct (Z.eqb_spec (v mod 16) 13); [lia|].
    case_match; case_match; zlia.
  - change (2 ^ 4) with 16. zlia.
  - intros i Hi. specialize (Hd (i + 1) ltac:(lia)).
    rewrite <- Z.shiftr_div_pow2, Z.shiftr_shiftr by lia.
    by replace (4 + 4 * i) with (4 * (i + 1)) by lia.
Qed.

Lemma dec_buffer_value i v :
  0 <= v < 10 ^ Z.of_nat i -> dec_value (dec_buffer i v []) = v.
Proof.
  revert v. induction i as [|i IH]; intros v Hv; cbn [dec_buffer]; [change (10 ^ Z.of_nat 0) with 1 in Hv; cbv; lia|].
  rewrite Nat2Z.inj_succ, Z.pow_succ_r in Hv by lia.
  destruct (Z.gtb_spec v 0); [|cbv; lia].
  rewrite dec_buffer_acc, dec_value_app, IH by zlia. zlia.
Qed.

(** *** Representations *)

Lemma hex_buffer_digits n v : 0 <= v ->
  hex_buffer n v [] = (fun i => hex_char (v / 16 ^ (Z.of_nat n - 1 - i) mod 16)) <$> seqZ 0 (Z.of_nat n).
Proof.
  revert v. induction n as [|n IH]; intros v Hv; [done|]. cbn [hex_buffer].
  rewrite hex_buffer_acc, land_15, hex_chars_at, Z.shiftr_div_pow2 by zlia. change (2 ^ 4) with 16.
  rewrite IH by zlia. replace (Z.of_nat (S n)) with (Z.of_nat n + 1) by lia.
  rewrite seqZ_app, fmap_app by lia. f_equal.
  - apply list_fmap_ext. intros j i Hi. apply lookup_seqZ in Hi as [-> Hj]. f_equal.
    replace (Z.of_nat n + 1 - 1 - (0 + Z.of_nat j)) with (1 + (Z.of_nat n - 1 - (0 + Z.of_nat j))) by lia.
    rewrite Z.pow_add_r, Z.div_div by lia. done.
  - unfold seqZ. change (Z.to_nat 1) with 1%nat. cbn [seq fmap list_fmap].
    replace (Z.of_nat n + 1 - 1 - _) with 0 by lia. by rewrite Z.pow_0_r, Z.div_1_r.
Qed.

Lemma dec_buffer_head i v : 0 < v < 10 ^ Z.of_nat i -> head (dec_buffer i v []) <> Some 48.
Proof.
  revert v. induction i as [|i IH]; intros v Hv; [change (10 ^ Z.of_nat 0) with 1 in Hv; lia|].
  cbn [dec_buffer]. rewrite Nat2Z.inj_succ, Z.pow_succ_r in Hv by lia.
  destruct (Z.gtb_spec v 0); [|lia]. rewrite dec_buffer_acc.
  destruct (decide (v / 10 = 0)) as [E|E].
  - rewrite E. assert (dec_buffer i 0 [] = []) as -> by by destruct i. cbn. intros [= ?]. zlia.
  - specialize (IH (v / 10) ltac:(zlia)). destruct (dec_buffer i (v / 10) []) eqn:Ed; [|exact IH].
    pose proof (dec_buffer_value i (v / 10) ltac:(zlia)) as Hd. rewrite Ed in Hd. unfold dec_value in Hd. cbn [fold_left] in Hd. lia.
Qed.

Lemma dec_value_nonneg l : Forall (fun c => 48 <= c < 58) l -> 0 <= dec_value l.
Proof.
  induction l as [|c l IH] using rev_ind; intros H; [done|].
  apply Forall_app in H as [Hl [Hc _]%Forall_cons]. cbv beta in Hc. rewrite dec_value_app. specialize (IH Hl). lia.
Qed.
Lemma dec_value_pos l : Forall (fun c => 48 <= c < 58) l -> l <> [] -> head l <> Some 48 -> 0 < dec_value l.
Proof.
  induction l as [|c l IH] using rev_ind; intros H Hne Hh; [done|].
  apply Forall_app in H as [Hl [Hc _]%Forall_cons]. cbv beta in Hc. rewrite dec_value_app. destruct l as [|d l].
  - cbn in Hh. assert (c <> 48) by congruence. unfold dec_value. cbn [fold_left]. lia.
  - assert (0 < dec_value (d :: l)) by by apply IH. lia.
Qed.

(** A number has one representation without leading zeros. *)
Lemma digits_unique l1 l2 :
  Forall (fun c => 48 <= c < 58) l1 -> Forall (fun c => 48 <= c < 58) l2 ->
  head l1 <> Some 48 -> head l2 <> Some 48 -> dec_value l1 = dec_value l2 -> l1 = l2.
Proof.
  revert l2. induction l1 as [|c1 l1 IH] using rev_ind; intros l2 F1 F2 H1 H2 E.
  { destruct l2 as [|d l2]; [done|]. pose proof (dec_value_pos (d :: l2) F2 ltac:(done) H2) as Hp. rewrite <- E in Hp. by compute in Hp. }
  destruct l2 as [|c2 l2 _] using rev_ind.
  { pose proof (dec_value_pos (l1 ++ [c1]) F1 ltac:(by destruct l1) H1) as Hp. rewrite E in Hp. by compute in Hp. }
  rewrite !dec_value_app in E. apply Forall_app in F1 as [F1 [C1 _]%Forall_cons], F2 as [F2 [C2 _]%Forall_cons]. cbv beta in C1, C2.
  pose proof (dec_value_nonneg l1 F1). pose proof (dec_value_nonneg l2 F2).
  assert (c1 = c2) as -> by lia. f_equal. apply IH; [done|done|by destruct l1|by destruct l2|lia].
Qed.

#[global] Arguments hex_buffer : simpl never.
#[global] Arguments dec_buffer : simpl never.
#[global] Arguments hex_chars : simpl never.

Section proofs.
Context {P : Platform}.
Implicit Types s : kstate.

(** [sent s l s']: [s'] is [s] after the bytes [l] went out on COM1; only the
    port trace differs. *)
Definition sent s (l : list Z) s' : Prop :=
  exists io, s' = set_io (fun t => t ++ io) s /\ transmitted io = l.

Lemma sent_refl s : sent s [] s.
Proof. exists []. split; [|done]. destruct s. unfold set_io. simpl. by rewrite app_nil_r. Qed.
Lemma sent_trans s1 s2 s3 l1 l2 :
  sent s1 l1 s2 -> sent s2 l2 s3 -> sent s1 (l1 ++ l2) s3.
Proof.
  intros (io1 & -> & <-) (io2 & -> & <-). exists (io1 ++ io2). split.
  - unfold set_io. simpl. by rewrite app_assoc.
  - apply transmitted_app.
Qed.

Lemma serial_putc_fuel fuel c s n :
  (n < fuel)%nat -> 0 <= c < 256 ->
  truthy (Z.land (u8 (dev_inb (polled (k_io s) n) (COM1 + 5))) 0x20) = true ->
  wp (serial_putc fuel c) s (fun _ s' => sent s [c] s').
Proof.
  intros Hn Hc. revert s n Hn. induction fuel as [|fuel IH]; intros s n Hn Hr; [lia|].
  cbn [serial_putc]. unfold serial_is_transmit_empty.
  apply wp_bind. unfold wp, bind, inb at 1. cbn [ret].
  set (v := u8 (dev_inb (k_io s) (COM1 + 5))).
  set (s1 := set_io (fun l => l ++ [In8 (COM1 + 5) v]) s).
  assert (H1 : sent s [] s1) by (exists [In8 (COM1 + 5) v]; split; done).
  destruct (truthy (Z.land v 32)) eqn:E.
  - cbn. apply (sent_trans _ s1 _ [] [c]); [done|].
    exists [Out8 COM1 c]. split; [|done]. by rewrite u8_small.
  - destruct n as [|n]; [simpl in Hr; unfold v in E; congruence|].
    wp_call (IH s1 n); [lia|exact Hr|].
    intros _ s2 H2. apply (sent_trans s s1 s2 [] [c]); done.
Qed.

Context (k : nat) (Hdrain : tx_drains k).

Lemma serial_putc_sent c s :
  0 <= c < 256 -> wp (serial_putc k c) s (fun _ s' => sent s [c] s').
Proof.
  intros Hc. destruct (Hdrain (k_io s)) as (n & Hn & Hr).
  by eapply serial_putc_fuel.
Qed.

Lemma serial_print_sent l s :
  Forall (fun c => 0 <= c < 256) l ->
  wp (serial_print k l) s (fun _ s' => sent s (cstr l) s').
Proof.
  intros Hl. revert s. induction Hl as [|c l Hc Hl IH]; intros s; simpl.
  - apply wp_ret, sent_refl.
  - unfold truthy. destruct (c =? 0); simpl; [apply wp_ret, sent_refl|].
    apply wp_bind. wp_call serial_putc_sent; [done|]. intros _ s1 H1.
    wp_call IH. intros _ s2 H2. by apply (sent_trans s s1 s2 [c]).
Qed.

(** A console event whose text consists of bytes and whose numbers fit
    [uint64_t]. *)
Definition con_ok (e : conevent) : Prop :=
  match e with
  | CPrint l => Forall (fun c => 0 <= c < 256) l
  | CHex v | CDec v => 0 <= v < 18446744073709551616
  end.

Lemma emit_sent e s : con_ok e -> wp (emit k e) s (fun _ s' => sent s (render e) s').
Proof.
  destruct e as [l|v|v]; cbn [emit render con_ok]; intros Hv.
  - by apply serial_print_sent.
  - unfold serial_print_hex. apply wp_bind.
    wp_call serial_print_sent; [by repeat constructor|]. intros _ s1 H1.
    assert (Hx : Forall (fun c => 0 < c < 256) (hex_buffer 16 v [])) by by apply hex_buffer_range.
    wp_call serial_print_sent; [by eapply Forall_impl; [exact Hx|simpl; lia]|].
    intros _ s2 H2. rewrite cstr_id in H2 by done. by eapply sent_trans.
  - unfold serial_print_dec. case_match; [by apply serial_putc_sent|].
    assert (Hx : Forall (fun c => 48 <= c < 58) (dec_buffer 20 v []))
      by (apply dec_buffer_range; [lia|done]).
    wp_call serial_print_sent; [by eapply Forall_impl; [exact Hx|simpl; lia]|].
    intros _ s2 H2. rewrite cstr_id in H2; [done|].
    eapply Forall_impl; [exact Hx|simpl; lia].
Qed.

(** The loops compute the text, and it is the only one. *)
Lemma render_ok e : con_ok e -> renders e (render e).
Proof.
  destruct e as [l|v|v]; cbn [con_ok renders render]; intros Hv; [done| |].
  - rewrite (hex_buffer_digits 16) by lia. done.
  - unfold decimal. destruct (Z.eqb_spec v 0) as [->|Hne]; [by repeat constructor|].
    assert (0 < v < 10 ^ Z.of_nat 20) by (change (10 ^ Z.of_nat 20) with 100000000000000000000; lia).
    split_and!; [apply dec_buffer_range; [lia|done]|apply dec_buffer_value; lia|by apply dec_buffer_head].
Qed.
Lemma renders_unique e t1 t2 : renders e t1 -> renders e t2 -> t1 = t2.
Proof.
  destruct e as [l|v|v]; cbn [renders]; [by intros -> ->|by intros -> ->|].
  intros (F1 & V1 & H1) (F2 & V2 & H2). destruct (v =? 0); [by rewrite H1, H2|].
  apply digits_unique; congruence.
Qed.
Lemma renders_all l ts : Forall con_ok l -> Forall2 renders l ts -> ts = render <$> l.
Proof.
  intros Hl Ht. induction Ht as [|e t l ts He Ht IH]; [done|]. apply Forall_cons in Hl as [Hc Hl].
  cbn [fmap list_fmap]. f_equal; [|by apply IH]. eapply renders_unique; [exact He|by apply render_ok].
Qed.

Lemma emit_all_sent l s :
  Forall con_ok l -> wp (emit_all k l) s (fun _ s' => sent s (concat (render <$> l)) s').
Proof.
  intros Hl. revert s. induction Hl as [|e l He Hl IH]; intros s; simpl.
  - apply wp_ret, sent_refl.
  - apply wp_bind. wp_call emit_sent; [done|]. intros _ s1 H1.
    wp_call IH. intros _ s2 H2. by eapply sent_trans.
Qed.
End proofs.

(** ** Properties *)

(** C40: Console output is refined by the UART driver: if the transmitter drains
    within [k] polls, carrying out any sequence of console calls returns and puts
    exactly the text it stands for on the wire, in order, changing nothing but the
    port trace.  The text of a call is unique: a string up to its NUL, all sixteen
    hexadecimal digits of a value (with F for 13, as in the table of the code), and
    the decimal representation of a value without leading zeros. *)
Theorem console_refined {P : Platform} (k : nat) (l : list conevent) (s : kstate) :
  tx_drains k -> Forall con_ok l ->
  (exists ts, Forall2 renders l ts) /\
  forall ts, Forall2 renders l ts -> wp (emit_all k l) s (fun _ s' => sent s (concat ts) s').
Proof.
  intros Hd Hl. split.
  - exists (render <$> l). apply Forall2_fmap_r, Forall_Forall2_diag. by eapply Forall_impl; [exact Hl|apply render_ok].
  - intros ts Ht. rewrite (renders_all l ts Hl Ht). by apply emit_all_sent.
Qed.

Lemma demo_tx_drains : tx_drains 1.
Proof. intros tr. exists 0%nat. split; [lia|]. reflexivity. Qed.

Lemma console_refined_witness :
  wp (emit_all 1 [CPrint (str "Free: "); CDec 760; CHex 0x1D000]) demo_boot
    (fun _ s' => sent demo_boot (str "Free: 7600x000000000001F000") s').
Proof.
  refine (proj2 (console_refined 1 [CPrint (str "Free: "); CDec 760; CHex 0x1D000] demo_boot demo_tx_drains _)
    [str "Free: "; str "760"; str "0x000000000001F000"] _).
  - apply Forall_cons_2; [apply (bool_decide_unpack _); exact I|].
    apply Forall_cons_2; [cbn [con_ok]; lia|]. apply Forall_cons_2; [cbn [con_ok]; lia|apply Forall_nil_2].
  - apply Forall2_cons_2; [reflexivity|]. apply Forall2_cons_2; [|apply Forall2_cons_2; [reflexivity|apply Forall2_nil_2]].
    split_and!; [apply (bool_decide_unpack _); exact I|reflexivity|discriminate].
Defined.

(** serial_print_dec prints every 64-bit value in decimal: reading the digits
    back gives the value, and only digits are printed (the 21-byte buffer never
    truncates). *)
Theorem serial_print_dec_roundtrip (v : Z) :
  0 <= v < 18446744073709551616 ->
  dec_value (render (CDec v)) = v /\ Forall (fun c => 48 <= c < 58) (render (CDec v)).
Proof.
  intros Hv. unfold render. destruct (Z.eqb_spec v 0) as [->|]; [by repeat constructor|].
  split; [apply dec_buffer_value|apply dec_buffer_range; [lia|done]].
  change (10 ^ Z.of_nat 20) with 100000000000000000000. lia.
Qed.

Lemma serial_print_dec_roundtrip_witness :
  dec_value (render (CDec 18446744073709551615)) = 18446744073709551615 /\
  Forall (fun c => 48 <= c < 58) (render (CDec 18446744073709551615)).
Proof. apply serial_print_dec_roundtrip. lia. Defined.

(** serial_print_hex prints every 64-bit value without a digit 13 so that it
    reads back as that value. *)
Theorem serial_print_hex_roundtrip (v : Z) :
  0 <= v < 18446744073709551616 -> no_hex_d 16 v ->
  hex_value (drop 2 (render (CHex v))) = v.
Proof. intros Hv Hd. apply (hex_buffer_value 16); [exact Hv|exact Hd]. Qed.

Lemma serial_print_hex_roundtrip_witness :
  hex_value (drop 2 (render (CHex 0xFFFF8000000C0FFE))) = 0xFFFF8000000C0FFE.
Proof.
  apply serial_print_hex_roundtrip; [lia|].
  intros i Hi. assert (Hin : i ∈ seqZ 0 16) by (apply elem_of_seqZ; lia).
  clear Hi. revert i Hin. apply Forall_forall. by repeat constructor.
Defined.

(** The digit 13 is printed as F: the character table of serial_print_hex reads
    0123456789ABCFEF, so the values 13 and 15 are indistinguishable on the
    console. *)
Theorem serial_print_hex_digit_13 :
  render (CHex 0xD) = render (CHex 0xF) /\ hex_value (drop 2 (render (CHex 0xD))) = 0xF.
Proof. split; vm_compute; reflexivity. Qed.
