(* ===== verification/Pmm.v ===== *)
(** * The physical memory manager (kernel/pmm.c)

    A stack of free page frames.  The abstract view is the list of free pages,
    bottom of the stack first; initialisation, allocation and release are
    specified on it, and a client that only frees pages it owns never sees a
    page twice. *)
From S2P Require Import Prelude Memory State Demo.

(** ** Operations *)

Definition MAX_PAGES : Z := 1048576.
Definition PAGE_SIZE : Z := 4096.

Definition align_up (addr align : Z) : Z :=
  Z.land (u64 (addr + align - 1)) (u64 (Z.lnot (align - 1))).
Definition align_down (addr align : Z) : Z := Z.land addr (u64 (Z.lnot (align - 1))).

Definition with_top (v : Z) (p : pmm_vars) : pmm_vars :=
  mkPmm (page_stack p) v (total_pages p) (free_pages p).
Definition with_total (v : Z) (p : pmm_vars) : pmm_vars :=
  mkPmm (page_stack p) (page_stack_top p) v (free_pages p).
Definition with_free (v : Z) (p : pmm_vars) : pmm_vars :=
  mkPmm (page_stack p) (page_stack_top p) (total_pages p) v.
Definition with_cell (i v : Z) (p : pmm_vars) : pmm_vars :=
  mkPmm (<[i := v]> (page_stack p)) (page_stack_top p) (total_pages p) (free_pages p).

(** [page_stack[i]], defined inside the array only. *)
Definition in_stack (i : Z) : bool := (0 <=? i) && (i <? MAX_PAGES).
Definition page_stack_get (i : Z) : K Z :=
  if in_stack i then gets (fun s => default 0 (page_stack (k_pmm s) !! i))
  else fails OutOfBounds.
Definition page_stack_set (i v : Z) : K unit :=
  if in_stack i then modify (set_pmm (with_cell i v)) else fails OutOfBounds.

(** [page_stack[page_stack_top++] = addr]. *)
Definition push_page (addr : Z) : K unit :=
  top <- gets (fun s => page_stack_top (k_pmm s)) ;;
  modify (set_pmm (with_top (u64 (top + 1)))) ;;;
  page_stack_set top addr.

(** The loop over the pages of one region; [fuel] bounds its iterations. *)
Fixpoint pmm_scan (fuel : nat) (addr top : Z) : K unit :=
  match fuel with
  | O => starve
  | S fuel =>
      if addr <? top then
        if addr <? 0x10000 then pmm_scan fuel (u64 (addr + PAGE_SIZE)) top
        else
          st <- gets (fun s => page_stack_top (k_pmm s)) ;;
          if st >=? MAX_PAGES then kprintln "PMM: Warning: Page stack full!"
          else
            push_page addr ;;;
            modify (set_pmm (fun p => with_total (u64 (total_pages p + 1)) p)) ;;;
            modify (set_pmm (fun p => with_free (u64 (free_pages p + 1)) p)) ;;;
            pmm_scan fuel (u64 (addr + PAGE_SIZE)) top
      else ret tt
  end.

Section pmm.
Context {P : Platform}.

Definition total_usable (entries : list memmap_entry) : Z :=
  fold_left (fun acc e =>
    if mm_type e =? LIMINE_MEMMAP_USABLE then u64 (acc + mm_length e) else acc) entries 0.

Definition region_base (e : memmap_entry) : Z := align_up (mm_base e) PAGE_SIZE.
Definition region_top (e : memmap_entry) : Z :=
  align_down (u64 (mm_base e + mm_length e)) PAGE_SIZE.

(** One iteration of the second loop of pmm_init. *)
Definition pmm_add_region (e : memmap_entry) : K unit :=
  if negb (mm_type e =? LIMINE_MEMMAP_USABLE) then ret tt
  else
    let base := region_base e in
    let top := region_top e in
    if base >=? top then ret tt
    else pmm_scan (Z.to_nat ((top - base) / PAGE_SIZE + 1)) base top.

Fixpoint pmm_add_regions (l : list memmap_entry) : K unit :=
  match l with [] => ret tt | e :: l => pmm_add_region e ;;; pmm_add_regions l end.

Definition pmm_init : K unit :=
  kprintln "PMM: Initializing physical memory manager..." ;;;
  match lim_memmap with
  | None => kprintln "PMM: Error: No memory map from bootloader!"
  | Some entries =>
      kprint "PMM: Found " ;;;
      kprint_dec (Z.of_nat (length entries)) ;;;
      kprintln " memory regions" ;;;
      modify (set_pmm (with_top 0)) ;;;
      modify (set_pmm (with_total 0)) ;;;
      modify (set_pmm (with_free 0)) ;;;
      kprint "PMM: Total usable memory: " ;;;
      kprint_dec (total_usable entries / 1024 / 1024) ;;;
      kprintln " MB" ;;;
      pmm_add_regions entries ;;;
      kprint "PMM: Initialized with " ;;;
      tp <- gets (fun s => total_pages (k_pmm s)) ;;
      kprint_dec tp ;;;
      kprintln " pages (" ;;;
      kprint_dec (u64 (tp * PAGE_SIZE) / 1024 / 1024) ;;;
      kprintln " MB)"
  end.

(** Returns the physical address of the page, 0 for NULL. *)
Definition pmm_alloc_page : K Z :=
  top <- gets (fun s => page_stack_top (k_pmm s)) ;;
  if top =? 0 then kprintln "PMM: Error: Out of memory!" ;;; ret 0
  else
    modify (set_pmm (fun p => with_free (u64 (free_pages p - 1)) p)) ;;;
    modify (set_pmm (with_top (u64 (top - 1)))) ;;;
    page <- page_stack_get (u64 (top - 1)) ;;
    h <- gets hhdm_offset ;;
    let ptr := u64 (page + h) in
    for_range 0 PAGE_SIZE (fun i => wr8 (u64 (ptr + i)) 0) ;;;
    ret page.

Definition pmm_free_page (page : Z) : K unit :=
  if page =? 0 then ret tt
  else
    top <- gets (fun s => page_stack_top (k_pmm s)) ;;
    if top >=? MAX_PAGES then kprintln "PMM: Error: Page stack overflow on free!"
    else
      push_page page ;;;
      modify (set_pmm (fun p => with_free (u64 (free_pages p + 1)) p)).

Definition pmm_get_total_memory : K Z :=
  gets (fun s => u64 (total_pages (k_pmm s) * PAGE_SIZE)).
Definition pmm_get_free_memory : K Z :=
  gets (fun s => u64 (free_pages (k_pmm s) * PAGE_SIZE)).
Definition pmm_get_used_memory : K Z :=
  gets (fun s => u64 (u64 (total_pages (k_pmm s) - free_pages (k_pmm s)) * PAGE_SIZE)).
End pmm.

(** ** The abstract view *)

(** The free pages, bottom of the stack first. *)
Definition free_list (s : kstate) : list Z :=
  (fun i => default 0 (page_stack (k_pmm s) !! i)) <$> seqZ 0 (page_stack_top (k_pmm s)).

(** The size of the direct map that vmm.c assumes (virt_to_phys). *)
Definition PHYS_LIMIT : Z := 0x100000000000.

(** A page frame the kernel can use: aligned, not the null page, inside the
    direct map. *)
Definition page_ok (p : Z) : Prop :=
  p mod PAGE_SIZE = 0 /\ 0 < p /\ p + PAGE_SIZE <= PHYS_LIMIT.

(** The direct map: [hhdm_offset + p] designates the physical byte [p]. *)
Definition hhdm_ok {P : Platform} (s : kstate) : Prop :=
  0 <= hhdm_offset s /\ hhdm_offset s + PHYS_LIMIT < 18446744073709551616 /\
  forall p, 0 <= p < PHYS_LIMIT -> kmap (hhdm_offset s + p) = p.

Record pmm_inv {P : Platform} (s : kstate) : Prop := {
  inv_top : 0 <= page_stack_top (k_pmm s) <= MAX_PAGES;
  inv_free : free_pages (k_pmm s) = page_stack_top (k_pmm s);
  inv_pages : Forall page_ok (free_list s);
  inv_nodup : NoDup (free_list s);
  inv_hhdm : hhdm_ok s;
}.

(** The pages of one memory-map entry that pmm_init takes: from 64 KiB on. *)
Definition pages_between (base top : Z) : list Z :=
  (fun i => base + PAGE_SIZE * i) <$> seqZ 0 ((top - base) / PAGE_SIZE).
Definition entry_pages {P : Platform} (e : memmap_entry) : list Z :=
  if mm_type e =? LIMINE_MEMMAP_USABLE then
    filter (fun a => 0x10000 <= a) (pages_between (region_base e) (region_top e))
  else [].

(** [page] reads as zeroes and the rest of memory is as before. *)
Definition zeroed (page : Z) (m m' : gmap Z Z) : Prop :=
  forall a, mget m' a = if decide (page <= a < page + PAGE_SIZE) then 0 else mget m a.

(** Only the allocator's variables and the console differ. *)
Definition pmm_frame (s s' : kstate) : Prop :=
  s' = set_con (fun _ => k_con s') (set_pmm (fun _ => k_pmm s') s).
(** ... and memory. *)
Definition pmm_mem_frame (s s' : kstate) : Prop :=
  s' = set_con (fun _ => k_con s') (set_pmm (fun _ => k_pmm s') (set_mem (fun _ => k_mem s') s)).

(** ** Alignment *)

Lemma land_align a : 0 <= a < 18446744073709551616 ->
  Z.land a (u64 (Z.lnot (PAGE_SIZE - 1))) = a - a mod PAGE_SIZE.
Proof.
  intros Ha. change (u64 (Z.lnot (PAGE_SIZE - 1))) with (Z.ldiff (Z.ones 64) (Z.ones 12)).
  assert (Z.land a (Z.ldiff (Z.ones 64) (Z.ones 12)) = Z.ldiff a (Z.ones 12)) as ->.
  { rewrite !Z.ldiff_land, Z.land_assoc, Z.land_ones by lia.
    f_equal. apply Z.mod_small. exact Ha. }
  rewrite Z.ldiff_ones_r, Z.shiftl_mul_pow2, Z.shiftr_div_pow2 by lia.
  unfold PAGE_SIZE. change (2 ^ 12) with 4096. zlia.
Qed.

Lemma align_down_spec a : 0 <= a < 18446744073709551616 ->
  align_down a PAGE_SIZE = a - a mod PAGE_SIZE.
Proof. apply land_align. Qed.

Lemma align_up_spec a : 0 <= a -> a + PAGE_SIZE <= 18446744073709551616 ->
  align_up a PAGE_SIZE = (a + PAGE_SIZE - 1) / PAGE_SIZE * PAGE_SIZE.
Proof.
  intros. unfold align_up. unfold PAGE_SIZE in *.
  rewrite u64_small by lia. change (4096 - 1) with (PAGE_SIZE - 1).
  rewrite land_align by lia. unfold PAGE_SIZE. zlia.
Qed.

(** Whatever the entry, both ends of a region are page aligned 64-bit values. *)
Lemma align_range a : 0 <= a < 18446744073709551616 ->
  0 <= align_down a PAGE_SIZE < 18446744073709551616 /\ align_down a PAGE_SIZE mod PAGE_SIZE = 0.
Proof. intros. rewrite align_down_spec by done. unfold PAGE_SIZE. split; zlia. Qed.

(** ** The stack *)

Lemma in_stack_true i : 0 <= i < MAX_PAGES -> in_stack i = true.
Proof. unfold in_stack. lia. Qed.

Definition pushed (addr : Z) (p : pmm_vars) : pmm_vars :=
  with_cell (page_stack_top p) addr (with_top (page_stack_top p + 1) p).

Lemma push_page_eq addr s :
  0 <= page_stack_top (k_pmm s) < MAX_PAGES ->
  push_page addr s = Ret tt (set_pmm (pushed addr) s).
Proof.
  intros Ht. unfold push_page, bind, gets, modify, page_stack_set.
  rewrite in_stack_true, u64_small by (unfold MAX_PAGES in *; lia). done.
Qed.

(** The view depends on the allocator's variables alone. *)
Lemma free_list_ext s s' : k_pmm s' = k_pmm s -> free_list s' = free_list s.
Proof. unfold free_list. by intros ->. Qed.

Lemma free_list_pushed addr s s' :
  0 <= page_stack_top (k_pmm s) ->
  page_stack (k_pmm s') = <[page_stack_top (k_pmm s) := addr]> (page_stack (k_pmm s)) ->
  page_stack_top (k_pmm s') = page_stack_top (k_pmm s) + 1 ->
  free_list s' = free_list s ++ [addr].
Proof.
  intros Ht Hs Htop. unfold free_list. rewrite Hs, Htop, seqZ_app, fmap_app by lia.
  f_equal.
  - apply list_fmap_ext. intros i x Hx. apply lookup_seqZ in Hx as [-> Hx].
    by rewrite lookup_insert_ne by lia.
  - rewrite seqZ_cons by lia. simpl. by rewrite lookup_insert_eq.
Qed.

Lemma free_list_popped s s' :
  0 < page_stack_top (k_pmm s) ->
  page_stack (k_pmm s') = page_stack (k_pmm s) ->
  page_stack_top (k_pmm s') = page_stack_top (k_pmm s) - 1 ->
  free_list s = free_list s' ++ [default 0 (page_stack (k_pmm s) !! (page_stack_top (k_pmm s) - 1))].
Proof.
  intros Ht Hs Htop. unfold free_list. rewrite Hs, Htop.
  replace (page_stack_top (k_pmm s)) with (page_stack_top (k_pmm s) - 1 + 1) at 1 by lia.
  rewrite seqZ_app, fmap_app by lia. f_equal.
Qed.

Lemma length_free_list s :
  0 <= page_stack_top (k_pmm s) -> Z.of_nat (length (free_list s)) = page_stack_top (k_pmm s).
Proof. intros. unfold free_list. rewrite length_fmap, length_seqZ. lia. Qed.

Lemma pmm_frame_refl s : pmm_frame s s.
Proof. by destruct s. Qed.
Lemma pmm_frame_trans s1 s2 s3 : pmm_frame s1 s2 -> pmm_frame s2 s3 -> pmm_frame s1 s3.
Proof. unfold pmm_frame. intros H1 H2. rewrite H2, H1. done. Qed.
Lemma pmm_frame_con s f : pmm_frame s (set_con f s).
Proof. by destruct s. Qed.
Lemma pmm_frame_pmm s f : pmm_frame s (set_pmm f s).
Proof. by destruct s. Qed.
#[export] Hint Resolve pmm_frame_refl pmm_frame_con pmm_frame_pmm : kernel.

(** Peel the updates of a state off one by one. *)
Ltac peel_pmm_frame :=
  repeat first
    [ apply pmm_frame_refl
    | eapply pmm_frame_trans; [|apply pmm_frame_con]
    | eapply pmm_frame_trans; [|apply pmm_frame_pmm] ].

(** ** Initialisation *)

Lemma pages_between_nil a b : b <= a -> pages_between a b = [].
Proof.
  intros. unfold pages_between. rewrite seqZ_nil; [done|]. unfold PAGE_SIZE. zlia.
Qed.

Lemma pages_between_cons a b :
  a mod PAGE_SIZE = 0 -> b mod PAGE_SIZE = 0 -> a < b ->
  pages_between a b = a :: pages_between (a + PAGE_SIZE) b.
Proof.
  intros Ha Hb Hlt. unfold pages_between, PAGE_SIZE in *.
  rewrite (seqZ_cons 0) by zlia. cbn [fmap list_fmap]. f_equal; [lia|].
  replace ((b - (a + 4096)) / 4096) with (Z.pred ((b - a) / 4096)) by zlia.
  rewrite <- (fmap_add_seqZ 1 0), <- list_fmap_compose.
  apply list_fmap_ext. intros i x _. simpl. lia.
Qed.

(** The pages from [a] on that the loop still has to push. *)
Definition usable_from (a top : Z) : list Z :=
  filter (fun a => 0x10000 <= a) (pages_between a top).

(** What a run of the scan or of pmm_add_regions does with the pages [l]: it
    pushes as many as fit and counts them. *)
Definition scanned (l : list Z) (s s' : kstate) : Prop :=
  pmm_frame s s' /\
  free_list s' = take (Z.to_nat MAX_PAGES) (free_list s ++ l) /\
  page_stack_top (k_pmm s') = Z.of_nat (length (free_list s')) /\
  free_pages (k_pmm s') = page_stack_top (k_pmm s') /\
  total_pages (k_pmm s') = page_stack_top (k_pmm s').

(** The state in which the counters agree with the stack. *)
Definition counted (s : kstate) : Prop :=
  0 <= page_stack_top (k_pmm s) <= MAX_PAGES /\
  free_pages (k_pmm s) = page_stack_top (k_pmm s) /\
  total_pages (k_pmm s) = page_stack_top (k_pmm s).

Lemma counted_length s : counted s -> (length (free_list s) <= Z.to_nat MAX_PAGES)%nat.
Proof. intros (H & _). pose proof (length_free_list s). lia. Qed.

Lemma scanned_counted l s s' : scanned l s s' -> counted s'.
Proof.
  intros (_ & Hl & Ht & Hf & Htot). unfold counted. rewrite Hf, Htot, Ht, Hl.
  rewrite length_take. unfold MAX_PAGES. lia.
Qed.

Lemma scanned_nil s s' : counted s -> pmm_frame s s' -> k_pmm s' = k_pmm s -> scanned [] s s'.
Proof.
  intros Hc Hfr Hp. pose proof (counted_length _ Hc) as Hlen. destruct Hc as (Ht & Hf & Htot).
  split; [done|]. rewrite (free_list_ext _ _ Hp), Hp, app_nil_r, take_ge by done.
  rewrite length_free_list by lia. done.
Qed.

Lemma scanned_app l1 l2 s1 s2 s3 :
  scanned l1 s1 s2 -> scanned l2 s2 s3 -> scanned (l1 ++ l2) s1 s3.
Proof.
  intros (Hf1 & Hl1 & _) (Hf2 & Hl2 & Hrest).
  split; [by eapply pmm_frame_trans|]. split; [|done].
  rewrite Hl2, Hl1, app_assoc.
  set (n := Z.to_nat MAX_PAGES). set (l := free_list s1 ++ l1).
  destruct (decide (length l <= n)%nat) as [Hle|Hgt].
  - by rewrite (take_ge l).
  - rewrite !take_app, take_take, length_take.
    replace (n - n `min` length l)%nat with 0%nat by lia.
    replace (n - length l)%nat with 0%nat by lia. by rewrite Nat.min_id.
Qed.

Lemma scanned_full l s s' :
  counted s -> page_stack_top (k_pmm s) >= MAX_PAGES ->
  pmm_frame s s' -> k_pmm s' = k_pmm s -> scanned l s s'.
Proof.
  intros Hc Hge Hfr Hp. destruct Hc as (Ht & Hf & Htot).
  pose proof (length_free_list s ltac:(lia)) as Hlen.
  split; [done|]. rewrite (free_list_ext _ _ Hp), Hp, take_app_le, take_ge by lia.
  rewrite Hlen. done.
Qed.

Lemma scanned_push a s : counted s -> page_stack_top (k_pmm s) < MAX_PAGES ->
  scanned [a] s
    (set_pmm (fun p => with_free (u64 (free_pages p + 1)) p)
      (set_pmm (fun p => with_total (u64 (total_pages p + 1)) p) (set_pmm (pushed a) s))).
Proof.
  intros (Ht & Hf & Htot) Hlt.
  set (s' := set_pmm _ _).
  assert (Hfl : free_list s' = free_list s ++ [a]) by (apply free_list_pushed; [lia|done|done]).
  assert (Hu : forall x, x = page_stack_top (k_pmm s) -> u64 (x + 1) = x + 1)
    by (intros; apply u64_small; unfold MAX_PAGES in *; lia).
  split; [by destruct s|].
  rewrite Hfl, length_app, Nat2Z.inj_add, length_free_list by lia.
  rewrite take_ge by (rewrite length_app; pose proof (length_free_list s); simpl; lia).
  cbn. rewrite !Hu by done. split_and!; [done|lia..].
Qed.

Lemma pmm_scan_spec fuel a top s :
  counted s -> 0 <= a <= top -> top < 18446744073709551616 ->
  a mod PAGE_SIZE = 0 -> top mod PAGE_SIZE = 0 -> (top - a) / PAGE_SIZE < Z.of_nat fuel ->
  wp (pmm_scan fuel a top) s (fun _ s' => scanned (usable_from a top) s s').
Proof.
  intros Hc Ha Htop Hma Hmt. revert a s Hc Ha Hma.
  induction fuel as [|fuel IH]; intros a s Hc Ha Hma Hf; [unfold PAGE_SIZE in *; zlia|].
  cbn [pmm_scan]. unfold usable_from. destruct (Z.ltb_spec a top) as [Hlt|Hge].
  2:{ rewrite pages_between_nil by lia. apply wp_ret, scanned_nil; auto with kernel. }
  assert (Hnext : a + PAGE_SIZE <= top) by (unfold PAGE_SIZE in *; zlia).
  assert (HIH : forall s1, counted s1 ->
    wp (pmm_scan fuel (u64 (a + PAGE_SIZE)) top) s1
       (fun _ s' => scanned (usable_from (a + PAGE_SIZE) top) s1 s')).
  { intros s1 H1. unfold PAGE_SIZE in *. rewrite u64_small by lia. apply IH; [done|..]; zlia. }
  rewrite pages_between_cons by done. rewrite filter_cons.
  destruct (Z.ltb_spec a 0x10000); [rewrite decide_False by lia; by apply HIH|].
  rewrite decide_True by lia. wp_steps. rewrite Z.geb_leb.
  destruct (Z.leb_spec MAX_PAGES (page_stack_top (k_pmm s))).
  { apply wp_modify, scanned_full; [done|lia|auto with kernel|done]. }
  apply wp_bind. eapply wp_eq; [apply push_page_eq; unfold counted in *; lia|]. wp_steps.
  pose proof (scanned_push a s Hc ltac:(lia)) as Hp.
  wp_call HIH; [by eapply scanned_counted|]. intros _ s' Hs'.
  by apply (scanned_app [a] _ _ _ _ Hp Hs').
Qed.

Section init.
Context {P : Platform}.

(** The entries of the memory map are pairs of [uint64_t]. *)
Definition entry_u64 (e : memmap_entry) : Prop :=
  0 <= mm_base e < 18446744073709551616 /\ 0 <= mm_length e < 18446744073709551616.

Lemma region_aligned e :
  0 <= region_base e < 18446744073709551616 /\ region_base e mod PAGE_SIZE = 0 /\
  0 <= region_top e < 18446744073709551616 /\ region_top e mod PAGE_SIZE = 0.
Proof.
  unfold region_base, region_top, align_up.
  pose proof (align_range (u64 (mm_base e + PAGE_SIZE - 1)) (u64_range _)).
  pose proof (align_range (u64 (mm_base e + mm_length e)) (u64_range _)).
  unfold align_down in *. tauto.
Qed.

Lemma pmm_add_region_spec e s :
  counted s -> wp (pmm_add_region e) s (fun _ s' => scanned (entry_pages e) s s').
Proof.
  intros Hc. unfold pmm_add_region, entry_pages.
  destruct (mm_type e =? LIMINE_MEMMAP_USABLE); simpl;
    [|apply wp_ret, scanned_nil; auto with kernel].
  pose proof (region_aligned e) as (Hb & Hbm & Ht & Htm). rewrite Z.geb_leb.
  destruct (Z.leb_spec (region_top e) (region_base e)).
  - rewrite pages_between_nil by done. apply wp_ret, scanned_nil; auto with kernel.
  - apply pmm_scan_spec; try done; [lia|lia|].
    unfold PAGE_SIZE in *. rewrite Z2Nat.id; zlia.
Qed.

Lemma pmm_add_regions_spec l s :
  counted s -> wp (pmm_add_regions l) s (fun _ s' => scanned (mjoin (entry_pages <$> l)) s s').
Proof.
  revert s. induction l as [|e l IH]; intros s Hc; simpl.
  - apply wp_ret, scanned_nil; auto with kernel.
  - apply wp_bind. wp_call pmm_add_region_spec; [done|]. intros _ s1 H1.
    wp_call IH; [by eapply scanned_counted|]. intros _ s2 H2. by eapply scanned_app.
Qed.
End init.

(** ** The memory map of the boot loader *)

Section memmap.
Context {P : Platform}.

Definition usable (e : memmap_entry) : Prop := mm_type e = LIMINE_MEMMAP_USABLE.
Definition mm_end (e : memmap_entry) : Z := mm_base e + mm_length e.

(** What the Limine protocol guarantees of usable entries, for a machine whose
    memory lies inside the direct map: they do not overlap. *)
Definition memmap_ok (l : list memmap_entry) : Prop :=
  (forall e, e ∈ l -> usable e ->
     0 <= mm_base e /\ 0 <= mm_length e /\ mm_end e <= PHYS_LIMIT) /\
  (forall i j e f, l !! i = Some e -> l !! j = Some f -> i <> j -> usable e -> usable f ->
     mm_end e <= mm_base f \/ mm_end f <= mm_base e).

(** The page [p] lies inside the usable entry [e]. *)
Definition page_in (e : memmap_entry) (p : Z) : Prop :=
  usable e /\ mm_base e <= p /\ p + PAGE_SIZE <= mm_end e.

Lemma entry_pages_in e p :
  0 <= mm_base e -> 0 <= mm_length e -> mm_end e <= PHYS_LIMIT ->
  p ∈ entry_pages e -> page_in e p /\ 0x10000 <= p /\ page_ok p.
Proof.
  intros Hb Hl He. unfold entry_pages, page_in, usable, mm_end, page_ok in *.
  destruct (Z.eqb_spec (mm_type e) LIMINE_MEMMAP_USABLE); [|set_solver].
  intros Hp. apply list_elem_of_filter in Hp as [Hp64 Hp].
  unfold pages_between in Hp. apply list_elem_of_fmap in Hp as (i & -> & Hi).
  apply elem_of_seqZ in Hi.
  assert (Hbs : region_base e = (mm_base e + PAGE_SIZE - 1) / PAGE_SIZE * PAGE_SIZE).
  { apply align_up_spec; unfold PHYS_LIMIT, PAGE_SIZE in *; lia. }
  assert (Htp : region_top e = (mm_base e + mm_length e) - (mm_base e + mm_length e) mod PAGE_SIZE).
  { unfold region_top. rewrite u64_small by (unfold PHYS_LIMIT in *; lia).
    apply align_down_spec. unfold PHYS_LIMIT in *. lia. }
  rewrite Hbs, Htp in *. unfold PAGE_SIZE, PHYS_LIMIT in *.
  split_and!; try done; zlia.
Qed.

Lemma entry_pages_NoDup e : NoDup (entry_pages e).
Proof.
  unfold entry_pages. case_match; [|constructor]. apply NoDup_filter.
  unfold pages_between. apply NoDup_fmap_2; [|apply NoDup_seqZ].
  intros x y Hxy. unfold PAGE_SIZE in *. lia.
Qed.

Lemma entry_pages_usable e p : p ∈ entry_pages e -> usable e.
Proof. unfold entry_pages, usable. destruct (Z.eqb_spec (mm_type e) LIMINE_MEMMAP_USABLE); set_solver. Qed.

Lemma memmap_ok_tail e l : memmap_ok (e :: l) -> memmap_ok l.
Proof.
  intros [Hin Hdis]. split; [intros f Hf; apply Hin; by constructor|].
  intros i j. intros. eapply (Hdis (S i) (S j)); eauto.
Qed.

Lemma memmap_pages_in l p : memmap_ok l -> p ∈ mjoin (entry_pages <$> l) ->
  exists e, e ∈ l /\ page_in e p /\ 0x10000 <= p /\ page_ok p.
Proof.
  intros [Hok _] Hp. apply list_elem_of_join in Hp as (ps & Hp & Hin).
  apply list_elem_of_fmap in Hin as (e & -> & He).
  pose proof (entry_pages_usable _ _ Hp) as Hu.
  destruct (Hok e He Hu) as (? & ? & ?).
  exists e. split; [done|]. by apply entry_pages_in.
Qed.

Lemma memmap_pages_NoDup l : memmap_ok l -> NoDup (mjoin (entry_pages <$> l)).
Proof.
  induction l as [|e l IH]; intros Hok; simpl; [constructor|].
  apply NoDup_app. split_and!; [apply entry_pages_NoDup| |by eapply IH, memmap_ok_tail].
  intros p He Hl.
  apply (memmap_pages_in l p (memmap_ok_tail _ _ Hok)) in Hl as (f & Hf & (Huf & Hf1 & Hf2) & _).
  pose proof (entry_pages_usable _ _ He) as Hu. destruct Hok as [H1 H2].
  destruct (H1 e ltac:(by constructor) Hu) as (? & ? & ?).
  apply entry_pages_in in He as ((_ & He1 & He2) & _); [|done..].
  apply list_elem_of_lookup in Hf as [j Hj].
  pose proof (H2 0%nat (S j) e f eq_refl Hj ltac:(done) Hu Huf).
  unfold PAGE_SIZE, mm_end in *. lia.
Qed.

(** pmm_init leaves exactly the pages of the usable entries, as many as fit. *)
Lemma pmm_init_spec l s :
  lim_memmap = Some l ->
  wp pmm_init s (fun _ s' =>
    pmm_frame s s' /\ counted s' /\
    free_list s' = take (Z.to_nat MAX_PAGES) (mjoin (entry_pages <$> l))).
Proof.
  intros Hl. unfold pmm_init. rewrite Hl. unfold kprint, kprintln, kprint_dec, con. wp_steps.
  match goal with |- wp _ ?s0 _ => set (s1 := s0) end.
  assert (Hf : pmm_frame s s1) by (subst s1; peel_pmm_frame).
  assert (Hc : counted s1) by (unfold counted, MAX_PAGES; cbn; lia).
  wp_call pmm_add_regions_spec; [done|]. intros _ s2 H2. pose proof (scanned_counted _ _ _ H2) as Hc2.
  wp_steps. split_and!; [|exact Hc2|].
  - eapply pmm_frame_trans; [exact Hf|]. destruct H2 as [H2 _].
    eapply pmm_frame_trans; [exact H2|]. peel_pmm_frame.
  - destruct H2 as (_ & Hfl & _). transitivity (free_list s2); [done|]. rewrite Hfl. f_equal.
Qed.

Lemma pmm_frame_hhdm s s' : pmm_frame s s' -> hhdm_ok s -> hhdm_ok s'.
Proof. unfold pmm_frame, hhdm_ok. by intros ->. Qed.

Lemma pmm_init_inv_lemma l s :
  lim_memmap = Some l -> memmap_ok l -> hhdm_ok s ->
  wp pmm_init s (fun _ s' => pmm_inv s' /\
    forall p, p ∈ free_list s' -> exists e, e ∈ l /\ page_in e p /\ 0x10000 <= p).
Proof.
  intros Hl Hok Hh. wp_call pmm_init_spec; [done|]. intros _ s' (Hf & Hc & Hfl).
  pose proof (memmap_pages_NoDup l Hok) as Hnd.
  assert (Hsub : forall p, p ∈ free_list s' -> p ∈ mjoin (entry_pages <$> l)).
  { intros p. rewrite Hfl, elem_of_take, list_elem_of_lookup. intros (i & Hi & _). by exists i. }
  split; [constructor|].
  - by destruct Hc.
  - by destruct Hc as (_ & ? & _).
  - apply Forall_forall. intros p Hp. by apply Hsub, memmap_pages_in in Hp as (? & _ & _ & _ & ?).
  - rewrite Hfl. rewrite <- (take_drop (Z.to_nat MAX_PAGES)) in Hnd. by apply NoDup_app in Hnd as [? _].
  - by eapply pmm_frame_hhdm.
  - intros p Hp. apply Hsub, memmap_pages_in in Hp as (e & ? & ? & ? & _); [|done]. by exists e.
Qed.
End memmap.

(** ** Allocation and release *)

Section alloc.
Context {P : Platform}.
Implicit Types s : kstate.

Lemma hhdm_ptr s p : hhdm_ok s -> 0 <= p < PHYS_LIMIT ->
  u64 (p + hhdm_offset s) = hhdm_offset s + p.
Proof. intros (H0 & H1 & _) Hp. rewrite u64_small; lia. Qed.

Lemma hhdm_kmap s p i : hhdm_ok s -> 0 <= p -> 0 <= i -> p + i < PHYS_LIMIT ->
  kmap (u64 (u64 (p + hhdm_offset s) + i)) = p + i.
Proof.
  intros H Hp Hi Hlt. pose proof H as (H0 & H1 & Hk). rewrite (hhdm_ptr s) by (done || lia).
  rewrite u64_small by lia. rewrite <- Z.add_assoc. apply Hk. lia.
Qed.

Lemma zero_page_spec p s : hhdm_ok s -> page_ok p ->
  wp (for_range 0 PAGE_SIZE (fun i => wr8 (u64 (u64 (p + hhdm_offset s) + i)) 0)) s
     (fun _ s' => s' = set_mem (fun _ => k_mem s') s /\ zeroed p (k_mem s) (k_mem s')).
Proof.
  intros Hh (Hm & Hp0 & Hpl).
  apply (wp_for_range (fun i s' => s' = set_mem (fun _ => k_mem s') s /\
    forall a, mget (k_mem s') a = if decide (p <= a < p + i) then 0 else mget (k_mem s) a)).
  - done.
  - split; [by destruct s|]. intros a. by rewrite decide_False by lia.
  - intros i s1 Hi (Hs1 & Hz). apply wp_modify. split; [by rewrite Hs1|].
    intros a. cbn [k_mem set_mem]. unfold PAGE_SIZE in *. rewrite hhdm_kmap by (done || lia).
    destruct (decide (a = p + i)) as [->|Hne].
    + rewrite mget_mput_eq, decide_True by lia. done.
    + rewrite mget_mput_ne, Hz by done. repeat case_decide; done || lia.
  - intros s1 (Hs1 & Hz). done.
Qed.

Lemma pmm_alloc_ok s :
  pmm_inv s -> free_list s <> [] ->
  wp pmm_alloc_page s (fun p s' =>
    free_list s = free_list s' ++ [p] /\ page_ok p /\ zeroed p (k_mem s) (k_mem s') /\
    pmm_mem_frame s s' /\ pmm_inv s' /\
    total_pages (k_pmm s') = total_pages (k_pmm s) /\ k_con s' = k_con s).
Proof.
  intros [Ht Hf Hp Hnd Hh] Hne. unfold pmm_alloc_page. wp_steps.
  destruct (Z.eqb_spec (page_stack_top (k_pmm s)) 0) as [H0|H0].
  { exfalso. apply Hne, length_zero_iff_nil. pose proof (length_free_list s). lia. }
  wp_steps. rewrite !u64_small by (unfold MAX_PAGES in *; lia).
  set (top' := page_stack_top (k_pmm s) - 1).
  match goal with |- wp _ ?s0 _ => set (s1 := s0) end.
  assert (Hpop : free_list s = free_list s1 ++ [default 0 (page_stack (k_pmm s) !! top')])
    by (apply free_list_popped; [lia|done|done]).
  unfold page_stack_get. rewrite in_stack_true by (unfold MAX_PAGES in *; lia). wp_steps.
  change (page_stack (k_pmm s1)) with (page_stack (k_pmm s)).
  set (page := default 0 _) in *.
  rewrite Hpop in Hp, Hnd. apply Forall_app in Hp as [Hp Hpage]. rewrite Forall_singleton in Hpage.
  apply NoDup_app in Hnd as [Hnd _].
  wp_call zero_page_spec; [exact Hh|exact Hpage|]. intros _ s2 (Hs2 & Hz). wp_steps.
  assert (Hpm : k_pmm s2 = k_pmm s1) by by rewrite Hs2.
  assert (Hfl : free_list s2 = free_list s1) by by apply free_list_ext.
  rewrite Hfl. split_and!; [done|done|done|by rewrite Hs2; destruct s| |by rewrite Hs2|by rewrite Hs2].
  constructor; rewrite ?Hfl, ?Hpm; cbn;
    [lia|rewrite Hf, u64_small; unfold MAX_PAGES in *; lia|done|done|by rewrite Hs2].
Qed.

Lemma pmm_alloc_empty s :
  free_list s = [] -> 0 <= page_stack_top (k_pmm s) ->
  pmm_alloc_page s = Ret 0 (set_con (fun l => l ++ [CPrint (str "PMM: Error: Out of memory!" ++ [10])]) s).
Proof.
  intros He Ht. pose proof (length_free_list s Ht) as Hl. rewrite He in Hl.
  unfold pmm_alloc_page, bind, gets. by rewrite <- Hl.
Qed.

Lemma pmm_free_ok s p :
  0 <= page_stack_top (k_pmm s) < MAX_PAGES -> p <> 0 ->
  wp (pmm_free_page p) s (fun _ s' =>
    free_list s' = free_list s ++ [p] /\ pmm_frame s s' /\ k_con s' = k_con s /\
    page_stack_top (k_pmm s') = page_stack_top (k_pmm s) + 1 /\
    free_pages (k_pmm s') = u64 (free_pages (k_pmm s) + 1) /\
    total_pages (k_pmm s') = total_pages (k_pmm s)).
Proof.
  intros Ht Hp. unfold pmm_free_page. destruct (Z.eqb_spec p 0); [done|]. wp_steps.
  rewrite Z.geb_leb. destruct (Z.leb_spec MAX_PAGES (page_stack_top (k_pmm s))); [lia|].
  apply wp_bind. eapply wp_eq; [by apply push_page_eq|]. wp_steps.
  split_and!; [|peel_pmm_frame|done..]. apply free_list_pushed; [lia|done|done].
Qed.

Lemma pmm_free_inv s p :
  pmm_inv s -> page_ok p -> p ∉ free_list s -> page_stack_top (k_pmm s) < MAX_PAGES ->
  wp (pmm_free_page p) s (fun _ s' =>
    free_list s' = free_list s ++ [p] /\ pmm_frame s s' /\ k_con s' = k_con s /\ pmm_inv s' /\
    total_pages (k_pmm s') = total_pages (k_pmm s)).
Proof.
  intros [Ht Hf Hp Hnd Hh] Hpok Hnin Hlt.
  wp_call pmm_free_ok; [lia|destruct Hpok; lia|].
  intros _ s' (Hfl & Hfr & Hcon & Htop & Hfree & Htot). split_and!; try done.
  constructor; rewrite ?Hfl, ?Htop, ?Hfree.
  - lia.
  - rewrite u64_small; unfold MAX_PAGES in *; lia.
  - apply Forall_app. split; [done|]. by apply Forall_singleton.
  - apply NoDup_app. split_and!; [done| |apply NoDup_singleton].
    intros x Hx Hx'. apply list_elem_of_singleton in Hx'. by subst.
  - by eapply pmm_frame_hhdm.
Qed.
End alloc.

(** ** A client of the allocator

    [owned] are the pages the client holds.  It allocates, and it frees only
    pages it holds. *)

Section client.
Context {P : Platform}.

Inductive pmm_step : kstate * list Z -> kstate * list Z -> Prop :=
| step_alloc s s' owned p :
    pmm_alloc_page s = Ret p s' -> p <> 0 -> pmm_step (s, owned) (s', p :: owned)
| step_alloc_fail s s' owned :
    pmm_alloc_page s = Ret 0 s' -> pmm_step (s, owned) (s', owned)
| step_free s s' o1 p o2 :
    pmm_free_page p s = Ret tt s' -> pmm_step (s, o1 ++ p :: o2) (s', o1 ++ o2).

(** The pages of the pool are either free or owned, each exactly once. *)
Record pmm_sys (pool : list Z) (total : Z) (st : kstate * list Z) : Prop := {
  sys_inv : pmm_inv st.1;
  sys_perm : free_list st.1 ++ st.2 ≡ₚ pool;
  sys_total : total_pages (k_pmm st.1) = total;
}.

Lemma pmm_step_sys pool total st st' :
  NoDup pool -> Forall page_ok pool -> Z.of_nat (length pool) <= MAX_PAGES ->
  pmm_step st st' -> pmm_sys pool total st -> pmm_sys pool total st'.
Proof.
  intros Hnd Hok Hlen Hstep [Hinv Hperm Htot].
  destruct Hstep as [s s' o p Ha Hp|s s' o Ha|s s' o1 p o2 Hf]; simpl in *.
  - destruct (decide (free_list s = [])) as [He|Hne].
    { rewrite pmm_alloc_empty in Ha by (done || apply Hinv). by inversion Ha; subst. }
    eapply wp_ret_eq in Ha; [|by apply pmm_alloc_ok].
    destruct Ha as (Hfl & _ & _ & _ & Hinv' & Htot' & _). constructor; simpl; [done| |congruence].
    rewrite <- Hperm, Hfl. rewrite <- app_assoc. done.
  - destruct (decide (free_list s = [])) as [He|Hne].
    { rewrite pmm_alloc_empty in Ha by (done || apply Hinv). inversion Ha; subst.
      constructor; simpl; [by destruct Hinv|done|done]. }
    eapply wp_ret_eq in Ha; [|by apply pmm_alloc_ok].
    destruct Ha as (_ & (_ & ? & _) & _). lia.
  - assert (Hin : p ∈ pool) by (rewrite <- Hperm, !elem_of_app; do 2 right; by constructor).
    assert (Hpok : page_ok p) by (by eapply Forall_forall in Hok).
    assert (Hnd' : NoDup (free_list s ++ o1 ++ p :: o2)) by by rewrite Hperm.
    assert (Hnin : p ∉ free_list s).
    { apply NoDup_app in Hnd' as (_ & Hd & _). intros Hx. apply (Hd p Hx). apply elem_of_app. right. by constructor. }
    assert (Hlt : page_stack_top (k_pmm s) < MAX_PAGES).
    { rewrite <- length_free_list by apply Hinv. rewrite <- Hperm, !length_app in Hlen.
      simpl in Hlen. lia. }
    eapply wp_ret_eq in Hf; [|by apply pmm_free_inv].
    destruct Hf as (Hfl & _ & _ & Hinv' & Htot'). constructor; simpl; [done| |congruence].
    rewrite <- Hperm, Hfl, <- app_assoc. cbn [app]. by rewrite Permutation_middle.
Qed.

Lemma pmm_steps_sys pool total st st' :
  NoDup pool -> Forall page_ok pool -> Z.of_nat (length pool) <= MAX_PAGES ->
  rtc pmm_step st st' -> pmm_sys pool total st -> pmm_sys pool total st'.
Proof. intros ??? Hs. induction Hs; [done|]. eauto using pmm_step_sys. Qed.

Lemma pmm_sys_init s : pmm_inv s -> pmm_sys (free_list s) (total_pages (k_pmm s)) (s, []).
Proof. constructor; simpl; [done|by rewrite app_nil_r|done]. Qed.

Lemma pmm_reachable s s' owned :
  pmm_inv s -> rtc pmm_step (s, []) (s', owned) ->
  pmm_sys (free_list s) (total_pages (k_pmm s)) (s', owned).
Proof.
  intros Hinv Hs. eapply pmm_steps_sys; [| | |exact Hs|by apply pmm_sys_init];
    [apply Hinv|apply Hinv|]. rewrite length_free_list by apply Hinv. apply Hinv.
Qed.
End client.
(** ** The demonstration machine after pmm_init *)

Definition demo_pmm : kstate :=
  match pmm_init demo_boot with Ret _ s => s | _ => demo_boot end.

Lemma demo_hhdm_ok s : hhdm_offset s = demo_hhdm -> hhdm_ok s.
Proof.
  unfold hhdm_ok. intros ->. unfold kmap, demo, demo_kmap, demo_hhdm, PHYS_LIMIT.
  split_and!; [lia|lia|]. intros p Hp.
  destruct (Z.leb_spec 0xFFFF800000000000 (0xFFFF800000000000 + p)); [|lia].
  destruct (Z.ltb_spec (0xFFFF800000000000 + p) (0xFFFF800000000000 + 0x100000000000)); simpl; lia.
Qed.

Lemma demo_memmap_ok : memmap_ok demo_memmap.
Proof.
  split.
  - intros e [i Hi]%list_elem_of_lookup _.
    destruct i as [|[|[|i]]]; simplify_eq/=; unfold mm_end, PHYS_LIMIT; simpl; lia.
  - intros i j e f Hi Hj Hij.
    destruct i as [|[|[|i]]], j as [|[|[|j]]]; simplify_eq/=;
      unfold usable, mm_end; simpl; intros; lia.
Qed.

Lemma demo_pmm_eq : exists u, pmm_init demo_boot = Ret u demo_pmm.
Proof. exists tt. vm_compute. reflexivity. Qed.

Lemma demo_pmm_inv : pmm_inv demo_pmm.
Proof.
  destruct demo_pmm_eq as [u Hu].
  pose proof (pmm_init_inv_lemma demo_memmap demo_boot eq_refl demo_memmap_ok
    (demo_hhdm_ok demo_boot eq_refl)) as Hw.
  by apply (wp_ret_eq _ _ _ _ _ Hw Hu).
Qed.

(** ** Properties *)

(** C22: With a memory map whose usable entries do not overlap, pmm_init returns
    with exactly the page frames of the usable entries from 64 KiB on (as many
    as the stack holds, in map order) on the free stack; each lies inside a
    usable entry, no page is there twice, and the allocator's invariant holds. *)
Theorem pmm_init_correct {P : Platform} (l : list memmap_entry) (s : kstate) :
  lim_memmap = Some l -> memmap_ok l -> hhdm_ok s ->
  wp pmm_init s (fun _ s' =>
    pmm_inv s' /\
    free_list s' = take (Z.to_nat MAX_PAGES) (mjoin (entry_pages <$> l)) /\
    (forall p, p ∈ free_list s' -> exists e, e ∈ l /\ page_in e p /\ 0x10000 <= p) /\
    pmm_frame s s').
Proof.
  intros Hl Hok Hh.
  pose proof (wp_conj _ _ _ _ (pmm_init_inv_lemma l s Hl Hok Hh) (pmm_init_spec l s Hl)) as Hw.
  eapply wp_mono; [exact Hw|]. intros _ s' ((? & ?) & ? & _ & ?). done.
Qed.

Lemma pmm_init_correct_witness :
  wp pmm_init demo_boot (fun _ s' => pmm_inv s' /\
    free_list s' = take (Z.to_nat MAX_PAGES) (mjoin (entry_pages <$> demo_memmap)) /\
    (forall p, p ∈ free_list s' ->
       exists e, e ∈ demo_memmap /\ page_in e p /\ 0x10000 <= p) /\
    pmm_frame demo_boot s').
Proof.
  exact (pmm_init_correct demo_memmap demo_boot eq_refl demo_memmap_ok
    (demo_hhdm_ok demo_boot eq_refl)).
Defined.

(** pmm_alloc_page returns NULL exactly when no page is free, and then only
    prints; otherwise it pops the page on top of the stack, that page reads as
    zeroes, all other memory and all other kernel state is unchanged, and the
    invariant holds again. *)
Theorem pmm_alloc_page_correct {P : Platform} (s : kstate) :
  pmm_inv s ->
  wp pmm_alloc_page s (fun p s' =>
    pmm_inv s' /\
    (p = 0 <-> free_list s = []) /\
    (free_list s = [] -> k_mem s' = k_mem s /\ k_pmm s' = k_pmm s /\ pmm_frame s s') /\
    (free_list s <> [] ->
       free_list s = free_list s' ++ [p] /\ page_ok p /\
       zeroed p (k_mem s) (k_mem s') /\ pmm_mem_frame s s' /\ k_con s' = k_con s)).
Proof.
  intros Hinv. destruct (decide (free_list s = [])) as [He|Hne].
  - eapply wp_eq; [apply pmm_alloc_empty; [done|apply Hinv]|].
    split_and!; [by destruct Hinv|done| |done]. intros _. split_and!; [done|done|apply pmm_frame_con].
  - wp_call pmm_alloc_ok; [done|done|]. intros p s' (? & Hok & ? & ? & ? & _ & ?).
    destruct Hok as (? & ? & ?) eqn:E. split_and!; try done. split; [lia|done].
Qed.

Lemma pmm_alloc_page_correct_witness :
  wp pmm_alloc_page demo_pmm (fun p s' =>
    pmm_inv s' /\ (p = 0 <-> free_list demo_pmm = []) /\
    (free_list demo_pmm = [] ->
       k_mem s' = k_mem demo_pmm /\ k_pmm s' = k_pmm demo_pmm /\ pmm_frame demo_pmm s') /\
    (free_list demo_pmm <> [] ->
       free_list demo_pmm = free_list s' ++ [p] /\ page_ok p /\
       zeroed p (k_mem demo_pmm) (k_mem s') /\ pmm_mem_frame demo_pmm s' /\
       k_con s' = k_con demo_pmm)).
Proof. exact (pmm_alloc_page_correct demo_pmm demo_pmm_inv). Defined.

(** Freeing a page and allocating again returns that very page, cleared, and
    leaves the stack of free pages as it was (the re-allocation that kernel_main
    tries out at boot). *)
Theorem pmm_free_alloc_lifo {P : Platform} (s : kstate) (p : Z) :
  pmm_inv s -> page_ok p -> p ∉ free_list s -> page_stack_top (k_pmm s) < MAX_PAGES ->
  wp (pmm_free_page p ;;; pmm_alloc_page) s (fun q s' =>
    q = p /\ free_list s' = free_list s /\ zeroed p (k_mem s) (k_mem s') /\ pmm_inv s').
Proof.
  intros Hinv Hok Hnin Hlt. apply wp_bind. wp_call pmm_free_inv; [done..|].
  intros _ s1 (Hfl & Hfr & _ & Hinv1 & _).
  wp_call pmm_alloc_ok; [done|rewrite Hfl; by destruct (free_list s)|].
  intros q s2 (Hq & _ & Hz & _ & Hinv2 & _). rewrite Hfl in Hq.
  apply app_inj_tail in Hq as [-> ->]. split_and!; [done|done| |done].
  by replace (k_mem s) with (k_mem s1) by (by rewrite Hfr).
Qed.

Lemma pmm_free_alloc_lifo_witness :
  wp (pmm_free_page 0x200000 ;;; pmm_alloc_page) demo_pmm (fun q s' =>
    q = 0x200000 /\ free_list s' = free_list demo_pmm /\
    zeroed 0x200000 (k_mem demo_pmm) (k_mem s') /\ pmm_inv s').
Proof.
  apply (pmm_free_alloc_lifo demo_pmm 0x200000 demo_pmm_inv).
  - unfold page_ok, PAGE_SIZE, PHYS_LIMIT. vm_compute. done.
  - apply (bool_decide_unpack _). vm_compute. exact I.
  - vm_compute. reflexivity.
Defined.

(** C4: Whatever a client does that frees only pages it holds, no page is handed
    out twice: the free pages and the client's pages together are the initial
    pool, each page once; and the used-memory counter is exact. *)
Theorem pmm_no_double_allocation {P : Platform} (s s' : kstate) (owned : list Z) :
  pmm_inv s -> total_pages (k_pmm s) = free_pages (k_pmm s) ->
  rtc pmm_step (s, []) (s', owned) ->
  free_list s' ++ owned ≡ₚ free_list s /\ NoDup (free_list s' ++ owned) /\ pmm_inv s' /\
  pmm_get_used_memory s' = Ret (PAGE_SIZE * Z.of_nat (length owned)) s'.
Proof.
  intros Hinv Htf Hs. destruct (pmm_reachable s s' owned Hinv Hs) as [Hinv' Hperm Htot].
  simpl in *. split_and!; [done|by rewrite Hperm; apply Hinv|done|].
  unfold pmm_get_used_memory, gets. f_equal.
  assert (Hlen : Z.of_nat (length owned) = page_stack_top (k_pmm s) - page_stack_top (k_pmm s')).
  { rewrite <- !length_free_list by (apply Hinv || apply Hinv').
    apply Permutation_length in Hperm. rewrite length_app in Hperm. lia. }
  rewrite Htot, Htf, (inv_free _ Hinv), (inv_free _ Hinv').
  pose proof (inv_top _ Hinv). pose proof (inv_top _ Hinv').
  unfold PAGE_SIZE, MAX_PAGES in *. rewrite (u64_small (_ - _)) by lia. rewrite u64_small; lia.
Qed.

Lemma pmm_no_double_allocation_witness :
  exists s' p, rtc pmm_step (demo_pmm, []) (s', [p]) /\ p <> 0 /\
    free_list s' ++ [p] ≡ₚ free_list demo_pmm /\ NoDup (free_list s' ++ [p]) /\ pmm_inv s' /\
    pmm_get_used_memory s' = Ret (PAGE_SIZE * Z.of_nat (length [p])) s'.
Proof.
  destruct (wp_inv _ _ _ (pmm_alloc_ok demo_pmm demo_pmm_inv ltac:(vm_compute; done)))
    as (p & s' & Ha & _ & (_ & Hp & _) & _).
  assert (Hs : rtc pmm_step (demo_pmm, []) (s', [p])).
  { eapply rtc_once, step_alloc; [exact Ha|lia]. }
  exists s', p. split_and!; [exact Hs|lia|..];
    apply (pmm_no_double_allocation demo_pmm s' [p] demo_pmm_inv ltac:(vm_compute; done) Hs).
Defined.
