(* ===== verification/PageTable.v ===== *)
(** * x86-64 page tables in memory

    What the processor's page walk reads, independently of the code that builds
    the tables: entries, table addresses along a path of indices, the walk, and
    how a store into one table slot changes what the walk finds.  The tables of
    an address space form a tree; a slot is named by the path to its table and
    its index. *)
From S2P Require Import Prelude Memory State Pmm.

(** ** Entries *)

Definition PAGE_PRESENT : Z := 1.
Definition PAGE_WRITE : Z := 2.
Definition PAGE_USER : Z := 4.
Definition PAGE_HUGE : Z := 128.
Definition PAGE_NO_EXECUTE : Z := 9223372036854775808.

(** The address field of an entry (vmm.c, entry_to_phys). *)
Definition ENTRY_MASK : Z := 0x000FFFFFFFFFF000.
Definition entry_to_phys (entry : Z) : Z := Z.land entry ENTRY_MASK.

Definition present (e : Z) : bool := Z.testbit e 0.
Definition user (e : Z) : bool := Z.testbit e 2.
Definition huge (e : Z) : bool := Z.testbit e 7.

(** An entry that refers to a table of the next level. *)
Definition is_table (e : Z) : bool := present e && negb (huge e).

(** ** Tables and the walk *)

Definition slot (p i : Z) : Z := p + 8 * i.
Definition idx_ok (i : Z) : Prop := 0 <= i < 512.

(** The table reached from the table at [p] along the indices [pi]. *)
Fixpoint tab (m : gmap Z Z) (p : Z) (pi : list Z) : option Z :=
  match pi with
  | [] => Some p
  | i :: pi =>
      let e := load64 (slot p i) m in
      if is_table e then tab m (entry_to_phys e) pi else None
  end.

(** The processor's walk: the entry that maps the page and the level it was
    found at (0: page table, 1: page directory, 2: PDPT). *)
Fixpoint walk (m : gmap Z Z) (p : Z) (idxs : list Z) : option (Z * nat) :=
  match idxs with
  | [] => None
  | i :: rest =>
      let e := load64 (slot p i) m in
      if present e then
        match rest with
        | [] => Some (e, 0%nat)
        | _ => if huge e then Some (e, length rest) else walk m (entry_to_phys e) rest
        end
      else None
  end.

(** The indices of a virtual address (vmm.c). *)
Definition pml4_index (vaddr : Z) : Z := Z.land (Z.shiftr vaddr 39) 0x1FF.
Definition pdpt_index (vaddr : Z) : Z := Z.land (Z.shiftr vaddr 30) 0x1FF.
Definition pd_index (vaddr : Z) : Z := Z.land (Z.shiftr vaddr 21) 0x1FF.
Definition pt_index (vaddr : Z) : Z := Z.land (Z.shiftr vaddr 12) 0x1FF.

Definition idxs (v : Z) : list Z := [pml4_index v; pdpt_index v; pd_index v; pt_index v].

(** The physical address of [v], as the processor computes it; a set PS bit in a
    PML4 entry is reserved and faults. *)
Definition translate (m : gmap Z Z) (root v : Z) : option Z :=
  match walk m root (idxs v) with
  | Some (e, 0%nat) => Some (entry_to_phys e + v mod 2 ^ 12)
  | Some (e, 1%nat) => Some (entry_to_phys e - entry_to_phys e mod 2 ^ 21 + v mod 2 ^ 21)
  | Some (e, 2%nat) => Some (entry_to_phys e - entry_to_phys e mod 2 ^ 30 + v mod 2 ^ 30)
  | _ => None
  end.

(** Every entry on the walk has the user bit: the page is accessible in ring 3. *)
Fixpoint user_path (m : gmap Z Z) (p : Z) (idxs : list Z) : bool :=
  match idxs with
  | [] => true
  | i :: rest =>
      let e := load64 (slot p i) m in
      user e && (if huge e then true else user_path m (entry_to_phys e) rest)
  end.

(** ** Bits of entries *)

Lemma entry_mask_alt : ENTRY_MASK = Z.ldiff (Z.ones 52) (Z.ones 12).
Proof. reflexivity. Qed.

Lemma entry_to_phys_aligned p :
  0 <= p < 2 ^ 52 -> p mod PAGE_SIZE = 0 -> entry_to_phys p = p.
Proof.
  intros Hp Hm. unfold entry_to_phys. rewrite entry_mask_alt, Z.ldiff_land, Z.land_assoc.
  rewrite Z.land_ones, Z.mod_small by lia. rewrite <- Z.ldiff_land, Z.ldiff_ones_r by lia.
  rewrite Z.shiftl_mul_pow2, Z.shiftr_div_pow2 by lia. change (2 ^ 12) with PAGE_SIZE.
  unfold PAGE_SIZE in *. zlia.
Qed.

Lemma entry_to_phys_range e : 0 <= e -> 0 <= entry_to_phys e < 2 ^ 52.
Proof.
  intros He. unfold entry_to_phys. rewrite entry_mask_alt, Z.ldiff_land, Z.land_assoc.
  rewrite Z.land_comm, Z.land_assoc, Z.land_ones by lia. apply Z.mod_pos_bound. lia.
Qed.

Lemma entry_to_phys_mod e : 0 <= e -> entry_to_phys e mod PAGE_SIZE = 0.
Proof.
  intros He. unfold entry_to_phys, PAGE_SIZE. change 4096 with (2 ^ 12).
  rewrite <- Z.land_ones, <- Z.land_assoc by lia.
  change (Z.land ENTRY_MASK (Z.ones 12)) with 0. apply Z.land_0_r.
Qed.

Lemma aligned_low_bit p n : p mod PAGE_SIZE = 0 -> 0 <= n < 12 -> Z.testbit p n = false.
Proof.
  intros Hm Hn. change PAGE_SIZE with (2 ^ 12) in Hm.
  rewrite <- (Z.mod_pow2_bits_low p 12 n) by lia. by rewrite Hm, Z.bits_0.
Qed.

(** An entry made of a page address and flags outside the address field. *)
Lemma entry_to_phys_lor p f :
  0 <= p < 2 ^ 52 -> p mod PAGE_SIZE = 0 -> Z.land f ENTRY_MASK = 0 ->
  entry_to_phys (Z.lor p f) = p.
Proof.
  intros Hp Hm Hf. unfold entry_to_phys. rewrite Z.land_lor_distr_l, Hf, Z.lor_0_r.
  by apply entry_to_phys_aligned.
Qed.

Lemma flag_lor p f n :
  p mod PAGE_SIZE = 0 -> 0 <= n < 12 -> Z.testbit (Z.lor p f) n = Z.testbit f n.
Proof. intros. by rewrite Z.lor_spec, aligned_low_bit. Qed.

(** A flag test of the code is a test of the bit. *)

Lemma present_truthy e : truthy (Z.land e PAGE_PRESENT) = present e.
Proof. apply (truthy_land_pow2 e 0). lia. Qed.
Lemma user_truthy e : truthy (Z.land e PAGE_USER) = user e.
Proof. apply (truthy_land_pow2 e 2). lia. Qed.
Lemma huge_truthy e : truthy (Z.land e PAGE_HUGE) = huge e.
Proof. apply (truthy_land_pow2 e 7). lia. Qed.

(** Adding the user bit to an entry leaves its address and its other bits. *)
Lemma land_user_cases f : Z.land f PAGE_USER = if user f then 4 else 0.
Proof.
  apply Z.bits_inj'. intros k Hk. rewrite Z.land_spec. change PAGE_USER with (2 ^ 2).
  destruct (decide (k = 2)) as [->|Hne].
  - rewrite Z.pow2_bits_true, andb_true_r by lia. unfold user. by destruct (Z.testbit f 2).
  - rewrite Z.pow2_bits_false, andb_false_r by lia.
    destruct (user f); [|by rewrite Z.bits_0]. change 4 with (2 ^ 2). by rewrite Z.pow2_bits_false by lia.
Qed.

Lemma lor_user_bit e f n :
  0 <= n -> Z.testbit (Z.lor e (Z.land f PAGE_USER)) n
            = Z.testbit e n || (bool_decide (n = 2) && user f).
Proof.
  intros Hn. rewrite Z.lor_spec, Z.land_spec. change PAGE_USER with (2 ^ 2).
  case_bool_decide as H; [subst n|].
  - rewrite Z.pow2_bits_true by lia. by rewrite andb_true_r.
  - by rewrite Z.pow2_bits_false, andb_false_r by lia.
Qed.

Lemma entry_to_phys_lor_user e f :
  entry_to_phys (Z.lor e (Z.land f PAGE_USER)) = entry_to_phys e.
Proof.
  unfold entry_to_phys. rewrite Z.land_lor_distr_l, <- Z.land_assoc.
  change (Z.land PAGE_USER ENTRY_MASK) with 0. by rewrite Z.land_0_r, Z.lor_0_r.
Qed.

Lemma idx_land v : idx_ok (Z.land v 0x1FF).
Proof. unfold idx_ok. change 0x1FF with (Z.ones 9). rewrite Z.land_ones by lia. zlia. Qed.
(** A path of known indices. *)
Ltac idx_path :=
  repeat first [ apply Forall_nil_2 | apply Forall_cons_2; [assumption || apply idx_land|] ].
Lemma idxs_ok v : Forall idx_ok (idxs v).
Proof. repeat constructor; apply idx_land. Qed.

(** ** Paths *)

Lemma tab_app m p pi1 pi2 :
  tab m p (pi1 ++ pi2) = match tab m p pi1 with Some q => tab m q pi2 | None => None end.
Proof.
  revert p. induction pi1 as [|i pi1 IH]; intros p; simpl; [done|]. case_match; [apply IH|done].
Qed.

Lemma walk_app m p pi q rest :
  rest <> [] -> tab m p pi = Some q -> walk m p (pi ++ rest) = walk m q rest.
Proof.
  intros Hne. revert p. induction pi as [|i pi IH]; intros p Ht; simpl in *; [by simplify_eq|].
  unfold is_table in Ht. destruct (present _) eqn:Ep; simpl in Ht; [|done].
  destruct (huge _) eqn:Eh; simpl in Ht; [done|].
  destruct (pi ++ rest) eqn:E; [by destruct pi|]. by apply IH.
Qed.

(** Two entries that the walk cannot tell apart above the last level. *)
Definition same_ptr (e e' : Z) : Prop :=
  present e' = present e /\ huge e' = huge e /\ entry_to_phys e' = entry_to_phys e.

Lemma same_ptr_refl e : same_ptr e e.
Proof. done. Qed.
Lemma same_ptr_is_table e e' : same_ptr e e' -> is_table e' = is_table e.
Proof. intros (H1 & H2 & _). unfold is_table. by rewrite H1, H2. Qed.

(** A path whose slots all hold equivalent entries leads to the same table. *)
Lemma tab_ext m m' p pi :
  (forall pi1 j pi2 q, pi = pi1 ++ j :: pi2 -> tab m p pi1 = Some q ->
     same_ptr (load64 (slot q j) m) (load64 (slot q j) m')) ->
  tab m' p pi = tab m p pi.
Proof.
  revert p. induction pi as [|i pi IH]; intros p H; simpl; [done|].
  pose proof (H [] i pi p eq_refl eq_refl) as Hp.
  rewrite (same_ptr_is_table _ _ Hp). destruct (is_table _) eqn:E; [|done].
  destruct Hp as (_ & _ & ->). apply IH. intros pi1 j pi2 q -> Ht.
  apply (H (i :: pi1) j pi2 q); [done|]. simpl. by rewrite E.
Qed.

(** ... and a walk along slots that are unchanged, or equivalent pointers to
    tables, finds the same entry. *)
Lemma walk_ext m m' p ids :
  (forall pi1 j pi2 q, ids = pi1 ++ j :: pi2 -> tab m p pi1 = Some q ->
     load64 (slot q j) m' = load64 (slot q j) m \/
     (pi2 <> [] /\ huge (load64 (slot q j) m) = false /\
      same_ptr (load64 (slot q j) m) (load64 (slot q j) m'))) ->
  walk m' p ids = walk m p ids.
Proof.
  revert p. induction ids as [|i ids IH]; intros p H; [done|]. cbn [walk].
  assert (HI : is_table (load64 (slot p i) m) = true ->
    walk m' (entry_to_phys (load64 (slot p i) m)) ids = walk m (entry_to_phys (load64 (slot p i) m)) ids).
  { intros E. apply IH. intros pi1 j pi2 q -> Ht. apply (H (i :: pi1) j pi2 q); [done|].
    simpl. by rewrite E. }
  unfold is_table in HI.
  destruct (H [] i ids p eq_refl eq_refl) as [->|(Hne & Hh & H1 & H2 & H3)].
  - destruct (present _); [|done]. destruct ids; [done|]. destruct (huge _); [done|]. by apply HI.
  - rewrite H1, H2, H3, Hh in *. destruct (present _); [|done]. destruct ids; [done|]. by apply HI.
Qed.

(** ** The tables of an address space *)

(** The tables of the address space rooted at [root] are page frames outside
    [free], and different paths lead to different tables. *)
Record tree_ok (m : gmap Z Z) (root : Z) (free : list Z) : Prop := {
  tree_pages : forall pi q, (length pi <= 3)%nat -> Forall idx_ok pi ->
    tab m root pi = Some q -> page_ok q /\ q ∉ free;
  tree_inj : forall pi1 pi2 q, (length pi1 <= 3)%nat -> (length pi2 <= 3)%nat ->
    Forall idx_ok pi1 -> Forall idx_ok pi2 ->
    tab m root pi1 = Some q -> tab m root pi2 = Some q -> pi1 = pi2;
}.

Lemma page_ok_disjoint p q i j :
  page_ok p -> page_ok q -> idx_ok i -> idx_ok j -> (p, i) <> (q, j) ->
  slot p i + 8 <= slot q j \/ slot q j + 8 <= slot p i.
Proof.
  intros (Hp & _) (Hq & _) Hi Hj Hne. unfold slot, idx_ok, PAGE_SIZE in *.
  destruct (decide (p = q)) as [->|Hpq].
  - assert (i <> j) by congruence. lia.
  - assert (p < q \/ q < p) as [H|H] by lia; [left|right]; zlia.
Qed.

Lemma slot_in_page p i n :
  page_ok p -> page_ok n -> idx_ok i -> p <> n ->
  slot p i + 8 <= n \/ n + PAGE_SIZE <= slot p i.
Proof. intros (Hp & _) (Hn & _) Hi Hne. unfold slot, idx_ok, PAGE_SIZE in *. zlia. Qed.

(** Slots of different names are disjoint in memory. *)
Lemma slots_disjoint m root free pi1 i1 p1 pi2 i2 p2 :
  tree_ok m root free ->
  (length pi1 <= 3)%nat -> (length pi2 <= 3)%nat -> Forall idx_ok pi1 -> Forall idx_ok pi2 ->
  idx_ok i1 -> idx_ok i2 ->
  tab m root pi1 = Some p1 -> tab m root pi2 = Some p2 -> (pi1, i1) <> (pi2, i2) ->
  slot p1 i1 + 8 <= slot p2 i2 \/ slot p2 i2 + 8 <= slot p1 i1.
Proof.
  intros Ht L1 L2 F1 F2 I1 I2 T1 T2 Hne.
  apply page_ok_disjoint;
    [by apply (tree_pages _ _ _ Ht pi1)|by apply (tree_pages _ _ _ Ht pi2)|done|done|].
  intros [= -> ->]. apply Hne. f_equal. by eapply (tree_inj _ _ _ Ht).
Qed.

Lemma path_snoc_ok pi i : Forall idx_ok pi -> idx_ok i -> Forall idx_ok (pi ++ [i]).
Proof. intros. apply Forall_app. split; [done|]. by apply Forall_singleton. Qed.

Lemma Forall_split {A} (Q : A -> Prop) l1 x l2 :
  Forall Q (l1 ++ x :: l2) -> Forall Q l1 /\ Q x /\ Forall Q l2.
Proof. rewrite Forall_app, Forall_cons. tauto. Qed.

(** A path either runs through the slot [(pi, i)] or never reads it. *)
Lemma path_through (pi : list Z) i (ids : list Z) :
  (exists rest, ids = pi ++ i :: rest) \/
  (forall pi1 j pi2, ids = pi1 ++ j :: pi2 -> (pi1, j) <> (pi, i)).
Proof.
  destruct (decide (pi ++ [i] `prefix_of` ids)) as [[rest ->]|Hn].
  - left. exists rest. by rewrite <- app_assoc.
  - right. intros pi1 j pi2 -> [= -> ->]. apply Hn. exists pi2. by rewrite <- app_assoc.
Qed.

(** ** Writing one slot *)

Section slot_write.
Context (m : gmap Z Z) (root : Z) (free : list Z) (Ht : tree_ok m root free).
Context (pi : list Z) (i p : Z).
Context (Hlen : (length pi <= 3)%nat) (Hpi : Forall idx_ok pi) (Hi : idx_ok i).
Context (Hp : tab m root pi = Some p).

(** [m'] agrees with [m] on every slot of the tree but [(pi, i)]. *)
Definition other_slots (m' : gmap Z Z) : Prop :=
  forall pi1 j q, (length pi1 <= 3)%nat -> Forall idx_ok pi1 -> idx_ok j ->
    tab m root pi1 = Some q -> (pi1, j) <> (pi, i) ->
    load64 (slot q j) m' = load64 (slot q j) m.

Lemma other_slots_store v : other_slots (store64 (slot p i) v m).
Proof.
  intros pi1 j q Hl1 Hf1 Hj Hq Hne. apply load_store64_ne.
  eapply (slots_disjoint m root free pi1 j q pi i p); eauto.
Qed.

(** A store next to the zeroing of a free page. *)
Lemma other_slots_zeroed n m1 v :
  n ∈ free -> page_ok n -> zeroed n m m1 -> other_slots (store64 (slot p i) v m1).
Proof.
  intros Hn Hnok Hz pi1 j q Hl1 Hf1 Hj Hq Hne.
  destruct (tree_pages _ _ _ Ht pi1 q Hl1 Hf1 Hq) as [Hqok Hqf].
  assert (q <> n) by (intros ->; done).
  pose proof (slot_in_page q j n Hqok Hnok Hj ltac:(done)) as Hd.
  transitivity (load64 (slot q j) m1).
  - apply load_store64_ne. eapply (slots_disjoint m root free pi1 j q pi i p); eauto.
  - apply load_le_ext. intros a Ha. rewrite Hz. by rewrite decide_False by lia.
Qed.

Context (m' : gmap Z Z) (Hother : other_slots m').
Let e := load64 (slot p i) m.
Let e' := load64 (slot p i) m'.

Lemma split_other pi1 j pi2 q ids :
  (length ids <= 4)%nat -> Forall idx_ok ids -> ids = pi1 ++ j :: pi2 ->
  tab m root pi1 = Some q -> (pi1, j) <> (pi, i) ->
  load64 (slot q j) m' = load64 (slot q j) m.
Proof.
  intros Hl Hf -> Hq Hne. rewrite length_app in Hl. simpl in Hl.
  apply Forall_split in Hf as (? & ? & _). apply (Hother pi1 j q); try done. lia.
Qed.

(** Paths that avoid the slot are unaffected. *)
Lemma tab_avoid ids :
  (length ids <= 4)%nat -> Forall idx_ok ids ->
  (forall pi1 j pi2, ids = pi1 ++ j :: pi2 -> (pi1, j) <> (pi, i)) ->
  tab m' root ids = tab m root ids.
Proof.
  intros Hl Hf Hav. apply tab_ext. intros pi1 j pi2 q Hs Hq.
  rewrite (split_other pi1 j pi2 q ids) by eauto. apply same_ptr_refl.
Qed.
Lemma walk_avoid ids :
  (length ids <= 4)%nat -> Forall idx_ok ids ->
  (forall pi1 j pi2, ids = pi1 ++ j :: pi2 -> (pi1, j) <> (pi, i)) ->
  walk m' root ids = walk m root ids.
Proof.
  intros Hl Hf Hav. apply walk_ext. intros pi1 j pi2 q Hs Hq. left.
  by rewrite (split_other pi1 j pi2 q ids) by eauto.
Qed.

(** The path to the slot itself avoids it. *)
Lemma tab_self : tab m' root pi = Some p.
Proof.
  rewrite tab_avoid; [done|lia|done|]. intros pi1 j pi2 E [= -> ->].
  apply (f_equal length) in E. rewrite length_app in E. simpl in E. lia.
Qed.

(** *** An equivalent pointer *)

Section same_pointer.
Context (Hsame : same_ptr e e') (Hnh : huge e = false) (Hl2 : (length pi <= 2)%nat).

Lemma same_pointer_slot ids pi1 j pi2 q :
  (length ids <= 4)%nat -> Forall idx_ok ids -> ids = pi1 ++ j :: pi2 ->
  tab m root pi1 = Some q -> same_ptr (load64 (slot q j) m) (load64 (slot q j) m').
Proof.
  intros Hl Hf Hs Hq. destruct (decide ((pi1, j) = (pi, i))) as [[= -> ->]|Hne].
  - rewrite Hp in Hq. by injection Hq as <-.
  - rewrite (split_other pi1 j pi2 q ids) by done. apply same_ptr_refl.
Qed.

Lemma same_pointer_tab ids :
  (length ids <= 4)%nat -> Forall idx_ok ids -> tab m' root ids = tab m root ids.
Proof. intros. apply tab_ext. eauto using same_pointer_slot. Qed.

Lemma same_pointer_walk ids :
  length ids = 4%nat -> Forall idx_ok ids -> walk m' root ids = walk m root ids.
Proof.
  intros Hl Hf. apply walk_ext. intros pi1 j pi2 q Hs Hq.
  destruct (decide ((pi1, j) = (pi, i))) as [[= -> ->]|Hne].
  - right. rewrite Hp in Hq. injection Hq as <-. split_and!; [|done|done].
    intros ->. rewrite Hs, length_app in Hl. simpl in Hl. lia.
  - left. by rewrite (split_other pi1 j pi2 q ids) by (done || lia).
Qed.

Lemma same_pointer_tree : tree_ok m' root free.
Proof.
  destruct Ht as [H1 H2]. constructor.
  - intros pi' q Hl Hf. rewrite same_pointer_tab by (done || lia). by apply H1.
  - intros pi1 pi2 q Hl1 Hl2' Hf1 Hf2. rewrite !same_pointer_tab by (done || lia). by apply H2.
Qed.
End same_pointer.

(** *** A new, empty table *)

Section new_table.
Context (n : Z) (free' : list Z).
Context (Hfree : free = free' ++ [n]) (Hnd : NoDup free) (Hn : page_ok n).
Context (Habs : present e = false) (Hnew : is_table e' = true) (Haddr : entry_to_phys e' = n).
Context (Hzero : forall j, idx_ok j -> load64 (slot n j) m' = 0) (Hl2 : (length pi <= 2)%nat).

Lemma new_table_step : tab m' root (pi ++ [i]) = Some n.
Proof. rewrite tab_app, tab_self. simpl. fold e'. by rewrite Hnew, Haddr. Qed.

Lemma new_table_below rest j :
  idx_ok j -> tab m' root (pi ++ i :: j :: rest) = None.
Proof.
  intros Hj. change (i :: j :: rest) with ([i] ++ j :: rest).
  rewrite app_assoc, tab_app, new_table_step. simpl. by rewrite Hzero.
Qed.

Lemma new_table_tab ids q :
  (length ids <= 3)%nat -> Forall idx_ok ids -> tab m' root ids = Some q ->
  tab m root ids = Some q \/ (ids = pi ++ [i] /\ q = n).
Proof.
  intros Hl Hf Hq. destruct (path_through pi i ids) as [[rest ->]|Hav].
  - destruct rest as [|j rest].
    + right. rewrite new_table_step in Hq. by simplify_eq.
    + apply Forall_split in Hf as (_ & _ & Hf). apply Forall_cons in Hf as [Hj _].
      by rewrite new_table_below in Hq.
  - left. rewrite <- tab_avoid; [done|lia|done|done].
Qed.

Lemma new_table_walk ids :
  length ids = 4%nat -> Forall idx_ok ids -> walk m' root ids = walk m root ids.
Proof.
  intros Hl Hf. destruct (path_through pi i ids) as [[rest ->]|Hav].
  2:{ apply walk_avoid; [lia|done|done]. }
  destruct rest as [|j rest]; [rewrite length_app in Hl; simpl in Hl; lia|].
  apply Forall_split in Hf as (_ & _ & Hf). apply Forall_cons in Hf as [Hj _].
  rewrite (walk_app m root pi p) by done. cbn [walk]. fold e. rewrite Habs.
  rewrite (walk_app m' root pi p) by (done || apply tab_self). cbn [walk]. fold e'.
  unfold is_table in Hnew. apply andb_prop in Hnew as [-> Hh].
  apply negb_true_iff in Hh as ->. rewrite Haddr. cbn [walk]. by rewrite Hzero.
Qed.

Lemma new_table_tree : tree_ok m' root free'.
Proof.
  assert (Hnf : n ∈ free) by (rewrite Hfree; apply elem_of_app; right; by constructor).
  pose proof Hnd as Hnd0. rewrite Hfree in Hnd0. apply NoDup_app in Hnd0 as (_ & Hnd' & _).
  assert (Hsub : forall x, x ∈ free' -> x ∈ free)
    by (intros x Hx; rewrite Hfree; apply elem_of_app; by left).
  assert (Hold : forall pi' , (length pi' <= 3)%nat -> Forall idx_ok pi' -> tab m root pi' <> Some n).
  { intros pi' Hl Hf Hq. by apply (tree_pages _ _ _ Ht) in Hq as [_ ?]. }
  constructor.
  - intros pi' q Hl Hf Hq. apply new_table_tab in Hq as [Hq|[-> ->]]; [| |done|done].
    + destruct (tree_pages _ _ _ Ht pi' q Hl Hf Hq) as [? Hnin]. split; [done|].
      intros Hx. by apply Hnin, Hsub.
    + split; [done|]. intros Hx. apply (Hnd' n Hx). by constructor.
  - intros pi1 pi2 q Hl1 Hl2' Hf1 Hf2 Hq1 Hq2.
    apply new_table_tab in Hq1 as [Hq1|[-> ->]]; [| |done|done];
    apply new_table_tab in Hq2 as [Hq2|[-> Hqn]]; try done.
    + by eapply (tree_inj _ _ _ Ht).
    + subst q. by apply Hold in Hq1.
    + by apply Hold in Hq2.
Qed.
End new_table.

(** *** A leaf, or nothing *)

Section leaf.
Context (Hleaf : length pi = 3%nat \/ is_table e' = false).

Lemma leaf_tab ids q :
  (length ids <= 3)%nat -> Forall idx_ok ids -> tab m' root ids = Some q ->
  tab m root ids = Some q.
Proof.
  intros Hl Hf Hq. destruct (path_through pi i ids) as [[rest ->]|Hav].
  - destruct Hleaf as [H3|Hnt]; [rewrite length_app in Hl; simpl in Hl; lia|].
    rewrite tab_app, tab_self in Hq. simpl in Hq. fold e' in Hq. by rewrite Hnt in Hq.
  - rewrite <- tab_avoid; [done|lia|done|done].
Qed.

Lemma leaf_tree : tree_ok m' root free.
Proof.
  destruct Ht as [H1 H2]. constructor; intros.
  - eapply H1; eauto using leaf_tab.
  - eapply H2; eauto using leaf_tab.
Qed.

Lemma leaf_walk_through rest : walk m' root (pi ++ i :: rest) = walk m' p (i :: rest).
Proof. apply walk_app; [done|apply tab_self]. Qed.
End leaf.
End slot_write.
