(* ===== verification/Vmm.v ===== *)
(** * The virtual memory manager (kernel/vmm.c): operations

    Page tables live in memory and are reached through the direct map, as in the
    code; an [address_space_t *] is NULL, the address of the kernel's own
    address space, or a pointer into memory. *)
From S2P Require Import Prelude Memory State Pmm PageTable.

Inductive as_ptr := AsNull | AsKernel | AsAt (v : Z).
#[global] Instance as_ptr_eq_dec : EqDecision as_ptr.
Proof. solve_decision. Defined.

Section vmm.
Context {P : Platform}.

Definition phys_to_virt (phys : Z) : K Z := gets (fun s => u64 (phys + hhdm_offset s)).

Definition virt_to_phys (virt : Z) : K Z :=
  h <- gets hhdm_offset ;;
  if (virt >=? h) && (virt <? u64 (h + 0x100000000000)) then ret (u64 (virt - h))
  else if virt >=? 0xFFFFFFFF80000000 then ret (virt - 0xFFFFFFFF80000000)
  else ret virt.

(** [&table->entries[i]]. *)
Definition entry_ptr (table i : Z) : Z := u64 (table + 8 * i).

(** Returns the virtual address of the table, 0 for NULL. *)
Definition get_or_create_table (entry flags : Z) : K Z :=
  e <- rd64 entry ;;
  if truthy (Z.land e PAGE_PRESENT) then
    wr64 entry (Z.lor e (Z.land flags PAGE_USER)) ;;;
    e <- rd64 entry ;;
    phys_to_virt (entry_to_phys e)
  else
    phys <- pmm_alloc_page ;;
    if phys =? 0 then ret 0
    else
      table_virt <- phys_to_virt phys ;;
      for_range 0 512 (fun i => wr64 (entry_ptr table_virt i) 0) ;;;
      wr64 entry (Z.lor phys flags) ;;;
      ret table_virt.

Definition vmm_init : K unit :=
  kprintln "VMM: Initializing virtual memory manager..." ;;;
  match lim_executable with
  | None => kprintln "VMM: Error: No kernel address info from bootloader!"
  | Some (kernel_phys_base, kernel_virt_base) =>
      kprint "VMM: Kernel physical base: " ;;;
      kprint_hex kernel_phys_base ;;;
      kprintln "" ;;;
      kprint "VMM: Kernel virtual base: " ;;;
      kprint_hex kernel_virt_base ;;;
      kprintln "" ;;;
      cr3 <- getr CR3 ;;
      let current_cr3 := Z.land cr3 (u64 (Z.lnot 0xFFF)) in
      v <- phys_to_virt current_cr3 ;;
      modify (set_kernel_address_space (fun _ => mkAs v current_cr3)) ;;;
      kprintln "VMM: Virtual memory manager initialized" ;;;
      kprintln "VMM: Page tables ready for use"
  end.

(** [as->pml4] and [as->cr3_value]; the null pointer has no fields. *)
Definition as_pml4 (a : as_ptr) : K Z :=
  match a with
  | AsNull => fails NullPointer
  | AsKernel => gets (fun s => pml4 (kernel_address_space s))
  | AsAt v => rd64 v
  end.
Definition as_cr3 (a : as_ptr) : K Z :=
  match a with
  | AsNull => fails NullPointer
  | AsKernel => gets (fun s => cr3_value (kernel_address_space s))
  | AsAt v => rd64 (u64 (v + 8))
  end.

Definition is_null (a : as_ptr) : bool := match a with AsNull => true | _ => false end.

(** [!as || !as->pml4]. *)
Definition as_invalid (a : as_ptr) : K bool :=
  if is_null a then ret true else p <- as_pml4 a ;; ret (p =? 0).

Definition invlpg (v : Z) : K unit := modify (set_flush (fun l => l ++ [v])).

Definition vmm_map_page (a : as_ptr) (virt phys flags : Z) : K Z :=
  bad <- as_invalid a ;;
  if (bad : bool) then ret (-1)
  else
    let pml4_i := pml4_index virt in
    let pdpt_i := pdpt_index virt in
    let pd_i := pd_index virt in
    let pt_i := pt_index virt in
    let tflags := Z.lor (Z.lor PAGE_PRESENT PAGE_WRITE) (Z.land flags PAGE_USER) in
    top <- as_pml4 a ;;
    pdpt <- get_or_create_table (entry_ptr top pml4_i) tflags ;;
    if pdpt =? 0 then ret (-1)
    else if truthy (Z.land flags PAGE_HUGE) && (pd_i =? 0) && (pt_i =? 0) then
      wr64 (entry_ptr pdpt pdpt_i) (Z.lor phys flags) ;;; ret 0
    else
      pd <- get_or_create_table (entry_ptr pdpt pdpt_i) tflags ;;
      if pd =? 0 then ret (-1)
      else if truthy (Z.land flags PAGE_HUGE) then
        wr64 (entry_ptr pd pd_i) (Z.lor phys flags) ;;; ret 0
      else
        pt <- get_or_create_table (entry_ptr pd pd_i) tflags ;;
        if pt =? 0 then ret (-1)
        else
          wr64 (entry_ptr pt pt_i) (Z.lor phys flags) ;;;
          invlpg virt ;;;
          ret 0.

Definition vmm_unmap_page (a : as_ptr) (virt : Z) : K unit :=
  bad <- as_invalid a ;;
  if (bad : bool) then ret tt
  else
    let pml4_i := pml4_index virt in
    let pdpt_i := pdpt_index virt in
    let pd_i := pd_index virt in
    let pt_i := pt_index virt in
    top <- as_pml4 a ;;
    e4 <- rd64 (entry_ptr top pml4_i) ;;
    if negb (truthy (Z.land e4 PAGE_PRESENT)) then ret tt
    else
      pdpt <- phys_to_virt (entry_to_phys e4) ;;
      e3 <- rd64 (entry_ptr pdpt pdpt_i) ;;
      if negb (truthy (Z.land e3 PAGE_PRESENT)) then ret tt
      else if truthy (Z.land e3 PAGE_HUGE) then
        wr64 (entry_ptr pdpt pdpt_i) 0 ;;; invlpg virt
      else
        pd <- phys_to_virt (entry_to_phys e3) ;;
        e2 <- rd64 (entry_ptr pd pd_i) ;;
        if negb (truthy (Z.land e2 PAGE_PRESENT)) then ret tt
        else if truthy (Z.land e2 PAGE_HUGE) then
          wr64 (entry_ptr pd pd_i) 0 ;;; invlpg virt
        else
          pt <- phys_to_virt (entry_to_phys e2) ;;
          wr64 (entry_ptr pt pt_i) 0 ;;;
          invlpg virt.

Definition vmm_switch_address_space (a : as_ptr) : K unit :=
  if is_null a then ret tt else c <- as_cr3 a ;; setr CR3 c.

Definition vmm_get_kernel_address_space : as_ptr := AsKernel.

(** The copy of the kernel's upper half, entry by entry. *)
Definition copy_upper (a : Z) : K unit :=
  for_range 256 512 (fun i =>
    top <- rd64 a ;;
    k <- gets (fun s => pml4 (kernel_address_space s)) ;;
    e <- rd64 (entry_ptr k i) ;;
    wr64 (entry_ptr top i) e).

(** The part of vmm_create_address_space after both allocations succeeded. *)
Definition fill_space (a pml4_phys : Z) : K as_ptr :=
  v <- phys_to_virt pml4_phys ;;
  wr64 a v ;;;
  wr64 (u64 (a + 8)) pml4_phys ;;;
  copy_upper a ;;;
  ret (AsAt a).

Definition vmm_create_address_space : K as_ptr :=
  as_phys <- pmm_alloc_page ;;
  if as_phys =? 0 then ret AsNull
  else
    a <- phys_to_virt as_phys ;;
    pml4_phys <- pmm_alloc_page ;;
    if pml4_phys =? 0 then pmm_free_page as_phys ;;; ret AsNull
    else fill_space a pml4_phys.

Definition vmm_destroy_address_space (a : as_ptr) : K unit :=
  match a with
  | AsNull | AsKernel => ret tt
  | AsAt v =>
      top <- as_pml4 a ;;
      (when truthy top do
        (pml4_phys <- virt_to_phys top ;; pmm_free_page pml4_phys)) ;;;
      as_phys <- virt_to_phys v ;;
      pmm_free_page as_phys
  end.
End vmm.
