(* ===== verification/VmmSpec.v ===== *)
(** * The virtual memory manager: what it guarantees

    Mapping, unmapping, creating and destroying address spaces, stated on the
    processor's page walk.  The well-formedness of an address space is that its
    tables form a tree of page frames that the allocator does not consider
    free. *)
From S2P Require Import Prelude Memory State Demo Pmm PageTable Vmm.

(** ** The invariant and the effect of one step down the tree *)

Section spec.
Context {P : Platform}.
Implicit Types s : kstate.

Record vm_ok s (root : Z) : Prop := {
  vm_pmm : pmm_inv s;
  vm_tree : tree_ok (k_mem s) root (free_list s);
}.

(** No entry above the last level on the way of [ids] maps a large page. *)
Definition no_huge (m : gmap Z Z) (root : Z) (ids : list Z) : Prop :=
  forall e lv, walk m root ids = Some (e, lv) -> lv = 0%nat.

(** All translations are as before. *)
Definition same_walks (root : Z) (m m' : gmap Z Z) : Prop :=
  forall ids, length ids = 4%nat -> Forall idx_ok ids -> walk m' root ids = walk m root ids.

Lemma same_walks_trans root m1 m2 m3 :
  same_walks root m1 m2 -> same_walks root m2 m3 -> same_walks root m1 m3.
Proof. intros H1 H2 ids Hl Hf. by rewrite H2, H1. Qed.

Lemma no_huge_slot m root pi i rest p :
  no_huge m root (pi ++ i :: rest) -> rest <> [] -> tab m root pi = Some p ->
  present (load64 (slot p i) m) = true -> huge (load64 (slot p i) m) = false.
Proof.
  intros Hn Hr Ht Hp. unfold no_huge in Hn. rewrite (walk_app m root pi p) in Hn by done.
  cbn [walk] in Hn. rewrite Hp in Hn. destruct rest as [|j rest]; [done|].
  destruct (huge _); [|done]. specialize (Hn _ _ eq_refl). simpl in Hn. lia.
Qed.

Lemma entry_kmap s p i : hhdm_ok s -> page_ok p -> idx_ok i ->
  kmap (entry_ptr (hhdm_offset s + p) i) = slot p i.
Proof.
  intros Hh (Hm & Hp & Hl) Hi. unfold entry_ptr, slot, idx_ok, PAGE_SIZE in *.
  rewrite <- (hhdm_ptr s) by (done || lia). apply hhdm_kmap; done || lia.
Qed.

Lemma pmm_mem_frame_refl s : pmm_mem_frame s s.
Proof. by destruct s. Qed.
Lemma pmm_mem_frame_trans s1 s2 s3 :
  pmm_mem_frame s1 s2 -> pmm_mem_frame s2 s3 -> pmm_mem_frame s1 s3.
Proof. unfold pmm_mem_frame. intros H1 H2. rewrite H2, H1. done. Qed.
Lemma pmm_mem_frame_mem s f : pmm_mem_frame s (set_mem f s).
Proof. by destruct s. Qed.
Lemma pmm_mem_frame_con s f : pmm_mem_frame s (set_con f s).
Proof. by destruct s. Qed.
Lemma pmm_mem_frame_hhdm s s' : pmm_mem_frame s s' -> hhdm_offset s' = hhdm_offset s.
Proof. unfold pmm_mem_frame. by intros ->. Qed.
Lemma pmm_frame_mem_frame s s' : pmm_frame s s' -> pmm_mem_frame s s'.
Proof. unfold pmm_frame, pmm_mem_frame. intros ->. by destruct s. Qed.

(** Memory does not matter to the allocator. *)
Lemma pmm_inv_mem s f : pmm_inv s -> pmm_inv (set_mem f s).
Proof. by intros []. Qed.

Lemma zeroed_twice n m m1 m2 : zeroed n m m1 -> zeroed n m1 m2 -> zeroed n m m2.
Proof. intros H1 H2 a. rewrite H2, H1. by case_decide. Qed.

Lemma zero_table_spec n s : hhdm_ok s -> page_ok n ->
  wp (for_range 0 512 (fun i => wr64 (entry_ptr (hhdm_offset s + n) i) 0)) s
     (fun _ s' => s' = set_mem (fun _ => k_mem s') s /\ zeroed n (k_mem s) (k_mem s')).
Proof.
  intros Hh Hn.
  apply (wp_for_range (fun i s' => s' = set_mem (fun _ => k_mem s') s /\
    forall a, mget (k_mem s') a = if decide (n <= a < n + 8 * i) then 0 else mget (k_mem s) a)).
  - done.
  - split; [by destruct s|]. intros a. by rewrite decide_False by lia.
  - intros i s1 Hi (Hs1 & Hz). apply wp_modify. split; [by rewrite Hs1|].
    intros a. cbn [k_mem set_mem]. rewrite entry_kmap by done. unfold slot, store64.
    rewrite mget_store_zero, Hz. repeat case_decide; done || lia.
  - intros s1 (Hs1 & Hz). done.
Qed.

Lemma zeroed_load n m m' a : zeroed n m m' -> n <= a -> a + 8 <= n + PAGE_SIZE -> load64 a m' = 0.
Proof. intros Hz H1 H2. apply load_le_zero. intros i Hi. rewrite Hz. by rewrite decide_True by lia. Qed.

(** The flags vmm_map_page gives to the tables on the way. *)
Definition table_flags (flags : Z) : Z :=
  Z.lor (Z.lor PAGE_PRESENT PAGE_WRITE) (Z.land flags PAGE_USER).

Lemma table_flags_cases flags : table_flags flags = if user flags then 7 else 3.
Proof. unfold table_flags. rewrite land_user_cases. by destruct (user flags). Qed.

Lemma table_entry n flags : page_ok n ->
  0 <= Z.lor n (table_flags flags) < 18446744073709551616 /\
  is_table (Z.lor n (table_flags flags)) = true /\
  entry_to_phys (Z.lor n (table_flags flags)) = n /\
  user (Z.lor n (table_flags flags)) = user flags.
Proof.
  intros (Hm & Hn0 & Hnl). unfold PHYS_LIMIT, PAGE_SIZE in Hnl.
  rewrite table_flags_cases. split; [|split_and!].
  - apply lor_u64_range; [lia|]. destruct (user flags); lia.
  - unfold is_table, present, huge. rewrite !flag_lor by (done || lia). by destruct (user flags).
  - apply entry_to_phys_lor; [lia|done|]. by destruct (user flags).
  - unfold user. rewrite flag_lor by (done || lia). by destruct (Z.testbit flags 2).
Qed.

(** The tables of the tree stay where they are. *)
Definition tabs_stay (root : Z) (m m' : gmap Z Z) : Prop :=
  forall ids t, (length ids <= 3)%nat -> Forall idx_ok ids -> tab m root ids = Some t -> tab m' root ids = Some t.

(** What get_or_create_table promises for the slot [(pi, i)] of the tree. *)
Definition stepped s root pi i flags (r : Z) s' : Prop :=
  vm_ok s' root /\ pmm_mem_frame s s' /\ same_walks root (k_mem s) (k_mem s') /\
  (forall ids q, (length ids <= 3)%nat -> Forall idx_ok ids -> tab (k_mem s') root ids = Some q ->
     tab (k_mem s) root ids = Some q \/ q ∈ free_list s) /\
  ((r = 0 /\ free_list s = [] /\ k_mem s' = k_mem s) \/
   (exists p q, tab (k_mem s) root pi = Some p /\ r = hhdm_offset s + q /\ r <> 0 /\ page_ok q /\
      tab (k_mem s') root (pi ++ [i]) = Some q /\
      other_slots (k_mem s) root pi i (k_mem s') /\
      (user flags = true -> user (load64 (slot p i) (k_mem s')) = true) /\
      (length (free_list s) <= S (length (free_list s')))%nat /\
      tabs_stay root (k_mem s) (k_mem s'))).

Lemma table_exists_step s root pi i p flags :
  vm_ok s root -> (length pi <= 2)%nat -> Forall idx_ok pi -> idx_ok i ->
  tab (k_mem s) root pi = Some p ->
  is_table (load64 (slot p i) (k_mem s)) = true ->
  wp (get_or_create_table (entry_ptr (hhdm_offset s + p) i) (table_flags flags)) s
    (stepped s root pi i flags).
Proof.
  intros [Hinv Htree] Hl Hf Hi Hp Htab.
  pose proof (inv_hhdm _ Hinv) as Hh.
  destruct (tree_pages _ _ _ Htree pi p ltac:(lia) Hf Hp) as [Hpok _].
  unfold get_or_create_table, rd64, wr64, phys_to_virt. wp_steps.
  rewrite entry_kmap, present_truthy by done.
  set (e := load64 (slot p i) (k_mem s)) in *.
  pose proof (load64_range (slot p i) (k_mem s) : 0 <= e < _) as Her.
  pose proof Htab as Htab'. unfold is_table in Htab'. apply andb_prop in Htab' as [Hpr Hnh].
  apply negb_true_iff in Hnh. rewrite Hpr. wp_steps. cbn [k_mem set_mem hhdm_offset].
  set (m' := store64 (slot p i) (Z.lor e (Z.land (table_flags flags) PAGE_USER)) (k_mem s)).
  assert (Hload : load64 (slot p i) m' = Z.lor e (Z.land (table_flags flags) PAGE_USER)).
  { apply load_store64_eq, lor_u64_range; [done|].
    rewrite land_user_cases. destruct (user _); lia. }
  assert (Hsame : same_ptr e (load64 (slot p i) m')).
  { rewrite Hload. unfold same_ptr, present, huge. rewrite !lor_user_bit by lia.
    rewrite entry_to_phys_lor_user. simpl. by rewrite !orb_false_r. }
  pose proof (other_slots_store _ _ _ Htree pi i p ltac:(lia) Hf Hi Hp
    (Z.lor e (Z.land (table_flags flags) PAGE_USER))) as Hoth. fold m' in Hoth.
  assert (Hstep : tab m' root (pi ++ [i]) = Some (entry_to_phys e)).
  { rewrite (same_pointer_tab (k_mem s) root pi i p) by
      (done || lia || (rewrite length_app; simpl; lia) || by apply path_snoc_ok).
    rewrite tab_app, Hp. simpl. fold e. by rewrite Htab. }
  destruct (tree_pages _ _ _ Htree (pi ++ [i]) (entry_to_phys e)) as [Hqok _];
    [rewrite length_app; simpl; lia|by apply path_snoc_ok|by rewrite tab_app, Hp; simpl; fold e; rewrite Htab|].
  destruct Hsame as (Hs1 & Hs2 & Hs3). rewrite Hs3.
  assert (Hsame : same_ptr e (load64 (slot p i) m')) by done.
  split_and!; [constructor|by destruct s| | |].
  - by apply pmm_inv_mem.
  - eapply (same_pointer_tree _ _ _ Htree pi i p); done || lia.
  - intros ids Hl4 Hf4. eapply (same_pointer_walk (k_mem s) root pi i p); done || lia.
  - intros ids q Hl3 Hf3 Hq. left. rewrite <- Hq. symmetry.
    eapply (same_pointer_tab (k_mem s) root pi i p); done || lia.
  - right. exists p, (entry_to_phys e). rewrite hhdm_ptr by (done || destruct Hqok as (_ & ? & ?); unfold PAGE_SIZE in *; lia).
    split_and!; try done.
    + destruct Hqok, Hh. lia.
    + intros Hu. cbn [k_mem set_mem]. fold m'. rewrite Hload. unfold user. rewrite lor_user_bit by lia.
      assert (user (table_flags flags) = true) as ->
        by (rewrite table_flags_cases, Hu; done). by rewrite orb_true_r.
    + apply le_S, le_n.
    + intros ids t Hl3 Hf3 Hq. rewrite <- Hq.
      eapply (same_pointer_tab (k_mem s) root pi i p); done || lia.
Qed.

Lemma new_table_step_ok s root pi i p flags :
  vm_ok s root -> (length pi <= 2)%nat -> Forall idx_ok pi -> idx_ok i ->
  tab (k_mem s) root pi = Some p ->
  present (load64 (slot p i) (k_mem s)) = false ->
  wp (get_or_create_table (entry_ptr (hhdm_offset s + p) i) (table_flags flags)) s
    (stepped s root pi i flags).
Proof.
  intros [Hinv Htree] Hl Hf Hi Hp Habs.
  pose proof (inv_hhdm _ Hinv) as Hh.
  destruct (tree_pages _ _ _ Htree pi p ltac:(lia) Hf Hp) as [Hpok _].
  unfold get_or_create_table, rd64. wp_steps. rewrite entry_kmap, present_truthy, Habs by done.
  apply wp_bind. destruct (decide (free_list s = [])) as [He|Hne].
  { eapply wp_eq; [apply pmm_alloc_empty; [done|apply Hinv]|]. simpl. apply wp_ret.
    split_and!; [constructor; [by destruct Hinv|done]|apply pmm_mem_frame_con|done|by left|by left]. }
  wp_call pmm_alloc_ok; [done|done|].
  intros n s1 (Hfl & Hn & Hz1 & Hfr1 & Hinv1 & _).
  assert (n <> 0) by (destruct Hn; lia). destruct (Z.eqb_spec n 0); [done|].
  pose proof (inv_hhdm _ Hinv1) as Hh1.
  unfold phys_to_virt. wp_steps. rewrite hhdm_ptr by (done || destruct Hn as (_ & ? & ?); unfold PAGE_SIZE in *; lia).
  wp_call zero_table_spec; [done|done|]. intros _ s2 (Hs2 & Hz2).
  unfold wr64. wp_steps.
  assert (Hh2 : hhdm_offset s2 = hhdm_offset s)
    by (rewrite Hs2; simpl; by apply pmm_mem_frame_hhdm in Hfr1).
  rewrite entry_kmap by done.
  set (v := Z.lor n (table_flags flags)).
  pose proof (zeroed_twice _ _ _ _ Hz1 Hz2) as Hz.
  destruct (table_entry n flags Hn) as (Hv & Hvt & Hva & Hvu). fold v in Hv, Hvt, Hva, Hvu.
  assert (Hnin : n ∈ free_list s) by (rewrite Hfl; apply elem_of_app; right; by constructor).
  set (m' := store64 (slot p i) v (k_mem s2)).
  assert (Hload : load64 (slot p i) m' = v) by by apply load_store64_eq.
  pose proof (other_slots_zeroed _ _ _ Htree pi i p ltac:(lia) Hf Hi Hp n _ v Hnin Hn Hz) as Hoth.
  fold m' in Hoth.
  assert (Hpn : p <> n).
  { intros ->. by destruct (tree_pages _ _ _ Htree pi n ltac:(lia) Hf Hp). }
  assert (Hzero : forall j, idx_ok j -> load64 (slot n j) m' = 0).
  { intros j Hj. unfold m'. rewrite load_store64_ne by (apply page_ok_disjoint; congruence || done).
    eapply zeroed_load; [exact Hz2|..]; unfold slot, idx_ok, PAGE_SIZE in *; lia. }
  assert (Hfl2 : free_list s2 = free_list s1) by (apply free_list_ext; by rewrite Hs2).
  assert (Hvt' : is_table (load64 (slot p i) m') = true) by by rewrite Hload.
  assert (Hva' : entry_to_phys (load64 (slot p i) m') = n) by by rewrite Hload.
  set (s3 := set_mem _ s2).
  assert (Hm3 : k_mem s3 = m') by done.
  assert (Hfl3 : free_list s3 = free_list s1) by done.
  split_and!; [constructor| | | |].
  - apply pmm_inv_mem. rewrite Hs2. by apply pmm_inv_mem.
  - rewrite Hm3, Hfl3. eapply (new_table_tree _ _ _ Htree pi i p) with (n := n); try done;
      [lia|apply Hinv].
  - eapply pmm_mem_frame_trans; [exact Hfr1|]. subst s3. rewrite Hs2. by destruct s1.
  - intros ids Hl4 Hf4. rewrite Hm3.
    eapply (new_table_walk (k_mem s) root pi i p) with (n := n); done || lia.
  - intros ids q Hl3 Hf3 Hq. rewrite Hm3 in Hq.
    eapply (new_table_tab _ _ _ Htree pi i p) with (n := n) (m' := m') in Hq as [Hq|[_ ->]];
      [by left|by right|done || lia || apply Hinv..].
  - right. exists p, n. rewrite (pmm_mem_frame_hhdm _ _ Hfr1).
    split_and!; try done.
    + destruct Hh, Hn. lia.
    + rewrite Hm3. eapply (new_table_step (k_mem s) root pi i p); done || lia.
    + intros Hu. rewrite Hm3, Hload. by rewrite Hvu.
    + rewrite Hfl3, Hfl, length_app. simpl. lia.
    + intros ids t Hl3 Hf3 Hq. rewrite Hm3. destruct (path_through pi i ids) as [[rest ->]|Hav].
      * rewrite tab_app, Hp in Hq. cbn [tab] in Hq. unfold is_table in Hq. by rewrite Habs in Hq.
      * rewrite <- Hq. eapply (tab_avoid (k_mem s) root pi i p); done || lia.
Qed.

(** The step: the entry is absent or refers to a table (no large page there). *)
Lemma get_or_create_step s root pi i p flags :
  vm_ok s root -> (length pi <= 2)%nat -> Forall idx_ok pi -> idx_ok i ->
  tab (k_mem s) root pi = Some p ->
  (present (load64 (slot p i) (k_mem s)) = true -> huge (load64 (slot p i) (k_mem s)) = false) ->
  wp (get_or_create_table (entry_ptr (hhdm_offset s + p) i) (table_flags flags)) s
    (stepped s root pi i flags).
Proof.
  intros Hok Hl Hf Hi Hp Hnh. destruct (present (load64 (slot p i) (k_mem s))) eqn:E.
  - apply table_exists_step; try done. unfold is_table. by rewrite E, Hnh.
  - by apply new_table_step_ok.
Qed.

(** ** Mapping a 4 KiB page *)

(** [a] is a valid pointer to an address space whose PML4 is the page [root]. *)
Definition as_points s (a : as_ptr) (root : Z) : Prop :=
  a <> AsNull /\ as_pml4 a s = Ret (hhdm_offset s + root) s.

(** A page address and flags that leave the address field alone. *)
Definition entry_args (phys flags : Z) : Prop :=
  0 <= phys < 2 ^ 52 /\ phys mod PAGE_SIZE = 0 /\
  0 <= flags < 18446744073709551616 /\ Z.land flags ENTRY_MASK = 0.

Lemma vm_root s root : vm_ok s root -> page_ok root.
Proof. intros [_ Ht]. by apply (tree_pages _ _ _ Ht [] root ltac:(simpl; lia) ltac:(constructor)). Qed.

Lemma as_valid s a root : vm_ok s root -> as_points s a root ->
  as_invalid a s = Ret false s.
Proof.
  intros Hok [Hn Ha]. unfold as_invalid. destruct a; [done|..]; cbn [is_null]; unfold bind; rewrite Ha;
    pose proof (vm_root _ _ Hok) as (_ & ? & _); destruct (inv_hhdm _ (vm_pmm _ _ Hok)) as (? & _);
    unfold ret; f_equal; lia.
Qed.

(** The walk through a slot just written at the last level. *)
Definition mapped root (virt phys flags : Z) (m m' : gmap Z Z) : Prop :=
  walk m' root (idxs virt) = (if present flags then Some (Z.lor phys flags, 0%nat) else None) /\
  (forall ids, length ids = 4%nat -> Forall idx_ok ids -> ids <> idxs virt ->
     walk m' root ids = walk m root ids).

Lemma entry_args_lor phys flags : entry_args phys flags ->
  0 <= Z.lor phys flags < 18446744073709551616 /\
  present (Z.lor phys flags) = present flags /\ user (Z.lor phys flags) = user flags /\
  huge (Z.lor phys flags) = huge flags /\ entry_to_phys (Z.lor phys flags) = phys.
Proof.
  intros (Hp & Hm & Hf & Hmask). split; [apply lor_u64_range; lia|].
  unfold present, user, huge. rewrite !flag_lor by (done || lia).
  split_and!; try done. by apply entry_to_phys_lor.
Qed.

(** A slot is overwritten with an entry that is not a pointer to a table. *)
Lemma slot_written s root pi i p v :
  vm_ok s root -> (length pi <= 3)%nat -> Forall idx_ok pi -> idx_ok i ->
  tab (k_mem s) root pi = Some p -> 0 <= v < 18446744073709551616 ->
  length pi = 3%nat \/ is_table v = false ->
  let s' := set_mem (store64 (slot p i) v) s in
  vm_ok s' root /\ other_slots (k_mem s) root pi i (k_mem s') /\
  tab (k_mem s') root pi = Some p /\ load64 (slot p i) (k_mem s') = v /\
  (forall ids, length ids = 4%nat -> Forall idx_ok ids ->
     (forall rest, ids <> pi ++ i :: rest) -> walk (k_mem s') root ids = walk (k_mem s) root ids) /\
  (forall rest, length (pi ++ i :: rest) = 4%nat ->
     walk (k_mem s') root (pi ++ i :: rest) = if present v then Some (v, length rest) else None).
Proof.
  intros [Hinv Htree] Hl Hpi Hi Htab Hv Hleaf s'.
  pose proof (other_slots_store _ _ _ Htree pi i p Hl Hpi Hi Htab v) as Hoth.
  fold (k_mem s') in Hoth.
  assert (Hload : load64 (slot p i) (k_mem s') = v) by by apply load_store64_eq.
  pose proof (tab_self (k_mem s) root pi i p Hl Hpi Htab _ Hoth) as Hself.
  split_and!; try done; [constructor| |].
  - by apply pmm_inv_mem.
  - eapply (leaf_tree _ _ _ Htree pi i p); try done. by rewrite Hload.
  - intros ids Hl4 Hf Hav. destruct (path_through pi i ids) as [[rest ->]|Ha]; [by destruct (Hav rest)|].
    eapply (walk_avoid (k_mem s) root pi i p); done || lia.
  - intros rest Hl4. rewrite (walk_app _ _ _ p) by done. cbn [walk]. rewrite Hload.
    destruct (present v) eqn:Ep; [|done]. destruct rest as [|j rest]; [done|].
    destruct Hleaf as [H3|Hnt]; [rewrite length_app in Hl4; simpl in Hl4; lia|].
    unfold is_table in Hnt. rewrite Ep in Hnt. apply negb_false_iff in Hnt. by rewrite Hnt.
Qed.

Lemma leaf_written s root virt pt phys flags :
  vm_ok s root -> entry_args phys flags ->
  tab (k_mem s) root [pml4_index virt; pdpt_index virt; pd_index virt] = Some pt ->
  let s' := set_mem (store64 (slot pt (pt_index virt)) (Z.lor phys flags)) s in
  vm_ok s' root /\ mapped root virt phys flags (k_mem s) (k_mem s') /\
  other_slots (k_mem s) root [pml4_index virt; pdpt_index virt; pd_index virt]
    (pt_index virt) (k_mem s').
Proof.
  intros Hok Hargs Htab s'.
  destruct (entry_args_lor _ _ Hargs) as (Hv & Hpr & _ & _ & _).
  assert (Hpi : Forall idx_ok [pml4_index virt; pdpt_index virt; pd_index virt])
    by (repeat constructor; apply idx_land).
  set (pi := [pml4_index virt; pdpt_index virt; pd_index virt]) in *.
  destruct (slot_written s root pi (pt_index virt) pt (Z.lor phys flags) Hok (le_n 3) Hpi
    (idx_land _) Htab Hv ltac:(by left)) as (Hok' & Ho & _ & _ & Hav & Hth).
  split_and!; [done| |done]. split.
  - change (idxs virt) with (pi ++ [pt_index virt]). by rewrite Hth, Hpr.
  - intros ids Hl Hf Hne. apply Hav; [done|done|]. intros rest ->. apply Hne.
    destruct rest; [done|]. simpl in Hl. lia.
Qed.

(** Result of vmm_map_page for a 4 KiB page. *)
Definition map_post s root virt phys flags (r : Z) s' : Prop :=
  vm_ok s' root /\ hhdm_offset s' = hhdm_offset s /\
  ((r = -1 /\ (length (free_list s) < 3)%nat /\ same_walks root (k_mem s) (k_mem s') /\
    pmm_mem_frame s s') \/
   (r = 0 /\ mapped root virt phys flags (k_mem s) (k_mem s') /\
    (user flags = true -> user_path (k_mem s') root (idxs virt) = true) /\
    kernel_address_space s' = kernel_address_space s /\
    k_flush s' = k_flush s ++ [virt])).

(** Every slot along [pi] has the user bit. *)
Definition user_slots (m : gmap Z Z) (root : Z) (pi : list Z) : Prop :=
  forall pi1 j pi2 t, pi = pi1 ++ j :: pi2 -> tab m root pi1 = Some t ->
    user (load64 (slot t j) m) = true.

Lemma user_path_snoc m p pi i q :
  tab m p pi = Some q -> user_slots m p pi ->
  user (load64 (slot q i) m) = true -> user_path m p (pi ++ [i]) = true.
Proof.
  revert p. induction pi as [|j pi IH]; intros p Hq Hu Hl; cbn [app user_path].
  - injection Hq as <-. rewrite Hl. by destruct (huge _).
  - simpl in Hq. destruct (is_table (load64 (slot p j) m)) eqn:E; [|done].
    rewrite (Hu [] j pi p eq_refl eq_refl).
    destruct (huge _); [done|]. simpl. apply IH; [done| |done].
    intros pi1 j' pi2 t -> Ht. apply (Hu (j :: pi1) j' pi2 t); [done|]. simpl. by rewrite E.
Qed.

(** The user bits along a path survive a write to a slot that is not on it. *)
Lemma user_slots_other m root pi i m' :
  (length pi <= 3)%nat -> Forall idx_ok pi -> other_slots m root pi i m' ->
  user_slots m root pi -> user_slots m' root pi.
Proof.
  intros Hl Hf Ho Hu pi1 j pi2 t E Ht.
  assert (Hne : forall pi3 j' pi4, pi1 ++ j :: pi2 = pi3 ++ j' :: pi4 -> (pi3, j') <> (pi, i)).
  { intros pi3 j' pi4 E' [= -> ->]. rewrite <- E in E'. apply (f_equal length) in E'.
    rewrite length_app in E'. simpl in E'. lia. }
  assert (Hl1 : (length pi1 <= 3)%nat) by (rewrite E, length_app in Hl; lia).
  pose proof Hf as Hf'. rewrite E in Hf'. apply Forall_split in Hf' as (Hf1 & Hj & _).
  assert (Ht0 : tab m root pi1 = Some t).
  { rewrite <- Ht. symmetry. eapply (tab_avoid m root pi i t); try done; [lia|].
    intros pi3 j' pi4 ->. apply (Hne pi3 j' (pi4 ++ j :: pi2)). by rewrite <- app_assoc. }
  rewrite (Ho pi1 j t); try done; [by apply (Hu pi1 j pi2 t)|by apply (Hne pi1 j pi2)].
Qed.

(** A walk that ends in a page table meets no large page: its user bits are those of its
    slots. *)
Lemma user_path_slots m p ids e : walk m p ids = Some (e, 0%nat) ->
  user_path m p ids = true <-> user_slots m p ids.
Proof.
  revert p. induction ids as [|i ids IH]; intros p Hw; [done|]. cbn [walk user_path] in *.
  destruct (present (load64 (slot p i) m)) eqn:Ep; [|done].
  assert (Hh : ids = [] \/ (ids <> [] /\ huge (load64 (slot p i) m) = false /\ walk m (entry_to_phys (load64 (slot p i) m)) ids = Some (e, 0%nat))).
  { destruct ids as [|j ids]; [by left|right]. by destruct (huge _). }
  split.
  - intros [Hu Hr]%andb_prop pi1 j pi2 t E Ht. destruct pi1 as [|i' pi1]; cbn in E; injection E as <- ->.
    + by injection Ht as <-.
    + cbn [tab] in Ht. destruct Hh as [Hh|(_ & Hh & Hw')]; [by destruct pi1|]. unfold is_table in Ht. rewrite Hh, Ep in Ht. rewrite Hh in Hr.
      by apply (proj1 (IH _ Hw') Hr pi1 j pi2 t).
  - intros Hs. rewrite (Hs [] i ids p eq_refl eq_refl). cbn [andb]. destruct Hh as [->|(_ & Hh & Hw')]; [by destruct (huge _)|].
    rewrite Hh. apply (IH _ Hw'). intros pi1 j pi2 t -> Ht. apply (Hs (i :: pi1) j pi2 t); [done|].
    cbn [tab]. unfold is_table. by rewrite Ep, Hh.
Qed.

(** Along a walk every table is there. *)
Lemma walk_tab m p pi j rest e : walk m p (pi ++ j :: rest) = Some (e, 0%nat) -> exists t, tab m p pi = Some t.
Proof.
  revert p. induction pi as [|i pi IH]; intros p Hw; [by exists p|]. cbn [app walk tab] in *. unfold is_table.
  destruct (present _); [|done]. destruct (pi ++ j :: rest) as [|k l] eqn:E; [by destruct pi|].
  destruct (huge _); [done|]. by apply IH.
Qed.

(** The 4 KiB pages that are open to ring 3 stay open, those of [out] excepted. *)
Definition users_kept (root : Z) (out : list Z -> Prop) (m m' : gmap Z Z) : Prop :=
  forall ids e, length ids = 4%nat -> Forall idx_ok ids -> ~ out ids ->
    walk m root ids = Some (e, 0%nat) -> user_path m root ids = true -> user_path m' root ids = true.

Lemma users_kept_slots root (out : list Z -> Prop) m m' : tabs_stay root m m' ->
  (forall ids, length ids = 4%nat -> Forall idx_ok ids -> ~ out ids -> walk m' root ids = walk m root ids) ->
  (forall pi j rest t, length (pi ++ j :: rest) = 4%nat -> Forall idx_ok (pi ++ j :: rest) -> ~ out (pi ++ j :: rest) ->
     tab m root pi = Some t -> user (load64 (slot t j) m) = true -> user (load64 (slot t j) m') = true) ->
  users_kept root out m m'.
Proof.
  intros Ht Hw Hs ids e Hl Hf Ho Hwk Hu. apply (user_path_slots m' root ids e); [by rewrite Hw|].
  intros pi1 j pi2 t -> Ht'. pose proof (proj1 (user_path_slots _ _ _ _ Hwk) Hu) as Hus.
  destruct (walk_tab _ _ _ _ _ _ Hwk) as [t0 Ht0]. pose proof Hf as Hf'. apply Forall_split in Hf' as (Hf1 & _ & _).
  assert (Hl' := Hl). rewrite length_app in Hl'. simpl in Hl'.
  rewrite (Ht pi1 t0) in Ht' by (done || lia). injection Ht' as ->.
  apply (Hs pi1 j pi2 t); [done..|]. by apply (Hus pi1 j pi2 t).
Qed.

Lemma users_kept_stepped s root pi i flags r s' :
  (length pi <= 2)%nat -> Forall idx_ok pi -> user flags = true -> stepped s root pi i flags r s' ->
  users_kept root (fun _ => False) (k_mem s) (k_mem s').
Proof.
  intros Hl Hf Hu (_ & _ & Hw & _ & [(_ & _ & E)|(p & q & Hp & _ & _ & _ & _ & O & U & _ & T)]).
  { rewrite E. by intros ids e. }
  apply users_kept_slots; [done|intros; by apply Hw|]. intros pi1 j rest t Hl1 Hf1 _ Ht Hus.
  destruct (decide ((pi1, j) = (pi, i))) as [[= -> ->]|Hne].
  - rewrite Hp in Ht. injection Ht as <-. by apply U.
  - apply Forall_split in Hf1 as (Hf1 & Hj & _). rewrite length_app in Hl1. simpl in Hl1.
    rewrite (O pi1 j t); done || lia.
Qed.

(** The walk down to the table at [pi] is complete. *)
Record reached s root pi flags s' (q : Z) : Prop := {
  re_ok : vm_ok s' root;
  re_frame : pmm_mem_frame s s';
  re_walks : same_walks root (k_mem s) (k_mem s');
  re_tab : tab (k_mem s') root pi = Some q;
  re_user : user flags = true -> user_slots (k_mem s') root pi;
  re_free : (length (free_list s) <= length pi + length (free_list s'))%nat;
}.

(** The walk stopped because no page was left for a table. *)
Definition starved s root s' : Prop :=
  vm_ok s' root /\ pmm_mem_frame s s' /\ same_walks root (k_mem s) (k_mem s') /\
  (length (free_list s) < 3)%nat.

Lemma reached_refl s root flags : vm_ok s root -> reached s root [] flags s root.
Proof.
  intros Hok. constructor; try done; [apply pmm_mem_frame_refl|].
  intros _ pi1 j pi2 t E. by destruct pi1.
Qed.

Lemma same_walks_no_huge root m m' ids :
  length ids = 4%nat -> Forall idx_ok ids -> same_walks root m m' ->
  no_huge m root ids -> no_huge m' root ids.
Proof. intros Hl Hf Hs Hn e lv. rewrite Hs by done. apply Hn. Qed.

Lemma user_slots_step m m' root pi i p :
  (length pi <= 2)%nat -> Forall idx_ok pi -> other_slots m root pi i m' ->
  tab m root pi = Some p -> user_slots m root pi ->
  user (load64 (slot p i) m') = true -> user_slots m' root (pi ++ [i]).
Proof.
  intros Hl Hf Ho Hp Hu Hi pi1 j pi2 t E Ht.
  destruct pi2 as [|x pi2 _] using rev_ind.
  - apply app_inj_tail in E as [-> ->].
    rewrite (tab_self m root pi1 j p) in Ht by (done || lia). by injection Ht as <-.
  - rewrite app_comm_cons, app_assoc in E. apply app_inj_tail in E as [E ->].
    by eapply (user_slots_other m root pi x m'); eauto.
Qed.

Lemma stepped_reached s root pi i flags s1 q r s2 :
  reached s root pi flags s1 q -> (length pi <= 2)%nat -> Forall idx_ok pi ->
  stepped s1 root pi i flags r s2 ->
  (r = 0 /\ starved s root s2) \/
  (exists q', r = hhdm_offset s + q' /\ r <> 0 /\ reached s root (pi ++ [i]) flags s2 q').
Proof.
  intros [Hok Hfr Hw Ht Hu Hfree] Hl2 Hf1
    (Hok2 & Hfr2 & Hw2 & _ & [(-> & He & _)|(p & q' & Hp & -> & Hr & _ & T & O & U & L & _)]).
  - left. split; [done|]. split_and!; [done|by eapply pmm_mem_frame_trans|by eapply same_walks_trans|].
    rewrite He in Hfree. simpl in Hfree. lia.
  - right. exists q'. rewrite Ht in Hp. injection Hp as <-. rewrite <- (pmm_mem_frame_hhdm _ _ Hfr).
    split_and!; [done|done|].
    constructor; [done|by eapply pmm_mem_frame_trans|by eapply same_walks_trans|done| |].
    + intros Huf. eapply user_slots_step; eauto.
    + rewrite length_app. simpl. lia.
Qed.

(** No large page below the table reached: the next step may go on. *)
Lemma reached_no_huge s root pi i rest flags s1 q :
  reached s root pi flags s1 q -> rest <> [] -> length (pi ++ i :: rest) = 4%nat ->
  Forall idx_ok (pi ++ i :: rest) -> no_huge (k_mem s) root (pi ++ i :: rest) ->
  (length pi <= 2)%nat /\ Forall idx_ok pi /\ idx_ok i /\
  (present (load64 (slot q i) (k_mem s1)) = true -> huge (load64 (slot q i) (k_mem s1)) = false).
Proof.
  intros [Hok Hfr Hw Ht Hu Hfree] Hne Hl Hf Hnh.
  pose proof (Forall_split _ _ _ _ Hf) as (Hf1 & Hi & _). split_and!; [|done|apply Hi..|].
  - rewrite length_app in Hl. destruct rest; [done|]. simpl in Hl. lia.
  - apply (no_huge_slot _ root pi i rest); [|done|done]. by eapply same_walks_no_huge.
Qed.

Lemma reached_step s root pi i rest flags s1 q :
  reached s root pi flags s1 q -> rest <> [] -> length (pi ++ i :: rest) = 4%nat ->
  Forall idx_ok (pi ++ i :: rest) -> no_huge (k_mem s) root (pi ++ i :: rest) ->
  wp (get_or_create_table (entry_ptr (hhdm_offset s + q) i) (table_flags flags)) s1 (fun r s2 =>
    (r = 0 /\ starved s root s2) \/
    (exists q', r = hhdm_offset s + q' /\ r <> 0 /\ reached s root (pi ++ [i]) flags s2 q')).
Proof.
  intros Hre Hne Hl Hf Hnh.
  destruct (reached_no_huge s root pi i rest flags s1 q Hre Hne Hl Hf Hnh) as (Hl2 & Hf1 & Hi & Hh).
  pose proof Hre as [Hok Hfr _ Ht _ _]. rewrite <- (pmm_mem_frame_hhdm _ _ Hfr).
  wp_call (get_or_create_step s1 root pi i q flags); [done..|].
  intros r s2 Hst. rewrite (pmm_mem_frame_hhdm _ _ Hfr). by eapply stepped_reached.
Qed.

Lemma vmm_map_page_spec s a root virt phys flags :
  vm_ok s root -> as_points s a root -> no_huge (k_mem s) root (idxs virt) ->
  entry_args phys flags -> huge flags = false ->
  wp (vmm_map_page a virt phys flags) s (map_post s root virt phys flags).
Proof.
  intros Hok Has Hnh Hargs Hfh. pose proof Has as [_ Hpml].
  pose proof (idxs_ok virt) as Hids.
  set (i4 := pml4_index virt) in *. set (i3 := pdpt_index virt) in *.
  set (i2 := pd_index virt) in *. set (i1 := pt_index virt) in *.
  assert (Hstarve : forall s', starved s root s' -> map_post s root virt phys flags (-1) s').
  { intros s' (? & Hfr & ? & ?). split_and!; [done|by apply pmm_mem_frame_hhdm|by left]. }
  unfold vmm_map_page. apply wp_bind. eapply wp_eq; [by eapply as_valid|]. cbn beta iota.
  apply wp_bind. eapply wp_eq; [exact Hpml|]. cbn beta. fold (table_flags flags).
  fold i4 i3 i2 i1. rewrite huge_truthy, Hfh. cbn [andb].
  apply wp_bind.
  wp_call (reached_step s root [] i4 [i3; i2; i1]); [by apply reached_refl|done..|].
  intros r s1 [[-> Hs]|(q3 & -> & Hr3 & H3)]; [by apply wp_ret, Hstarve|].
  rewrite (proj2 (Z.eqb_neq _ _) Hr3). apply wp_bind.
  wp_call (reached_step s root [i4] i3 [i2; i1]); [done..|].
  intros r s2 [[-> Hs]|(q2 & -> & Hr2 & H2)]; [by apply wp_ret, Hstarve|].
  rewrite (proj2 (Z.eqb_neq _ _) Hr2). apply wp_bind.
  wp_call (reached_step s root [i4; i3] i2 [i1]); [done..|].
  intros r s3 [[-> Hs]|(q1 & -> & Hr1 & [Hok3 Hfr3 Hw3 Ht3 Hu3 _])]; [by apply wp_ret, Hstarve|].
  rewrite (proj2 (Z.eqb_neq _ _) Hr1). cbn [app] in Ht3, Hu3.
  destruct (leaf_written s3 root virt q1 phys flags Hok3 Hargs Ht3) as (Hok' & [Hm1 Hm2] & Ho').
  assert (Hpi : Forall idx_ok [i4; i3; i2]) by (repeat constructor; apply idx_land).
  destruct (tree_pages _ _ _ (vm_tree _ _ Hok3) [i4; i3; i2] q1 ltac:(simpl; lia) Hpi Ht3) as [Hq1 _].
  unfold wr64, invlpg. wp_steps. rewrite <- (pmm_mem_frame_hhdm _ _ Hfr3).
  rewrite entry_kmap by (done || apply vm_pmm in Hok3; apply Hok3 || apply idx_land).
  split_and!; [by destruct Hok' as [[] ?]|by apply pmm_mem_frame_hhdm in Hfr3|right].
  split_and!; [done| |intros Hu|by rewrite Hfr3..].
  - split; [done|]. intros ids Hl Hf Hne. by rewrite <- Hw3, <- Hm2.
  - apply (user_path_snoc _ root [i4; i3; i2] i1 q1).
    + eapply (tab_self (k_mem s3)); done || simpl; lia.
    + eapply (user_slots_other (k_mem s3)); eauto.
    + destruct (entry_args_lor _ _ Hargs) as (Hv & _ & Hus & _).
      cbn [k_mem set_mem set_flush]. by rewrite load_store64_eq, Hus.
Qed.

(** ** Unmapping *)

(** [ids] lies in the page, large or small, that maps [virt]. *)
Definition covered (m : gmap Z Z) root virt (ids : list Z) : Prop :=
  match walk m root (idxs virt) with
  | Some (_, lv) => take (4 - lv) ids = take (4 - lv) (idxs virt)
  | None => ids = idxs virt
  end.

#[global] Instance covered_dec m root virt ids : Decision (covered m root virt ids).
Proof. unfold covered. destruct (walk m root (idxs virt)) as [[e lv]|]; apply _. Defined.

Definition unmap_post s root virt s' : Prop :=
  vm_ok s' root /\ hhdm_offset s' = hhdm_offset s /\
  (forall ids, length ids = 4%nat -> Forall idx_ok ids ->
     walk (k_mem s') root ids
     = if decide (covered (k_mem s) root virt ids) then None else walk (k_mem s) root ids) /\
  (walk (k_mem s) root (idxs virt) <> None -> k_flush s' = k_flush s ++ [virt]).

Lemma take_through (pi : list Z) i rest ids :
  take (S (length pi)) ids = take (S (length pi)) (pi ++ i :: rest) <->
  exists rest', ids = pi ++ i :: rest'.
Proof.
  rewrite take_app_ge by lia. replace (S (length pi) - length pi)%nat with 1%nat by lia.
  simpl. rewrite take_0. split.
  - intros Ht. exists (drop (S (length pi)) ids).
    rewrite <- (take_drop (S (length pi)) ids) at 1. by rewrite Ht, <- app_assoc.
  - intros [rest' ->]. rewrite take_app_ge by lia.
    by replace (S (length pi) - length pi)%nat with 1%nat by lia.
Qed.

(** The addresses covered by the slot [(pi, i)] are those that walk through it. *)
Lemma covered_through m root virt pi i rest p ids :
  idxs virt = pi ++ i :: rest -> tab m root pi = Some p ->
  (rest = [] \/ (present (load64 (slot p i) m) = true /\ huge (load64 (slot p i) m) = true)) ->
  length ids = 4%nat ->
  covered m root virt ids <-> exists rest', ids = pi ++ i :: rest'.
Proof.
  intros E Htab Hcase Hl. rewrite <- (take_through pi i rest).
  assert (Hlen : length (pi ++ i :: rest) = 4%nat) by (rewrite <- E; done).
  pose proof Hlen as Hlen'. rewrite length_app in Hlen'. simpl in Hlen'.
  unfold covered. rewrite E, (walk_app _ _ _ p) by done. cbn [walk].
  destruct Hcase as [->|[-> ->]].
  - simpl in Hlen'. replace (S (length pi)) with 4%nat by lia.
    destruct (present (load64 (slot p i) m)); [done|]. by rewrite !take_ge by lia.
  - destruct rest as [|j rest]; replace (4 - _)%nat with (S (length pi)) by (simpl in *; lia); done.
Qed.

(** Clearing the slot that maps [virt] has that effect. *)
Lemma slot_cleared s root virt pi i rest p fl :
  vm_ok s root -> idxs virt = pi ++ i :: rest -> tab (k_mem s) root pi = Some p ->
  (rest = [] \/ (present (load64 (slot p i) (k_mem s)) = true /\
                huge (load64 (slot p i) (k_mem s)) = true)) ->
  fl = k_flush s ++ [virt] ->
  unmap_post s root virt (set_flush (fun _ => fl) (set_mem (store64 (slot p i) 0) s)).
Proof.
  intros Hok E Htab Hcase ->. pose proof (idxs_ok virt) as Hf. rewrite E in Hf.
  pose proof (Forall_split _ _ _ _ Hf) as (Hpi & Hi & _).
  assert (Hlen : length (pi ++ i :: rest) = 4%nat) by (rewrite <- E; done).
  assert (Hl3 : (length pi <= 3)%nat) by (rewrite length_app in Hlen; simpl in Hlen; lia).
  destruct (slot_written s root pi i p 0 Hok Hl3 Hpi Hi Htab ltac:(lia) ltac:(by right))
    as ([Hinv Htree] & _ & _ & _ & Hav & Hth).
  split_and!; [by destruct Hinv|done| |done].
  intros ids Hl Hfi. cbn [k_mem set_flush].
  destruct (decide (covered _ _ _ _)) as [Hc|Hc]; rewrite (covered_through _ _ _ pi i rest p) in Hc by done.
  - destruct Hc as [rest' ->]. by rewrite Hth.
  - apply Hav; [done|done|]. intros rest' ->. apply Hc. by eexists.
Qed.

(** Nothing is mapped at [virt]: nothing changes. *)
Lemma unmap_nothing s root virt :
  vm_ok s root -> walk (k_mem s) root (idxs virt) = None -> unmap_post s root virt s.
Proof.
  intros Hok Hn. split_and!; [done|done| |by rewrite Hn]. intros ids Hl Hf.
  destruct (decide (covered _ _ _ _)) as [Hc|Hc]; [|done].
  unfold covered in Hc. rewrite Hn in Hc. by subst.
Qed.

(** Reading an entry of a table reached along [pi] through the direct map. *)
Lemma table_kmap s root pi q i :
  vm_ok s root -> (length pi <= 3)%nat -> Forall idx_ok pi -> idx_ok i ->
  tab (k_mem s) root pi = Some q -> kmap (entry_ptr (u64 (q + hhdm_offset s)) i) = slot q i.
Proof.
  intros [Hinv Htree] Hl Hf Hi Ht. destruct (tree_pages _ _ _ Htree pi q Hl Hf Ht) as [Hq _].
  rewrite hhdm_ptr by (apply Hinv || destruct Hq as (_ & ? & ?); unfold PAGE_SIZE in *; lia).
  apply entry_kmap; [apply Hinv|done|done].
Qed.

Lemma tab_snoc m root pi p i :
  tab m root pi = Some p -> is_table (load64 (slot p i) m) = true ->
  tab m root (pi ++ [i]) = Some (entry_to_phys (load64 (slot p i) m)).
Proof. intros Hp Hi. rewrite tab_app, Hp. simpl. by rewrite Hi. Qed.

(** An absent entry on the way: nothing is mapped. *)
Lemma walk_absent m root pi p i rest :
  tab m root pi = Some p -> present (load64 (slot p i) m) = false ->
  walk m root (pi ++ i :: rest) = None.
Proof. intros Hp Ha. rewrite (walk_app _ _ _ p) by done. cbn [walk]. by rewrite Ha. Qed.

Lemma vmm_unmap_page_spec s a root virt :
  vm_ok s root -> as_points s a root ->
  huge (load64 (slot root (pml4_index virt)) (k_mem s)) = false ->
  wp (vmm_unmap_page a virt) s (fun _ s' => unmap_post s root virt s').
Proof.
  intros Hok Has Hh4. pose proof Has as [_ Hpml]. pose proof (vm_root _ _ Hok) as Hroot.
  pose proof (inv_hhdm _ (vm_pmm _ _ Hok)) as Hh.
  assert (Eids : idxs virt = [pml4_index virt; pdpt_index virt; pd_index virt; pt_index virt]) by done.
  assert (I4 : idx_ok (pml4_index virt)) by apply idx_land.
  assert (I3 : idx_ok (pdpt_index virt)) by apply idx_land.
  assert (I2 : idx_ok (pd_index virt)) by apply idx_land.
  assert (I1 : idx_ok (pt_index virt)) by apply idx_land.
  revert Eids Hh4 I4 I3 I2 I1. unfold vmm_unmap_page.
  generalize (pml4_index virt) as i4, (pdpt_index virt) as i3, (pd_index virt) as i2, (pt_index virt) as i1.
  intros i4 i3 i2 i1 Eids Hh4 I4 I3 I2 I1.
  apply wp_bind. eapply wp_eq; [by eapply as_valid|]. cbn beta iota.
  apply wp_bind. eapply wp_eq; [exact Hpml|]. cbn beta.
  unfold rd64, wr64, phys_to_virt, invlpg. wp_steps. rewrite entry_kmap, present_truthy by done.
  destruct (present (load64 (slot root i4) (k_mem s))) eqn:P4; cbn [negb];
    [|apply wp_ret, unmap_nothing; [done|rewrite Eids; by apply (walk_absent _ _ [] root)]].
  pose proof (tab_snoc (k_mem s) root [] root i4 eq_refl) as T3. cbn [app] in T3.
  unfold is_table in T3. rewrite P4, Hh4 in T3. specialize (T3 eq_refl). revert T3.
  generalize (entry_to_phys (load64 (slot root i4) (k_mem s))) as q3. intros q3 T3.
  wp_steps. rewrite (table_kmap s root [i4]), present_truthy, huge_truthy by (done || (simpl; lia) || idx_path).
  destruct (present (load64 (slot q3 i3) (k_mem s))) eqn:P3; cbn [negb];
    [|apply wp_ret, unmap_nothing; [done|rewrite Eids; by apply (walk_absent _ _ [i4] q3)]].
  destruct (huge (load64 (slot q3 i3) (k_mem s))) eqn:H3.
  { wp_steps. by apply (slot_cleared s root virt [i4] i3 [i2; i1]); auto. }
  pose proof (tab_snoc (k_mem s) root [i4] q3 i3 T3) as T2. cbn [app] in T2.
  unfold is_table in T2. rewrite P3, H3 in T2. specialize (T2 eq_refl). revert T2.
  generalize (entry_to_phys (load64 (slot q3 i3) (k_mem s))) as q2. intros q2 T2.
  wp_steps. rewrite (table_kmap s root [i4; i3]), present_truthy, huge_truthy by (done || (simpl; lia) || idx_path).
  destruct (present (load64 (slot q2 i2) (k_mem s))) eqn:P2; cbn [negb];
    [|apply wp_ret, unmap_nothing; [done|rewrite Eids; by apply (walk_absent _ _ [i4; i3] q2)]].
  destruct (huge (load64 (slot q2 i2) (k_mem s))) eqn:H2.
  { wp_steps. by apply (slot_cleared s root virt [i4; i3] i2 [i1]); auto. }
  pose proof (tab_snoc (k_mem s) root [i4; i3] q2 i2 T2) as T1. cbn [app] in T1.
  unfold is_table in T1. rewrite P2, H2 in T1. specialize (T1 eq_refl).
  wp_steps. rewrite (table_kmap s root [i4; i3; i2]) by (done || (simpl; lia) || idx_path).
  by apply (slot_cleared s root virt [i4; i3; i2] i1 []); auto.
Qed.

(** ** Large pages *)

(** How many indices a large-page request resolves: the PDPT (1 GiB) when the
    lower indices are zero, the page directory (2 MiB) otherwise. *)
Definition huge_depth (virt : Z) : nat :=
  if (pd_index virt =? 0) && (pt_index virt =? 0) then 2%nat else 3%nat.

Definition map_huge_post s root virt phys flags (r : Z) s' : Prop :=
  vm_ok s' root /\ hhdm_offset s' = hhdm_offset s /\ k_flush s' = k_flush s /\
  ((r = -1 /\ (length (free_list s) < 3)%nat /\ same_walks root (k_mem s) (k_mem s')) \/
   (r = 0 /\ forall ids, length ids = 4%nat -> Forall idx_ok ids ->
      walk (k_mem s') root ids =
      if decide (take (huge_depth virt) ids = take (huge_depth virt) (idxs virt)) then
        if present flags then Some (Z.lor phys flags, (4 - huge_depth virt)%nat) else None
      else walk (k_mem s) root ids)).

Lemma huge_written s s1 root virt phys flags pi i rest q :
  reached s root pi flags s1 q -> entry_args phys flags -> huge flags = true ->
  idxs virt = pi ++ i :: rest -> S (length pi) = huge_depth virt ->
  map_huge_post s root virt phys flags 0
    (set_mem (store64 (slot q i) (Z.lor phys flags)) s1).
Proof.
  intros [Hok Hfr Hw Ht _ _] Hargs Hh E Hd. pose proof (idxs_ok virt) as Hf. rewrite E in Hf.
  pose proof (Forall_split _ _ _ _ Hf) as (Hpi & Hi & _).
  assert (Hlen : length (pi ++ i :: rest) = 4%nat) by (rewrite <- E; done).
  assert (Hl3 : (length pi <= 3)%nat) by (rewrite length_app in Hlen; simpl in Hlen; lia).
  destruct (entry_args_lor _ _ Hargs) as (Hv & Hpr & _ & Hhu & _).
  destruct (slot_written s1 root pi i q (Z.lor phys flags) Hok Hl3 Hpi Hi Ht Hv)
    as (Hok' & _ & _ & _ & Hav & Hth).
  { right. unfold is_table. rewrite Hhu, Hh. apply andb_false_r. }
  split_and!; [done|by apply pmm_mem_frame_hhdm in Hfr|by rewrite Hfr|right].
  split; [done|]. intros ids Hl Hfi. rewrite <- Hd, E.
  destruct (decide _) as [Hc|Hc]; rewrite take_through in Hc.
  - destruct Hc as [rest' ->]. rewrite Hth, Hpr by done.
    rewrite length_app in Hl. simpl in Hl. by replace (4 - S (length pi))%nat with (length rest') by lia.
  - rewrite <- Hw by done. apply Hav; [done|done|]. intros rest' ->. apply Hc. by eexists.
Qed.

Lemma vmm_map_huge_spec s a root virt phys flags :
  vm_ok s root -> as_points s a root -> no_huge (k_mem s) root (idxs virt) ->
  entry_args phys flags -> huge flags = true ->
  wp (vmm_map_page a virt phys flags) s (map_huge_post s root virt phys flags).
Proof.
  intros Hok Has Hnh Hargs Hfh. pose proof Has as [_ Hpml].
  pose proof (idxs_ok virt) as Hids.
  assert (Hstarve : forall s', starved s root s' -> map_huge_post s root virt phys flags (-1) s').
  { intros s' (? & Hfr & ? & ?). split_and!; [done|by apply pmm_mem_frame_hhdm|by rewrite Hfr|by left]. }
  assert (Hslot : forall pi i s1 q, reached s root pi flags s1 q -> (length pi <= 3)%nat ->
    Forall idx_ok pi -> idx_ok i -> kmap (entry_ptr (hhdm_offset s + q) i) = slot q i).
  { intros pi i s1 q [Hok1 Hfr1 _ Ht1 _ _] Hl Hf Hi. rewrite <- (pmm_mem_frame_hhdm _ _ Hfr1).
    apply entry_kmap; [apply Hok1| |done]. by apply (tree_pages _ _ _ (vm_tree _ _ Hok1) pi). }
  unfold vmm_map_page. apply wp_bind. eapply wp_eq; [by eapply as_valid|]. cbn beta iota.
  apply wp_bind. eapply wp_eq; [exact Hpml|]. cbn beta. fold (table_flags flags).
  rewrite huge_truthy, Hfh. cbn [andb]. apply wp_bind.
  wp_call (reached_step s root [] (pml4_index virt)
    [pdpt_index virt; pd_index virt; pt_index virt]); [by apply reached_refl|done..|].
  intros r s1 [[-> Hs]|(q3 & -> & Hr3 & H3)]; [by apply wp_ret, Hstarve|].
  rewrite (proj2 (Z.eqb_neq _ _) Hr3).
  destruct ((pd_index virt =? 0) && (pt_index virt =? 0)) eqn:E0.
  { unfold wr64. wp_steps.
    rewrite (Hslot [pml4_index virt] _ s1 q3) by (done || apply idx_land || (simpl; lia) || idx_path).
    eapply (huge_written s s1 root virt phys flags [pml4_index virt] (pdpt_index virt)); try done.
    unfold huge_depth. by rewrite E0. }
  apply wp_bind. wp_call (reached_step s root [pml4_index virt] (pdpt_index virt)
    [pd_index virt; pt_index virt]); [done..|].
  intros r s2 [[-> Hs]|(q2 & -> & Hr2 & H2)]; [by apply wp_ret, Hstarve|].
  rewrite (proj2 (Z.eqb_neq _ _) Hr2). unfold wr64. wp_steps. cbn [app] in H2.
  rewrite (Hslot [pml4_index virt; pdpt_index virt] _ s2 q2)
    by (done || apply idx_land || (simpl; lia) || idx_path).
  eapply (huge_written s s2 root virt phys flags [pml4_index virt; pdpt_index virt] (pd_index virt)); try done.
  unfold huge_depth. by rewrite E0.
Qed.
End spec.
