(* ===== verification/VmmSpace.v ===== *)
(** * Address spaces: creation, destruction, isolation

    vmm_create_address_space builds a PML4 whose upper half is the kernel's and
    whose lower half is empty; vmm_destroy_address_space gives both pages back;
    mapping into the lower half of one address space leaves the other
    translations of the system alone. *)
From S2P Require Import Prelude Memory State Demo Pmm PageTable Vmm VmmSpec.

(** ** Trees under changes outside their tables *)

Lemma tree_frame m m' root free free' :
  tree_ok m root free ->
  (forall pi q x, (length pi <= 3)%nat -> Forall idx_ok pi -> tab m root pi = Some q ->
     q <= x < q + PAGE_SIZE -> mget m' x = mget m x) ->
  (forall x, x ∈ free' -> x ∈ free) ->
  tree_ok m' root free' /\ same_walks root m m' /\
  (forall ids, (length ids <= 4)%nat -> Forall idx_ok ids -> tab m' root ids = tab m root ids).
Proof.
  intros Ht Hm Hsub.
  assert (Hslot : forall ids pi1 j pi2 q, (length ids <= 4)%nat -> Forall idx_ok ids ->
    ids = pi1 ++ j :: pi2 -> tab m root pi1 = Some q ->
    load64 (slot q j) m' = load64 (slot q j) m).
  { intros ids pi1 j pi2 q Hl Hf -> Hq. rewrite length_app in Hl. simpl in Hl.
    apply Forall_split in Hf as (Hf1 & Hj & _).
    apply load_le_ext. intros x Hx. apply (Hm pi1 q); [lia|done|done|].
    unfold slot, idx_ok, PAGE_SIZE in *. lia. }
  assert (Htab : forall ids, (length ids <= 4)%nat -> Forall idx_ok ids ->
    tab m' root ids = tab m root ids).
  { intros ids Hl Hf. apply tab_ext. intros pi1 j pi2 q E Hq.
    rewrite (Hslot ids pi1 j pi2 q) by done. apply same_ptr_refl. }
  split_and!; [constructor| |done].
  - intros pi q Hl Hf. rewrite Htab by (done || lia). intros Hq.
    destruct (tree_pages _ _ _ Ht pi q Hl Hf Hq). split; [done|]. auto.
  - intros pi1 pi2 q Hl1 Hl2 Hf1 Hf2. rewrite !Htab by (done || lia).
    by apply (tree_inj _ _ _ Ht).
  - intros ids Hl Hf. apply walk_ext. intros pi1 j pi2 q E Hq. left.
    apply (Hslot ids pi1 j pi2 q); done || lia.
Qed.

(** ** A PML4 that shares the kernel's upper half *)

Section fresh.
Context (m : gmap Z Z) (kroot r : Z) (free : list Z).
Context (Ht : tree_ok m kroot free) (Hr : page_ok r) (Hrf : r ∉ free).
Context (Hrt : forall pi, (length pi <= 3)%nat -> Forall idx_ok pi -> tab m kroot pi <> Some r).
Context (Hlow : forall i, 0 <= i < 256 -> load64 (slot r i) m = 0).
Context (Hhigh : forall i, 256 <= i < 512 -> load64 (slot r i) m = load64 (slot kroot i) m).

Lemma fresh_tab i pi : idx_ok i ->
  tab m r (i :: pi) = if decide (i < 256) then None else tab m kroot (i :: pi).
Proof.
  intros Hi. unfold idx_ok in Hi. cbn [tab]. case_decide.
  - by rewrite Hlow by lia.
  - by rewrite Hhigh by lia.
Qed.

Lemma fresh_walk i rest : idx_ok i ->
  walk m r (i :: rest) = if decide (i < 256) then None else walk m kroot (i :: rest).
Proof.
  intros Hi. unfold idx_ok in Hi. cbn [walk]. case_decide.
  - by rewrite Hlow by lia.
  - by rewrite Hhigh by lia.
Qed.

Lemma fresh_tree : tree_ok m r free.
Proof.
  constructor.
  - intros [|i pi] q Hl Hf Hq; [injection Hq as <-; done|].
    apply Forall_cons in Hf as Hf'. destruct Hf' as [Hi _].
    rewrite fresh_tab in Hq by done. case_decide; [done|].
    by apply (tree_pages _ _ _ Ht (i :: pi)).
  - intros [|i1 pi1] [|i2 pi2] q Hl1 Hl2 Hf1 Hf2 H1 H2.
    + done.
    + injection H1 as <-. rewrite fresh_tab in H2 by (by apply Forall_cons in Hf2 as [? _]).
      case_decide; [done|]. by apply Hrt in H2.
    + injection H2 as <-. rewrite fresh_tab in H1 by (by apply Forall_cons in Hf1 as [? _]).
      case_decide; [done|]. by apply Hrt in H1.
    + rewrite fresh_tab in H1 by (by apply Forall_cons in Hf1 as [? _]).
      rewrite fresh_tab in H2 by (by apply Forall_cons in Hf2 as [? _]).
      repeat case_decide; try done. by apply (tree_inj _ _ _ Ht _ _ q).
Qed.
End fresh.

Section create.
Context {P : Platform}.
Implicit Types s : kstate.

Lemma hhdm_page s p : hhdm_ok s -> page_ok p -> u64 (p + hhdm_offset s) = hhdm_offset s + p.
Proof. intros Hh (_ & Hp & Hl). apply hhdm_ptr; [done|]. unfold PAGE_SIZE in *. lia. Qed.

Lemma hhdm_at s p i : hhdm_ok s -> page_ok p -> 0 <= i < PAGE_SIZE ->
  kmap (hhdm_offset s + p + i) = p + i.
Proof.
  intros (_ & _ & Hk) (_ & Hp & Hl) Hi. rewrite <- Z.add_assoc. apply Hk. unfold PAGE_SIZE in *. lia.
Qed.

Lemma page_apart p q : page_ok p -> page_ok q -> p <> q -> p + PAGE_SIZE <= q \/ q + PAGE_SIZE <= p.
Proof. intros (Hp & _) (Hq & _) Hne. unfold PAGE_SIZE in *. zlia. Qed.

Lemma copy_upper_spec s a r kroot :
  hhdm_ok s -> page_ok a -> page_ok r -> page_ok kroot -> a <> r -> kroot <> r ->
  load64 a (k_mem s) = hhdm_offset s + r ->
  pml4 (kernel_address_space s) = hhdm_offset s + kroot ->
  wp (copy_upper (hhdm_offset s + a)) s (fun _ s' =>
    s' = set_mem (fun _ => k_mem s') s /\
    (forall x, ~ (slot r 256 <= x < r + PAGE_SIZE) -> mget (k_mem s') x = mget (k_mem s) x) /\
    (forall i, 256 <= i < 512 -> load64 (slot r i) (k_mem s') = load64 (slot kroot i) (k_mem s))).
Proof.
  intros Hh Ha Hr Hk Hne Hkr Hla Hpml.
  pose proof (page_apart a r Ha Hr Hne) as Dar. pose proof (page_apart kroot r Hk Hr Hkr) as Dkr.
  unfold copy_upper.
  apply (wp_for_range (fun i s' => s' = set_mem (fun _ => k_mem s') s /\
    (forall x, ~ (slot r 256 <= x < slot r i) -> mget (k_mem s') x = mget (k_mem s) x) /\
    (forall j, 256 <= j < i -> load64 (slot r j) (k_mem s') = load64 (slot kroot j) (k_mem s)))).
  - lia.
  - split_and!; [by destruct s|done|lia].
  - intros i s1 Hi (Hs1 & Hout & Hin). unfold rd64, wr64. wp_steps. rewrite Hs1. cbn [k_mem kernel_address_space set_mem].
    assert (Hsame : forall b n, (n <= 8)%nat -> b + Z.of_nat n <= r \/ r + PAGE_SIZE <= b ->
      load_le n b (k_mem s1) = load_le n b (k_mem s)).
    { intros b n Hn Hb. apply load_le_ext. intros x Hx. apply Hout. unfold slot, PAGE_SIZE in *. lia. }
    replace (hhdm_offset s + a) with (hhdm_offset s + a + 0) by lia.
    rewrite hhdm_at, Z.add_0_r by (done || unfold PAGE_SIZE; lia).
    assert (Hla1 : load64 a (k_mem s1) = hhdm_offset s + r).
    { rewrite <- Hla. apply (Hsame _ 8%nat); [lia|]. unfold PAGE_SIZE in *. lia. }
    rewrite Hla1, Hpml.
    rewrite !entry_kmap by (done || unfold idx_ok; lia).
    assert (Hke : load64 (slot kroot i) (k_mem s1) = load64 (slot kroot i) (k_mem s)).
    { apply (Hsame _ 8%nat); [lia|]. unfold slot, PAGE_SIZE in *. lia. }
    rewrite Hke. split_and!; [done| |].
    + intros x Hx. unfold store64. rewrite mget_store_le_out by (unfold slot in *; lia).
      apply Hout. unfold slot in *. lia.
    + intros j Hj. destruct (decide (j = i)) as [->|Hji].
      * apply load_store64_eq, load64_range.
      * rewrite load_store64_ne by (unfold slot; lia). apply Hin. lia.
  - intros s1 (Hs1 & Hout & Hin). split_and!; [done| |done].
    intros x Hx. apply Hout. unfold slot, PAGE_SIZE in *. lia.
Qed.

Lemma store_outside a v m x : x < a \/ a + 8 <= x -> mget (store64 a v m) x = mget m x.
Proof. intros. by apply mget_store_le_out. Qed.

(** What a successful creation leaves: the descriptor page [a], the PML4 [r]. *)
Record created s kroot a r s' : Prop := {
  cr_free : free_list s = free_list s' ++ [r; a];
  cr_a : page_ok a;
  cr_r : page_ok r;
  cr_points : as_points s' (AsAt (hhdm_offset s' + a)) r;
  cr_cr3 : as_cr3 (AsAt (hhdm_offset s' + a)) s' = Ret r s';
  cr_frame : pmm_mem_frame s s';
  cr_pmm : pmm_inv s';
  cr_kernel : vm_ok s' kroot /\ same_walks kroot (k_mem s) (k_mem s');
  cr_new : vm_ok s' r;
  cr_walk : forall i rest, Forall idx_ok (i :: rest) -> length (i :: rest) = 4%nat ->
    walk (k_mem s') r (i :: rest)
    = if decide (i < 256) then None else walk (k_mem s) kroot (i :: rest);
  cr_low : forall i, 0 <= i < 256 -> load64 (slot r i) (k_mem s') = 0;
  cr_disjoint : forall pi, (length pi <= 3)%nat -> Forall idx_ok pi ->
    tab (k_mem s') kroot pi <> Some r;
}.

Definition in_page (p x : Z) : Prop := p <= x < p + PAGE_SIZE.

(** The memory a fresh address space sees, relative to the memory before. *)
Record filled (m m' : gmap Z Z) (kroot a r h : Z) : Prop := {
  fi_out : forall x, ~ in_page a x -> ~ in_page r x -> mget m' x = mget m x;
  fi_pml4 : load64 a m' = h + r;
  fi_cr3 : load64 (a + 8) m' = r;
  fi_low : forall i, 0 <= i < 256 -> load64 (slot r i) m' = 0;
  fi_high : forall i, 256 <= i < 512 -> load64 (slot r i) m' = load64 (slot kroot i) m;
}.

Lemma fill_space_mem s kroot a r m :
  hhdm_ok s -> page_ok a -> page_ok r -> page_ok kroot -> a <> r -> kroot <> r -> kroot <> a ->
  pml4 (kernel_address_space s) = hhdm_offset s + kroot ->
  (forall x, mget (k_mem s) x =
     if decide (in_page a x) then 0 else if decide (in_page r x) then 0 else mget m x) ->
  wp (fill_space (hhdm_offset s + a) r) s (fun p s' =>
    p = AsAt (hhdm_offset s + a) /\ s' = set_mem (fun _ => k_mem s') s /\
    filled m (k_mem s') kroot a r (hhdm_offset s)).
Proof.
  intros Hh Ha Hr Hk Har Hkr Hka Hpml Hm.
  pose proof (page_apart _ _ Ha Hr Har) as Dar. pose proof (page_apart _ _ Hk Hr Hkr) as Dkr.
  pose proof (page_apart _ _ Hk Ha Hka) as Dka.
  assert (Hrb : 0 <= hhdm_offset s + r < 18446744073709551616)
    by (destruct Hh as (? & ? & _), Hr as (_ & ? & ?); unfold PAGE_SIZE in *; lia).
  assert (Hab : 0 <= hhdm_offset s + a + 8 < 18446744073709551616)
    by (destruct Hh as (? & ? & _), Ha as (_ & ? & ?); unfold PAGE_SIZE in *; lia).
  unfold fill_space, phys_to_virt. wp_steps. rewrite (hhdm_page s r), (u64_small _ Hab) by done.
  unfold wr64. wp_steps.
  rewrite (hhdm_at s a 8) by (done || unfold PAGE_SIZE; lia).
  rewrite <- (Z.add_0_r (hhdm_offset s + a)) at 2. rewrite (hhdm_at s a 0), Z.add_0_r by (done || unfold PAGE_SIZE; lia).
  match goal with |- wp _ ?s0 _ => set (s1 := s0) end.
  assert (Hm1 : forall x, ~ in_page a x -> mget (k_mem s1) x = if decide (in_page r x) then 0 else mget m x).
  { intros x Hx. unfold in_page in Hx. cbn [s1 k_mem set_mem]. rewrite !store_outside by (unfold PAGE_SIZE in *; lia).
    rewrite Hm. by rewrite decide_False. }
  wp_call (copy_upper_spec s1 a r kroot); try done.
  { cbn [s1 k_mem set_mem hhdm_offset]. rewrite load_store64_ne by lia. by apply load_store64_eq. }
  intros _ s2 (Hs2 & Hout & Hhigh). wp_steps. split_and!; [done|by rewrite Hs2|].
  constructor.
  - intros x Hxa Hxr. rewrite Hout, Hm1, decide_False; try done. unfold in_page, slot in *. lia.
  - transitivity (load64 a (k_mem s1)).
    + apply load_le_ext. intros x Hx. apply Hout. unfold slot, PAGE_SIZE in *. lia.
    + cbn [s1 k_mem set_mem]. rewrite load_store64_ne by lia. by apply load_store64_eq.
  - transitivity (load64 (a + 8) (k_mem s1)).
    + apply load_le_ext. intros x Hx. apply Hout. unfold slot, PAGE_SIZE in *. lia.
    + apply load_store64_eq. destruct Hr as (_ & ? & ?). unfold PHYS_LIMIT, PAGE_SIZE in *. lia.
  - intros i Hi. apply load_le_zero. intros x Hx. unfold slot in Hx.
    rewrite Hout, Hm1, decide_True; unfold in_page, slot, PAGE_SIZE in *; done || lia.
  - intros i Hi. rewrite Hhigh by done. apply load_le_ext. intros x Hx. unfold slot in Hx.
    rewrite Hm1, decide_False; unfold in_page, PAGE_SIZE in *; done || lia.
Qed.

Lemma free_not_table s root pi q :
  vm_ok s root -> q ∈ free_list s -> (length pi <= 3)%nat -> Forall idx_ok pi ->
  tab (k_mem s) root pi <> Some q.
Proof. intros [_ Ht] Hq Hl Hf Hx. by destruct (tree_pages _ _ _ Ht pi q Hl Hf Hx). Qed.

Lemma root_not_free s root q : vm_ok s root -> q ∈ free_list s -> root <> q.
Proof.
  intros Hok Hq ->. by apply (free_not_table s q [] q Hok Hq (Nat.le_0_l 3) (Forall_nil_2 _)).
Qed.

Lemma filled_created s kroot a r s' :
  vm_ok s kroot -> free_list s = free_list s' ++ [r; a] -> page_ok a -> page_ok r ->
  pmm_mem_frame s s' -> pmm_inv s' ->
  filled (k_mem s) (k_mem s') kroot a r (hhdm_offset s) ->
  created s kroot a r s'.
Proof.
  intros Hok Hfl Ha Hr Hfr Hinv Hfi. pose proof (pmm_mem_frame_hhdm _ _ Hfr) as Hoff.
  assert (Hra : r ∈ free_list s) by (rewrite Hfl; apply elem_of_app; right; by constructor).
  assert (Hain : a ∈ free_list s)
    by (rewrite Hfl; apply elem_of_app; right; apply list_elem_of_further; by constructor).
  pose proof (inv_nodup _ (vm_pmm _ _ Hok)) as Hnd. rewrite Hfl in Hnd.
  apply NoDup_app in Hnd as (_ & Hdis & _).
  assert (Hsub : forall x, x ∈ free_list s' -> x ∈ free_list s)
    by (intros x Hx; rewrite Hfl; apply elem_of_app; by left).
  destruct (tree_frame (k_mem s) (k_mem s') kroot (free_list s) (free_list s')
    (vm_tree _ _ Hok)) as (Htree & Hw & Htab); [|done|].
  { intros pi q x Hl Hf Hq0 Hx. destruct (tree_pages _ _ _ (vm_tree _ _ Hok) pi q Hl Hf Hq0) as [Hq Hqf].
    apply (fi_out _ _ _ _ _ _ Hfi); intros Hx'; apply Hqf.
    - assert (q = a) as ->; [|done]. pose proof (page_apart q a Hq Ha). unfold in_page in *. lia.
    - assert (q = r) as ->; [|done]. pose proof (page_apart q r Hq Hr). unfold in_page in *. lia. }
  assert (Hhigh : forall i, 256 <= i < 512 ->
    load64 (slot r i) (k_mem s') = load64 (slot kroot i) (k_mem s')).
  { intros i Hi. rewrite (fi_high _ _ _ _ _ _ Hfi i Hi). symmetry.
    pose proof (vm_root _ _ Hok) as Hk.
    assert (kroot <> r /\ kroot <> a) as [Hkr Hka].
    { split; by apply (root_not_free s). }
    pose proof (page_apart _ _ Hk Hr Hkr). pose proof (page_apart _ _ Hk Ha Hka).
    apply load_le_ext. intros x Hx. apply (fi_out _ _ _ _ _ _ Hfi); unfold in_page, slot, PAGE_SIZE in *; lia. }
  assert (Hrt : forall pi, (length pi <= 3)%nat -> Forall idx_ok pi -> tab (k_mem s') kroot pi <> Some r).
  { intros pi Hl Hf. rewrite Htab by (done || lia). by apply free_not_table. }
  assert (Hrf : r ∉ free_list s') by (intros Hx; apply (Hdis r Hx); by constructor).
  constructor; try done.
  - split; [done|]. cbn [as_pml4]. unfold rd64, gets. f_equal.
    replace (hhdm_offset s' + a) with (hhdm_offset s' + a + 0) by lia.
    rewrite (hhdm_at s' a 0), Z.add_0_r, Hoff by (apply Hinv || done || unfold PAGE_SIZE; lia).
    apply Hfi.
  - cbn [as_cr3]. unfold rd64, gets. f_equal. rewrite u64_small.
    + rewrite hhdm_at by (apply Hinv || done || unfold PAGE_SIZE; lia). apply Hfi.
    + destruct (inv_hhdm _ Hinv) as (? & ? & _), Ha as (_ & ? & ?). unfold PAGE_SIZE in *. lia.
  - constructor; [done|]. eapply fresh_tree; try done. apply Hfi.
  - intros i rest Hf Hl. apply Forall_cons in Hf as Hf'. destruct Hf' as [Hi _].
    rewrite (fresh_walk (k_mem s') kroot r) by (done || apply Hfi).
    case_decide; [done|]. by apply Hw.
  - apply Hfi.
Qed.

Lemma vmm_create_spec s kroot :
  vm_ok s kroot -> pml4 (kernel_address_space s) = hhdm_offset s + kroot ->
  (2 <= length (free_list s))%nat ->
  wp vmm_create_address_space s (fun p s' =>
    exists a r, p = AsAt (hhdm_offset s + a) /\ created s kroot a r s').
Proof.
  intros Hok Hpml Hlen. unfold vmm_create_address_space. apply wp_bind.
  wp_call pmm_alloc_ok; [apply Hok|intros E; rewrite E in Hlen; simpl in Hlen; lia|].
  intros a s1 (Hfl1 & Ha & Hz1 & Hfr1 & Hinv1 & _).
  assert (a <> 0) as Ha0 by (destruct Ha; lia). rewrite (proj2 (Z.eqb_neq _ _) Ha0).
  unfold phys_to_virt at 1. wp_steps. rewrite (hhdm_page s1 a) by (done || apply Hinv1).
  rewrite (pmm_mem_frame_hhdm _ _ Hfr1).
  wp_call pmm_alloc_ok; [done| |].
  { intros E. rewrite Hfl1, E in Hlen. simpl in Hlen. lia. }
  intros r s2 (Hfl2 & Hr & Hz2 & Hfr2 & Hinv2 & _).
  assert (r <> 0) as Hr0 by (destruct Hr; lia). rewrite (proj2 (Z.eqb_neq _ _) Hr0).
  pose proof (pmm_mem_frame_trans _ _ _ Hfr1 Hfr2) as Hfr. pose proof (pmm_mem_frame_hhdm _ _ Hfr) as Hoff.
  assert (Hfl : free_list s = free_list s2 ++ [r; a]) by (rewrite Hfl1, Hfl2, <- app_assoc; done).
  assert (Hin : forall x, x ∈ [r; a] -> x ∈ free_list s) by (intros x Hx; rewrite Hfl; apply elem_of_app; by right).
  pose proof (inv_nodup _ (vm_pmm _ _ Hok)) as Hnd. rewrite Hfl in Hnd.
  apply NoDup_app in Hnd as (_ & _ & Hnd). apply NoDup_cons in Hnd as [Hra _].
  assert (Hkn : forall x, x ∈ [r; a] -> kroot <> x).
  { intros x Hx. by apply (root_not_free s), Hin. }
  cbv iota. pose proof (fill_space_mem s2 kroot a r (k_mem s)) as Hfs.
  rewrite Hoff in Hfs.
  eapply wp_mono; [apply Hfs|].
  - apply Hinv2.
  - exact Ha.
  - exact Hr.
  - by eapply vm_root.
  - intros ->. apply Hra. by constructor.
  - apply Hkn. by constructor.
  - apply Hkn, list_elem_of_further. by constructor.
  - by rewrite <- Hpml, Hfr.
  - intros x. rewrite Hz2, Hz1. unfold in_page. by repeat case_decide.
  - intros p s3 (-> & Hs3 & Hfi). exists a, r. split; [done|].
    apply filled_created; [exact Hok| |exact Ha|exact Hr| | |exact Hfi].
    + rewrite Hfl. f_equal. symmetry. apply free_list_ext. by rewrite Hs3.
    + eapply pmm_mem_frame_trans; [exact Hfr|]. rewrite Hs3. apply pmm_mem_frame_mem.
    + rewrite Hs3. by apply pmm_inv_mem.
Qed.

(** ** Destruction *)

Lemma virt_to_phys_hhdm s p : hhdm_ok s -> 0 <= p < PHYS_LIMIT ->
  virt_to_phys (hhdm_offset s + p) s = Ret p s.
Proof.
  intros (H0 & H1 & _) Hp. unfold virt_to_phys, bind, gets. unfold PHYS_LIMIT in *.
  rewrite (u64_small (hhdm_offset s + _)) by lia. rewrite Z.geb_leb.
  destruct (Z.leb_spec (hhdm_offset s) (hhdm_offset s + p)); [|lia].
  destruct (Z.ltb_spec (hhdm_offset s + p) (hhdm_offset s + 0x100000000000)); [|lia].
  simpl. unfold ret. f_equal. rewrite u64_small; lia.
Qed.

Lemma vmm_destroy_spec s kroot a r s' :
  pmm_inv s -> created s kroot a r s' ->
  wp (vmm_destroy_address_space (AsAt (hhdm_offset s' + a))) s' (fun _ s2 =>
    free_list s2 = free_list s /\ pmm_inv s2 /\ pmm_frame s' s2).
Proof.
  intros Hinv0 [Hfl Ha Hr Hpt _ Hfr Hinv _ _ _ _ _]. destruct Hpt as [_ Hp].
  pose proof (inv_hhdm _ Hinv) as Hh.
  assert (Hnd : NoDup (free_list s' ++ [r; a])) by (rewrite <- Hfl; apply Hinv0).
  apply NoDup_app in Hnd as (_ & Hd & Hra). apply NoDup_cons in Hra as [Hra _].
  assert (Hlen : page_stack_top (k_pmm s') + 2 <= MAX_PAGES).
  { rewrite <- length_free_list by apply Hinv. pose proof (inv_top _ Hinv0) as Ht.
    rewrite <- length_free_list, Hfl, length_app in Ht by lia. simpl in Ht. lia. }
  assert (Hrng : forall q, page_ok q -> 0 <= q < PHYS_LIMIT)
    by (intros q (_ & ? & ?); unfold PAGE_SIZE in *; lia).
  unfold vmm_destroy_address_space. apply wp_bind. eapply wp_eq; [exact Hp|]. cbn beta.
  assert (Hnz : truthy (hhdm_offset s' + r) = true).
  { unfold truthy. destruct Hh, Hr. by rewrite (proj2 (Z.eqb_neq _ _)) by lia. }
  rewrite Hnz. apply wp_bind, wp_bind.
  eapply wp_eq; [apply virt_to_phys_hhdm; auto|].
  wp_call (pmm_free_inv s' r); [done|done|intros Hx; apply (Hd r Hx); by constructor|lia|].
  intros _ s1 (Hfl1 & Hfr1 & _ & Hinv1 & _). apply wp_bind.
  assert (Hoff : hhdm_offset s1 = hhdm_offset s') by by rewrite Hfr1.
  rewrite <- Hoff. eapply wp_eq; [apply virt_to_phys_hhdm; [apply Hinv1|auto]|].
  wp_call (pmm_free_inv s1 a); [done|done| | |].
  - rewrite Hfl1. intros Hx. apply elem_of_app in Hx as [Hx|Hx].
    + apply (Hd a Hx), list_elem_of_further. by constructor.
    + apply list_elem_of_singleton in Hx as ->. apply Hra. by constructor.
  - pose proof (length_free_list s1 (proj1 (inv_top _ Hinv1))) as Hl1.
    rewrite Hfl1, length_app in Hl1. simpl in Hl1.
    pose proof (length_free_list s' (proj1 (inv_top _ Hinv))). lia.
  - intros _ s2 (Hfl2 & Hfr2 & _ & Hinv2 & _). split_and!; [|done|by eapply pmm_frame_trans].
    by rewrite Hfl2, Hfl1, Hfl, <- app_assoc.
Qed.
End create.

(** ** Isolation: mapping in one address space, seen from another *)

Section isolation.
Context {P : Platform}.
Implicit Types s : kstate.

(** Memory outside the eight bytes at [ea] and the free pages is unchanged, and
    the free pages only shrink. *)
Definition local_change (ea : Z) s s' : Prop :=
  (exists l, free_list s = free_list s' ++ l) /\
  (forall x, ~ (ea <= x < ea + 8) -> (forall n, n ∈ free_list s -> ~ in_page n x) ->
     mget (k_mem s') x = mget (k_mem s) x).

Lemma get_or_create_local s ptr ea flags :
  pmm_inv s -> kmap ptr = ea ->
  wp (get_or_create_table ptr flags) s (fun _ s' => local_change ea s s').
Proof.
  intros Hinv <-. unfold get_or_create_table, rd64. wp_steps.
  destruct (truthy _).
  { unfold wr64, phys_to_virt. wp_steps. split; [by exists []; rewrite app_nil_r|].
    intros x Hx _. apply store_outside. lia. }
  apply wp_bind. destruct (decide (free_list s = [])) as [He|Hne].
  { eapply wp_eq; [apply pmm_alloc_empty; [done|apply Hinv]|]. simpl. apply wp_ret.
    split; [by exists []; rewrite app_nil_r|done]. }
  wp_call pmm_alloc_ok; [done|done|]. intros n s1 (Hfl & Hn & Hz & Hfr & Hinv1 & _).
  assert (n <> 0) as Hn0 by (destruct Hn; lia). rewrite (proj2 (Z.eqb_neq _ _) Hn0).
  unfold phys_to_virt. wp_steps. rewrite (hhdm_page s1 n) by (done || apply Hinv1).
  wp_call zero_table_spec; [apply Hinv1|done|]. intros _ s2 (Hs2 & Hz2).
  unfold wr64. wp_steps. split.
  - exists [n]. rewrite Hfl. f_equal. apply free_list_ext. cbn. by rewrite Hs2.
  - intros x Hx Hfree. cbn [k_mem set_mem]. rewrite store_outside by lia.
    assert (Hnx : ~ in_page n x) by (apply Hfree; rewrite Hfl; apply elem_of_app; right; by constructor).
    rewrite Hz2, Hz. unfold in_page in Hnx. by repeat case_decide.
Qed.

(** The tables of the lower half of [r], and [r] itself, do not belong to the
    address space [o]. *)
Definition apart (m : gmap Z Z) (r o : Z) : Prop :=
  forall pi pi' q, (length pi <= 3)%nat -> (length pi' <= 3)%nat ->
    Forall idx_ok pi -> Forall idx_ok pi' -> (forall i, head pi = Some i -> i < 256) ->
    tab m r pi = Some q -> tab m o pi' <> Some q.

(** Seen from [o] nothing happened. *)
Definition unseen o s s' : Prop :=
  vm_ok s' o /\ same_walks o (k_mem s) (k_mem s') /\
  (forall ids, (length ids <= 4)%nat -> Forall idx_ok ids ->
     tab (k_mem s') o ids = tab (k_mem s) o ids).

Lemma unseen_refl o s : vm_ok s o -> unseen o s s.
Proof. done. Qed.
Lemma unseen_trans o s1 s2 s3 : unseen o s1 s2 -> unseen o s2 s3 -> unseen o s1 s3.
Proof.
  intros (_ & W1 & T1) (Hok & W2 & T2). split_and!; [done|by eapply same_walks_trans|].
  intros ids Hl Hf. by rewrite T2, T1.
Qed.

Lemma local_unseen o ea p i s s' :
  vm_ok s o -> pmm_inv s' -> page_ok p -> idx_ok i -> ea = slot p i ->
  (forall pi, (length pi <= 3)%nat -> Forall idx_ok pi -> tab (k_mem s) o pi <> Some p) ->
  local_change ea s s' -> unseen o s s'.
Proof.
  intros Hok Hinv' Hp Hi -> Hnt ([l Hl] & Hm).
  destruct (tree_frame (k_mem s) (k_mem s') o (free_list s) (free_list s') (vm_tree _ _ Hok))
    as (Htree & Hw & Ht); [| |by split].
  - intros pi q x Hlen Hf Hq Hx. destruct (tree_pages _ _ _ (vm_tree _ _ Hok) pi q Hlen Hf Hq) as [Hqok Hqf].
    apply Hm.
    + assert (p <> q) as Hne by (intros ->; by apply (Hnt pi)).
      pose proof (page_apart p q Hp Hqok Hne). unfold slot, idx_ok, PAGE_SIZE in *. lia.
    + intros n Hn Hx'. assert (n <> q) as Hne by (intros ->; done).
      pose proof (proj1 (Forall_forall _ _) (inv_pages _ (vm_pmm _ _ Hok)) n Hn) as Hnok.
      pose proof (page_apart n q Hnok Hqok Hne). unfold in_page in Hx'. lia.
  - intros x Hx. rewrite Hl. apply elem_of_app. by left.
Qed.

(** The state of the walk in [r], with [o] unaffected so far. *)
Record apart_ok s r o : Prop := {
  ap_r : vm_ok s r;
  ap_o : vm_ok s o;
  ap_apart : apart (k_mem s) r o;
}.

Definition low_path (pi : list Z) : Prop := forall i, head pi = Some i -> i < 256.

Lemma low_path_prefix pi i rest : low_path (pi ++ i :: rest) -> low_path pi /\ low_path (pi ++ [i]).
Proof. destruct pi; [|done]. intros H. split; [done|]. intros j Hj. by apply H. Qed.

Lemma step_unseen s r o pi i q flags :
  apart_ok s r o -> (length pi <= 2)%nat -> Forall idx_ok pi -> idx_ok i -> low_path (pi ++ [i]) ->
  tab (k_mem s) r pi = Some q ->
  (present (load64 (slot q i) (k_mem s)) = true -> huge (load64 (slot q i) (k_mem s)) = false) ->
  wp (get_or_create_table (entry_ptr (hhdm_offset s + q) i) (table_flags flags)) s
    (fun v s' => stepped s r pi i flags v s' /\ unseen o s s' /\ apart_ok s' r o).
Proof.
  intros [Hr Ho Hap] Hl Hf Hi Hlow Hq Hnh.
  destruct (low_path_prefix pi i [] Hlow) as [Hlow1 _].
  destruct (tree_pages _ _ _ (vm_tree _ _ Hr) pi q ltac:(lia) Hf Hq) as [Hqok _].
  assert (Hnt : forall pi', (length pi' <= 3)%nat -> Forall idx_ok pi' -> tab (k_mem s) o pi' <> Some q).
  { intros pi' Hl' Hf'. eapply (Hap pi pi'); try done. lia. }
  eapply wp_mono; [apply wp_conj; [by apply (get_or_create_step s r pi i q flags)|]|].
  { apply get_or_create_local; [apply Hr|]. apply entry_kmap; [apply Hr|done|done]. }
  intros v s' [Hst Hloc]. pose proof Hst as (Hr' & _ & _ & Hgrow & _).
  assert (Hun : unseen o s s') by (eapply local_unseen; try done; apply Hr').
  split_and!; [done|done|]. constructor; [done|by destruct Hun|].
  intros pi1 pi2 t L1 L2 F1 F2 Hlow' T1 T2. destruct Hun as (_ & _ & Ht).
  rewrite Ht in T2 by (done || lia).
  destruct (Hgrow pi1 t L1 F1 T1) as [T1'|T1'].
  - by apply (Hap pi1 pi2 t).
  - by destruct (tree_pages _ _ _ (vm_tree _ _ Ho) pi2 t L2 F2 T2).
Qed.

(** A leaf written into the lower half of [r], seen from [o]. *)
Lemma leaf_unseen s r o pi i q v :
  apart_ok s r o -> (length pi <= 3)%nat -> Forall idx_ok pi -> idx_ok i -> low_path (pi ++ [i]) ->
  tab (k_mem s) r pi = Some q -> 0 <= v < 18446744073709551616 ->
  length pi = 3%nat \/ is_table v = false ->
  let s' := set_mem (store64 (slot q i) v) s in unseen o s s' /\ apart_ok s' r o.
Proof.
  intros [Hr Ho Hap] Hl Hf Hi Hlow Hq Hv Hleaf s'.
  destruct (low_path_prefix pi i [] Hlow) as [Hlow1 _].
  destruct (tree_pages _ _ _ (vm_tree _ _ Hr) pi q Hl Hf Hq) as [Hqok _].
  destruct (slot_written s r pi i q v Hr Hl Hf Hi Hq Hv Hleaf) as (Hr' & Hoth & _ & Hload & _).
  fold s' in Hr', Hoth, Hload.
  assert (Hun : unseen o s s').
  { eapply (local_unseen o (slot q i) q i s s'); [done|apply Hr'|done|done|done| |].
    - intros pi' Hl' Hf'. by apply (Hap pi pi').
    - split; [by exists []; rewrite app_nil_r|]. intros x Hx _. apply store_outside. lia. }
  split; [done|]. constructor; [done|apply Hun|].
  intros pi1 pi2 t L1 L2 F1 F2 Hlow' T1 T2. destruct Hun as (_ & _ & Ht).
  rewrite Ht in T2 by (done || lia). apply (Hap pi1 pi2 t); try done.
  eapply (leaf_tab (k_mem s) r pi i q); try done. by rewrite Hload.
Qed.

(** The walk of vmm_map_page in [r], with [o] watching. *)
Definition watched s r o pi flags s' q : Prop :=
  reached s r pi flags s' q /\ unseen o s s' /\ apart_ok s' r o.

Lemma watched_step s r o pi i rest flags s1 q :
  watched s r o pi flags s1 q -> rest <> [] -> length (pi ++ i :: rest) = 4%nat ->
  Forall idx_ok (pi ++ i :: rest) -> no_huge (k_mem s) r (pi ++ i :: rest) ->
  low_path (pi ++ i :: rest) ->
  wp (get_or_create_table (entry_ptr (hhdm_offset s + q) i) (table_flags flags)) s1 (fun v s2 =>
    (v = 0 /\ unseen o s s2 /\ apart_ok s2 r o) \/
    (exists q', v = hhdm_offset s + q' /\ v <> 0 /\ watched s r o (pi ++ [i]) flags s2 q')).
Proof.
  intros (Hre & Hun & Hap) Hne Hl Hf Hnh Hlow.
  destruct (reached_no_huge s r pi i rest flags s1 q Hre Hne Hl Hf Hnh) as (Hl2 & Hf1 & Hi & Hh).
  destruct (low_path_prefix pi i rest Hlow) as [_ Hlow'].
  rewrite <- (pmm_mem_frame_hhdm _ _ (re_frame _ _ _ _ _ _ Hre)).
  wp_call (step_unseen s1 r o pi i q flags); [done..|apply Hre|done|].
  intros v s2 (Hst & Hun2 & Hap2).
  rewrite (pmm_mem_frame_hhdm _ _ (re_frame _ _ _ _ _ _ Hre)).
  pose proof (unseen_trans _ _ _ _ Hun Hun2) as Hun'.
  destruct (stepped_reached s r pi i flags s1 q v s2 Hre Hl2 Hf1 Hst) as [[-> _]|(q' & -> & Hv & Hre')].
  - by left.
  - right. by exists q'.
Qed.

Lemma watched_write s r o pi i rest flags s1 q phys fl :
  watched s r o pi flags s1 q -> entry_args phys flags ->
  length (pi ++ i :: rest) = 4%nat -> Forall idx_ok (pi ++ i :: rest) -> low_path (pi ++ i :: rest) ->
  rest = [] \/ huge flags = true ->
  kmap (entry_ptr (hhdm_offset s + q) i) = slot q i /\
  let s' := set_flush (fun _ => fl) (set_mem (store64 (slot q i) (Z.lor phys flags)) s1) in
  unseen o s s' /\ apart_ok s' r o.
Proof.
  intros (Hre & Hun & Hap) Hargs Hl Hf Hlow Hcase.
  pose proof (Forall_split _ _ _ _ Hf) as (Hf1 & Hi & _).
  destruct (low_path_prefix pi i rest Hlow) as [_ Hlow'].
  pose proof Hre as [Hok Hfr _ Ht _ _].
  assert (Hl3 : (length pi <= 3)%nat) by (rewrite length_app in Hl; simpl in Hl; lia).
  destruct (tree_pages _ _ _ (vm_tree _ _ Hok) pi q Hl3 Hf1 Ht) as [Hq _].
  destruct (entry_args_lor _ _ Hargs) as (Hv & _ & _ & Hhu & _).
  split.
  { rewrite <- (pmm_mem_frame_hhdm _ _ Hfr). apply entry_kmap; [apply Hok|done|done]. }
  destruct (leaf_unseen s1 r o pi i q (Z.lor phys flags) Hap Hl3 Hf1 Hi Hlow' Ht Hv) as [Hun2 Hap2].
  { destruct Hcase as [->|Hh]; [left; rewrite length_app in Hl; simpl in Hl; lia|right].
    unfold is_table. rewrite Hhu, Hh. apply andb_false_r. }
  pose proof (unseen_trans _ _ _ _ Hun Hun2) as (U1 & U2 & U3). destruct Hap2 as [[A1 A2] [B1 B2] C].
  split; [split_and!|constructor]; try done; constructor; try done; by destruct B1.
Qed.

(** Mapping, in the lower half, whatever the flags. *)
Lemma vmm_map_unseen s a r o virt phys flags :
  apart_ok s r o -> as_points s a r -> no_huge (k_mem s) r (idxs virt) ->
  entry_args phys flags -> pml4_index virt < 256 ->
  wp (vmm_map_page a virt phys flags) s (fun _ s' => unseen o s s' /\ apart_ok s' r o).
Proof.
  intros Hap Has Hnh Hargs Hlow. pose proof Has as [_ Hpml].
  pose proof (idxs_ok virt) as Hids.
  assert (Hlp : low_path (idxs virt)) by (intros i [= <-]; done).
  unfold vmm_map_page. apply wp_bind. eapply wp_eq; [eapply as_valid; [apply Hap|done]|].
  cbn beta iota. apply wp_bind. eapply wp_eq; [exact Hpml|]. cbn beta. fold (table_flags flags).
  rewrite huge_truthy. apply wp_bind.
  wp_call (watched_step s r o [] (pml4_index virt) [pdpt_index virt; pd_index virt; pt_index virt]);
    [|done..|].
  { split_and!; [apply reached_refl, Hap|apply unseen_refl, Hap|done]. }
  intros v s1 [[-> Hs]|(q3 & -> & Hr3 & H3)]; [by apply wp_ret|].
  rewrite (proj2 (Z.eqb_neq _ _) Hr3).
  destruct (huge flags) eqn:Eh; cbn [andb].
  1: destruct ((pd_index virt =? 0) && (pt_index virt =? 0)).
  { destruct (watched_write s r o [pml4_index virt] (pdpt_index virt) [pd_index virt; pt_index virt]
      flags s1 q3 phys (k_flush s1)) as [Hk Hp]; try done; [by right|].
    unfold wr64. wp_steps. rewrite Hk. destruct s1; exact Hp. }
  all: apply wp_bind; wp_call (watched_step s r o [pml4_index virt] (pdpt_index virt)
    [pd_index virt; pt_index virt]); [done..|].
  all: intros v s2 [[-> Hs]|(q2 & -> & Hr2 & H2)]; [by apply wp_ret|].
  all: rewrite (proj2 (Z.eqb_neq _ _) Hr2); cbn [app] in H2.
  { destruct (watched_write s r o [pml4_index virt; pdpt_index virt] (pd_index virt) [pt_index virt]
      flags s2 q2 phys (k_flush s2)) as [Hk Hp]; try done; [by right|].
    unfold wr64. wp_steps. rewrite Hk. destruct s2; exact Hp. }
  apply wp_bind. wp_call (watched_step s r o [pml4_index virt; pdpt_index virt] (pd_index virt)
    [pt_index virt]); [done..|].
  intros v s3 [[-> Hs]|(q1 & -> & Hr1 & H1)]; [by apply wp_ret|].
  rewrite (proj2 (Z.eqb_neq _ _) Hr1). cbn [app] in H1.
  destruct (watched_write s r o [pml4_index virt; pdpt_index virt; pd_index virt] (pt_index virt) []
    flags s3 q1 phys (k_flush s3 ++ [virt])) as [Hk Hp]; try done; [by left|].
  unfold wr64, invlpg. wp_steps. rewrite Hk. destruct s3; exact Hp.
Qed.
End isolation.
