(* ===== verification/VmmTheorems.v ===== *)
(** * The virtual memory manager: properties

    The guarantees of vmm.c in terms of address translation, on top of the
    specifications of VmmSpec.v and VmmSpace.v, and a concrete machine on which
    their hypotheses hold. *)
From S2P Require Import Prelude Memory State Demo Pmm PageTable Vmm VmmSpec VmmSpace.

(** ** From walks to translations *)

(** Two addresses in one 4 KiB page (of the 48 bits the processor translates). *)
Definition same_page (v w : Z) : Prop := (v / 4096) mod 2 ^ 36 = (w / 4096) mod 2 ^ 36.
#[global] Instance same_page_dec v w : Decision (same_page v w).
Proof. unfold same_page. apply _. Defined.

Lemma index_digits v :
  (v / 4096) mod 2 ^ 36 =
  pt_index v + 512 * pd_index v + 262144 * pdpt_index v + 134217728 * pml4_index v.
Proof.
  unfold pt_index, pd_index, pdpt_index, pml4_index. change 0x1FF with (Z.ones 9).
  rewrite !Z.land_ones, !Z.shiftr_div_pow2 by lia.
  change (2 ^ 12) with 4096. set (x := v / 4096).
  replace (v / 2 ^ 21) with (x / 512) by (unfold x; rewrite Z.div_div; done).
  replace (v / 2 ^ 30) with (x / 262144) by (unfold x; rewrite Z.div_div; done).
  replace (v / 2 ^ 39) with (x / 134217728) by (unfold x; rewrite Z.div_div; done).
  change (2 ^ 9) with 512. change (2 ^ 36) with 68719476736. zlia.
Qed.

Lemma same_page_idxs v w : same_page v w <-> idxs v = idxs w.
Proof.
  unfold same_page. rewrite !index_digits. unfold idxs. split; [|congruence].
  assert (Hi : forall x, 0 <= pt_index x < 512 /\ 0 <= pd_index x < 512 /\
    0 <= pdpt_index x < 512 /\ 0 <= pml4_index x < 512) by (intros x; split_and!; apply idx_land).
  pose proof (Hi v). pose proof (Hi w). intros.
  assert (pt_index v = pt_index w) by lia. assert (pd_index v = pd_index w) by lia.
  assert (pdpt_index v = pdpt_index w) by lia. assert (pml4_index v = pml4_index w) by lia. congruence.
Qed.

Lemma same_walks_translate root m m' :
  same_walks root m m' -> forall v, translate m' root v = translate m root v.
Proof. intros H v. unfold translate. by rewrite H by (done || apply idxs_ok). Qed.

(** A page is open to ring 3 only if its last entry is. *)
Lemma user_path_leaf m p ids e :
  walk m p ids = Some (e, 0%nat) -> user_path m p ids = true -> user e = true.
Proof.
  revert p. induction ids as [|i ids IH]; intros p; [done|]. cbn [walk user_path].
  destruct (present _); [|done]. destruct ids as [|j ids].
  - intros [= <-]. by intros [? _]%andb_prop.
  - destruct (huge _); [intros [=]|]. intros Hw [_ Hu]%andb_prop. by eapply IH.
Qed.

(** ** A concrete machine

    The kernel address space of the demonstration machine is an empty PML4. *)

Lemma empty_tree m root free :
  page_ok root -> root ∉ free -> (forall i, idx_ok i -> load64 (slot root i) m = 0) ->
  tree_ok m root free.
Proof.
  intros Hr Hf Hz.
  assert (Hn : forall pi q, Forall idx_ok pi -> tab m root pi = Some q -> pi = [] /\ q = root).
  { intros [|i pi] q Hpi Hq; [by injection Hq as <-|].
    apply Forall_cons in Hpi as [Hi _]. cbn [tab] in Hq. by rewrite Hz in Hq. }
  constructor.
  - by intros pi q _ Hpi [-> ->]%Hn.
  - by intros pi1 pi2 q _ _ H1 H2 [-> _]%Hn [-> _]%Hn.
Qed.

Definition demo_root : Z := 0x10F000.
Definition demo_top : kstate := run pmm_alloc_page demo_pmm.
Definition demo_vm : kstate := run (setr CR3 demo_root ;;; vmm_init) demo_top.

Lemma demo_top_spec :
  free_list demo_pmm = free_list demo_top ++ [demo_root] /\ page_ok demo_root /\
  zeroed demo_root (k_mem demo_pmm) (k_mem demo_top) /\ pmm_inv demo_top.
Proof.
  destruct (wp_inv _ _ _ (pmm_alloc_ok demo_pmm demo_pmm_inv ltac:(vm_compute; done)))
    as (p & s' & Ha & Hfl & Hp & Hz & Hfr & Hinv & _).
  assert (Hs : demo_top = s') by (unfold demo_top, run; by rewrite Ha).
  assert (Hr : p = demo_root).
  { transitivity (result pmm_alloc_page demo_pmm 0); [unfold result; by rewrite Ha|].
    vm_compute. reflexivity. }
  rewrite Hs, <- Hr. exact (conj Hfl (conj Hp (conj Hz Hinv))).
Qed.

Lemma vmm_init_frame c s :
  k_mem (run (setr CR3 c ;;; vmm_init) s) = k_mem s /\
  k_pmm (run (setr CR3 c ;;; vmm_init) s) = k_pmm s.
Proof. done. Qed.
Lemma demo_vm_eq : demo_vm = run (setr CR3 demo_root ;;; vmm_init) demo_top.
Proof. reflexivity. Qed.
#[local] Opaque demo_pmm demo_top demo_vm.
Lemma demo_vm_mem : k_mem demo_vm = k_mem demo_top.
Proof. rewrite demo_vm_eq. apply vmm_init_frame. Qed.
Lemma demo_vm_pmm : k_pmm demo_vm = k_pmm demo_top.
Proof. rewrite demo_vm_eq. apply vmm_init_frame. Qed.

Lemma demo_root_empty i : idx_ok i -> load64 (slot demo_root i) (k_mem demo_vm) = 0.
Proof.
  intros Hi. destruct demo_top_spec as (_ & _ & Hz & _).
  rewrite demo_vm_mem.
  eapply zeroed_load; [exact Hz|..]; unfold slot, idx_ok, PAGE_SIZE in *; lia.
Qed.

Lemma demo_vm_ok : vm_ok demo_vm demo_root.
Proof.
  destruct demo_top_spec as (Hfl & Hp & _ & [H1 H2 H3 H4 H5]).
  assert (Hfl' : free_list demo_vm = free_list demo_top) by (apply free_list_ext, demo_vm_pmm).
  constructor.
  - constructor; rewrite ?Hfl', ?demo_vm_pmm; [exact H1|exact H2|exact H3|exact H4|].
    apply demo_hhdm_ok. vm_compute. reflexivity.
  - rewrite Hfl'. apply empty_tree; [exact Hp| |apply demo_root_empty].
    pose proof (inv_nodup _ demo_pmm_inv) as Hnd. rewrite Hfl in Hnd.
    apply NoDup_app in Hnd as (_ & Hd & _). intros Hx. apply (Hd _ Hx). by constructor.
Qed.

Lemma demo_points : as_points demo_vm AsKernel demo_root.
Proof. split; [discriminate|]. unfold as_pml4, gets. f_equal. Qed.

Lemma demo_no_huge v : no_huge (k_mem demo_vm) demo_root (idxs v).
Proof.
  intros e lv Hw. cbn [idxs walk] in Hw. by rewrite demo_root_empty in Hw by apply idx_land.
Qed.

(** ** Mapping and unmapping *)

Section properties.
Context {P : Platform}.
Implicit Types s : kstate.

(** The translations of [s'] are those of [s] with the page of [virt] mapped. *)
Definition maps_to s root virt phys flags s' : Prop :=
  forall v, translate (k_mem s') root v =
    if decide (same_page v virt) then
      if present flags then Some (phys + v mod 4096) else None
    else translate (k_mem s) root v.

Lemma mapped_translate s s' root virt phys flags :
  entry_args phys flags -> mapped root virt phys flags (k_mem s) (k_mem s') ->
  maps_to s root virt phys flags s'.
Proof.
  intros Hargs [Hv Ho] v. destruct (entry_args_lor _ _ Hargs) as (_ & _ & _ & _ & Hp).
  unfold translate. destruct (decide (same_page v virt)) as [Hs|Hs]; rewrite same_page_idxs in Hs.
  - rewrite Hs, Hv. destruct (present flags); [|done]. by rewrite Hp.
  - rewrite Ho; [done|done|apply idxs_ok|done].
Qed.

Lemma mapped_user root virt phys flags m m' :
  entry_args phys flags -> mapped root virt phys flags m m' -> present flags = true ->
  (user flags = true -> user_path m' root (idxs virt) = true) ->
  user_path m' root (idxs virt) = user flags.
Proof.
  intros Hargs [Hv _] Hp Hu. rewrite Hp in Hv.
  destruct (entry_args_lor _ _ Hargs) as (_ & _ & Hus & _).
  destruct (user flags) eqn:E; [by apply Hu|].
  destruct (user_path m' root (idxs virt)) eqn:E'; [|done].
  pose proof (user_path_leaf _ _ _ _ Hv E') as Hx. congruence.
Qed.

Definition unmaps s root virt s' : Prop :=
  forall v, translate (k_mem s') root v =
    if decide (covered (k_mem s) root virt (idxs v)) then None else translate (k_mem s) root v.

Lemma unmap_translate s s' root virt : unmap_post s root virt s' -> unmaps s root virt s'.
Proof.
  intros (_ & _ & Hw & _) v. unfold translate. rewrite Hw by (done || apply idxs_ok).
  by case_decide.
Qed.

Lemma map_huge_translate s s' root virt phys flags :
  entry_args phys flags -> present flags = true -> phys mod 2 ^ (12 + 9 * (4 - Z.of_nat (huge_depth virt))) = 0 ->
  (forall ids, length ids = 4%nat -> Forall idx_ok ids ->
      walk (k_mem s') root ids =
      if decide (take (huge_depth virt) ids = take (huge_depth virt) (idxs virt)) then
        if present flags then Some (Z.lor phys flags, (4 - huge_depth virt)%nat) else None
      else walk (k_mem s) root ids) ->
  forall v, translate (k_mem s') root v =
    if decide (take (huge_depth virt) (idxs v) = take (huge_depth virt) (idxs virt)) then
      Some (phys + v mod 2 ^ (12 + 9 * (4 - Z.of_nat (huge_depth virt))))
    else translate (k_mem s) root v.
Proof.
  intros Hargs Hpr Hal Hw v. destruct (entry_args_lor _ _ Hargs) as (_ & _ & _ & _ & Hp).
  unfold translate. rewrite Hw by (done || apply idxs_ok). rewrite Hpr.
  destruct (decide (take _ _ = _)); [|done]. unfold huge_depth in *.
  destruct ((pd_index virt =? 0) && (pt_index virt =? 0)).
  - change (12 + 9 * (4 - Z.of_nat 2)) with 30 in *. change (4 - 2)%nat with 2%nat. cbn iota.
    rewrite Hp, Hal. f_equal. lia.
  - change (12 + 9 * (4 - Z.of_nat 3)) with 21 in *. change (4 - 3)%nat with 1%nat. cbn iota.
    rewrite Hp, Hal. f_equal. lia.
Qed.

Lemma as_points_kernel s s' root :
  as_points s AsKernel root -> hhdm_offset s' = hhdm_offset s ->
  kernel_address_space s' = kernel_address_space s -> as_points s' AsKernel root.
Proof.
  intros [Hn Ha] Hh Hk. split; [done|]. unfold as_pml4, gets in *. rewrite Hk, Hh. congruence.
Qed.

Lemma walk_top_small m root virt e :
  walk m root (idxs virt) = Some (e, 0%nat) ->
  huge (load64 (slot root (pml4_index virt)) m) = false.
Proof. unfold idxs. cbn [walk]. destruct (present _); [|done]. by destruct (huge _). Qed.

Lemma no_huge_none m root virt :
  no_huge m root (idxs virt) -> translate m root virt = None -> walk m root (idxs virt) = None.
Proof.
  intros Hn. unfold translate. destruct (walk _ _ _) as [[e lv]|] eqn:E; [|done].
  by rewrite (Hn _ _ E).
Qed.

(** ** Creation without memory, and what a new address space shares *)

Lemma vmm_create_fails s :
  pmm_inv s -> (length (free_list s) < 2)%nat ->
  wp vmm_create_address_space s (fun p s' =>
    p = AsNull /\ pmm_inv s' /\ free_list s' = free_list s /\ pmm_mem_frame s s').
Proof.
  intros Hinv Hlen. unfold vmm_create_address_space. apply wp_bind.
  destruct (decide (free_list s = [])) as [He|Hne].
  { eapply wp_eq; [apply pmm_alloc_empty; [done|apply Hinv]|]. simpl. apply wp_ret.
    split_and!; [done|by destruct Hinv|done|apply pmm_mem_frame_con]. }
  wp_call pmm_alloc_ok; [done|done|]. intros a s1 (Hfl & Ha & _ & Hfr & Hinv1 & _).
  assert (a <> 0) as Ha0 by (destruct Ha; lia). rewrite (proj2 (Z.eqb_neq _ _) Ha0).
  unfold phys_to_virt. wp_steps.
  assert (He : free_list s1 = []).
  { rewrite Hfl, length_app in Hlen. simpl in Hlen. destruct (free_list s1); [done|]. simpl in Hlen. lia. }
  eapply wp_eq; [apply pmm_alloc_empty; [done|apply Hinv1]|]. simpl. apply wp_bind.
  set (s2 := set_con _ s1).
  assert (Hinv2 : pmm_inv s2) by by destruct Hinv1.
  assert (He2 : free_list s2 = []) by done.
  wp_call (pmm_free_inv s2 a); [done|done|rewrite He2; apply not_elem_of_nil| |].
  { by rewrite <- (length_free_list s2 (proj1 (inv_top _ Hinv2))), He2. }
  intros _ s3 (Hfl3 & Hfr3 & _ & Hinv3 & _). apply wp_ret. split_and!; [done|done| |].
  - by rewrite Hfl3, He2, Hfl, He.
  - eapply pmm_mem_frame_trans; [exact Hfr|].
    eapply pmm_mem_frame_trans; [apply (pmm_mem_frame_con s1)|by apply pmm_frame_mem_frame].
Qed.

(** A new address space owns nothing of the kernel's but its upper half. *)
Lemma created_apart s kroot a r s' :
  vm_ok s kroot -> created s kroot a r s' -> apart_ok s' r kroot.
Proof.
  intros Hok Hc. pose proof (cr_kernel _ _ _ _ _ Hc) as [Hk _].
  constructor; [apply Hc|done|].
  intros pi pi' q Hl Hl' Hf Hf' Hlow Hq Hq'.
  destruct pi as [|i pi].
  - injection Hq as <-.
    destruct (cr_disjoint _ _ _ _ _ Hc pi' Hl' Hf' Hq').
  - pose proof (Hlow i eq_refl) as Hi. apply Forall_cons in Hf as [Hiok _].
    cbn [tab] in Hq. by rewrite (cr_low _ _ _ _ _ Hc) in Hq by (unfold idx_ok in *; lia).
Qed.
End properties.

(** ** Properties *)

(** C1: vmm_map_page for a 4 KiB page.  In a well-formed address space with no
    large page in the way, the call returns: 0, with every address of the page
    translating to the frame (or faulting, if the flags lack PAGE_PRESENT), the page
    table entry holding exactly the frame and the flags, every other address
    translating as before, the page open to ring 3 exactly when the flags ask for it
    and its TLB entry flushed; or -1, only with fewer than three
    free pages, and then no translation has changed. *)
Theorem vmm_map_page_correct {P : Platform} s a root virt phys flags :
  vm_ok s root -> as_points s a root -> no_huge (k_mem s) root (idxs virt) ->
  entry_args phys flags -> huge flags = false ->
  wp (vmm_map_page a virt phys flags) s (fun r s' =>
    vm_ok s' root /\
    ((r = 0 /\ maps_to s root virt phys flags s' /\
      (present flags = true -> walk (k_mem s') root (idxs virt) = Some (Z.lor phys flags, 0%nat) /\
        user_path (k_mem s') root (idxs virt) = user flags) /\
      k_flush s' = k_flush s ++ [virt]) \/
     (r = -1 /\ (length (free_list s) < 3)%nat /\
      forall v, translate (k_mem s') root v = translate (k_mem s) root v))).
Proof.
  intros Hok Has Hnh Hargs Hh. wp_call vmm_map_page_spec; [done..|].
  intros r s' (Hok' & _ & [(-> & Hlen & Hw & _)|(-> & Hm & Hu & _ & Hfl)]); (split; [done|]).
  - right. split_and!; [done|done|]. by apply same_walks_translate.
  - left. split_and!; [done|by apply mapped_translate| |done].
    intros Hp. split; [destruct Hm as [Hm _]; by rewrite Hp in Hm|by eapply mapped_user].
Qed.

Lemma vmm_map_page_correct_witness :
  wp (vmm_map_page AsKernel 0x400000 0x14000 7) demo_vm (fun r s' =>
    vm_ok s' demo_root /\
    ((r = 0 /\ maps_to demo_vm demo_root 0x400000 0x14000 7 s' /\
      (present 7 = true -> walk (k_mem s') demo_root (idxs 0x400000) = Some (0x14007, 0%nat) /\
        user_path (k_mem s') demo_root (idxs 0x400000) = user 7) /\
      k_flush s' = k_flush demo_vm ++ [0x400000]) \/
     (r = -1 /\ (length (free_list demo_vm) < 3)%nat /\
      forall v, translate (k_mem s') demo_root v = translate (k_mem demo_vm) demo_root v))).
Proof.
  apply (vmm_map_page_correct demo_vm AsKernel demo_root 0x400000 0x14000 7 demo_vm_ok demo_points
    (demo_no_huge _)); [|reflexivity].
  unfold entry_args, PAGE_SIZE, ENTRY_MASK. split_and!; lia || reflexivity.
Defined.

(** C28: vmm_unmap_page.  Every address of the page that mapped [virt] (4 KiB, 2 MiB
    or 1 GiB, whichever the walk finds) faults afterwards, every other address
    translates as before, the TLB entry is flushed if something was mapped, and
    the tables stay well formed. *)
Theorem vmm_unmap_page_correct {P : Platform} s a root virt :
  vm_ok s root -> as_points s a root ->
  huge (load64 (slot root (pml4_index virt)) (k_mem s)) = false ->
  wp (vmm_unmap_page a virt) s (fun _ s' =>
    vm_ok s' root /\ unmaps s root virt s' /\ translate (k_mem s') root virt = None /\
    (translate (k_mem s) root virt <> None -> k_flush s' = k_flush s ++ [virt])).
Proof.
  intros Hok Has Hh. wp_call vmm_unmap_page_spec; [done..|].
  intros _ s' Hpost. pose proof (unmap_translate _ _ _ _ Hpost) as Hu.
  destruct Hpost as (Hok' & _ & _ & Hfl). split_and!; [done|done| |].
  - rewrite Hu. rewrite decide_True; [done|].
    unfold covered. by destruct (walk _ _ _) as [[??]|].
  - intros Hne. apply Hfl. intros Hn. apply Hne. unfold translate. by rewrite Hn.
Qed.

Lemma vmm_unmap_page_correct_witness :
  wp (vmm_unmap_page AsKernel 0x400000) demo_vm (fun _ s' =>
    vm_ok s' demo_root /\ unmaps demo_vm demo_root 0x400000 s' /\
    translate (k_mem s') demo_root 0x400000 = None /\
    (translate (k_mem demo_vm) demo_root 0x400000 <> None ->
       k_flush s' = k_flush demo_vm ++ [0x400000])).
Proof.
  apply (vmm_unmap_page_correct demo_vm AsKernel demo_root 0x400000 demo_vm_ok demo_points).
  rewrite demo_root_empty by apply idx_land. reflexivity.
Defined.

(** C19: Mapping a 4 KiB page at an unmapped address of the kernel's address space
    makes the address translate to the frame, and unmapping it again restores
    every translation: the pair of calls has no other effect. *)
Theorem vmm_map_unmap_roundtrip {P : Platform} s root virt phys flags :
  vm_ok s root -> as_points s AsKernel root -> no_huge (k_mem s) root (idxs virt) ->
  entry_args phys flags -> huge flags = false -> present flags = true ->
  translate (k_mem s) root virt = None -> (3 <= length (free_list s))%nat ->
  wp (r <- vmm_map_page AsKernel virt phys flags ;;
      x <- gets (fun s' => translate (k_mem s') root virt) ;;
      vmm_unmap_page AsKernel virt ;;; ret (r, x)) s (fun r s' =>
    r = (0, Some (phys + virt mod 4096)) /\ vm_ok s' root /\
    forall v, translate (k_mem s') root v = translate (k_mem s) root v).
Proof.
  intros Hok Has Hnh Hargs Hh Hp Hv Hlen. apply wp_bind.
  wp_call vmm_map_page_spec; [done..|]. intros r s1 (Hok1 & Hoff & Hpost).
  destruct Hpost as [(_ & Hlt & _)|(-> & Hm & _ & Hk & _)]; [lia|].
  pose proof (mapped_translate _ _ _ _ _ _ Hargs Hm) as Ht. destruct Hm as [Hw _].
  rewrite Hp in Hw. apply wp_bind, wp_gets, wp_bind.
  wp_call (vmm_unmap_page_spec s1 AsKernel root virt);
    [done|by eapply as_points_kernel|by eapply walk_top_small|].
  intros _ s2 Hpost. pose proof (unmap_translate _ _ _ _ Hpost) as Hu. apply wp_ret.
  split_and!; [|apply Hpost|].
  - rewrite Ht, decide_True by done. by rewrite Hp.
  - intros v. rewrite Hu.
    assert (Hc : covered (k_mem s1) root virt (idxs v) <-> idxs v = idxs virt).
    { unfold covered. rewrite Hw. cbn [Nat.sub]. by rewrite !take_ge. }
    destruct (decide (covered _ _ _ _)) as [E|E]; rewrite Hc in E.
    + unfold translate. rewrite E. by rewrite (no_huge_none _ _ _ Hnh Hv).
    + rewrite Ht. rewrite decide_False; [done|]. by rewrite same_page_idxs.
Qed.

Lemma vmm_map_unmap_roundtrip_witness :
  wp (r <- vmm_map_page AsKernel 0x400000 0x14000 3 ;;
      x <- gets (fun s' => translate (k_mem s') demo_root 0x400000) ;;
      vmm_unmap_page AsKernel 0x400000 ;;; ret (r, x)) demo_vm (fun r s' =>
    r = (0, Some (0x14000 + 0x400000 mod 4096)) /\ vm_ok s' demo_root /\
    forall v, translate (k_mem s') demo_root v = translate (k_mem demo_vm) demo_root v).
Proof.
  apply (vmm_map_unmap_roundtrip demo_vm demo_root 0x400000 0x14000 3 demo_vm_ok demo_points
    (demo_no_huge _)); [|reflexivity|reflexivity| |vm_compute; lia].
  - unfold entry_args, PAGE_SIZE, ENTRY_MASK. split_and!; lia || reflexivity.
  - unfold translate, idxs. cbn [walk]. by rewrite demo_root_empty by apply idx_land.
Defined.

(** A large-page request (PAGE_HUGE) maps 1 GiB when the page-directory and
    page-table indices of the address are zero, 2 MiB otherwise: every address of
    that large page translates into the frame, every other address translates as
    before.  It fails only for lack of free pages, and it never flushes the TLB. *)
Theorem vmm_map_huge_correct {P : Platform} s a root virt phys flags :
  vm_ok s root -> as_points s a root -> no_huge (k_mem s) root (idxs virt) ->
  entry_args phys flags -> huge flags = true -> present flags = true ->
  phys mod 2 ^ (12 + 9 * (4 - Z.of_nat (huge_depth virt))) = 0 ->
  wp (vmm_map_page a virt phys flags) s (fun r s' =>
    vm_ok s' root /\ k_flush s' = k_flush s /\
    ((r = 0 /\ forall v, translate (k_mem s') root v =
        if decide (take (huge_depth virt) (idxs v) = take (huge_depth virt) (idxs virt)) then
          Some (phys + v mod 2 ^ (12 + 9 * (4 - Z.of_nat (huge_depth virt))))
        else translate (k_mem s) root v) \/
     (r = -1 /\ (length (free_list s) < 3)%nat /\
      forall v, translate (k_mem s') root v = translate (k_mem s) root v))).
Proof.
  intros Hok Has Hnh Hargs Hh Hp Hal. wp_call vmm_map_huge_spec; [done..|].
  intros r s' (Hok' & _ & Hfl & [(-> & Hlen & Hw)|(-> & Hm)]); (split_and!; [done|done|]).
  - right. split_and!; [done|done|]. by apply same_walks_translate.
  - left. split; [done|]. by eapply map_huge_translate.
Qed.

Lemma vmm_map_huge_correct_witness :
  wp (vmm_map_page AsKernel 0x40200000 0x600000 0x83) demo_vm (fun r s' =>
    vm_ok s' demo_root /\ k_flush s' = k_flush demo_vm /\
    ((r = 0 /\ forall v, translate (k_mem s') demo_root v =
        if decide (take (huge_depth 0x40200000) (idxs v)
                   = take (huge_depth 0x40200000) (idxs 0x40200000)) then
          Some (0x600000 + v mod 2 ^ (12 + 9 * (4 - Z.of_nat (huge_depth 0x40200000))))
        else translate (k_mem demo_vm) demo_root v) \/
     (r = -1 /\ (length (free_list demo_vm) < 3)%nat /\
      forall v, translate (k_mem s') demo_root v = translate (k_mem demo_vm) demo_root v))).
Proof.
  apply (vmm_map_huge_correct demo_vm AsKernel demo_root 0x40200000 0x600000 0x83 demo_vm_ok
    demo_points (demo_no_huge _)); [|reflexivity..].
  unfold entry_args, PAGE_SIZE, ENTRY_MASK. split_and!; lia || reflexivity.
Defined.

(** C20: vmm_create_address_space.  With two free pages it returns a descriptor
    whose PML4 is a new page: the upper half translates exactly as in the kernel's
    address space, the lower half is empty, cr3_value is the PML4's physical
    address, and the kernel's own translations are unchanged; with fewer it
    returns NULL and gives back what it took. *)
Theorem vmm_create_address_space_correct {P : Platform} s kroot :
  vm_ok s kroot -> pml4 (kernel_address_space s) = hhdm_offset s + kroot ->
  wp vmm_create_address_space s (fun p s' =>
    if decide (2 <= length (free_list s))%nat then
      exists a r, p = AsAt (hhdm_offset s + a) /\ as_points s' p r /\ as_cr3 p s' = Ret r s' /\
        free_list s = free_list s' ++ [r; a] /\ vm_ok s' r /\ vm_ok s' kroot /\
        (forall v, translate (k_mem s') kroot v = translate (k_mem s) kroot v) /\
        (forall v, translate (k_mem s') r v =
           if decide (pml4_index v < 256) then None else translate (k_mem s) kroot v)
    else p = AsNull /\ pmm_inv s' /\ free_list s' = free_list s /\ pmm_mem_frame s s').
Proof.
  intros Hok Hpml. case_decide as Hlen; [|apply vmm_create_fails; [apply Hok|lia]].
  wp_call vmm_create_spec; [done..|]. intros p s' (a & r & -> & Hc).
  destruct Hc as [Hfl Ha Hr Hpt Hcr Hfr _ [Hk Hkw] Hn Hw _ _].
  rewrite (pmm_mem_frame_hhdm _ _ Hfr) in Hpt, Hcr. exists a, r. split_and!; try done.
  - by apply same_walks_translate.
  - intros v. unfold translate. unfold idxs at 1. rewrite Hw by (done || apply idxs_ok).
    by case_decide.
Qed.

Lemma vmm_create_address_space_correct_witness :
  wp vmm_create_address_space demo_vm (fun p s' =>
    exists a r, p = AsAt (hhdm_offset demo_vm + a) /\ as_points s' p r /\
      translate (k_mem s') r 0x1000 = None).
Proof.
  pose proof (vmm_create_address_space_correct demo_vm demo_root demo_vm_ok
    ltac:(vm_compute; reflexivity)) as H.
  eapply wp_mono; [exact H|]. intros p s'. cbv beta.
  destruct (decide _) as [_|Hn]; [|exfalso; apply Hn; vm_compute; lia]. intros (a & r & Hp & Hpt & _ & _ & _ & _ & _ & Ht).
  exists a, r. split_and!; [exact Hp|exact Hpt|]. rewrite Ht. reflexivity.
Defined.

(** C32: Creating an address space and destroying it at once gives both pages back:
    the stack of free pages is exactly what it was. *)
Theorem vmm_create_destroy_roundtrip {P : Platform} s kroot :
  vm_ok s kroot -> pml4 (kernel_address_space s) = hhdm_offset s + kroot ->
  wp (p <- vmm_create_address_space ;; vmm_destroy_address_space p) s (fun _ s' =>
    free_list s' = free_list s /\ pmm_inv s').
Proof.
  intros Hok Hpml. apply wp_bind.
  destruct (decide (2 <= length (free_list s))%nat) as [Hlen|Hlen].
  - wp_call vmm_create_spec; [done..|]. intros p s' (a & r & -> & Hc).
    rewrite <- (pmm_mem_frame_hhdm _ _ (cr_frame _ _ _ _ _ Hc)).
    wp_call vmm_destroy_spec; [apply Hok|exact Hc|]. intros _ s2 (? & ? & _). done.
  - wp_call (vmm_create_fails s); [apply Hok|lia|]. intros p s' (-> & Hinv & Hfl & _).
    by apply wp_ret.
Qed.

Lemma vmm_create_destroy_roundtrip_witness :
  wp (p <- vmm_create_address_space ;; vmm_destroy_address_space p) demo_vm (fun _ s' =>
    free_list s' = free_list demo_vm /\ pmm_inv s').
Proof.
  apply (vmm_create_destroy_roundtrip demo_vm demo_root demo_vm_ok). vm_compute. reflexivity.
Defined.

(** C17: Isolation.  Mapping any page, large or small, in the lower half of an
    address space [r] changes no translation of an address space [o] with which
    the lower half of [r] shares no table, and the two stay apart (as the kernel's
    address space and one just created are: created_apart). *)
Theorem vmm_map_isolated {P : Platform} s a r o virt phys flags :
  apart_ok s r o -> as_points s a r -> no_huge (k_mem s) r (idxs virt) ->
  entry_args phys flags -> pml4_index virt < 256 ->
  wp (vmm_map_page a virt phys flags) s (fun _ s' =>
    apart_ok s' r o /\
    (forall v, translate (k_mem s') o v = translate (k_mem s) o v)).
Proof.
  intros Hap Has Hnh Hargs Hlow.
  wp_call (vmm_map_unseen s a r o virt phys flags); [done..|]. intros v s' [(_ & Hw & _) Hap'].
  split; [done|]. by apply same_walks_translate.
Qed.

Lemma vmm_map_isolated_witness :
  wp vmm_create_address_space demo_vm (fun p s =>
    wp (vmm_map_page p 0x400000 0x14000 7) s (fun _ s' =>
      forall v, translate (k_mem s') demo_root v = translate (k_mem s) demo_root v)).
Proof.
  wp_call (vmm_create_spec demo_vm demo_root demo_vm_ok ltac:(vm_compute; reflexivity)
    ltac:(vm_compute; lia)).
  intros p s (a & r & -> & Hc).
  pose proof (cr_points _ _ _ _ _ Hc) as Hpt.
  rewrite (pmm_mem_frame_hhdm _ _ (cr_frame _ _ _ _ _ Hc)) in Hpt.
  refine (wp_mono _ _ _ _ (vmm_map_isolated s _ r demo_root 0x400000 0x14000 7
    (created_apart _ _ _ _ _ demo_vm_ok Hc) Hpt _ _ _) _).
  - intros e lv Hw. unfold idxs in Hw.
    rewrite (cr_walk _ _ _ _ _ Hc) in Hw by (apply (idxs_ok 0x400000) || reflexivity).
    by rewrite decide_True in Hw by (vm_compute; reflexivity).
  - unfold entry_args, PAGE_SIZE, ENTRY_MASK. split_and!; lia || reflexivity.
  - reflexivity.
  - intros v s' [_ H]. exact H.
Defined.

(** A 4 KiB mapping requested inside an existing large page is reported as
    successful and has no effect on the translation: get_or_create_table takes the
    large page for a page table and the new entry lands in the mapped frame.  On
    the demonstration machine: after mapping 2 MiB at 0x40200000 to 0x600000, the
    mapping of 0x40201000 to 0x14000 returns 0, the address still translates to
    0x601000, and the frame's byte 8 has become the entry's low byte. *)
Theorem vmm_map_inside_huge :
  let s1 := run (vmm_map_page AsKernel 0x40200000 0x600000 0x83) demo_vm in
  let s2 := run (vmm_map_page AsKernel 0x40201000 0x14000 3) s1 in
  result (vmm_map_page AsKernel 0x40201000 0x14000 3) s1 (-1) = 0 /\
  translate (k_mem s2) demo_root 0x40201000 = Some 0x601000 /\
  mget (k_mem s1) 0x600008 = 0 /\ mget (k_mem s2) 0x600008 = 3.
Proof. vm_compute. auto. Qed.
