(* ===== verification/VmmFrame.v ===== *)
(** * The virtual memory manager: what mapping a page leaves alone

    vmm_map_page writes only page tables of the address space and pages it takes
    from the allocator.  That is what a caller needs who has data in memory while
    it builds an address space. *)
From S2P Require Import Prelude Memory State Demo Pmm PageTable Vmm VmmSpec VmmSpace VmmTheorems.

Section frame.
Context {P : Platform}.
Implicit Types s : kstate.

(** Page [q] is a table of the address space. *)
Definition table (m : gmap Z Z) (root q : Z) : Prop :=
  exists pi, (length pi <= 3)%nat /\ Forall idx_ok pi /\ tab m root pi = Some q.

(** The page [n] is free: [x] lies in it. *)
Definition in_free s (x : Z) : Prop := exists n, n ∈ free_list s /\ in_page n x.
Definition in_table (m : gmap Z Z) (root x : Z) : Prop := exists q, table m root q /\ in_page q x.

Record vm_kept (root : Z) s s' : Prop := {
  kp_free : exists l, free_list s = free_list s' ++ l;
  kp_mem : forall x, ~ in_free s x -> ~ in_table (k_mem s) root x -> mget (k_mem s') x = mget (k_mem s) x;
  kp_tab : forall q, table (k_mem s') root q -> table (k_mem s) root q \/ q ∈ free_list s;
  kp_rest : s' = set_flush (fun _ => k_flush s') (set_con (fun _ => k_con s') (set_pmm (fun _ => k_pmm s')
    (set_mem (fun _ => k_mem s') s)));
}.

Lemma vm_kept_refl root s : vm_kept root s s.
Proof. constructor; [exists []; by rewrite app_nil_r|done|by left|by destruct s]. Qed.

Lemma vm_kept_subset root s s' n : vm_kept root s s' -> n ∈ free_list s' -> n ∈ free_list s.
Proof. intros [[l ->] _ _ _] Hn. apply elem_of_app. by left. Qed.

Lemma vm_kept_trans root s1 s2 s3 : vm_kept root s1 s2 -> vm_kept root s2 s3 -> vm_kept root s1 s3.
Proof.
  intros H1 H2. constructor.
  - destruct (kp_free _ _ _ H1) as [l1 E1], (kp_free _ _ _ H2) as [l2 E2]. exists (l2 ++ l1).
    by rewrite E1, E2, app_assoc.
  - intros x Hf Ht. rewrite (kp_mem _ _ _ H2), (kp_mem _ _ _ H1); [done|done|done| |].
    + intros (n & Hn & Hx). apply Hf. exists n. split; [by eapply vm_kept_subset|done].
    + intros (q & Hq & Hx). destruct (kp_tab _ _ _ H1 q Hq) as [Hq1|Hq1]; [apply Ht|apply Hf]; by exists q.
  - intros q Hq. destruct (kp_tab _ _ _ H2 q Hq) as [Hq2|Hq2].
    + by apply (kp_tab _ _ _ H1).
    + right. by eapply vm_kept_subset.
  - rewrite (kp_rest _ _ _ H2), (kp_rest _ _ _ H1). done.
Qed.

Lemma vm_kept_vm_free root s s' : vm_kept root s s' -> hhdm_offset s' = hhdm_offset s.
Proof. intros H. by rewrite (kp_rest _ _ _ H). Qed.

Lemma users_kept_trans root out m1 m2 m3 :
  (forall ids, length ids = 4%nat -> Forall idx_ok ids -> ~ out ids -> walk m2 root ids = walk m1 root ids) ->
  users_kept root out m1 m2 -> users_kept root out m2 m3 -> users_kept root out m1 m3.
Proof.
  intros Hw H1 H2 ids e Hl Hf Ho Hwk Hu. apply (H2 ids e); [done|done|done|by rewrite Hw|by apply (H1 ids e)].
Qed.
Lemma users_kept_weaken root (out out' : list Z -> Prop) m m' : (forall ids, out ids -> out' ids) ->
  users_kept root out m m' -> users_kept root out' m m'.
Proof. intros Ho H ids e Hl Hf Hn. apply (H ids e); [done|done|]. by intros ?%Ho. Qed.

(** A change outside the tables. *)
Lemma users_kept_frame m m' root free :
  tree_ok m root free ->
  (forall pi q x, (length pi <= 3)%nat -> Forall idx_ok pi -> tab m root pi = Some q ->
     q <= x < q + PAGE_SIZE -> mget m' x = mget m x) ->
  users_kept root (fun _ => False) m m'.
Proof.
  intros Ht Hm. destruct (tree_frame m m' root free free Ht Hm) as (_ & Hw & Htab); [done|].
  apply users_kept_slots; [|intros; by apply Hw|].
  - intros ids t Hl Hf Hq. by rewrite Htab by (done || lia).
  - intros pi j rest t Hl Hf _ Hq Hu. apply Forall_split in Hf as (Hf & Hj & _). rewrite length_app in Hl. simpl in Hl.
    rewrite <- Hu. f_equal. apply load_le_ext. intros x Hx. apply (Hm pi t); [lia|done|done|].
    unfold slot, idx_ok, PAGE_SIZE in *. lia.
Qed.

(** The write of a last-level entry. *)
Lemma users_kept_leaf s root virt q phys flags :
  vm_ok s root -> entry_args phys flags ->
  tab (k_mem s) root [pml4_index virt; pdpt_index virt; pd_index virt] = Some q ->
  users_kept root (eq (idxs virt)) (k_mem s) (store64 (slot q (pt_index virt)) (Z.lor phys flags) (k_mem s)).
Proof.
  intros Hok Hargs Ht. destruct (leaf_written s root virt q phys flags Hok Hargs Ht) as (_ & [_ Hm] & Ho).
  cbn [k_mem set_mem] in Hm, Ho. set (pi := [pml4_index virt; pdpt_index virt; pd_index virt]) in *.
  assert (Hpi : Forall idx_ok pi) by (repeat constructor; apply idx_land).
  apply users_kept_slots.
  - intros ids t Hl Hf Hq. rewrite <- Hq. eapply (tab_avoid (k_mem s) root pi (pt_index virt) q); try done || lia.
    intros pi1 j pi2 -> [= -> ->]. rewrite length_app in Hl. simpl in Hl. lia.
  - intros ids Hl Hf Hne. apply Hm; [done|done|congruence].
  - intros pi1 j rest t Hl Hf Hne Htt Hu. rewrite <- Hu. f_equal. apply Forall_split in Hf as (Hf & Hj & _).
    assert (Hl' := Hl). rewrite length_app in Hl'. simpl in Hl'. apply (Ho pi1 j t); [lia|done|done|done|].
    intros [= -> ->]. apply Hne. destruct rest; [reflexivity|]. simpl in Hl. lia.
Qed.

(** One step of the walk down. *)
Lemma vm_kept_step s root pi i rest flags s1 q :
  reached s root pi flags s1 q -> vm_kept root s s1 -> rest <> [] -> length (pi ++ i :: rest) = 4%nat ->
  Forall idx_ok (pi ++ i :: rest) -> no_huge (k_mem s) root (pi ++ i :: rest) ->
  wp (get_or_create_table (entry_ptr (hhdm_offset s + q) i) (table_flags flags)) s1 (fun r s2 =>
    vm_kept root s s2 /\ (user flags = true -> users_kept root (fun _ => False) (k_mem s1) (k_mem s2)) /\
    ((r = 0 /\ starved s root s2) \/
     (exists q', r = hhdm_offset s + q' /\ r <> 0 /\ reached s root (pi ++ [i]) flags s2 q'))).
Proof.
  intros Hre Hk Hne Hl Hf Hnh.
  destruct (reached_no_huge s root pi i rest flags s1 q Hre Hne Hl Hf Hnh) as (Hl2 & Hf1 & Hi & Hh).
  pose proof Hre as [Hok Hfr _ Ht _ _]. pose proof (pmm_mem_frame_hhdm _ _ Hfr) as Eh.
  assert (Hq : page_ok q) by (apply (tree_pages _ _ _ (vm_tree _ _ Hok) pi); done || lia).
  pose proof (inv_hhdm _ (vm_pmm _ _ Hok)) as Hh1.
  assert (Hka : kmap (entry_ptr (hhdm_offset s + q) i) = slot q i) by (rewrite <- Eh; by apply entry_kmap).
  eapply wp_mono; [apply wp_conj|].
  { rewrite <- Eh. apply (get_or_create_step s1 root pi i q flags); done. }
  { apply (get_or_create_local s1 _ (slot q i)); [apply Hok|done]. }
  intros r s2 [Hst [Hsub Hmem]]. pose proof Hst as (_ & Hfr2 & _ & Htab & _). split_and!.
  - eapply vm_kept_trans; [exact Hk|]. constructor; [done| | |].
    + intros x Hx Hxt. apply Hmem.
      * intros Hin. apply Hxt. exists q. split; [exists pi; split; [lia|done]|].
        unfold in_page, slot, idx_ok, PAGE_SIZE in *. lia.
      * intros n Hn Hin. apply Hx. by exists n.
    + intros q' (ids & Hl3 & Hf3 & Hq'). destruct (Htab ids q' Hl3 Hf3 Hq') as [Ho|Ho]; [left; by exists ids|by right].
    + unfold pmm_mem_frame in Hfr2. rewrite Hfr2. by destruct s1.
  - intros Hu. by eapply users_kept_stepped.
  - by eapply stepped_reached.
Qed.

(** Writing the last entry. *)
Lemma vm_kept_leaf s root virt q phys flags fl :
  vm_ok s root -> entry_args phys flags ->
  tab (k_mem s) root [pml4_index virt; pdpt_index virt; pd_index virt] = Some q ->
  vm_kept root s (set_flush fl (set_mem (store64 (slot q (pt_index virt)) (Z.lor phys flags)) s)).
Proof.
  intros Hok Hargs Ht. set (pi := [pml4_index virt; pdpt_index virt; pd_index virt]) in *.
  assert (Hpi : Forall idx_ok pi) by (repeat constructor; apply idx_land).
  destruct (leaf_written s root virt q phys flags Hok Hargs Ht) as (_ & _ & Ho). fold pi in Ho.
  constructor; [exists []; by rewrite app_nil_r| | |by destruct s].
  - intros x _ Hxt. apply store_outside. assert (Hi : idx_ok (pt_index virt)) by apply idx_land.
    destruct (decide (in_page q x)) as [Hin|Hin]; [exfalso; apply Hxt; exists q; split; [by exists pi|done]|].
    unfold in_page, slot, idx_ok, PAGE_SIZE in *. lia.
  - intros q' (ids & Hl & Hf & Hq'). left. exists ids. split; [done|]. split; [done|].
    eapply (leaf_tab (k_mem s) root pi (pt_index virt) q); try done. by left.
Qed.

Lemma vmm_map_page_kept s a root virt phys flags :
  vm_ok s root -> as_points s a root -> no_huge (k_mem s) root (idxs virt) ->
  entry_args phys flags -> huge flags = false -> user flags = true ->
  wp (vmm_map_page a virt phys flags) s (fun _ s' =>
    vm_kept root s s' /\ (length (free_list s) <= 3 + length (free_list s'))%nat /\
    users_kept root (eq (idxs virt)) (k_mem s) (k_mem s')).
Proof.
  intros Hok Has Hnh Hargs Hfh Hfu. pose proof Has as [_ Hpml]. pose proof (idxs_ok virt) as Hids.
  set (i4 := pml4_index virt) in *. set (i3 := pdpt_index virt) in *.
  set (i2 := pd_index virt) in *. set (i1 := pt_index virt) in *.
  set (out := fun _ : list Z => False).
  assert (Hstarve : forall s', vm_kept root s s' -> users_kept root out (k_mem s) (k_mem s') -> starved s root s' ->
    vm_kept root s s' /\ (length (free_list s) <= 3 + length (free_list s'))%nat /\
    users_kept root (eq (idxs virt)) (k_mem s) (k_mem s')).
  { intros s' Hk Hu (_ & _ & _ & Hlt). split_and!; [done|lia|]. by apply (users_kept_weaken root out). }
  assert (Htr : forall pi q s1 s2, reached s root pi flags s1 q -> users_kept root out (k_mem s) (k_mem s1) ->
    users_kept root out (k_mem s1) (k_mem s2) -> users_kept root out (k_mem s) (k_mem s2)).
  { intros pi q s1 s2 Hre U1 U2. eapply users_kept_trans; [|exact U1|exact U2]. intros. by apply (re_walks _ _ _ _ _ _ Hre). }
  unfold vmm_map_page. apply wp_bind. eapply wp_eq; [by eapply as_valid|]. cbn beta iota.
  apply wp_bind. eapply wp_eq; [exact Hpml|]. cbn beta. fold (table_flags flags).
  fold i4 i3 i2 i1. rewrite huge_truthy, Hfh. cbn [andb]. apply wp_bind.
  wp_call (vm_kept_step s root [] i4 [i3; i2; i1]); [by apply reached_refl|apply vm_kept_refl|done..|].
  intros r s1 (K1 & U1 & Hst); specialize (U1 Hfu). destruct Hst as [[-> Hs]|(q3 & -> & Hr3 & H3)]; [by apply wp_ret, Hstarve|].
  rewrite (proj2 (Z.eqb_neq _ _) Hr3). apply wp_bind.
  wp_call (vm_kept_step s root [i4] i3 [i2; i1]); [done..|].
  intros r s2 (K2 & U2 & Hst); specialize (U2 Hfu); pose proof (Htr _ _ _ _ H3 U1 U2) as U12.
  destruct Hst as [[-> Hs]|(q2 & -> & Hr2 & H2)]; [by apply wp_ret, Hstarve|].
  rewrite (proj2 (Z.eqb_neq _ _) Hr2). apply wp_bind.
  wp_call (vm_kept_step s root [i4; i3] i2 [i1]); [done..|].
  intros r s3 (K3 & U3 & Hst); specialize (U3 Hfu); pose proof (Htr _ _ _ _ H2 U12 U3) as U123.
  destruct Hst as [[-> Hs]|(q1 & -> & Hr1 & [Hok3 Hfr3 Hw3 Ht3 _ Hl3])]; [by apply wp_ret, Hstarve|].
  rewrite (proj2 (Z.eqb_neq _ _) Hr1). cbn [app] in Ht3, Hl3.
  assert (Hpi : Forall idx_ok [i4; i3; i2]) by (repeat constructor; apply idx_land).
  destruct (tree_pages _ _ _ (vm_tree _ _ Hok3) [i4; i3; i2] q1 ltac:(simpl; lia) Hpi Ht3) as [Hq1 _].
  unfold wr64, invlpg. wp_steps. rewrite <- (pmm_mem_frame_hhdm _ _ Hfr3).
  rewrite entry_kmap by (done || apply vm_pmm in Hok3; apply Hok3 || apply idx_land).
  split_and!; [|exact Hl3|]; [eapply vm_kept_trans; [exact K3|]; by apply vm_kept_leaf|].
  eapply users_kept_trans; [|by apply (users_kept_weaken root out); [|exact U123]|by apply users_kept_leaf].
  intros. by apply Hw3.
Qed.
End frame.
