(* ===== verification/Cpu.v ===== *)
(** * The processor: stack operations, interrupt entry and return

    What the assembly files of the kernel use of the x86-64 instruction set:
    push, pop, cli, the entry sequence of an interrupt gate and iretq.  The stack is
    in memory; [stk] states what lies on it. *)
From S2P Require Import Prelude Memory State.

Section cpu.
Context {P : Platform}.

Definition push (v : Z) : K unit :=
  sp <- getr RSP ;;
  setr RSP (u64 (sp - 8)) ;;;
  wr64 (u64 (sp - 8)) v.

Definition pop : K Z :=
  sp <- getr RSP ;;
  v <- rd64 sp ;;
  setr RSP (u64 (sp + 8)) ;;;
  ret v.

Definition push_reg (r : reg) : K unit := v <- getr r ;; push v.
Definition pop_reg (r : reg) : K unit := v <- pop ;; setr r v.

Fixpoint push_regs (l : list reg) : K unit :=
  match l with [] => ret tt | r :: l => push_reg r ;;; push_regs l end.
Fixpoint pop_regs (l : list reg) : K unit :=
  match l with [] => ret tt | r :: l => pop_reg r ;;; pop_regs l end.

(** add rsp, 8 * n. *)
Definition drop_words (n : Z) : K unit :=
  sp <- getr RSP ;; setr RSP (u64 (sp + 8 * n)).

Definition cli : K unit := modify (set_if (fun _ => false)).
Definition sti : K unit := modify (set_if (fun _ => true)).

(** RFLAGS with the interrupt flag (bit 9) of the state. *)
Definition flags_word (f : Z) (iflag : bool) : Z :=
  if iflag then Z.lor f 0x200 else Z.ldiff f 0x200.

(** The entry through an interrupt gate with selector [cs]: from ring 3 the
    processor switches to the stack of the TSS; it aligns the stack, saves the
    interrupted context and, for some vectors, an error code, and disables
    interrupts. *)
Definition cpu_interrupt (cs : Z) (error : option Z) : K unit :=
  old_cs <- getr CS ;;
  old_ss <- getr SS ;;
  old_sp <- getr RSP ;;
  f <- getr RFLAGS ;;
  iflag <- gets k_if ;;
  top <- gets (fun s => rsp0 (tss (k_gdt s))) ;;
  let ring3 := Z.land old_cs 3 =? 3 in
  setr RSP (Z.land (if ring3 then top else old_sp) (u64 (Z.lnot 0xF))) ;;;
  push old_ss ;;;
  push old_sp ;;;
  push (flags_word f iflag) ;;;
  push old_cs ;;;
  push_reg RIP ;;;
  match error with Some e => push e | None => ret tt end ;;;
  (when ring3 do setr SS 0) ;;;
  setr CS cs ;;;
  cli.

Definition iretq : K unit :=
  pop_reg RIP ;;;
  pop_reg CS ;;;
  f <- pop ;;
  sp <- pop ;;
  ss <- pop ;;
  setr RFLAGS f ;;;
  modify (set_if (fun _ => Z.testbit f 9)) ;;;
  setr RSP sp ;;;
  setr SS ss.
End cpu.

(** ** Registers *)

Lemma rset_eq r v f : rset r v f r = v.
Proof. unfold rset. by rewrite decide_True. Qed.
Lemma rset_ne r r' v f : r <> r' -> rset r v f r' = f r'.
Proof. intros. unfold rset. by rewrite decide_False. Qed.

Ltac reg_simpl :=
  repeat first [ rewrite rset_eq | rewrite rset_ne by done ].

(** ** What is on the stack *)

Section stack.
Context {P : Platform}.
Implicit Types s : kstate.

(** The window of the stack in use: addresses [lo..hi) that designate
    consecutive bytes of memory. *)
Context (lo hi : Z).
Definition window_ok : Prop :=
  0 <= lo /\ hi < 18446744073709551616 /\
  forall x, lo <= x < hi -> kmap x = kmap lo + (x - lo).

(** The words [vs] lie on the stack, the first one on top. *)
Definition stk s (vs : list Z) : Prop :=
  lo <= k_regs s RSP /\ k_regs s RSP + 8 * Z.of_nat (length vs) <= hi /\
  Forall (fun v => 0 <= v < 18446744073709551616) vs /\
  forall i v, vs !! i = Some v -> load64 (kmap (k_regs s RSP + 8 * Z.of_nat i)) (k_mem s) = v.

(** Bytes of memory outside the part of the window below [top]. *)
Definition mem_above (top : Z) (m m' : gmap Z Z) : Prop :=
  forall a, ~ (kmap lo <= a < kmap lo + (top - lo)) -> mget m' a = mget m a.

Lemma mem_above_refl top m : mem_above top m m.
Proof. done. Qed.
Lemma mem_above_trans top m1 m2 m3 : mem_above top m1 m2 -> mem_above top m2 m3 -> mem_above top m1 m3.
Proof. intros H1 H2 a Ha. by rewrite H2, H1. Qed.
Lemma mem_above_mono top top' m m' : top <= top' -> mem_above top m m' -> mem_above top' m m'.
Proof. intros Hle H a Ha. apply H. lia. Qed.

Context (Hwin : window_ok).

Lemma stk_nil s : lo <= k_regs s RSP <= hi -> stk s [].
Proof. intros H. split_and!; [lia|simpl; lia|constructor|]. intros i v Hi. by rewrite lookup_nil in Hi. Qed.

Lemma wp_push s vs v :
  stk s vs -> lo + 8 <= k_regs s RSP -> 0 <= v < 18446744073709551616 ->
  wp (push v) s (fun _ s' =>
    stk s' (v :: vs) /\ k_regs s' = rset RSP (k_regs s RSP - 8) (k_regs s) /\
    s' = set_mem (fun _ => k_mem s') (set_regs (fun _ => k_regs s') s) /\
    mem_above (k_regs s RSP) (k_mem s) (k_mem s')).
Proof.
  intros (Hlo & Hhi & Hvs & Hl) Hroom Hv. destruct Hwin as (W1 & W2 & W3).
  unfold push, getr, setr, wr64. wp_steps. rewrite u64_small by lia.
  set (sp := k_regs s RSP) in *.
  assert (Hk : forall x, lo <= x < hi -> kmap x = kmap lo + (x - lo)) by done.
  split_and!.
  - unfold stk. cbn [k_regs k_mem set_mem set_regs]. rewrite rset_eq.
    split_and!; [lia|cbn [length]; lia|by constructor|].
    intros i w Hi. destruct i as [|i].
    + injection Hi as <-. rewrite Z.add_0_r. by apply load_store64_eq.
    + simpl in Hi. pose proof (lookup_lt_Some _ _ _ Hi) as Hlt.
      replace (sp - 8 + 8 * Z.of_nat (S i)) with (sp + 8 * Z.of_nat i) by lia.
      rewrite load_store64_ne; [by apply Hl|].
      rewrite (Hk (sp - 8)), (Hk (sp + 8 * Z.of_nat i)) by lia. lia.
  - done.
  - by destruct s.
  - intros a Ha. cbn [k_mem set_mem set_regs]. unfold store64. apply mget_store_le_out.
    rewrite (Hk (sp - 8)) by lia. lia.
Qed.

Lemma wp_pop s v vs :
  stk s (v :: vs) ->
  wp pop s (fun x s' => x = v /\ stk s' vs /\
    s' = set_regs (fun _ => rset RSP (u64 (k_regs s RSP + 8)) (k_regs s)) s).
Proof.
  intros (Hlo & Hhi & Hvs & Hl). destruct Hwin as (W1 & W2 & W3). cbn [length] in Hhi.
  unfold pop, getr, setr, rd64. wp_steps. split_and!.
  - specialize (Hl 0%nat v eq_refl). by rewrite Z.add_0_r in Hl.
  - apply Forall_cons in Hvs as [_ Hvs]. unfold stk. cbn [k_regs k_mem set_regs].
    rewrite rset_eq.
    rewrite u64_small by lia. split_and!; [lia|lia|done|].
    intros i w Hi. replace (k_regs s RSP + 8 + 8 * Z.of_nat i)
      with (k_regs s RSP + 8 * Z.of_nat (S i)) by lia. by apply Hl.
  - by destruct s.
Qed.

Lemma stk_frame s s' vs :
  k_regs s' RSP = k_regs s RSP -> k_mem s' = k_mem s -> stk s vs -> stk s' vs.
Proof. intros Hr Hm. unfold stk. by rewrite Hr, Hm. Qed.

Lemma stk_mem s s' vs :
  k_regs s' RSP = k_regs s RSP ->
  (forall a, kmap lo <= a < kmap lo + (hi - lo) -> mget (k_mem s') a = mget (k_mem s) a) -> stk s vs -> stk s' vs.
Proof.
  intros Hr Hm (Hlo & Hhi & Hvs & Hl). destruct Hwin as (W1 & W2 & W3). unfold stk. rewrite Hr.
  split_and!; [done|done|done|]. intros i v Hi. pose proof (lookup_lt_Some _ _ _ Hi).
  rewrite <- (Hl i v Hi). apply load_le_ext. intros j Hj. apply Hm. rewrite W3 in Hj by lia. lia.
Qed.

Lemma stk_prefix s ws vs : stk s (ws ++ vs) -> stk s ws.
Proof.
  intros (Hlo & Hhi & Hvs & Hl). rewrite length_app in Hhi. apply Forall_app in Hvs as [Hws _].
  split_and!; [done|lia|done|]. intros i v Hi. apply Hl. by apply lookup_app_l_Some.
Qed.

Lemma wp_drop_words s ws vs n :
  stk s (ws ++ vs) -> n = Z.of_nat (length ws) ->
  wp (drop_words n) s (fun _ s' => stk s' vs /\
    s' = set_regs (rset RSP (k_regs s RSP + 8 * n)) s).
Proof.
  intros (Hlo & Hhi & Hvs & Hl) ->. destruct Hwin as (W1 & W2 & W3).
  rewrite length_app in Hhi. unfold drop_words, getr, setr. wp_steps.
  rewrite u64_small by lia. split; [|done].
  apply Forall_app in Hvs as [_ Hvs]. unfold stk. cbn [k_regs k_mem set_regs]. rewrite rset_eq.
  split_and!; [lia|lia|done|]. intros i w Hi.
  replace (k_regs s RSP + 8 * Z.of_nat (length ws) + 8 * Z.of_nat i)
    with (k_regs s RSP + 8 * Z.of_nat (length ws + i)) by lia.
  apply Hl. rewrite lookup_app_r by lia. by replace (length ws + i - length ws)%nat with i by lia.
Qed.

(** Only registers and memory differ. *)
Definition cpu_frame s s' : Prop :=
  s' = set_mem (fun _ => k_mem s') (set_regs (fun _ => k_regs s') s).
Lemma cpu_frame_refl s : cpu_frame s s.
Proof. by destruct s. Qed.
Lemma cpu_frame_trans s1 s2 s3 : cpu_frame s1 s2 -> cpu_frame s2 s3 -> cpu_frame s1 s3.
Proof. unfold cpu_frame. intros H1 H2. rewrite H2, H1. done. Qed.

Definition word_regs (f : regs) (l : list reg) : Prop :=
  Forall (fun r => 0 <= f r < 18446744073709551616) l.

(** Pushing registers: they lie on the stack in reverse order. *)
Lemma wp_push_regs l s vs :
  RSP ∉ l -> stk s vs -> lo + 8 * Z.of_nat (length l) <= k_regs s RSP -> word_regs (k_regs s) l ->
  wp (push_regs l) s (fun _ s' =>
    stk s' (rev (map (k_regs s) l) ++ vs) /\
    (forall r, r <> RSP -> k_regs s' r = k_regs s r) /\
    k_regs s' RSP = k_regs s RSP - 8 * Z.of_nat (length l) /\
    cpu_frame s s' /\ mem_above (k_regs s RSP) (k_mem s) (k_mem s')).
Proof.
  revert s vs. induction l as [|r l IH]; intros s vs Hn Hs Hroom Hw; cbn [push_regs].
  { apply wp_ret. cbn [length map rev app]. split_and!; [done|done|lia|apply cpu_frame_refl|done]. }
  apply not_elem_of_cons in Hn as [Hr Hn]. apply Forall_cons in Hw as [Hv Hw].
  cbn [length] in Hroom. apply wp_bind. unfold push_reg, getr. wp_steps.
  wp_call (wp_push s vs); [done|lia|done|]. intros _ s1 (Hs1 & Hr1 & Hf1 & Hm1).
  assert (Hsame : forall x, x <> RSP -> k_regs s1 x = k_regs s x)
    by (intros x Hx; rewrite Hr1; by rewrite rset_ne).
  assert (Hsp : k_regs s1 RSP = k_regs s RSP - 8) by (rewrite Hr1; apply rset_eq).
  assert (Hmap : map (k_regs s1) l = map (k_regs s) l).
  { apply map_ext_in. intros x Hx. apply Hsame. intros ->. apply Hn. by apply list_elem_of_In. }
  wp_call (IH s1 (k_regs s r :: vs)); [done|done|lia| |].
  { unfold word_regs in *. apply Forall_forall. intros x Hx. rewrite Hsame by congruence.
    by apply (proj1 (Forall_forall _ _) Hw). }
  intros _ s2 (Hs2 & Hr2 & Hsp2 & Hf2 & Hm2). rewrite Hsp in Hsp2, Hm2.
  split_and!.
  - rewrite Hmap in Hs2. cbn [map rev]. by rewrite <- app_assoc.
  - intros x Hx. by rewrite Hr2, Hsame.
  - cbn [length]. lia.
  - by eapply cpu_frame_trans.
  - eapply mem_above_trans; [done|]. eapply mem_above_mono; [|done]. lia.
Qed.

(** The words [vs] have been pushed onto the stack at [base] since [s]. *)
Definition pushed_since (base : Z) s s1 (vs : list Z) : Prop :=
  stk s1 vs /\ k_regs s1 RSP = base - 8 * Z.of_nat (length vs) /\
  (forall r, r <> RSP -> k_regs s1 r = k_regs s r) /\ cpu_frame s s1 /\
  mem_above base (k_mem s) (k_mem s1).

Lemma pushed_start base s : lo <= base <= hi ->
  pushed_since base s (set_regs (rset RSP base) s) [].
Proof.
  intros Hb. split_and!; [apply stk_nil; cbn; by rewrite rset_eq|cbn; rewrite rset_eq; lia| |by destruct s|done].
  intros r Hr. cbn. by rewrite rset_ne.
Qed.

Lemma pushed_push base s s1 vs v :
  pushed_since base s s1 vs -> lo + 8 * Z.of_nat (S (length vs)) <= base ->
  0 <= v < 18446744073709551616 ->
  wp (push v) s1 (fun _ s2 => pushed_since base s s2 (v :: vs)).
Proof.
  intros (Hs & Hsp & Hr & Hf & Hm) Hroom Hv. wp_call (wp_push s1 vs v); [done|lia|done|].
  intros _ s2 (Hs2 & Hr2 & Hf2 & Hm2). split_and!.
  - done.
  - rewrite Hr2, rset_eq. cbn [length]. lia.
  - intros r Hne. rewrite Hr2, rset_ne by done. by apply Hr.
  - by eapply cpu_frame_trans.
  - eapply mem_above_trans; [done|]. eapply mem_above_mono; [|done]. lia.
Qed.

Lemma pushed_push_regs base s s1 vs l :
  pushed_since base s s1 vs -> lo + 8 * Z.of_nat (length l + length vs) <= base ->
  RSP ∉ l -> word_regs (k_regs s) l ->
  wp (push_regs l) s1 (fun _ s2 => pushed_since base s s2 (rev (map (k_regs s) l) ++ vs)).
Proof.
  intros (Hs & Hsp & Hr & Hf & Hm) Hroom Hn Hw.
  assert (Hmap : map (k_regs s1) l = map (k_regs s) l).
  { apply map_ext_in. intros x Hx. apply Hr. intros ->. apply Hn. by apply list_elem_of_In. }
  wp_call (wp_push_regs l s1 vs); [done|done|lia| |].
  { unfold word_regs in *. apply Forall_forall. intros x Hx. rewrite Hr by congruence.
    by apply (proj1 (Forall_forall _ _) Hw). }
  intros _ s2 (Hs2 & Hr2 & Hsp2 & Hf2 & Hm2). rewrite Hmap in Hs2. split_and!.
  - done.
  - rewrite Hsp2, Hsp, length_app, length_rev, length_map. lia.
  - intros r Hne. by rewrite Hr2, Hr.
  - by eapply cpu_frame_trans.
  - eapply mem_above_trans; [done|]. eapply mem_above_mono; [|done]. lia.
Qed.

Fixpoint load_regs (l : list reg) (ws : list Z) (f : regs) : regs :=
  match l, ws with
  | r :: l, w :: ws => load_regs l ws (rset r w f)
  | _, _ => f
  end.

Lemma load_regs_ext l ws f g r :
  (f r = g r) -> load_regs l ws f r = load_regs l ws g r.
Proof.
  revert ws f g. induction l as [|x l IH]; intros [|w ws] f g H; simpl; try done.
  apply IH. unfold rset. by case_decide.
Qed.

Lemma wp_pop_regs l s ws vs :
  RSP ∉ l -> stk s (ws ++ vs) -> length ws = length l ->
  wp (pop_regs l) s (fun _ s' =>
    stk s' vs /\ (forall r, r <> RSP -> k_regs s' r = load_regs l ws (k_regs s) r) /\
    k_regs s' RSP = k_regs s RSP + 8 * Z.of_nat (length l) /\
    s' = set_regs (fun _ => k_regs s') s).
Proof.
  revert s ws. induction l as [|r l IH]; intros s ws Hn Hs Hlen; cbn [pop_regs].
  { destruct ws; [|done]. apply wp_ret. split_and!; [done|done|simpl; lia|by destruct s]. }
  destruct ws as [|w ws]; [done|]. apply not_elem_of_cons in Hn as [Hr Hn].
  apply wp_bind. unfold pop_reg, setr. apply wp_bind.
  pose proof Hs as (Hlo & Hhi & _). simpl in Hhi.
  wp_call (wp_pop s w (ws ++ vs)); [done|]. intros x s1 (-> & Hs1 & E1). wp_steps.
  rewrite u64_small in E1 by (destruct Hwin as (?&?&_); rewrite length_app in Hhi; lia).
  wp_call (IH (set_regs (rset r w) s1) ws); [done| |by injection Hlen|].
  { unfold stk in *. cbn [k_regs k_mem set_regs]. by rewrite rset_ne. }
  intros _ s2 (Hs2 & Hr2 & Hsp2 & E2). split_and!.
  - done.
  - intros y Hy. rewrite Hr2 by done. cbn [load_regs k_regs set_regs].
    apply load_regs_ext. unfold rset. case_decide; [done|]. rewrite E1. cbn [k_regs set_regs].
    by rewrite rset_ne.
  - rewrite Hsp2. cbn [k_regs set_regs length]. rewrite rset_ne by done.
    rewrite E1. cbn [k_regs set_regs]. rewrite rset_eq. lia.
  - rewrite E2, E1. done.
Qed.
(** Only registers and the interrupt flag differ. *)
Definition flags_frame s s' : Prop :=
  s' = set_if (fun _ => k_if s') (set_regs (fun _ => k_regs s') s).
Lemma flags_frame_regs s s' f : flags_frame s s' -> flags_frame s (set_regs f s').
Proof. unfold flags_frame. by intros ->. Qed.


Lemma wp_iretq s rip cs rf sp ss :
  stk s [rip; cs; rf; sp; ss] ->
  wp iretq s (fun _ s' =>
    (forall r, k_regs s' r = match r with
       | RIP => rip | CS => cs | RFLAGS => rf | RSP => sp | SS => ss | r => k_regs s r end) /\
    s' = set_if (fun _ => Z.testbit rf 9) (set_regs (fun _ => k_regs s') s)).
Proof.
  intros Hs. unfold iretq, pop_reg, setr.
  apply wp_bind, wp_bind. wp_call (wp_pop s); [exact Hs|].
  intros x1 s4 (-> & Hs4 & E4). wp_steps.
  wp_call wp_pop; [eapply (stk_frame s4); [| |exact Hs4]; done|].
  intros x2 s5 (-> & Hs5 & E5). wp_steps.
  wp_call wp_pop; [eapply (stk_frame s5); [| |exact Hs5]; done|].
  intros x3 s6 (-> & Hs6 & E6). wp_steps.
  wp_call wp_pop; [exact Hs6|]. intros x4 s7 (-> & Hs7 & E7). wp_steps.
  wp_call wp_pop; [exact Hs7|]. intros x5 s8 (-> & _ & E8). wp_steps. split.
  - intros r. cbn [k_regs set_regs set_if]. unfold rset at 1 2 3.
    destruct (decide (SS = r)) as [<-|]; [done|]. destruct (decide (RSP = r)) as [<-|]; [done|].
    destruct (decide (RFLAGS = r)) as [<-|]; [done|].
    rewrite E8. cbn [k_regs set_regs]. rewrite rset_ne by done.
    rewrite E7. cbn [k_regs set_regs]. rewrite rset_ne by done.
    rewrite E6. cbn [k_regs set_regs]. rewrite rset_ne by done. unfold rset at 1.
    destruct (decide (CS = r)) as [<-|]; [done|].
    rewrite E5. cbn [k_regs set_regs]. rewrite rset_ne by done. unfold rset at 1.
    destruct (decide (RIP = r)) as [<-|]; [done|].
    rewrite E4. cbn [k_regs set_regs]. rewrite rset_ne by done. by destruct r.
  - assert (Hf : flags_frame s s8).
    { rewrite E8. apply flags_frame_regs. rewrite E7. apply flags_frame_regs. rewrite E6.
      do 2 apply flags_frame_regs. rewrite E5. do 2 apply flags_frame_regs. rewrite E4.
      apply flags_frame_regs. by destruct s. }
    unfold flags_frame in Hf. rewrite Hf. done.
Qed.
End stack.
