(* ===== verification/Pointer.v ===== *)
(** * Pointers from user space

    The string of SYS_DEBUG_PRINT and the destination of recv are pointers the
    kernel gets from its caller and uses as they are.  A pointer into the lower half
    is translated by the page tables CR3 designates, any other one is a pointer of
    the kernel.  [dest] describes a region behind such a pointer that can be written
    without changing the translation of the pointer itself. *)
From S2P Require Import Prelude Memory State Demo Pmm PageTable Vmm VmmSpec VmmSpace VmmTheorems VmmFrame Cpu.

(** The end of the lower half. *)
Definition USER_LIMIT : Z := 0x0000800000000000.

Section access.
Context {P : Platform}.
Implicit Types s : kstate.

(** The root of the page tables in force. *)
Definition cr3_root s : Z := Z.land (k_regs s CR3) (u64 (Z.lnot 0xFFF)).

Definition vaddr s (v : Z) : option Z :=
  if v <? USER_LIMIT then translate (k_mem s) (cr3_root s) v else Some (kmap v).

Definition vrd8 (v : Z) : K Z :=
  o <- gets (fun s => vaddr s v) ;;
  a <- need PageFault o ;;
  gets (fun s => mget (k_mem s) a).

Definition vwr8 (v b : Z) : K unit :=
  o <- gets (fun s => vaddr s v) ;;
  a <- need PageFault o ;;
  modify (set_mem (fun m => mput m a b)).

(** [n] bytes, the low one first. *)
Fixpoint vwr_le (n : nat) (v w : Z) : K unit :=
  match n with
  | O => ret tt
  | S n => vwr8 v w ;;; vwr_le n (u64 (v + 1)) (w / 256)
  end.
Definition vwr32 (v w : Z) : K unit := vwr_le 4 v w.

(** ** Regions *)

(** The byte [out + i] is at [phys i]: different bytes at different places, and
    whatever is written to the region, the translation stays. *)
Record dest s (out len : Z) (phys : Z -> Z) : Prop := {
  dst_range : 0 <= out /\ out + len < 18446744073709551616;
  dst_inj : forall i j, 0 <= i < len -> 0 <= j < len -> phys i = phys j -> i = j;
  dst_addr : forall m i, 0 <= i < len ->
    (forall x, (forall j, 0 <= j < len -> x <> phys j) -> mget m x = mget (k_mem s) x) ->
    vaddr (set_mem (fun _ => m) s) (out + i) = Some (phys i);
}.

Lemma vaddr_eq s s' v : k_mem s' = k_mem s -> k_regs s' CR3 = k_regs s CR3 -> vaddr s' v = vaddr s v.
Proof. intros Hm Hr. unfold vaddr, cr3_root. by rewrite Hm, Hr. Qed.

(** The region stays one while only it is written. *)
Lemma dest_ext s s' out len phys :
  dest s out len phys -> k_regs s' CR3 = k_regs s CR3 ->
  (forall x, (forall j, 0 <= j < len -> x <> phys j) -> mget (k_mem s') x = mget (k_mem s) x) ->
  dest s' out len phys.
Proof.
  intros [D1 D2 D3] Hr Hm. constructor; [done|done|]. intros m i Hi Hx.
  rewrite <- (D3 m i Hi); [by apply vaddr_eq|]. intros x Hout. by rewrite Hx, Hm.
Qed.

Lemma dest_now s out len phys i : dest s out len phys -> 0 <= i < len -> vaddr s (out + i) = Some (phys i).
Proof. intros D Hi. rewrite <- (dst_addr _ _ _ _ D (k_mem s) i Hi); [by apply vaddr_eq|done]. Qed.

Fixpoint word_at (n : nat) (phys : Z -> Z) (i : Z) (m : gmap Z Z) : Z :=
  match n with O => 0 | S n => mget m (phys i) + 256 * word_at n phys (i + 1) m end.

Lemma word_at_ext n phys i m m' :
  (forall j, i <= j < i + Z.of_nat n -> mget m' (phys j) = mget m (phys j)) ->
  word_at n phys i m' = word_at n phys i m.
Proof.
  revert i. induction n as [|n IH]; intros i H; [done|]. cbn [word_at]. rewrite H by lia.
  rewrite (IH (i + 1)); [done|]. intros j Hj. apply H. lia.
Qed.

(** What a store into a region does. *)
Definition region_store (phys : Z -> Z) (i : Z) (n : nat) (w : Z) s s' : Prop :=
  s' = set_mem (fun _ => k_mem s') s /\ word_at n phys i (k_mem s') = w mod 256 ^ Z.of_nat n /\
  forall x, (forall j, i <= j < i + Z.of_nat n -> x <> phys j) -> mget (k_mem s') x = mget (k_mem s) x.

Lemma vwr_le_ok n s out len phys i w :
  dest s out len phys -> 0 <= i -> i + Z.of_nat n <= len ->
  wp (vwr_le n (u64 (out + i)) w) s (fun _ s' => region_store phys i n w s s').
Proof.
  revert s i w. induction n as [|n IH]; intros s i w D Hi Hn.
  { apply wp_ret. split_and!; [by destruct s|by rewrite Z.mod_1_r|done]. }
  destruct (dst_range _ _ _ _ D) as [R1 R2]. cbn [vwr_le]. unfold vwr8. wp_steps.
  rewrite (u64_small (out + i)) by lia. eapply wp_need; [eapply dest_now; [done|lia]|]. wp_steps.
  set (s1 := set_mem _ s).
  assert (Hout : forall x, x <> phys i -> mget (k_mem s1) x = mget (k_mem s) x)
    by (intros x Hx; cbn; by rewrite mget_mput_ne).
  assert (D1 : dest s1 out len phys).
  { apply (dest_ext s); [done|done|]. intros x Hx. apply Hout, Hx. lia. }
  replace (out + i + 1) with (out + (i + 1)) by lia. wp_call (IH s1 (i + 1)); [done|lia|lia|].
  intros _ s' (E & Hw & Hm). split_and!.
  - rewrite E. by destruct s.
  - cbn [word_at]. rewrite Hw, (Hm (phys i)).
    + cbn. rewrite mget_mput_eq. unfold u8. rewrite Nat2Z.inj_succ, Z.pow_succ_r by lia.
      rewrite Z.rem_mul_r by lia. done.
    + intros j Hj Ej. apply (dst_inj _ _ _ _ D) in Ej; lia.
  - intros x Hx. rewrite Hm by (intros j Hj; apply Hx; lia). apply Hout, Hx. lia.
Qed.

Lemma vwr32_ok s out len phys i w :
  dest s out len phys -> 0 <= i -> i + 4 <= len -> 0 <= w < 4294967296 ->
  wp (vwr32 (u64 (out + i)) w) s (fun _ s' => region_store phys i 4 w s s' /\ word_at 4 phys i (k_mem s') = w /\
    dest s' out len phys).
Proof.
  intros D Hi Hn Hw. wp_call (vwr_le_ok 4 s out len phys i w); [done|done|done|]. intros _ s' (E & Hv & Hm).
  split_and!; [done| |].
  - rewrite Hv. by apply Z.mod_small.
  - apply (dest_ext s); [done|by rewrite E|]. intros x Hx. apply Hm. intros j Hj. apply Hx. lia.
Qed.

(** ** Where regions come from *)

(** A buffer of the kernel. *)
Lemma kernel_dest s out len : window_ok out (out + len) -> USER_LIMIT <= out ->
  dest s out len (fun i => kmap out + i).
Proof.
  intros (W1 & W2 & W3) Hl. constructor; [lia|lia|]. intros m i Hi _. unfold vaddr.
  rewrite (proj2 (Z.ltb_ge _ _)), W3 by lia. f_equal. lia.
Qed.

(** Addresses of one page translate to consecutive bytes. *)
Lemma translate_offset m root v i : 0 <= i -> v mod 4096 + i < 4096 ->
  translate m root (v + i) = (fun a => a + i) <$> translate m root v.
Proof.
  intros Hi Hv. unfold translate.
  assert (E : idxs (v + i) = idxs v).
  { apply same_page_idxs. unfold same_page. f_equal. change (2 ^ 12) with 4096. zlia. }
  assert (Hk : forall k, 4096 * k <> 0 -> 0 < k -> (v + i) mod (4096 * k) = v mod (4096 * k) + i).
  { intros k Hk0 Hk. rewrite !Z.rem_mul_r by lia. replace ((v + i) mod 4096) with (v mod 4096 + i) by zlia.
    replace ((v + i) / 4096) with (v / 4096) by zlia. lia. }
  rewrite E. change (2 ^ 12) with (4096 * 1). change (2 ^ 21) with (4096 * 512). change (2 ^ 30) with (4096 * 262144).
  destruct (walk m root (idxs v)) as [[e [|[|[|]]]]|]; cbn [fmap option_fmap option_map]; try done;
    rewrite Hk by lia; f_equal; lia.
Qed.

(** A buffer of the user: inside one page that is mapped and holds no page table. *)
Record user_buffer s (out len pa : Z) : Prop := {
  ub_tree : tree_ok (k_mem s) (cr3_root s) [];
  ub_low : 0 <= out /\ out + len <= USER_LIMIT;
  ub_page : out mod 4096 + len <= 4096;
  ub_at : translate (k_mem s) (cr3_root s) out = Some pa;
  ub_table : forall i, 0 <= i < len -> ~ in_table (k_mem s) (cr3_root s) (pa + i);
}.

(** It stays one while the page tables stay. *)
Lemma user_buffer_kept s s' out len pa :
  user_buffer s out len pa -> k_regs s' CR3 = k_regs s CR3 ->
  (forall x, in_table (k_mem s) (cr3_root s) x -> mget (k_mem s') x = mget (k_mem s) x) ->
  user_buffer s' out len pa.
Proof.
  intros [U1 U2 U3 U4 U5] Hr Hm. assert (Er : cr3_root s' = cr3_root s) by (unfold cr3_root; by rewrite Hr).
  destruct (tree_frame (k_mem s) (k_mem s') (cr3_root s) [] []) as (Ht & Hw & Htab); [done| |done|].
  { intros pi q x Hl Hf Hq Hx. apply Hm. exists q. split; [by exists pi|done]. }
  constructor; rewrite ?Er; try done.
  - unfold translate. by rewrite Hw by (done || apply idxs_ok).
  - intros i Hi (q & (pi & Hl & Hf & Hq) & Hx). apply (U5 i Hi). exists q. split; [|done]. exists pi.
    rewrite <- Htab by (done || lia). done.
Qed.

Lemma user_dest s out len pa : user_buffer s out len pa -> dest s out len (fun i => pa + i).
Proof.
  intros Hub. pose proof Hub as [_ [H0 Hl] Hp _ Hnt]. unfold USER_LIMIT in Hl.
  constructor; [lia|lia|]. intros m i Hi Hm. unfold vaddr.
  rewrite (proj2 (Z.ltb_lt _ _)) by (unfold USER_LIMIT; lia).
  assert (Hub' : user_buffer (set_mem (fun _ => m) s) out len pa).
  { apply (user_buffer_kept s); [done|done|]. intros x Hx. apply Hm. intros j Hj ->. by apply (Hnt j). }
  rewrite translate_offset, (ub_at _ _ _ _ Hub') by lia. done.
Qed.
End access.
