(* ===== verification/Gdt.v ===== *)
(** * The global descriptor table and the TSS (kernel/gdt.c, gdt_asm.asm) *)
From S2P Require Import Prelude Memory State Demo Cpu.

Definition GDT_ENTRIES : Z := 7.
Definition GDT_NULL : Z := 0.
Definition GDT_KERNEL_CODE : Z := 1.
Definition GDT_KERNEL_DATA : Z := 2.
Definition GDT_USER_CODE : Z := 3.
Definition GDT_USER_DATA : Z := 4.
Definition GDT_TSS : Z := 5.

Definition KERNEL_CS : Z := Z.shiftl GDT_KERNEL_CODE 3.
Definition KERNEL_DS : Z := Z.shiftl GDT_KERNEL_DATA 3.
Definition USER_CS : Z := Z.lor (Z.shiftl GDT_USER_CODE 3) 3.
Definition USER_DS : Z := Z.lor (Z.shiftl GDT_USER_DATA 3) 3.
Definition TSS_SEG : Z := Z.shiftl GDT_TSS 3.

Definition GDT_ACCESS_PRESENT : Z := Z.shiftl 1 7.
Definition GDT_ACCESS_RING0 : Z := Z.shiftl 0 5.
Definition GDT_ACCESS_RING3 : Z := Z.shiftl 3 5.
Definition GDT_ACCESS_SEGMENT : Z := Z.shiftl 1 4.
Definition GDT_ACCESS_EXECUTABLE : Z := Z.shiftl 1 3.
Definition GDT_ACCESS_RW : Z := Z.shiftl 1 1.
Definition GDT_GRANULARITY_4K : Z := Z.shiftl 1 7.
Definition GDT_GRANULARITY_64BIT : Z := Z.shiftl 1 5.

(** sizeof(tss_t): packed. *)
Definition TSS_SIZE : Z := 104.

Definition with_gdt (f : list gdt_entry_t -> list gdt_entry_t) (v : gdt_vars) : gdt_vars :=
  mkGdtVars (f (gdt v)) (gdt_pointer v) (tss v).
Definition with_gdt_pointer (p : table_ptr) (v : gdt_vars) : gdt_vars :=
  mkGdtVars (gdt v) p (tss v).
Definition with_tss (f : tss_t -> tss_t) (v : gdt_vars) : gdt_vars :=
  mkGdtVars (gdt v) (gdt_pointer v) (f (tss v)).

(** [gdt[index] = e], field by field in the source. *)
Definition gdt_store (index : Z) (e : gdt_entry_t) : K unit :=
  if (0 <=? index) && (index <? GDT_ENTRIES) then
    modify (set_gdt (with_gdt (<[Z.to_nat index := e]>)))
  else fails OutOfBounds.

Definition gdt_set_entry (index base limit acc gran : Z) : K unit :=
  gdt_store index (mkGdtEntry
    (Z.land limit 0xFFFF)
    (Z.land base 0xFFFF)
    (Z.land (Z.shiftr base 16) 0xFF)
    acc
    (Z.lor (Z.land gran 0xF0) (Z.land (Z.shiftr limit 16) 0x0F))
    (Z.land (Z.shiftr base 24) 0xFF)).

Definition gdt_set_tss (index base limit : Z) : K unit :=
  gdt_store index (mkGdtEntry
    (Z.land limit 0xFFFF)
    (Z.land base 0xFFFF)
    (Z.land (Z.shiftr base 16) 0xFF)
    0x89
    0x00
    (Z.land (Z.shiftr base 24) 0xFF)) ;;;
  gdt_store (index + 1) (mkGdtEntry
    (Z.land (Z.shiftr base 32) 0xFFFF)
    (Z.land (Z.shiftr base 48) 0xFFFF) 0 0 0 0).

(** gdt_asm.asm: lgdt, the data segments, and a far return into the code segment.  The
    effect on the segment registers and GDTR is here; the two words that the far return
    writes below the stack pointer, and RAX and RDI, scratch registers of the caller, are
    not represented. *)
Definition gdt_load (p : table_ptr) : K unit :=
  setr GDTR_LIMIT (ptr_limit p) ;;; setr GDTR_BASE (ptr_base p) ;;;
  setr DS 0x10 ;;; setr ES 0x10 ;;; setr FS 0x10 ;;; setr GS 0x10 ;;; setr SS 0x10 ;;;
  setr CS 0x08.
Definition tss_load (sel : Z) : K unit := setr TR sel.

(** The eight bytes of a descriptor as one word. *)
Definition entry_word (e : gdt_entry_t) : Z :=
  limit_low e + base_low e * 2 ^ 16 + base_mid e * 2 ^ 32 + access e * 2 ^ 40
  + granularity e * 2 ^ 48 + base_high e * 2 ^ 56.

Section gdt.
Context {P : Platform}.

Definition gdt_print : K unit :=
  kprint_bytes ([10] ++ str "GDT Debug:" ++ [10]) ;;;
  for_range 0 5 (fun i =>
    kprint "  Entry " ;;;
    kprint_dec i ;;;
    kprint ": " ;;;
    e <- gets (fun s => gdt (k_gdt s) !! Z.to_nat i) ;;
    e <- need OutOfBounds e ;;
    kprint_hex (entry_word e) ;;;
    kprintln "") ;;;
  kprintln "".

Definition gdt_init : K unit :=
  for_range 0 GDT_ENTRIES (fun i => gdt_store i null_gdt_entry) ;;;
  gdt_set_entry GDT_NULL 0 0 0 0 ;;;
  gdt_set_entry GDT_KERNEL_CODE 0 0xFFFFF
    (Z.lor (Z.lor (Z.lor (Z.lor GDT_ACCESS_PRESENT GDT_ACCESS_RING0) GDT_ACCESS_SEGMENT)
      GDT_ACCESS_EXECUTABLE) GDT_ACCESS_RW)
    (Z.lor GDT_GRANULARITY_4K GDT_GRANULARITY_64BIT) ;;;
  gdt_set_entry GDT_KERNEL_DATA 0 0xFFFFF
    (Z.lor (Z.lor (Z.lor GDT_ACCESS_PRESENT GDT_ACCESS_RING0) GDT_ACCESS_SEGMENT) GDT_ACCESS_RW)
    GDT_GRANULARITY_4K ;;;
  gdt_set_entry GDT_USER_CODE 0 0xFFFFF
    (Z.lor (Z.lor (Z.lor (Z.lor GDT_ACCESS_PRESENT GDT_ACCESS_RING3) GDT_ACCESS_SEGMENT)
      GDT_ACCESS_EXECUTABLE) GDT_ACCESS_RW)
    (Z.lor GDT_GRANULARITY_4K GDT_GRANULARITY_64BIT) ;;;
  gdt_set_entry GDT_USER_DATA 0 0xFFFFF
    (Z.lor (Z.lor (Z.lor GDT_ACCESS_PRESENT GDT_ACCESS_RING3) GDT_ACCESS_SEGMENT) GDT_ACCESS_RW)
    GDT_GRANULARITY_4K ;;;
  modify (set_gdt (with_tss (fun _ => null_tss))) ;;;
  modify (set_gdt (with_tss (with_rsp0 0))) ;;;
  modify (set_gdt (with_tss (with_iomap_base TSS_SIZE))) ;;;
  gdt_set_tss GDT_TSS sym_tss (TSS_SIZE - 1) ;;;
  let p := mkTablePtr (8 * GDT_ENTRIES - 1) sym_gdt in
  modify (set_gdt (with_gdt_pointer p)) ;;;
  gdt_load p ;;;
  tss_load TSS_SEG ;;;
  gdt_print.

Definition gdt_set_kernel_stack (stack : Z) : K unit :=
  modify (set_gdt (with_tss (with_rsp0 stack))).
End gdt.

(** ** What the processor reads in a descriptor *)

Definition seg_base (e : gdt_entry_t) : Z :=
  base_low e + base_mid e * 2 ^ 16 + base_high e * 2 ^ 24.
Definition seg_limit (e : gdt_entry_t) : Z := limit_low e + (granularity e mod 16) * 2 ^ 16.
Definition seg_present (e : gdt_entry_t) : bool := Z.testbit (access e) 7.
Definition seg_dpl (e : gdt_entry_t) : Z := (access e / 2 ^ 5) mod 4.
Definition seg_system (e : gdt_entry_t) : bool := negb (Z.testbit (access e) 4).
Definition seg_code (e : gdt_entry_t) : bool := Z.testbit (access e) 3.
Definition seg_rw (e : gdt_entry_t) : bool := Z.testbit (access e) 1.
Definition seg_long (e : gdt_entry_t) : bool := Z.testbit (granularity e) 5.
Definition seg_4k (e : gdt_entry_t) : bool := Z.testbit (granularity e) 7.
(** The base of a 16-byte system descriptor. *)
Definition system_base (e e' : gdt_entry_t) : Z :=
  seg_base e + limit_low e' * 2 ^ 32 + base_low e' * 2 ^ 48.

Lemma land_mod_pow2 x n : 0 <= n -> Z.land x (Z.ones n) = x mod 2 ^ n.
Proof. apply Z.land_ones. Qed.

Lemma byte_fields base :
  Z.land base 0xFFFF = base mod 2 ^ 16 /\
  Z.land (Z.shiftr base 16) 0xFF = (base / 2 ^ 16) mod 2 ^ 8 /\
  Z.land (Z.shiftr base 24) 0xFF = (base / 2 ^ 24) mod 2 ^ 8 /\
  Z.land (Z.shiftr base 32) 0xFFFF = (base / 2 ^ 32) mod 2 ^ 16 /\
  Z.land (Z.shiftr base 48) 0xFFFF = (base / 2 ^ 48) mod 2 ^ 16.
Proof.
  change 0xFFFF with (Z.ones 16). change 0xFF with (Z.ones 8).
  rewrite !Z.land_ones, !Z.shiftr_div_pow2 by lia. done.
Qed.

Lemma gran_low g l : 0 <= g < 256 -> 0 <= l < 16 -> Z.lor (Z.land g 0xF0) l mod 16 = l.
Proof.
  intros Hg Hl. change 16 with (2 ^ 4). rewrite <- Z.land_ones by lia.
  rewrite Z.land_lor_distr_l, <- Z.land_assoc. change (Z.land 0xF0 (Z.ones 4)) with 0.
  rewrite Z.land_0_r, Z.lor_0_l, Z.land_ones by lia. by apply Z.mod_small.
Qed.

Lemma gran_high g l n : 0 <= l < 16 -> 4 <= n < 8 ->
  Z.testbit (Z.lor (Z.land g 0xF0) l) n = Z.testbit g n.
Proof.
  intros Hl Hn. rewrite Z.lor_spec, Z.land_spec.
  assert (Z.testbit l n = false) as ->.
  { destruct (decide (l = 0)) as [->|]; [apply Z.bits_0|].
    apply Z.bits_above_log2; [lia|]. assert (Z.log2 l < 4) by (apply Z.log2_lt_pow2; lia). lia. }
  assert (Z.testbit 0xF0 n = true) as ->.
  { assert (n = 4 \/ n = 5 \/ n = 6 \/ n = 7) as [->|[->|[->| ->]]] by lia; done. }
  by rewrite andb_true_r, orb_false_r.
Qed.

(** A code or data segment as the processor sees it. *)
Record segment := mkSegment {
  sg_code : bool; sg_rw : bool; sg_dpl : Z; sg_long : bool; sg_base : Z; sg_limit : Z; sg_4k : bool;
}.
Definition decode_segment (e : gdt_entry_t) : option segment :=
  if seg_present e && negb (seg_system e) then
    Some (mkSegment (seg_code e) (seg_rw e) (seg_dpl e) (seg_long e) (seg_base e) (seg_limit e) (seg_4k e))
  else None.

(** The descriptor a selector designates. *)
Definition select (g : list gdt_entry_t) (sel : Z) : option gdt_entry_t :=
  g !! Z.to_nat (sel / 8).

Lemma wp_gdt_store i e s Q :
  0 <= i < GDT_ENTRIES -> Q tt (set_gdt (with_gdt (<[Z.to_nat i := e]>)) s) -> wp (gdt_store i e) s Q.
Proof.
  intros Hi HQ. unfold gdt_store.
  by rewrite (proj2 (Z.leb_le _ _)), (proj2 (Z.ltb_lt _ _)) by lia.
Qed.

Lemma tss_base_bytes base : 0 <= base < 2 ^ 64 ->
  base mod 2 ^ 16 + (base / 2 ^ 16) mod 2 ^ 8 * 2 ^ 16 + (base / 2 ^ 24) mod 2 ^ 8 * 2 ^ 24
  + (base / 2 ^ 32) mod 2 ^ 16 * 2 ^ 32 + (base / 2 ^ 48) mod 2 ^ 16 * 2 ^ 48 = base.
Proof.
  change (2 ^ 16) with 65536. change (2 ^ 8) with 256. change (2 ^ 24) with 16777216.
  change (2 ^ 32) with 4294967296. change (2 ^ 48) with 281474976710656.
  change (2 ^ 64) with 18446744073709551616. intros H. zlia.
Qed.

(** Only the tables of gdt.c, the registers and the console differ. *)
Definition gdt_frame (s s' : kstate) : Prop :=
  s' = set_con (fun _ => k_con s') (set_gdt (fun _ => k_gdt s') (set_regs (fun _ => k_regs s') s)).
Lemma gdt_frame_refl s : gdt_frame s s.
Proof. by destruct s. Qed.
Lemma gdt_frame_gdt s s' f : gdt_frame s s' -> gdt_frame s (set_gdt f s').
Proof. unfold gdt_frame. by intros ->. Qed.
Lemma gdt_frame_regs s s' f : gdt_frame s s' -> gdt_frame s (set_regs f s').
Proof. unfold gdt_frame. by intros ->. Qed.
Lemma gdt_frame_con s s' f : gdt_frame s s' -> gdt_frame s (set_con f s').
Proof. unfold gdt_frame. by intros ->. Qed.
Ltac peel_gdt_frame :=
  repeat lazymatch goal with
  | |- gdt_frame _ (set_gdt _ _) => apply gdt_frame_gdt
  | |- gdt_frame _ (set_regs _ _) => apply gdt_frame_regs
  | |- gdt_frame _ (set_con _ _) => apply gdt_frame_con
  | |- gdt_frame ?s ?s => exact (gdt_frame_refl s)
  end.

Section init.
Context {P : Platform}.
Implicit Types s : kstate.

Lemma gdt_print_spec s :
  length (gdt (k_gdt s)) = 7%nat ->
  wp gdt_print s (fun _ s' => s' = set_con (fun _ => k_con s') s).
Proof.
  intros Hlen. unfold gdt_print, kprint_bytes, kprintln, kprint, kprint_dec, kprint_hex, con.
  wp_steps.
  apply (wp_for_range (fun _ s' => s' = set_con (fun _ => k_con s') s)).
  - lia.
  - by destruct s.
  - intros i s' Hi ->. wp_steps. cbn [k_gdt set_con].
    destruct (lookup_lt_is_Some_2 (gdt (k_gdt s)) (Z.to_nat i)) as [e He]; [lia|].
    rewrite He. wp_steps. by destruct s.
  - intros s' ->. wp_steps. by destruct s.
Qed.

(** The table gdt_init builds. *)
Definition gdt_table (base : Z) : list gdt_entry_t :=
  [null_gdt_entry;
   mkGdtEntry 0xFFFF 0 0 0x9A 0xAF 0; mkGdtEntry 0xFFFF 0 0 0x92 0x8F 0;
   mkGdtEntry 0xFFFF 0 0 0xFA 0xAF 0; mkGdtEntry 0xFFFF 0 0 0xF2 0x8F 0;
   mkGdtEntry 103 (Z.land base 0xFFFF) (Z.land (Z.shiftr base 16) 0xFF) 0x89 0
     (Z.land (Z.shiftr base 24) 0xFF);
   mkGdtEntry (Z.land (Z.shiftr base 32) 0xFFFF) (Z.land (Z.shiftr base 48) 0xFFFF) 0 0 0 0].

(** The state while gdt_init builds the tables: [l] and [t] are their contents. *)
Definition building s s1 (l : list gdt_entry_t) (t : tss_t) : Prop :=
  gdt (k_gdt s1) = l /\ tss (k_gdt s1) = t /\ (forall r, k_regs s1 r = k_regs s r) /\ gdt_frame s s1.

Lemma building_store s s1 i e l t :
  building s s1 l t -> 0 <= i < GDT_ENTRIES ->
  wp (gdt_store i e) s1 (fun _ s2 => building s s2 (<[Z.to_nat i := e]> l) t).
Proof.
  intros (<- & <- & Hr & Hf) Hi. apply wp_gdt_store; [done|].
  split_and!; [done..|]. by apply gdt_frame_gdt.
Qed.

Lemma building_tss s s1 f l t :
  building s s1 l t ->
  wp (modify (set_gdt (with_tss f))) s1 (fun _ s2 => building s s2 l (f t)).
Proof. intros (<- & <- & Hr & Hf). apply wp_modify. split_and!; [done..|]. by apply gdt_frame_gdt. Qed.

Lemma gdt_init_spec s :
  length (gdt (k_gdt s)) = 7%nat ->
  wp gdt_init s (fun _ s' =>
    k_gdt s' = mkGdtVars (gdt_table sym_tss) (mkTablePtr 55 sym_gdt) (with_iomap_base TSS_SIZE null_tss) /\
    (forall r, k_regs s' r =
       match r with
       | GDTR_LIMIT => 55 | GDTR_BASE => sym_gdt | CS => KERNEL_CS
       | DS | ES | FS | GS | SS => KERNEL_DS | TR => TSS_SEG
       | r => k_regs s r
       end) /\
    gdt_frame s s').
Proof.
  intros Hlen. unfold gdt_init. apply wp_bind.
  apply (wp_for_range (fun i s' => building s s' (gdt (k_gdt s')) (tss (k_gdt s')) /\
    length (gdt (k_gdt s')) = 7%nat)).
  { unfold GDT_ENTRIES. lia. }
  { split; [|done]. split_and!; [done..|by destruct s]. }
  { intros i s' Hi [Hb Hl]. wp_call (building_store s s' i); [done|exact Hi|].
    intros _ s2 Hb2. pose proof Hb2 as (Hg2 & _). rewrite Hg2. split.
    - rewrite <- Hg2. split_and!; [done..|apply Hb2|apply Hb2].
    - by rewrite length_insert. }
  intros s1 [Hb Hl]. revert Hb Hl. generalize (gdt (k_gdt s1)) as g, (tss (k_gdt s1)) as t0.
  intros g t0 Hb Hl. unfold gdt_set_tss.
  do 5 (apply wp_bind; wp_call building_store; [exact Hb|vm_compute; by split|];
    clear Hb; intros _ ? Hb).
  do 3 (apply wp_bind; wp_call building_tss; [exact Hb|]; clear Hb; intros _ ? Hb).
  apply wp_bind, wp_bind.
  do 2 (wp_call building_store; [exact Hb|vm_compute; by split|]; clear Hb; intros _ ? Hb).
  do 7 (destruct g as [|? g]; [done|]). destruct g; [|done].
  cbn [insert list_insert Z.to_nat Pos.to_nat Pos.iter_op Nat.add] in Hb.
  destruct Hb as (Hg & Ht & Hr & Hf). unfold gdt_load, tss_load, setr.
  wp_steps. wp_call gdt_print_spec; [cbn; by rewrite Hg|].
  intros _ sf E. split_and!.
  - rewrite E. cbn [k_gdt set_con set_regs set_gdt]. unfold with_gdt_pointer. by rewrite Hg, Ht.
  - intros r. rewrite E. cbn [k_regs set_con set_regs set_gdt]. unfold rset.
    destruct r; cbn; apply Hr || done.
  - rewrite E. peel_gdt_frame. done.
Qed.
End init.

(** ** Properties *)

(** gdt_set_entry followed by the processor's decoding of the descriptor gives
    back the base, the limit, the access byte and the granularity flags, for
    every base of 32 bits and limit of 20 bits; no other entry changes. *)
Theorem gdt_set_entry_roundtrip (s : kstate) index base limit acc gran :
  length (gdt (k_gdt s)) = 7%nat -> 0 <= base < 2 ^ 32 -> 0 <= limit < 2 ^ 20 ->
  0 <= gran < 256 -> 0 <= index < GDT_ENTRIES ->
  wp (gdt_set_entry index base limit acc gran) s (fun _ s' =>
    exists e, gdt (k_gdt s') !! Z.to_nat index = Some e /\
      seg_base e = base /\ seg_limit e = limit /\ access e = acc /\
      seg_long e = Z.testbit gran 5 /\ seg_4k e = Z.testbit gran 7 /\
      (forall j, j <> Z.to_nat index -> gdt (k_gdt s') !! j = gdt (k_gdt s) !! j)).
Proof.
  intros Hlen Hb Hl Hg Hi. unfold gdt_set_entry, gdt_store.
  rewrite (proj2 (Z.leb_le _ _)), (proj2 (Z.ltb_lt _ _)) by lia. cbn [andb]. apply wp_modify.
  eexists. split; [cbn; apply list_lookup_insert_eq; unfold GDT_ENTRIES in Hi; lia|].
  unfold seg_base, seg_limit, seg_long, seg_4k. cbn [base_low base_mid base_high limit_low granularity access].
  destruct (byte_fields base) as (-> & -> & -> & _).
  change 0xFFFF with (Z.ones 16). change 0x0F with (Z.ones 4).
  rewrite !Z.land_ones, Z.shiftr_div_pow2 by lia.
  assert (Hl4 : 0 <= (limit / 2 ^ 16) mod 2 ^ 4 < 16) by (apply Z.mod_pos_bound; lia).
  rewrite gran_low, !gran_high by (done || lia). split_and!; try done.
  - change (2 ^ 16) with 65536. change (2 ^ 8) with 256. change (2 ^ 24) with 16777216.
    change (2 ^ 32) with 4294967296 in Hb. zlia.
  - change (2 ^ 16) with 65536. change (2 ^ 4) with 16. change (2 ^ 20) with 1048576 in Hl. zlia.
  - intros j Hj. cbn. by apply list_lookup_insert_ne.
Qed.

Lemma gdt_set_entry_roundtrip_witness :
  wp (gdt_set_entry 3 0x12345678 0xABCDE 0xFA 0xA0) demo_boot (fun _ s' =>
    exists e, gdt (k_gdt s') !! 3%nat = Some e /\
      seg_base e = 0x12345678 /\ seg_limit e = 0xABCDE /\ access e = 0xFA /\
      seg_long e = true /\ seg_4k e = true /\
      (forall j, j <> 3%nat -> gdt (k_gdt s') !! j = gdt (k_gdt demo_boot) !! j)).
Proof.
  apply (gdt_set_entry_roundtrip demo_boot 3 0x12345678 0xABCDE 0xFA 0xA0);
    [reflexivity|lia|lia|lia|unfold GDT_ENTRIES; lia].
Defined.

(** C38: After gdt_init the processor sees, whatever the table held before: a null
    descriptor, flat 4 GiB code and data segments of ring 0 and of ring 3 (the
    code segments 64-bit), and an available TSS at the address of the tss
    variable with limit 103 and no I/O bitmap; the selectors the kernel and its
    user-mode entry use (KERNEL_CS, KERNEL_DS, USER_CS, USER_DS, TSS_SEG)
    designate them; GDTR, the segment registers and TR are loaded; nothing else
    of the state but the console changes. *)
Theorem gdt_init_correct {P : Platform} (s : kstate) :
  length (gdt (k_gdt s)) = 7%nat -> 0 <= sym_tss < 2 ^ 64 ->
  wp gdt_init s (fun _ s' =>
    let g := gdt (k_gdt s') in
    decode_segment <$> select g KERNEL_CS = Some (Some (mkSegment true true 0 true 0 0xFFFFF true)) /\
    decode_segment <$> select g KERNEL_DS = Some (Some (mkSegment false true 0 false 0 0xFFFFF true)) /\
    decode_segment <$> select g USER_CS = Some (Some (mkSegment true true 3 true 0 0xFFFFF true)) /\
    decode_segment <$> select g USER_DS = Some (Some (mkSegment false true 3 false 0 0xFFFFF true)) /\
    (exists e e', g !! 0%nat = Some null_gdt_entry /\ select g TSS_SEG = Some e /\
       select g (TSS_SEG + 8) = Some e' /\ access e = 0x89 /\ system_base e e' = sym_tss /\
       seg_limit e = TSS_SIZE - 1 /\ iomap_base (tss (k_gdt s')) = TSS_SIZE) /\
    k_regs s' CS = KERNEL_CS /\ k_regs s' SS = KERNEL_DS /\ k_regs s' TR = TSS_SEG /\
    k_regs s' GDTR_BASE = sym_gdt /\ k_regs s' GDTR_LIMIT = 8 * Z.of_nat (length g) - 1 /\
    gdt_frame s s').
Proof.
  intros Hlen Ht. wp_call gdt_init_spec; [done|]. intros _ s' (Hg & Hr & Hf). rewrite Hg.
  cbn [gdt tss]. split_and!; [done..| | | | | | |done]; [|by rewrite Hr..].
  eexists _, _. split_and!; [done..| |done|done].
  unfold system_base, seg_base. cbn [base_low base_mid base_high limit_low].
  destruct (byte_fields sym_tss) as (-> & -> & -> & -> & ->). by apply tss_base_bytes.
Qed.

Lemma gdt_init_correct_witness :
  wp gdt_init demo_boot (fun _ s' =>
    k_regs s' CS = 8 /\ k_regs s' TR = 0x28 /\
    exists e e', select (gdt (k_gdt s')) TSS_SEG = Some e /\
      select (gdt (k_gdt s')) (TSS_SEG + 8) = Some e' /\ system_base e e' = 0xFFFFFFFF80021000).
Proof.
  refine (wp_mono _ _ _ _ (gdt_init_correct demo_boot _ _) _); [reflexivity|vm_compute; split; congruence|].
  intros _ s' (_ & _ & _ & _ & (e & e' & _ & He & He' & _ & Hb & _) & Hcs & _ & Htr & _).
  split_and!; [exact Hcs|exact Htr|]. exists e, e'. split_and!; [exact He|exact He'|exact Hb].
Defined.
