(* ===== verification/Pit.v ===== *)
(** * The timer and the interrupt controllers (kernel/pit.c) *)
From S2P Require Import Prelude Memory State Demo Cpu.

Definition PIT_CHANNEL0 : Z := 0x40.
Definition PIT_COMMAND : Z := 0x43.
Definition PIT_CMD_BINARY : Z := 0x00.
Definition PIT_CMD_MODE2 : Z := 0x04.
Definition PIT_CMD_LSB_MSB : Z := 0x30.
Definition PIT_CMD_CHANNEL0 : Z := 0x00.
Definition PIC1_COMMAND : Z := 0x20.
Definition PIC1_DATA : Z := 0x21.
Definition PIC2_COMMAND : Z := 0xA0.
Definition PIC2_DATA : Z := 0xA1.
Definition PIC_EOI : Z := 0x20.
Definition PIC_INIT : Z := 0x11.
Definition PIT_BASE_FREQ : Z := 1193182.

Definition with_ticks (t : Z) (p : pit_vars) : pit_vars := mkPit t (pit_frequency p).
Definition with_frequency (f : Z) (p : pit_vars) : pit_vars := mkPit (pit_ticks p) f.

Definition pic_init : K unit :=
  outb PIC1_COMMAND PIC_INIT ;;;
  outb PIC2_COMMAND PIC_INIT ;;;
  outb PIC1_DATA 32 ;;;
  outb PIC2_DATA 40 ;;;
  outb PIC1_DATA 0x04 ;;;
  outb PIC2_DATA 0x02 ;;;
  outb PIC1_DATA 0x01 ;;;
  outb PIC2_DATA 0x01 ;;;
  outb PIC1_DATA 0xFC ;;;
  outb PIC2_DATA 0xFF.

(** The clamped divisor. *)
Definition pit_divisor (frequency : Z) : Z :=
  let divisor := PIT_BASE_FREQ / frequency in
  if divisor >? 65535 then 65535 else if divisor <? 1 then 1 else divisor.

Definition pit_init (frequency : Z) : K unit :=
  pic_init ;;;
  if frequency =? 0 then fails DivideError
  else
    let divisor := pit_divisor frequency in
    modify (set_pit (with_frequency (PIT_BASE_FREQ / divisor))) ;;;
    modify (set_pit (with_ticks 0)) ;;;
    outb PIT_COMMAND
      (Z.lor (Z.lor (Z.lor PIT_CMD_CHANNEL0 PIT_CMD_LSB_MSB) PIT_CMD_MODE2) PIT_CMD_BINARY) ;;;
    outb PIT_CHANNEL0 (Z.land divisor 0xFF) ;;;
    outb PIT_CHANNEL0 (Z.land (Z.shiftr divisor 8) 0xFF) ;;;
    sti.

Definition pit_tick : K unit :=
  modify (set_pit (fun p => with_ticks (u64 (pit_ticks p + 1)) p)).

Definition pit_get_ticks : K Z := gets (fun s => pit_ticks (k_pit s)).

(** The number of ticks pit_sleep waits for: the product is of 32 bits. *)
Definition sleep_ticks (milliseconds frequency : Z) : Z := u32 (milliseconds * frequency) / 1000.

(** Each [hlt] ends with an interrupt; [hlt] serves the next one, and [fuel]
    bounds how many there are.  (pit_sleep_correct is about a machine on which that is
    the timer interrupt: its hypothesis on [hlt] is one tick.) *)
Fixpoint sleep_until (hlt : K unit) (fuel : nat) (target : Z) : K unit :=
  t <- pit_get_ticks ;;
  if t <? target then
    match fuel with
    | O => starve
    | S fuel => hlt ;;; sleep_until hlt fuel target
    end
  else ret tt.

Definition pit_sleep (hlt : K unit) (fuel : nat) (milliseconds : Z) : K unit :=
  t <- pit_get_ticks ;;
  f <- gets (fun s => pit_frequency (k_pit s)) ;;
  sleep_until hlt fuel (u64 (t + sleep_ticks milliseconds f)).

(** ** The 8259 controllers and the 8254 timer

    What the devices make of the bytes written to them: a controller that gets
    an initialisation command takes its vector offset, its cascade wiring and its
    mode from the next three data bytes and its interrupt mask from every later
    one; channel 0 of the timer takes its divisor low byte first. *)

Record pic := mkPic { pic_expect : nat; pic_offset : Z; pic_mask : Z }.

Definition pic_event (cmd data : Z) (p : pic) (e : ioevent) : pic :=
  match e with
  | Out8 port v =>
      if port =? cmd then
        if Z.testbit v 4 then mkPic 3 (pic_offset p) (pic_mask p) else p
      else if port =? data then
        match pic_expect p with
        | 3%nat => mkPic 2 v (pic_mask p)
        | S n => mkPic n (pic_offset p) (pic_mask p)
        | O => mkPic 0 (pic_offset p) v
        end
      else p
  | _ => p
  end.
Definition pic_after (cmd data : Z) (es : list ioevent) (p : pic) : pic :=
  fold_left (pic_event cmd data) es p.

Record pit8254 := mkPit8254 { pit_expect : nat; pit_reload : Z }.
Definition pit_event (p : pit8254) (e : ioevent) : pit8254 :=
  match e with
  | Out8 port v =>
      if port =? PIT_COMMAND then
        if Z.land v 0xF0 =? 0x30 then mkPit8254 2 (pit_reload p) else p
      else if port =? PIT_CHANNEL0 then
        match pit_expect p with
        | 2%nat => mkPit8254 1 v
        | 1%nat => mkPit8254 2 (pit_reload p + 256 * v)
        | _ => p
        end
      else p
  | _ => p
  end.
Definition pit_after (es : list ioevent) (p : pit8254) : pit8254 := fold_left pit_event es p.

Lemma pit_divisor_range f : 0 < f -> 1 <= pit_divisor f <= 65535.
Proof.
  intros Hf. unfold pit_divisor. rewrite Z.gtb_ltb.
  destruct (Z.ltb_spec 65535 (PIT_BASE_FREQ / f)); [lia|].
  destruct (Z.ltb_spec (PIT_BASE_FREQ / f) 1); lia.
Qed.

(** ** Properties *)

(** pit_init with a non-zero frequency remaps the two interrupt controllers to
    vectors 32-39 and 40-47, unmasks exactly the timer and the keyboard on the
    first and nothing on the second, programs channel 0 with the divisor clamped
    to 1..65535, records the frequency that divisor gives, resets the tick
    counter and enables interrupts.  From 19 Hz up to the base frequency the
    divisor is exact, so the rate is at least the one asked for. *)
Theorem pit_init_correct (s : kstate) (frequency : Z) (p1 p2 : pic) (t : pit8254) :
  0 < frequency < 2 ^ 32 ->
  wp (pit_init frequency) s (fun _ s' =>
    exists es, k_io s' = k_io s ++ es /\
      pic_after PIC1_COMMAND PIC1_DATA es p1 = mkPic 0 32 0xFC /\
      pic_after PIC2_COMMAND PIC2_DATA es p2 = mkPic 0 40 0xFF /\
      pit_reload (pit_after es t) = pit_divisor frequency /\
      k_pit s' = mkPit 0 (PIT_BASE_FREQ / pit_divisor frequency) /\ k_if s' = true /\
      (19 <= frequency <= PIT_BASE_FREQ -> pit_divisor frequency = PIT_BASE_FREQ / frequency /\
         frequency <= pit_frequency (k_pit s'))).
Proof.
  intros Hf. pose proof (pit_divisor_range frequency ltac:(lia)) as Hd.
  unfold pit_init, pic_init, outb, sti. wp_steps.
  destruct (Z.eqb_spec frequency 0); [lia|]. wp_steps. cbn [k_io set_io set_pit set_if k_pit k_if].
  unfold with_ticks, with_frequency. cbn [pit_ticks pit_frequency].
  change 0xFF with (Z.ones 8). rewrite !Z.land_ones, Z.shiftr_div_pow2 by lia.
  change (2 ^ 8) with 256. set (d := pit_divisor frequency) in *.
  rewrite !(u8_small (_ mod 256)) by (apply Z.mod_pos_bound; lia).
  eexists. split; [rewrite <- !app_assoc; reflexivity|].
  split_and!; [by destruct p1|by destruct p2| |done|done|].
  - transitivity (d mod 256 + 256 * ((d / 256) mod 256)); [by destruct t|]. zlia.
  - intros Hr. unfold PIT_BASE_FREQ in *.
    assert (d = 1193182 / frequency) as Ed; [|split; [done|]].
    + unfold d, pit_divisor, PIT_BASE_FREQ. rewrite Z.gtb_ltb.
      assert (1193182 / frequency <= 62800) by (apply Z.div_le_upper_bound; lia).
      assert (1 <= 1193182 / frequency) by (apply Z.div_le_lower_bound; lia).
      destruct (Z.ltb_spec 65535 (1193182 / frequency)); [lia|].
      destruct (Z.ltb_spec (1193182 / frequency) 1); lia.
    + apply Z.div_le_lower_bound; [lia|]. rewrite Ed. rewrite Z.mul_comm. apply Z.mul_div_le. lia.
Qed.

Lemma pit_init_correct_witness :
  wp (pit_init 100) demo_boot (fun _ s' =>
    exists es, k_io s' = k_io demo_boot ++ es /\
      pit_reload (pit_after es (mkPit8254 0 0)) = 11931 /\
      k_pit s' = mkPit 0 100 /\ k_if s' = true).
Proof.
  refine (wp_mono _ _ _ _ (pit_init_correct demo_boot 100 (mkPic 0 0 0) (mkPic 0 0 0) (mkPit8254 0 0) _) _);
    [lia|].
  intros _ s' (es & Hio & _ & _ & Hd & Hp & Hi & _). exists es.
  split_and!; [exact Hio|exact Hd|exact Hp|exact Hi].
Defined.
