(* ===== verification/Idt.v ===== *)
(** * Interrupts (kernel/idt.c, idt_asm.asm)

    The descriptor table and its gates, the exception and interrupt handlers and
    the common stub around them; pit_sleep, which waits for timer interrupts, is
    run here against the handler. *)
From S2P Require Import Prelude Memory State Demo Cpu Gdt Pit.

Definition IDT_ENTRIES : Z := 256.
Definition IDT_TYPE_INTERRUPT_GATE : Z := 0x8E.
Definition IDT_TYPE_USER_INTERRUPT : Z := 0xEE.
Definition EXCEPTION_PAGE_FAULT : Z := 14.
Definition IRQ_TIMER : Z := 32.
Definition IRQ_KEYBOARD : Z := 33.

Definition with_idt (f : list idt_entry_t -> list idt_entry_t) (v : idt_vars) : idt_vars :=
  mkIdtVars (f (idt v)) (idt_pointer v).
Definition with_idt_pointer (p : table_ptr) (v : idt_vars) : idt_vars := mkIdtVars (idt v) p.

(** [idt[num] = e]; a uint8_t index is in range. *)
Definition idt_store (num : Z) (e : idt_entry_t) : K unit :=
  modify (set_idt (with_idt (<[Z.to_nat (u8 num) := e]>))).

Definition idt_set_gate (num handler sel attr : Z) : K unit :=
  idt_store num (mkIdtEntry
    (Z.land handler 0xFFFF) sel 0 attr
    (Z.land (Z.shiftr handler 16) 0xFFFF)
    (Z.land (Z.shiftr handler 32) 0xFFFFFFFF) 0).

(** idt_asm.asm: lidt. *)
Definition idt_load (p : table_ptr) : K unit :=
  setr IDTR_LIMIT (ptr_limit p) ;;; setr IDTR_BASE (ptr_base p).

Section idt.
Context {P : Platform}.

Definition idt_init : K unit :=
  for_range 0 IDT_ENTRIES (fun i => idt_store i null_idt_entry) ;;;
  for_range 0 48 (fun i => idt_set_gate i (sym_isr_stub i) 0x08 IDT_TYPE_INTERRUPT_GATE) ;;;
  let p := mkTablePtr (16 * IDT_ENTRIES - 1) sym_idt in
  modify (set_idt (with_idt_pointer p)) ;;;
  idt_load p.
End idt.

(** ** The saved context (registers_t) *)

Record interrupt_frame_t := mkFrame { f_rip : Z; f_cs : Z; f_rflags : Z; f_rsp : Z; f_ss : Z }.

Record registers_t := mkRegisters {
  r_r15 : Z; r_r14 : Z; r_r13 : Z; r_r12 : Z; r_r11 : Z; r_r10 : Z; r_r9 : Z; r_r8 : Z;
  r_rdi : Z; r_rsi : Z; r_rbp : Z; r_rsp : Z; r_rbx : Z; r_rdx : Z; r_rcx : Z; r_rax : Z;
  int_no : Z; error_code : Z;
  r_frame : interrupt_frame_t;
}.

Definition exception_messages : list string :=
  ["Division By Zero"; "Debug"; "Non Maskable Interrupt"; "Breakpoint";
   "Overflow"; "Bound Range Exceeded"; "Invalid Opcode"; "Device Not Available"; "Double Fault";
   "Coprocessor Segment Overrun"; "Invalid TSS"; "Segment Not Present"; "Stack-Segment Fault";
   "General Protection Fault"; "Page Fault"; "Reserved"; "x87 FPU Error"; "Alignment Check"; "Machine Check";
   "SIMD Floating-Point Exception"; "Virtualization Exception"; "Control Protection Exception"; "Reserved"; "Reserved";
   "Reserved"; "Reserved"; "Reserved"; "Reserved"; "Hypervisor Injection Exception"; "VMM Communication Exception";
   "Security Exception"; "Reserved"]%string.

(** A line break in front of a literal. *)
Definition kprint_nl (m : string) : K unit := kprint_bytes ([10] ++ str m).

Definition exception_handler (regs : registers_t) : K unit :=
  kprint_bytes ([10] ++ str "=== CPU EXCEPTION ===" ++ [10]) ;;;
  kprint "Exception: " ;;;
  (if int_no regs <? 32 then
     m <- need OutOfBounds (exception_messages !! Z.to_nat (int_no regs)) ;; kprint m
   else kprint "Unknown Exception") ;;;
  kprint_nl "Interrupt Number: " ;;;
  kprint_dec (int_no regs) ;;;
  kprint_nl "Error Code: " ;;;
  kprint_hex (error_code regs) ;;;
  kprint_bytes ([10; 10] ++ str "Registers:" ++ [10]) ;;;
  kprint "RAX=" ;;; kprint_hex (r_rax regs) ;;;
  kprint " RBX=" ;;; kprint_hex (r_rbx regs) ;;;
  kprint " RCX=" ;;; kprint_hex (r_rcx regs) ;;;
  kprint_nl "RDX=" ;;; kprint_hex (r_rdx regs) ;;;
  kprint " RSI=" ;;; kprint_hex (r_rsi regs) ;;;
  kprint " RDI=" ;;; kprint_hex (r_rdi regs) ;;;
  kprint_nl "RBP=" ;;; kprint_hex (r_rbp regs) ;;;
  kprint " RSP=" ;;; kprint_hex (r_rsp regs) ;;;
  kprint_nl "RIP=" ;;; kprint_hex (f_rip (r_frame regs)) ;;;
  kprint " RFLAGS=" ;;; kprint_hex (f_rflags (r_frame regs)) ;;;
  kprint_nl "CS=" ;;; kprint_hex (f_cs (r_frame regs)) ;;;
  kprint " SS=" ;;; kprint_hex (f_ss (r_frame regs)) ;;;
  (when int_no regs =? EXCEPTION_PAGE_FAULT do
     (cr2 <- getr CR2 ;;
      kprint_nl "Faulting Address (CR2): " ;;;
      kprint_hex cr2)) ;;;
  kprint_bytes ([10; 10] ++ str "System Halted." ++ [10]) ;;;
  cli ;;; halt.

Definition irq_handler (regs : registers_t) : K unit :=
  (when int_no regs >=? 40 do outb PIC2_COMMAND PIC_EOI) ;;;
  outb PIC1_COMMAND PIC_EOI ;;;
  if int_no regs =? IRQ_TIMER then pit_tick
  else if int_no regs =? IRQ_KEYBOARD then ret tt
  else ret tt.

(** ** idt_asm.asm *)

(** The vectors for which the processor pushes an error code (ISR_ERROR). *)
Definition isr_error (n : Z) : bool :=
  bool_decide (n ∈ [8; 10; 11; 12; 13; 14; 17; 21; 29; 30]).

(** A C call may leave anything in the registers the ABI calls caller-saved. *)
Definition caller_saved (r : reg) : bool :=
  match r with RAX | RCX | RDX | RSI | RDI | R8 | R9 | R10 | R11 => true | _ => false end.
Definition clobber (junk : regs) (f : regs) : regs := fun r => if caller_saved r then junk r else f r.

Section isr.
Context {P : Platform}.

(** The registers_t a pointer refers to. *)
Definition load_registers (p : Z) (m : gmap Z Z) : registers_t :=
  let w i := load64 (kmap (u64 (p + 8 * i))) m in
  mkRegisters (w 0) (w 1) (w 2) (w 3) (w 4) (w 5) (w 6) (w 7) (w 8) (w 9) (w 10) (w 11)
    (w 12) (w 13) (w 14) (w 15) (w 16) (w 17) (mkFrame (w 18) (w 19) (w 20) (w 21) (w 22)).

(** [junk] is what the handler leaves in the caller-saved registers. *)
Definition isr_common (junk : regs) : K unit :=
  push_regs [RAX; RCX; RDX; RBX] ;;;
  push_reg RSP ;;;
  push_regs [RBP; RSI; RDI; R8; R9; R10; R11; R12; R13; R14; R15] ;;;
  sp <- getr RSP ;;
  setr RDI sp ;;;
  n <- rd64 (u64 (sp + 16 * 8)) ;;
  setr RAX n ;;;
  regs <- gets (fun s => load_registers sp (k_mem s)) ;;
  (if i64 n <? 32 then exception_handler regs else irq_handler regs) ;;;
  modify (set_regs (clobber junk)) ;;;
  pop_regs [R15; R14; R13; R12; R11; R10; R9; R8; RDI; RSI; RBP] ;;;
  drop_words 1 ;;;
  pop_regs [RBX; RDX; RCX; RAX] ;;;
  drop_words 2 ;;;
  iretq.

Definition isr_stub (junk : regs) (n : Z) : K unit :=
  (when negb (isr_error n) do push 0) ;;;
  push n ;;;
  isr_common junk.

(** The code segment selector in the gate of vector [n]. *)
Definition gate_selector (n : Z) : K Z :=
  gets (fun s => u16 (selector (default null_idt_entry (idt (k_idt s) !! Z.to_nat n)))).

(** An interrupt of vector [n]: the processor's entry through the gate, and the stub. *)
Definition interrupt (junk : regs) (n : Z) (error : Z) : K unit :=
  cs <- gate_selector n ;;
  cpu_interrupt cs (if isr_error n then Some error else None) ;;;
  isr_stub junk n.
End isr.

(** ** Gates as the processor sees them *)

Record gate := mkGate { g_handler : Z; g_selector : Z; g_dpl : Z; g_interrupt : bool }.
Definition decode_gate (e : idt_entry_t) : option gate :=
  if Z.testbit (type_attr e) 7 then
    Some (mkGate (offset_low e + offset_mid e * 2 ^ 16 + offset_high e * 2 ^ 32) (selector e)
      ((type_attr e / 2 ^ 5) mod 4) (type_attr e mod 16 =? 0xE))
  else None.

Lemma gate_roundtrip handler sel attr :
  0 <= handler < 2 ^ 64 ->
  decode_gate (mkIdtEntry (Z.land handler 0xFFFF) sel 0 attr
    (Z.land (Z.shiftr handler 16) 0xFFFF) (Z.land (Z.shiftr handler 32) 0xFFFFFFFF) 0)
  = if Z.testbit attr 7 then
      Some (mkGate handler sel ((attr / 2 ^ 5) mod 4) (attr mod 16 =? 0xE))
    else None.
Proof.
  intros Hh. unfold decode_gate. cbn [type_attr offset_low offset_mid offset_high selector].
  destruct (Z.testbit attr 7); [|done]. do 2 f_equal.
  change 0xFFFFFFFF with (Z.ones 32). change 0xFFFF with (Z.ones 16).
  rewrite !Z.land_ones, !Z.shiftr_div_pow2 by lia.
  change (2 ^ 16) with 65536. change (2 ^ 32) with 4294967296.
  change (2 ^ 64) with 18446744073709551616 in Hh. zlia.
Qed.

Section gates.
Context {P : Platform}.
Implicit Types s : kstate.

Definition idt_frame s s' : Prop :=
  s' = set_idt (fun _ => k_idt s') (set_regs (fun _ => k_regs s') s).

Lemma idt_stores s (f : Z -> idt_entry_t) (n : Z) :
  length (idt (k_idt s)) = 256%nat -> 0 <= n <= 256 ->
  wp (for_range 0 n (fun i => idt_store i (f i))) s (fun _ s' =>
    s' = set_idt (fun _ => k_idt s') s /\ length (idt (k_idt s')) = 256%nat /\
    forall j, 0 <= j < 256 ->
      idt (k_idt s') !! Z.to_nat j =
      if decide (j < n) then Some (f j) else idt (k_idt s) !! Z.to_nat j).
Proof.
  intros Hlen Hn.
  apply (wp_for_range (fun i s' => s' = set_idt (fun _ => k_idt s') s /\
    length (idt (k_idt s')) = 256%nat /\
    forall j, 0 <= j < 256 -> idt (k_idt s') !! Z.to_nat j =
      if decide (j < i) then Some (f j) else idt (k_idt s) !! Z.to_nat j)).
  - lia.
  - split_and!; [by destruct s|done|]. intros j Hj. by rewrite decide_False by lia.
  - intros i s1 Hi (E & Hl & Hj). apply wp_modify. rewrite u8_small by lia.
    split_and!; [by rewrite E|cbn; by rewrite length_insert|].
    intros j Hjr. cbn [k_idt set_idt idt with_idt].
    destruct (decide (j = i)) as [->|Hne].
    + rewrite decide_True by lia. apply list_lookup_insert_eq. lia.
    + rewrite list_lookup_insert_ne, Hj by lia. by repeat case_decide; try lia.
  - done.
Qed.
End gates.

(** ** An interrupt is transparent *)

Lemma u16_u64 z : 0 <= u16 z < 18446744073709551616.
Proof. pose proof (u16_range z). lia. Qed.

Section transparent.
Context {P : Platform}.
Implicit Types s : kstate.

Definition regs_u64 (f : regs) : Prop := forall r, 0 <= f r < 18446744073709551616.

(** Where the processor starts to push, and the room the stub needs. *)
Definition entry_stack s : Z :=
  Z.land (if Z.land (k_regs s CS) 3 =? 3 then rsp0 (tss (k_gdt s)) else k_regs s RSP)
    (u64 (Z.lnot 0xF)).
Definition isr_room : Z := 8 * 23.

(** The machine when the processor accepts an interrupt. *)
Record interruptible s : Prop := {
  ib_regs : regs_u64 (k_regs s);
  ib_flags : Z.testbit (k_regs s RFLAGS) 9 = k_if s;
  ib_stack : window_ok (entry_stack s - isr_room) (entry_stack s);
}.

Lemma flags_word_id f b : Z.testbit f 9 = b -> flags_word f b = f.
Proof.
  intros H. unfold flags_word. apply Z.bits_inj'. intros n Hn.
  destruct b; [rewrite Z.lor_spec|rewrite Z.ldiff_spec]; change 0x200 with (2 ^ 9);
    (destruct (decide (n = 9)) as [->|]; [rewrite Z.pow2_bits_true, H by lia; done|]);
    rewrite Z.pow2_bits_false by lia; by rewrite ?orb_false_r, ?andb_true_r.
Qed.

(** What the processor has pushed: the interrupted context, on the new stack. *)
Definition entered s s1 : Prop :=
  stk (entry_stack s - isr_room) (entry_stack s) s1
    [k_regs s RIP; k_regs s CS; k_regs s RFLAGS; k_regs s RSP; k_regs s SS] /\
  (forall r, r <> RSP -> r <> SS -> r <> CS -> k_regs s1 r = k_regs s r) /\
  k_regs s1 RSP = entry_stack s - 40 /\ regs_u64 (k_regs s1) /\
  mem_above (entry_stack s - isr_room) (entry_stack s) (k_mem s) (k_mem s1) /\
  s1 = set_if (fun _ => false) (set_mem (fun _ => k_mem s1) (set_regs (fun _ => k_regs s1) s)).

Lemma cpu_interrupt_spec s cs :
  interruptible s -> 0 <= cs < 18446744073709551616 -> wp (cpu_interrupt cs None) s (fun _ s1 => entered s s1).
Proof.
  intros [Hr Hf Hw] Hcs. unfold cpu_interrupt, getr, setr. wp_steps.
  fold (entry_stack s). unfold isr_room in *. set (top := entry_stack s) in *.
  set (lo := top - 8 * 23) in *. destruct Hw as (W1 & W2 & W3).
  rewrite flags_word_id by done.
  pose proof (pushed_start lo top top s ltac:(lia)) as Hp.
  do 4 (wp_steps; wp_call (pushed_push lo top (conj W1 (conj W2 W3))); [exact Hp|cbn [length]; lia|apply Hr|];
    clear Hp; intros _ ? Hp).
  wp_steps. unfold push_reg, getr. wp_steps.
  wp_call (pushed_push lo top (conj W1 (conj W2 W3))); [exact Hp|cbn [length]; lia| |].
  { destruct Hp as (_ & _ & Hx & _). rewrite Hx by done. apply Hr. }
  assert (E : k_regs s'2 RIP = k_regs s RIP) by (destruct Hp as (_ & _ & Hx & _); by apply Hx).
  clear Hp. rewrite E. intros _ s5 Hp. wp_steps.
  destruct Hp as (Hstk & Hsp & Hre & Hfr & Hm). cbn [length] in Hsp.
  destruct (Z.land (k_regs s CS) 3 =? 3); wp_steps; unfold cli; wp_steps; split_and!.
  all: first [by eapply (stk_frame lo top s5)
    |intros r R1 R2 R3; cbn; rewrite !rset_ne by congruence; by apply Hre
    |cbn; rewrite !rset_ne by done; rewrite Hsp; lia
    |intros r; cbn; unfold rset; repeat (case_decide; [lia|]);
     destruct (decide (r = RSP)) as [->|Hn]; [lia|rewrite Hre by done; apply Hr]
    |done|by rewrite Hfr].
Qed.

(** The whole context has been saved: the words on the stack. *)
Definition saved_words (f : regs) (rsp1 n : Z) : list Z :=
  [f R15; f R14; f R13; f R12; f R11; f R10; f R9; f R8; f RDI; f RSI; f RBP; rsp1;
   f RBX; f RDX; f RCX; f RAX; n; 0].

Definition irq_events (n : Z) : list ioevent :=
  (if n >=? 40 then [Out8 PIC2_COMMAND PIC_EOI] else []) ++ [Out8 PIC1_COMMAND PIC_EOI].
Definition irq_pit (n : Z) (p : pit_vars) : pit_vars :=
  if n =? IRQ_TIMER then with_ticks (u64 (pit_ticks p + 1)) p else p.

Lemma irq_handler_spec s regs :
  wp (irq_handler regs) s (fun _ s' =>
    s' = set_io (fun l => l ++ irq_events (int_no regs)) (set_pit (irq_pit (int_no regs)) s)).
Proof.
  unfold irq_handler, irq_events, irq_pit, outb, pit_tick.
  generalize (int_no regs) as n. intros n. destruct (n >=? 40); wp_steps;
    destruct (n =? IRQ_TIMER); wp_steps; try (destruct (n =? IRQ_KEYBOARD); wp_steps);
    destruct s; unfold set_io, set_pit; cbn; by rewrite <- ?app_assoc.
Qed.

Lemma stk_word lo hi s vs i v :
  window_ok lo hi -> stk lo hi s vs -> vs !! i = Some v ->
  load64 (kmap (u64 (k_regs s RSP + 8 * Z.of_nat i))) (k_mem s) = v.
Proof.
  intros (W1 & W2 & _) (Hlo & Hhi & _ & Hl) Hi. pose proof (lookup_lt_Some _ _ _ Hi).
  rewrite u64_small by lia. by apply Hl.
Qed.

Lemma isr_save s1 n lo hi base vs (k : K unit) (Q : unit -> kstate -> Prop) :
  window_ok lo hi -> stk lo hi s1 vs -> regs_u64 (k_regs s1) -> 0 <= n < 256 ->
  base = k_regs s1 RSP + 8 * Z.of_nat (length vs) ->
  lo + 8 * (18 + Z.of_nat (length vs)) <= base ->
  (forall s2 rsp1, pushed_since lo hi base s1 s2 (saved_words (k_regs s1) rsp1 n ++ vs) ->
     wp k s2 Q) ->
  wp (push 0 ;;; push n ;;; push_regs [RAX; RCX; RDX; RBX] ;;; push_reg RSP ;;;
      push_regs [RBP; RSI; RDI; R8; R9; R10; R11; R12; R13; R14; R15] ;;; k) s1 Q.
Proof.
  intros Hw Hs Hr Hn Hb Hroom HQ.
  assert (Hp : pushed_since lo hi base s1 s1 vs).
  { split_and!; [done|lia|done|apply cpu_frame_refl|done]. }
  apply wp_bind. wp_call (pushed_push lo hi Hw); [exact Hp|lia|lia|]. clear Hp. intros _ sa Hp.
  apply wp_bind. wp_call (pushed_push lo hi Hw); [exact Hp|cbn [length]; lia|lia|].
  clear Hp. intros _ sb Hp. apply wp_bind.
  wp_call (pushed_push_regs lo hi Hw); [exact Hp|cbn [length]; lia|..].
  { apply (bool_decide_unpack _). done. }
  { repeat apply Forall_cons_2; apply Forall_nil_2 || apply Hr. }
  clear Hp. intros _ sc Hp. apply wp_bind. unfold push_reg, getr. wp_steps.
  pose proof Hp as ((Hlo & Hhi & _) & Hsp & _). cbn [map rev app length] in Hsp, Hhi.
  wp_call (pushed_push lo hi Hw); [exact Hp|cbn [map rev app length]; lia|destruct Hw as (?&?&_); lia|].
  clear Hp. intros _ sd Hp. apply wp_bind.
  wp_call (pushed_push_regs lo hi Hw); [exact Hp|cbn [map rev app length]; lia|..].
  { apply (bool_decide_unpack _). done. }
  { repeat apply Forall_cons_2; apply Forall_nil_2 || apply Hr. }
  intros _ se He. eapply HQ. exact He.
Qed.

(** The registers the stub restores. *)
Definition restored (f : regs) (rip cs rf sp ss : Z) (g : regs) (r : reg) : Z :=
  match r with
  | RAX | RBX | RCX | RDX | RSI | RDI | RBP
  | R8 | R9 | R10 | R11 | R12 | R13 | R14 | R15 => f r
  | RIP => rip | CS => cs | RFLAGS => rf | RSP => sp | SS => ss
  | _ => g r
  end.

Lemma isr_restore lo hi s2 junk f rsp1 n rip cs rf sp ss :
  window_ok lo hi -> stk lo hi s2 (saved_words f rsp1 n ++ [rip; cs; rf; sp; ss]) ->
  wp (modify (set_regs (clobber junk)) ;;;
      pop_regs [R15; R14; R13; R12; R11; R10; R9; R8; RDI; RSI; RBP] ;;;
      drop_words 1 ;;; pop_regs [RBX; RDX; RCX; RAX] ;;; drop_words 2 ;;; iretq) s2
    (fun _ s3 => (forall r, k_regs s3 r = restored f rip cs rf sp ss (k_regs s2) r) /\
       s3 = set_if (fun _ => Z.testbit rf 9) (set_regs (fun _ => k_regs s3) s2)).
Proof.
  intros Hw Hs. apply wp_bind, wp_modify. apply wp_bind.
  wp_call (wp_pop_regs lo hi Hw [R15; R14; R13; R12; R11; R10; R9; R8; RDI; RSI; RBP] _
    [f R15; f R14; f R13; f R12; f R11; f R10; f R9; f R8; f RDI; f RSI; f RBP]);
    [by apply (bool_decide_unpack _)|by eapply (stk_frame lo hi s2); [| |exact Hs]|done|].
  intros _ sa (Hsa & Ra & _ & Ea). apply wp_bind.
  wp_call (wp_drop_words lo hi Hw sa [rsp1]); [exact Hsa|done|]. intros _ sb (Hsb & Eb). apply wp_bind.
  wp_call (wp_pop_regs lo hi Hw [RBX; RDX; RCX; RAX] sb [f RBX; f RDX; f RCX; f RAX]);
    [by apply (bool_decide_unpack _)|exact Hsb|done|].
  intros _ sc (Hsc & Rc & _ & Ec). apply wp_bind.
  wp_call (wp_drop_words lo hi Hw sc [n; 0]); [exact Hsc|done|]. intros _ sd (Hsd & Ed).
  wp_call (wp_iretq lo hi Hw sd); [exact Hsd|]. intros _ s3 (R3 & E3). split.
  - intros r. rewrite R3.
    assert (Hd : r <> RSP -> k_regs sd r = load_regs [RBX; RDX; RCX; RAX] [f RBX; f RDX; f RCX; f RAX]
      (load_regs [R15; R14; R13; R12; R11; R10; R9; R8; RDI; RSI; RBP]
        [f R15; f R14; f R13; f R12; f R11; f R10; f R9; f R8; f RDI; f RSI; f RBP]
        (clobber junk (k_regs s2))) r).
    { intros Hne. rewrite Ed. cbn [k_regs set_regs]. rewrite rset_ne, Rc by done.
      apply load_regs_ext. rewrite Eb. cbn [k_regs set_regs]. rewrite rset_ne by done. by apply Ra. }
    destruct r; try (rewrite Hd by done); done.
  - assert (Hf : flags_frame s2 sd).
    { rewrite Ed. apply flags_frame_regs. rewrite Ec. apply flags_frame_regs.
      rewrite Eb. apply flags_frame_regs. rewrite Ea. do 2 apply flags_frame_regs. by destruct s2. }
    unfold flags_frame in Hf. rewrite E3, Hf. done.
Qed.

Lemma interrupt_spec s junk n error :
  interruptible s -> 32 <= n < 48 ->
  wp (interrupt junk n error) s (fun _ s' =>
    (forall r, k_regs s' r = k_regs s r) /\
    mem_above (entry_stack s - isr_room) (entry_stack s) (k_mem s) (k_mem s') /\
    s' = set_io (fun l => l ++ irq_events n) (set_pit (irq_pit n)
           (set_mem (fun _ => k_mem s') (set_regs (fun _ => k_regs s') s)))).
Proof.
  intros Hib Hn. pose proof (ib_stack _ Hib) as Hw. unfold interrupt.
  assert (He : isr_error n = false).
  { apply bool_decide_eq_false. intros Hx. repeat (apply elem_of_cons in Hx as [->|Hx]; [lia|]).
    by apply not_elem_of_nil in Hx. }
  rewrite He. unfold gate_selector. apply wp_bind, wp_gets, wp_bind. wp_call cpu_interrupt_spec; [done|apply u16_u64|].
  intros _ s1 (Hs & Hr1 & Hsp1 & Hu1 & Hm1 & E1).
  unfold isr_stub. rewrite He. cbn [negb]. unfold isr_common.
  eapply (isr_save s1 n _ _ (entry_stack s)); [exact Hw|exact Hs|exact Hu1|lia|cbn [length]; lia
    |cbn [length]; unfold isr_room in *; lia|].
  intros s2 rsp1 (Hs2 & Hsp2 & Hr2 & E2 & Hm2).
  unfold getr, setr, rd64. wp_steps. cbn [k_mem set_regs].
  assert (Hw16 : load64 (kmap (u64 (k_regs s2 RSP + 16 * 8))) (k_mem s2) = n)
    by exact (stk_word _ _ s2 _ 16%nat n Hw Hs2 eq_refl).
  rewrite Hw16, i64_small, (proj2 (Z.ltb_ge n 32)) by lia.
  wp_call irq_handler_spec. intros _ s3 ->.
  assert (Hint : int_no (load_registers (k_regs s2 RSP) (k_mem s2)) = n) by exact Hw16.
  rewrite Hint. clear Hw16 Hint.
  wp_call (isr_restore (entry_stack s - isr_room) (entry_stack s)); [exact Hw| |].
  { eapply (stk_frame _ _ s2); [| |exact Hs2]; done. }
  intros _ s4 (Hr4 & E4).
  assert (Hregs : forall r, k_regs s4 r = k_regs s r).
  { intros r. rewrite Hr4. destruct r; cbn [restored]; try done; try (by apply Hr1);
      cbn [k_regs set_io set_pit set_regs]; rewrite !rset_ne, Hr2, Hr1 by done; done. }
  split_and!; [done| |].
  - assert (k_mem s4 = k_mem s2) as -> by by rewrite E4. by eapply mem_above_trans.
  - rewrite (ib_flags _ Hib) in E4. unfold cpu_frame in E2.
    rewrite E4, E2, E1. by destruct s.
Qed.
End transparent.

(** ** The exception report *)

(** What exception_handler prints, [m] being the name of the exception. *)
Definition exception_report (s : kstate) (regs : registers_t) (m : string) : list conevent :=
  [CPrint ([10] ++ str "=== CPU EXCEPTION ===" ++ [10]); CPrint (str "Exception: "); CPrint (str m);
   CPrint ([10] ++ str "Interrupt Number: "); CDec (int_no regs);
   CPrint ([10] ++ str "Error Code: "); CHex (error_code regs);
   CPrint ([10; 10] ++ str "Registers:" ++ [10]);
   CPrint (str "RAX="); CHex (r_rax regs); CPrint (str " RBX="); CHex (r_rbx regs);
   CPrint (str " RCX="); CHex (r_rcx regs); CPrint ([10] ++ str "RDX="); CHex (r_rdx regs);
   CPrint (str " RSI="); CHex (r_rsi regs); CPrint (str " RDI="); CHex (r_rdi regs);
   CPrint ([10] ++ str "RBP="); CHex (r_rbp regs); CPrint (str " RSP="); CHex (r_rsp regs);
   CPrint ([10] ++ str "RIP="); CHex (f_rip (r_frame regs));
   CPrint (str " RFLAGS="); CHex (f_rflags (r_frame regs));
   CPrint ([10] ++ str "CS="); CHex (f_cs (r_frame regs)); CPrint (str " SS="); CHex (f_ss (r_frame regs))] ++
  (if int_no regs =? EXCEPTION_PAGE_FAULT then
     [CPrint ([10] ++ str "Faulting Address (CR2): "); CHex (k_regs s CR2)] else []) ++
  [CPrint ([10; 10] ++ str "System Halted." ++ [10])].

Definition exception_name (n : Z) : string :=
  if n <? 32 then default ""%string (exception_messages !! Z.to_nat n) else "Unknown Exception"%string.

Lemma exception_name_spec n s :
  0 <= n ->
  (if n <? 32 then m <- need OutOfBounds (exception_messages !! Z.to_nat n) ;; kprint m
   else kprint "Unknown Exception") s
  = Ret tt (printed [CPrint (str (exception_name n))] s).
Proof.
  intros Hn. unfold exception_name. destruct (Z.ltb_spec n 32) as [Hlt|Hge]; [|done].
  destruct (lookup_lt_is_Some_2 exception_messages (Z.to_nat n)) as [m Hm];
    [vm_compute length; lia|]. by rewrite Hm.
Qed.

Lemma exception_cr2_spec (b : bool) L s :
  (when b do (cr2 <- getr CR2 ;; con (CPrint ([10] ++ str "Faulting Address (CR2): ")) ;;; con (CHex cr2)))
    (printed L s)
  = Ret tt (printed (L ++ if b then [CPrint ([10] ++ str "Faulting Address (CR2): "); CHex (k_regs s CR2)]
                          else []) s).
Proof.
  destruct b; [|by rewrite app_nil_r]. unfold getr.
  rewrite (bind_ret (gets _) _ _ (k_regs s CR2) (printed L s)) by done. rewrite con_run.
  rewrite <- (printed_app L [_]), <- (printed_app L (_ :: _)). unfold con, modify, printed, set_con.
  cbn. by rewrite <- !app_assoc.
Qed.

Lemma exception_handler_run s regs :
  0 <= int_no regs ->
  exception_handler regs s =
  Halted (set_if (fun _ => false) (printed (exception_report s regs (exception_name (int_no regs))) s)).
Proof.
  intros Hn. rewrite <- (printed_nil s) at 1.
  unfold exception_handler, kprint_nl, kprint_bytes, kprint_dec, kprint_hex.
  unfold kprint at 1. rewrite !con_run. rewrite (bind_ret _ _ _ _ _ (exception_name_spec _ _ Hn)), printed_app.
  unfold kprint. rewrite !con_run.
  rewrite (bind_ret _ _ _ _ _ (exception_cr2_spec _ _ _)), con_run.
  unfold bind, cli, modify, halt. do 2 f_equal.
Qed.

(** ** Sleeping *)

Lemma sleep_until_spec (hlt : K unit) n target s :
  (forall s, wp hlt s (fun _ s' =>
     k_pit s' = mkPit (u64 (pit_ticks (k_pit s) + 1)) (pit_frequency (k_pit s)))) ->
  0 <= pit_ticks (k_pit s) -> pit_ticks (k_pit s) + Z.of_nat n = target ->
  target < 18446744073709551616 ->
  wp (sleep_until hlt n target) s (fun _ s' => pit_ticks (k_pit s') = target).
Proof.
  intros Hhlt. revert s. induction n as [|n IH]; intros s H0 Hn Ht; cbn [sleep_until];
    unfold pit_get_ticks; wp_steps.
  - destruct (Z.ltb_spec (pit_ticks (k_pit s)) target); [lia|]. apply wp_ret. lia.
  - destruct (Z.ltb_spec (pit_ticks (k_pit s)) target); [|lia]. apply wp_bind.
    wp_call Hhlt. intros _ s' E.
    assert (Et : pit_ticks (k_pit s') = pit_ticks (k_pit s) + 1) by (rewrite E; cbn; apply u64_small; lia).
    apply IH; lia.
Qed.

(** A machine in user mode with a kernel stack in the TSS. *)
Definition demo_user : kstate :=
  set_if (fun _ => true) (set_gdt (with_tss (with_rsp0 0xFFFFFFFF80011000))
    (set_regs (fun _ r => match r with
       | CS => USER_CS | SS => USER_DS | RIP => 0x400010 | RSP => 0x7FFFFFFFEFF8 | RFLAGS => 0x202
       | RAX => 9 | RBX => 0xB | R15 => 0xF | _ => 0 end) demo_boot)).

Lemma demo_interruptible : interruptible demo_user.
Proof.
  constructor.
  - intros []; vm_compute; split; congruence.
  - reflexivity.
  - change (entry_stack demo_user) with 0xFFFFFFFF80011000. unfold isr_room. split_and!; [lia|lia|].
    intros x Hx. unfold kmap, demo, demo_kmap, demo_hhdm.
    rewrite !(proj2 (Z.ltb_ge _ _)), !andb_false_r by lia. lia.
Qed.

(** ** Properties *)

(** C9: Serving a hardware interrupt (vectors 32 to 47) is transparent to the
    interrupted program, in ring 0 and in ring 3 alike: the entry sequence, the
    common stub and iretq return with every register, the stack pointer and the
    interrupt flag as they were, memory changed only in the 184 bytes of kernel
    stack below the entry point, whatever the C handler leaves in the
    caller-saved registers; the controllers have been acknowledged (the second
    one only for vectors from 40 on) and the tick counter has advanced by one
    exactly for the timer's vector. *)
Theorem interrupt_transparent {P : Platform} (s : kstate) (junk : regs) (n error : Z) :
  interruptible s -> 32 <= n < 48 ->
  wp (interrupt junk n error) s (fun _ s' =>
    (forall r, k_regs s' r = k_regs s r) /\ k_if s' = k_if s /\
    mem_above (entry_stack s - isr_room) (entry_stack s) (k_mem s) (k_mem s') /\
    k_io s' = k_io s ++ irq_events n /\ k_pit s' = irq_pit n (k_pit s) /\
    s' = set_io (fun _ => k_io s') (set_pit (fun _ => k_pit s')
           (set_mem (fun _ => k_mem s') (set_regs (fun _ => k_regs s') s)))).
Proof.
  intros Hib Hn. wp_call interrupt_spec; [done|done|]. intros _ s' (Hr & Hm & E).
  split_and!; [done|by rewrite E|done|by rewrite E|by rewrite E|]. rewrite E at 1. by rewrite E.
Qed.

Lemma interrupt_transparent_witness :
  wp (interrupt (fun _ => 0x77) 32 0) demo_user (fun _ s' =>
    k_regs s' RAX = 9 /\ k_regs s' RIP = 0x400010 /\ k_regs s' RSP = 0x7FFFFFFFEFF8 /\
    k_if s' = true /\ pit_ticks (k_pit s') = 1).
Proof.
  refine (wp_mono _ _ _ _ (interrupt_transparent demo_user (fun _ => 0x77) 32 0 demo_interruptible _) _);
    [lia|].
  intros _ s' (Hr & Hi & _ & _ & Hp & _). rewrite !Hr, Hi, Hp. vm_compute. auto.
Defined.

(** C37: After idt_init the processor finds an interrupt gate of ring 0 in the
    kernel's code segment for each of the 48 vectors, leading to that vector's
    stub, and no gate for any other vector; IDTR covers the 256 entries. *)
Theorem idt_init_correct {P : Platform} (s : kstate) :
  length (idt (k_idt s)) = 256%nat -> (forall i, 0 <= i < 48 -> 0 <= sym_isr_stub i < 2 ^ 64) ->
  wp idt_init s (fun _ s' =>
    (forall j, 0 <= j < 256 ->
       decode_gate <$> idt (k_idt s') !! Z.to_nat j =
       Some (if decide (j < 48) then Some (mkGate (sym_isr_stub j) KERNEL_CS 0 true) else None)) /\
    k_regs s' IDTR_BASE = sym_idt /\
    k_regs s' IDTR_LIMIT = 16 * Z.of_nat (length (idt (k_idt s'))) - 1).
Proof.
  intros Hlen Hs. unfold idt_init. apply wp_bind.
  wp_call (idt_stores s (fun _ => null_idt_entry) IDT_ENTRIES); [done|unfold IDT_ENTRIES; lia|].
  intros _ s1 (_ & Hl1 & H1). apply wp_bind. unfold idt_set_gate.
  wp_call (idt_stores s1 (fun i => mkIdtEntry (Z.land (sym_isr_stub i) 0xFFFF) 0x08 0
    IDT_TYPE_INTERRUPT_GATE (Z.land (Z.shiftr (sym_isr_stub i) 16) 0xFFFF)
    (Z.land (Z.shiftr (sym_isr_stub i) 32) 0xFFFFFFFF) 0) 48); [done|lia|].
  intros _ s2 (_ & Hl2 & H2). unfold idt_load, setr. wp_steps. cbn [k_idt k_regs set_idt set_regs].
  split_and!.
  - intros j Hj. cbn [idt with_idt_pointer]. rewrite H2 by done. destruct (decide (j < 48)).
    + cbn [fmap option_fmap option_map]. by rewrite gate_roundtrip by (apply Hs; lia).
    + rewrite H1 by done. unfold IDT_ENTRIES. by rewrite decide_True by lia.
  - by reg_simpl.
  - reg_simpl. cbn [idt with_idt_pointer]. by rewrite Hl2.
Qed.

Lemma idt_init_correct_witness :
  wp idt_init demo_boot (fun _ s' =>
    decode_gate <$> idt (k_idt s') !! 32%nat = Some (Some (mkGate 0xFFFFFFFF80001200 8 0 true)) /\
    decode_gate <$> idt (k_idt s') !! 128%nat = Some None).
Proof.
  refine (wp_mono _ _ _ _ (idt_init_correct demo_boot eq_refl _) _).
  - intros i Hi. unfold sym_isr_stub, demo. lia.
  - intros _ s' [H _]. split; [exact (H 32 ltac:(lia))|exact (H 128 ltac:(lia))].
Defined.

(** exception_handler never returns and never runs into undefined behaviour,
    whatever the saved registers hold: it reports the exception (by its name in
    the table for the vectors below 32), its number, the error code and, for a
    page fault, CR2, changes nothing else, and halts the processor
    with interrupts disabled. *)
Theorem exception_handler_halts (s : kstate) (regs : registers_t) :
  0 <= int_no regs < 2 ^ 64 ->
  exists s' l, exception_handler regs s = Halted s' /\
    s' = set_con (fun _ => k_con s ++ l) (set_if (fun _ => false) s) /\
    (forall m, exception_messages !! Z.to_nat (int_no regs) = Some m -> CPrint (str m) ∈ l) /\
    CDec (int_no regs) ∈ l /\ CHex (error_code regs) ∈ l /\ CHex (f_rip (r_frame regs)) ∈ l /\
    (int_no regs = EXCEPTION_PAGE_FAULT -> CHex (k_regs s CR2) ∈ l).
Proof.
  intros Hn. eexists _, (exception_report s regs (exception_name (int_no regs))).
  split; [apply exception_handler_run; lia|]. split; [by destruct s|]. split_and!.
  - intros m Hm. apply (list_elem_of_lookup_2 _ 2). cbn [exception_report lookup]. 
    pose proof (lookup_lt_Some _ _ _ Hm) as Hlt. change (length exception_messages) with 32%nat in Hlt.
    unfold exception_name. rewrite (proj2 (Z.ltb_lt _ 32)), Hm by lia. reflexivity.
  - by apply (list_elem_of_lookup_2 _ 4).
  - by apply (list_elem_of_lookup_2 _ 6).
  - by apply (list_elem_of_lookup_2 _ 25).
  - intros E. apply (list_elem_of_lookup_2 _ 33). unfold exception_report. by rewrite E.
Qed.

Lemma exception_handler_halts_witness :
  let regs := mkRegisters 0 0 0 0 0 0 0 0 0 0 0 0 0 0 0 0 14 2 (mkFrame 0x400000 8 0 0 0) in
  exists s' l, exception_handler regs demo_boot = Halted s' /\ CPrint (str "Page Fault") ∈ l /\
    s' = set_con (fun _ => k_con demo_boot ++ l) (set_if (fun _ => false) demo_boot).
Proof.
  intros regs. destruct (exception_handler_halts demo_boot regs) as (s' & l & E & Hs & Hm & _);
    [vm_compute; split; congruence|].
  exists s', l. split_and!; [exact E|exact (Hm _ eq_refl)|exact Hs].
Defined.

(** C39: pit_sleep returns after exactly [ms * frequency / 1000] timer interrupts, as
    long as the 32-bit product and the 64-bit tick counter do not overflow. *)
Theorem pit_sleep_correct (hlt : K unit) (s : kstate) (ms : Z) :
  (forall s, wp hlt s (fun _ s' =>
     k_pit s' = mkPit (u64 (pit_ticks (k_pit s) + 1)) (pit_frequency (k_pit s)))) ->
  let p := k_pit s in
  0 <= pit_ticks p -> 0 <= ms -> 0 <= pit_frequency p -> ms * pit_frequency p < 2 ^ 32 ->
  pit_ticks p + ms * pit_frequency p / 1000 < 2 ^ 64 ->
  wp (pit_sleep hlt (Z.to_nat (ms * pit_frequency p / 1000)) ms) s (fun _ s' =>
    pit_ticks (k_pit s') = pit_ticks p + ms * pit_frequency p / 1000).
Proof.
  intros Hhlt p H0 Hms Hf Hmul Hsum. unfold pit_sleep, pit_get_ticks. wp_steps.
  unfold sleep_ticks. fold p. change (2 ^ 32) with 4294967296 in Hmul.
  change (2 ^ 64) with 18446744073709551616 in Hsum.
  assert (0 <= ms * pit_frequency p / 1000) by (apply Z.div_pos; lia).
  rewrite u32_small by lia. rewrite u64_small by lia.
  apply sleep_until_spec; [done|done|fold p; lia|lia].
Qed.

Lemma pit_sleep_correct_witness :
  let hlt := irq_handler (mkRegisters 0 0 0 0 0 0 0 0 0 0 0 0 0 0 0 0 32 0 (mkFrame 0 0 0 0 0)) in
  let s := set_pit (fun _ => mkPit 7 100) demo_boot in
  wp (pit_sleep hlt (Z.to_nat (250 * 100 / 1000)) 250) s (fun _ s' => pit_ticks (k_pit s') = 32).
Proof.
  intros hlt s.
  apply (pit_sleep_correct hlt s 250); [|vm_compute; congruence..|vm_compute; reflexivity|vm_compute; reflexivity].
  intros s0. wp_call irq_handler_spec. intros _ s' ->. reflexivity.
Defined.

(** The product in pit_sleep is computed in 32 bits: at 100 Hz a sleep of
    42 949 673 ms (almost twelve hours) returns at once, without waiting for a
    single interrupt. *)
Theorem pit_sleep_wraps (hlt : K unit) (s : kstate) (ticks : Z) :
  k_pit s = mkPit ticks 100 -> 0 <= ticks < 2 ^ 64 -> pit_sleep hlt 0 42949673 s = Ret tt s.
Proof.
  intros Hp Ht. unfold pit_sleep, pit_get_ticks, bind, gets. cbn [sleep_until].
  unfold pit_get_ticks, bind, gets. rewrite Hp. cbn [pit_ticks pit_frequency].
  change (sleep_ticks 42949673 100) with 0. rewrite Z.add_0_r, u64_small by lia.
  by rewrite Z.ltb_irrefl.
Qed.

Lemma pit_sleep_wraps_witness :
  let s := set_pit (fun _ => mkPit 5 100) demo_boot in pit_sleep halt 0 42949673 s = Ret tt s.
Proof. intros s. apply (pit_sleep_wraps halt s 5); [reflexivity|lia]. Defined.
