(* ===== verification/Thread.v ===== *)
(** * Threads and the scheduler (kernel/thread.c, switch.asm, usermode.asm)

    A [Thread *] is an index into [threads]; the ring of threads is walked
    through the [next] fields, as in the code.  A function that switches to
    another thread reports it: what follows the call in the source then runs only
    when the thread is resumed. *)
From S2P Require Import Prelude Memory State Demo Cpu Gdt.

Definition MAX_THREADS : Z := 8.
Definition STACK_SIZE : Z := 4096.
Definition MAX_PORTS : Z := 16.
Definition MAX_MESSAGES : Z := 64.

(** ** Access to the static arrays *)

Definition sched {A} (f : sched_vars -> A) : K A := gets (fun s => f (k_sched s)).
Definition upd_sched (f : sched_vars -> sched_vars) : K unit := modify (set_sched f).

(** [*t], for a non-null pointer into the array. *)
Definition get_thread (t : nat) : K Thread :=
  o <- sched (fun v => threads v !! t) ;; need OutOfBounds o.
(** An update through [t->...]. *)
Definition upd_thread (t : nat) (f : Thread -> Thread) : K unit :=
  x <- get_thread t ;;
  upd_sched (with_threads (<[t := f x]>)).
(** Dereferencing a [Thread *] that may be NULL. *)
Definition deref (t : option nat) : K nat := need NullPointer t.

Section thread.
Context {P : Platform}.

Definition thread_init : K unit :=
  upd_sched (with_current None) ;;;
  upd_sched (with_thread_list None) ;;;
  upd_sched (with_thread_count 0) ;;;
  upd_sched (with_port_count 0) ;;;
  upd_sched (with_pool_next 0) ;;;
  upd_sched (with_pool (fun l => with_msg_next None <$> l)) ;;;
  upd_sched (with_ports (fun l => (fun _ => null_port) <$> l)).

(** The address of the end of the kernel stack of thread [i]. *)
Definition stack_end (i : Z) : Z := u64 (sym_stacks + STACK_SIZE * (i + 1)).

(** [*(--sp) = w] for each word in turn; returns the final [sp]. *)
Fixpoint store_words (sp : Z) (ws : list Z) : K Z :=
  match ws with
  | [] => ret sp
  | w :: ws => wr64 (u64 (sp - 8)) w ;;; store_words (u64 (sp - 8)) ws
  end.

(** [while (it->next != thread_list) it = it->next]. *)
Fixpoint find_last (fuel : nat) (first it : nat) : K nat :=
  match fuel with
  | O => starve
  | S fuel =>
      x <- get_thread it ;;
      if decide (t_next x = Some first) then ret it
      else nxt <- deref (t_next x) ;; find_last fuel first nxt
  end.

(** The end of thread_create and of thread_create_user: the new thread enters
    the ring. *)
Definition thread_link (t : nat) : K unit :=
  first <- sched thread_list ;;
  match first with
  | None =>
      upd_sched (with_thread_list (Some t)) ;;;
      upd_thread t (with_next (Some t)) ;;;
      upd_sched (with_current (Some t))
  | Some first =>
      it <- find_last (Z.to_nat MAX_THREADS) first first ;;
      upd_thread it (with_next (Some t)) ;;;
      upd_thread t (with_next (Some first))
  end ;;;
  n <- sched thread_count ;;
  upd_sched (with_thread_count (n + 1)).

Definition thread_create (entry : Z) : K unit :=
  n <- sched thread_count ;;
  if n >=? MAX_THREADS then ret tt
  else
    let t := Z.to_nat n in
    let top := Z.land (stack_end n) (u64 (Z.lnot 0xF)) in
    sp <- store_words top [entry; 0; 0; 0; 0; 0; 0] ;;
    upd_thread t (fun _ => mkThread sp THREAD_RUNNING None None sp 0 0) ;;;
    thread_link t.

Definition thread_create_user (entry user_stack : Z) : K unit :=
  n <- sched thread_count ;;
  if n >=? MAX_THREADS then ret tt
  else
    let t := Z.to_nat n in
    let top := Z.land (stack_end n) (u64 (Z.lnot 0xF)) in
    gdt_set_kernel_stack top ;;;
    sp <- store_words top [sym_usermode_trampoline; 0; 0; entry; user_stack; 0; 0] ;;
    upd_thread t (fun _ => mkThread sp THREAD_RUNNING None None (stack_end n) user_stack 1) ;;;
    thread_link t.

(** The loop of find_next_runnable. *)
Fixpoint find_runnable (fuel : nat) (start : nat) (candidate : option nat) : K (option nat) :=
  if decide (candidate = Some start) then
    x <- get_thread start ;;
    ret (if decide (t_state x = THREAD_RUNNING) then Some start else None)
  else
    match fuel with
    | O => starve
    | S fuel =>
        c <- deref candidate ;;
        x <- get_thread c ;;
        if decide (t_state x = THREAD_RUNNING) then ret (Some c)
        else find_runnable fuel start (t_next x)
    end.

Definition find_next_runnable (start : nat) : K (option nat) :=
  x <- get_thread start ;;
  find_runnable (Z.to_nat MAX_THREADS) start (t_next x).

(** ** switch.asm *)

(** [save] stores the old stack pointer through the first argument; the return
    address is on the stack already. *)
Definition context_switch (save : Z -> K unit) (new_rsp : Z) : K unit :=
  push_regs [RBP; RBX; R12; R13; R14; R15] ;;;
  sp <- getr RSP ;;
  save sp ;;;
  setr RSP new_rsp ;;;
  pop_regs [R15; R14; R13; R12; RBX; RBP] ;;;
  pop_reg RIP.

(** True if the processor now runs another thread. *)
Definition thread_yield : K bool :=
  cur <- sched current ;;
  match cur with
  | None => ret false
  | Some prev =>
      next <- find_next_runnable prev ;;
      match next with
      | None => ret false
      | Some next =>
          upd_sched (with_current (Some next)) ;;;
          x <- get_thread next ;;
          (when negb (is_user_mode x =? 0) do gdt_set_kernel_stack (kernel_rsp x)) ;;;
          if decide (prev = next) then ret false
          else
            push sym_yield_return ;;;
            context_switch (fun sp => upd_thread prev (with_rsp sp)) (t_rsp x) ;;;
            ret true
      end
  end.

(** True if a thread was started; the stack pointer of the boot code is saved in
    a local variable that nothing reads. *)
Definition scheduler_start : K bool :=
  first <- sched thread_list ;;
  match first with
  | None => ret false
  | Some first =>
      upd_sched (with_current (Some first)) ;;;
      runnable <- find_next_runnable first ;;
      match runnable with
      | None => ret false
      | Some c =>
          upd_sched (with_current (Some c)) ;;;
          x <- get_thread c ;;
          (when negb (is_user_mode x =? 0) do gdt_set_kernel_stack (kernel_rsp x)) ;;;
          push sym_start_return ;;;
          context_switch (fun _ => ret tt) (t_rsp x) ;;;
          ret true
      end
  end.

Definition thread_current : K (option nat) := sched current.

(** ** usermode.asm *)

(** The part of jump_to_usermode that builds the frame for iretq. *)
Definition enter_frame : K unit :=
  setr RAX 0x23 ;;; push_reg RAX ;;;
  push_reg R11 ;;;
  f <- getr RFLAGS ;; iflag <- gets k_if ;; push (flags_word f iflag) ;;;
  pop_reg RAX ;;;
  f <- getr RAX ;; setr RAX (Z.lor f 0x200) ;;;
  push_reg RAX ;;;
  setr RAX 0x1B ;;; push_reg RAX ;;;
  push_reg R10 ;;;
  iretq.

Definition jump_to_usermode : K unit :=
  entry <- getr RDI ;; setr R10 entry ;;;
  stack <- getr RSI ;; setr R11 stack ;;;
  cli ;;;
  setr DS 0x23 ;;; setr ES 0x23 ;;; setr FS 0x23 ;;; setr GS 0x23 ;;;
  enter_frame.

Definition usermode_trampoline : K unit :=
  entry <- getr R12 ;; setr RDI entry ;;;
  stack <- getr R13 ;; setr RSI stack ;;;
  push sym_trampoline_return ;;;
  jump_to_usermode.
End thread.

(** ** The ring of threads *)

(** The [n] threads created so far form a ring in the order of their creation,
    and one of them is current. *)
Record ring (v : sched_vars) (n : nat) : Prop := {
  rg_len : length (threads v) = 8%nat;
  rg_count : thread_count v = Z.of_nat n;
  rg_max : (n <= 8)%nat;
  rg_first : thread_list v = if decide (n = 0%nat) then None else Some 0%nat;
  rg_current : match current v with None => n = 0%nat | Some c => (c < n)%nat end;
  rg_next : forall i, (i < n)%nat ->
    exists t, threads v !! i = Some t /\ t_next t = Some ((i + 1) `mod` n)%nat;
}.

Lemma ring_with_current v n c : ring v n -> (c < n)%nat -> ring (with_current (Some c) v) n.
Proof. by intros [H1 H2 H3 H4 H5 H6] Hc. Qed.

Definition running (t : Thread) : bool := bool_decide (t_state t = THREAD_RUNNING).
Definition runnable (v : sched_vars) (i : nat) : bool :=
  match threads v !! i with Some t => running t | None => false end.

(** The order in which the scheduler considers the threads, from [c] on: the
    others in turn, then [c] itself. *)
Definition rotation (c n : nat) : list nat := map (fun k => ((c + k) `mod` n)%nat) (seq 1 n).

(** Round robin: the first runnable thread in that order. *)
Definition round_robin (v : sched_vars) (c n : nat) : option nat :=
  List.find (runnable v) (rotation c n).

Lemma succ_mod i n : (i < n)%nat ->
  ((i + 1) `mod` n = if decide (i + 1 = n) then 0 else i + 1)%nat.
Proof.
  intros Hi. case_decide as E; [rewrite E; apply Nat.Div0.mod_same|]. apply Nat.mod_small. lia.
Qed.
Lemma rotation_step c k n : (0 < n)%nat ->
  (((c + k) `mod` n + 1) `mod` n = (c + S k) `mod` n)%nat.
Proof. intros Hn. rewrite Nat.Div0.add_mod_idemp_l. f_equal. lia. Qed.

Lemma rotation_back c k n : (c < n)%nat -> (k < n)%nat -> ((c + k) `mod` n = c -> k = 0)%nat.
Proof.
  intros Hc Hk E. destruct (decide (c + k < n)%nat) as [Hs|Hs].
  - rewrite Nat.mod_small in E; lia.
  - replace (c + k)%nat with (c + k - n + 1 * n)%nat in E by lia.
    rewrite Nat.Div0.mod_add, Nat.mod_small in E; lia.
Qed.
Lemma rotation_full c n : (c < n)%nat -> ((c + n) `mod` n = c)%nat.
Proof.
  intros Hc. replace (c + n)%nat with (c + 1 * n)%nat by lia. rewrite Nat.Div0.mod_add.
  by apply Nat.mod_small.
Qed.

Section scheduling.
Context {P : Platform}.
Implicit Types s : kstate.

Lemma get_thread_eq s i t : threads (k_sched s) !! i = Some t -> get_thread i s = Ret t s.
Proof. intros Hi. unfold get_thread, sched, bind, gets. by rewrite Hi. Qed.

Lemma upd_thread_eq s i t f : threads (k_sched s) !! i = Some t ->
  upd_thread i f s = Ret tt (set_sched (with_threads (<[i := f t]>)) s).
Proof. intros Hi. unfold upd_thread. by rewrite (bind_ret _ _ _ _ _ (get_thread_eq _ _ _ Hi)). Qed.

(** The whole round has been considered: [c] itself is left. *)
Lemma find_runnable_self fuel s c n :
  ring (k_sched s) n -> (c < n)%nat ->
  find_runnable fuel c (Some c) s
  = Ret (List.find (runnable (k_sched s)) [c]) s.
Proof.
  intros Hr Hc. destruct (rg_next _ _ Hr c Hc) as (t & Ht & _).
  destruct fuel; cbn [find_runnable List.find]; rewrite decide_True by done;
    rewrite (bind_ret _ _ _ _ _ (get_thread_eq _ _ _ Ht)); unfold ret, runnable, running; rewrite Ht;
    by case_decide; case_bool_decide.
Qed.

(** From candidate [c + k] on, the loop finds the first runnable thread. *)
Lemma find_runnable_eq fuel s c k n :
  ring (k_sched s) n -> (c < n)%nat -> (1 <= k <= n)%nat -> (n <= fuel + k)%nat ->
  find_runnable fuel c (Some ((c + k) `mod` n)%nat) s
  = Ret (List.find (runnable (k_sched s)) (map (fun k => ((c + k) `mod` n)%nat) (seq k (S n - k)))) s.
Proof.
  intros Hr Hc. revert k. induction fuel as [|fuel IH]; intros k Hk Hf.
  { assert (k = n) as -> by lia. replace (S n - n)%nat with 1%nat by lia. cbn [seq map].
    rewrite rotation_full by done. by apply (find_runnable_self _ _ _ n). }
  destruct (decide (k = n)) as [->|Hkn].
  { replace (S n - n)%nat with 1%nat by lia. cbn [seq map].
    rewrite rotation_full by done. by apply (find_runnable_self _ _ _ n). }
  cbn [find_runnable]. rewrite decide_False by (intros [= E]; apply rotation_back in E; lia).
  assert (Hlt : ((c + k) `mod` n < n)%nat) by (apply Nat.mod_upper_bound; lia).
  destruct (rg_next _ _ Hr _ Hlt) as (t & Ht & Hnx).
  replace (S n - k)%nat with (S (S n - S k)) by lia. cbn [seq map List.find].
  rewrite (bind_ret _ _ s ((c + k) `mod` n)%nat s) by done.
  rewrite (bind_ret _ _ _ _ _ (get_thread_eq _ _ _ Ht)).
  unfold runnable at 1, running. rewrite Ht. case_decide; case_bool_decide; try done.
  rewrite Hnx, rotation_step by lia. apply IH; lia.
Qed.

(** The loop of thread_create ends at the last thread of the ring. *)
Lemma find_last_eq fuel s i n :
  ring (k_sched s) n -> (i < n)%nat -> (n <= fuel + i)%nat ->
  find_last fuel 0 i s = Ret (n - 1)%nat s.
Proof.
  intros Hr. revert i. induction fuel as [|fuel IH]; intros i Hi Hf; [lia|]. cbn [find_last].
  destruct (rg_next _ _ Hr i Hi) as (t & Ht & Hnx).
  rewrite (bind_ret _ _ _ _ _ (get_thread_eq _ _ _ Ht)), Hnx, succ_mod by done.
  destruct (decide (i + 1 = n)%nat) as [E|E].
  - rewrite decide_True by done. unfold ret. f_equal. lia.
  - rewrite decide_False by (intros [=]; lia).
    rewrite (bind_ret _ _ s (i + 1)%nat s) by done. apply IH; lia.
Qed.

(** find_next_runnable returns (its loop is bounded by the ring) and finds the
    thread round robin prescribes. *)
Lemma find_next_runnable_eq s c n :
  ring (k_sched s) n -> (c < n)%nat ->
  find_next_runnable c s = Ret (round_robin (k_sched s) c n) s.
Proof.
  intros Hr Hc. destruct (rg_next _ _ Hr c Hc) as (t & Ht & Hnx).
  unfold find_next_runnable. rewrite (bind_ret _ _ _ _ _ (get_thread_eq _ _ _ Ht)), Hnx.
  rewrite find_runnable_eq with (n := n); [|done|done|lia|].
  - unfold round_robin, rotation. by replace (S n - 1)%nat with n by lia.
  - pose proof (rg_max _ _ Hr). change (Z.to_nat MAX_THREADS) with 8%nat. lia.
Qed.
End scheduling.

(** ** Round robin *)

Lemma in_rotation c n i : (i < n)%nat -> In i (rotation c n).
Proof.
  intros Hi. unfold rotation. apply in_map_iff.
  set (d := ((i + n - c `mod` n) `mod` n)%nat).
  assert (Hd : (d < n)%nat) by (apply Nat.mod_upper_bound; lia).
  assert (Hc : (c `mod` n < n)%nat) by (apply Nat.mod_upper_bound; lia).
  assert (E : ((c + d) `mod` n = i)%nat).
  { unfold d. rewrite Nat.Div0.add_mod_idemp_r. rewrite <- (Nat.Div0.add_mod_idemp_l c).
    replace (c `mod` n + (i + n - c `mod` n))%nat with (i + 1 * n)%nat by lia.
    rewrite Nat.Div0.mod_add. by apply Nat.mod_small. }
  destruct (decide (d = 0)%nat) as [E0|E0].
  - exists n. split; [|apply in_seq; lia]. rewrite E0, Nat.add_0_r in E.
    replace (c + n)%nat with (c + 1 * n)%nat by lia. by rewrite Nat.Div0.mod_add.
  - exists d. split; [done|apply in_seq; lia].
Qed.

Lemma rotation_lt c n i : In i (rotation c n) -> (i < n)%nat.
Proof.
  unfold rotation. intros (k & <- & Hk)%in_map_iff. apply in_seq in Hk.
  apply Nat.mod_upper_bound. lia.
Qed.

(** [None] only if no thread is runnable. *)
Lemma round_robin_none v c n :
  round_robin v c n = None -> forall i, (i < n)%nat -> runnable v i = false.
Proof. intros H i Hi. eapply find_none; [exact H|by apply in_rotation]. Qed.

Lemma find_split {A} (f : A -> bool) l x :
  List.find f l = Some x -> exists l1 l2, l = l1 ++ x :: l2 /\ f x = true /\ forall y, In y l1 -> f y = false.
Proof.
  induction l as [|a l IH]; simpl; [done|]. destruct (f a) eqn:E.
  - intros [= ->]. by exists [], l.
  - intros (l1 & l2 & -> & Hx & Hl)%IH. exists (a :: l1), l2. split_and!; [done|done|].
    intros y [<-|Hy]; auto.
Qed.

(** How many threads the scheduler passes over before it considers [i] from [c]. *)
Definition distance (c i n : nat) : nat := ((i + n - c - 1) `mod` n)%nat.

Lemma distance_rotation c k n : (c < n)%nat -> (k < n)%nat ->
  distance c ((c + S k) `mod` n) n = k.
Proof.
  intros Hc Hk. unfold distance. destruct (decide (c + S k < n)%nat) as [Hs|Hs].
  - rewrite (Nat.mod_small (c + S k)) by done.
    replace (c + S k + n - c - 1)%nat with (k + 1 * n)%nat by lia.
    rewrite Nat.Div0.mod_add. by apply Nat.mod_small.
  - replace (c + S k)%nat with (c + S k - n + 1 * n)%nat at 1 by lia.
    rewrite Nat.Div0.mod_add, (Nat.mod_small (c + S k - n)) by lia.
    replace (c + S k - n + n - c - 1)%nat with k by lia. by apply Nat.mod_small.
Qed.

Lemma rotation_nth c n k x :
  nth_error (rotation c n) k = Some x -> (k < n)%nat /\ x = ((c + S k) `mod` n)%nat.
Proof.
  unfold rotation. rewrite nth_error_map. intros Hx. assert (k < n)%nat as Hk.
  { rewrite <- (length_seq n 1). apply nth_error_Some. by destruct (nth_error _ _). }
  split; [done|]. rewrite nth_error_seq in Hx. destruct (Nat.ltb_spec k n); [|lia].
  simpl in Hx. by injection Hx as <-.
Qed.

(** The thread found is runnable, and every other runnable thread has come nearer
    to its turn. *)
Lemma round_robin_some v c n j :
  (c < n)%nat -> round_robin v c n = Some j ->
  (j < n)%nat /\ runnable v j = true /\
  (forall i, (i < n)%nat -> runnable v i = true -> i = j \/ (distance j i n < distance c i n)%nat).
Proof.
  intros Hc H. pose proof (find_some _ _ H) as [Hin Hrun]. pose proof (rotation_lt _ _ _ Hin) as Hj.
  split_and!; [done|done|]. intros i Hi Hri. apply find_split in H as (l1 & l2 & El & _ & Hl1).
  pose proof (in_rotation c n i Hi) as Hini. rewrite El in Hini.
  apply in_app_or in Hini as [Hini|[->|Hini]]; [by rewrite (Hl1 i Hini) in Hri|by left|right].
  apply In_nth_error in Hini as [k2 Hk2].
  destruct (rotation_nth c n (length l1) j) as [Hj1 Ej].
  { rewrite El, nth_error_app2 by lia. by rewrite Nat.sub_diag. }
  destruct (rotation_nth c n (length l1 + S k2)%nat i) as [Hi1 Ei].
  { rewrite El, nth_error_app2 by lia. by replace (length l1 + S k2 - length l1)%nat with (S k2) by lia. }
  assert (E2 : i = ((j + S k2) `mod` n)%nat).
  { rewrite Ei, Ej, Nat.Div0.add_mod_idemp_l. f_equal. lia. }
  assert (distance c i n = length l1 + S k2)%nat as -> by (rewrite Ei; by apply distance_rotation).
  rewrite E2, distance_rotation; lia.
Qed.

Lemma round_robin_nobody v c n : (c < n)%nat ->
  (forall i, (i < n)%nat -> runnable v i = false) -> round_robin v c n = None.
Proof.
  intros Hc H. destruct (round_robin v c n) as [i|] eqn:E; [|done].
  destruct (round_robin_some v c n i Hc E) as (Hi & Hr & _). by rewrite H in Hr.
Qed.
(** The only runnable thread other than the caller is chosen. *)
Lemma round_robin_only v c n j : (c < n)%nat -> (j < n)%nat -> j <> c -> runnable v j = true ->
  (forall i, (i < n)%nat -> i <> j -> i <> c -> runnable v i = false) -> round_robin v c n = Some j.
Proof.
  intros Hc Hj Hne Hr H. destruct (round_robin v c n) as [i|] eqn:E.
  2:{ by rewrite (round_robin_none v c n E j Hj) in Hr. }
  destruct (round_robin_some v c n i Hc E) as (Hi & Hri & Hd). f_equal.
  destruct (decide (i = j)) as [|Hij]; [done|]. destruct (decide (i = c)) as [->|Hic]; [|by rewrite H in Hri].
  destruct (Hd j Hj Hr); [done|lia].
Qed.

(** ** The effect of yielding on the scheduler's variables *)

Section yielding.
Context {P : Platform}.
Implicit Types s : kstate.

(** Pushes and pops do not touch the kernel's variables. *)
Lemma push_frame v s : wp (push v) s (fun _ s' => cpu_frame s s').
Proof. unfold push, getr, setr, wr64. wp_steps. by destruct s. Qed.
Lemma push_rsp v s : wp (push v) s (fun _ s' => k_regs s' RSP = u64 (k_regs s RSP - 8)).
Proof. unfold push, getr, setr, wr64. wp_steps. apply rset_eq. Qed.
Lemma push_regs_frame l s : wp (push_regs l) s (fun _ s' => cpu_frame s s').
Proof.
  revert s. induction l as [|r l IH]; intros s; cbn [push_regs]; [apply wp_ret, cpu_frame_refl|].
  unfold push_reg, getr. wp_steps. wp_call push_frame. intros _ s1 H1.
  wp_call IH. intros _ s2 H2. by eapply cpu_frame_trans.
Qed.
Lemma pop_regs_frame l s : wp (pop_regs l) s (fun _ s' => cpu_frame s s').
Proof.
  revert s. induction l as [|r l IH]; intros s; cbn [pop_regs]; [apply wp_ret, cpu_frame_refl|].
  unfold pop_reg, pop, getr, setr, rd64. wp_steps. wp_call IH. intros _ s2 H2.
  eapply cpu_frame_trans; [|exact H2]. by destruct s.
Qed.

Lemma cpu_frame_sched s s' : cpu_frame s s' -> k_sched s' = k_sched s /\ k_gdt s' = k_gdt s.
Proof. unfold cpu_frame. by intros ->. Qed.

(** The thread table when thread [c] has saved its stack pointer. *)
Definition saved_rsp (c : nat) (r : Z) (l : list Thread) : list Thread :=
  alter (with_rsp r) c l.

Lemma u64_sub a b : u64 (u64 a - b) = u64 (a - b).
Proof. unfold u64. apply Zminus_mod_idemp_l. Qed.

Lemma push_regs_rsp l s : l <> [] ->
  wp (push_regs l) s (fun _ s' => k_regs s' RSP = u64 (k_regs s RSP - 8 * Z.of_nat (length l))).
Proof.
  revert s. induction l as [|r l IH]; intros s Hne; [done|]. cbn [push_regs length].
  unfold push_reg, push, getr, setr, wr64. wp_steps. destruct (decide (l = [])) as [->|Hl].
  - apply wp_ret. cbn. rewrite rset_eq. f_equal.
  - wp_call IH; [done|]. intros _ s' ->. cbn [k_regs set_mem set_regs]. rewrite rset_eq, u64_sub. f_equal. lia.
Qed.

Lemma context_switch_sched s c t new_rsp :
  threads (k_sched s) !! c = Some t ->
  wp (context_switch (fun sp => upd_thread c (with_rsp sp)) new_rsp) s (fun _ s' =>
    k_gdt s' = k_gdt s /\ k_sched s' = with_threads (saved_rsp c (u64 (k_regs s RSP - 48))) (k_sched s)).
Proof.
  intros Ht. unfold context_switch, pop_reg, getr, setr. apply wp_bind.
  eapply wp_mono; [apply wp_conj; [apply push_regs_frame|by apply push_regs_rsp]|].
  intros _ s1 [[Hs1 Hg1]%cpu_frame_sched Hr1]. wp_steps.
  eapply wp_eq; [apply upd_thread_eq; by rewrite Hs1|]. wp_steps.
  wp_call pop_regs_frame. intros _ s2 [Hs2 Hg2]%cpu_frame_sched.
  unfold pop, getr, setr, rd64. wp_steps. cbn [k_gdt k_sched set_regs].
  rewrite Hg2, Hs2. split; [by cbn|]. cbn [k_sched set_sched set_regs].
  rewrite Hs1, Hr1. change (8 * Z.of_nat (length [RBP; RBX; R12; R13; R14; R15])) with 48.
  unfold with_threads, saved_rsp. f_equal.
  apply list_eq. intros i. destruct (decide (i = c)) as [->|Hne].
  - rewrite list_lookup_alter_eq, list_lookup_insert_eq, Ht; [done|]. by eapply lookup_lt_Some.
  - by rewrite list_lookup_alter_ne, list_lookup_insert_ne.
Qed.

Lemma saved_rsp_lookup c r l i :
  saved_rsp c r l !! i = (if decide (i = c) then with_rsp r <$> l !! i else l !! i).
Proof.
  unfold saved_rsp. case_decide as E; [rewrite E; apply list_lookup_alter_eq|].
  by apply list_lookup_alter_ne.
Qed.

Lemma saved_rsp_runnable c r v i : runnable (with_threads (saved_rsp c r) v) i = runnable v i.
Proof.
  unfold runnable. cbn [threads with_threads]. rewrite saved_rsp_lookup.
  case_decide; [|done]. by destruct (threads v !! i).
Qed.

(** The scheduler's variables after [c] yielded to [j], its stack pointer saved as [r]. *)
Definition switched (r : Z) (v : sched_vars) (c j : nat) (v' : sched_vars) : Prop :=
  v' = with_current (Some j) (if decide (c = j) then v else with_threads (saved_rsp c r) v).

Lemma switched_ring r v n c j v' : ring v n -> (j < n)%nat -> switched r v c j v' -> ring v' n.
Proof.
  intros [H1 H2 H3 H4 H5 H6] Hj ->. destruct (decide (c = j)).
  - constructor; cbn [threads thread_count thread_list current with_current]; done.
  - constructor; cbn [threads thread_count thread_list current with_current with_threads]; try done.
    + unfold saved_rsp. by rewrite length_alter.
    + intros i Hi. destruct (H6 i Hi) as (t & Ht & Hn). rewrite saved_rsp_lookup.
      rewrite Ht. destruct (decide (i = c)). 1: by exists (with_rsp r t). by exists t.
Qed.

Lemma switched_runnable r v c j v' i : switched r v c j v' -> runnable v' i = runnable v i.
Proof.
  intros ->. destruct (decide (c = j)); [done|]. apply saved_rsp_runnable.
Qed.

(** The stack pointer thread_yield saves: below the return address of context_switch
    lie the six callee-saved registers. *)
Definition yield_rsp s : Z := u64 (k_regs s RSP - 56).

(** What thread_yield does to the kernel's variables, for the current thread [c]: the
    thread round robin prescribes becomes current, with its kernel stack in the TSS if
    it is a user thread; with no runnable thread, nothing. *)
Definition yielded s n c (b : bool) s' : Prop :=
  match round_robin (k_sched s) c n with
  | None => b = false /\ s' = s
  | Some j =>
      b = negb (bool_decide (c = j)) /\ switched (yield_rsp s) (k_sched s) c j (k_sched s') /\
      forall t, threads (k_sched s) !! j = Some t ->
        rsp0 (tss (k_gdt s')) =
        if is_user_mode t =? 0 then rsp0 (tss (k_gdt s)) else kernel_rsp t
  end.

Lemma thread_yield_spec s n c :
  ring (k_sched s) n -> current (k_sched s) = Some c ->
  wp thread_yield s (yielded s n c).
Proof.
  intros Hr Hcur. pose proof (rg_current _ _ Hr) as Hc. rewrite Hcur in Hc.
  unfold thread_yield, sched. wp_steps. rewrite Hcur. apply wp_bind.
  eapply wp_eq; [by apply find_next_runnable_eq|]. unfold yielded.
  destruct (round_robin (k_sched s) c n) as [j|] eqn:Ej; [|by apply wp_ret].
  destruct (round_robin_some _ _ _ _ Hc Ej) as (Hj & _ & _).
  destruct (rg_next _ _ Hr j Hj) as (t & Ht & _). destruct (rg_next _ _ Hr c Hc) as (tc & Htc & _).
  unfold upd_sched. wp_steps.
  eapply wp_eq; [apply get_thread_eq; exact Ht|].
  set (s0 := set_sched (with_current (Some j)) s).
  assert (Hg : wp (when negb (is_user_mode t =? 0) do gdt_set_kernel_stack (kernel_rsp t)) s0 (fun _ s1 =>
    k_sched s1 = k_sched s0 /\ k_regs s1 = k_regs s /\ rsp0 (tss (k_gdt s1)) =
      if is_user_mode t =? 0 then rsp0 (tss (k_gdt s)) else kernel_rsp t)).
  { destruct (is_user_mode t =? 0); cbn [negb]; [by apply wp_ret|by apply wp_modify]. }
  apply wp_bind. eapply wp_mono; [exact Hg|]. intros _ s1 (Hs1 & Hr1 & Hg1).
  case_decide as Hcj.
  - subst j. apply wp_ret. split_and!; [by rewrite bool_decide_true| |].
    + unfold switched. rewrite decide_True by done. by rewrite Hs1.
    + intros t' Ht'. rewrite Ht in Ht'. by injection Ht' as <-.
  - apply wp_bind. eapply wp_mono; [apply wp_conj; [apply push_frame|apply push_rsp]|].
    intros _ s2 [[Hs2 Hg2]%cpu_frame_sched Hr2]. apply wp_bind.
    wp_call (context_switch_sched s2 c tc).
    { rewrite Hs2, Hs1. exact Htc. }
    intros _ s3 (Hg3 & Hs3). apply wp_ret. split_and!.
    + by rewrite bool_decide_false.
    + unfold switched, yield_rsp. rewrite decide_False by done. rewrite Hs3, Hs2, Hs1, Hr2, Hr1, u64_sub.
      by replace (k_regs s RSP - 8 - 48) with (k_regs s RSP - 56) by lia.
    + intros t' Ht'. rewrite Ht in Ht'. injection Ht' as <-. by rewrite Hg3, Hg2, Hg1.
Qed.

(** ** Yielding over and over *)

(** Each thread that becomes current yields at once. *)
Fixpoint yields (k : nat) : K unit :=
  match k with O => ret tt | S k => thread_yield ;;; yields k end.

Lemma yields_reach d s n c i :
  ring (k_sched s) n -> current (k_sched s) = Some c -> (i < n)%nat ->
  runnable (k_sched s) i = true -> (distance c i n <= d)%nat ->
  exists k, (1 <= k <= S d)%nat /\ wp (yields k) s (fun _ s' =>
    current (k_sched s') = Some i /\ ring (k_sched s') n).
Proof.
  revert s c. induction d as [|d IH]; intros s c Hr Hcur Hi Hri Hd.
  all: pose proof (rg_current _ _ Hr) as Hc; rewrite Hcur in Hc.
  all: destruct (round_robin (k_sched s) c n) as [j|] eqn:Ej;
    [|by rewrite (round_robin_none _ _ _ Ej i Hi) in Hri].
  all: destruct (round_robin_some _ _ _ _ Hc Ej) as (Hj & _ & Hnear).
  all: assert (Hy : wp thread_yield s (fun _ s' => switched (yield_rsp s) (k_sched s) c j (k_sched s')))
    by (eapply wp_mono; [by apply thread_yield_spec|]; unfold yielded; rewrite Ej; by intros b s' (_ & ? & _)).
  all: assert (Hone : i = j -> wp (yields 1) s (fun _ s' =>
    current (k_sched s') = Some i /\ ring (k_sched s') n)).
  1,3: intros Eij; cbn [yields]; apply wp_bind; eapply wp_mono; [exact Hy|];
    intros b s1 H1; cbv beta in H1; apply wp_ret; rewrite Eij; split; [|by eapply switched_ring];
    rewrite H1; by destruct (decide (c = j)).
  - exists 1%nat. split; [lia|]. apply Hone.
    destruct (Hnear i Hi Hri) as [?|?]; [done|lia].
  - destruct (Hnear i Hi Hri) as [?|Hlt]; [exists 1%nat; split; [lia|]; by apply Hone|].
    destruct (wp_inv _ _ _ Hy) as (b & s1 & E1 & H1).
    destruct (IH s1 j) as (k & Hk & Hw); [by eapply switched_ring| |done| |lia|].
    + rewrite H1. by destruct (decide (c = j)).
    + by rewrite (switched_runnable _ _ _ _ _ _ H1).
    + exists (S k). split; [lia|]. cbn [yields]. apply wp_bind. by eapply wp_eq.
Qed.
End yielding.

(** ** Switching stacks *)

Section switching.
Context {P : Platform}.
Implicit Types s : kstate.

(** The registers a context switch keeps, lowest address first, and the return
    address above them. *)
Definition callee_saved : list reg := [R15; R14; R13; R12; RBX; RBP].

(** A stack window apart from another one in memory. *)
Definition windows_apart (lo hi lo2 hi2 : Z) : Prop :=
  kmap lo + (hi - lo) <= kmap lo2 \/ kmap lo2 + (hi2 - lo2) <= kmap lo.

(** A suspended thread: the words [ws] at its saved stack pointer. *)
Definition suspended (lo hi sp : Z) (ws : list Z) (m : gmap Z Z) : Prop :=
  lo <= sp /\ sp + 8 * Z.of_nat (length ws) <= hi /\
  Forall (fun v => 0 <= v < 18446744073709551616) ws /\
  forall i w, ws !! i = Some w -> load64 (kmap (sp + 8 * Z.of_nat i)) m = w.

Lemma suspended_stk lo hi s sp ws :
  suspended lo hi sp ws (k_mem s) -> k_regs s RSP = sp -> stk lo hi s ws.
Proof. intros H <-. exact H. Qed.
Lemma stk_suspended lo hi s ws : stk lo hi s ws -> suspended lo hi (k_regs s RSP) ws (k_mem s).
Proof. done. Qed.

Lemma suspended_other lo hi lo2 hi2 top sp ws m m' :
  window_ok lo2 hi2 -> windows_apart lo hi lo2 hi2 -> lo <= top <= hi ->
  mem_above lo top m m' -> suspended lo2 hi2 sp ws m -> suspended lo2 hi2 sp ws m'.
Proof.
  intros (_ & _ & Hk) Ha Ht Hm (H1 & H2 & H3 & H4). split_and!; [done..|].
  intros i w Hi. rewrite <- (H4 i w Hi). apply load_le_ext. intros a Hx. apply Hm.
  pose proof (lookup_lt_Some _ _ _ Hi). rewrite (Hk (sp + 8 * Z.of_nat i)) in Hx by lia.
  unfold windows_apart in Ha. lia.
Qed.

(** What the assembly does to registers and memory, whatever [save] does to the
    kernel's variables: the old context lies on the old stack, the new one is
    loaded. *)
Lemma context_switch_regs s lo hi vs lo2 hi2 sp ws ra (save : Z -> K unit) new_rsp :
  window_ok lo hi -> window_ok lo2 hi2 -> windows_apart lo hi lo2 hi2 ->
  stk lo hi s vs -> lo + 48 <= k_regs s RSP -> word_regs (k_regs s) callee_saved ->
  suspended lo2 hi2 sp (ws ++ [ra]) (k_mem s) -> length ws = 6%nat -> new_rsp = sp ->
  (forall x s1, k_sched s1 = k_sched s ->
     wp (save x) s1 (fun _ s' => k_regs s' = k_regs s1 /\ k_mem s' = k_mem s1)) ->
  wp (context_switch save new_rsp) s (fun _ s' =>
    suspended lo hi (k_regs s RSP - 48) (map (k_regs s) callee_saved ++ vs) (k_mem s') /\
    (forall r, k_regs s' r = match r with
       | RIP => ra | RSP => sp + 56 | r => load_regs callee_saved ws (k_regs s) r end) /\
    mem_above lo (k_regs s RSP) (k_mem s) (k_mem s')).
Proof.
  intros Hw Hw2 Ha Hs Hroom Hreg Hsus Hlen -> Hsave. unfold context_switch. apply wp_bind.
  wp_call (wp_push_regs lo hi Hw [RBP; RBX; R12; R13; R14; R15] s vs); [|done|cbn [length]; lia| |].
  { by apply (bool_decide_unpack _). }
  { unfold word_regs, callee_saved in *. rewrite !Forall_cons in *. tauto. }
  intros _ s1 (Hs1 & Hr1 & Hsp1 & Hf1 & Hm1). cbn [length] in Hsp1. unfold getr. wp_steps.
  wp_call Hsave; [by apply cpu_frame_sched|]. intros _ s2 (Hr2 & Hm2). unfold setr. wp_steps.
  assert (Hsus2 : suspended lo2 hi2 sp (ws ++ [ra]) (k_mem s2)).
  { rewrite Hm2. eapply suspended_other; [done|done| |done|done]. destruct Hs as (? & ? & _). lia. }
  wp_call (wp_pop_regs lo2 hi2 Hw2 callee_saved _ ws [ra]); [|by eapply suspended_stk; [exact Hsus2|apply rset_eq]| |].
  { by apply (bool_decide_unpack _). }
  { by rewrite Hlen. }
  intros _ s3 (Hs3 & Hr3 & Hsp3 & E3). cbn [k_regs set_regs length callee_saved] in Hsp3. rewrite rset_eq in Hsp3.
  unfold pop_reg. apply wp_bind. wp_call (wp_pop lo2 hi2 Hw2); [exact Hs3|].
  intros x s4 (-> & _ & E4). unfold setr. wp_steps. cbn [k_regs k_mem set_regs].
  assert (Hm : k_mem s4 = k_mem s1) by (rewrite E4, E3; cbn; by rewrite Hm2).
  rewrite Hm. split_and!.
  - apply stk_suspended in Hs1. rewrite Hsp1 in Hs1.
    by replace (k_regs s RSP - 8 * Z.of_nat 6) with (k_regs s RSP - 48) in Hs1 by lia.
  - destruct Hsus as (H1 & H2 & _). rewrite length_app, Hlen in H2. cbn [length] in H2.
    destruct Hw2 as (? & ? & _). intros r. unfold rset at 1.
    destruct (decide (RIP = r)) as [<-|Hrip]; [done|].
    rewrite E4. cbn [k_regs set_regs].
    destruct (decide (r = RSP)) as [->|Hrsp]; [rewrite rset_eq, u64_small by lia; lia|].
    rewrite rset_ne, Hr3 by done. cbn [k_regs set_regs].
    rewrite (load_regs_ext callee_saved ws _ (k_regs s)); [by destruct r|].
    rewrite rset_ne by done. rewrite Hr2. by apply Hr1.
  - done.
Qed.

(** Saving the old stack pointer in the thread table touches neither. *)
Lemma upd_thread_regs s c t f : threads (k_sched s) !! c = Some t ->
  wp (upd_thread c f) s (fun _ s' => k_regs s' = k_regs s /\ k_mem s' = k_mem s).
Proof. intros Ht. eapply wp_eq; [by apply upd_thread_eq|done]. Qed.

(** ** Building the first frame of a thread *)

Lemma store_words_spec lo hi sp ws s :
  window_ok lo hi -> lo + 8 * Z.of_nat (length ws) <= sp -> sp <= hi ->
  Forall (fun v => 0 <= v < 18446744073709551616) ws ->
  wp (store_words sp ws) s (fun r s' =>
    r = sp - 8 * Z.of_nat (length ws) /\ suspended lo hi r (rev ws) (k_mem s') /\
    s' = set_mem (fun _ => k_mem s') s /\ mem_above lo sp (k_mem s) (k_mem s')).
Proof.
  intros Hw Hlo Hhi Hws.
  enough (H : forall vs, suspended lo hi sp vs (k_mem s) ->
    wp (store_words sp ws) s (fun r s' =>
      r = sp - 8 * Z.of_nat (length ws) /\ suspended lo hi r (rev ws ++ vs) (k_mem s') /\
      s' = set_mem (fun _ => k_mem s') s /\ mem_above lo sp (k_mem s) (k_mem s'))).
  { specialize (H []). rewrite app_nil_r in H. apply H. split_and!; [lia|simpl; lia|constructor|].
    intros i w Hi. by rewrite lookup_nil in Hi. }
  revert sp s Hlo Hhi. induction ws as [|w ws IH]; intros sp s Hlo Hhi vs Hvs; cbn [store_words length] in *.
  { apply wp_ret. cbn [rev app]. split_and!; [lia|by replace (sp - 8 * Z.of_nat 0) with sp by lia|by destruct s|done]. }
  apply Forall_cons in Hws as [Hw0 Hws]. unfold wr64. wp_steps.
  pose proof Hw as (W1 & W2 & W3). rewrite u64_small by lia.
  destruct Hvs as (V1 & V2 & V3 & V4).
  wp_call (IH Hws (sp - 8) _ ltac:(lia) ltac:(lia) (w :: vs)).
  { split_and!; [lia|cbn [length]; lia|by constructor|]. intros i x Hi. cbn [k_mem set_mem].
    destruct i as [|i].
    - injection Hi as <-. rewrite Z.add_0_r. by apply load_store64_eq.
    - simpl in Hi. pose proof (lookup_lt_Some _ _ _ Hi).
      replace (sp - 8 + 8 * Z.of_nat (S i)) with (sp + 8 * Z.of_nat i) by lia.
      rewrite load_store64_ne; [by apply V4|].
      rewrite (W3 (sp - 8)), (W3 (sp + 8 * Z.of_nat i)) by lia. lia. }
  intros r s' (-> & Hsus & Hf & Hm). split_and!.
  - lia.
  - cbn [rev]. by rewrite <- app_assoc.
  - by rewrite Hf.
  - intros a Hx. rewrite Hm by lia. cbn [k_mem set_mem]. unfold store64.
    apply mget_store_le_out. rewrite (W3 (sp - 8)) by lia. lia.
Qed.

(** The static array of kernel stacks: aligned, mapped in one piece. *)
Definition stacks_ok : Prop :=
  sym_stacks mod 16 = 0 /\ window_ok sym_stacks (sym_stacks + STACK_SIZE * MAX_THREADS).

(** The stack of thread [i]. *)
Definition stack_lo (i : nat) : Z := sym_stacks + STACK_SIZE * Z.of_nat i.
Definition stack_hi (i : nat) : Z := sym_stacks + STACK_SIZE * (Z.of_nat i + 1).

Lemma stack_window i : stacks_ok -> (i < 8)%nat -> window_ok (stack_lo i) (stack_hi i).
Proof.
  intros (_ & W1 & W2 & W3) Hi. unfold stack_lo, stack_hi, STACK_SIZE, MAX_THREADS in *.
  split_and!; [lia|lia|]. intros x Hx.
  rewrite (W3 x), (W3 (sym_stacks + 4096 * Z.of_nat i)) by lia. lia.
Qed.

Lemma stacks_apart i j : stacks_ok -> (i < 8)%nat -> (j < 8)%nat -> i <> j ->
  windows_apart (stack_lo i) (stack_hi i) (stack_lo j) (stack_hi j).
Proof.
  intros (_ & W1 & W2 & W3) Hi Hj Hne. unfold windows_apart, stack_lo, stack_hi, STACK_SIZE, MAX_THREADS in *.
  rewrite (W3 (sym_stacks + 4096 * Z.of_nat i)), (W3 (sym_stacks + 4096 * Z.of_nat j)) by lia. lia.
Qed.

Lemma stack_top i : stacks_ok -> (i < 8)%nat ->
  stack_end (Z.of_nat i) = stack_hi i /\
  Z.land (stack_end (Z.of_nat i)) (u64 (Z.lnot 0xF)) = stack_hi i.
Proof.
  intros (Ha & W1 & W2 & _) Hi. unfold STACK_SIZE, MAX_THREADS in *.
  assert (E : stack_end (Z.of_nat i) = stack_hi i).
  { unfold stack_end, stack_hi, STACK_SIZE. apply u64_small. lia. }
  split; [done|]. rewrite E.
  change (u64 (Z.lnot 0xF)) with (Z.ldiff (Z.ones 64) (Z.ones 4)).
  rewrite Z.ldiff_land, Z.land_assoc, Z.land_ones, Z.mod_small by
    (lia || (unfold stack_hi, STACK_SIZE; change (2 ^ 64) with 18446744073709551616; lia)).
  rewrite <- Z.ldiff_land, Z.ldiff_ones_r, Z.shiftl_mul_pow2, Z.shiftr_div_pow2 by lia.
  change (2 ^ 4) with 16. unfold stack_hi, STACK_SIZE. zlia.
Qed.
End switching.
