(* ===== verification/ThreadTheorems.v ===== *)
(** * Threads: creation, first dispatch, and the properties of the scheduler *)
From S2P Require Import Prelude Memory State Demo Cpu Gdt Idt Thread.

(** ** Entering the ring *)

Section create.
Context {P : Platform}.
Implicit Types s : kstate.

(** What linking thread [n] leaves: a ring of [S n] threads that differ from
    the old ones only in their [next] fields. *)
Record linked (v : sched_vars) (n : nat) (v' : sched_vars) : Prop := {
  lk_ring : ring v' (S n);
  lk_current : current v' = if decide (n = 0%nat) then Some 0%nat else current v;
  lk_threads : forall i t, threads v !! i = Some t ->
    exists nx, threads v' !! i = Some (with_next nx t);
  lk_ipc : ports v' = ports v /\ port_count v' = port_count v /\
    message_pool v' = message_pool v /\ message_pool_next v' = message_pool_next v;
}.

Lemma with_next_id t : with_next (t_next t) t = t.
Proof. by destruct t. Qed.

Lemma thread_link_spec s n :
  ring (k_sched s) n -> (n < 8)%nat ->
  wp (thread_link n) s (fun _ s' =>
    linked (k_sched s) n (k_sched s') /\ s' = set_sched (fun _ => k_sched s') s).
Proof.
  intros Hr Hn. pose proof Hr as [H1 H2 H3 H4 H5 H6].
  destruct (lookup_lt_is_Some_2 (threads (k_sched s)) n) as [tn Htn]; [lia|].
  unfold thread_link. unfold sched, upd_sched. wp_steps. rewrite H4.
  destruct (decide (n = 0%nat)) as [->|Hn0].
  - wp_steps. eapply wp_eq; [apply upd_thread_eq; exact Htn|]. wp_steps.
    split; [|by destruct s]. constructor; cbn [k_sched set_sched].
    + constructor; cbn; [by rewrite length_insert|by rewrite H2|lia|done|lia|].
      intros i Hi. assert (i = 0%nat) as -> by lia. exists (with_next (Some 0%nat) tn).
      by rewrite list_lookup_insert_eq by lia.
    + by rewrite decide_True.
    + intros i t Ht. cbn. destruct (decide (i = 0%nat)) as [->|].
      * exists (Some 0%nat). rewrite list_lookup_insert_eq by lia. congruence.
      * exists (t_next t). by rewrite list_lookup_insert_ne, with_next_id.
    + done.
  - assert (Hlast : find_last (Z.to_nat MAX_THREADS) 0 0 s = Ret (n - 1)%nat s)
      by (apply find_last_eq; [done|lia|change (Z.to_nat MAX_THREADS) with 8%nat; lia]).
    apply wp_bind. eapply wp_eq; [exact Hlast|]. clear Hlast.
    destruct (H6 (n - 1)%nat ltac:(lia)) as (tl & Htl & _).
    apply wp_bind. eapply wp_eq; [apply upd_thread_eq; exact Htl|].
    eapply wp_eq; [apply upd_thread_eq; cbn; rewrite list_lookup_insert_ne by lia; exact Htn|].
    wp_steps. split; [|by destruct s]. constructor; cbn [k_sched set_sched].
    + constructor; cbn -[Z.of_nat Nat.modulo Nat.add]; [by rewrite !length_insert|rewrite H2; lia|lia|by rewrite H4, decide_False by lia
        |destruct (current (k_sched s)); lia|].
      intros i Hi. destruct (decide (i = n)) as [->|Hin].
      { eexists. rewrite list_lookup_insert_eq by (rewrite length_insert; lia). split; [done|].
        change (t_next _) with (Some 0%nat). rewrite succ_mod by lia. by rewrite decide_True by lia. }
      rewrite list_lookup_insert_ne by lia. rewrite succ_mod, decide_False by lia.
      destruct (decide (i = n - 1)%nat) as [->|Hil].
      { eexists. rewrite list_lookup_insert_eq by lia. split; [done|].
        change (t_next _) with (Some n). f_equal. lia. }
      rewrite list_lookup_insert_ne by lia. destruct (H6 i ltac:(lia)) as (t & Ht & Hnx).
      exists t. split; [done|]. by rewrite Hnx, succ_mod, decide_False by lia.
    + by rewrite decide_False.
    + intros i t Ht. cbn. destruct (decide (i = n)) as [->|Hin].
      { exists (Some 0%nat). rewrite list_lookup_insert_eq by (rewrite length_insert; lia). congruence. }
      rewrite list_lookup_insert_ne by lia. destruct (decide (i = n - 1)%nat) as [->|Hil].
      { exists (Some n). rewrite list_lookup_insert_eq by lia. congruence. }
      rewrite list_lookup_insert_ne by lia. exists (t_next t). by rewrite with_next_id.
    + done.
Qed.

(** A new thread in slot [n]: its record, its first frame on its own stack. *)
Record created_thread s n (t : Thread) (frame : list Z) s' : Prop := {
  ct_linked : linked (with_threads (<[n := t]>) (k_sched s)) n (k_sched s');
  ct_thread : exists nx, threads (k_sched s') !! n = Some (with_next nx t);
  ct_frame : suspended (stack_lo n) (stack_hi n) (t_rsp t) frame (k_mem s');
  ct_mem : mem_above (stack_lo n) (stack_hi n) (k_mem s) (k_mem s');
  ct_rsp : t_rsp t = stack_hi n - 8 * Z.of_nat (length frame);
}.

(** The part the two creation functions share. *)
Lemma create_spec s n ws (mk : Z -> Thread) :
  stacks_ok -> ring (k_sched s) n -> (n < 8)%nat -> (length ws <= 512)%nat ->
  Forall (fun v => 0 <= v < 18446744073709551616) ws -> (forall sp, t_rsp (mk sp) = sp) ->
  wp (sp <- store_words (stack_hi n) ws ;; upd_thread n (fun _ => mk sp) ;;; thread_link n) s
    (fun _ s' => exists t, t = mk (stack_hi n - 8 * Z.of_nat (length ws)) /\
       created_thread s n t (rev ws) s' /\
       s' = set_sched (fun _ => k_sched s') (set_mem (fun _ => k_mem s') s)).
Proof.
  intros Hst Hr Hn Hlen Hws Hmk. pose proof (stack_window n Hst Hn) as Hw. apply wp_bind.
  wp_call (store_words_spec (stack_lo n) (stack_hi n) _ ws s Hw); [|lia|done|].
  { unfold stack_lo, stack_hi, STACK_SIZE. lia. }
  intros sp s1 (-> & Hsus & E1 & Hm1).
  destruct (lookup_lt_is_Some_2 (threads (k_sched s)) n) as [t0 Ht0]; [rewrite (rg_len _ _ Hr); lia|].
  assert (Hs1 : k_sched s1 = k_sched s) by by rewrite E1.
  apply wp_bind. eapply wp_eq; [apply upd_thread_eq; rewrite Hs1; exact Ht0|].
  set (t := mk _). set (s2 := set_sched _ s1).
  assert (Hs2 : k_sched s2 = with_threads (<[n := t]>) (k_sched s)) by (unfold s2; cbn; by rewrite Hs1).
  wp_call (thread_link_spec s2 n); [|done|].
  { rewrite Hs2. destruct Hr as [H1 H2 H3 H4 H5 H6]. constructor; cbn; try done.
    - by rewrite length_insert.
    - intros i Hi. rewrite list_lookup_insert_ne by lia. by apply H6. }
  intros _ s3 (Hl & E3). rewrite Hs2 in Hl. exists t. split; [done|].
  assert (Hm3 : k_mem s3 = k_mem s1) by by rewrite E3.
  split; [|rewrite E3; unfold s2; by rewrite E1]. constructor.
  - done.
  - apply (lk_threads _ _ _ Hl). cbn. apply list_lookup_insert_eq. rewrite (rg_len _ _ Hr). lia.
  - rewrite Hm3. unfold t. by rewrite Hmk.
  - by rewrite Hm3.
  - unfold t. by rewrite Hmk, length_rev.
Qed.

Lemma thread_create_full s entry n : ring (k_sched s) n -> n = 8%nat ->
  thread_create entry s = Ret tt s.
Proof. intros Hr ->. unfold thread_create, sched, bind, gets. by rewrite (rg_count _ _ Hr). Qed.

Lemma thread_create_spec s entry n :
  stacks_ok -> ring (k_sched s) n -> (n < 8)%nat -> 0 <= entry < 18446744073709551616 ->
  wp (thread_create entry) s (fun _ s' => exists sp,
    created_thread s n (mkThread sp THREAD_RUNNING None None sp 0 0) [0; 0; 0; 0; 0; 0; entry] s' /\
    s' = set_sched (fun _ => k_sched s') (set_mem (fun _ => k_mem s') s)).
Proof.
  intros Hst Hr Hn He. unfold thread_create, sched. wp_steps. rewrite (rg_count _ _ Hr).
  rewrite Z.geb_leb, (proj2 (Z.leb_gt _ _)) by (unfold MAX_THREADS; lia).
  rewrite Nat2Z.id. destruct (stack_top n Hst Hn) as [_ ->].
  wp_call (create_spec s n [entry; 0; 0; 0; 0; 0; 0]
    (fun sp => mkThread sp THREAD_RUNNING None None sp 0 0) Hst Hr Hn); [cbn; lia| |done|].
  { repeat apply Forall_cons_2; apply Forall_nil_2 || lia. }
  intros _ s' (t & -> & Hc & E). eexists. split; [exact Hc|exact E].
Qed.

Lemma thread_create_user_spec s entry ustack n :
  stacks_ok -> ring (k_sched s) n -> (n < 8)%nat -> 0 <= entry < 18446744073709551616 ->
  0 <= ustack < 18446744073709551616 -> 0 <= sym_usermode_trampoline < 18446744073709551616 ->
  wp (thread_create_user entry ustack) s (fun _ s' => exists sp s0,
    s0 = set_gdt (with_tss (with_rsp0 (stack_hi n))) s /\
    created_thread s0 n (mkThread sp THREAD_RUNNING None None (stack_hi n) ustack 1)
      [0; 0; ustack; entry; 0; 0; sym_usermode_trampoline] s' /\
    s' = set_sched (fun _ => k_sched s') (set_mem (fun _ => k_mem s') s0)).
Proof.
  intros Hst Hr Hn He Hu Ht. unfold thread_create_user, sched, gdt_set_kernel_stack. apply wp_bind, wp_gets.
  rewrite (rg_count _ _ Hr).
  rewrite Z.geb_leb, (proj2 (Z.leb_gt _ _)) by (unfold MAX_THREADS; lia).
  rewrite Nat2Z.id. destruct (stack_top n Hst Hn) as [E1 E2]. rewrite E2, E1.
  apply wp_bind, wp_modify.
  wp_call (create_spec (set_gdt (with_tss (with_rsp0 (stack_hi n))) s) n
    [sym_usermode_trampoline; 0; 0; entry; ustack; 0; 0]
    (fun sp => mkThread sp THREAD_RUNNING None None (stack_hi n) ustack 1) Hst Hr Hn); [cbn; lia| |done|].
  { repeat apply Forall_cons_2; apply Forall_nil_2 || lia. }
  intros _ s' (t & -> & Hc & E). eexists _, _. split_and!; [reflexivity|exact Hc|exact E].
Qed.
End create.

(** ** The first dispatch of a user thread *)

Section usermode.
Context {P : Platform}.
Implicit Types s : kstate.

(** The registers in ring 3, at the entry point of the program. *)
Definition in_user_mode s (entry ustack : Z) : Prop :=
  k_regs s RIP = entry /\ k_regs s RSP = ustack /\ k_regs s CS = USER_CS /\ k_regs s SS = USER_DS /\
  k_regs s DS = USER_DS /\ k_regs s ES = USER_DS /\ k_regs s FS = USER_DS /\ k_regs s GS = USER_DS /\
  k_if s = true /\ Z.testbit (k_regs s RFLAGS) 9 = true.

Lemma flags_word_range f b : 0 <= f < 18446744073709551616 -> 0 <= flags_word f b < 18446744073709551616.
Proof.
  intros Hf. unfold flags_word. destruct b; [apply lor_u64_range; lia|by apply ldiff_u64_range].
Qed.

(** The words [vs] on the stack at [base]; everything but registers, the
    interrupt flag and the stack is as in [s]. *)
Definition on_stack lo hi base s s1 (vs : list Z) : Prop :=
  stk lo hi s1 vs /\ k_regs s1 RSP = base - 8 * Z.of_nat (length vs) /\
  k_gdt s1 = k_gdt s /\ k_sched s1 = k_sched s /\ mem_above lo base (k_mem s) (k_mem s1) /\
  k_regs s1 CR3 = k_regs s CR3.

Lemma on_stack_set lo hi base s s1 vs r v :
  on_stack lo hi base s s1 vs -> r <> RSP /\ r <> CR3 -> on_stack lo hi base s (set_regs (rset r v) s1) vs.
Proof.
  intros (H1 & H2 & H3 & H4 & H5 & H6) [Hr Hc]. split_and!; try done; [|by cbn; rewrite rset_ne|by cbn; rewrite rset_ne].
  eapply stk_frame; [| |exact H1]; [by cbn; rewrite rset_ne|done].
Qed.

Lemma on_stack_push lo hi base s s1 vs v :
  window_ok lo hi -> on_stack lo hi base s s1 vs -> lo + 8 * Z.of_nat (S (length vs)) <= base ->
  0 <= v < 18446744073709551616 ->
  wp (push v) s1 (fun _ s2 => on_stack lo hi base s s2 (v :: vs) /\ k_if s2 = k_if s1 /\
    forall r, r <> RSP -> k_regs s2 r = k_regs s1 r).
Proof.
  intros Hw (H1 & H2 & H3 & H4 & H5 & H6) Hroom Hv. wp_call (wp_push lo hi Hw s1 vs v); [done|lia|done|].
  intros _ s2 (Hs2 & Hr2 & Hf2 & Hm2). split_and!.
  - split_and!; [done| |by rewrite Hf2|by rewrite Hf2| |by rewrite Hr2, rset_ne].
    + rewrite Hr2, rset_eq. cbn [length]. lia.
    + eapply mem_above_trans; [done|]. eapply mem_above_mono; [|done]. lia.
  - by rewrite Hf2.
  - intros r Hne. by rewrite Hr2, rset_ne.
Qed.

Lemma on_stack_pop lo hi base s s1 v vs :
  window_ok lo hi -> on_stack lo hi base s s1 (v :: vs) ->
  wp pop s1 (fun x s2 => x = v /\ on_stack lo hi base s s2 vs /\ k_if s2 = k_if s1 /\
    forall r, r <> RSP -> k_regs s2 r = k_regs s1 r).
Proof.
  intros Hw (H1 & H2 & H3 & H4 & H5 & H6). wp_call (wp_pop lo hi Hw s1 v vs); [done|].
  intros x s2 (-> & Hs2 & E2). pose proof H1 as (B1 & B2 & _). cbn [length] in *.
  destruct Hw as (W1 & W2 & _). split_and!; [done| |by rewrite E2|].
  - split_and!; [done| |by rewrite E2..|by rewrite E2; cbn; rewrite rset_ne]. rewrite E2. cbn [k_regs set_regs].
    rewrite rset_eq, u64_small; lia.
  - intros r Hne. rewrite E2. cbn [k_regs set_regs]. by rewrite rset_ne.
Qed.

Lemma on_stack_if lo hi base s s1 vs f :
  on_stack lo hi base s s1 vs -> on_stack lo hi base s (set_if f s1) vs.
Proof. done. Qed.

(** The registers that matter while the frame for iretq is built. *)
Definition leaving s1 (entry ustack flags : Z) : Prop :=
  k_regs s1 R10 = entry /\ k_regs s1 R11 = ustack /\ k_regs s1 RFLAGS = flags /\ k_if s1 = false /\
  k_regs s1 DS = USER_DS /\ k_regs s1 ES = USER_DS /\ k_regs s1 FS = USER_DS /\ k_regs s1 GS = USER_DS.

Lemma leaving_regs s1 s2 e u f :
  leaving s1 e u f -> k_if s2 = k_if s1 -> (forall r, r <> RSP -> r <> RAX -> k_regs s2 r = k_regs s1 r) ->
  leaving s2 e u f.
Proof. intros H Hi Hr. unfold leaving in *. rewrite !Hr by done. by rewrite Hi. Qed.

Lemma enter_frame_spec lo hi base s s1 vs e u f :
  window_ok lo hi -> on_stack lo hi base s s1 vs -> lo + 8 * Z.of_nat (5 + length vs) <= base ->
  leaving s1 e u f -> 0 <= e < 18446744073709551616 -> 0 <= u < 18446744073709551616 ->
  0 <= f < 18446744073709551616 ->
  wp enter_frame s1 (fun _ s' => in_user_mode s' e u /\
    k_gdt s' = k_gdt s /\ k_sched s' = k_sched s /\ mem_above lo base (k_mem s) (k_mem s') /\
    k_regs s' CR3 = k_regs s CR3).
Proof.
  intros Hw Ho Hroom Hl He Hu Hf. unfold enter_frame, push_reg, pop_reg.
  apply wp_bind, wp_modify, wp_bind, wp_bind, wp_gets. cbn [k_regs set_regs]. rewrite rset_eq.
  wp_call (on_stack_push lo hi base s); [done|by apply on_stack_set|cbn [length]; lia|lia|].
  intros _ s2 (Ho2 & Hi2 & Hr2).
  assert (Hl2 : leaving s2 e u f).
  { eapply leaving_regs; [exact Hl|done|]. intros r R1 R2. rewrite Hr2 by done. cbn. by rewrite rset_ne. }
  clear Hi2 Hr2 Hl Ho. apply wp_bind, wp_bind, wp_gets.
  assert (k_regs s2 R11 = u) as -> by apply Hl2.
  wp_call (on_stack_push lo hi base s); [done|done|cbn [length]; lia|done|].
  intros _ s3 (Ho3 & Hi3 & Hr3).
  assert (Hl3 : leaving s3 e u f) by (eapply leaving_regs; [exact Hl2|done|auto]).
  clear Hi3 Hr3 Hl2 Ho2. apply wp_bind, wp_gets, wp_bind, wp_gets, wp_bind.
  assert (k_regs s3 RFLAGS = f) as -> by apply Hl3. assert (k_if s3 = false) as -> by apply Hl3.
  pose proof (flags_word_range f false Hf) as Hf'.
  wp_call (on_stack_push lo hi base s); [done|done|cbn [length]; lia|done|].
  intros _ s4 (Ho4 & Hi4 & Hr4).
  assert (Hl4 : leaving s4 e u f) by (eapply leaving_regs; [exact Hl3|done|auto]).
  clear Hi4 Hr4 Hl3 Ho3. apply wp_bind, wp_bind.
  wp_call (on_stack_pop lo hi base s); [done|exact Ho4|]. intros x s5 (-> & Ho5 & Hi5 & Hr5).
  assert (Hl5 : leaving s5 e u f) by (eapply leaving_regs; [exact Hl4|done|auto]).
  clear Hi5 Hr5 Hl4 Ho4. apply wp_modify, wp_bind, wp_gets, wp_bind, wp_modify, wp_bind, wp_bind, wp_gets.
  cbn [k_regs set_regs]. rewrite !rset_eq. set (f' := flags_word f false) in *.
  wp_call (on_stack_push lo hi base s); [done|by do 2 (apply on_stack_set; [|done])|cbn [length]; lia
    |apply lor_u64_range; lia|].
  intros _ s6 (Ho6 & Hi6 & Hr6).
  assert (Hl6 : leaving s6 e u f).
  { eapply leaving_regs; [exact Hl5|done|]. intros r R1 R2. rewrite Hr6 by done. cbn. by rewrite !rset_ne. }
  clear Hi6 Hr6 Hl5 Ho5. apply wp_bind, wp_modify, wp_bind, wp_bind, wp_gets.
  cbn [k_regs set_regs]. rewrite rset_eq.
  wp_call (on_stack_push lo hi base s); [done|by apply on_stack_set|cbn [length]; lia|lia|].
  intros _ s7 (Ho7 & Hi7 & Hr7).
  assert (Hl7 : leaving s7 e u f).
  { eapply leaving_regs; [exact Hl6|done|]. intros r R1 R2. rewrite Hr7 by done. cbn. by rewrite rset_ne. }
  clear Hi7 Hr7 Hl6 Ho6. apply wp_bind, wp_bind, wp_gets.
  assert (k_regs s7 R10 = e) as -> by apply Hl7.
  wp_call (on_stack_push lo hi base s); [done|done|cbn [length]; lia|done|].
  intros _ s8 (Ho8 & Hi8 & Hr8).
  assert (Hl8 : leaving s8 e u f) by (eapply leaving_regs; [exact Hl7|done|auto]).
  destruct Ho8 as (Hs8 & _ & Hg8 & Hsc8 & Hm8 & Hcr8). destruct Hl8 as (_ & _ & _ & _ & D1 & D2 & D3 & D4).
  wp_call (wp_iretq lo hi Hw s8); [|].
  { exact (stk_prefix lo hi s8 [_; _; _; _; _] vs Hs8). }
  intros _ s9 (R9 & E9). unfold in_user_mode. rewrite !R9.
  assert (Hbit : Z.testbit (Z.lor f' 512) 9 = true) by (rewrite Z.lor_spec; apply orb_true_r).
  split_and!; try done; rewrite E9; done.
Qed.

Lemma usermode_trampoline_spec lo hi s :
  window_ok lo hi -> lo + 48 <= k_regs s RSP -> k_regs s RSP <= hi -> regs_u64 (k_regs s) ->
  0 <= sym_trampoline_return < 18446744073709551616 ->
  wp usermode_trampoline s (fun _ s' =>
    in_user_mode s' (k_regs s R12) (k_regs s R13) /\
    k_gdt s' = k_gdt s /\ k_sched s' = k_sched s /\
    mem_above lo (k_regs s RSP) (k_mem s) (k_mem s') /\ k_regs s' CR3 = k_regs s CR3).
Proof.
  intros Hw Hlo Hhi Hr Hsym. unfold usermode_trampoline, getr, setr.
  apply wp_bind, wp_gets, wp_bind, wp_modify, wp_bind, wp_gets, wp_bind, wp_modify, wp_bind.
  cbn [k_regs set_regs]. rewrite rset_ne by done.
  assert (Ho : on_stack lo hi (k_regs s RSP) s s []).
  { split_and!; [apply stk_nil; lia|simpl; lia|done..]. }
  wp_call (on_stack_push lo hi (k_regs s RSP) s); [done|by do 2 (apply on_stack_set; [|done])
    |cbn [length]; lia|done|].
  intros _ s1 (Ho1 & Hi1 & Hr1). cbn [k_regs set_regs] in Hr1.
  unfold jump_to_usermode, getr at 1 2, setr at 1 2 3 4 5 6, cli.
  apply wp_bind, wp_gets, wp_bind, wp_modify, wp_bind, wp_gets, wp_bind, wp_modify, wp_bind, wp_modify.
  do 4 apply wp_bind, wp_modify. cbn [k_regs set_regs]. rewrite rset_ne by done.
  assert (k_regs s1 RDI = k_regs s R12) as -> by (rewrite Hr1 by done; by reg_simpl).
  assert (k_regs s1 RSI = k_regs s R13) as -> by (rewrite Hr1 by done; by reg_simpl).
  wp_call (enter_frame_spec lo hi (k_regs s RSP) s _ [sym_trampoline_return]
    (k_regs s R12) (k_regs s R13) (k_regs s RFLAGS)); [done| |cbn [length]; lia| |apply Hr..|].
  - do 4 (apply on_stack_set; [|done]). apply on_stack_if. by do 2 (apply on_stack_set; [|done]).
  - unfold leaving. cbn [k_regs k_if set_regs set_if]. reg_simpl. split_and!; try done.
    rewrite Hr1 by done. by reg_simpl.
  - done.
Qed.
End usermode.

Section dispatch.
Context {P : Platform}.
Implicit Types s : kstate.

Lemma context_switch_frame s new_rsp :
  wp (context_switch (fun _ => ret tt) new_rsp) s (fun _ s' => cpu_frame s s').
Proof.
  unfold context_switch, pop_reg, getr, setr. apply wp_bind.
  wp_call push_regs_frame. intros _ s1 H1. wp_steps.
  wp_call pop_regs_frame. intros _ s2 H2. unfold pop, getr, setr, rd64. wp_steps.
  eapply cpu_frame_trans; [exact H1|]. unfold cpu_frame in *. rewrite H2. by destruct s1.
Qed.

Lemma load_regs_u64 l ws f :
  regs_u64 f -> Forall (fun v => 0 <= v < 18446744073709551616) ws -> regs_u64 (load_regs l ws f).
Proof.
  revert ws f. induction l as [|r l IH]; intros [|w ws] f Hf Hw; try done. cbn [load_regs].
  apply Forall_cons in Hw as [Hw0 Hw]. apply IH; [|done]. intros x. unfold rset. by case_decide.
Qed.

(** The boot code's stack when it starts the scheduler. *)
Record boot_stack s lo hi : Prop := {
  bs_window : window_ok lo hi;
  bs_room : lo + 56 <= k_regs s RSP <= hi;
  bs_apart : windows_apart lo hi (stack_lo 0) (stack_hi 0);
  bs_regs : regs_u64 (k_regs s);
}.

(** Starting the scheduler with one thread, suspended with the frame [ws ++ [ra]]. *)
Lemma scheduler_start_one s lo hi t ws ra :
  stacks_ok -> boot_stack s lo hi -> ring (k_sched s) 1 ->
  threads (k_sched s) !! 0%nat = Some t -> t_state t = THREAD_RUNNING ->
  length ws = 6%nat -> suspended (stack_lo 0) (stack_hi 0) (t_rsp t) (ws ++ [ra]) (k_mem s) ->
  0 <= sym_start_return < 18446744073709551616 ->
  wp scheduler_start s (fun b s' => b = true /\
    current (k_sched s') = Some 0%nat /\ ring (k_sched s') 1 /\
    rsp0 (tss (k_gdt s')) = (if is_user_mode t =? 0 then rsp0 (tss (k_gdt s)) else kernel_rsp t) /\
    (forall r, k_regs s' r = match r with
       | RIP => ra | RSP => t_rsp t + 56 | r => load_regs callee_saved ws (k_regs s) r end) /\
    mem_above lo (k_regs s RSP) (k_mem s) (k_mem s')).
Proof.
  intros Hst [Hw Hroom Hap Hr] Hring Ht Hrun Hlen Hsus Hsym.
  pose proof (stack_window 0 Hst ltac:(lia)) as Hw0.
  unfold scheduler_start, sched, upd_sched. apply wp_bind, wp_gets. rewrite (rg_first _ _ Hring).
  rewrite decide_False by done. apply wp_bind, wp_modify, wp_bind.
  set (s1 := set_sched (with_current (Some 0%nat)) s).
  assert (Hring1 : ring (k_sched s1) 1).
  { apply ring_with_current; [done|lia]. }
  eapply wp_eq; [by apply (find_next_runnable_eq s1 0 1); [|lia]|].
  assert (round_robin (k_sched s1) 0 1 = Some 0%nat) as ->.
  { unfold round_robin, rotation. cbn [seq map List.find]. change ((0 + 1) `mod` 1)%nat with 0%nat.
    unfold runnable. cbn [k_sched s1 set_sched with_current threads]. rewrite Ht. unfold running.
    by rewrite bool_decide_true. }
  apply wp_bind, wp_modify, wp_bind. eapply wp_eq; [apply get_thread_eq; exact Ht|].
  set (s2 := set_sched _ s1).
  assert (Hg : wp (when negb (is_user_mode t =? 0) do gdt_set_kernel_stack (kernel_rsp t)) s2 (fun _ s3 =>
    k_sched s3 = k_sched s2 /\ k_regs s3 = k_regs s /\ k_mem s3 = k_mem s /\ rsp0 (tss (k_gdt s3)) =
      if is_user_mode t =? 0 then rsp0 (tss (k_gdt s)) else kernel_rsp t)).
  { destruct (is_user_mode t =? 0); cbn [negb]; [by apply wp_ret|by apply wp_modify]. }
  apply wp_bind. eapply wp_mono; [exact Hg|]. intros _ s3 (Hs3 & Hr3 & Hm3 & Hg3). apply wp_bind.
  wp_call (wp_push lo hi Hw s3 []); [apply stk_nil; rewrite Hr3; lia|rewrite Hr3; lia|done|].
  intros _ s4 (Hk4 & Hr4 & Hf4 & Hm4). rewrite Hr3 in Hr4, Hm4. rewrite Hm3 in Hm4. apply wp_bind.
  assert (Hsp4 : k_regs s4 RSP = k_regs s RSP - 8) by (rewrite Hr4; apply rset_eq).
  eapply wp_mono; [apply wp_conj; [apply context_switch_frame|]|].
  { eapply (context_switch_regs s4 lo hi [sym_start_return] (stack_lo 0) (stack_hi 0) (t_rsp t) ws ra);
      [done|done|done|done|lia| | |done|done|].
    - apply Forall_forall. intros r _. rewrite Hr4. unfold rset. case_decide; [destruct Hw as (? & ? & _); lia|apply Hr].
    - eapply (suspended_other lo hi); [done|done| |exact Hm4|exact Hsus]. lia.
    - intros x sx _. by apply wp_ret. }
  intros _ s5 (Hf5 & _ & Hr5 & Hm5). apply cpu_frame_sched in Hf5 as [Hs5 Hg5].
  apply (cpu_frame_sched s3) in Hf4 as [Hs4 Hg4]. apply wp_ret.
  rewrite Hs5, Hs4, Hs3, Hg5, Hg4. split_and!; [done|done| |done| |].
  - apply ring_with_current; [done|lia].
  - intros r. rewrite Hr5. destruct r; try done; apply load_regs_ext; rewrite Hr4; by rewrite rset_ne.
  - eapply mem_above_trans; [exact Hm4|]. eapply mem_above_mono; [|exact Hm5]. lia.
Qed.

Lemma user_thread_dispatch_spec s lo hi entry ustack :
  stacks_ok -> boot_stack s lo hi -> ring (k_sched s) 0 ->
  0 <= entry < 18446744073709551616 -> 0 <= ustack < 18446744073709551616 ->
  0 <= sym_usermode_trampoline < 18446744073709551616 ->
  0 <= sym_start_return < 18446744073709551616 ->
  0 <= sym_trampoline_return < 18446744073709551616 ->
  wp (thread_create_user entry ustack ;;; b <- scheduler_start ;; rip <- getr RIP ;;
      usermode_trampoline ;;; ret (b, rip)) s (fun r s' =>
    r = (true, sym_usermode_trampoline) /\ in_user_mode s' entry ustack /\
    rsp0 (tss (k_gdt s')) = stack_hi 0 /\ current (k_sched s') = Some 0%nat /\ ring (k_sched s') 1).
Proof.
  intros Hst Hb Hring He Hu Ht1 Ht2 Ht3. apply wp_bind.
  wp_call (thread_create_user_spec s entry ustack 0); [done|done|lia|done|done|done|].
  intros _ s1 (sp & s0 & E0 & [Hl [nx Hth] Hsus Hm Hsp] & E1). apply wp_bind.
  assert (Hr1 : k_regs s1 = k_regs s) by by rewrite E1, E0.
  wp_call (scheduler_start_one s1 lo hi _ [0; 0; ustack; entry; 0; 0] sym_usermode_trampoline);
    [done| |apply Hl|exact Hth|done|done|exact Hsus|done|].
  { destruct Hb as [B1 B2 B3 B4]. constructor; rewrite ?Hr1; done. }
  intros b s2 (-> & Hc2 & Hring2 & Hg2 & Hr2 & _). cbn [is_user_mode kernel_rsp with_next t_rsp Z.eqb] in *.
  apply wp_bind, wp_gets, wp_bind. cbn [length] in Hsp.
  pose proof (Hr2 RSP) as Hrsp. cbn in Hrsp.
  wp_call (usermode_trampoline_spec (stack_lo 0) (stack_hi 0) s2 (stack_window 0 Hst ltac:(lia)));
    [unfold stack_lo, stack_hi, STACK_SIZE in *; lia|lia| |done|].
  { intros r. rewrite Hr2. destruct (stack_window 0 Hst ltac:(lia)) as (W1 & W2 & _).
    destruct r; try (apply load_regs_u64; [rewrite Hr1; apply Hb|]); try done;
      try (repeat apply Forall_cons_2; apply Forall_nil_2 || lia).
    unfold stack_lo, stack_hi, STACK_SIZE in *. lia. }
  intros _ s3 (Hin & Hg3 & Hs3 & _). apply wp_ret. rewrite !Hr2 in *.
  rewrite Hg3, Hs3. split_and!; try done.
Qed.
End dispatch.

(** ** A concrete system of three threads *)

Definition demo_thread (rsp : Z) (st : ThreadState) (next : nat) : Thread :=
  mkThread rsp st None (Some next) rsp 0 0.
(** Thread 0 runs, thread 1 is blocked, thread 2 is runnable. *)
Definition demo_three : kstate :=
  set_regs (fun _ r => match r with RSP => 0xFFFFFFFF80010F00 | RBX => 0xB0 | R12 => 0x12 | _ => 0 end)
  (set_sched (fun v => mkSched (Some 0%nat) (Some 0%nat)
    ([demo_thread 0xFFFFFFFF80010FC8 THREAD_RUNNING 1; demo_thread 0xFFFFFFFF80011FC8 THREAD_BLOCKED 2;
      demo_thread 0xFFFFFFFF80012FC8 THREAD_RUNNING 0] ++ replicate 5 null_thread) 3
    (ports v) (port_count v) (message_pool v) (message_pool_next v)) demo_boot).

Lemma demo_three_ring : ring (k_sched demo_three) 3.
Proof.
  constructor; try reflexivity; [lia|cbn; lia|].
  intros i Hi. destruct i as [|[|[|i]]]; [..|lia]; (eexists; split; reflexivity).
Qed.

Lemma demo_boot_ring : ring (k_sched demo_boot) 0.
Proof. constructor; try reflexivity; lia. Qed.

Lemma demo_window lo hi :
  demo_hhdm + 0x100000000000 <= lo -> hi < 18446744073709551616 -> window_ok lo hi.
Proof.
  intros Hlo Hhi. unfold demo_hhdm in *. split_and!; [lia|lia|]. intros x Hx. unfold kmap, demo, demo_kmap, demo_hhdm.
  rewrite !(proj2 (Z.ltb_ge _ _)), !andb_false_r by lia. lia.
Qed.

Lemma demo_kmap_id x : demo_hhdm + 0x100000000000 <= x -> kmap x = x.
Proof.
  intros Hx. unfold kmap, demo, demo_kmap, demo_hhdm in *.
  by rewrite (proj2 (Z.ltb_ge _ _)), andb_false_r by lia.
Qed.

Lemma demo_stacks_ok : stacks_ok.
Proof. split; [reflexivity|]. apply demo_window; vm_compute; congruence. Qed.

(** ** Properties *)

(** C27: thread_create adds a runnable thread at the end of the ring and changes the
    state of no other thread; the new thread's stack, and only it, is prepared so
    that the first switch to it returns to its entry point with an empty stack
    and the other saved registers zero.  With eight threads it does nothing. *)
Theorem thread_create_correct {P : Platform} (s : kstate) (entry : Z) (n : nat) :
  stacks_ok -> ring (k_sched s) n -> 0 <= entry < 18446744073709551616 ->
  wp (thread_create entry) s (fun _ s' =>
    if decide (n = 8)%nat then s' = s
    else
      ring (k_sched s') (S n) /\
      (forall i, runnable (k_sched s') i = if decide (i = n) then true else runnable (k_sched s) i) /\
      (exists t, threads (k_sched s') !! n = Some t /\ t_rsp t = stack_hi n - 56 /\
         suspended (stack_lo n) (stack_hi n) (t_rsp t) ([0; 0; 0; 0; 0; 0] ++ [entry]) (k_mem s')) /\
      mem_above (stack_lo n) (stack_hi n) (k_mem s) (k_mem s')).
Proof.
  intros Hst Hr He. case_decide as Hn.
  { eapply wp_eq; [by eapply thread_create_full|done]. }
  pose proof (rg_max _ _ Hr). wp_call (thread_create_spec s entry n); [done|done|lia|done|].
  intros _ s' (sp & [Hl [nx Hth] Hsus Hm Hsp] & E). cbn [length t_rsp] in *.
  split_and!; [apply Hl| |by eexists; split_and!|done].
  intros i. unfold runnable. destruct (decide (i = n)) as [->|Hin]; [by rewrite Hth|].
  destruct (threads (k_sched s) !! i) as [t|] eqn:Et.
  - destruct (lk_threads _ _ _ Hl i t) as [nx' ->]; [|done].
    cbn. by rewrite list_lookup_insert_ne.
  - rewrite lookup_ge_None_2; [done|]. apply lookup_ge_None_1 in Et.
    rewrite (rg_len _ _ (lk_ring _ _ _ Hl)). by rewrite (rg_len _ _ Hr) in Et.
Qed.

Lemma thread_create_correct_witness :
  wp (thread_create 0xFFFFFFFF80000100) demo_three (fun _ s' =>
    ring (k_sched s') 4 /\ runnable (k_sched s') 3 = true /\ runnable (k_sched s') 1 = false).
Proof.
  refine (wp_mono _ _ _ _ (thread_create_correct demo_three 0xFFFFFFFF80000100 3 demo_stacks_ok
    demo_three_ring _) _); [lia|].
  intros _ s'. rewrite decide_False by lia. intros (Hr & Hrun & _).
  rewrite !Hrun. split_and!; [exact Hr|reflexivity|reflexivity].
Defined.

(** C26: find_next_runnable always returns (its walk of the ring ends) and agrees
    with the specification of round robin: the first runnable thread after the
    given one in ring order, that thread itself coming last; NULL exactly when no
    thread is runnable. *)
Theorem find_next_runnable_correct {P : Platform} (s : kstate) (c n : nat) :
  ring (k_sched s) n -> (c < n)%nat ->
  find_next_runnable c s = Ret (round_robin (k_sched s) c n) s /\
  (round_robin (k_sched s) c n = None <-> forall i, (i < n)%nat -> runnable (k_sched s) i = false).
Proof.
  intros Hr Hc. split; [by apply find_next_runnable_eq|]. split; [by apply round_robin_none|].
  intros Hnone. destruct (round_robin _ _ _) as [j|] eqn:Ej; [|done].
  destruct (round_robin_some _ _ _ _ Hc Ej) as (Hj & Hrun & _). by rewrite Hnone in Hrun.
Qed.

Lemma find_next_runnable_correct_witness :
  find_next_runnable 0 demo_three = Ret (Some 2%nat) demo_three.
Proof.
  rewrite (proj1 (find_next_runnable_correct demo_three 0 3 demo_three_ring ltac:(lia))). reflexivity.
Defined.

(** C12: No starvation: if every thread that gets the processor yields it, then a
    runnable thread runs again after at most as many yields as there are threads,
    whichever thread is current. *)
Theorem no_starvation {P : Platform} (s : kstate) (n c i : nat) :
  ring (k_sched s) n -> current (k_sched s) = Some c -> (i < n)%nat ->
  runnable (k_sched s) i = true ->
  exists k, (1 <= k <= n)%nat /\
    wp (yields k) s (fun _ s' => current (k_sched s') = Some i /\ ring (k_sched s') n).
Proof.
  intros Hr Hc Hi Hrun.
  assert (Hd : (distance c i n <= n - 1)%nat).
  { unfold distance. pose proof (Nat.mod_upper_bound (i + n - c - 1) n). lia. }
  destruct (yields_reach (n - 1) s n c i Hr Hc Hi Hrun Hd) as (k & Hk & Hw). exists k. split; [lia|done].
Qed.

Lemma no_starvation_witness :
  exists k, (1 <= k <= 3)%nat /\
    wp (yields k) demo_three (fun _ s' => current (k_sched s') = Some 2%nat /\ ring (k_sched s') 3).
Proof. apply (no_starvation demo_three 3 0 2 demo_three_ring); [reflexivity|lia|reflexivity]. Defined.

(** C21: The first user thread: thread_create_user on an empty table, scheduler_start
    and the trampoline they lead to enter ring 3 at the program's entry point, with
    the program's stack, the user segments and interrupts enabled, and with the
    end of the thread's kernel stack in the TSS for the way back. *)
Theorem user_thread_dispatch {P : Platform} (s : kstate) (lo hi entry ustack : Z) :
  stacks_ok -> boot_stack s lo hi -> ring (k_sched s) 0 ->
  0 <= entry < 18446744073709551616 -> 0 <= ustack < 18446744073709551616 ->
  0 <= sym_usermode_trampoline < 18446744073709551616 ->
  0 <= sym_start_return < 18446744073709551616 ->
  0 <= sym_trampoline_return < 18446744073709551616 ->
  wp (thread_create_user entry ustack ;;; b <- scheduler_start ;; rip <- getr RIP ;;
      usermode_trampoline ;;; ret (b, rip)) s (fun r s' =>
    r = (true, sym_usermode_trampoline) /\ in_user_mode s' entry ustack /\
    rsp0 (tss (k_gdt s')) = stack_hi 0 /\ current (k_sched s') = Some 0%nat /\ ring (k_sched s') 1).
Proof. apply user_thread_dispatch_spec. Qed.

Lemma user_thread_dispatch_witness :
  let s := set_regs (fun _ r => match r with RSP => 0xFFFFFFFF80100000 | RFLAGS => 2 | _ => 0 end) demo_boot in
  wp (thread_create_user 0x400000 0x7FFFFFFFF000 ;;; b <- scheduler_start ;; rip <- getr RIP ;;
      usermode_trampoline ;;; ret (b, rip)) s (fun r s' =>
    r = (true, 0xFFFFFFFF80003000) /\ in_user_mode s' 0x400000 0x7FFFFFFFF000 /\
    rsp0 (tss (k_gdt s')) = 0xFFFFFFFF80011000 /\ current (k_sched s') = Some 0%nat /\ ring (k_sched s') 1).
Proof.
  intros s.
  refine (wp_mono _ _ _ _ (user_thread_dispatch s 0xFFFFFFFF800F0000 0xFFFFFFFF80100000 0x400000
    0x7FFFFFFFF000 demo_stacks_ok _ demo_boot_ring _ _ _ _ _) _).
  - constructor.
    + apply demo_window; vm_compute; congruence.
    + vm_compute. split; congruence.
    + right. vm_compute. congruence.
    + intros []; vm_compute; split; congruence.
  - lia.
  - lia.
  - vm_compute. split; congruence.
  - vm_compute. split; congruence.
  - vm_compute. split; congruence.
  - intros r s' (-> & H1 & -> & H3 & H4). split_and!; [reflexivity|exact H1|reflexivity|exact H3|exact H4].
Defined.
