(* ===== verification/Scheduler.v ===== *)
(** * The scheduler on the machine: stacks, registers, resumption

    Thread.v and ThreadTheorems.v describe the scheduler's variables.  Here the
    threads are on their stacks: a thread that does not run is parked, with its
    callee-saved registers and a return address at its saved stack pointer.  The
    invariant [machine] is kept by thread_yield and by whatever a thread computes on
    its own stack; a thread that comes back finds its registers
    and its stack as it left them. *)
From stdpp Require Import relations.
From S2P Require Import Prelude Memory State Demo Cpu Gdt Idt Thread ThreadTheorems.

Section machine.
Context {P : Platform}.
Implicit Types s : kstate.

(** Thread [i] is not running: the words [ws] are at its saved stack pointer. *)
Definition parked s (i : nat) (ws : list Z) : Prop :=
  exists t, threads (k_sched s) !! i = Some t /\
    suspended (stack_lo i) (stack_hi i) (t_rsp t) ws (k_mem s).

(** The [n] threads of the ring: the current one runs on its own stack with room for
    a switch, the others are parked. *)
Record machine s n : Prop := {
  mc_ring : ring (k_sched s) n;
  mc_regs : regs_u64 (k_regs s);
  mc_running : forall c, current (k_sched s) = Some c -> stack_lo c + 56 <= k_regs s RSP <= stack_hi c;
  mc_parked : forall i, (i < n)%nat -> current (k_sched s) <> Some i ->
    exists ws, length ws = 7%nat /\ parked s i ws;
}.

(** What thread_yield leaves on the stack of its caller. *)
Definition yield_frame s : list Z := map (k_regs s) callee_saved ++ [sym_yield_return].

(** The registers of a thread that was parked with [ws ++ [ra]] at [sp]. *)
Definition resumed (f : regs) (sp : Z) (ws : list Z) (ra : Z) (r : reg) : Z :=
  match r with RIP => ra | RSP => sp + 56 | r => load_regs callee_saved ws f r end.

Context (Hst : stacks_ok) (Hsym : 0 <= sym_yield_return < 18446744073709551616).

Lemma machine_current s n c : machine s n -> current (k_sched s) = Some c -> (c < n)%nat /\ (c < 8)%nat.
Proof.
  intros Hm Hc. pose proof (rg_current _ _ (mc_ring _ _ Hm)) as H. rewrite Hc in H.
  pose proof (rg_max _ _ (mc_ring _ _ Hm)). lia.
Qed.

(** A switch to thread [j], parked with [ws ++ [ra]]. *)
Lemma thread_yield_switch s n c j t ws ra :
  machine s n -> current (k_sched s) = Some c -> round_robin (k_sched s) c n = Some j -> c <> j ->
  threads (k_sched s) !! j = Some t -> length ws = 6%nat ->
  suspended (stack_lo j) (stack_hi j) (t_rsp t) (ws ++ [ra]) (k_mem s) ->
  wp thread_yield s (fun _ s' =>
    (forall r, k_regs s' r = resumed (k_regs s) (t_rsp t) ws ra r) /\
    suspended (stack_lo c) (stack_hi c) (k_regs s RSP - 56) (yield_frame s) (k_mem s') /\
    mem_above (stack_lo c) (k_regs s RSP) (k_mem s) (k_mem s')).
Proof.
  intros Hm Hc Hj Hne Ht Hlen Hsus. pose proof (mc_ring _ _ Hm) as Hr.
  destruct (machine_current s n c Hm Hc) as [Hcn Hc8]. pose proof (rg_max _ _ Hr).
  destruct (round_robin_some _ _ _ _ Hcn Hj) as (Hjn & _).
  pose proof (stack_window c Hst Hc8) as Hw. pose proof (stack_window j Hst ltac:(lia)) as Hwj.
  pose proof (mc_running _ _ Hm c Hc) as Hroom. destruct (rg_next _ _ Hr c Hcn) as (tc & Htc & _).
  unfold thread_yield, sched, upd_sched. wp_steps. rewrite Hc. apply wp_bind.
  eapply wp_eq; [by apply find_next_runnable_eq|]. rewrite Hj. wp_steps.
  eapply wp_eq; [apply get_thread_eq; exact Ht|]. set (s0 := set_sched (with_current (Some j)) s).
  assert (Hg : wp (when negb (is_user_mode t =? 0) do gdt_set_kernel_stack (kernel_rsp t)) s0 (fun _ s1 =>
    k_sched s1 = k_sched s0 /\ k_regs s1 = k_regs s /\ k_mem s1 = k_mem s)).
  { destruct (is_user_mode t =? 0); cbn [negb]; [by apply wp_ret|by apply wp_modify]. }
  apply wp_bind. eapply wp_mono; [exact Hg|]. intros _ s1 (Hs1 & Hr1 & Hm1). clear Hg.
  rewrite decide_False by done. apply wp_bind.
  wp_call (wp_push (stack_lo c) (stack_hi c) Hw s1 []); [apply stk_nil; rewrite Hr1; lia|rewrite Hr1; lia|done|].
  intros _ s2 (Hk2 & Hr2 & Hf2 & Hm2). rewrite Hr1 in Hr2, Hm2. rewrite Hm1 in Hm2. apply wp_bind.
  assert (Hsp2 : k_regs s2 RSP = k_regs s RSP - 8) by (rewrite Hr2; apply rset_eq).
  assert (Hs2 : threads (k_sched s2) !! c = Some tc) by (rewrite Hf2; cbn; rewrite Hs1; exact Htc).
  wp_call (context_switch_regs s2 (stack_lo c) (stack_hi c) [sym_yield_return] (stack_lo j) (stack_hi j)
    (t_rsp t) ws ra); [done|done|by apply stacks_apart; [done|lia..]|done|lia| | |done|done| |].
  { apply Forall_forall. intros r _. rewrite Hr2. unfold rset. case_decide; [destruct Hw as (? & ? & _); lia|apply Hm]. }
  { eapply (suspended_other (stack_lo c) (stack_hi c)); [done|by apply stacks_apart; [done|lia..]| |exact Hm2|exact Hsus]. lia. }
  { intros x sx Ex. eapply upd_thread_regs. by rewrite Ex. }
  intros _ s3 (Hp3 & Hr3 & Hm3). apply wp_ret. rewrite Hsp2 in Hp3, Hm3. split_and!.
  - intros r. rewrite Hr3. destruct r; try done; cbn [resumed]; apply load_regs_ext; rewrite Hr2; by rewrite rset_ne.
  - replace (k_regs s RSP - 8 - 48) with (k_regs s RSP - 56) in Hp3 by lia. unfold yield_frame.
    assert (E : map (k_regs s2) callee_saved = map (k_regs s) callee_saved)
      by (rewrite Hr2; reflexivity).
    by rewrite E in Hp3.
  - eapply mem_above_trans; [exact Hm2|]. eapply mem_above_mono; [|exact Hm3]. lia.
Qed.

(** What thread_yield does to registers and memory. *)
Definition handed_over s n c s' : Prop :=
  match round_robin (k_sched s) c n with
  | None => s' = s
  | Some j =>
      if decide (c = j) then k_regs s' = k_regs s /\ k_mem s' = k_mem s
      else
        (exists t ws ra, threads (k_sched s) !! j = Some t /\ length ws = 6%nat /\
           suspended (stack_lo j) (stack_hi j) (t_rsp t) (ws ++ [ra]) (k_mem s) /\
           forall r, k_regs s' r = resumed (k_regs s) (t_rsp t) ws ra r) /\
        suspended (stack_lo c) (stack_hi c) (k_regs s RSP - 56) (yield_frame s) (k_mem s') /\
        mem_above (stack_lo c) (k_regs s RSP) (k_mem s) (k_mem s')
  end.

Lemma split_last (ws : list Z) : length ws = 7%nat -> exists us ra, ws = us ++ [ra] /\ length us = 6%nat.
Proof.
  intros Hl. destruct ws as [|ra us _] using rev_ind; [done|]. exists us, ra. rewrite length_app in Hl. cbn in Hl. split; [done|lia].
Qed.

Lemma thread_yield_handed s n c : machine s n -> current (k_sched s) = Some c ->
  wp thread_yield s (fun b s' => yielded s n c b s' /\ handed_over s n c s').
Proof.
  intros Hm Hc. pose proof (mc_ring _ _ Hm) as Hr. destruct (machine_current s n c Hm Hc) as [Hcn _].
  unfold handed_over. destruct (round_robin (k_sched s) c n) as [j|] eqn:Ej.
  2:{ wp_call thread_yield_spec; [done|done|]. intros b s' Hy. split; [done|]. unfold yielded in Hy. rewrite Ej in Hy. by destruct Hy. }
  destruct (round_robin_some _ _ _ _ Hcn Ej) as (Hjn & _).
  destruct (decide (c = j)) as [<-|Hne].
  - apply wp_conj; [by apply thread_yield_spec|]. destruct (rg_next _ _ Hr c Hcn) as (t & Ht & _).
    unfold thread_yield, sched, upd_sched. wp_steps. rewrite Hc. apply wp_bind.
    eapply wp_eq; [by apply find_next_runnable_eq|]. rewrite Ej. wp_steps.
    eapply wp_eq; [apply get_thread_eq; exact Ht|]. apply wp_bind. rewrite decide_True by done.
    destruct (is_user_mode t =? 0); cbn [negb]; [apply wp_ret|apply wp_modify]; by apply wp_ret.
  - destruct (mc_parked _ _ Hm j Hjn) as (ws & Hl & t & Ht & Hs); [congruence|].
    destruct (split_last ws Hl) as (us & ra & -> & Hu). apply wp_conj; [by apply thread_yield_spec|].
    wp_call (thread_yield_switch s n c j t us ra); [done..|]. intros b s' (H1 & H2 & H3).
    split_and!; [by exists t, us, ra|done|done].
Qed.

(** Memory above the stack pointer of thread [c], its own and that of the others. *)
Lemma parked_kept s s' c i t ws :
  (c < 8)%nat -> (i < 8)%nat -> c <> i -> stack_lo c <= k_regs s RSP <= stack_hi c ->
  mem_above (stack_lo c) (k_regs s RSP) (k_mem s) (k_mem s') ->
  suspended (stack_lo i) (stack_hi i) t ws (k_mem s) -> suspended (stack_lo i) (stack_hi i) t ws (k_mem s').
Proof.
  intros Hc Hi Hne Hsp Hm Hs.
  eapply (suspended_other (stack_lo c) (stack_hi c)); [by apply stack_window|by apply stacks_apart|exact Hsp|exact Hm|exact Hs].
Qed.

Lemma resumed_u64 f sp ws ra : regs_u64 f -> 0 <= sp -> sp + 56 < 18446744073709551616 ->
  Forall (fun v => 0 <= v < 18446744073709551616) (ws ++ [ra]) -> regs_u64 (resumed f sp ws ra).
Proof.
  intros Hf H0 H1 Hw r. apply Forall_app in Hw as [Hw Hra]. apply Forall_cons in Hra as [Hra _].
  destruct r; try (apply load_regs_u64; done); cbn [resumed]; lia.
Qed.

(** thread_yield keeps the invariant. *)
Lemma machine_yield s n c b s' : machine s n -> current (k_sched s) = Some c ->
  yielded s n c b s' -> handed_over s n c s' -> machine s' n.
Proof.
  intros Hm Hc Hy Hh. destruct (machine_current s n c Hm Hc) as [Hcn Hc8]. unfold yielded in Hy. unfold handed_over in Hh.
  pose proof (rg_max _ _ (mc_ring _ _ Hm)) as Hmax.
  destruct (round_robin (k_sched s) c n) as [j|] eqn:Ej; [|by rewrite Hh].
  destruct (round_robin_some _ _ _ _ Hcn Ej) as (Hjn & _). destruct Hy as (_ & Hsw & _).
  pose proof (switched_ring _ _ _ _ _ _ (mc_ring _ _ Hm) Hjn Hsw) as Hr'. unfold switched in Hsw.
  destruct (decide (c = j)) as [<-|Hne].
  - destruct Hh as [E1 E2]. constructor; rewrite ?E1; [done|apply Hm| |].
    + intros c'. rewrite Hsw. intros [= <-]. by apply (mc_running _ _ Hm).
    + intros i Hi Hic. rewrite Hsw in Hic. cbn in Hic. destruct (mc_parked _ _ Hm i Hi) as (ws & Hl & t & Ht & Hs); [congruence|].
      exists ws. split; [done|]. exists t. by rewrite Hsw, E2.
  - destruct Hh as ((t & ws & ra & Ht & Hl & Hsus & Hregs) & Hown & Hmem).
    destruct (stack_window j Hst ltac:(lia)) as (W1 & W2 & _). destruct (stack_window c Hst Hc8) as (V1 & V2 & _).
    pose proof Hsus as (B1 & B2 & B3 & _). rewrite length_app, Hl in B2. cbn in B2.
    pose proof (mc_running _ _ Hm c Hc) as Hroom. constructor.
    + done.
    + intros r. rewrite Hregs. apply resumed_u64; [apply Hm|lia|lia|done].
    + intros c'. rewrite Hsw. intros [= <-]. rewrite (Hregs RSP). cbn [resumed]. lia.
    + intros i Hi Hij. rewrite Hsw in Hij. cbn in Hij. destruct (decide (i = c)) as [->|Hic].
      * destruct (rg_next _ _ (mc_ring _ _ Hm) c Hcn) as (tc & Htc & _). exists (yield_frame s). split; [done|].
        exists (with_rsp (yield_rsp s) tc). rewrite Hsw. cbn. rewrite saved_rsp_lookup, decide_True, Htc by done.
        split; [done|]. cbn. unfold yield_rsp. rewrite u64_small by lia. exact Hown.
      * destruct (mc_parked _ _ Hm i Hi) as (us & Hu & ti & Hti & Hs); [congruence|]. exists us. split; [done|].
        exists ti. rewrite Hsw. cbn. rewrite saved_rsp_lookup, decide_False by done. split; [done|].
        apply (parked_kept s s' c); [lia|lia|congruence|lia|exact Hmem|exact Hs].
Qed.

(** ** Steps of the system *)

(** Thread [c] computes: it may change its registers, its own stack, memory outside
    the kernel stacks and the kernel's variables, but not who runs, nor the saved
    stack pointers, nor the stacks of the others; it stays on its stack. *)
Record local_step n c s s' : Prop := {
  ls_ring : ring (k_sched s') n;
  ls_current : current (k_sched s') = current (k_sched s);
  ls_rsp : forall i, t_rsp <$> threads (k_sched s') !! i = t_rsp <$> threads (k_sched s) !! i;
  ls_regs : regs_u64 (k_regs s');
  ls_stack : stack_lo c + 56 <= k_regs s' RSP <= stack_hi c;
  ls_mem : forall i x, (i < n)%nat -> i <> c ->
    kmap (stack_lo i) <= x < kmap (stack_lo i) + STACK_SIZE -> mget (k_mem s') x = mget (k_mem s) x;
}.

Inductive thread_step n : kstate -> kstate -> Prop :=
| step_local s s' c : current (k_sched s) = Some c -> local_step n c s s' -> thread_step n s s'
| step_yield s s' b : thread_yield s = Ret b s' -> thread_step n s s'.

(** Steps that do not give the processor to [a]. *)
Definition away n a s s' : Prop := thread_step n s s' /\ current (k_sched s') <> Some a.

(** Thread [a] is parked at [sp] with [ws]. *)
Definition parked_at s a (sp : Z) (ws : list Z) : Prop :=
  t_rsp <$> threads (k_sched s) !! a = Some sp /\ suspended (stack_lo a) (stack_hi a) sp ws (k_mem s).

Lemma suspended_same lo hi sp ws m m' : window_ok lo hi ->
  (forall x, kmap lo <= x < kmap lo + (hi - lo) -> mget m' x = mget m x) ->
  suspended lo hi sp ws m -> suspended lo hi sp ws m'.
Proof.
  intros (_ & _ & Hk) Hm (H1 & H2 & H3 & H4). split_and!; [done..|]. intros i w Hi. rewrite <- (H4 i w Hi).
  apply load_le_ext. intros x Hx. apply Hm. pose proof (lookup_lt_Some _ _ _ Hi). rewrite Hk in Hx by lia. lia.
Qed.

Lemma machine_local n c s s' : current (k_sched s) = Some c -> machine s n -> local_step n c s s' ->
  machine s' n /\ forall a sp ws, (a < n)%nat -> a <> c -> parked_at s a sp ws -> parked_at s' a sp ws.
Proof.
  intros Hc Hm [L1 L2 L3 L4 L5 L6]. pose proof (rg_max _ _ (mc_ring _ _ Hm)).
  assert (Hp : forall a sp ws, (a < n)%nat -> a <> c -> parked_at s a sp ws -> parked_at s' a sp ws).
  { intros a sp ws Ha Hac [H1 H2]. split; [by rewrite L3|].
    eapply suspended_same; [apply stack_window; [done|lia]| |exact H2]. intros x Hx. apply (L6 a); [done|done|].
    unfold stack_hi, stack_lo, STACK_SIZE in *. lia. }
  split; [|exact Hp]. constructor; [done|done| |].
  - intros c'. rewrite L2, Hc. by intros [= <-].
  - intros i Hi Hic. rewrite L2 in Hic. destruct (mc_parked _ _ Hm i Hi Hic) as (ws & Hl & t & Ht & Hs).
    exists ws. split; [done|]. destruct (Hp i (t_rsp t) ws Hi ltac:(congruence)) as [H1 H2]; [split; [by rewrite Ht|done]|].
    destruct (threads (k_sched s') !! i) as [t'|] eqn:Et; [|done]. injection H1 as E. exists t'. by rewrite E.
Qed.

(** A change of the kernel's variables that moves no thread. *)
Lemma sched_step n c s s' : current (k_sched s) = Some c -> machine s n -> ring (k_sched s') n ->
  current (k_sched s') = current (k_sched s) ->
  (forall i, t_rsp <$> threads (k_sched s') !! i = t_rsp <$> threads (k_sched s) !! i) ->
  k_regs s' = k_regs s -> k_mem s' = k_mem s -> local_step n c s s'.
Proof.
  intros Hc Hm Hr Hcur Ht Er Em.
  constructor; [done|done|done|rewrite Er; apply Hm|rewrite Er; by apply (mc_running _ _ Hm)|by rewrite Em].
Qed.

Lemma machine_step n a sp ws s s' : (a < n)%nat -> away n a s s' -> current (k_sched s) <> Some a ->
  machine s n -> parked_at s a sp ws -> machine s' n /\ parked_at s' a sp ws.
Proof.
  intros Ha [Hstep Ha'] Hcur Hm Hp. pose proof (rg_max _ _ (mc_ring _ _ Hm)).
  destruct Hstep as [s s' c Hc Hl|s s' b Hy].
  - destruct (machine_local n c s s' Hc Hm Hl) as [H1 H2]. split; [done|]. apply H2; [done|congruence|done].
  - destruct (current (k_sched s)) as [c|] eqn:Hc.
    2:{ pose proof (rg_current _ _ (mc_ring _ _ Hm)) as H0. rewrite Hc in H0. lia. }
    pose proof (thread_yield_handed s n c Hm Hc) as Hw. unfold wp in Hw. rewrite Hy in Hw. destruct Hw as [H1 H2].
    split; [by eapply machine_yield|]. destruct (machine_current s n c Hm Hc) as [Hcn Hc8].
    unfold yielded in H1. unfold handed_over in H2. destruct (round_robin (k_sched s) c n) as [j|]; [|by rewrite H2].
    destruct H1 as (_ & Hsw & _). unfold switched in Hsw. pose proof (mc_running _ _ Hm c Hc).
    destruct Hp as [P1 P2]. destruct (decide (c = j)) as [<-|Hne].
    + destruct H2 as [_ E]. split; [by rewrite Hsw|by rewrite E].
    + destruct H2 as (_ & _ & Hmem). split.
      * rewrite Hsw. cbn. by rewrite saved_rsp_lookup, decide_False by congruence.
      * apply (parked_kept s s' c); [lia|lia|congruence|lia|exact Hmem|exact P2].
Qed.

(** While others run, a parked thread stays parked. *)
Lemma machine_away n a sp ws s s' : (a < n)%nat -> rtc (away n a) s s' -> current (k_sched s) <> Some a ->
  machine s n -> parked_at s a sp ws -> machine s' n /\ parked_at s' a sp ws.
Proof.
  intros Ha Hsteps. induction Hsteps as [s|s1 s2 s3 H12 _ IH]; intros Hc Hm Hp; [done|].
  destruct (machine_step n a sp ws s1 s2 Ha H12 Hc Hm Hp) as [Hm2 Hp2]. apply IH; [apply H12|done|done].
Qed.

(** *** Words on a stack *)

Lemma callee_saved_restored (f g : regs) r :
  r ∈ callee_saved -> load_regs callee_saved (map f callee_saved) g r = f r.
Proof.
  unfold callee_saved. intros Hr. repeat (apply elem_of_cons in Hr as [->|Hr]; [reflexivity|]).
  by apply not_elem_of_nil in Hr.
Qed.

Lemma suspended_app lo hi sp ws vs m :
  suspended lo hi sp ws m -> suspended lo hi (sp + 8 * Z.of_nat (length ws)) vs m -> suspended lo hi sp (ws ++ vs) m.
Proof.
  intros (A1 & A2 & A3 & A4) (B1 & B2 & B3 & B4). split_and!; [done|rewrite length_app; lia|by apply Forall_app|].
  intros i w [Hi|[Hl Hi]]%lookup_app_Some; [by apply A4|]. rewrite <- (B4 _ _ Hi). do 2 f_equal. lia.
Qed.
Lemma suspended_prefix lo hi sp ws vs m : suspended lo hi sp (ws ++ vs) m -> suspended lo hi sp ws m.
Proof.
  intros (A1 & A2 & A3 & A4). rewrite length_app in A2. apply Forall_app in A3 as [A3 _].
  split_and!; [done|lia|done|]. intros i w Hi. apply A4. by apply lookup_app_l_Some.
Qed.
Lemma suspended_drop lo hi sp ws vs m :
  suspended lo hi sp (ws ++ vs) m -> suspended lo hi (sp + 8 * Z.of_nat (length ws)) vs m.
Proof.
  intros (A1 & A2 & A3 & A4). rewrite length_app in A2. apply Forall_app in A3 as [_ A3].
  split_and!; [lia|lia|done|]. intros i w Hi. rewrite <- (A4 (length ws + i)%nat w).
  - do 2 f_equal. lia.
  - rewrite lookup_app_r by lia. by replace (length ws + i - length ws)%nat with i by lia.
Qed.
Lemma suspended_above lo hi top vs m m' : window_ok lo hi -> lo <= top ->
  mem_above lo top m m' -> suspended lo hi top vs m -> suspended lo hi top vs m'.
Proof.
  intros (_ & _ & Hk) Hlo Hm (A1 & A2 & A3 & A4). split_and!; [done..|]. intros i w Hi. rewrite <- (A4 i w Hi).
  apply load_le_ext. intros x Hx. apply Hm. pose proof (lookup_lt_Some _ _ _ Hi). rewrite Hk in Hx by lia. lia.
Qed.

(** Thread [a] when it has yielded: parked with its registers, its return address and
    the words it had on its stack. *)
Lemma yielded_parks s n a s1 vs : machine s n -> current (k_sched s) = Some a ->
  stk (stack_lo a) (stack_hi a) s vs -> thread_yield s = Ret true s1 ->
  machine s1 n /\ current (k_sched s1) <> Some a /\ parked_at s1 a (k_regs s RSP - 56) (yield_frame s ++ vs).
Proof.
  intros Hm Hc Hs Hy. destruct (machine_current s n a Hm Hc) as [Han Ha8].
  pose proof (thread_yield_handed s n a Hm Hc) as Hw. unfold wp in Hw. rewrite Hy in Hw. destruct Hw as [H1 H2].
  split; [by eapply machine_yield|]. unfold yielded in H1. unfold handed_over in H2.
  destruct (round_robin (k_sched s) a n) as [j|] eqn:Ej; [|by destruct H1].
  destruct H1 as (Hb & Hsw & _). unfold switched in Hsw.
  destruct (decide (a = j)) as [->|Hne]; [by rewrite bool_decide_true in Hb|].
  destruct H2 as (_ & Hown & Hmem). pose proof (mc_running _ _ Hm a Hc) as Hroom.
  pose proof (stack_window a Hst Ha8) as Hw. destruct (rg_next _ _ (mc_ring _ _ Hm) a Han) as (t & Ht & _).
  split; [rewrite Hsw; cbn; congruence|]. split.
  - rewrite Hsw. cbn. rewrite saved_rsp_lookup, decide_True, Ht by done. cbn. unfold yield_rsp.
    rewrite u64_small; [done|]. destruct Hw as (? & ? & _). lia.
  - apply suspended_app; [exact Hown|]. change (Z.of_nat (length (yield_frame s))) with 7.
    replace (k_regs s RSP - 56 + 8 * 7) with (k_regs s RSP) by lia.
    eapply suspended_above; [exact Hw|lia|exact Hmem|exact Hs].
Qed.

(** It resumes when a switch comes back to it. *)
Lemma parked_resumes s n c a sp (f : regs) vs s' : machine s n -> current (k_sched s) = Some c -> c <> a ->
  parked_at s a sp ((map f callee_saved ++ [sym_yield_return]) ++ vs) -> thread_yield s = Ret true s' ->
  current (k_sched s') = Some a ->
  k_regs s' RIP = sym_yield_return /\ k_regs s' RSP = sp + 56 /\
  (forall r, r ∈ callee_saved -> k_regs s' r = f r) /\ stk (stack_lo a) (stack_hi a) s' vs.
Proof.
  intros Hm Hc Hne [P1 P2] Hy Ha. destruct (machine_current s n c Hm Hc) as [Hcn Hc8].
  pose proof (thread_yield_spec s n c (mc_ring _ _ Hm) Hc) as Hspec. unfold wp in Hspec. rewrite Hy in Hspec.
  unfold yielded in Hspec. destruct (round_robin (k_sched s) c n) as [j|] eqn:Ej; [|by destruct Hspec].
  destruct Hspec as (_ & Hsw & _). unfold switched in Hsw. assert (j = a) as ->.
  { rewrite Hsw in Ha. cbn in Ha. by injection Ha. }
  destruct (round_robin_some _ _ _ _ Hcn Ej) as (Han & _). pose proof (rg_max _ _ (mc_ring _ _ Hm)).
  destruct (threads (k_sched s) !! a) as [t|] eqn:Et; [|done]. injection P1 as E.
  pose proof (thread_yield_switch s n c a t (map f callee_saved) sym_yield_return Hm Hc Ej Hne Et eq_refl) as Hw.
  rewrite E in Hw. specialize (Hw (suspended_prefix _ _ _ _ _ _ P2)). unfold wp in Hw. rewrite Hy in Hw.
  destruct Hw as (Hr & _ & Hmem). pose proof (mc_running _ _ Hm c Hc) as Hroom.
  split_and!; [by rewrite Hr|by rewrite Hr| |].
  - intros r Hin. rewrite Hr. pose proof (callee_saved_restored f (k_regs s) r Hin) as Er.
    destruct r; try exact Er; exfalso; revert Hin; by apply (bool_decide_unpack _).
  - pose proof (parked_kept s s' c a _ _ Hc8 ltac:(lia) Hne ltac:(lia) Hmem P2) as P3. apply suspended_drop in P3.
    eapply suspended_stk; [exact P3|]. rewrite Hr. cbn [resumed]. rewrite length_app. cbn. lia.
Qed.
End machine.

(** ** The three threads of the demonstration, on their stacks *)

(** Whatever is in memory, a thread whose stack pointer is in its stack is parked. *)
Lemma parked_any {P : Platform} s i t :
  threads (k_sched s) !! i = Some t -> stack_lo i <= t_rsp t -> t_rsp t + 56 <= stack_hi i ->
  exists ws, length ws = 7%nat /\ parked s i ws.
Proof.
  intros Ht H1 H2. exists ((fun k => load64 (kmap (t_rsp t + 8 * Z.of_nat k)) (k_mem s)) <$> seq 0 7).
  split; [done|]. exists t. split; [done|]. split_and!; [done|cbn; lia| |].
  - apply Forall_forall. intros w (k & -> & _)%list_elem_of_fmap. apply load64_range.
  - intros k w Hk. rewrite list_lookup_fmap in Hk. destruct (seq 0 7 !! k) as [k'|] eqn:E; [|done].
    apply lookup_seq in E as [-> _]. by injection Hk as <-.
Qed.

(** A thread that changes RBX. *)
Lemma rbx_step {P : Platform} n c s v : machine s n -> current (k_sched s) = Some c -> 0 <= v < 18446744073709551616 ->
  local_step n c s (set_regs (rset RBX v) s).
Proof.
  intros Hm Hc Hv. constructor; [apply Hm|done|done| |exact (mc_running _ _ Hm c Hc)|done].
  intros r. cbn. unfold rset. case_decide; [done|apply Hm].
Qed.

Lemma demo_yield_sym : 0 <= sym_yield_return < 18446744073709551616.
Proof. vm_compute. split; congruence. Qed.

Lemma demo_machine : machine demo_three 3.
Proof.
  constructor.
  - exact demo_three_ring.
  - intros []; vm_compute; split; congruence.
  - intros c [= <-]. vm_compute. split; congruence.
  - intros i Hi Hc. destruct i as [|[|[|i]]]; [done|..|lia];
      (eapply parked_any; [reflexivity|vm_compute; congruence|vm_compute; congruence]).
Qed.

(** Thread 0 yields to thread 2, which changes RBX and yields back. *)
Lemma demo_away : exists s1, thread_yield demo_three = Ret true s1 /\ machine s1 3 /\
  k_sched s1 = with_current (Some 2%nat) (with_threads (saved_rsp 0 (yield_rsp demo_three)) (k_sched demo_three)).
Proof.
  destruct (wp_inv _ _ _ (thread_yield_handed demo_stacks_ok demo_yield_sym demo_three 3 0 demo_machine eq_refl)) as (b & s1 & E & Hy & Hh).
  pose proof (machine_yield demo_stacks_ok _ _ _ _ _ demo_machine eq_refl Hy Hh) as Hm.
  unfold yielded in Hy. change (round_robin (k_sched demo_three) 0 3) with (Some 2%nat) in Hy.
  destruct Hy as (-> & Hsw & _). exists s1. split_and!; [exact E|exact Hm|exact Hsw].
Qed.

Lemma demo_round : exists s1 s3, thread_yield demo_three = Ret true s1 /\
  rtc (away 3 0) s1 (set_regs (rset RBX 5) s1) /\
  thread_yield (set_regs (rset RBX 5) s1) = Ret true s3 /\ current (k_sched s3) = Some 0%nat.
Proof.
  destruct demo_away as (s1 & E1 & Hm & E). assert (Hc : current (k_sched s1) = Some 2%nat) by (by rewrite E).
  assert (Hl : local_step 3 2 s1 (set_regs (rset RBX 5) s1)) by (apply rbx_step; [exact Hm|exact Hc|lia]).
  destruct (machine_local demo_stacks_ok 3 2 s1 _ Hc Hm Hl) as [Hm2 _].
  destruct (wp_inv _ _ _ (thread_yield_spec _ 3 2 (mc_ring _ _ Hm2) Hc)) as (b & s3 & E3 & Hy).
  unfold yielded in Hy. cbn [k_sched set_regs] in Hy. rewrite E in Hy.
  change (round_robin _ 2 3) with (Some 0%nat) in Hy. destruct Hy as (-> & Hsw & _).
  exists s1, s3. split_and!; [exact E1| |exact E3|by rewrite Hsw].
  apply rtc_once. split; [by apply (step_local 3 _ _ 2)|cbn [k_sched set_regs]; rewrite Hc; discriminate].
Qed.

(** ** Properties *)

(** C25: thread_yield hands the processor over.  The thread round robin prescribes
    becomes current, with its kernel stack in the TSS if it is a user thread, and the
    processor goes on at the return address of that thread, with the callee-saved
    registers and the stack pointer it was parked with; the caller is parked, its saved
    stack pointer leading to its own callee-saved registers and return address, and
    memory changes only below its stack pointer.  If the caller is the only runnable
    thread it goes on with its registers and memory as they were; with no runnable
    thread nothing happens.  No thread's state, queue or message is touched, and the
    invariant of the threads on their stacks is kept. *)
Theorem thread_yield_correct {P : Platform} (s : kstate) (n c : nat) :
  stacks_ok -> 0 <= sym_yield_return < 18446744073709551616 ->
  machine s n -> current (k_sched s) = Some c ->
  wp thread_yield s (fun b s' =>
    yielded s n c b s' /\ handed_over s n c s' /\ machine s' n /\
    (forall i, runnable (k_sched s') i = runnable (k_sched s) i) /\
    ports (k_sched s') = ports (k_sched s) /\ message_pool (k_sched s') = message_pool (k_sched s)).
Proof.
  intros Hst Hsym Hm Hc. destruct (machine_current s n c Hm Hc) as [Hlt _].
  wp_call (thread_yield_handed Hst Hsym s n c); [done|done|]. intros b s' [Hy Hh]. split; [done|]. split; [done|].
  split; [by eapply machine_yield|].
  unfold yielded in Hy. destruct (round_robin (k_sched s) c n) as [j|] eqn:Ej; [|by destruct Hy as [_ ->]].
  destruct Hy as (_ & Hsw & _). split_and!.
  - intros i. by eapply switched_runnable.
  - rewrite Hsw. by destruct (decide (c = j)).
  - rewrite Hsw. by destruct (decide (c = j)).
Qed.

Lemma thread_yield_correct_witness :
  wp thread_yield demo_three (fun b s' => b = true /\ current (k_sched s') = Some 2%nat /\
    k_regs s' RSP = 0xFFFFFFFF80013000 /\ machine s' 3).
Proof.
  refine (wp_mono _ _ _ _ (thread_yield_correct demo_three 3 0 demo_stacks_ok demo_yield_sym demo_machine eq_refl) _).
  intros b s' (Hy & Hh & Hm & _). unfold yielded in Hy. unfold handed_over in Hh.
  change (round_robin (k_sched demo_three) 0 3) with (Some 2%nat) in Hy, Hh.
  destruct Hy as (-> & -> & _). cbv beta iota in Hh. rewrite decide_False in Hh by done.
  destruct Hh as ((t & ws & ra & Ht & _ & _ & Hr) & _). split_and!; [reflexivity|reflexivity| |exact Hm].
  rewrite Hr. injection Ht as <-. reflexivity.
Defined.

(** C10: A thread that is switched away and back resumes as if thread_yield had done
    nothing: thread [a] yields; then the other threads run, in any order and for any
    number of steps, each on its own stack, yielding as they like; when one of their
    yields gives the processor back to [a], execution goes on behind the call of
    context_switch in thread_yield with [a]'s stack pointer and callee-saved registers,
    and the words on its stack are those that were there. *)
Theorem context_switch_roundtrip {P : Platform} (s s1 s2 s3 : kstate) (n a : nat) (vs : list Z) :
  stacks_ok -> 0 <= sym_yield_return < 18446744073709551616 ->
  machine s n -> current (k_sched s) = Some a -> stk (stack_lo a) (stack_hi a) s vs ->
  thread_yield s = Ret true s1 -> rtc (away n a) s1 s2 ->
  thread_yield s2 = Ret true s3 -> current (k_sched s3) = Some a ->
  k_regs s3 RIP = sym_yield_return /\ k_regs s3 RSP = k_regs s RSP /\
  (forall r, r ∈ callee_saved -> k_regs s3 r = k_regs s r) /\
  stk (stack_lo a) (stack_hi a) s3 vs.
Proof.
  intros Hst Hsym Hm Hc Hs H01 H12 H23 Ha.
  destruct (yielded_parks Hst Hsym s n a s1 vs Hm Hc Hs H01) as (Hm1 & Hc1 & Hp1).
  destruct (machine_current s n a Hm Hc) as [Han _].
  destruct (machine_away Hst Hsym n a _ _ s1 s2 Han H12 Hc1 Hm1 Hp1) as (Hm2 & Hp2).
  assert (Hc2 : current (k_sched s2) <> Some a).
  { clear - H12 Hc1. induction H12 as [|x y z Hxy _ IH]; [done|]. apply IH, Hxy. }
  destruct (current (k_sched s2)) as [c|] eqn:E2.
  2:{ pose proof (rg_current _ _ (mc_ring _ _ Hm2)) as H0. rewrite E2 in H0. lia. }
  destruct (parked_resumes Hst Hsym s2 n c a _ (k_regs s) vs s3 Hm2 E2 ltac:(congruence) Hp2 H23 Ha) as (R1 & R2 & R3 & R4).
  split_and!; [done|rewrite R2; lia|done|done].
Qed.

Lemma context_switch_roundtrip_witness :
  exists s1 s3, thread_yield demo_three = Ret true s1 /\ thread_yield (set_regs (rset RBX 5) s1) = Ret true s3 /\
    k_regs s3 RSP = 0xFFFFFFFF80010F00 /\ k_regs s3 RBX = 0xB0 /\ k_regs s3 R12 = 0x12.
Proof.
  destruct demo_round as (s1 & s3 & E1 & Hr & E3 & Hc). exists s1, s3.
  destruct (context_switch_roundtrip demo_three s1 (set_regs (rset RBX 5) s1) s3 3 0 []
    demo_stacks_ok demo_yield_sym demo_machine eq_refl) as (_ & R1 & R2 & _); [|exact E1|exact Hr|exact E3|exact Hc|].
  - apply stk_nil. vm_compute. split; congruence.
  - split_and!; [exact E1|exact E3|exact R1|rewrite R2; [reflexivity|]|rewrite R2; [reflexivity|]];
      apply (bool_decide_unpack _); exact I.
Defined.
