(* ===== verification/Ipc.v ===== *)
(** * Ports and messages (kernel/thread.c)

    A [Port *] is an index into [ports] and a [Message *] of the kernel an index
    into [message_pool]; the queue of a port is the chain of [next] fields from
    its head.  The destination of recv is an address. *)
From S2P Require Import Prelude Memory State Demo Cpu Pointer Thread.

(** ** Access to the arrays *)

Definition get_port (p : nat) : K Port := o <- sched (fun v => ports v !! p) ;; need OutOfBounds o.
Definition upd_port (p : nat) (f : Port -> Port) : K unit :=
  x <- get_port p ;; upd_sched (with_ports (<[p := f x]>)).
Definition get_message (m : nat) : K Message :=
  o <- sched (fun v => message_pool v !! m) ;; need OutOfBounds o.
Definition upd_message (m : nat) (f : Message -> Message) : K unit :=
  x <- get_message m ;; upd_sched (with_pool (<[m := f x]>)).

Definition with_head (h : option nat) (p : Port) : Port :=
  mkPort h (queue_tail p) (message_count p) (blocked_thread p).
Definition with_tail (t : option nat) (p : Port) : Port :=
  mkPort (queue_head p) t (message_count p) (blocked_thread p).
Definition with_count (f : Z -> Z) (p : Port) : Port :=
  mkPort (queue_head p) (queue_tail p) (f (message_count p)) (blocked_thread p).

(** ** Operations *)

Definition message_alloc : K (option nat) :=
  n <- sched message_pool_next ;;
  if n >=? MAX_MESSAGES then ret None
  else
    upd_sched (with_pool_next (n + 1)) ;;;
    upd_message (Z.to_nat n) (with_msg_next None) ;;;
    ret (Some (Z.to_nat n)).

Definition message_free (m : nat) : K unit := ret tt.

Definition port_create : K (option nat) :=
  n <- sched port_count ;;
  if n >=? MAX_PORTS then ret None
  else
    upd_sched (with_port_count (n + 1)) ;;;
    upd_port (Z.to_nat n) (fun _ => mkPort None None 0 None) ;;;
    ret (Some (Z.to_nat n)).

(** The loop over the queue of a port that is destroyed. *)
Fixpoint free_queue (fuel : nat) (msg : option nat) : K unit :=
  match msg with
  | None => ret tt
  | Some m =>
      match fuel with
      | O => starve
      | S fuel => x <- get_message m ;; message_free m ;;; free_queue fuel (msg_next x)
      end
  end.

(** [t->state = THREAD_RUNNING; t->waiting_on_port = NULL]. *)
Definition wake (t : nat) : K unit :=
  upd_thread t (with_state THREAD_RUNNING) ;;; upd_thread t (with_waiting None).

Definition port_destroy (port : option nat) : K unit :=
  match port with
  | None => ret tt
  | Some p =>
      x <- get_port p ;;
      free_queue (Z.to_nat MAX_MESSAGES) (queue_head x) ;;;
      match blocked_thread x with Some t => wake t | None => ret tt end ;;;
      upd_port p (with_head None) ;;;
      upd_port p (with_tail None) ;;;
      upd_port p (with_count (fun _ => 0)) ;;;
      upd_port p (with_blocked None)
  end.

Definition port_to_id (port : option nat) : Z :=
  match port with
  | None => 0
  | Some p => let index := u32 (Z.of_nat p) in if index >=? MAX_PORTS then 0 else u32 (index + 1)
  end.

Definition port_from_id (id : Z) : option nat :=
  if (id =? 0) || (id >? MAX_PORTS) then None else Some (Z.to_nat (id - 1)).

Definition send (port : option nat) (id d0 d1 d2 d3 : Z) : K Z :=
  match port with
  | None => ret (-1)
  | Some p =>
      msg <- message_alloc ;;
      match msg with
      | None => ret (-2)
      | Some m =>
          upd_message m (fun _ => mkMessage id [d0; d1; d2; d3] None) ;;;
          x <- get_port p ;;
          match blocked_thread x with
          | Some blocked => wake blocked ;;; upd_port p (with_blocked None)
          | None => ret tt
          end ;;;
          match queue_tail x with
          | Some t =>
              upd_message t (with_msg_next (Some m)) ;;;
              upd_port p (with_tail (Some m))
          | None =>
              upd_port p (with_head (Some m)) ;;;
              upd_port p (with_tail (Some m))
          end ;;;
          upd_port p (with_count (fun c => i32 (c + 1))) ;;;
          ret 0
      end
  end.

(** What a kernel call does for its caller: it returns a value, or the processor
    has gone to another thread and the rest of the call runs when the caller is
    resumed. *)
Inductive flow := Returns (v : Z) | Suspended.

Section recv.
Context {P : Platform}.

(** The block of recv that takes the first message, if there is one; it occurs
    before and after the wait. *)
Definition recv_take (p : nat) (msg_out : Z) : K bool :=
  x <- get_port p ;;
  match queue_head x with
  | None => ret false
  | Some m =>
      msg <- get_message m ;;
      upd_port p (with_head (msg_next msg)) ;;;
      (when bool_decide (msg_next msg = None) do upd_port p (with_tail None)) ;;;
      upd_port p (with_count (fun c => i32 (c - 1))) ;;;
      vwr32 msg_out (msg_id msg) ;;;
      d0 <- need OutOfBounds (msg_data msg !! 0%nat) ;; vwr32 (u64 (msg_out + 4)) d0 ;;;
      d1 <- need OutOfBounds (msg_data msg !! 1%nat) ;; vwr32 (u64 (msg_out + 8)) d1 ;;;
      d2 <- need OutOfBounds (msg_data msg !! 2%nat) ;; vwr32 (u64 (msg_out + 12)) d2 ;;;
      d3 <- need OutOfBounds (msg_data msg !! 3%nat) ;; vwr32 (u64 (msg_out + 16)) d3 ;;;
      message_free m ;;;
      ret true
  end.

(** recv after thread_yield has returned. *)
Definition recv_resume (p : nat) (msg_out : Z) : K Z :=
  got <- recv_take p msg_out ;;
  ret (if (got : bool) then 0 else -4).

Definition recv (port : option nat) (msg_out : Z) : K flow :=
  match port with
  | None => ret (Returns (-1))
  | Some p =>
      if msg_out =? 0 then ret (Returns (-1))
      else
        got <- recv_take p msg_out ;;
        if (got : bool) then ret (Returns 0)
        else
          cur <- sched current ;;
          match cur with
          | None => ret (Returns (-2))
          | Some c =>
              x <- get_port p ;;
              match blocked_thread x with
              | Some _ => ret (Returns (-3))
              | None =>
                  upd_thread c (with_state THREAD_BLOCKED) ;;;
                  upd_thread c (with_waiting (Some p)) ;;;
                  upd_port p (with_blocked (Some c)) ;;;
                  switched <- thread_yield ;;
                  if (switched : bool) then ret Suspended
                  else v <- recv_resume p msg_out ;; ret (Returns v)
              end
          end
  end.
End recv.

(** ** The queues *)

(** The message indices in a chain of [next] fields. *)
Fixpoint follow (fuel : nat) (pool : list Message) (h : option nat) : list nat :=
  match fuel, h with
  | S fuel, Some m => m :: match pool !! m with Some x => follow fuel pool (msg_next x) | None => [] end
  | _, _ => []
  end.
Fixpoint chain (pool : list Message) (h : option nat) (l : list nat) : Prop :=
  match l with
  | [] => h = None
  | m :: l => h = Some m /\ exists x, pool !! m = Some x /\ chain pool (msg_next x) l
  end.

(** A message as the two sides see it. *)
Definition payload := (Z * list Z)%type.
Definition payload_of (x : Message) : payload := (msg_id x, msg_data x).

(** The messages waiting at port [p], first one first. *)
Definition waiting (v : sched_vars) (p : nat) : list payload :=
  match ports v !! p with
  | Some x => omap (fun m => payload_of <$> message_pool v !! m) (follow 64 (message_pool v) (queue_head x))
  | None => []
  end.

(** The queue of port [p] is the chain [l]. *)
Definition queue_is (v : sched_vars) (p : nat) (l : list nat) : Prop :=
  exists x, ports v !! p = Some x /\ chain (message_pool v) (queue_head x) l /\
    queue_tail x = last l /\ message_count x = Z.of_nat (length l).

(** A message holds 32-bit words. *)
Definition is_u32 (z : Z) : Prop := 0 <= z < 4294967296.
Definition message_ok (x : Message) : Prop :=
  length (msg_data x) = 4%nat /\ is_u32 (msg_id x) /\ Forall is_u32 (msg_data x).

(** Well-formed ports: each has its own chain of messages, drawn from the part of
    the pool that was handed out. *)
Record ipc_ok (v : sched_vars) (q : nat -> list nat) : Prop := {
  ip_ports : length (ports v) = 16%nat;
  ip_pool : length (message_pool v) = 64%nat;
  ip_threads : length (threads v) = 8%nat;
  ip_next : 0 <= message_pool_next v <= 64;
  ip_data : Forall message_ok (message_pool v);
  ip_queue : forall p, (p < 16)%nat -> queue_is v p (q p);
  ip_nodup : forall p, (p < 16)%nat -> NoDup (q p);
  ip_apart : forall p1 p2 m, (p1 < 16)%nat -> (p2 < 16)%nat -> m ∈ q p1 -> m ∈ q p2 -> p1 = p2;
  ip_used : forall p m, (p < 16)%nat -> m ∈ q p -> Z.of_nat m < message_pool_next v;
  ip_blocked : forall p x t, ports v !! p = Some x -> blocked_thread x = Some t -> (t < 8)%nat;
}.

(** ** Chains *)

Lemma chain_ext pool pool' h l :
  (forall m, m ∈ l -> pool' !! m = pool !! m) -> chain pool h l -> chain pool' h l.
Proof.
  revert h. induction l as [|m l IH]; intros h H; [done|]. intros (-> & x & Hx & Hc).
  split; [done|]. exists x. split; [rewrite H; [done|by constructor]|].
  apply IH; [|done]. intros m' Hm'. apply H. by apply list_elem_of_further.
Qed.

Lemma chain_follow n pool h l : chain pool h l -> (length l <= n)%nat -> follow n pool h = l.
Proof.
  revert n h. induction l as [|m l IH]; intros n h; simpl.
  - intros -> _. by destruct n.
  - intros (-> & x & Hx & Hc) Hn. destruct n as [|n]; [lia|]. simpl. rewrite Hx. f_equal.
    apply IH; [done|lia].
Qed.

Lemma chain_lookup pool h l m : chain pool h l -> m ∈ l -> exists x, pool !! m = Some x.
Proof.
  revert h. induction l as [|m' l IH]; intros h Hc Hm; [by apply not_elem_of_nil in Hm|].
  destruct Hc as (_ & x & Hx & Hc). apply elem_of_cons in Hm as [->|Hm]; [by exists x|by eapply IH].
Qed.

(** The first cell points to [m]; everything else is unchanged along the chain. *)
Lemma chain_snoc pool h l t m new :
  chain pool h l -> last l = Some t -> NoDup l -> m ∉ l ->
  (m < length pool)%nat -> msg_next new = None ->
  chain (alter (with_msg_next (Some m)) t (<[m := new]> pool)) h (l ++ [m]).
Proof.
  intros Hc Hl Hnd Hm Hlt Hnew. revert h Hc. induction l as [|a l IH]; intros h Hc; [done|].
  destruct Hc as (-> & x & Hx & Hc). apply NoDup_cons in Hnd as [Ha Hnd].
  apply not_elem_of_cons in Hm as [Hma Hm]. cbn [app chain]. split; [done|].
  assert (Htm : t <> m).
  { intros ->. apply last_Some in Hl as [l' E].
    assert (m ∈ a :: l) as [?|?]%elem_of_cons; [|done|done].
    rewrite E. apply elem_of_app. right. by constructor. }
  destruct l as [|b l].
  - injection Hl as ->. exists (with_msg_next (Some m) x). split.
    + rewrite list_lookup_alter_eq, list_lookup_insert_ne by done. by rewrite Hx.
    + cbn [app chain msg_next with_msg_next]. split; [done|]. exists new. split; [|done].
      rewrite list_lookup_alter_ne by done. by apply list_lookup_insert_eq.
  - assert (Hat : t <> a).
    { intros ->. change (last (b :: l) = Some a) in Hl. apply last_Some in Hl as [l' E]. apply Ha.
      rewrite E. apply elem_of_app. right. by constructor. }
    exists x. split; [by rewrite list_lookup_alter_ne, list_lookup_insert_ne by congruence|].
    by apply IH.
Qed.

Lemma queue_bounded (l : list nat) : NoDup l -> (forall m, m ∈ l -> (m < 64)%nat) -> (length l <= 64)%nat.
Proof.
  intros Hnd Hlt. rewrite <- (length_seq 64 0). apply submseteq_length, NoDup_submseteq; [done|].
  intros m Hm. apply elem_of_seq. specialize (Hlt m Hm). lia.
Qed.

Section queues.
Context (v : sched_vars) (q : nat -> list nat) (Hok : ipc_ok v q).

Lemma ipc_used p m : (p < 16)%nat -> m ∈ q p -> (m < 64)%nat.
Proof. intros Hp Hm. pose proof (ip_used _ _ Hok p m Hp Hm). pose proof (ip_next _ _ Hok). lia. Qed.

Lemma ipc_length p : (p < 16)%nat -> (length (q p) <= 64)%nat.
Proof. intros Hp. apply queue_bounded; [by apply (ip_nodup _ _ Hok)|]. intros m. by apply ipc_used. Qed.

Lemma waiting_eq p : (p < 16)%nat ->
  waiting v p = omap (fun m => payload_of <$> message_pool v !! m) (q p).
Proof.
  intros Hp. destruct (ip_queue _ _ Hok p Hp) as (x & Hx & Hc & _). unfold waiting. rewrite Hx.
  by rewrite (chain_follow 64 _ _ _ Hc (ipc_length p Hp)).
Qed.
End queues.

Lemma omap_pool_ext (pool pool' : list Message) (l : list nat) :
  (forall m, m ∈ l -> payload_of <$> pool' !! m = payload_of <$> pool !! m) ->
  omap (fun m => payload_of <$> pool' !! m) l = omap (fun m => payload_of <$> pool !! m) l.
Proof.
  intros H. induction l as [|m l IH]; [done|]. cbn. rewrite H by (by constructor).
  rewrite IH; [done|]. intros m' Hm'. apply H. by apply list_elem_of_further.
Qed.

(** ** Enqueueing and dequeueing, on the variables *)

Definition set_queue (q : nat -> list nat) (p : nat) (l : list nat) : nat -> list nat :=
  fun p' => if decide (p' = p) then l else q p'.

(** Appending a fresh message to the queue of [p]. *)
Section enqueue.
Context (v v' : sched_vars) (q : nat -> list nat) (p m : nat) (x : Port) (new : Message).
Context (Hok : ipc_ok v q) (Hp : (p < 16)%nat) (Hx : ports v !! p = Some x).
Context (Hm : Z.of_nat m = message_pool_next v) (Hm64 : (m < 64)%nat).
Context (Hnew : msg_next new = None) (Hdata : message_ok new).
Context (Hpool : message_pool v' =
  match queue_tail x with
  | Some t => alter (with_msg_next (Some m)) t (<[m := new]> (message_pool v))
  | None => <[m := new]> (message_pool v)
  end).
Context (Hports : ports v' = <[p := mkPort
  (match queue_tail x with Some _ => queue_head x | None => Some m end) (Some m)
  (i32 (message_count x + 1)) None]> (ports v)).
Context (Hnext : message_pool_next v' = message_pool_next v + 1).
Context (Hthreads : length (threads v') = 8%nat).

Let q' := set_queue q p (q p ++ [m]).

Lemma enqueue_fresh p' : (p' < 16)%nat -> m ∉ q p'.
Proof. intros Hp' Hin. pose proof (ip_used _ _ Hok p' m Hp' Hin). lia. Qed.

Lemma enqueue_pool_other m' : m' <> m -> queue_tail x <> Some m' ->
  message_pool v' !! m' = message_pool v !! m'.
Proof.
  intros H1 H2. rewrite Hpool. destruct (queue_tail x) as [t|].
  - by rewrite list_lookup_alter_ne, list_lookup_insert_ne by congruence.
  - by rewrite list_lookup_insert_ne.
Qed.

Lemma enqueue_payload m' : m' <> m ->
  payload_of <$> message_pool v' !! m' = payload_of <$> message_pool v !! m'.
Proof.
  intros H1. destruct (decide (queue_tail x = Some m')) as [Ht|Ht];
    [|by rewrite enqueue_pool_other].
  rewrite Hpool, Ht, list_lookup_alter_eq, list_lookup_insert_ne by done.
  by destruct (message_pool v !! m').
Qed.

Lemma enqueue_payload_new : payload_of <$> message_pool v' !! m = Some (payload_of new).
Proof.
  assert (Hl : (m < length (message_pool v))%nat) by (rewrite (ip_pool _ _ Hok); done).
  rewrite Hpool. destruct (queue_tail x) as [t|] eqn:Et; [|by rewrite list_lookup_insert_eq].
  destruct (decide (t = m)) as [->|Hne].
  - rewrite list_lookup_alter_eq, list_lookup_insert_eq by done. done.
  - by rewrite list_lookup_alter_ne, list_lookup_insert_eq.
Qed.

Lemma tail_in_queue t : queue_tail x = Some t -> t ∈ q p.
Proof.
  intros Ht. destruct (ip_queue _ _ Hok p Hp) as (x' & Hx' & _ & Htl & _).
  rewrite Hx in Hx'. injection Hx' as <-. rewrite Ht in Htl. symmetry in Htl.
  apply last_Some in Htl as [l ->]. apply elem_of_app. right. by constructor.
Qed.

Lemma enqueue_chain : queue_is v' p (q p ++ [m]).
Proof.
  destruct (ip_queue _ _ Hok p Hp) as (x' & Hx' & Hc & Htl & Hcnt).
  rewrite Hx in Hx'. injection Hx' as <-.
  eexists. rewrite Hports, list_lookup_insert_eq by (rewrite (ip_ports _ _ Hok); done).
  split; [done|]. cbn [queue_head queue_tail message_count]. split_and!.
  - rewrite Hpool, Htl. destruct (last (q p)) as [t|] eqn:El.
    + apply chain_snoc; [done|done|by apply (ip_nodup _ _ Hok)|by apply enqueue_fresh
        |by rewrite (ip_pool _ _ Hok)|done].
    + apply last_None in El. rewrite El. cbn [app chain]. split; [done|]. exists new.
      split; [|done]. apply list_lookup_insert_eq. by rewrite (ip_pool _ _ Hok).
  - by rewrite last_snoc.
  - rewrite Hcnt, length_app. cbn [length]. pose proof (ipc_length v q Hok p Hp).
    rewrite i32_small; lia.
Qed.

Lemma enqueue_ok : ipc_ok v' q'.
Proof.
  pose proof Hok as [H1 H2 H3 H4 H5 H6 H7 H8 H9 H10]. constructor.
  - by rewrite Hports, length_insert.
  - rewrite Hpool. destruct (queue_tail x); by rewrite ?length_alter, length_insert.
  - done.
  - lia.
  - rewrite Hpool. assert (Hi : Forall message_ok (<[m:=new]> (message_pool v)))
      by by apply Forall_insert.
    destruct (queue_tail x); [|done]. apply Forall_alter; [done|]. by intros y _ ?.
  - intros p' Hp'. unfold q', set_queue. case_decide as E; [rewrite E; apply enqueue_chain|].
    destruct (H6 p' Hp') as (y & Hy & Hc & Ht & Hn). exists y.
    rewrite Hports, list_lookup_insert_ne by done. split_and!; [done| |done|done].
    apply (chain_ext (message_pool v)); [|done]. intros m' Hm'. apply enqueue_pool_other.
    + intros ->. by apply (enqueue_fresh p').
    + intros Htl. apply E. apply (H8 p' p m'); [done|done|done|by apply tail_in_queue].
  - intros p' Hp'. unfold q', set_queue. case_decide; [|by apply H7].
    apply NoDup_app. split_and!; [by apply H7| |apply NoDup_singleton].
    intros m' Hm' E. apply list_elem_of_singleton in E as ->. by apply (enqueue_fresh p).
  - intros p1 p2 m' Hp1 Hp2. unfold q', set_queue.
    assert (Hone : forall p', (p' < 16)%nat -> p' <> p -> m' ∈ q p ++ [m] -> m' ∈ q p' -> False).
    { intros p' Hp' Hne Hin Hin'. apply elem_of_app in Hin as [Hin|Hin].
      - apply Hne. by apply (H8 p' p m').
      - apply list_elem_of_singleton in Hin as ->. by apply (enqueue_fresh p'). }
    repeat case_decide; subst; try done.
    + intros I1 I2. exfalso. by eapply (Hone p2).
    + intros I1 I2. exfalso. by eapply (Hone p1).
    + by apply H8.
  - intros p' m' Hp'. unfold q', set_queue. case_decide.
    + intros [Hin|Hin]%elem_of_app; [pose proof (H9 p m' Hp Hin); lia|].
      apply list_elem_of_singleton in Hin as ->. lia.
    + intros Hin. pose proof (H9 p' m' Hp' Hin). lia.
  - intros p' y t Hy Ht. rewrite Hports in Hy. destruct (decide (p' = p)) as [->|Hne].
    + rewrite list_lookup_insert_eq in Hy by (rewrite H1; done). by injection Hy as <-.
    + rewrite list_lookup_insert_ne in Hy by done. by eapply H10.
Qed.

Lemma enqueue_waiting p' : (p' < 16)%nat ->
  waiting v' p' = if decide (p' = p) then waiting v p ++ [payload_of new] else waiting v p'.
Proof.
  intros Hp'. rewrite (waiting_eq v' q' enqueue_ok) by done. unfold q', set_queue.
  case_decide as E.
  - rewrite omap_app, (waiting_eq v q Hok) by done. f_equal.
    + apply omap_pool_ext. intros m' Hm'. apply enqueue_payload. intros ->. by apply (enqueue_fresh p).
    + cbn. by rewrite enqueue_payload_new.
  - rewrite (waiting_eq v q Hok) by done. apply omap_pool_ext.
    intros m' Hm'. apply enqueue_payload. intros ->. by apply (enqueue_fresh p').
Qed.
End enqueue.

(** Taking the first message off the queue of [p]. *)
Section dequeue.
Context (v v' : sched_vars) (q : nat -> list nat) (p m : nat) (x : Port) (msg : Message).
Context (Hok : ipc_ok v q) (Hp : (p < 16)%nat) (Hx : ports v !! p = Some x).
Context (Hhead : queue_head x = Some m) (Hmsg : message_pool v !! m = Some msg).
Context (Hpool : message_pool v' = message_pool v).
Context (Hports : ports v' = <[p := mkPort (msg_next msg)
  (if decide (msg_next msg = None) then None else queue_tail x)
  (i32 (message_count x - 1)) (blocked_thread x)]> (ports v)).
Context (Hnext : message_pool_next v' = message_pool_next v).
Context (Hthreads : threads v' = threads v).

Lemma dequeue_head : exists l, q p = m :: l.
Proof.
  destruct (ip_queue _ _ Hok p Hp) as (x' & Hx' & Hc & _). rewrite Hx in Hx'. injection Hx' as <-.
  destruct (q p) as [|m' l]; [simpl in Hc; congruence|]. destruct Hc as (E & _). exists l. congruence.
Qed.

Lemma dequeue_chain l : q p = m :: l -> queue_is v' p l.
Proof.
  intros El. pose proof (ipc_length v q Hok p Hp) as Hlen.
  destruct (ip_queue _ _ Hok p Hp) as (x' & Hx' & Hc & Htl & Hcnt).
  rewrite Hx in Hx'. injection Hx' as <-. rewrite El in *.
  destruct Hc as (_ & y & Hy & Hc). rewrite Hmsg in Hy. injection Hy as <-.
  eexists. rewrite Hports, list_lookup_insert_eq by (rewrite (ip_ports _ _ Hok); done).
  split; [done|]. cbn [queue_head queue_tail message_count]. split_and!.
  - by rewrite Hpool.
  - destruct l as [|m' l]; [simpl in Hc; by rewrite decide_True|].
    destruct Hc as (E & _). rewrite decide_False by congruence. exact Htl.
  - rewrite Hcnt. cbn [length] in *. rewrite i32_small; lia.
Qed.

Lemma dequeue_ok l : q p = m :: l -> ipc_ok v' (set_queue q p l).
Proof.
  intros El. pose proof Hok as [H1 H2 H3 H4 H5 H6 H7 H8 H9 H10].
  assert (Hsub : forall p' m', m' ∈ set_queue q p l p' -> m' ∈ q p').
  { intros p' m'. unfold set_queue. destruct (decide (p' = p)) as [->|]; [|tauto]. rewrite El.
    intros. by apply list_elem_of_further. }
  constructor; rewrite ?Hpool, ?Hnext, ?Hthreads; try done.
  - by rewrite Hports, length_insert.
  - intros p' Hp'. unfold set_queue.
    destruct (decide (p' = p)) as [->|]; [by apply dequeue_chain|].
    destruct (H6 p' Hp') as (y & Hy & Hrest). exists y.
    rewrite Hports, list_lookup_insert_ne, Hpool by done. done.
  - intros p' Hp'. unfold set_queue. destruct (decide (p' = p)) as [->|]; [|by apply H7].
    pose proof (H7 p Hp') as Hnd. rewrite El in Hnd. by apply NoDup_cons in Hnd as [_ ?].
  - intros p1 p2 m' Hp1 Hp2 I1 I2. by apply (H8 p1 p2 m'); auto.
  - intros p' m' Hp' Hin. by apply (H9 p'); auto.
  - intros p' y t Hy Ht. rewrite Hports in Hy. destruct (decide (p' = p)) as [->|Hne].
    + rewrite list_lookup_insert_eq in Hy by (rewrite H1; done). injection Hy as <-. by eapply H10.
    + rewrite list_lookup_insert_ne in Hy by done. by eapply H10.
Qed.

Lemma dequeue_waiting : waiting v p = payload_of msg :: waiting v' p.
Proof.
  destruct dequeue_head as [l El]. rewrite (waiting_eq v q Hok), El by done.
  rewrite (waiting_eq v' _ (dequeue_ok l El)) by done. unfold set_queue.
  rewrite decide_True, Hpool by done. cbn. by rewrite Hmsg.
Qed.

Lemma dequeue_waiting_other p' : (p' < 16)%nat -> p' <> p -> waiting v' p' = waiting v p'.
Proof.
  intros Hp' Hne. unfold waiting. by rewrite Hports, list_lookup_insert_ne, Hpool.
Qed.
End dequeue.

Lemma waiting_empty v q p x : ipc_ok v q -> (p < 16)%nat -> ports v !! p = Some x ->
  (waiting v p = [] <-> queue_head x = None).
Proof.
  intros Hok Hp Hx. destruct (ip_queue _ _ Hok p Hp) as (x' & Hx' & Hc & _).
  rewrite Hx in Hx'. injection Hx' as <-. rewrite (waiting_eq v q Hok) by done.
  destruct (q p) as [|m l]; [simpl in Hc; by rewrite Hc|]. destruct Hc as (E & y & Hy & _).
  rewrite E. cbn. by rewrite Hy.
Qed.

(** ** The calls *)

Section calls.
Context {P : Platform}.
Implicit Types s : kstate.

Lemma get_port_eq s p x : ports (k_sched s) !! p = Some x -> get_port p s = Ret x s.
Proof. intros H. unfold get_port, sched, bind, gets. by rewrite H. Qed.
Lemma upd_port_eq s p x f : ports (k_sched s) !! p = Some x ->
  upd_port p f s = Ret tt (set_sched (with_ports (<[p := f x]>)) s).
Proof. intros H. unfold upd_port. by rewrite (bind_ret _ _ _ _ _ (get_port_eq _ _ _ H)). Qed.
Lemma get_message_eq s m x : message_pool (k_sched s) !! m = Some x -> get_message m s = Ret x s.
Proof. intros H. unfold get_message, sched, bind, gets. by rewrite H. Qed.
Lemma upd_message_eq s m x f : message_pool (k_sched s) !! m = Some x ->
  upd_message m f s = Ret tt (set_sched (with_pool (<[m := f x]>)) s).
Proof. intros H. unfold upd_message. by rewrite (bind_ret _ _ _ _ _ (get_message_eq _ _ _ H)). Qed.

(** A blocked thread that is woken. *)
Definition woken (t : Thread) : Thread := with_waiting None (with_state THREAD_RUNNING t).
Definition wake_threads (b : option nat) (l : list Thread) : list Thread :=
  match b with Some t => alter woken t l | None => l end.

Lemma length_wake b l : length (wake_threads b l) = length l.
Proof. destruct b; [apply length_alter|done]. Qed.

Lemma alter_insert {A} (l : list A) i x f : l !! i = Some x -> <[i := f x]> l = alter f i l.
Proof.
  intros H. apply list_eq. intros j. destruct (decide (j = i)) as [->|Hne].
  - rewrite list_lookup_alter_eq, list_lookup_insert_eq, H; [done|]. by eapply lookup_lt_Some.
  - by rewrite list_lookup_alter_ne, list_lookup_insert_ne.
Qed.

Lemma wake_eq s t : (t < length (threads (k_sched s)))%nat ->
  wake t s = Ret tt (set_sched (with_threads (alter woken t)) s).
Proof.
  intros Ht. destruct (lookup_lt_is_Some_2 _ _ Ht) as [x Hx]. unfold wake.
  rewrite (bind_ret _ _ _ _ _ (upd_thread_eq s t x _ Hx)).
  erewrite upd_thread_eq by (cbn; by apply list_lookup_insert_eq).
  f_equal. destruct s as [? ? ? ? ? ? ? ? ? ? ? ? v ? ?]. unfold set_sched, with_threads. cbn. do 2 f_equal.
  rewrite list_insert_insert_eq. by apply (alter_insert _ _ _ woken).
Qed.

Lemma set_sched_id s f : f (k_sched s) = k_sched s -> set_sched f s = s.
Proof. intros E. destruct s. unfold set_sched. cbn in *. by rewrite E. Qed.

Lemma with_threads_id f v : f (threads v) = threads v -> with_threads f v = v.
Proof. intros E. destruct v. unfold with_threads. cbn in *. by rewrite E. Qed.
Lemma with_ports_id f v : f (ports v) = ports v -> with_ports f v = v.
Proof. intros E. destruct v. unfold with_ports. cbn in *. by rewrite E. Qed.

Lemma message_alloc_eq s n x :
  message_pool_next (k_sched s) = Z.of_nat n -> (n < 64)%nat -> message_pool (k_sched s) !! n = Some x ->
  message_alloc s = Ret (Some n) (set_sched (with_pool (<[n := with_msg_next None x]>))
    (set_sched (with_pool_next (Z.of_nat n + 1)) s)).
Proof.
  intros Hn Hlt Hx. unfold message_alloc, sched, upd_sched, bind, gets, modify. rewrite Hn.
  rewrite Z.geb_leb, (proj2 (Z.leb_gt _ _)) by (unfold MAX_MESSAGES; lia). rewrite Nat2Z.id.
  by erewrite upd_message_eq.
Qed.

(** What a successful send leaves. *)
Record sent s q p (d : payload) s' : Prop := {
  sn_ok : ipc_ok (k_sched s') (set_queue q p (q p ++ [Z.to_nat (message_pool_next (k_sched s))]));
  sn_waiting : forall p', (p' < 16)%nat -> waiting (k_sched s') p' =
    if decide (p' = p) then waiting (k_sched s) p ++ [d] else waiting (k_sched s) p';
  sn_threads : forall x, ports (k_sched s) !! p = Some x ->
    threads (k_sched s') = wake_threads (blocked_thread x) (threads (k_sched s));
  sn_unblocked : exists x, ports (k_sched s') !! p = Some x /\ blocked_thread x = None;
  sn_next : message_pool_next (k_sched s') = message_pool_next (k_sched s) + 1;
  sn_current : current (k_sched s') = current (k_sched s) /\
    thread_list (k_sched s') = thread_list (k_sched s) /\
    thread_count (k_sched s') = thread_count (k_sched s) /\
    port_count (k_sched s') = port_count (k_sched s);
  sn_frame : s' = set_sched (fun _ => k_sched s') s;
  sn_others : forall p', p' <> p -> ports (k_sched s') !! p' = ports (k_sched s) !! p';
}.

Lemma send_exhausted s p id d0 d1 d2 d3 :
  64 <= message_pool_next (k_sched s) -> send (Some p) id d0 d1 d2 d3 s = Ret (-2) s.
Proof.
  intros H. unfold send, message_alloc, sched, bind, gets.
  by rewrite Z.geb_leb, (proj2 (Z.leb_le _ _)) by done.
Qed.

(** The part of send after the allocation, as one update of the variables. *)
Lemma send_steps s q p n x id d0 d1 d2 d3 :
  ipc_ok (k_sched s) q -> (p < 16)%nat -> ports (k_sched s) !! p = Some x ->
  message_pool_next (k_sched s) = Z.of_nat n -> (n < 64)%nat ->
  exists v', send (Some p) id d0 d1 d2 d3 s = Ret 0 (set_sched (fun _ => v') s) /\
    message_pool v' = (match queue_tail x with
      | Some t => alter (with_msg_next (Some n)) t
                    (<[n := mkMessage id [d0; d1; d2; d3] None]> (message_pool (k_sched s)))
      | None => <[n := mkMessage id [d0; d1; d2; d3] None]> (message_pool (k_sched s)) end) /\
    ports v' = <[p := mkPort (match queue_tail x with Some _ => queue_head x | None => Some n end)
      (Some n) (i32 (message_count x + 1)) None]> (ports (k_sched s)) /\
    message_pool_next v' = message_pool_next (k_sched s) + 1 /\
    threads v' = wake_threads (blocked_thread x) (threads (k_sched s)) /\
    (current v' = current (k_sched s) /\ thread_list v' = thread_list (k_sched s) /\
     thread_count v' = thread_count (k_sched s) /\ port_count v' = port_count (k_sched s)).
Proof.
  intros Hok Hp Hx Hn Hlt.
  assert (Hlp : (n < length (message_pool (k_sched s)))%nat) by (rewrite (ip_pool _ _ Hok); done).
  assert (Hlq : (p < length (ports (k_sched s)))%nat) by (rewrite (ip_ports _ _ Hok); done).
  destruct (lookup_lt_is_Some_2 _ _ Hlp) as [y Hy]. unfold send.
  rewrite (bind_ret _ _ _ _ _ (message_alloc_eq s n y Hn Hlt Hy)).
  set (s1 := set_sched (with_pool _) _).
  assert (Hpool1 : message_pool (k_sched s1) !! n = Some (with_msg_next None y))
    by (cbn; by apply list_lookup_insert_eq).
  rewrite (bind_ret _ _ _ _ _ (upd_message_eq s1 n _ (fun _ => mkMessage id [d0; d1; d2; d3] None) Hpool1)).
  set (s2 := set_sched _ s1).
  rewrite (bind_ret _ _ _ _ _ (get_port_eq s2 p x Hx)).
  (* the blocked thread *)
  set (s3 := set_sched (with_ports (<[p := with_blocked None x]>))
    (set_sched (with_threads (wake_threads (blocked_thread x))) s2)).
  assert (E3 : (match blocked_thread x with
    | Some blocked => wake blocked ;;; upd_port p (with_blocked None)
    | None => ret tt end) s2 = Ret tt s3).
  { unfold s3. destruct (blocked_thread x) as [b|] eqn:Eb.
    - erewrite bind_ret; [|apply wake_eq; cbn; rewrite (ip_threads _ _ Hok); by eapply (ip_blocked _ _ Hok)].
      by rewrite (upd_port_eq _ p x).
    - assert (with_blocked None x = x) as -> by (destruct x; cbn in *; by rewrite Eb).
      unfold ret. f_equal. rewrite (set_sched_id s2 (with_threads (wake_threads None))) by (by apply with_threads_id).
      symmetry. apply set_sched_id, with_ports_id, list_insert_id. exact Hx. }
  rewrite (bind_ret _ _ _ _ _ E3). clear E3.
  assert (Hx3 : ports (k_sched s3) !! p = Some (with_blocked None x))
    by (cbn; by apply list_lookup_insert_eq).
  assert (Hm3 : message_pool (k_sched s3) = <[n := mkMessage id [d0; d1; d2; d3] None]> (message_pool (k_sched s)))
    by (cbn; by rewrite list_insert_insert_eq).
  (* the queue *)
  destruct (queue_tail x) as [t|] eqn:Et.
  - assert (Htin : t ∈ q p) by (by eapply tail_in_queue).
    destruct (ip_queue _ _ Hok p Hp) as (x' & Hx' & Hc & _). rewrite Hx in Hx'. injection Hx' as <-.
    destruct (chain_lookup _ _ _ _ Hc Htin) as [yt Hyt].
    assert (Htn : n <> t) by (pose proof (ip_used _ _ Hok p t Hp Htin); lia).
    rewrite (bind_ret _ _ s3 tt (set_sched (with_ports (<[p := with_tail (Some n) (with_blocked None x)]>))
      (set_sched (with_pool (<[t := with_msg_next (Some n) yt]>)) s3))).
    2:{ erewrite bind_ret; [|apply upd_message_eq; rewrite Hm3; rewrite list_lookup_insert_ne by done; exact Hyt].
        by erewrite upd_port_eq. }
    erewrite bind_ret; [|apply upd_port_eq; cbn; rewrite list_insert_insert_eq; by apply list_lookup_insert_eq].
    eexists. split; [reflexivity|]. cbn. rewrite !list_insert_insert_eq.
    split_and!; try done. rewrite <- (alter_insert _ _ yt); [done|]. by rewrite list_lookup_insert_ne.
    by rewrite Hn.
  - rewrite (bind_ret _ _ s3 tt (set_sched (with_ports (<[p := with_tail (Some n) (with_head (Some n) (with_blocked None x))]>))
      (set_sched (with_ports (<[p := with_head (Some n) (with_blocked None x)]>)) s3))).
    2:{ erewrite bind_ret; [|by apply upd_port_eq]. erewrite upd_port_eq; [done|].
        cbn. rewrite list_insert_insert_eq. by apply list_lookup_insert_eq. }
    erewrite bind_ret; [|apply upd_port_eq; cbn; rewrite !list_insert_insert_eq; by apply list_lookup_insert_eq].
    eexists. split; [reflexivity|]. cbn. rewrite !list_insert_insert_eq. by rewrite Hn.
Qed.

Lemma send_ok s q p id d0 d1 d2 d3 :
  ipc_ok (k_sched s) q -> (p < 16)%nat -> message_pool_next (k_sched s) < 64 ->
  Forall is_u32 [id; d0; d1; d2; d3] ->
  wp (send (Some p) id d0 d1 d2 d3) s (fun r s' => r = 0 /\ sent s q p (id, [d0; d1; d2; d3]) s').
Proof.
  intros Hok Hp Hlt [Hid Hd]%Forall_cons. pose proof (ip_next _ _ Hok) as Hn.
  assert (Hmok : message_ok (mkMessage id [d0; d1; d2; d3] None)) by done.
  destruct (ip_queue _ _ Hok p Hp) as (x & Hx & _).
  set (n := Z.to_nat (message_pool_next (k_sched s))).
  assert (En : message_pool_next (k_sched s) = Z.of_nat n) by (unfold n; lia).
  destruct (send_steps s q p n x id d0 d1 d2 d3 Hok Hp Hx En ltac:(lia))
    as (v' & E & H1 & H2 & H3 & H4 & H5).
  eapply wp_eq; [exact E|]. split; [done|].
  assert (Ht : length (threads v') = 8%nat) by (rewrite H4, length_wake; apply Hok).
  constructor; cbn [k_sched set_sched].
  - by eapply enqueue_ok; [done|done|exact Hx|lia|lia| | |exact H1|exact H2|done|done].
  - intros p' Hp'. by eapply (enqueue_waiting (k_sched s) v' q p n x (mkMessage id [d0; d1; d2; d3] None));
      [done|done|exact Hx|lia|lia| | |exact H1|exact H2|done|done|].
  - intros x' Hx'. rewrite Hx in Hx'. injection Hx' as <-. done.
  - rewrite H2. eexists. rewrite list_lookup_insert_eq by (rewrite (ip_ports _ _ Hok); done). done.
  - done.
  - done.
  - by destruct s.
  - intros p' Hne. rewrite H2. by rewrite list_lookup_insert_ne.
Qed.

(** The words of a message in the region the receiver gave. *)
Definition delivered (phys : Z -> Z) (d : payload) (m : gmap Z Z) : Prop :=
  word_at 4 phys 0 m = fst d /\
  forall i w, snd d !! i = Some w -> word_at 4 phys (4 + 4 * Z.of_nat i) m = w.

(** What taking a message leaves. *)
Record received s q p (phys : Z -> Z) s' : Prop := {
  rc_message : exists d, waiting (k_sched s) p = d :: waiting (k_sched s') p /\
    delivered phys d (k_mem s');
  rc_ok : ipc_ok (k_sched s') (set_queue q p (tail (q p)));
  rc_others : forall p', (p' < 16)%nat -> p' <> p -> waiting (k_sched s') p' = waiting (k_sched s) p';
  rc_vars : threads (k_sched s') = threads (k_sched s) /\
    current (k_sched s') = current (k_sched s) /\ thread_list (k_sched s') = thread_list (k_sched s) /\
    thread_count (k_sched s') = thread_count (k_sched s) /\
    message_pool_next (k_sched s') = message_pool_next (k_sched s) /\
    port_count (k_sched s') = port_count (k_sched s);
  rc_blocked : forall x x', ports (k_sched s) !! p = Some x -> ports (k_sched s') !! p = Some x' ->
    blocked_thread x' = blocked_thread x;
  rc_mem : forall a, (forall j, 0 <= j < 20 -> a <> phys j) -> mget (k_mem s') a = mget (k_mem s) a;
  rc_frame : s' = set_sched (fun _ => k_sched s') (set_mem (fun _ => k_mem s') s);
}.

Lemma recv_take_empty s q p out :
  ipc_ok (k_sched s) q -> (p < 16)%nat -> waiting (k_sched s) p = [] ->
  recv_take p out s = Ret false s.
Proof.
  intros Hok Hp He. destruct (ip_queue _ _ Hok p Hp) as (x & Hx & _).
  apply (waiting_empty _ _ _ _ Hok Hp Hx) in He. unfold recv_take.
  rewrite (bind_ret _ _ _ _ _ (get_port_eq _ _ _ Hx)). by rewrite He.
Qed.

(** One more word: the words before it stay. *)
Lemma store_keeps s s' out phys i j w : dest s out 20 phys -> region_store phys i 4 w s s' ->
  0 <= j -> j + 4 <= i -> i + 4 <= 20 -> word_at 4 phys j (k_mem s') = word_at 4 phys j (k_mem s).
Proof.
  intros D (_ & _ & Hm) H1 H2 H3. apply word_at_ext. intros k Hk. apply Hm. intros l Hl E.
  apply (dst_inj _ _ _ _ D) in E; lia.
Qed.

(** The five stores of the copy. *)
Lemma copy_out {B} s out phys id d0 d1 d2 d3 (k : K B) (Q : B -> kstate -> Prop) :
  dest s out 20 phys -> Forall is_u32 [id; d0; d1; d2; d3] ->
  (forall s', delivered phys (id, [d0; d1; d2; d3]) (k_mem s') ->
     (forall a, (forall j, 0 <= j < 20 -> a <> phys j) -> mget (k_mem s') a = mget (k_mem s) a) ->
     s' = set_mem (fun _ => k_mem s') s -> wp k s' Q) ->
  wp (vwr32 out id ;;; vwr32 (u64 (out + 4)) d0 ;;; vwr32 (u64 (out + 8)) d1 ;;;
      vwr32 (u64 (out + 12)) d2 ;;; vwr32 (u64 (out + 16)) d3 ;;; k) s Q.
Proof.
  intros D Hu HQ. rewrite !Forall_cons in Hu. destruct Hu as (U0 & U1 & U2 & U3 & U4 & _).
  replace (vwr32 out id) with (vwr32 (u64 (out + 0)) id)
    by (destruct (dst_range _ _ _ _ D); rewrite Z.add_0_r, u64_small by lia; done).
  apply wp_bind. wp_call (vwr32_ok s out 20 phys 0 id); [done..|]. intros _ s1 (R1 & W1 & D1).
  apply wp_bind. wp_call (vwr32_ok s1 out 20 phys 4 d0); [done..|]. intros _ s2 (R2 & W2 & D2).
  apply wp_bind. wp_call (vwr32_ok s2 out 20 phys 8 d1); [done..|]. intros _ s3 (R3 & W3 & D3).
  apply wp_bind. wp_call (vwr32_ok s3 out 20 phys 12 d2); [done..|]. intros _ s4 (R4 & W4 & D4).
  apply wp_bind. wp_call (vwr32_ok s4 out 20 phys 16 d3); [done..|]. intros _ s5 (R5 & W5 & D5).
  pose proof (store_keeps s1 s2 out phys 4) as K2. pose proof (store_keeps s2 s3 out phys 8) as K3.
  pose proof (store_keeps s3 s4 out phys 12) as K4. pose proof (store_keeps s4 s5 out phys 16) as K5.
  apply HQ.
  - split; cbn [fst snd].
    + by rewrite (K5 0 d3), (K4 0 d2), (K3 0 d1), (K2 0 d0) by (done || lia).
    + intros i w Hi. do 4 (destruct i as [|i]; [injection Hi as <-; cbn -[word_at];
        by rewrite ?(K5 _ d3), ?(K4 _ d2), ?(K3 _ d1) by (done || lia)|]). done.
  - intros a Ha. destruct R1 as (_ & _ & M1), R2 as (_ & _ & M2), R3 as (_ & _ & M3), R4 as (_ & _ & M4), R5 as (_ & _ & M5).
    rewrite M5, M4, M3, M2, M1; [done|..]; intros j Hj; apply Ha; lia.
  - destruct R1 as (E1 & _), R2 as (E2 & _), R3 as (E3 & _), R4 as (E4 & _), R5 as (E5 & _).
    rewrite E5, E4, E3, E2, E1. by destruct s.
Qed.

Lemma recv_take_ok s q p out phys :
  ipc_ok (k_sched s) q -> (p < 16)%nat -> waiting (k_sched s) p <> [] -> dest s out 20 phys ->
  wp (recv_take p out) s (fun r s' => r = true /\ received s q p phys s').
Proof.
  intros Hok Hp Hne Hw. destruct (ip_queue _ _ Hok p Hp) as (x & Hx & Hc & _).
  assert (Hlq : (p < length (ports (k_sched s)))%nat) by (rewrite (ip_ports _ _ Hok); done).
  destruct (queue_head x) as [m|] eqn:Eh; [|by apply (waiting_empty _ _ _ _ Hok Hp Hx) in Eh].
  destruct (dequeue_head (k_sched s) q p m x Hok Hp Hx Eh) as [l El].
  destruct (chain_lookup _ _ _ m Hc) as [msg Hmsg]; [rewrite El; by constructor|].
  pose proof (proj1 (Forall_lookup _ _) (ip_data _ _ Hok) m msg Hmsg) as (Hd4 & Hid & Hdata).
  unfold recv_take. apply wp_bind. eapply wp_eq; [by apply get_port_eq|]. rewrite Eh.
  apply wp_bind. eapply wp_eq; [by apply get_message_eq|].
  apply wp_bind. eapply wp_eq; [by apply upd_port_eq|].
  set (s1 := set_sched _ s).
  assert (Hx1 : ports (k_sched s1) !! p = Some (with_head (msg_next msg) x))
    by (cbn; by apply list_lookup_insert_eq).
  set (v2 := with_ports (<[p := mkPort (msg_next msg)
    (if decide (msg_next msg = None) then None else queue_tail x) (message_count x) (blocked_thread x)]>) (k_sched s)).
  assert (E2 : (when bool_decide (msg_next msg = None) do upd_port p (with_tail None)) s1
    = Ret tt (set_sched (fun _ => v2) s)).
  { unfold v2. case_bool_decide as Hn.
    - rewrite decide_True by done. erewrite upd_port_eq by done. f_equal. unfold s1, with_ports, set_sched. cbn.
      by rewrite list_insert_insert_eq.
    - rewrite decide_False by done. done. }
  apply wp_bind. eapply wp_eq; [exact E2|]. clear E2.
  apply wp_bind. eapply wp_eq; [apply upd_port_eq; cbn; by apply list_lookup_insert_eq|].
  set (s3 := set_sched _ _).
  destruct (msg_data msg) as [|d0 [|d1 [|d2 [|d3 [|]]]]] eqn:Ed; try done. cbn [lookup list_lookup need].
  assert (Hv3 : k_sched s3 = with_ports (<[p := mkPort (msg_next msg)
    (if decide (msg_next msg = None) then None else queue_tail x) (i32 (message_count x - 1)) (blocked_thread x)]>)
    (k_sched s)) by (unfold s3, v2, with_ports; cbn; by rewrite list_insert_insert_eq).
  assert (Hm3 : k_mem s3 = k_mem s) by done.
  apply (copy_out s3 out phys); [by apply (dest_ext s)|by constructor|]. intros s4 D1 D2 D3.
  unfold message_free. wp_steps.
  assert (Hv4 : k_sched s4 = k_sched s3) by by rewrite D3.
  assert (Hpo : ports (k_sched s4) = <[p := mkPort (msg_next msg)
    (if decide (msg_next msg = None) then None else queue_tail x) (i32 (message_count x - 1))
    (blocked_thread x)]> (ports (k_sched s))) by by rewrite Hv4, Hv3.
  split; [done|]. constructor.
  - exists (payload_of msg). split.
    + apply (dequeue_waiting (k_sched s) (k_sched s4) q p m x msg); try done; by rewrite Hv4, Hv3.
    + unfold payload_of. by rewrite Ed.
  - rewrite El. cbn [tail]. eapply (dequeue_ok (k_sched s) (k_sched s4) q p m x msg); try done; by rewrite Hv4, Hv3.
  - intros p' Hp' Hne'. eapply (dequeue_waiting_other (k_sched s) (k_sched s4) p x msg); try done; by rewrite Hv4, Hv3.
  - by rewrite Hv4, Hv3.
  - intros y y' Hy Hy'. rewrite Hpo, list_lookup_insert_eq in Hy' by done. rewrite Hx in Hy.
    by injection Hy as <-; injection Hy' as <-.
  - intros a Ha. by rewrite D2, Hm3.
  - rewrite D3. unfold s3. by destruct s.
Qed.
End calls.
