(* ===== verification/IpcTheorems.v ===== *)
(** * Ports and messages: refinement and properties

    The queues refine one FIFO of messages per port with a budget of 64 messages
    in all; blocking and waking are described on the thread table. *)
From S2P Require Import Prelude Memory State Demo Cpu Pointer Thread ThreadTheorems Ipc.

(** ** The abstract mailbox system *)

(** One queue per port, and how many messages can still be sent. *)
Record mailboxes := mkMail { mail : list (list payload); budget : Z }.

Inductive ipc_op :=
| OpSend (p : nat) (id d0 d1 d2 d3 : Z)
| OpRecv (p : nat).

Inductive ipc_result := Sent | NoMessages | Got (d : payload) | Empty.

Definition abs_op (o : ipc_op) (a : mailboxes) : ipc_result * mailboxes :=
  match o with
  | OpSend p id d0 d1 d2 d3 =>
      if budget a <=? 0 then (NoMessages, a)
      else (Sent, mkMail (alter (fun l => l ++ [(id, [d0; d1; d2; d3])]) p (mail a)) (budget a - 1))
  | OpRecv p =>
      match mail a !! p with
      | Some (d :: l) => (Got d, mkMail (<[p := l]> (mail a)) (budget a))
      | _ => (Empty, a)
      end
  end.

Fixpoint abs_run (l : list ipc_op) (a : mailboxes) : list ipc_result * mailboxes :=
  match l with
  | [] => ([], a)
  | o :: l => let '(r, a1) := abs_op o a in let '(rs, a2) := abs_run l a1 in (r :: rs, a2)
  end.

(** The abstraction function. *)
Definition mailboxes_of (v : sched_vars) : mailboxes :=
  mkMail (map (waiting v) (seq 0 16)) (64 - message_pool_next v).

(** ** The kernel's side *)

Section concrete.
Context {P : Platform} (out : Z) (phys : Z -> Z).

(** The message in the region at [out], as the receiver reads it. *)
Definition read_message (m : gmap Z Z) : payload :=
  (word_at 4 phys 0 m, [word_at 4 phys 4 m; word_at 4 phys 8 m; word_at 4 phys 12 m; word_at 4 phys 16 m]).

Definition exec_op (o : ipc_op) : K ipc_result :=
  match o with
  | OpSend p id d0 d1 d2 d3 =>
      r <- send (Some p) id d0 d1 d2 d3 ;; ret (if r =? 0 then Sent else NoMessages)
  | OpRecv p =>
      got <- recv_take p out ;;
      if (got : bool) then gets (fun s => Got (read_message (k_mem s))) else ret Empty
  end.

Fixpoint exec_ops (l : list ipc_op) : K (list ipc_result) :=
  match l with
  | [] => ret []
  | o :: l => r <- exec_op o ;; rs <- exec_ops l ;; ret (r :: rs)
  end.

Definition op_ok (o : ipc_op) : Prop :=
  match o with
  | OpSend p id d0 d1 d2 d3 => (p < 16)%nat /\ Forall is_u32 [id; d0; d1; d2; d3]
  | OpRecv p => (p < 16)%nat
  end.

Lemma read_delivered d m : length (snd d) = 4%nat -> delivered phys d m -> read_message m = d.
Proof.
  destruct d as [id l]. cbn [fst snd]. intros Hl [H1 H2]. unfold read_message. rewrite H1. f_equal.
  destruct l as [|d0 [|d1 [|d2 [|d3 [|]]]]]; try done.
  by rewrite <- (H2 0%nat d0 eq_refl), <- (H2 1%nat d1 eq_refl), <- (H2 2%nat d2 eq_refl),
    <- (H2 3%nat d3 eq_refl).
Qed.

Lemma mail_lookup v p : (p < 16)%nat -> mail (mailboxes_of v) !! p = Some (waiting v p).
Proof. intros Hp. cbn. do 16 (destruct p as [|p]; [done|]). lia. Qed.

Lemma mail_ext v' (l : list (list payload)) :
  length l = 16%nat -> (forall p, (p < 16)%nat -> l !! p = Some (waiting v' p)) ->
  mail (mailboxes_of v') = l.
Proof.
  intros Hl H. apply list_eq. intros p. destruct (decide (p < 16)%nat) as [Hp|Hp].
  - by rewrite mail_lookup, H.
  - rewrite !lookup_ge_None_2; [done|lia|cbn; lia].
Qed.

Lemma waiting_payload v q p d l : ipc_ok v q -> (p < 16)%nat -> waiting v p = d :: l ->
  length (snd d) = 4%nat.
Proof.
  intros Hok Hp E. rewrite (waiting_eq v q Hok) in E by done.
  assert (Hd : d ∈ omap (fun m => payload_of <$> message_pool v !! m) (q p)) by (rewrite E; by constructor).
  apply list_elem_of_omap in Hd as (m & _ & Hm). destruct (message_pool v !! m) as [x|] eqn:Ex; [|done].
  injection Hm as <-. pose proof (proj1 (Forall_lookup _ _) (ip_data _ _ Hok) m x Ex) as [? _]. done.
Qed.

(** One call refines one abstract operation. *)
Lemma exec_op_refines o s q :
  ipc_ok (k_sched s) q -> dest s out 20 phys -> op_ok o ->
  wp (exec_op o) s (fun r s' => ((exists q', ipc_ok (k_sched s') q') /\ dest s' out 20 phys) /\
    (r, mailboxes_of (k_sched s')) = abs_op o (mailboxes_of (k_sched s))).
Proof.
  intros Hok Hd Ho. destruct o as [p id d0 d1 d2 d3|p]; cbn [exec_op abs_op op_ok] in *.
  - destruct Ho as [Hp Hu]. cbn [budget mailboxes_of].
    destruct (Z.leb_spec (64 - message_pool_next (k_sched s)) 0) as [Hle|Hgt].
    + apply wp_bind. eapply wp_eq; [apply send_exhausted; lia|]. apply wp_ret. by split; [split; [exists q|]|].
    + apply wp_bind. wp_call (send_ok s q p id d0 d1 d2 d3); [done|done|lia|done|].
      intros r s' (-> & Hs). apply wp_ret. split.
      { split; [eexists; apply Hs|]. apply (dest_ext s); [done|by rewrite (sn_frame _ _ _ _ _ Hs)|].
        intros y _. by rewrite (sn_frame _ _ _ _ _ Hs). }
      f_equal.
      unfold mailboxes_of at 1. rewrite (sn_next _ _ _ _ _ Hs). f_equal; [|lia].
      change (map (waiting (k_sched s')) (seq 0 16)) with (mail (mailboxes_of (k_sched s'))).
      apply mail_ext; [by rewrite length_alter|]. intros p' Hp'.
      rewrite (sn_waiting _ _ _ _ _ Hs) by done. destruct (decide (p' = p)) as [->|Hne].
      * by rewrite list_lookup_alter_eq, mail_lookup.
      * by rewrite list_lookup_alter_ne, mail_lookup.
  - rewrite mail_lookup by done. destruct (waiting (k_sched s) p) as [|d l] eqn:Ew.
    + apply wp_bind. eapply wp_eq; [by eapply recv_take_empty|]. apply wp_ret. by split; [split; [exists q|]|].
    + apply wp_bind. wp_call (recv_take_ok s q p out phys); [done|done|by rewrite Ew|done|].
      intros r s' (-> & Hr). apply wp_gets. split.
      { split; [eexists; apply Hr|]. apply (dest_ext s); [done|by rewrite (rc_frame _ _ _ _ _ Hr)|apply Hr]. }
      destruct (rc_message _ _ _ _ _ Hr) as (d' & Ed & Hdel). rewrite Ew in Ed. injection Ed as <- El.
      rewrite (read_delivered d) by (done || by eapply waiting_payload). f_equal.
      destruct (rc_vars _ _ _ _ _ Hr) as (_ & _ & _ & _ & Hn & _).
      unfold mailboxes_of at 1. rewrite Hn. f_equal.
      change (map (waiting (k_sched s')) (seq 0 16)) with (mail (mailboxes_of (k_sched s'))).
      apply mail_ext; [by rewrite length_insert|]. intros p' Hp'.
      destruct (decide (p' = p)) as [->|Hne].
      * rewrite list_lookup_insert_eq by (cbn; lia). by rewrite El.
      * rewrite list_lookup_insert_ne, mail_lookup by done. by rewrite (rc_others _ _ _ _ _ Hr).
Qed.

Lemma exec_ops_refine l s q :
  ipc_ok (k_sched s) q -> dest s out 20 phys -> Forall op_ok l ->
  wp (exec_ops l) s (fun rs s' => (exists q', ipc_ok (k_sched s') q') /\
    (rs, mailboxes_of (k_sched s')) = abs_run l (mailboxes_of (k_sched s))).
Proof.
  intros Hok Hd Hl. revert s q Hok Hd. induction Hl as [|o l Ho Hl IH]; intros s q Hok Hd; cbn [exec_ops abs_run].
  - apply wp_ret. by split; [exists q|].
  - apply wp_bind. wp_call exec_op_refines; [done|done|done|]. intros r s1 ([[q1 Hok1] Hd1] & E1). apply wp_bind.
    wp_call IH; [done|done|]. intros rs s2 (Hok2 & E2). apply wp_ret. split; [done|].
    rewrite <- E1, <- E2. done.
Qed.
End concrete.

(** ** Blocking and waking *)

Definition blocking (p : nat) (t : Thread) : Thread :=
  with_waiting (Some p) (with_state THREAD_BLOCKED t).
(** The variables when thread [c] has registered itself as the receiver of [p]. *)
Definition blocked_vars (c p : nat) (v : sched_vars) : sched_vars :=
  with_ports (alter (with_blocked (Some c)) p) (with_threads (alter (blocking p) c) v).

Lemma ring_alter v n f c : (forall t, t_next (f t) = t_next t) -> ring v n ->
  ring (with_threads (alter f c) v) n.
Proof.
  intros Hf [H1 H2 H3 H4 H5 H6]. constructor; try done.
  - cbn. by rewrite length_alter.
  - intros i Hi. destruct (H6 i Hi) as (t & Ht & Hn). cbn. destruct (decide (i = c)) as [->|].
    + rewrite list_lookup_alter_eq, Ht. exists (f t). by rewrite Hf.
    + rewrite list_lookup_alter_ne by done. by exists t.
Qed.
Lemma ring_with_ports v n f : ring v n -> ring (with_ports f v) n.
Proof. by intros [H1 H2 H3 H4 H5 H6]. Qed.

Lemma ring_vars v v' n : ring v n -> threads v' = threads v -> thread_count v' = thread_count v ->
  thread_list v' = thread_list v -> current v' = current v -> ring v' n.
Proof. intros [H1 H2 H3 H4 H5 H6] E1 E2 E3 E4. by constructor; rewrite ?E1, ?E2, ?E3, ?E4. Qed.

(** The queues depend only on the pool and on the queue fields of the ports. *)
Lemma ipc_ok_ports v v' q :
  ipc_ok v q -> length (threads v') = 8%nat -> message_pool v' = message_pool v ->
  message_pool_next v' = message_pool_next v -> length (ports v') = 16%nat ->
  (forall p x', ports v' !! p = Some x' -> exists x, ports v !! p = Some x /\
     queue_head x' = queue_head x /\ queue_tail x' = queue_tail x /\
     message_count x' = message_count x /\ forall t, blocked_thread x' = Some t -> (t < 8)%nat) ->
  ipc_ok v' q /\ forall p, waiting v' p = waiting v p.
Proof.
  intros Hok H1 H2 H3 H4 H5. split.
  - destruct Hok as [K1 K2 K3 K4 K5 K6 K7 K8 K9 K10].
    constructor; rewrite ?H2, ?H3; try done.
    + intros p Hp. destruct (lookup_lt_is_Some_2 (ports v') p ltac:(lia)) as [x' Hx'].
      destruct (H5 p x' Hx') as (x & Hx & E1 & E2 & E3 & _). destruct (K6 p Hp) as (y & Hy & Hc & Ht & Hn).
      rewrite Hx in Hy. injection Hy as <-. exists x'. by rewrite E1, E2, E3, H2.
    + intros p x t Hx Ht. destruct (H5 p x Hx) as (_ & _ & _ & _ & _ & H). by apply H.
  - intros p. unfold waiting. destruct (ports v' !! p) as [x'|] eqn:Ex'.
    + destruct (H5 p x' Ex') as (x & -> & -> & _). by rewrite H2.
    + apply lookup_ge_None_1 in Ex'. rewrite lookup_ge_None_2; [done|]. rewrite (ip_ports _ _ Hok). lia.
Qed.

Lemma blocked_vars_ok v q c p : ipc_ok v q -> (c < 8)%nat ->
  ipc_ok (blocked_vars c p v) q /\ forall p', waiting (blocked_vars c p v) p' = waiting v p'.
Proof.
  intros Hok Hc. apply ipc_ok_ports; try done.
  - cbn. rewrite length_alter. apply Hok.
  - cbn. rewrite length_alter. apply Hok.
  - intros p' x' Hx'. cbn in Hx'. destruct (decide (p' = p)) as [->|Hne].
    + rewrite list_lookup_alter_eq in Hx'. destruct (ports v !! p) as [x|]; [|done]. injection Hx' as <-.
      exists x. split_and!; try done. by intros t [= <-].
    + rewrite list_lookup_alter_ne in Hx' by done. exists x'. split_and!; try done.
      intros t Ht. by eapply (ip_blocked _ _ Hok).
Qed.

Lemma blocked_vars_ring v n c p : ring v n -> ring (blocked_vars c p v) n.
Proof. intros Hr. by apply ring_with_ports, ring_alter. Qed.

Lemma blocked_vars_runnable v c p i :
  runnable (blocked_vars c p v) i = if decide (i = c) then false else runnable v i.
Proof.
  unfold runnable. cbn. destruct (decide (i = c)) as [->|].
  - rewrite list_lookup_alter_eq. by destruct (threads v !! c).
  - by rewrite list_lookup_alter_ne.
Qed.

(** A switch leaves ports and pool alone. *)
Lemma switched_ipc r v c j v' q : switched r v c j v' -> ipc_ok v q ->
  ipc_ok v' q /\ (forall p, waiting v' p = waiting v p) /\ ports v' = ports v /\
  message_pool_next v' = message_pool_next v.
Proof.
  intros E Hok.
  assert (H : ports v' = ports v /\ message_pool v' = message_pool v /\
    message_pool_next v' = message_pool_next v /\ length (threads v') = 8%nat).
  { rewrite E. pose proof (ip_threads _ _ Hok) as Ht. destruct (decide (c = j)); cbn; [done|].
    unfold saved_rsp. by rewrite length_alter. }
  destruct H as (E1 & E2 & E3 & E4).
  destruct (ipc_ok_ports v v' q Hok E4 E2 E3) as [H1 H2]; [rewrite E1; apply Hok| |done].
  rewrite E1. intros p x Hx. exists x. split_and!; try done. intros t Ht. by eapply (ip_blocked _ _ Hok).
Qed.

Section blocking.
Context {P : Platform}.
Implicit Types s : kstate.

(** Once registered, the receiver is not runnable: the yield that follows leads
    to another thread, or to none. *)
Lemma blocked_round_robin v n c p j : (c < n)%nat ->
  round_robin (blocked_vars c p v) c n = Some j -> (j < n)%nat /\ j <> c /\ runnable v j = true.
Proof.
  intros Hc E. destruct (round_robin_some _ _ _ _ Hc E) as (Hj & Hrun & _).
  rewrite blocked_vars_runnable in Hrun. by destruct (decide (j = c)).
Qed.

(** recv up to the yield. *)
Lemma recv_blocks s q p c x out :
  ipc_ok (k_sched s) q -> (p < 16)%nat -> (c < 8)%nat -> out <> 0 ->
  waiting (k_sched s) p = [] -> current (k_sched s) = Some c ->
  ports (k_sched s) !! p = Some x -> blocked_thread x = None ->
  recv (Some p) out s =
  (switched <- thread_yield ;;
   if (switched : bool) then ret Suspended
   else v <- recv_resume p out ;; ret (Returns v)) (set_sched (blocked_vars c p) s).
Proof.
  intros Hok Hp Hc8 Hout Hw Hc Hx Hb. unfold recv. rewrite (proj2 (Z.eqb_neq _ _) Hout).
  rewrite (bind_ret _ _ _ _ _ (recv_take_empty s q p out Hok Hp Hw)).
  rewrite (bind_ret (sched current) _ s (Some c) s) by (unfold sched, gets; by rewrite Hc).
  rewrite (bind_ret _ _ _ _ _ (get_port_eq s p x Hx)), Hb.
  destruct (lookup_lt_is_Some_2 (threads (k_sched s)) c) as [t Ht]; [rewrite (ip_threads _ _ Hok); done|].
  assert (Hl : (c < length (threads (k_sched s)))%nat) by (by eapply lookup_lt_Some).
  rewrite (bind_ret _ _ _ _ _ (upd_thread_eq s c t _ Ht)).
  erewrite bind_ret; [|apply upd_thread_eq; cbn; by apply list_lookup_insert_eq].
  erewrite bind_ret; [|apply upd_port_eq; exact Hx].
  f_equal. destruct s as [? ? ? ? ? ? ? ? ? ? ? ? v ? ?]. unfold set_sched, blocked_vars, with_ports, with_threads.
  cbn in *. do 2 f_equal; [|by apply (alter_insert _ _ x (with_blocked (Some c)))].
  rewrite list_insert_insert_eq. by apply (alter_insert _ _ _ (blocking p)).
Qed.

(** The branches of recv that find no message. *)
Lemma recv_waits s q n p c x out :
  ring (k_sched s) n -> ipc_ok (k_sched s) q -> (p < 16)%nat -> out <> 0 ->
  waiting (k_sched s) p = [] -> current (k_sched s) = Some c ->
  ports (k_sched s) !! p = Some x -> blocked_thread x = None ->
  wp (recv (Some p) out) s (fun f s' =>
    match round_robin (blocked_vars c p (k_sched s)) c n with
    | Some j => f = Suspended /\ j <> c /\ switched (yield_rsp s) (blocked_vars c p (k_sched s)) c j (k_sched s')
    | None => f = Returns (-4) /\ s' = set_sched (blocked_vars c p) s
    end).
Proof.
  intros Hr Hok Hp Hout Hw Hc Hx Hb. pose proof (rg_current _ _ Hr) as Hlt. rewrite Hc in Hlt.
  pose proof (rg_max _ _ Hr). assert (Hc8 : (c < 8)%nat) by lia.
  unfold wp. rewrite (recv_blocks s q p c x out) by done.
  match goal with |- match ?m ?s1 with _ => _ end => change (wp m s1 (fun f s' =>
    match round_robin (blocked_vars c p (k_sched s)) c n with
    | Some j => f = Suspended /\ j <> c /\ switched (yield_rsp s) (blocked_vars c p (k_sched s)) c j (k_sched s')
    | None => f = Returns (-4) /\ s' = set_sched (blocked_vars c p) s
    end)) end.
  destruct (blocked_vars_ok (k_sched s) q c p Hok Hc8) as [Hok1 Hw1].
  apply wp_bind. wp_call (thread_yield_spec (set_sched (blocked_vars c p) s) n c);
    [by apply blocked_vars_ring|done|].
  intros b s' Hy. unfold yielded in Hy. cbn [k_sched set_sched] in Hy.
  destruct (round_robin _ _ _) as [j|] eqn:Ej.
  - destruct (blocked_round_robin _ _ _ _ _ Hlt Ej) as (_ & Hne & _). destruct Hy as (-> & Hsw & _).
    rewrite bool_decide_false by done. by apply wp_ret.
  - destruct Hy as [-> ->]. apply wp_bind. unfold recv_resume. apply wp_bind.
    eapply wp_eq; [eapply (recv_take_empty _ q); [done|done|]; cbn; by rewrite Hw1|]. by apply wp_ret.
Qed.

(** Yields do not touch the queues. *)
Lemma yields_ipc k s n c q :
  ring (k_sched s) n -> current (k_sched s) = Some c -> ipc_ok (k_sched s) q ->
  wp (yields k) s (fun _ s' => ipc_ok (k_sched s') q /\
    (forall p, waiting (k_sched s') p = waiting (k_sched s) p) /\ ports (k_sched s') = ports (k_sched s)).
Proof.
  revert s c. induction k as [|k IH]; intros s c Hr Hc Hok; cbn [yields]; [by apply wp_ret|].
  pose proof (rg_current _ _ Hr) as Hlt. rewrite Hc in Hlt.
  apply wp_bind. wp_call (thread_yield_spec s n c); [done|done|]. intros b s1 Hy. unfold yielded in Hy.
  destruct (round_robin _ _ _) as [j|] eqn:Ej; [|destruct Hy as [_ ->]; by eapply IH].
  destruct (round_robin_some _ _ _ _ Hlt Ej) as (Hj & _ & _). destruct Hy as (_ & Hsw & _).
  destruct (switched_ipc _ _ _ _ _ q Hsw Hok) as (Hok1 & Hw1 & Hp1 & _).
  wp_call (IH s1 j); [by eapply switched_ring| |done|].
  - rewrite Hsw. by destruct (decide (c = j)).
  - intros _ s2 (H1 & H2 & H3). split_and!; [done|intros p; by rewrite H2, Hw1|by rewrite H3, Hp1].
Qed.

(** A send to a port with a registered receiver makes the receiver runnable,
    keeps the ring, and leaves the message at the head of the queue. *)
Lemma send_wakes s q n p c x id d0 d1 d2 d3 :
  ring (k_sched s) n -> ipc_ok (k_sched s) q -> (p < 16)%nat -> (c < n)%nat ->
  message_pool_next (k_sched s) < 64 -> Forall is_u32 [id; d0; d1; d2; d3] ->
  ports (k_sched s) !! p = Some x -> blocked_thread x = Some c ->
  wp (send (Some p) id d0 d1 d2 d3) s (fun r s' => r = 0 /\
    (exists q', ipc_ok (k_sched s') q') /\ ring (k_sched s') n /\ runnable (k_sched s') c = true /\
    current (k_sched s') = current (k_sched s) /\
    waiting (k_sched s') p = waiting (k_sched s) p ++ [(id, [d0; d1; d2; d3])]).
Proof.
  intros Hr Hok Hp Hc Hn Hu Hx Hb. wp_call (send_ok s q p id d0 d1 d2 d3); try done.
  intros r s' (-> & [S1 S2 S3 S4 S5 (S6 & S7 & S8 & S9) S10 _]). specialize (S3 x Hx). rewrite Hb in S3.
  cbn [wake_threads] in S3. split_and!; [done|by eexists| | |done|].
  - apply (ring_vars (with_threads (alter woken c) (k_sched s))); [by apply ring_alter|done..].
  - unfold runnable. rewrite S3, list_lookup_alter_eq. destruct (rg_next _ _ Hr c Hc) as (t & -> & _). done.
  - rewrite S2 by done. by rewrite decide_True.
Qed.
End blocking.

(** ** Creating and destroying ports *)

Section ports.
Context {P : Platform}.
Implicit Types s : kstate.

(** The walk over the queue ends. *)
Lemma free_queue_ret fuel s h l :
  chain (message_pool (k_sched s)) h l -> (length l <= fuel)%nat -> free_queue fuel h s = Ret tt s.
Proof.
  revert h fuel. induction l as [|m l IH]; intros h fuel; cbn [chain].
  - intros -> _. by destruct fuel.
  - intros (-> & x & Hx & Hc) Hl. destruct fuel as [|fuel]; cbn in Hl; [lia|]. cbn [free_queue].
    rewrite (bind_ret _ _ _ _ _ (get_message_eq _ _ _ Hx)). apply IH; [done|lia].
Qed.

(** Emptying the queue of [p] keeps the others. *)
Lemma empty_port_ok v v' q p :
  ipc_ok v q -> (p < 16)%nat -> ports v' = <[p := null_port]> (ports v) ->
  message_pool v' = message_pool v -> message_pool_next v' = message_pool_next v ->
  length (threads v') = 8%nat -> ipc_ok v' (set_queue q p []).
Proof.
  intros [H1 H2 H3 H4 H5 H6 H7 H8 H9 H10] Hp Ep Em En Et.
  assert (Hsub : forall p' m', m' ∈ set_queue q p [] p' -> m' ∈ q p').
  { intros p' m'. unfold set_queue. destruct (decide (p' = p)); [by intros ?%not_elem_of_nil|tauto]. }
  constructor; rewrite ?Em, ?En; try done.
  - by rewrite Ep, length_insert.
  - intros p' Hp'. unfold set_queue, queue_is. rewrite Ep, Em.
    destruct (decide (p' = p)) as [->|]; [|rewrite list_lookup_insert_ne by done; by apply H6].
    exists null_port. rewrite list_lookup_insert_eq by lia. done.
  - intros p' Hp'. unfold set_queue. destruct (decide (p' = p)); [constructor|by apply H7].
  - intros p1 p2 m' Hp1 Hp2 I1 I2. apply (H8 p1 p2 m'); auto.
  - intros p' m' Hp' Hin. by apply (H9 p'); auto.
  - intros p' y t Hy Ht. rewrite Ep in Hy. destruct (decide (p' = p)) as [->|].
    + rewrite list_lookup_insert_eq in Hy by lia. by injection Hy as <-.
    + rewrite list_lookup_insert_ne in Hy by done. by eapply H10.
Qed.

Lemma empty_port_waiting v v' p p' :
  (p < length (ports v))%nat -> ports v' = <[p := null_port]> (ports v) -> message_pool v' = message_pool v ->
  waiting v' p' = if decide (p' = p) then [] else waiting v p'.
Proof.
  intros Hp Ep Em. unfold waiting. rewrite Ep, Em. destruct (decide (p' = p)) as [->|].
  - by rewrite list_lookup_insert_eq.
  - by rewrite list_lookup_insert_ne.
Qed.

Lemma set_port_twice s p x y :
  set_sched (with_ports (<[p := x]>)) (set_sched (with_ports (<[p := y]>)) s) =
  set_sched (with_ports (<[p := x]>)) s.
Proof. unfold set_sched, with_ports. cbn. by rewrite list_insert_insert_eq. Qed.

Lemma port_destroy_eq s q p x :
  ipc_ok (k_sched s) q -> (p < 16)%nat -> ports (k_sched s) !! p = Some x ->
  port_destroy (Some p) s = Ret tt (set_sched (with_ports (<[p := null_port]>))
    (set_sched (with_threads (wake_threads (blocked_thread x))) s)).
Proof.
  intros Hok Hp Hx. unfold port_destroy. rewrite (bind_ret _ _ _ _ _ (get_port_eq s p x Hx)).
  destruct (ip_queue _ _ Hok p Hp) as (x' & Hx' & Hc & _). rewrite Hx in Hx'. injection Hx' as <-.
  erewrite bind_ret; [|eapply free_queue_ret; [exact Hc|by apply (ipc_length _ _ Hok)]].
  erewrite (bind_ret _ _ s tt (set_sched (with_threads (wake_threads (blocked_thread x))) s)).
  2:{ destruct (blocked_thread x) as [t|] eqn:Eb.
      - apply wake_eq. rewrite (ip_threads _ _ Hok). by eapply (ip_blocked _ _ Hok).
      - unfold ret. f_equal. symmetry. apply set_sched_id. by apply with_threads_id. }
  assert (Hl : (p < length (ports (k_sched s)))%nat) by by eapply lookup_lt_Some.
  erewrite bind_ret; [|apply upd_port_eq; exact Hx].
  erewrite bind_ret; [|apply upd_port_eq; cbn; by apply list_lookup_insert_eq].
  erewrite bind_ret; [|apply upd_port_eq; cbn; apply list_lookup_insert_eq; by rewrite length_insert].
  erewrite upd_port_eq; [|cbn; apply list_lookup_insert_eq; by rewrite !length_insert].
  by rewrite !set_port_twice.
Qed.

Lemma port_create_eq s n :
  port_count (k_sched s) = Z.of_nat n -> (n < 16)%nat -> length (ports (k_sched s)) = 16%nat ->
  port_create s = Ret (Some n) (set_sched (with_ports (<[n := null_port]>))
    (set_sched (with_port_count (Z.of_nat n + 1)) s)).
Proof.
  intros Hn Hlt Hl. unfold port_create, sched. erewrite (bind_ret (gets _)) by done. rewrite Hn.
  rewrite Z.geb_leb, (proj2 (Z.leb_gt _ _)) by (unfold MAX_PORTS; lia).
  destruct (lookup_lt_is_Some_2 (ports (k_sched s)) n ltac:(lia)) as [x Hx].
  erewrite (bind_ret (upd_sched _)) by done. rewrite Nat2Z.id.
  erewrite (bind_ret (upd_port _ _)); [|apply upd_port_eq; exact Hx]. done.
Qed.

Lemma thread_init_ok s :
  length (threads (k_sched s)) = 8%nat -> length (ports (k_sched s)) = 16%nat ->
  length (message_pool (k_sched s)) = 64%nat -> Forall message_ok (message_pool (k_sched s)) ->
  wp thread_init s (fun _ s' => ring (k_sched s') 0 /\ ipc_ok (k_sched s') (fun _ => [])).
Proof.
  intros H1 H2 H3 H4. unfold thread_init, upd_sched. wp_steps. cbn [k_sched set_sched].
  assert (Hp : forall p, (p < 16)%nat -> ((fun _ : Port => null_port) <$> ports (k_sched s)) !! p = Some null_port).
  { intros p Hp. rewrite list_lookup_fmap. destruct (lookup_lt_is_Some_2 (ports (k_sched s)) p ltac:(lia)) as [x ->]. done. }
  split; constructor; cbn; rewrite ?length_fmap; try done; try lia.
  - apply Forall_fmap. eapply Forall_impl; [exact H4|]. done.
  - intros p Hlt. exists null_port. cbn. by rewrite Hp.
  - constructor.
  - intros p1 p2 m _ _ ?%not_elem_of_nil. done.
  - intros p m _ ?%not_elem_of_nil. done.
  - intros p x t Hx. rewrite list_lookup_fmap in Hx. destruct (ports (k_sched s) !! p); [|done].
    by injection Hx as <-.
Qed.
End ports.

(** ** The budget *)

Definition is_sent (r : ipc_result) : bool := match r with Sent => true | _ => false end.
Definition sent_count (l : list ipc_result) : Z := Z.of_nat (length (List.filter is_sent l)).

Lemma abs_run_budget l a rs a' : abs_run l a = (rs, a') -> 0 <= budget a ->
  budget a' = budget a - sent_count rs /\ 0 <= budget a'.
Proof.
  revert a rs a'. induction l as [|o l IH]; intros a rs a' E Hb; cbn [abs_run] in E.
  - injection E as <- <-. unfold sent_count. cbn. lia.
  - destruct (abs_op o a) as [r a1] eqn:E1. destruct (abs_run l a1) as [rs' a2] eqn:E2.
    injection E as <- <-.
    assert (H1 : budget a1 = budget a - (if is_sent r then 1 else 0) /\ 0 <= budget a1).
    { destruct o as [p id d0 d1 d2 d3|p]; cbn [abs_op] in E1.
      - destruct (Z.leb_spec (budget a) 0); injection E1 as <- <-; cbn; lia.
      - destruct (mail a !! p) as [[|d l']|]; injection E1 as <- <-; cbn; lia. }
    destruct (IH _ _ _ E2 ltac:(lia)) as [H2 H3]. unfold sent_count in *. cbn [List.filter].
    destruct (is_sent r); cbn [length]; lia.
Qed.

(** ** Concrete states *)

Lemma message_ok_null : message_ok null_message.
Proof. split_and!; [done|done|repeat constructor; done]. Qed.

Lemma ipc_ok_fresh v : ports v = replicate 16 null_port -> message_pool v = replicate 64 null_message ->
  message_pool_next v = 0 -> length (threads v) = 8%nat -> ipc_ok v (fun _ => []).
Proof.
  intros E1 E2 E3 E4. constructor; rewrite ?E1, ?E2, ?E3; try done; try lia.
  - apply Forall_replicate, message_ok_null.
  - intros p Hp. exists null_port. rewrite E1. split_and!; [by apply lookup_replicate_2|done..].
  - constructor.
  - intros p1 p2 m _ _ ?%not_elem_of_nil. done.
  - intros p m _ ?%not_elem_of_nil. done.
  - intros p x t Hx. by apply lookup_replicate in Hx as [-> _].
Qed.

Lemma demo_three_ipc : ipc_ok (k_sched demo_three) (fun _ => []).
Proof. apply ipc_ok_fresh; reflexivity. Qed.
Lemma demo_out : window_ok 0xFFFFFFFF80090000 (0xFFFFFFFF80090000 + 20).
Proof. apply demo_window; vm_compute; congruence. Qed.
Definition demo_phys (i : Z) : Z := demo_kmap 0xFFFFFFFF80090000 + i.
Lemma demo_dest s : dest s 0xFFFFFFFF80090000 20 demo_phys.
Proof. apply (kernel_dest s 0xFFFFFFFF80090000 20 demo_out). unfold USER_LIMIT. lia. Qed.

(** ** Properties *)

(** C5: Message passing refines one FIFO queue per port with a budget: any sequence
    of sends and receives (a receive that finds no message stands for the test
    recv starts with) returns what the abstract mailboxes return, message for
    message in the order of sending, and leaves the queues the mailboxes have; no
    send or receive ever touches another port's queue. *)
Theorem ipc_refines_fifo {P : Platform} (out : Z) (phys : Z -> Z) (l : list ipc_op) (s : kstate) (q : nat -> list nat) :
  dest s out 20 phys -> ipc_ok (k_sched s) q -> Forall op_ok l ->
  wp (exec_ops out phys l) s (fun rs s' => (exists q', ipc_ok (k_sched s') q') /\
    (rs, mailboxes_of (k_sched s')) = abs_run l (mailboxes_of (k_sched s))).
Proof. intros Hout Hok Hl. by eapply exec_ops_refine. Qed.

Definition demo_ops : list ipc_op :=
  [OpSend 2 7 1 2 3 4; OpSend 3 8 0 0 0 0; OpSend 2 9 5 6 7 8; OpRecv 2; OpRecv 2; OpRecv 2].

Lemma ipc_refines_fifo_witness :
  wp (exec_ops 0xFFFFFFFF80090000 demo_phys demo_ops) demo_three (fun rs _ =>
    rs = [Sent; Sent; Sent; Got (7, [1; 2; 3; 4]); Got (9, [5; 6; 7; 8]); Empty]).
Proof.
  refine (wp_mono _ _ _ _ (ipc_refines_fifo 0xFFFFFFFF80090000 demo_phys demo_ops demo_three _ (demo_dest _) demo_three_ipc _) _).
  - repeat apply Forall_cons_2; cbn [op_ok]; unfold is_u32; try apply Forall_nil_2;
      try (split; [|repeat apply Forall_cons_2; try apply Forall_nil_2]); lia.
  - intros rs s' [_ E]. exact (f_equal fst E).
Defined.

(** C35: The message pool is never refilled (message_free does nothing): whatever is
    received in between, the successful sends of any run are at most the messages
    left in the pool, and once that many were sent, send returns -2 for ever. *)
Theorem message_pool_exhaustion {P : Platform} (out : Z) (phys : Z -> Z) (l : list ipc_op) (s : kstate) (q : nat -> list nat) :
  dest s out 20 phys -> ipc_ok (k_sched s) q -> Forall op_ok l ->
  wp (exec_ops out phys l) s (fun rs s' =>
    sent_count rs <= 64 - message_pool_next (k_sched s) /\
    (sent_count rs = 64 - message_pool_next (k_sched s) ->
     forall p id d0 d1 d2 d3, send (Some p) id d0 d1 d2 d3 s' = Ret (-2) s')).
Proof.
  intros Hout Hok Hl. pose proof (ip_next _ _ Hok). wp_call exec_ops_refine; [done|done|done|].
  intros rs s' [_ E]. symmetry in E. apply abs_run_budget in E as [H1 H2]; [|cbn; lia]. cbn in H1, H2.
  split; [lia|]. intros Hc p id d0 d1 d2 d3. apply send_exhausted. lia.
Qed.

Lemma message_pool_exhaustion_witness :
  wp (exec_ops 0xFFFFFFFF80090000 demo_phys [OpSend 2 7 1 2 3 4; OpRecv 2])
    (set_sched (with_pool_next 63) demo_three) (fun rs s' => sent_count rs <= 1).
Proof.
  refine (wp_mono _ _ _ _ (message_pool_exhaustion 0xFFFFFFFF80090000 demo_phys [OpSend 2 7 1 2 3 4; OpRecv 2]
    (set_sched (with_pool_next 63) demo_three) (fun _ => []) (demo_dest _) _ _) _).
  - pose proof demo_three_ipc as [H1 H2 H3 H4 H5 H6 H7 H8 H9 H10].
    constructor; [exact H1|exact H2|exact H3|cbn; lia|exact H5|exact H6|exact H7|exact H8| |exact H10].
    intros p m _ Hm. by apply not_elem_of_nil in Hm.
  - repeat apply Forall_cons_2; cbn [op_ok]; unfold is_u32; try apply Forall_nil_2;
      try (split; [|repeat apply Forall_cons_2; try apply Forall_nil_2]); lia.
  - intros rs s' [H _]. exact H.
Defined.

(** C18: recv, on every branch.  A null port or destination gives -1; with a message
    waiting the first one is copied out, and nothing else is written; with none,
    recv gives -2 outside any thread and -3 when a receiver is already registered,
    without effect.  Otherwise the calling thread becomes BLOCKED and is registered
    as the port's receiver: if another thread is runnable the processor goes to
    the one round robin prescribes, and if none is, recv returns -4 to the caller
    and leaves it BLOCKED and registered. *)
Theorem recv_correct {P : Platform} (s : kstate) (q : nat -> list nat) (n p : nat) (x : Port) (out : Z) (phys : Z -> Z) :
  ring (k_sched s) n -> ipc_ok (k_sched s) q -> (p < 16)%nat ->
  ports (k_sched s) !! p = Some x -> dest s out 20 phys -> out <> 0 ->
  recv None out s = Ret (Returns (-1)) s /\ recv (Some p) 0 s = Ret (Returns (-1)) s /\
  wp (recv (Some p) out) s (fun f s' =>
    match waiting (k_sched s) p, current (k_sched s), blocked_thread x with
    | _ :: _, _, _ => f = Returns 0 /\ received s q p phys s'
    | [], None, _ => f = Returns (-2) /\ s' = s
    | [], Some _, Some _ => f = Returns (-3) /\ s' = s
    | [], Some c, None =>
        match round_robin (blocked_vars c p (k_sched s)) c n with
        | Some j => f = Suspended /\ j <> c /\ switched (yield_rsp s) (blocked_vars c p (k_sched s)) c j (k_sched s')
        | None => f = Returns (-4) /\ s' = set_sched (blocked_vars c p) s
        end
    end).
Proof.
  intros Hr Hok Hp Hx Hw Hout. split_and!; [done|done|].
  destruct (waiting (k_sched s) p) as [|d l] eqn:Ew.
  - destruct (current (k_sched s)) as [c|] eqn:Ec; [destruct (blocked_thread x) as [b|] eqn:Eb|].
    3: unfold recv; rewrite (proj2 (Z.eqb_neq _ _) Hout); apply wp_bind;
       (eapply wp_eq; [by apply (recv_take_empty s q)|]); unfold sched; wp_steps; rewrite Ec; by apply wp_ret.
    + unfold recv. rewrite (proj2 (Z.eqb_neq _ _) Hout). apply wp_bind.
      eapply wp_eq; [by apply (recv_take_empty s q)|]. unfold sched. apply wp_bind, wp_gets. rewrite Ec.
      apply wp_bind. eapply wp_eq; [by apply get_port_eq|]. rewrite Eb. by apply wp_ret.
    + by eapply recv_waits.
  - unfold recv. rewrite (proj2 (Z.eqb_neq _ _) Hout). apply wp_bind.
    wp_call (recv_take_ok s q p out phys); [done|done|by rewrite Ew|done|]. intros r s' (-> & Hrc). by apply wp_ret.
Qed.

Lemma recv_correct_witness :
  wp (recv (Some 2%nat) 0xFFFFFFFF80090000) demo_three (fun f s' =>
    f = Suspended /\ current (k_sched s') = Some 2%nat /\ runnable (k_sched s') 0 = false).
Proof.
  refine (wp_mono _ _ _ _ (proj2 (proj2 (recv_correct demo_three (fun _ => []) 3 2 null_port 0xFFFFFFFF80090000 demo_phys
    demo_three_ring demo_three_ipc ltac:(lia) eq_refl (demo_dest _) ltac:(lia)))) _).
  change (round_robin (blocked_vars 0 2 (k_sched demo_three)) 0 3) with (Some 2%nat).
  change (waiting (k_sched demo_three) 2) with (@nil payload).
  intros f s' (H1 & _ & H2). split_and!; [exact H1| |].
  - rewrite H2. reflexivity.
  - rewrite (switched_runnable _ _ _ _ _ _ H2). reflexivity.
Defined.

(** C11: A receiver that blocks gets its message: when recv has suspended the calling
    thread [c], a send to the port makes [c] runnable, within as many yields as
    there are threads [c] runs again, and recv then returns 0 with exactly the
    message that was sent at its destination. *)
Theorem recv_rendezvous {P : Platform} (s : kstate) (q : nat -> list nat) (n p c j : nat) (x : Port)
    (out id d0 d1 d2 d3 : Z) :
  ring (k_sched s) n -> ipc_ok (k_sched s) q -> (p < 16)%nat ->
  ports (k_sched s) !! p = Some x -> blocked_thread x = None -> window_ok out (out + 20) -> USER_LIMIT <= out ->
  waiting (k_sched s) p = [] -> current (k_sched s) = Some c -> message_pool_next (k_sched s) < 64 ->
  (j < n)%nat -> j <> c -> runnable (k_sched s) j = true -> Forall is_u32 [id; d0; d1; d2; d3] ->
  wp (recv (Some p) out) s (fun f s1 => f = Suspended /\ runnable (k_sched s1) c = false /\
    wp (send (Some p) id d0 d1 d2 d3) s1 (fun r s2 => r = 0 /\ runnable (k_sched s2) c = true /\
      exists k, (1 <= k <= n)%nat /\
        wp (yields k ;;; cur <- sched current ;; v <- recv_resume p out ;; ret (cur, v)) s2 (fun r s3 =>
          r = (Some c, 0) /\ delivered (fun i => kmap out + i) (id, [d0; d1; d2; d3]) (k_mem s3)))).
Proof.
  intros Hr Hok Hp Hx Hb Hw Hlim He Hc Hn Hj Hjc Hrun Hu. assert (Hout : out <> 0) by (unfold USER_LIMIT in Hlim; lia).
  pose proof (rg_current _ _ Hr) as Hlt. rewrite Hc in Hlt. pose proof (rg_max _ _ Hr).
  wp_call (recv_waits s q n p c x out); try done. intros f s1.
  destruct (round_robin _ _ _) as [j'|] eqn:Ej.
  2:{ pose proof (round_robin_none _ _ _ Ej j Hj) as Hnr. rewrite blocked_vars_runnable in Hnr.
      rewrite decide_False in Hnr by done. congruence. }
  intros (-> & Hne & Hsw). destruct (blocked_round_robin _ _ _ _ _ Hlt Ej) as (Hj' & _ & _).
  destruct (blocked_vars_ok (k_sched s) q c p Hok ltac:(lia)) as [Hok0 Hw0].
  destruct (switched_ipc _ _ _ _ _ q Hsw Hok0) as (Hok1 & Hw1 & Hp1 & Hn1).
  split; [done|]. split.
  { rewrite (switched_runnable _ _ _ _ _ _ Hsw), blocked_vars_runnable. by rewrite decide_True. }
  assert (Hx1 : ports (k_sched s1) !! p = Some (with_blocked (Some c) x))
    by (rewrite Hp1; cbn; by rewrite list_lookup_alter_eq, Hx).
  assert (Hr1 : ring (k_sched s1) n) by (eapply switched_ring; [apply blocked_vars_ring, Hr|exact Hj'|exact Hsw]).
  wp_call (send_wakes s1 q n p c _ id d0 d1 d2 d3); [done|done|done|done|by rewrite Hn1|done|exact Hx1|done|].
  intros r s2 (-> & [q2 Hok2] & Hr2 & Hrun2 & Hc2 & Hw2). split; [done|]. split; [done|].
  rewrite Hw1, Hw0, He in Hw2. cbn [app] in Hw2.
  assert (Hc1 : current (k_sched s1) = Some j') by (by rewrite Hsw).
  assert (Hd : (distance j' c n <= n - 1)%nat)
    by (unfold distance; pose proof (Nat.mod_upper_bound (c + n - j' - 1) n); lia).
  destruct (yields_reach (n - 1) s2 n j' c Hr2 ltac:(congruence) Hlt Hrun2 Hd) as (k & Hk & Hy).
  exists k. split; [lia|]. apply wp_bind.
  eapply wp_mono; [apply wp_conj; [exact Hy|by eapply (yields_ipc k s2 n j' q2); [|congruence|]]|].
  intros _ s3 ([Hc3 Hr3] & Hok3 & Hw3 & _). unfold sched. apply wp_bind, wp_gets.
  apply wp_bind. unfold recv_resume. apply wp_bind.
  wp_call (recv_take_ok s3 q2 p out (fun i => kmap out + i)); [done|done|by rewrite Hw3, Hw2|by apply kernel_dest|].
  intros r s4 (-> & Hrc). apply wp_ret, wp_ret. split; [by rewrite Hc3|].
  destruct (rc_message _ _ _ _ _ Hrc) as (d & Ed & Hdel). rewrite Hw3, Hw2 in Ed. by injection Ed as <- _.
Qed.

Lemma recv_rendezvous_witness :
  wp (recv (Some 2%nat) 0xFFFFFFFF80090000) demo_three (fun f s1 => f = Suspended /\
    wp (send (Some 2%nat) 7 1 2 3 4) s1 (fun r s2 => r = 0 /\
      exists k, (1 <= k <= 3)%nat /\
        wp (yields k ;;; cur <- sched current ;; v <- recv_resume 2 0xFFFFFFFF80090000 ;; ret (cur, v)) s2
          (fun r s3 => r = (Some 0%nat, 0) /\ delivered demo_phys (7, [1; 2; 3; 4]) (k_mem s3)))).
Proof.
  refine (wp_mono _ _ _ _ (recv_rendezvous demo_three (fun _ => []) 3 2 0 2 null_port 0xFFFFFFFF80090000 7 1 2 3 4
    demo_three_ring demo_three_ipc ltac:(lia) eq_refl eq_refl demo_out ltac:(unfold USER_LIMIT; lia) eq_refl eq_refl _ ltac:(lia)
    ltac:(lia) eq_refl _) _).
  - vm_compute. reflexivity.
  - unfold is_u32. repeat apply Forall_cons_2; apply Forall_nil_2 || lia.
  - intros f s1 (H1 & _ & H2). split; [exact H1|]. refine (wp_mono _ _ _ _ H2 _).
    intros r s2 (H3 & _ & H4). split; [exact H3|exact H4].
Defined.

(** C36: The life of a port: port_create hands out the ports in order, at most sixteen,
    empty and with no receiver, and their ids convert back to them; port_destroy
    always returns, empties the port's queue and only that one, and wakes a
    registered receiver, whose recv then finds no message and returns -4. *)
Theorem port_lifecycle {P : Platform} (s : kstate) (q : nat -> list nat) (p : nat) (x : Port) (out : Z) :
  ipc_ok (k_sched s) q -> 0 <= port_count (k_sched s) <= 16 -> (p < 16)%nat ->
  ports (k_sched s) !! p = Some x ->
  wp port_create s (fun o s' =>
    if 16 <=? port_count (k_sched s) then o = None /\ s' = s
    else exists i, o = Some i /\ Z.of_nat i = port_count (k_sched s) /\
      port_from_id (port_to_id (Some i)) = Some i /\ port_to_id (Some i) <> 0 /\
      port_count (k_sched s') = port_count (k_sched s) + 1 /\ waiting (k_sched s') i = [] /\
      ports (k_sched s') !! i = Some null_port /\ ipc_ok (k_sched s') (set_queue q i [])) /\
  wp (port_destroy (Some p)) s (fun _ s' =>
    ipc_ok (k_sched s') (set_queue q p []) /\ ports (k_sched s') !! p = Some null_port /\
    (forall p', waiting (k_sched s') p' = if decide (p' = p) then [] else waiting (k_sched s) p') /\
    threads (k_sched s') = wake_threads (blocked_thread x) (threads (k_sched s)) /\
    recv_resume p out s' = Ret (-4) s').
Proof.
  intros Hok Hc Hp Hx. pose proof (ip_ports _ _ Hok) as Hl. split.
  - destruct (Z.leb_spec 16 (port_count (k_sched s))).
    + unfold port_create, sched. wp_steps. rewrite Z.geb_leb, (proj2 (Z.leb_le _ _)) by (unfold MAX_PORTS; lia).
      by apply wp_ret.
    + set (i := Z.to_nat (port_count (k_sched s))). assert (Hi : (i < 16)%nat) by lia.
      eapply wp_eq; [apply (port_create_eq s i); [lia|lia|done]|]. exists i.
      assert (Hid : port_to_id (Some i) = Z.of_nat i + 1).
      { unfold port_to_id, MAX_PORTS. rewrite !u32_small by (rewrite ?u32_small; lia).
        by rewrite Z.geb_leb, (proj2 (Z.leb_gt _ _)) by lia. }
      split_and!; [done|lia| |lia|cbn; lia| | |].
      * rewrite Hid. unfold port_from_id, MAX_PORTS.
        rewrite (proj2 (Z.eqb_neq _ _)), Z.gtb_ltb, (proj2 (Z.ltb_ge _ _)) by lia. cbn. f_equal. lia.
      * by rewrite (empty_port_waiting (k_sched s) _ i i), decide_True by (done || lia).
      * cbn. apply list_lookup_insert_eq. lia.
      * apply (empty_port_ok (k_sched s)); [done|lia|done..|apply Hok].
  - eapply wp_eq; [by eapply port_destroy_eq|].
    assert (Hok' : ipc_ok (k_sched (set_sched (with_ports (<[p:=null_port]>))
      (set_sched (with_threads (wake_threads (blocked_thread x))) s))) (set_queue q p [])).
    { apply (empty_port_ok (k_sched s)); try done. cbn. rewrite length_wake. apply Hok. }
    assert (Hw' : forall p', waiting (k_sched (set_sched (with_ports (<[p:=null_port]>))
      (set_sched (with_threads (wake_threads (blocked_thread x))) s))) p' =
      if decide (p' = p) then [] else waiting (k_sched s) p')
      by (intros p'; apply empty_port_waiting; [lia|done|done]).
    split_and!; [done|cbn; apply list_lookup_insert_eq; lia|done|done|].
    unfold recv_resume. erewrite bind_ret; [|eapply recv_take_empty; [exact Hok'|done|]]; [done|].
    by rewrite Hw', decide_True.
Qed.

Lemma port_lifecycle_witness :
  wp port_create demo_three (fun o s' => o = Some 0%nat) /\
  wp (port_destroy (Some 2%nat)) demo_three (fun _ s' => recv_resume 2 0xFFFFFFFF80090000 s' = Ret (-4) s').
Proof.
  pose proof (port_lifecycle demo_three (fun _ => []) 2 null_port 0xFFFFFFFF80090000 demo_three_ipc
    ltac:(vm_compute; split; congruence) ltac:(lia) eq_refl) as [H1 H2]. split.
  - refine (wp_mono _ _ _ _ H1 _). intros o s'. change (16 <=? port_count (k_sched demo_three)) with false.
    cbv iota. intros (i & E & Ei & _). rewrite E. f_equal. change (port_count (k_sched demo_three)) with 0 in Ei. lia.
  - refine (wp_mono _ _ _ _ H2 _). intros o s' (_ & _ & _ & _ & H). exact H.
Defined.

(** thread_init establishes the invariants every other operation keeps: the empty
    ring of threads and sixteen empty ports with the whole message pool free. *)
Theorem thread_init_correct {P : Platform} (s : kstate) :
  length (threads (k_sched s)) = 8%nat -> length (ports (k_sched s)) = 16%nat ->
  length (message_pool (k_sched s)) = 64%nat -> Forall message_ok (message_pool (k_sched s)) ->
  wp thread_init s (fun _ s' => ring (k_sched s') 0 /\ ipc_ok (k_sched s') (fun _ => [])).
Proof. apply thread_init_ok. Qed.

Lemma thread_init_correct_witness :
  wp thread_init demo_three (fun _ s' => ring (k_sched s') 0 /\ ipc_ok (k_sched s') (fun _ => [])).
Proof.
  apply (thread_init_correct demo_three); [reflexivity..|]. apply Forall_replicate, message_ok_null.
Defined.
