(* ===== verification/Syscall.v ===== *)
(** * System calls (kernel/syscall.c, syscall_asm.asm)

    The handler behind interrupt 0x80 and the entry stub around it.  A system call
    that gives up the processor ends here as [SSuspended k]: the rest of the call
    is [syscall_resume k], run when the calling thread gets the processor back. *)
From S2P Require Import Prelude Memory State Demo Pmm PageTable VmmSpec VmmSpace VmmTheorems VmmFrame Cpu Pointer Gdt Idt Thread ThreadTheorems Scheduler Ipc IpcTheorems.

Definition SYSCALL_VECTOR : Z := 0x80.
Definition SYS_SEND : Z := 1.
Definition SYS_RECV : Z := 2.
Definition SYS_THREAD_EXIT : Z := 3.
Definition SYS_THREAD_YIELD : Z := 4.
Definition SYS_PORT_CREATE : Z := 5.
Definition SYS_PORT_DESTROY : Z := 6.
Definition SYS_DEBUG_PRINT : Z := 9.

(** What is left of a system call whose thread was switched away. *)
Inductive pending := KYield | KRecv (p : nat) (msg_out : Z) | KExit.
Inductive sys_flow := SReturns (v : Z) | SSuspended (k : pending).

Section syscall.
Context {P : Platform}.

Definition syscall_init : K unit :=
  idt_set_gate SYSCALL_VECTOR sym_syscall_entry_asm 0x08 IDT_TYPE_USER_INTERRUPT ;;;
  kprintln "Syscalls: Registered interrupt 0x80 for syscalls".

(** The bytes of the string at [p], up to its NUL. *)
Fixpoint c_string (fuel : nat) (p : Z) : K (list Z) :=
  match fuel with
  | O => starve
  | S fuel =>
      c <- vrd8 p ;;
      if c =? 0 then ret [] else l <- c_string fuel (u64 (p + 1)) ;; ret (c :: l)
  end.

(** [for (;;) cli; hlt]. *)
Definition halt_loop {A} : K A := cli ;;; halt.

(** [fuel] bounds the length of the string of SYS_DEBUG_PRINT. *)
Definition syscall_handler (fuel : nat) (num arg1 arg2 arg3 arg4 arg5 arg6 : Z) : K sys_flow :=
  if num =? SYS_SEND then
    match port_from_id (u32 arg1) with
    | None => ret (SReturns (-1))
    | Some p =>
        v <- send (Some p) (u32 arg2) (u32 arg3) (u32 arg4) (u32 arg5) (u32 arg6) ;;
        ret (SReturns v)
    end
  else if num =? SYS_RECV then
    match port_from_id (u32 arg1) with
    | None => ret (SReturns (-1))
    | Some p =>
        f <- recv (Some p) arg2 ;;
        ret (match f with Returns v => SReturns v | Suspended => SSuspended (KRecv p arg2) end)
    end
  else if num =? SYS_THREAD_EXIT then
    kprint "Thread exiting with code: " ;;;
    kprint_hex arg1 ;;;
    kprintln "" ;;;
    cur <- thread_current ;;
    match cur with Some c => upd_thread c (with_state THREAD_DEAD) | None => ret tt end ;;;
    b <- thread_yield ;;
    if (b : bool) then ret (SSuspended KExit) else halt_loop
  else if num =? SYS_THREAD_YIELD then
    b <- thread_yield ;;
    ret (if (b : bool) then SSuspended KYield else SReturns 0)
  else if num =? SYS_PORT_CREATE then
    port <- port_create ;;
    match port with
    | None => ret (SReturns (-1))
    | Some p => ret (SReturns (port_to_id (Some p)))
    end
  else if num =? SYS_PORT_DESTROY then
    match port_from_id (u32 arg1) with
    | None => ret (SReturns (-1))
    | Some p => port_destroy (Some p) ;;; ret (SReturns 0)
    end
  else if num =? SYS_DEBUG_PRINT then
    kprint "[USER] " ;;;
    str <- c_string fuel arg1 ;;
    kprint_bytes str ;;;
    ret (SReturns 0)
  else
    kprint "Unknown syscall: " ;;;
    kprint_hex num ;;;
    kprintln "" ;;;
    ret (SReturns (-1)).

(** The rest of a system call when its thread runs again. *)
Definition syscall_resume (k : pending) : K Z :=
  match k with
  | KYield => ret 0
  | KRecv p out => recv_resume p out
  | KExit => halt_loop
  end.

(** syscall_entry_asm after the call of syscall_handler has returned [v]; [junk]
    is what the handler leaves in the caller-saved registers. *)
Definition syscall_leave (junk : regs) (v : Z) : K unit :=
  modify (set_regs (clobber junk)) ;;; setr RAX (u64 v) ;;;
  drop_words 1 ;;;
  pop_regs [R15; R14; R13; R12; RBP; RBX] ;;;
  iretq.

(** The arguments as syscall_handler finds them: six in registers, the seventh
    on the stack. *)
Definition syscall_args (fuel : nat) : K sys_flow :=
  num <- getr RDI ;; a1 <- getr RSI ;; a2 <- getr RDX ;; a3 <- getr RCX ;;
  a4 <- getr R8 ;; a5 <- getr R9 ;; sp <- getr RSP ;; a6 <- rd64 sp ;;
  syscall_handler fuel num a1 a2 a3 a4 a5 a6.

Definition mov (dst src : reg) : K unit := v <- getr src ;; setr dst v.

Definition syscall_entry_asm (fuel : nat) (junk : regs) : K (option pending) :=
  push_regs [RBX; RBP; R12; R13; R14; R15] ;;;
  push_reg R9 ;;;
  mov R9 R8 ;;; mov R8 R10 ;;; mov RCX RDX ;;; mov RDX RSI ;;; mov RSI RDI ;;; mov RDI RAX ;;;
  f <- syscall_args fuel ;;
  match f with
  | SReturns v => syscall_leave junk v ;;; ret None
  | SSuspended k => ret (Some k)
  end.

(** [int $0x80], through the gate of the vector. *)
Definition int80 (fuel : nat) (junk : regs) : K (option pending) :=
  cs <- gate_selector SYSCALL_VECTOR ;;
  cpu_interrupt cs None ;;; syscall_entry_asm fuel junk.
End syscall.

(** ** The stub *)

Section stub.
Context {P : Platform}.
Implicit Types s : kstate.

(** The registers a program finds unchanged after [int $0x80]: the callee-saved
    ones of the C calling convention, the stack, the segments, the flags and the system
    registers. *)
Definition kept (r : reg) : Prop :=
  r ∈ [RBX; RBP; R12; R13; R14; R15; RSP; RIP; CS; SS; RFLAGS; DS; ES; FS; GS; CR3; TR; CR2;
    GDTR_LIMIT; GDTR_BASE; IDTR_LIMIT; IDTR_BASE].

(** Only registers differ. *)
Definition regs_frame s s' : Prop := s' = set_regs (fun _ => k_regs s') s.
Lemma regs_frame_refl s : regs_frame s s.
Proof. by destruct s. Qed.
Lemma regs_frame_set s s' f : regs_frame s s' -> regs_frame s (set_regs f s').
Proof. unfold regs_frame. by intros ->. Qed.

Definition stub_words (f : regs) : list Z :=
  [f R9; f R15; f R14; f R13; f R12; f RBP; f RBX].

(** Way in: the arguments in the registers of the C convention, the seventh and
    the callee-saved registers on the stack. *)
Lemma stub_enter s fuel junk (Q : option pending -> kstate -> Prop) (H : kstate -> Prop) :
  interruptible s ->
  (forall s1, stk (entry_stack s - isr_room) (entry_stack s) s1 (stub_words (k_regs s) ++
     [k_regs s RIP; k_regs s CS; k_regs s RFLAGS; k_regs s RSP; k_regs s SS]) ->
    (forall r, r ∈ [DS; ES; FS; GS; CR3; TR; CR2; GDTR_LIMIT; GDTR_BASE; IDTR_LIMIT; IDTR_BASE] -> k_regs s1 r = k_regs s r) ->
    mem_above (entry_stack s - isr_room) (entry_stack s) (k_mem s) (k_mem s1) ->
    s1 = set_if (fun _ => false) (set_mem (fun _ => k_mem s1) (set_regs (fun _ => k_regs s1) s)) ->
    wph (f <- syscall_handler fuel (k_regs s RAX) (k_regs s RDI) (k_regs s RSI) (k_regs s RDX)
          (k_regs s R10) (k_regs s R8) (k_regs s R9) ;;
        match f with
        | SReturns v => syscall_leave junk v ;;; ret None
        | SSuspended k => ret (Some k)
        end) s1 Q H) ->
  wph (int80 fuel junk) s Q H.
Proof.
  intros Hib HQ. pose proof (ib_stack _ Hib) as Hw. unfold int80, gate_selector. apply wph_step, wp_gets, wph_step.
  wp_call cpu_interrupt_spec; [done|apply u16_u64|]. intros _ s1 (Hs & Hr1 & Hsp1 & Hu1 & Hm1 & E1).
  set (lo := entry_stack s - isr_room) in *. set (hi := entry_stack s) in *.
  assert (Hp : pushed_since lo hi hi s1 s1
    [k_regs s RIP; k_regs s CS; k_regs s RFLAGS; k_regs s RSP; k_regs s SS]).
  { split_and!; [done|cbn [length]; lia|done|apply cpu_frame_refl|done]. }
  unfold syscall_entry_asm. apply wph_step.
  wp_call (pushed_push_regs lo hi Hw); [exact Hp|unfold lo, isr_room; cbn [length]; lia|..].
  { apply (bool_decide_unpack _). done. }
  { repeat apply Forall_cons_2; apply Forall_nil_2 || apply Hu1. }
  clear Hp. intros _ s2 Hp. apply wph_step. unfold push_reg, getr. apply wp_bind, wp_gets.
  pose proof Hp as (_ & _ & Hk & _). rewrite (Hk R9), (Hr1 R9) by done. clear Hk.
  wp_call (pushed_push lo hi Hw);
    [exact Hp|unfold lo, isr_room; cbn [map rev app length]; lia|apply (ib_regs _ Hib)|].
  clear Hp. intros _ s3 (Hs3 & Hsp3 & Hr3 & Hf3 & Hm3). cbn [map rev app] in Hs3.
  rewrite !Hr1 in Hs3 by done.
  unfold mov, syscall_args, getr, setr, rd64. do 6 (apply wph_step; wp_steps).
  do 8 apply wph_assoc, wph_step, wp_gets. cbn [k_regs k_mem set_regs]. reg_simpl.
  assert (H9 : load64 (kmap (k_regs s3 RSP)) (k_mem s3) = k_regs s R9).
  { destruct Hs3 as (_ & _ & _ & Hl). specialize (Hl 0%nat _ eq_refl). by rewrite Z.add_0_r in Hl. }
  rewrite H9. rewrite !Hr3, !Hr1 by done.
  match goal with |- wph _ ?s4 _ _ => set (s4' := s4) end.
  assert (E4 : exists g, s4' = set_regs (fun _ => g) s3 /\ g RSP = k_regs s3 RSP /\
    forall r, r ∈ [DS; ES; FS; GS; CR3; TR; CR2; GDTR_LIMIT; GDTR_BASE; IDTR_LIMIT; IDTR_BASE] -> g r = k_regs s3 r).
  { exists (k_regs s4'). split; [unfold s4'; repeat apply regs_frame_set; apply regs_frame_refl|].
    unfold s4'. cbn [k_regs set_regs]. split; [by reg_simpl|].
    intros r Hr. repeat (apply elem_of_cons in Hr as [->|Hr]; [by reg_simpl|]). by apply not_elem_of_nil in Hr. }
  clearbody s4'. destruct E4 as (g & -> & Hg & Hseg).
  apply HQ; clear HQ.
  - by eapply (stk_frame lo hi s3).
  - intros r Hr. cbn. rewrite Hseg by done.
    assert (r <> RSP /\ r <> SS /\ r <> CS) as (? & ? & ?)
      by (split_and!; intros ->; repeat (apply elem_of_cons in Hr as [?|Hr]; [done|]); by apply not_elem_of_nil in Hr).
    by rewrite Hr3, Hr1.
  - cbn [k_mem set_regs]. eapply mem_above_trans; [exact Hm1|exact Hm3].
  - unfold cpu_frame in Hf3. rewrite Hf3, E1. done.
Qed.

(** Way out: everything the stub saved is back. *)
Lemma stub_leave lo hi s2 junk v f rip cs rf sp ss :
  window_ok lo hi -> stk lo hi s2 (stub_words f ++ [rip; cs; rf; sp; ss]) ->
  wp (syscall_leave junk v) s2 (fun _ s3 =>
    k_regs s3 RAX = u64 v /\
    (forall r, r ∈ [RBX; RBP; R12; R13; R14; R15] -> k_regs s3 r = f r) /\
    (forall r, r ∈ [DS; ES; FS; GS; CR3; TR; CR2; GDTR_LIMIT; GDTR_BASE; IDTR_LIMIT; IDTR_BASE] -> k_regs s3 r = k_regs s2 r) /\
    k_regs s3 RIP = rip /\ k_regs s3 CS = cs /\ k_regs s3 RFLAGS = rf /\ k_regs s3 RSP = sp /\
    k_regs s3 SS = ss /\ (forall r, caller_saved r = true -> r <> RAX -> k_regs s3 r = junk r) /\
    s3 = set_if (fun _ => Z.testbit rf 9) (set_regs (fun _ => k_regs s3) s2)).
Proof.
  intros Hw Hs. unfold syscall_leave, setr. apply wp_bind, wp_modify. apply wp_bind, wp_modify.
  apply wp_bind. match goal with |- wp _ ?s0 _ => set (s1 := s0) end.
  assert (Hs1 : stk lo hi s1 ([f R9] ++ [f R15; f R14; f R13; f R12; f RBP; f RBX] ++ [rip; cs; rf; sp; ss]))
    by (by eapply (stk_frame lo hi s2)).
  wp_call (wp_drop_words lo hi Hw s1 [f R9]); [exact Hs1|done|]. intros _ sa (Hsa & Ea). apply wp_bind.
  wp_call (wp_pop_regs lo hi Hw [R15; R14; R13; R12; RBP; RBX] sa [f R15; f R14; f R13; f R12; f RBP; f RBX]);
    [by apply (bool_decide_unpack _)|exact Hsa|done|].
  intros _ sb (Hsb & Rb & _ & Eb). wp_call (wp_iretq lo hi Hw sb); [exact Hsb|]. intros _ s3 (R3 & E3).
  assert (Hne : forall r, r <> RSP -> r <> RAX -> k_regs sb r =
    load_regs [R15; R14; R13; R12; RBP; RBX] [f R15; f R14; f R13; f R12; f RBP; f RBX]
      (clobber junk (k_regs s2)) r).
  { intros r H1 H2. rewrite Rb by done. apply load_regs_ext. rewrite Ea. unfold s1. cbn [k_regs set_regs].
    by rewrite !rset_ne by congruence. }
  split_and!; rewrite ?R3; try done.
  - rewrite Rb, Ea by done. unfold s1. cbn [k_regs set_regs load_regs]. by reg_simpl.
  - intros r Hr. rewrite R3.
    repeat (apply elem_of_cons in Hr as [->|Hr]; [rewrite Hne by done; cbn [load_regs]; by reg_simpl|]).
    by apply not_elem_of_nil in Hr.
  - intros r Hr. rewrite R3.
    repeat (apply elem_of_cons in Hr as [->|Hr]; [rewrite Hne by done; cbn [load_regs]; by reg_simpl|]).
    by apply not_elem_of_nil in Hr.
  - intros r Hr Hne'. rewrite R3. destruct r; try done; rewrite Hne by done; cbn [load_regs]; by reg_simpl.
  - rewrite E3, Eb, Ea. unfold s1. done.
Qed.

(** What lies on the stack of the system call. *)
Definition on_stack s (x : Z) : Prop :=
  kmap (entry_stack s - isr_room) <= x < kmap (entry_stack s - isr_room) + isr_room.

(** All registers are callee-saved ones, the result or scratch. *)
Lemma kept_or_scratch r : kept r \/ caller_saved r = true.
Proof. destruct r; try (by right); left; by apply (bool_decide_unpack _). Qed.

(** A system call that returns: it may change the variables of thread.c, the TSS, the
    console and memory, but not its own stack. *)
Lemma int80_call s fuel junk (Q : Z -> kstate -> Prop) :
  interruptible s ->
  (forall s1, s1 = set_if (fun _ => false) (set_mem (fun _ => k_mem s1) (set_regs (fun _ => k_regs s1) s)) ->
    k_regs s1 CR3 = k_regs s CR3 ->
    (forall x, ~ on_stack s x -> mget (k_mem s1) x = mget (k_mem s) x) ->
    wp (syscall_handler fuel (k_regs s RAX) (k_regs s RDI) (k_regs s RSI) (k_regs s RDX)
          (k_regs s R10) (k_regs s R8) (k_regs s R9)) s1 (fun f s2 =>
      exists v, f = SReturns v /\ Q v s2 /\
        s2 = set_con (fun _ => k_con s2) (set_gdt (fun _ => k_gdt s2) (set_sched (fun _ => k_sched s2)
               (set_mem (fun _ => k_mem s2) s1))) /\
        forall x, on_stack s x -> mget (k_mem s2) x = mget (k_mem s1) x)) ->
  wp (int80 fuel junk) s (fun o s' => o = None /\
    (exists v s2, k_regs s' RAX = u64 v /\ Q v s2 /\ k_sched s' = k_sched s2 /\ k_mem s' = k_mem s2 /\
       k_con s' = k_con s2 /\ k_gdt s' = k_gdt s2) /\
    (forall r, kept r -> k_regs s' r = k_regs s r) /\ (regs_u64 junk -> regs_u64 (k_regs s')) /\ k_if s' = k_if s /\
    s' = set_con (fun _ => k_con s') (set_gdt (fun _ => k_gdt s') (set_sched (fun _ => k_sched s')
           (set_mem (fun _ => k_mem s') (set_regs (fun _ => k_regs s') s))))).
Proof.
  intros Hib H. pose proof (ib_stack _ Hib) as Hw. apply wph_returns, stub_enter; [done|].
  intros s1 Hs1 Hseg Hm1 E1. apply wph_wp, wp_bind. eapply wp_mono; [apply H; [exact E1|apply Hseg; set_solver|]|].
  { intros x Hx. apply Hm1. unfold on_stack in Hx. lia. }
  clear H. intros f s2 (v & -> & HQ & E2 & Hst). apply wp_bind.
  assert (Er : k_regs s2 = k_regs s1) by by rewrite E2.
  wp_call (stub_leave _ _ s2 junk v (k_regs s)); [exact Hw| |].
  { eapply (stk_mem _ _ Hw s1); [by rewrite Er| |exact Hs1]. intros a Ha. apply Hst. unfold on_stack. lia. }
  intros _ s3 (Ra & Rk & Rs & R1 & R2 & R3 & R4 & R5 & Rj & E3). apply wp_ret.
  assert (Hk : forall r, kept r -> k_regs s3 r = k_regs s r).
  { intros r Hr. unfold kept in Hr. do 6 (apply elem_of_cons in Hr as [->|Hr]; [by apply Rk; set_solver|]).
    do 5 (apply elem_of_cons in Hr as [->|Hr]; [done|]). rewrite Rs, Er by done. by apply Hseg. }
  split_and!; [done| |done| | |].
  - exists v, s2. split_and!; [done|done|by rewrite E3..].
  - intros Hj r. destruct (decide (r = RAX)) as [->|Hne]; [rewrite Ra; apply u64_range|].
    destruct (kept_or_scratch r) as [Hr|Hr]; [rewrite Hk by done; apply (ib_regs _ Hib)|rewrite Rj by done; apply Hj].
  - rewrite E3. cbn. apply (ib_flags _ Hib).
  - rewrite E3, E2, E1, (ib_flags _ Hib). by destruct s.
Qed.

(** A system call that returns, changes the variables of thread.c and memory, but
    not its own stack. *)
Lemma int80_served s fuel junk (Q : Z -> kstate -> Prop) :
  interruptible s ->
  (forall s1, k_sched s1 = k_sched s -> k_regs s1 CR3 = k_regs s CR3 ->
    (forall x, ~ on_stack s x -> mget (k_mem s1) x = mget (k_mem s) x) ->
    wp (syscall_handler fuel (k_regs s RAX) (k_regs s RDI) (k_regs s RSI) (k_regs s RDX)
          (k_regs s R10) (k_regs s R8) (k_regs s R9)) s1 (fun f s2 =>
      exists v, f = SReturns v /\ Q v s2 /\ s2 = set_sched (fun _ => k_sched s2) (set_mem (fun _ => k_mem s2) s1) /\
        forall x, on_stack s x -> mget (k_mem s2) x = mget (k_mem s1) x)) ->
  wp (int80 fuel junk) s (fun o s' => o = None /\
    (exists v s2, k_regs s' RAX = u64 v /\ Q v s2 /\ k_sched s' = k_sched s2 /\ k_mem s' = k_mem s2) /\
    (forall r, kept r -> k_regs s' r = k_regs s r) /\ k_if s' = k_if s).
Proof.
  intros Hib H. wp_call (int80_call s fuel junk Q); [done| |].
  - intros s1 E1 Hc Hm. wp_call (H s1); [by rewrite E1|done|done|]. intros f s2 (v & -> & HQ & E2 & Hst).
    exists v. split_and!; [done|done| |done]. rewrite E2. by destruct s1.
  - intros o s' (-> & (v & s2 & H1 & H2 & H3 & H4 & _) & Hk & _ & Hif & _). split_and!; [done| |done|done].
    by exists v, s2.
Qed.

(** A system call that returns and changes only the variables of thread.c. *)
Lemma int80_returns s fuel junk (Q : Z -> sched_vars -> Prop) :
  interruptible s ->
  (forall s1, k_sched s1 = k_sched s ->
    wp (syscall_handler fuel (k_regs s RAX) (k_regs s RDI) (k_regs s RSI) (k_regs s RDX)
          (k_regs s R10) (k_regs s R8) (k_regs s R9)) s1 (fun f s2 =>
      exists v, f = SReturns v /\ Q v (k_sched s2) /\ s2 = set_sched (fun _ => k_sched s2) s1)) ->
  wp (int80 fuel junk) s (fun o s' => o = None /\
    (exists v, k_regs s' RAX = u64 v /\ Q v (k_sched s')) /\
    (forall r, kept r -> k_regs s' r = k_regs s r) /\ k_if s' = k_if s /\
    mem_above (entry_stack s - isr_room) (entry_stack s) (k_mem s) (k_mem s')).
Proof.
  intros Hib H.
  wp_call (int80_served s fuel junk (fun v s2 => Q v (k_sched s2) /\
    forall x, ~ on_stack s x -> mget (k_mem s2) x = mget (k_mem s) x)); [done| |].
  - intros s1 E1 _ Hm. wp_call (H s1 E1). intros f s2 (v & -> & HQ & E2).
    assert (Em : k_mem s2 = k_mem s1) by by rewrite E2.
    exists v. split_and!; [done|done|by rewrite Em| |by rewrite Em].
    rewrite E2. by destruct s1.
  - intros o s' (-> & (v & s2 & Hv & (HQ & Hm) & Es & Em) & Hk & Hif). split_and!; [done| |done|done|].
    + exists v. by rewrite Es.
    + intros a Ha. rewrite Em. apply Hm. unfold on_stack. lia.
Qed.
End stub.

(** ** Leaving for good *)

Section exiting.
Context {P : Platform}.
Implicit Types s : kstate.

Definition dead_vars (c : nat) (v : sched_vars) : sched_vars :=
  with_threads (alter (with_state THREAD_DEAD) c) v.

Lemma dead_runnable v c i :
  runnable (dead_vars c v) i = if decide (i = c) then false else runnable v i.
Proof.
  unfold runnable. cbn. destruct (decide (i = c)) as [->|].
  - rewrite list_lookup_alter_eq. by destruct (threads v !! c).
  - by rewrite list_lookup_alter_ne.
Qed.

(** SYS_THREAD_EXIT up to the yield. *)
Lemma exit_run s fuel n c a1 a2 a3 a4 a5 a6 :
  ring (k_sched s) n -> current (k_sched s) = Some c ->
  syscall_handler fuel SYS_THREAD_EXIT a1 a2 a3 a4 a5 a6 s =
  (b <- thread_yield ;; if (b : bool) then ret (SSuspended KExit) else halt_loop)
    (set_sched (dead_vars c)
      (printed [CPrint (str "Thread exiting with code: "); CHex a1; CPrint [10]] s)).
Proof.
  intros Hr Hc. pose proof (rg_current _ _ Hr) as Hlt. rewrite Hc in Hlt.
  destruct (rg_next _ _ Hr c Hlt) as (t & Ht & _). rewrite <- (printed_nil s) at 1.
  unfold syscall_handler. cbn [SYS_THREAD_EXIT SYS_SEND SYS_RECV Z.eqb Pos.eqb].
  unfold kprint, kprint_hex, kprintln. rewrite !con_run. cbn [app].
  set (s1 := printed _ s).
  assert (Ht1 : threads (k_sched s1) !! c = Some t) by done.
  rewrite (bind_ret thread_current _ s1 (Some c) s1) by (unfold thread_current, sched, gets; by rewrite <- Hc).
  rewrite (bind_ret _ _ _ _ _ (upd_thread_eq s1 c t (with_state THREAD_DEAD) Ht1)).
  f_equal. unfold set_sched, dead_vars, with_threads. f_equal. f_equal.
  by apply (alter_insert _ _ t (with_state THREAD_DEAD)).
Qed.
End exiting.

(** ** A dead thread that is still registered at a port *)

Section resurrection.
Context {P : Platform}.
Implicit Types s : kstate.
Lemma ghost_u32 id id' d d' : Forall is_u32 [id; id'; d; d'] -> Forall is_u32 [id; d; d; d; d].
Proof. rewrite !Forall_cons, !Forall_nil. tauto. Qed.

Context (Hst : stacks_ok) (Hsym : 0 <= sym_yield_return < 18446744073709551616).

(** A recv with nobody else to run. *)
Lemma recv_stale s q n c p x out :
  machine s n -> ipc_ok (k_sched s) q -> current (k_sched s) = Some c ->
  (forall i, (i < n)%nat -> i <> c -> runnable (k_sched s) i = false) -> (p < 16)%nat ->
  waiting (k_sched s) p = [] -> out <> 0 -> ports (k_sched s) !! p = Some x -> blocked_thread x = None ->
  recv (Some p) out s = Ret (Returns (-4)) (set_sched (blocked_vars c p) s) /\
  machine (set_sched (blocked_vars c p) s) n /\ ipc_ok (blocked_vars c p (k_sched s)) q.
Proof.
  intros Hm Hok Hc Honly Hp Hw Hout Hx Hb. destruct (machine_current s n c Hm Hc) as [Hcn Hc8]. split_and!.
  - destruct (wp_inv _ _ _ (recv_waits s q n p c x out (mc_ring _ _ Hm) Hok Hp Hout Hw Hc Hx Hb)) as (f & s1 & E & H).
    rewrite round_robin_nobody in H; [by destruct H as [-> ->]|done|].
    intros i Hi. rewrite blocked_vars_runnable. destruct (decide (i = c)); [done|by apply Honly].
  - eapply (machine_local Hst n c s); [done|done|]. apply sched_step; [done|done|by apply blocked_vars_ring, Hm|done| |done|done].
    intros i. cbn. destruct (decide (i = c)) as [->|]; [|by rewrite list_lookup_alter_ne].
    rewrite list_lookup_alter_eq. by destruct (threads (k_sched s) !! c).
  - by apply blocked_vars_ok.
Qed.

(** A send that wakes thread [t]. *)
Lemma send_machine s q n c t p x id d :
  machine s n -> ipc_ok (k_sched s) q -> current (k_sched s) = Some c -> (p < 16)%nat ->
  message_pool_next (k_sched s) < 64 -> ports (k_sched s) !! p = Some x -> blocked_thread x = Some t -> (t < n)%nat ->
  Forall is_u32 [id; d; d; d; d] ->
  exists s', send (Some p) id d d d d s = Ret 0 s' /\ machine s' n /\ (exists q', ipc_ok (k_sched s') q') /\
    current (k_sched s') = Some c /\ threads (k_sched s') = alter woken t (threads (k_sched s)) /\
    (forall p', p' <> p -> ports (k_sched s') !! p' = ports (k_sched s) !! p') /\
    message_pool_next (k_sched s') = message_pool_next (k_sched s) + 1 /\ k_regs s' = k_regs s /\
    (forall a sp ws, (a < n)%nat -> a <> c -> parked_at s a sp ws -> parked_at s' a sp ws).
Proof.
  intros Hm Hok Hc Hp Hn Hx Hb Ht Hu.
  destruct (wp_inv _ _ _ (send_ok s q p id d d d d Hok Hp Hn Hu)) as (r & s' & E & -> & [S1 S2 S3 _ S5 (S6 & S7 & S8 & _) S10 S11]).
  specialize (S3 x Hx). rewrite Hb in S3. cbn [wake_threads] in S3. exists s'.
  assert (Hl : local_step n c s s').
  { apply sched_step; [done|done| |done| |by rewrite S10|by rewrite S10].
    - apply (ring_vars (with_threads (alter woken t) (k_sched s))); [by apply ring_alter, Hm|done..].
    - intros i. rewrite S3. destruct (decide (i = t)) as [->|]; [|by rewrite list_lookup_alter_ne].
      rewrite list_lookup_alter_eq. by destruct (threads (k_sched s) !! t). }
  destruct (machine_local Hst n c s s' Hc Hm Hl) as [H1 H2].
  split_and!; [done|done|by eexists|congruence|done|done|done|by rewrite S10|done].
Qed.

Lemma woken_runnable s s' n t : machine s n -> (t < n)%nat ->
  threads (k_sched s') = alter woken t (threads (k_sched s)) -> runnable (k_sched s') t = true.
Proof.
  intros Hm Ht E. unfold runnable. rewrite E, list_lookup_alter_eq.
  by destruct (rg_next _ _ (mc_ring _ _ Hm) t Ht) as (x & -> & _).
Qed.

(** The exit of [c] when only [j] can run. *)
Lemma exit_to s q n c j fuel code :
  machine s n -> ipc_ok (k_sched s) q -> current (k_sched s) = Some c -> (j < n)%nat -> j <> c ->
  runnable (k_sched s) j = true -> (forall i, (i < n)%nat -> i <> j -> i <> c -> runnable (k_sched s) i = false) ->
  exists s', syscall_handler fuel SYS_THREAD_EXIT code 0 0 0 0 0 s = Ret (SSuspended KExit) s' /\
    machine s' n /\ ipc_ok (k_sched s') q /\ current (k_sched s') = Some j /\
    threads (k_sched s') = saved_rsp c (yield_rsp s) (alter (with_state THREAD_DEAD) c (threads (k_sched s))) /\
    ports (k_sched s') = ports (k_sched s) /\ message_pool_next (k_sched s') = message_pool_next (k_sched s) /\
    parked_at s' c (k_regs s RSP - 56) (yield_frame s ++ []).
Proof.
  intros Hm Hok Hc Hj Hne Hrun Honly. destruct (machine_current s n c Hm Hc) as [Hcn Hc8].
  pose proof (exit_run s fuel n c code 0 0 0 0 0 (mc_ring _ _ Hm) Hc) as E. set (s1 := set_sched (dead_vars c) _) in E.
  assert (Hl : local_step n c s s1).
  { apply sched_step; [done|done|by apply ring_alter, Hm|done| |done|done].
    intros i. cbn. destruct (decide (i = c)) as [->|]; [|by rewrite list_lookup_alter_ne].
    rewrite list_lookup_alter_eq. by destruct (threads (k_sched s) !! c). }
  destruct (machine_local Hst n c s s1 Hc Hm Hl) as [Hm1 _].
  assert (Ej : round_robin (k_sched s1) c n = Some j).
  { apply round_robin_only; [done|done|done| |].
    - change (k_sched s1) with (dead_vars c (k_sched s)). by rewrite dead_runnable, decide_False.
    - intros i Hi Hij Hic. change (k_sched s1) with (dead_vars c (k_sched s)). rewrite dead_runnable, decide_False by done. by apply Honly. }
  destruct (wp_inv _ _ _ (thread_yield_spec s1 n c (mc_ring _ _ Hm1) Hc)) as (b & s2 & E2 & Hy).
  unfold yielded in Hy. rewrite Ej in Hy. destruct Hy as (-> & Hsw & _). rewrite bool_decide_false in E2 by congruence. cbn [negb] in E2.
  exists s2. split; [rewrite E, (bind_ret _ _ _ _ _ E2); done|].
  assert (Hok1 : ipc_ok (k_sched s1) q).
  { apply (ipc_ok_ports (k_sched s)); [done|cbn; rewrite length_alter; apply Hok|done|done|apply Hok|].
    intros p' x Hx. exists x. split_and!; try done. intros t. by apply (ip_blocked _ _ Hok p'). }
  destruct (switched_ipc _ _ _ _ _ q Hsw Hok1) as (Hok2 & _ & Hp2 & Hn2).
  destruct (yielded_parks Hst Hsym s1 n c s2 [] Hm1 Hc) as (Hm2 & _ & Hpk); [apply stk_nil|exact E2|].
  { pose proof (mc_running _ _ Hm1 c Hc). lia. }
  unfold switched in Hsw. rewrite decide_False in Hsw by congruence.
  split_and!; [done|done|by rewrite Hsw|by rewrite Hsw|done|done|exact Hpk].
Qed.

(** [j] yields to [c], parked in thread_yield. *)
Lemma ghost_back s n j c sp (f : regs) :
  machine s n -> current (k_sched s) = Some j -> (c < n)%nat -> j <> c -> runnable (k_sched s) j = true ->
  runnable (k_sched s) c = true -> (forall i, (i < n)%nat -> i <> c -> i <> j -> runnable (k_sched s) i = false) ->
  parked_at s c sp ((map f callee_saved ++ [sym_yield_return]) ++ []) ->
  exists s', thread_yield s = Ret true s' /\ current (k_sched s') = Some c /\ k_regs s' RIP = sym_yield_return /\
    k_regs s' RSP = sp + 56 /\ runnable (k_sched s') j = true.
Proof.
  intros Hm Hj Hc Hne Hrj Hrc Honly Hp. destruct (machine_current s n j Hm Hj) as [Hjn _].
  destruct (wp_inv _ _ _ (thread_yield_spec s n j (mc_ring _ _ Hm) Hj)) as (b & s' & E & Hy). unfold yielded in Hy.
  rewrite (round_robin_only _ j n c) in Hy by (done || congruence). destruct Hy as (-> & Hsw & _).
  rewrite bool_decide_false in E by done. cbn [negb] in E.
  assert (Hc' : current (k_sched s') = Some c) by (rewrite Hsw; by destruct (decide (j = c))).
  destruct (parked_resumes Hst Hsym s n j c sp f [] s' Hm Hj Hne Hp E Hc') as (R1 & R2 & _).
  exists s'. split_and!; [done|done|done|done|]. by rewrite (switched_runnable _ _ _ _ _ _ Hsw).
Qed.
End resurrection.

(** Two kernel threads, the first one running. *)
Definition demo_two : kstate :=
  set_regs (fun _ r => match r with RSP => 0xFFFFFFFF80010F00 | _ => 0 end)
  (set_sched (fun v => mkSched (Some 0%nat) (Some 0%nat)
    ([demo_thread 0xFFFFFFFF80010FC8 THREAD_RUNNING 1; demo_thread 0xFFFFFFFF80011FC8 THREAD_RUNNING 0]
      ++ replicate 6 null_thread) 2
    (ports v) (port_count v) (message_pool v) (message_pool_next v)) demo_boot).

Lemma demo_two_ring : ring (k_sched demo_two) 2.
Proof.
  constructor; try reflexivity; [lia|cbn; lia|].
  intros i Hi. destruct i as [|[|i]]; [..|lia]; (eexists; split; reflexivity).
Qed.

(** A program about to send message 7 to port 3. *)
Definition demo_sender (id : Z) : kstate :=
  set_regs (fun f r => match r with
    | RAX => 1 | RDI => id | RSI => 7 | RDX => 10 | R10 => 20 | R8 => 30 | R9 => 40 | r => f r end) demo_user.

Lemma demo_sender_interruptible : interruptible (demo_sender 3).
Proof.
  destruct demo_interruptible as [Hr Hf Hw]. constructor; [|exact Hf|exact Hw].
  intros []; vm_compute; split; congruence.
Qed.
Lemma demo_sender_ipc : ipc_ok (k_sched (demo_sender 3)) (fun _ => []).
Proof. apply ipc_ok_fresh; reflexivity. Qed.

(** A program about to receive from port 3, where message 7 waits: its stack is in a
    1 GiB page of its address space. *)
Definition recv_mem : gmap Z Z :=
  store64 (slot 0x200000 255) 0x201007 (store64 (slot 0x201000 511) 0x40000087 ∅).
Definition demo_waiting : kstate :=
  set_mem (fun _ => recv_mem) (set_regs (fun f r => match r with
    | CR3 => 0x200000 | RAX => 2 | RDI => 3 | RSI => 0x7FFFFFFFEF00 | r => f r end) demo_user).
Definition demo_receiver : kstate := run (send (Some 2%nat) 7 10 20 30 40) demo_waiting.

Lemma recv_mem_slot p i : page_ok p -> idx_ok i ->
  load64 (slot p i) recv_mem =
  if decide (p = 0x200000 /\ i = 255) then 0x201007 else if decide (p = 0x201000 /\ i = 511) then 0x40000087 else 0.
Proof.
  intros Hp Hi. assert (H1 : page_ok 0x200000) by (unfold page_ok, PAGE_SIZE, PHYS_LIMIT; split; [reflexivity|lia]).
  assert (H2 : page_ok 0x201000) by (unfold page_ok, PAGE_SIZE, PHYS_LIMIT; split; [reflexivity|lia]).
  unfold recv_mem. destruct (decide _) as [[-> ->]|Hn1]; [reflexivity|].
  rewrite load_store64_ne by (apply page_ok_disjoint; [done|done|done|done|intros [= ? ?]; apply Hn1; split; congruence]).
  destruct (decide _) as [[-> ->]|Hn2]; [reflexivity|].
  rewrite load_store64_ne by (apply page_ok_disjoint; [done|done|done|done|intros [= ? ?]; apply Hn2; split; congruence]).
  reflexivity.
Qed.

(** Two tables. *)
Lemma recv_mem_tab pi q : Forall idx_ok pi -> tab recv_mem 0x200000 pi = Some q ->
  (pi = [] /\ q = 0x200000) \/ (pi = [255] /\ q = 0x201000).
Proof.
  intros Hf. assert (H1 : page_ok 0x200000) by (unfold page_ok, PAGE_SIZE, PHYS_LIMIT; split; [reflexivity|lia]).
  assert (H2 : page_ok 0x201000) by (unfold page_ok, PAGE_SIZE, PHYS_LIMIT; split; [reflexivity|lia]).
  destruct pi as [|i pi]; [intros [= <-]; by left|]. apply Forall_cons in Hf as [Hi Hf]. cbn [tab].
  rewrite recv_mem_slot by done. destruct (decide _) as [[_ ->]|_].
  - change (is_table 0x201007) with true. change (entry_to_phys 0x201007) with 0x201000. cbv iota.
    destruct pi as [|j pi]; [intros [= <-]; by right|]. apply Forall_cons in Hf as [Hj _]. cbn [tab].
    rewrite recv_mem_slot, decide_False by (done || lia).
    by destruct (decide _).
  - rewrite decide_False by lia. done.
Qed.

Lemma demo_receiver_spec : ipc_ok (k_sched demo_receiver) (set_queue (fun _ => []) 2 [0%nat]) /\
  waiting (k_sched demo_receiver) 2 = [(7, [10; 20; 30; 40])] /\ demo_receiver = set_sched (fun _ => k_sched demo_receiver) demo_waiting.
Proof.
  destruct (wp_inv _ _ _ (send_ok demo_waiting (fun _ => []) 2 7 10 20 30 40 demo_sender_ipc ltac:(lia) ltac:(reflexivity)
    ltac:(repeat apply Forall_cons_2; apply Forall_nil_2 || (unfold is_u32; lia)))) as (r & s' & E & -> & Hs).
  assert (demo_receiver = s') as -> by (unfold demo_receiver, run; by rewrite E).
  split_and!; [apply Hs| |apply Hs]. rewrite (sn_waiting _ _ _ _ _ Hs) by lia. reflexivity.
Qed.

Lemma demo_receiver_buffer : user_buffer demo_receiver 0x7FFFFFFFEF00 20 0x7FFFEF00.
Proof.
  destruct demo_receiver_spec as (_ & _ & ->). constructor; cbn [k_mem set_sched].
  - change (cr3_root (set_sched _ demo_waiting)) with 0x200000. constructor.
    + intros pi q _ Hf Hq. split; [|apply not_elem_of_nil].
      destruct (recv_mem_tab pi q Hf Hq) as [[_ ->]|[_ ->]]; unfold page_ok, PAGE_SIZE, PHYS_LIMIT; (split; [reflexivity|lia]).
    + intros pi1 pi2 q _ _ F1 F2 H1 H2.
      destruct (recv_mem_tab pi1 q F1 H1) as [[-> ->]|[-> ->]], (recv_mem_tab pi2 _ F2 H2) as [[-> E]|[-> E]]; done.
  - unfold USER_LIMIT. lia.
  - vm_compute. congruence.
  - vm_compute. reflexivity.
  - intros i Hi (q & (pi & _ & Hf & Hq) & Hx). change (cr3_root _) with 0x200000 in Hq. unfold in_page, PAGE_SIZE in Hx.
    destruct (recv_mem_tab pi q Hf Hq) as [[_ ->]|[_ ->]]; lia.
Qed.

Lemma demo_receiver_regs : k_regs demo_receiver = k_regs demo_waiting.
Proof. destruct demo_receiver_spec as (_ & _ & ->). done. Qed.
Lemma demo_receiver_id : u32 (k_regs demo_receiver RDI) = 3.
Proof. by rewrite demo_receiver_regs. Qed.
Lemma demo_receiver_out : k_regs demo_receiver RSI = 0x7FFFFFFFEF00.
Proof. by rewrite demo_receiver_regs. Qed.
Lemma demo_receiver_interruptible : interruptible demo_receiver.
Proof.
  destruct demo_interruptible as [H1 H2 H3], demo_receiver_spec as (_ & _ & ->). constructor; [|exact H2|exact H3].
  intros []; vm_compute; split; congruence.
Qed.
Lemma demo_receiver_stack x : on_stack demo_receiver x ->
  ~ in_table (k_mem demo_receiver) (cr3_root demo_receiver) x /\ ~ 0x7FFFEF00 <= x < 0x7FFFEF00 + 20.
Proof.
  destruct demo_receiver_spec as (_ & _ & ->). intros Hx. assert (Hk : 0xFFFFFFFF80010000 <= x).
  { destruct Hx as [Hx _]. etransitivity; [|exact Hx]. vm_compute. congruence. }
  split; [|lia]. intros (q & (pi & _ & Hf & Hp) & Hi). unfold in_page, PAGE_SIZE in Hi.
  destruct (recv_mem_tab pi q Hf Hp) as [[_ ->]|[_ ->]]; lia.
Qed.
#[local] Opaque demo_receiver.

(** ** Properties *)

(** C13: The send system call, from [int $0x80] in the program to the instruction
    after it: the port is the one whose id is in RDI and the message the low 32 bits
    of RSI, RDX, R10, R8 and R9; RAX holds -1 for an id that is not between 1 and
    16, -2 when the pool is used up, else 0 with the message at the end of the
    port's queue and the registered receiver woken.  The callee-saved registers,
    the stack pointer, the segments, the flags and the interrupt flag are as
    before, and memory has changed only on the kernel stack of the thread. *)
Theorem syscall_send_correct {P : Platform} (s : kstate) (q : nat -> list nat) (fuel : nat) (junk : regs) :
  interruptible s -> ipc_ok (k_sched s) q -> k_regs s RAX = SYS_SEND ->
  wp (int80 fuel junk) s (fun o s' =>
    o = None /\ (forall r, kept r -> k_regs s' r = k_regs s r) /\ k_if s' = k_if s /\
    mem_above (entry_stack s - isr_room) (entry_stack s) (k_mem s) (k_mem s') /\
    let id := u32 (k_regs s RDI) in
    if bool_decide (1 <= id <= 16) then
      if message_pool_next (k_sched s) <? 64 then
        k_regs s' RAX = 0 /\ exists q', ipc_ok (k_sched s') q' /\
        waiting (k_sched s') (Z.to_nat (id - 1)) = waiting (k_sched s) (Z.to_nat (id - 1)) ++
          [(u32 (k_regs s RSI), [u32 (k_regs s RDX); u32 (k_regs s R10); u32 (k_regs s R8); u32 (k_regs s R9)])] /\
        forall x, ports (k_sched s) !! Z.to_nat (id - 1) = Some x ->
          threads (k_sched s') = wake_threads (blocked_thread x) (threads (k_sched s))
      else k_regs s' RAX = u64 (-2) /\ k_sched s' = k_sched s
    else k_regs s' RAX = u64 (-1) /\ k_sched s' = k_sched s).
Proof.
  intros Hib Hok Hnum. set (id := u32 (k_regs s RDI)). set (p := Z.to_nat (id - 1)).
  set (d := (u32 (k_regs s RSI), [u32 (k_regs s RDX); u32 (k_regs s R10); u32 (k_regs s R8); u32 (k_regs s R9)])).
  set (Q := fun (v : Z) (v' : sched_vars) =>
    if bool_decide (1 <= id <= 16) then
      if message_pool_next (k_sched s) <? 64 then
        v = 0 /\ exists q', ipc_ok v' q' /\ waiting v' p = waiting (k_sched s) p ++ [d] /\
        forall x, ports (k_sched s) !! p = Some x -> threads v' = wake_threads (blocked_thread x) (threads (k_sched s))
      else v = -2 /\ v' = k_sched s
    else v = -1 /\ v' = k_sched s).
  wp_call (int80_returns s fuel junk Q); [done| |].
  - intros s1 E1. rewrite Hnum. unfold syscall_handler. rewrite Z.eqb_refl. fold id. unfold port_from_id, MAX_PORTS, Q.
    rewrite Z.gtb_ltb. case_bool_decide as Hid.
    + rewrite (proj2 (Z.eqb_neq id 0)), (proj2 (Z.ltb_ge 16 id)) by lia. cbn [orb]. fold p. apply wp_bind.
      destruct (Z.ltb_spec (message_pool_next (k_sched s)) 64) as [Hn|Hn].
      * wp_call (send_ok s1 q p); [by rewrite E1|unfold p; lia|by rewrite E1|repeat constructor; apply u32_range|].
        intros r s2 (-> & [S1 S2 S3 _ _ _ S7]). apply wp_ret. exists 0. split_and!; [done|done| |done].
        eexists. split; [exact S1|]. rewrite S2, decide_True, E1 by (done || unfold p; lia).
        rewrite E1 in S3. by split.
      * eapply wp_eq; [apply send_exhausted; by rewrite E1|]. apply wp_ret. exists (-2).
        rewrite E1. split_and!; [done|done|done|]. rewrite <- E1. by destruct s1.
    + assert ((id =? 0) || (16 <? id) = true) as ->.
      { unfold id in *. pose proof (u32_range (k_regs s RDI)).
        destruct (Z.eqb_spec (u32 (k_regs s RDI)) 0); [done|]. apply Z.ltb_lt. lia. }
      apply wp_ret. exists (-1). rewrite E1. split_and!; [done|done|done|]. rewrite <- E1. by destruct s1.
  - intros o s' (-> & (v & Hv & HQ) & Hk & Hif & Hm). split_and!; [done|done|done|done|].
    unfold Q in HQ. cbv zeta. fold id p d. case_bool_decide; [destruct (message_pool_next (k_sched s) <? 64)|].
    all: destruct HQ as [-> HQ]; by split.
Qed.

Lemma syscall_send_correct_witness :
  wp (int80 0 (fun _ => 0x77)) (demo_sender 3) (fun o s' => o = None /\ k_regs s' RAX = 0 /\
    k_regs s' RSP = 0x7FFFFFFFEFF8 /\ waiting (k_sched s') 2 = [(7, [10; 20; 30; 40])]).
Proof.
  refine (wp_mono _ _ _ _ (syscall_send_correct (demo_sender 3) (fun _ => []) 0 (fun _ => 0x77)
    demo_sender_interruptible demo_sender_ipc eq_refl) _).
  intros o s' (H1 & H2 & _ & _ & H). cbv zeta in H.
  change (bool_decide (1 <= u32 (k_regs (demo_sender 3) RDI) <= 16)) with true in H.
  change (message_pool_next (k_sched (demo_sender 3)) <? 64) with true in H. cbv iota in H.
  destruct H as (H3 & q' & _ & H4 & _). split_and!; [exact H1|exact H3| |exact H4].
  rewrite H2; [reflexivity|]. unfold kept. apply (bool_decide_unpack _). exact I.
Defined.

(** C14: The recv system call when a message is waiting, from [int $0x80] in the program to
    the instruction after it: RAX is 0, the first message of the port is out of its queue,
    and the program reads its five words through the page tables at the address it gave
    in RSI.  The registers [kept] lists are as before; memory has changed only in that
    buffer and on the kernel stack of the thread. *)
Theorem syscall_recv_correct {P : Platform} (s : kstate) (q : nat -> list nat) (fuel : nat) (junk : regs) (pa : Z) :
  let id := u32 (k_regs s RDI) in let p := Z.to_nat (id - 1) in let out := k_regs s RSI in
  interruptible s -> ipc_ok (k_sched s) q -> k_regs s RAX = SYS_RECV -> 1 <= id <= 16 ->
  waiting (k_sched s) p <> [] -> out <> 0 -> user_buffer s out 20 pa ->
  (forall x, on_stack s x -> ~ in_table (k_mem s) (cr3_root s) x /\ ~ pa <= x < pa + 20) ->
  wp (int80 fuel junk) s (fun o s' =>
    o = None /\ k_regs s' RAX = 0 /\ (forall r, kept r -> k_regs s' r = k_regs s r) /\ k_if s' = k_if s /\
    (exists q', ipc_ok (k_sched s') q') /\
    (exists d, waiting (k_sched s) p = d :: waiting (k_sched s') p /\ delivered (fun i => pa + i) d (k_mem s')) /\
    (forall i, 0 <= i < 20 -> vaddr s' (out + i) = Some (pa + i)) /\
    (forall x, ~ on_stack s x -> ~ pa <= x < pa + 20 -> mget (k_mem s') x = mget (k_mem s) x)).
Proof.
  intros id p out Hib Hok Hnum Hid Hne Hout Hub Hst.
  wp_call (int80_served s fuel junk (fun v s2 => v = 0 /\
    (forall x, ~ on_stack s x -> ~ pa <= x < pa + 20 -> mget (k_mem s2) x = mget (k_mem s) x) /\
    (exists q', ipc_ok (k_sched s2) q') /\
    exists d, waiting (k_sched s) p = d :: waiting (k_sched s2) p /\ delivered (fun i => pa + i) d (k_mem s2)));
    [done| |].
  - intros s1 E1 Ec Hm. assert (D1 : dest s1 out 20 (fun i => pa + i)).
    { apply user_dest, (user_buffer_kept s); [done|done|]. intros x Hx. apply Hm. intros Hs. by destruct (Hst x Hs). }
    rewrite Hnum. unfold syscall_handler. change (SYS_RECV =? SYS_SEND) with false. rewrite Z.eqb_refl. fold id out.
    unfold port_from_id, MAX_PORTS. rewrite Z.gtb_ltb, (proj2 (Z.eqb_neq id 0)), (proj2 (Z.ltb_ge 16 id)) by lia.
    cbn [orb]. fold p. apply wp_bind. unfold recv. rewrite (proj2 (Z.eqb_neq _ _) Hout). apply wp_bind.
    wp_call (recv_take_ok s1 q p out (fun i => pa + i)); [by rewrite E1|unfold p; lia|by rewrite E1|done|].
    intros r s2 (-> & Hr). apply wp_ret, wp_ret. exists 0. split_and!; [done|done| | | |apply Hr|].
    + intros x Hx Hpa. rewrite (rc_mem _ _ _ _ _ Hr); [by apply Hm|]. intros j Hj ->. lia.
    + eexists. apply Hr.
    + rewrite <- E1. apply Hr.
    + intros x Hx. apply (rc_mem _ _ _ _ _ Hr). intros j Hj ->. destruct (Hst _ Hx). lia.
  - intros o s' (-> & (v & s2 & Hv & (-> & Hm & Hq & Hd) & Es & Em) & Hk & Hif).
    rewrite <- Es, <- Em in *. split_and!; try done. intros i Hi.
    apply (dest_now s' out 20 (fun i => pa + i)); [|done]. apply user_dest, (user_buffer_kept s); [done|apply Hk; unfold kept; apply (bool_decide_unpack _); exact I|].
    intros x Hx. apply Hm; [intros Hs; by destruct (Hst x Hs)|]. intros Hp. apply (ub_table _ _ _ _ Hub (x - pa)); [lia|].
    by replace (pa + (x - pa)) with x by lia.
Qed.

Lemma syscall_recv_correct_witness :
  wp (int80 0 (fun _ => 0x77)) demo_receiver (fun o s' => o = None /\ k_regs s' RAX = 0 /\
    delivered (fun i => 0x7FFFEF00 + i) (7, [10; 20; 30; 40]) (k_mem s')).
Proof.
  pose proof demo_receiver_spec as (Hq & Hw & _).
  refine (wp_mono _ _ _ _ (syscall_recv_correct demo_receiver _ 0 (fun _ => 0x77) 0x7FFFEF00
    demo_receiver_interruptible Hq _ _ _ _ _ demo_receiver_stack) _).
  all: rewrite ?demo_receiver_id, ?demo_receiver_out; change (Z.to_nat (3 - 1)) with 2%nat.
  - by rewrite demo_receiver_regs.
  - lia.
  - rewrite Hw. discriminate.
  - discriminate.
  - exact demo_receiver_buffer.
  - intros o s' (H1 & H2 & _ & _ & _ & (d & Hd & Hdel) & _). split_and!; [exact H1|exact H2|].
    rewrite Hw in Hd. injection Hd as <- _. exact Hdel.
Defined.

(** C33: A thread that exits does not come back by itself: SYS_THREAD_EXIT marks the
    calling thread DEAD, and no other; if another thread is runnable it hands the
    processor to the one round robin prescribes, if not it halts the processor
    with interrupts disabled.  It never returns to the caller, and would halt the
    processor if the thread were resumed. *)
Theorem syscall_exit_correct {P : Platform} (s : kstate) (fuel n c : nat) (code a2 a3 a4 a5 a6 : Z) :
  ring (k_sched s) n -> current (k_sched s) = Some c ->
  (match round_robin (dead_vars c (k_sched s)) c n with
   | Some j => j <> c /\
       wp (syscall_handler fuel SYS_THREAD_EXIT code a2 a3 a4 a5 a6) s (fun f s' =>
         f = SSuspended KExit /\ switched (yield_rsp s) (dead_vars c (k_sched s)) c j (k_sched s') /\
         (forall i, runnable (k_sched s') i = if decide (i = c) then false else runnable (k_sched s) i) /\
         ring (k_sched s') n)
   | None => exists s', syscall_handler fuel SYS_THREAD_EXIT code a2 a3 a4 a5 a6 s = Halted s' /\ k_if s' = false
   end) /\
  forall s', exists s'', syscall_resume KExit s' = Halted s''.
Proof.
  intros Hr Hc. pose proof (rg_current _ _ Hr) as Hlt. rewrite Hc in Hlt.
  split; [|intros s'; by eexists].
  set (s1 := set_sched (dead_vars c)
    (printed [CPrint (str "Thread exiting with code: "); CHex code; CPrint [10]] s)).
  assert (Hr1 : ring (k_sched s1) n) by by apply ring_alter.
  assert (Hy : wp thread_yield s1 (yielded s1 n c)) by by apply thread_yield_spec.
  assert (E : syscall_handler fuel SYS_THREAD_EXIT code a2 a3 a4 a5 a6 s =
    (b <- thread_yield ;; if (b : bool) then ret (SSuspended KExit) else halt_loop) s1) by by eapply exit_run.
  unfold yielded in Hy. change (k_sched s1) with (dead_vars c (k_sched s)) in Hy.
  destruct (round_robin _ _ _) as [j|] eqn:Ej.
  - destruct (round_robin_some _ _ _ _ Hlt Ej) as (Hj & Hrun & _). rewrite dead_runnable in Hrun.
    destruct (decide (j = c)) as [->|Hne]; [done|]. split; [done|]. unfold wp. rewrite E.
    destruct (wp_inv _ _ _ Hy) as (b & s2 & E2 & -> & Hsw & _). rewrite (bind_ret _ _ _ _ _ E2).
    rewrite bool_decide_false by done. cbn [negb]. split_and!; [done|done| |].
    + intros i. by rewrite (switched_runnable _ _ _ _ _ _ Hsw), dead_runnable.
    + eapply switched_ring; [|exact Hj|exact Hsw]. by apply ring_alter.
  - destruct (wp_inv _ _ _ Hy) as (b & s2 & E2 & -> & ->). eexists. rewrite E, (bind_ret _ _ _ _ _ E2). by split.
Qed.

Lemma syscall_exit_correct_witness :
  wp (syscall_handler 0 SYS_THREAD_EXIT 5 0 0 0 0 0) demo_two (fun f s' =>
    f = SSuspended KExit /\ runnable (k_sched s') 0 = false /\ runnable (k_sched s') 1 = true).
Proof.
  pose proof (syscall_exit_correct demo_two 0 2 0 5 0 0 0 0 0 demo_two_ring eq_refl) as [H _].
  change (round_robin (dead_vars 0 (k_sched demo_two)) 0 2) with (Some 1%nat) in H. destruct H as [_ H].
  refine (wp_mono _ _ _ _ H _). intros f s' (H1 & _ & H2 & _). rewrite !H2. split_and!; [exact H1|reflexivity|reflexivity].
Defined.

(** C34: A dead thread can be brought back and stop the machine.  A recv on an empty port
    [p] while no other thread is runnable returns -4 and leaves its thread [c] registered
    at [p].  If [c] then wakes thread [j] by a send to the port [j] waits at, and exits,
    it is DEAD and [j] runs.  But when [j] sends to [p], the send sets the registered
    thread RUNNING whatever its state, the next yield of [j] switches to [c], on [c]'s
    stack and behind the yield of its exit, and the exit halts the processor with
    interrupts off although [j] is runnable. *)
Theorem dead_thread_resurrected {P : Platform} (s : kstate) (q : nat -> list nat) (n c j p p' fuel : nat)
    (x x' : Port) (out code id1 id2 : Z) (d1 d2 : Z) :
  stacks_ok -> 0 <= sym_yield_return < 18446744073709551616 ->
  machine s n -> ipc_ok (k_sched s) q -> current (k_sched s) = Some c ->
  (forall i, (i < n)%nat -> i <> c -> runnable (k_sched s) i = false) -> (j < n)%nat -> j <> c ->
  (p < 16)%nat -> (p' < 16)%nat -> p <> p' -> waiting (k_sched s) p = [] -> out <> 0 ->
  ports (k_sched s) !! p = Some x -> blocked_thread x = None ->
  ports (k_sched s) !! p' = Some x' -> blocked_thread x' = Some j ->
  message_pool_next (k_sched s) < 63 -> Forall is_u32 [id1; id2; d1; d2] ->
  exists s1 s2 s3 s4 s5 s6,
    recv (Some p) out s = Ret (Returns (-4)) s1 /\
    send (Some p') id1 d1 d1 d1 d1 s1 = Ret 0 s2 /\
    syscall_handler fuel SYS_THREAD_EXIT code 0 0 0 0 0 s2 = Ret (SSuspended KExit) s3 /\
    t_state <$> threads (k_sched s3) !! c = Some THREAD_DEAD /\ current (k_sched s3) = Some j /\
    send (Some p) id2 d2 d2 d2 d2 s3 = Ret 0 s4 /\
    t_state <$> threads (k_sched s4) !! c = Some THREAD_RUNNING /\
    thread_yield s4 = Ret true s5 /\ current (k_sched s5) = Some c /\
    k_regs s5 RIP = sym_yield_return /\ k_regs s5 RSP = k_regs s RSP /\
    syscall_resume KExit s5 = Halted s6 /\ k_if s6 = false /\ runnable (k_sched s6) j = true.
Proof.
  intros Hst Hsym Hm Hok Hc Honly Hj Hjc Hp Hp' Hpp Hw Hout Hx Hb Hx' Hb' Hn Hu.
  pose proof (machine_current s n c Hm Hc) as [Hcn _].
  destruct (recv_stale Hst s q n c p x out Hm Hok Hc Honly Hp Hw Hout Hx Hb) as (E1 & Hm1 & Hok1).
  set (s1 := set_sched (blocked_vars c p) s) in *.
  destruct (send_machine Hst s1 q n c j p' x' id1 d1) as (s2 & E2 & Hm2 & [q2 Hok2] & Hc2 & Ht2 & Ho2 & Hn2 & Hr2 & _);
    [done|done|done|done|cbn; lia|cbn; by rewrite list_lookup_alter_ne|done|done|by apply (ghost_u32 id1 id2 d1 d2)|].
  assert (Hrun2 : forall i, i <> j -> i <> c -> runnable (k_sched s2) i = runnable (k_sched s) i).
  { intros i Hij Hic. unfold runnable. rewrite Ht2. cbn. by rewrite !list_lookup_alter_ne. }
  destruct (exit_to Hst Hsym s2 q2 n c j fuel code) as (s3 & E3 & Hm3 & Hok3 & Hc3 & Ht3 & Hp3 & Hn3 & Hpk3); [done..|by apply (woken_runnable s1 s2 n)| |].
  { intros i Hi Hij Hic. rewrite Hrun2 by done. by apply Honly. }
  destruct (send_machine Hst s3 q2 n j c p (with_blocked (Some c) x) id2 d2)
    as (s4 & E4 & Hm4 & _ & Hc4 & Ht4 & _ & _ & Hr4 & Hpk4);
    [done|done|done|done|rewrite Hn3, Hn2; cbn; lia| |done|done|by apply (ghost_u32 id2 id1 d2 d1); revert Hu; rewrite !Forall_cons, !Forall_nil; tauto|].
  { rewrite Hp3, Ho2 by done. cbn. by rewrite list_lookup_alter_eq, Hx. }
  assert (Hj4 : runnable (k_sched s4) j = true).
  { unfold runnable. rewrite Ht4, list_lookup_alter_ne, Ht3, saved_rsp_lookup, decide_False, list_lookup_alter_ne by congruence.
    by apply (woken_runnable s1 s2 n j Hm1 Hj Ht2). }
  destruct (ghost_back Hst Hsym s4 n j c (k_regs s2 RSP - 56) (k_regs s2)) as (s5 & E5 & Hc5 & Hip & Hsp & Hr5); [done..| | |by apply Hpk4|].
  { by apply (woken_runnable s3 s4 n c Hm3 Hcn Ht4). }
  { intros i Hi Hic Hij. unfold runnable. rewrite Ht4, list_lookup_alter_ne, Ht3, saved_rsp_lookup, decide_False by congruence.
    rewrite list_lookup_alter_ne by congruence. fold (runnable (k_sched s2) i). rewrite Hrun2 by done. by apply Honly. }
  exists s1, s2, s3, s4, s5. eexists. split_and!; [done|done|done| |done|done| |done|done|done| |reflexivity|done|].
  - rewrite Ht3, saved_rsp_lookup, decide_True, list_lookup_alter_eq by done.
    destruct (rg_next _ _ (mc_ring _ _ Hm2) c Hcn) as (t & -> & _). done.
  - rewrite Ht4, list_lookup_alter_eq. destruct (rg_next _ _ (mc_ring _ _ Hm3) c Hcn) as (t & -> & _). done.
  - rewrite Hsp, Hr2. cbn. lia.
  - cbn. by rewrite Hr5.
Qed.


(** Thread 0 waits at port 1, thread 1 runs. *)
Definition demo_ghost : kstate :=
  set_regs (fun _ r => match r with RSP => 0xFFFFFFFF80011F00 | _ => 0 end)
    (set_sched (fun v => with_current (Some 1%nat) (blocked_vars 0 0 v)) demo_two).

Lemma demo_ghost_ring : ring (k_sched demo_ghost) 2.
Proof. apply ring_with_current; [apply blocked_vars_ring, demo_two_ring|lia]. Qed.
Lemma demo_ghost_ipc : ipc_ok (k_sched demo_ghost) (fun _ => []).
Proof.
  assert (H : ipc_ok (k_sched demo_two) (fun _ => [])) by (apply ipc_ok_fresh; reflexivity).
  destruct (blocked_vars_ok _ _ 0 0 H ltac:(lia)) as [H1 _]. by destruct H1.
Qed.
Lemma demo_ghost_machine : machine demo_ghost 2.
Proof.
  constructor.
  - exact demo_ghost_ring.
  - intros []; vm_compute; split; congruence.
  - intros c [= <-]. vm_compute. split; congruence.
  - intros i Hi Hc. destruct i as [|[|i]]; [|done|lia].
    eapply parked_any; [reflexivity|vm_compute; congruence|vm_compute; congruence].
Qed.

Lemma dead_thread_resurrected_witness : exists s1 s2 s3 s4 s5 s6,
  recv (Some 1%nat) 0x90000 demo_ghost = Ret (Returns (-4)) s1 /\ send (Some 0%nat) 7 1 1 1 1 s1 = Ret 0 s2 /\
  syscall_handler 0 SYS_THREAD_EXIT 0 0 0 0 0 0 s2 = Ret (SSuspended KExit) s3 /\
  send (Some 1%nat) 8 2 2 2 2 s3 = Ret 0 s4 /\ thread_yield s4 = Ret true s5 /\ syscall_resume KExit s5 = Halted s6.
Proof.
  destruct (dead_thread_resurrected demo_ghost (fun _ => []) 2 1 0 1 0 0 null_port (with_blocked (Some 0%nat) null_port)
    0x90000 0 7 8 1 2 demo_stacks_ok demo_yield_sym demo_ghost_machine demo_ghost_ipc eq_refl)
    as (s1 & s2 & s3 & s4 & s5 & s6 & E1 & E2 & E3 & _ & _ & E4 & _ & E5 & _ & _ & _ & E6 & _);
    try lia; try reflexivity.
  - intros i Hi Hc. destruct i as [|[|i]]; [reflexivity|done|lia].
  - repeat apply Forall_cons_2; apply Forall_nil_2 || (unfold is_u32; lia).
  - exists s1, s2, s3, s4, s5, s6. split_and!; [exact E1|exact E2|exact E3|exact E4|exact E5|exact E6].
Defined.
