(* ===== verification/Ata.v ===== *)
(** * The ATA driver (kernel/ata.c)

    Polling and programmed input and output on the primary bus.  What the driver
    may rely on is the class [AtaDrive], the protocol of a drive seen from the
    ports; what it offers to the file system is the class [BlockDevice]. *)
From S2P Require Import Prelude Memory State Demo Cpu.

Definition ATA_PRIMARY_IO : Z := 0x1F0.
Definition ATA_PRIMARY_CONTROL : Z := 0x3F6.
Definition ATA_REG_DATA : Z := 0x00.
Definition ATA_REG_SECTOR_COUNT : Z := 0x02.
Definition ATA_REG_LBA_LOW : Z := 0x03.
Definition ATA_REG_LBA_MID : Z := 0x04.
Definition ATA_REG_LBA_HIGH : Z := 0x05.
Definition ATA_REG_DRIVE_SELECT : Z := 0x06.
Definition ATA_REG_COMMAND : Z := 0x07.
Definition ATA_REG_STATUS : Z := 0x07.
Definition ATA_CMD_READ_SECTORS : Z := 0x20.
Definition ATA_CMD_WRITE_SECTORS : Z := 0x30.
Definition ATA_CMD_IDENTIFY : Z := 0xEC.
Definition ATA_STATUS_ERR : Z := Z.shiftl 1 0.
Definition ATA_STATUS_DRQ : Z := Z.shiftl 1 3.
Definition ATA_STATUS_BSY : Z := Z.shiftl 1 7.

(** The bound of the two polling loops. *)
Definition ATA_POLLS : nat := Z.to_nat 1000000.

(** The static variables ata_base and ata_control are never assigned. *)
Definition ata_base : Z := ATA_PRIMARY_IO.
Definition ata_control : Z := ATA_PRIMARY_CONTROL.

(** ** Operations *)

Section ata.
Context {P : Platform}.

Definition rd16 (v : Z) : K Z := gets (fun s => load16 (kmap v) (k_mem s)).
Definition wr16 (v w : Z) : K unit := modify (set_mem (store_le 2 (kmap v) w)).

(** rep insw and rep outsw. *)
Fixpoint inw_rep (port buffer : Z) (count : nat) : K unit :=
  match count with
  | O => ret tt
  | S count => w <- inw port ;; wr16 buffer w ;;; inw_rep port (u64 (buffer + 2)) count
  end.
Fixpoint outw_rep (port buffer : Z) (count : nat) : K unit :=
  match count with
  | O => ret tt
  | S count => w <- rd16 buffer ;; outw port w ;;; outw_rep port (u64 (buffer + 2)) count
  end.

Definition ata_wait_bsy : K Z :=
  r <- for_n_ret ATA_POLLS 0 (fun _ =>
         status <- inb (ata_base + ATA_REG_STATUS) ;;
         ret (if negb (truthy (Z.land status ATA_STATUS_BSY)) then Some 0 else None)) ;;
  match r with
  | Some v => ret v
  | None => kprintln "ATA: Timeout waiting for BSY to clear" ;;; ret (-1)
  end.

Definition ata_wait_drq : K Z :=
  r <- for_n_ret ATA_POLLS 0 (fun _ =>
         status <- inb (ata_base + ATA_REG_STATUS) ;;
         if truthy (Z.land status ATA_STATUS_DRQ) then ret (Some 0)
         else if truthy (Z.land status ATA_STATUS_ERR) then
           kprintln "ATA: Error bit set" ;;; ret (Some (-1))
         else ret None) ;;
  match r with
  | Some v => ret v
  | None => kprintln "ATA: Timeout waiting for DRQ" ;;; ret (-1)
  end.

(** [identify_data] is the address of the local array. *)
Definition ata_init (identify_data : Z) : K unit :=
  kprintln "ATA: Initializing primary bus..." ;;;
  outb (ata_base + ATA_REG_COMMAND) 0xA0 ;;;
  for_range 0 4 (fun _ => inb ata_control ;;; ret tt) ;;;
  outb (ata_base + ATA_REG_COMMAND) ATA_CMD_IDENTIFY ;;;
  b <- ata_wait_bsy ;;
  if negb (b =? 0) then kprintln "ATA: No drive detected or timeout"
  else
    status <- inb (ata_base + ATA_REG_STATUS) ;;
    if status =? 0 then kprintln "ATA: No drive present"
    else
      d <- ata_wait_drq ;;
      if negb (d =? 0) then kprintln "ATA: Drive not ready"
      else
        inw_rep (ata_base + ATA_REG_DATA) identify_data 256 ;;;
        kprintln "ATA: Primary master drive detected" ;;;
        kprintln "ATA: Initialziation complete".

(** The registers of a command: drive and sectors, then the command itself. *)
Definition ata_command (drive lba count cmd : Z) : K unit :=
  let drive_select := u8 (Z.lor (if drive =? 0 then 0xE0 else 0xF0) (Z.land (Z.shiftr lba 24) 0x0F)) in
  outb (ata_base + ATA_REG_DRIVE_SELECT) drive_select ;;;
  outb (ata_base + ATA_REG_SECTOR_COUNT) count ;;;
  outb (ata_base + ATA_REG_LBA_LOW) (Z.land lba 0xFF) ;;;
  outb (ata_base + ATA_REG_LBA_MID) (Z.land (Z.shiftr lba 8) 0xFF) ;;;
  outb (ata_base + ATA_REG_LBA_HIGH) (Z.land (Z.shiftr lba 16) 0xFF) ;;;
  outb (ata_base + ATA_REG_COMMAND) cmd.

(** The address of the cell 256 * i of a uint16_t buffer. *)
Definition sector_ptr (buffer i : Z) : Z := u64 (buffer + 512 * i).

Definition ata_read_sectors (drive lba count buffer : Z) : K Z :=
  if drive >? 1 then kprintln "ATA: Invalid drive number" ;;; ret (-1)
  else if count =? 0 then kprintln "ATA: Invalid sector count (0)" ;;; ret (-1)
  else
    b <- ata_wait_bsy ;;
    if negb (b =? 0) then ret (-1)
    else
      ata_command drive lba count ATA_CMD_READ_SECTORS ;;;
      r <- for_n_ret (Z.to_nat count) 0 (fun i =>
             d <- ata_wait_drq ;;
             if negb (d =? 0) then
               kprint "ATA: Failed to read sector " ;;;
               kprint_dec (u64 i) ;;;
               kprintln "" ;;;
               ret (Some (-1))
             else
               inw_rep (ata_base + ATA_REG_DATA) (sector_ptr buffer i) 256 ;;;
               ret None) ;;
      ret (default 0 r).

Definition ata_write_sectors (drive lba count buffer : Z) : K Z :=
  if drive >? 1 then ret (-1)
  else if count =? 0 then ret (-1)
  else
    b <- ata_wait_bsy ;;
    if negb (b =? 0) then ret (-1)
    else
      ata_command drive lba count ATA_CMD_WRITE_SECTORS ;;;
      r <- for_n_ret (Z.to_nat count) 0 (fun i =>
             d <- ata_wait_drq ;;
             if negb (d =? 0) then ret (Some (-1))
             else
               outw_rep (ata_base + ATA_REG_DATA) (sector_ptr buffer i) 256 ;;;
               ret None) ;;
      ret (default 0 r).
End ata.

#[global] Opaque ATA_POLLS.

(** ** The loop rule with an early return *)

Lemma wp_for_n_ret {S R} (Inv : Z -> S -> Prop) n lo (body : Z -> M S (option R)) s
    (Q : option R -> S -> Prop) :
  Inv lo s ->
  (forall i s', lo <= i < lo + Z.of_nat n -> Inv i s' ->
     wp (body i) s' (fun o s'' => match o with Some r => Q (Some r) s'' | None => Inv (i + 1) s'' end)) ->
  (forall s', Inv (lo + Z.of_nat n) s' -> Q None s') ->
  wp (for_n_ret n lo body) s Q.
Proof.
  revert lo s. induction n as [|n IH]; intros lo s HI Hstep HQ; cbn [for_n_ret].
  - apply wp_ret, HQ. by rewrite Z.add_0_r.
  - apply wp_bind. eapply wp_mono; [apply Hstep; [lia|done]|]. intros [r|] s' H; [by apply wp_ret|].
    apply IH; [done| |].
    + intros i s'' Hi. apply Hstep. lia.
    + intros s'' H''. apply HQ. by replace (lo + _) with (lo + 1 + Z.of_nat n) by lia.
Qed.

(** ** Any device *)

Section any_device.
Context {P : Platform}.
Implicit Types s : kstate.

(** Only console, ports and memory differ, and memory only in [lo..hi). *)
Definition io_frame (lo hi : Z) s s' : Prop :=
  (exists l, k_io s' = k_io s ++ l) /\
  (forall a, ~ (lo <= a < hi) -> mget (k_mem s') a = mget (k_mem s) a) /\
  s' = set_con (fun _ => k_con s') (set_io (fun _ => k_io s') (set_mem (fun _ => k_mem s') s)).

Lemma io_frame_refl lo hi s : io_frame lo hi s s.
Proof. split_and!; [exists []; by rewrite app_nil_r|done|by destruct s]. Qed.
Lemma io_frame_trans lo hi s1 s2 s3 : io_frame lo hi s1 s2 -> io_frame lo hi s2 s3 -> io_frame lo hi s1 s3.
Proof.
  intros ([l1 L1] & M1 & E1) ([l2 L2] & M2 & E2). split_and!.
  - exists (l1 ++ l2). by rewrite L2, L1, app_assoc.
  - intros a Ha. by rewrite M2, M1.
  - rewrite E2, E1. done.
Qed.
Lemma io_frame_mono lo hi lo' hi' s s' : lo' <= lo -> hi <= hi' -> io_frame lo hi s s' -> io_frame lo' hi' s s'.
Proof. intros H1 H2 (L & Hm & E). split_and!; [done|intros a Ha; apply Hm; lia|done]. Qed.
Lemma io_frame_con lo hi s f : io_frame lo hi s (set_con f s).
Proof. split_and!; [exists []; cbn; by rewrite app_nil_r|done|by destruct s]. Qed.
Lemma io_frame_io lo hi s l : io_frame lo hi s (set_io (fun x => x ++ l) s).
Proof. split_and!; [by exists l|done|by destruct s]. Qed.

(** One poll, then the rest. *)
Lemma poll_frame lo hi n (body : Z -> K (option Z)) s :
  (forall i s1, wp (body i) s1 (fun o s2 => io_frame lo hi s1 s2 /\ (o = None \/ o = Some 0 \/ o = Some (-1)))) ->
  wp (for_n_ret n 0 body) s (fun o s' => io_frame lo hi s s' /\ (o = None \/ o = Some 0 \/ o = Some (-1))).
Proof.
  intros Hb. apply (wp_for_n_ret (fun _ s' => io_frame lo hi s s')); [apply io_frame_refl| |by auto].
  intros i s1 _ H1. wp_call Hb. intros o s2 (H2 & Ho).
  assert (io_frame lo hi s s2) by by eapply io_frame_trans. destruct o; [split; [done|naive_solver]|done].
Qed.

Definition result_frame lo hi s (r : Z) s' : Prop := io_frame lo hi s s' /\ (r = 0 \/ r = -1).

Lemma wait_bsy_total lo hi s : wp ata_wait_bsy s (result_frame lo hi s).
Proof.
  unfold ata_wait_bsy. apply wp_bind. wp_call (poll_frame lo hi).
  - intros i s1. unfold inb. apply wp_bind. unfold wp. cbv beta zeta. split; [apply io_frame_io|].
    destruct (negb _); auto.
  - intros o s1 (H & [-> | [-> | ->]]).
    + unfold kprintln, con. wp_steps. split; [|auto]. eapply io_frame_trans; [done|apply io_frame_con].
    + apply wp_ret. split; auto.
    + apply wp_ret. split; auto.
Qed.

Lemma wait_drq_total lo hi s : wp ata_wait_drq s (result_frame lo hi s).
Proof.
  unfold ata_wait_drq. apply wp_bind. wp_call (poll_frame lo hi).
  - intros i s1. apply wp_bind. unfold inb, wp at 1. cbv beta zeta.
    destruct (truthy _); [apply wp_ret; split; [apply io_frame_io|auto]|].
    destruct (truthy _); [|apply wp_ret; split; [apply io_frame_io|auto]].
    unfold kprintln, con. wp_steps. split; [|auto]. eapply io_frame_trans; [apply io_frame_io|apply io_frame_con].
  - intros o s1 (H & [-> | [-> | ->]]).
    + unfold kprintln, con. wp_steps. split; [|auto]. eapply io_frame_trans; [done|apply io_frame_con].
    + apply wp_ret. split; auto.
    + apply wp_ret. split; auto.
Qed.

(** rep insw stays within its buffer. *)
Lemma inw_rep_frame lo hi port buffer n s :
  window_ok lo hi -> lo <= buffer -> buffer + 2 * Z.of_nat n <= hi ->
  wp (inw_rep port buffer n) s (fun _ s' => io_frame (kmap lo) (kmap lo + (hi - lo)) s s').
Proof.
  intros (W1 & W2 & W3). revert buffer s. induction n as [|n IH]; intros buffer s Hlo Hhi; cbn [inw_rep].
  { apply wp_ret, io_frame_refl. }
  apply wp_bind. unfold inw, wp at 1. cbv beta zeta. unfold wr16. apply wp_bind, wp_modify.
  rewrite u64_small by lia. wp_call IH; [lia|lia|]. intros _ s' H. eapply io_frame_trans; [|exact H].
  split_and!; [by eexists| |by destruct s]. intros a Ha. cbn [k_mem set_mem set_io].
  apply mget_store_le_out. rewrite (W3 buffer) by lia. lia.
Qed.

Lemma ata_command_frame lo hi drive lba count cmd s :
  wp (ata_command drive lba count cmd) s (fun _ s' => io_frame lo hi s s').
Proof.
  unfold ata_command, outb. wp_steps. repeat (eapply io_frame_trans; [|apply io_frame_io]).
  apply io_frame_refl.
Qed.

(** Whatever the device answers, the driver returns, and writes only the buffer. *)
Lemma ata_read_total drive lba count buffer s :
  0 <= count < 256 -> window_ok buffer (buffer + 512 * count) ->
  wp (ata_read_sectors drive lba count buffer) s
    (result_frame (kmap buffer) (kmap buffer + 512 * count) s).
Proof.
  intros Hc Hw. set (lo := kmap buffer). set (hi := kmap buffer + 512 * count).
  assert (Hprint : forall m, wp (kprintln m ;;; ret (-1)) s (result_frame lo hi s)).
  { intros m. unfold kprintln, con. wp_steps. split; [apply io_frame_con|auto]. }
  unfold ata_read_sectors.
  destruct (drive >? 1); [apply Hprint|]. destruct (count =? 0); [apply Hprint|].
  apply wp_bind. wp_call (wait_bsy_total lo hi). intros b s1 (H1 & Hb).
  destruct (negb (b =? 0)); [apply wp_ret; split; auto|].
  apply wp_bind. wp_call (ata_command_frame lo hi). intros _ s2 H2.
  assert (H02 : io_frame lo hi s s2) by by eapply io_frame_trans. clear H1 H2.
  apply wp_bind. apply (wp_for_n_ret (fun _ s' => io_frame lo hi s s')); [done| |by intros s' ?; apply wp_ret; split; auto].
  intros i s3 Hi H3. apply wp_bind. wp_call (wait_drq_total lo hi). intros d s4 (H4 & Hd).
  assert (H04 : io_frame lo hi s s4) by by eapply io_frame_trans.
  destruct (negb (d =? 0)).
  - unfold kprint, kprint_dec, kprintln, con. wp_steps. split; [|auto].
    repeat (eapply io_frame_trans; [|apply io_frame_con]). done.
  - apply wp_bind. destruct Hw as (W1 & W2 & W3). unfold sector_ptr. rewrite u64_small by lia.
    wp_call (inw_rep_frame buffer (buffer + 512 * count)); [done|lia|lia|].
    intros _ s5 H5. apply wp_ret. eapply io_frame_trans; [exact H04|].
    eapply io_frame_mono; [| |exact H5]; unfold lo, hi; lia.
Qed.
End any_device.

(** ** What the driver sends

    The trace of WRITE SECTORS as a language over port events: the drive is polled
    until BSY is clear, the registers of the command are written, and then, for one
    sector after the other, the drive is polled until DRQ is set and the 256 words of
    the sector go to the data port. *)

(** Reads of the status register, the values [vs]. *)
Definition status_reads (vs : list Z) : list ioevent := In8 0x1F7 <$> vs.
Definition bsy (v : Z) : bool := Z.testbit v 7.
Definition drq (v : Z) : bool := Z.testbit v 3.
Definition err (v : Z) : bool := Z.testbit v 0.

Definition bsy_cleared (l : list ioevent) : Prop :=
  exists vs v, l = status_reads (vs ++ [v]) /\ Forall (fun x => bsy x = true) vs /\ bsy v = false.
Definition drq_raised (l : list ioevent) : Prop :=
  exists vs v, l = status_reads (vs ++ [v]) /\ Forall (fun x => drq x = false /\ err x = false) vs /\ drq v = true.

(** The registers of a command for sectors of the master drive. *)
Definition command_out (lba count cmd : Z) : list ioevent :=
  [Out8 0x1F6 (0xE0 + lba / 16777216); Out8 0x1F2 count; Out8 0x1F3 (lba mod 256); Out8 0x1F4 (lba / 256 mod 256);
   Out8 0x1F5 (lba / 65536 mod 256); Out8 0x1F7 cmd].

Section transmission.
Context {P : Platform}.
Implicit Types s : kstate.

(** The words of a buffer, from word [i] on. *)
Definition buffer_words (buffer : Z) (i n : nat) (m : gmap Z Z) : list Z :=
  (fun j => load16 (kmap buffer + 2 * Z.of_nat j) m) <$> seq i n.

(** The first [n] sectors of [buffer] have been sent. *)
Inductive writing (lba count buffer : Z) (m : gmap Z Z) : nat -> list ioevent -> Prop :=
| writing_start w : bsy_cleared w ->
    writing lba count buffer m 0 (w ++ command_out lba count ATA_CMD_WRITE_SECTORS)
| writing_sector n l w : writing lba count buffer m n l -> drq_raised w ->
    writing lba count buffer m (S n) (l ++ w ++ (Out16 0x1F0 <$> buffer_words buffer (256 * n) 256 m)).

(** Only the console and the ports changed, the latter by [l]. *)
Definition io_did (l : list ioevent) s s' : Prop :=
  s' = set_con (fun _ => k_con s') (set_io (fun x => x ++ l) s).

Lemma io_did_refl s : io_did [] s s.
Proof. destruct s. unfold io_did, set_con, set_io. cbn. by rewrite app_nil_r. Qed.
Lemma io_did_trans l1 l2 s1 s2 s3 : io_did l1 s1 s2 -> io_did l2 s2 s3 -> io_did (l1 ++ l2) s1 s3.
Proof. unfold io_did. intros H1 H2. rewrite H2, H1. unfold set_con, set_io. cbn. by rewrite app_assoc. Qed.
Lemma io_did_con s f : io_did [] s (set_con f s).
Proof. destruct s. unfold io_did, set_con, set_io. cbn. by rewrite app_nil_r. Qed.
Lemma io_did_io s l : io_did l s (set_io (fun x => x ++ l) s).
Proof. by destruct s. Qed.
Lemma io_did_mem l s s' : io_did l s s' -> k_mem s' = k_mem s.
Proof. by intros ->. Qed.

(** A bounded poll of the status register: the values before the last one let it go
    on, the last one ends it with [ends v]. *)
Lemma poll_trace n (body : Z -> K (option Z)) (go : Z -> Prop) (ends : Z -> option Z) msg s :
  (forall i s1, wp (body i) s1 (fun o s2 => exists v, io_did (status_reads [v]) s1 s2 /\ o = ends v /\
     (o = None -> go v))) ->
  wp (r <- for_n_ret n 0 body ;;
      match r with Some v => ret v | None => kprintln msg ;;; ret (-1) end) s (fun r s' =>
    exists vs, io_did (status_reads vs) s s' /\
      (r = -1 \/ exists us v, vs = us ++ [v] /\ Forall go us /\ ends v = Some r)).
Proof.
  intros Hb. apply wp_bind.
  apply (wp_for_n_ret (fun _ s' => exists vs, io_did (status_reads vs) s s' /\ Forall go vs)).
  - exists []. split; [apply io_did_refl|done].
  - intros i s1 _ (vs & H1 & Hg). wp_call Hb. intros o s2 (v & H2 & Ho & Hgo).
    assert (H : io_did (status_reads (vs ++ [v])) s s2)
      by (unfold status_reads; rewrite fmap_app; by eapply io_did_trans).
    destruct o as [r|].
    + apply wp_ret. exists (vs ++ [v]). split; [done|]. right. by exists vs, v.
    + exists (vs ++ [v]). split; [done|]. apply Forall_app. split; [done|]. apply Forall_singleton. by apply Hgo.
  - intros s1 (vs & H1 & _). unfold kprintln, con. wp_steps. exists vs. split; [|by left].
    rewrite <- (app_nil_r (status_reads vs)). eapply io_did_trans; [done|apply io_did_con].
Qed.

Definition polled_to (Q : list ioevent -> Prop) s (r : Z) s' : Prop :=
  exists vs, io_did (status_reads vs) s s' /\ ((r = 0 /\ Q (status_reads vs)) \/ r = -1).

Lemma wait_bsy_trace s : wp ata_wait_bsy s (polled_to bsy_cleared s).
Proof.
  unfold ata_wait_bsy.
  wp_call (poll_trace ATA_POLLS _ (fun v => bsy v = true) (fun v => if bsy v then None else Some 0)).
  - intros i s1. unfold inb. apply wp_bind. unfold wp at 1. cbv beta zeta. apply wp_ret. eexists.
    split; [apply io_did_io|]. change ATA_STATUS_BSY with (2 ^ 7). rewrite truthy_land_pow2 by lia. unfold bsy.
    by destruct (Z.testbit _ 7).
  - intros r s' (vs & H & [->|(us & v & -> & Hg & He)]); [exists vs; by split; [|right]|].
    exists (us ++ [v]). split; [done|]. left. destruct (bsy v) eqn:Ev; [done|]. injection He as <-.
    split; [done|]. by exists us, v.
Qed.

Lemma wait_drq_trace s : wp ata_wait_drq s (polled_to drq_raised s).
Proof.
  unfold ata_wait_drq.
  wp_call (poll_trace ATA_POLLS _ (fun v => drq v = false /\ err v = false)
    (fun v => if drq v then Some 0 else if err v then Some (-1) else None)).
  - intros i s1. unfold inb. apply wp_bind. unfold wp at 1. cbv beta zeta. change ATA_STATUS_DRQ with (2 ^ 3).
    change ATA_STATUS_ERR with (2 ^ 0). rewrite !truthy_land_pow2 by lia. fold (drq (u8 (dev_inb (k_io s1) (ata_base + ATA_REG_STATUS)))).
    fold (err (u8 (dev_inb (k_io s1) (ata_base + ATA_REG_STATUS)))).
    set (v := u8 _). pose proof (io_did_io s1 (status_reads [v])) as H.
    destruct (drq v) eqn:Ed; [apply wp_ret; exists v; by rewrite Ed|].
    destruct (err v) eqn:Ee; [|apply wp_ret; exists v; by rewrite Ed, Ee].
    unfold kprintln, con. wp_steps. exists v. rewrite Ed, Ee. split; [|done].
    rewrite <- (app_nil_r (status_reads [v])). eapply io_did_trans; [exact H|apply io_did_con].
  - intros r s' (vs & H & [->|(us & v & -> & Hg & He)]); [exists vs; by split; [|right]|].
    exists (us ++ [v]). split; [done|]. destruct (drq v) eqn:Ev.
    + injection He as <-. left. split; [done|]. by exists us, v.
    + right. destruct (err v); [by injection He|done].
Qed.

Lemma outw_rep_did lo hi port i n s :
  window_ok lo hi -> lo + 2 * (Z.of_nat i + Z.of_nat n) <= hi ->
  wp (outw_rep port (lo + 2 * Z.of_nat i) n) s (fun _ s' => io_did (Out16 port <$> buffer_words lo i n (k_mem s)) s s').
Proof.
  intros (W1 & W2 & W3). revert i s. induction n as [|n IH]; intros i s Hhi; cbn [outw_rep].
  { apply wp_ret, io_did_refl. }
  unfold rd16. apply wp_bind, wp_gets. unfold outw. apply wp_bind, wp_modify.
  rewrite u64_small by lia. replace (lo + 2 * Z.of_nat i + 2) with (lo + 2 * Z.of_nat (S i)) by lia.
  set (w := load16 _ _). wp_call (IH (S i)); [lia|]. intros _ s' H.
  assert (Hw : w = load16 (kmap lo + 2 * Z.of_nat i) (k_mem s)).
  { unfold w. rewrite W3 by lia. f_equal. lia. }
  rewrite u16_small in H by apply load16_range.
  pose proof (io_did_trans _ _ _ _ _ (io_did_io s [Out16 port w]) H) as H'.
  unfold buffer_words in *. cbn [seq fmap list_fmap]. by rewrite <- Hw.
Qed.

Lemma set_io_app s l1 l2 :
  set_io (fun l => l ++ l2) (set_io (fun l => l ++ l1) s) = set_io (fun l => l ++ (l1 ++ l2)) s.
Proof. destruct s. unfold set_io. cbn. by rewrite app_assoc. Qed.

Lemma lor_head t : 0 <= t < 16 -> Z.lor 224 t = 224 + t.
Proof.
  intros Ht. assert (Hin : t ∈ seqZ 0 16) by (apply elem_of_seqZ; lia). clear Ht. revert t Hin.
  apply Forall_forall. by repeat constructor.
Qed.

Lemma ata_command_did lba count cmd s : 0 <= lba < 2 ^ 28 -> 0 <= count < 256 -> 0 <= cmd < 256 ->
  wp (ata_command 0 lba count cmd) s (fun _ s' => io_did (command_out lba count cmd) s s').
Proof.
  intros Hl Hc Hm. change (2 ^ 28) with 268435456 in Hl.
  apply (wp_mono _ _ (fun _ s' => s' = set_io (fun x => x ++ command_out lba count cmd) s));
    [|intros _ s' ->; apply io_did_io].
  unfold ata_command, outb. wp_steps. cbn [Z.eqb].
  change 0xFF with (Z.ones 8). change 0x0F with (Z.ones 4). rewrite !Z.land_ones, !Z.shiftr_div_pow2 by lia.
  change (2 ^ 8) with 256. change (2 ^ 16) with 65536. change (2 ^ 24) with 16777216. change (2 ^ 4) with 16.
  rewrite (Z.mod_small (lba / 16777216)), lor_head by zlia. rewrite !u8_small by (rewrite ?u8_small; zlia).
  rewrite !set_io_app. reflexivity.
Qed.

(** Done, or given up while polling: before the command or before sector [n]. *)
Definition write_outcome lba count buffer s (r : Z) s' : Prop :=
  (r = 0 /\ exists l, writing lba count buffer (k_mem s) (Z.to_nat count) l /\ io_did l s s') \/
  (r = -1 /\ exists l vs, io_did (l ++ status_reads vs) s s' /\
     (l = [] \/ exists n, (n < Z.to_nat count)%nat /\ writing lba count buffer (k_mem s) n l)).

Lemma ata_write_sent lba count buffer s :
  0 < count < 256 -> 0 <= lba < 2 ^ 28 -> window_ok buffer (buffer + 512 * count) ->
  wp (ata_write_sectors 0 lba count buffer) s (write_outcome lba count buffer s).
Proof.
  intros Hc Hl Hw. unfold ata_write_sectors. cbn [Z.gtb Z.compare]. rewrite (proj2 (Z.eqb_neq count 0)) by lia.
  apply wp_bind. wp_call wait_bsy_trace. intros b s1 (vs & H1 & Hb).
  destruct Hb as [[-> Hcl]| ->]; cbn [Z.eqb negb].
  2:{ apply wp_ret. right. split; [done|]. exists [], vs. by split; [|left]. }
  apply wp_bind. wp_call (ata_command_did lba count ATA_CMD_WRITE_SECTORS); [done|lia|done|]. intros _ s2 H2.
  pose proof (io_did_trans _ _ _ _ _ H1 H2) as H02. clear H1 H2. apply wp_bind.
  apply (wp_for_n_ret (fun i s' => exists l, writing lba count buffer (k_mem s) (Z.to_nat i) l /\ io_did l s s')).
  - eexists. split; [by apply writing_start|done].
  - intros i s3 Hi (l & Hwr & H3). apply wp_bind. wp_call wait_drq_trace. intros d s4 (us & H4 & Hd).
    pose proof (io_did_trans _ _ _ _ _ H3 H4) as H04. destruct Hd as [[-> Hdr]| ->]; cbn [Z.eqb negb].
    2:{ apply wp_ret, wp_ret. right. split; [done|]. exists l, us. split; [done|]. right. exists (Z.to_nat i). split; [lia|done]. }
    pose proof Hw as (W1 & W2 & _). unfold sector_ptr. rewrite u64_small by lia.
    replace (buffer + 512 * i) with (buffer + 2 * Z.of_nat (256 * Z.to_nat i)) by lia.
    apply wp_bind. wp_call (outw_rep_did buffer (buffer + 512 * count)); [done|lia|]. intros _ s5 H5. apply wp_ret.
    rewrite (io_did_mem _ _ _ H04) in H5. pose proof (io_did_trans _ _ _ _ _ H04 H5) as H. rewrite <- app_assoc in H.
    eexists. replace (Z.to_nat (i + 1)) with (S (Z.to_nat i)) by lia. split; [by apply writing_sector|exact H].
  - intros s3 (l & Hwr & H3). apply wp_ret. left. split; [done|]. exists l.
    by replace (0 + Z.of_nat (Z.to_nat count)) with count in Hwr by lia.
Qed.
End transmission.

(** ** What the driver relies on: a drive *)

(** The events of a READ SECTORS command to the master drive. *)
Definition read_command (lba count : Z) : list ioevent :=
  [Out8 0x1F6 (u8 (u8 (Z.lor 0xE0 (Z.land (Z.shiftr lba 24) 0x0F)))); Out8 0x1F2 (u8 count);
   Out8 0x1F3 (u8 (Z.land lba 0xFF)); Out8 0x1F4 (u8 (Z.land (Z.shiftr lba 8) 0xFF));
   Out8 0x1F5 (u8 (Z.land (Z.shiftr lba 16) 0xFF)); Out8 0x1F7 0x20].

(** The words of [n] sectors from [lba] on. *)
Definition sectors (sector : Z -> list Z) (lba n : Z) : list Z :=
  flat_map (fun i => sector (lba + i)) (seqZ 0 n).

(** A drive as its ports show it, [h] being all input and output so far: [idle h k]
    says that no command is in progress and BSY clears after [k] more polls,
    [sending h k ws] that the words [ws] are still to be read and the next sector is
    ready after [k] more polls.  READ SECTORS takes an idle drive to sending the
    sectors that were asked for; each word read is the next one; between sectors
    and at the end the drive may take its time, but less than a million polls.  The DRQ and
    ERR bits of a drive of this class are right whenever the status is read: ata_wait_drq
    does not look at BSY, while the ATA standard defines the two bits only with BSY clear. *)
Class AtaDrive {P : Platform} := {
  sector : Z -> list Z;
  idle : list ioevent -> nat -> Prop;
  sending : list ioevent -> nat -> list Z -> Prop;
  sector_ok : forall i, length (sector i) = 256%nat /\ Forall (fun w => 0 <= w < 65536) (sector i);
  idle_poll : forall h k, idle h k ->
    let v := u8 (dev_inb h 0x1F7) in
    Z.testbit v 7 = negb (Nat.eqb k 0) /\ idle (h ++ [In8 0x1F7 v]) (Nat.pred k);
  idle_read : forall h lba count, idle h 0 -> 0 <= lba < 2 ^ 28 -> 0 < count < 256 ->
    exists k, (k < ATA_POLLS)%nat /\ sending (h ++ read_command lba count) k (sectors sector lba count);
  sending_poll : forall h k w ws, sending h k (w :: ws) ->
    let v := u8 (dev_inb h 0x1F7) in
    Z.testbit v 3 = Nat.eqb k 0 /\ Z.testbit v 0 = false /\ sending (h ++ [In8 0x1F7 v]) (Nat.pred k) (w :: ws);
  sending_word : forall h w ws, sending h 0 (w :: ws) ->
    u16 (dev_inw h 0x1F0) = w /\
    exists k, (k < ATA_POLLS)%nat /\ (Z.of_nat (length ws) mod 256 <> 0 -> k = 0%nat) /\
      sending (h ++ [In16 0x1F0 w]) k ws;
  sending_done : forall h k, sending h k [] -> exists j, (j < ATA_POLLS)%nat /\ idle h j;
}.

(** Words in memory. *)
Definition words_at (a : Z) (ws : list Z) (m : gmap Z Z) : Prop :=
  forall i w, ws !! i = Some w -> load16 (a + 2 * Z.of_nat i) m = w.

Section drive.
Context {P : Platform} {D : AtaDrive}.
Implicit Types s : kstate.

Lemma truthy_land_bit v n : 0 <= n -> truthy (Z.land v (Z.shiftl 1 n)) = Z.testbit v n.
Proof.
  intros Hn. unfold truthy. rewrite Z.shiftl_1_l. destruct (Z.testbit v n) eqn:E.
  - destruct (Z.eqb_spec (Z.land v (2 ^ n)) 0) as [H|H]; [|done].
    assert (Z.testbit (Z.land v (2 ^ n)) n = true) as H' by (rewrite Z.land_spec, E, Z.pow2_bits_true; done).
    by rewrite H, Z.bits_0 in H'.
  - assert (Z.land v (2 ^ n) = 0) as ->; [|done]. apply Z.bits_inj'. intros i Hi.
    rewrite Z.land_spec, Z.bits_0. destruct (decide (i = n)) as [->|Hne]; [by rewrite E|].
    rewrite Z.pow2_bits_false by done. apply andb_false_r.
Qed.

(** Polling an idle drive: BSY clears, and the drive is ready for a command. *)
Lemma wait_bsy_idle s k :
  idle (k_io s) k -> (k < ATA_POLLS)%nat ->
  wp ata_wait_bsy s (fun r s' => r = 0 /\ idle (k_io s') 0 /\ s' = set_io (fun _ => k_io s') s).
Proof.
  intros Hid Hk. unfold ata_wait_bsy. apply wp_bind.
  assert (H : forall n lo s0 k, (k < n)%nat -> idle (k_io s0) k -> s0 = set_io (fun _ => k_io s0) s ->
    wp (for_n_ret n lo (fun _ => status <- inb (ata_base + ATA_REG_STATUS) ;;
      ret (if negb (truthy (Z.land status ATA_STATUS_BSY)) then Some 0 else None))) s0
      (fun o s' => o = Some 0 /\ idle (k_io s') 0 /\ s' = set_io (fun _ => k_io s') s)).
  { clear Hk Hid k. induction n as [|n IH]; intros lo s0 k Hk Hid Es; [lia|]. cbn [for_n_ret].
    apply wp_bind, wp_bind. unfold inb, wp at 1. cbv beta zeta. apply wp_ret.
    change (ata_base + ATA_REG_STATUS) with 0x1F7. destruct (idle_poll _ _ Hid) as [Hb Hid'].
    unfold ATA_STATUS_BSY. rewrite truthy_land_bit by lia. rewrite Hb.
    destruct k as [|k]; cbn [Nat.eqb negb]; [apply wp_ret; split_and!; [done|exact Hid'|by rewrite Es]|].
    apply (IH _ _ k); [lia|exact Hid'|by rewrite Es]. }
  wp_call (H ATA_POLLS 0 s k); [done|done|by destruct s|].
  intros o s' (-> & H1 & H2). by apply wp_ret.
Qed.

(** Polling a drive that is about to send: DRQ comes, no error. *)
Lemma wait_drq_sending s k w ws :
  sending (k_io s) k (w :: ws) -> (k < ATA_POLLS)%nat ->
  wp ata_wait_drq s (fun r s' => r = 0 /\ sending (k_io s') 0 (w :: ws) /\ s' = set_io (fun _ => k_io s') s).
Proof.
  intros Hse Hk. unfold ata_wait_drq. apply wp_bind.
  set (body := fun _ : Z => status <- inb (ata_base + ATA_REG_STATUS) ;;
    if truthy (Z.land status ATA_STATUS_DRQ) then ret (Some 0)
    else if truthy (Z.land status ATA_STATUS_ERR) then kprintln "ATA: Error bit set" ;;; ret (Some (-1))
    else ret None).
  assert (H : forall n lo s0 k, (k < n)%nat -> sending (k_io s0) k (w :: ws) -> s0 = set_io (fun _ => k_io s0) s ->
    wp (for_n_ret n lo body) s0
      (fun o s' => o = Some 0 /\ sending (k_io s') 0 (w :: ws) /\ s' = set_io (fun _ => k_io s') s)).
  { clear Hk Hse k. induction n as [|n IH]; intros lo s0 k Hk Hse Es; [lia|]. cbn [for_n_ret].
    apply wp_bind. unfold body at 1. apply wp_bind. unfold inb, wp at 1. cbv beta zeta.
    change (ata_base + ATA_REG_STATUS) with 0x1F7. destruct (sending_poll _ _ _ _ Hse) as (Hd & He & Hse').
    unfold ATA_STATUS_DRQ, ATA_STATUS_ERR. rewrite !truthy_land_bit by lia. rewrite Hd, He.
    destruct k as [|k]; cbn [Nat.eqb]; apply wp_ret; [apply wp_ret; split_and!; [done|exact Hse'|by rewrite Es]|].
    apply (IH _ _ k); [lia|exact Hse'|by rewrite Es]. }
  wp_call (H ATA_POLLS 0 s k); [done|done|by destruct s|].
  intros o s' (-> & H1 & H2). by apply wp_ret.
Qed.

(** Reading words while the drive sends them, within a sector. *)
Lemma inw_rep_sending lo hi buffer s ws rest k :
  window_ok lo hi -> lo <= buffer -> buffer + 2 * Z.of_nat (length ws) <= hi ->
  Forall (fun w => 0 <= w < 65536) ws -> Z.of_nat (length rest) mod 256 = 0 -> (length ws <= 256)%nat ->
  (k < ATA_POLLS)%nat -> (ws <> [] -> k = 0%nat) -> sending (k_io s) k (ws ++ rest) ->
  wp (inw_rep (ata_base + ATA_REG_DATA) buffer (length ws)) s (fun _ s' =>
    words_at (kmap lo + (buffer - lo)) ws (k_mem s') /\
    (exists k', (k' < ATA_POLLS)%nat /\ sending (k_io s') k' rest) /\
    (forall a, a < kmap lo + (buffer - lo) \/ kmap lo + (buffer - lo) + 2 * Z.of_nat (length ws) <= a ->
       mget (k_mem s') a = mget (k_mem s) a) /\
    s' = set_io (fun _ => k_io s') (set_mem (fun _ => k_mem s') s)).
Proof.
  intros Hw. revert buffer s k. induction ws as [|w ws IH]; intros buffer s k Hlo Hhi Hr Hrest Hlen Hk Hk0 Hse.
  { cbn [length inw_rep]. apply wp_ret. split_and!; [by intros i w Hi|by exists k|done|by destruct s]. }
  cbn [length inw_rep] in *. rewrite (Hk0 ltac:(done)) in Hse. apply Forall_cons in Hr as [Hw1 Hr].
  destruct (sending_word _ _ _ Hse) as (Ew & k1 & Hk1 & Hz & Hse1).
  apply wp_bind. unfold inw, wp at 1. cbv beta zeta. change (ata_base + ATA_REG_DATA) with 0x1F0.
  rewrite Ew. unfold wr16. apply wp_bind, wp_modify. pose proof Hw as (W1 & W2 & W3).
  rewrite u64_small by lia. wp_call (IH (buffer + 2) _ k1); [lia|lia|done|done|lia|done| |exact Hse1|].
  { intros Hne. apply Hz. rewrite length_app, Nat2Z.inj_add. destruct ws as [|w' ws]; [done|].
    cbn [length] in *. rewrite Z.add_mod, Hrest, Z.add_0_r, Z.mod_mod by lia. rewrite Z.mod_small; lia. }
  intros _ s' (Hws & Hse' & Hm & E). cbn [k_mem set_mem set_io] in Hm. rewrite (W3 buffer) in Hm by lia.
  split_and!; [| done | | rewrite E; by destruct s].
  - intros i x Hi. destruct i as [|i].
    + injection Hi as <-. rewrite Z.add_0_r. transitivity (load_le 2 (kmap lo + (buffer - lo))
        (store_le 2 (kmap lo + (buffer - lo)) w (k_mem s))); [apply load_le_ext; intros j Hj; apply Hm; lia|].
      rewrite load_store_eq_mod. by apply Z.mod_small.
    + replace (kmap lo + (buffer - lo) + 2 * Z.of_nat (S i)) with (kmap lo + (buffer + 2 - lo) + 2 * Z.of_nat i) by lia.
      by apply Hws.
  - intros a Ha. rewrite Hm by lia. apply mget_store_le_out. lia.
Qed.

Lemma ata_command_events lba count s :
  wp (ata_command 0 lba count ATA_CMD_READ_SECTORS) s (fun _ s' => s' = set_io (fun l => l ++ read_command lba count) s).
Proof.
  unfold ata_command, outb. wp_steps. rewrite !set_io_app. reflexivity.
Qed.

Lemma sectors_cons lba n : 0 < n -> sectors sector lba n = sector lba ++ sectors sector (lba + 1) (n - 1).
Proof.
  intros Hn. unfold sectors. rewrite (seqZ_cons 0 n) by lia. cbn [flat_map]. rewrite Z.add_0_r. f_equal.
  change (Z.succ 0) with (1 + 0). replace (Z.pred n) with (n - 1) by lia.
  rewrite <- (fmap_add_seqZ 1 0 (n - 1)). rewrite flat_map_concat_map, flat_map_concat_map.
  f_equal. unfold fmap, list_fmap. induction (seqZ 0 (n - 1)) as [|x l IH]; [done|]. cbn. f_equal; [f_equal; lia|done].
Qed.
Lemma length_sectors lba n : 0 <= n -> Z.of_nat (length (sectors sector lba n)) = 256 * n.
Proof.
  intros Hn. revert lba. pattern n. apply natlike_ind; [done| |done]. clear n Hn.
  intros n Hn IH lba. rewrite sectors_cons by lia. rewrite length_app, Nat2Z.inj_add, (proj1 (sector_ok lba)).
  replace (Z.succ n - 1) with n by lia. rewrite IH. lia.
Qed.

Lemma words_at_app a ws1 ws2 m :
  words_at a ws1 m -> words_at (a + 2 * Z.of_nat (length ws1)) ws2 m -> words_at a (ws1 ++ ws2) m.
Proof.
  intros H1 H2 i w Hi. apply lookup_app_Some in Hi as [Hi|[Hge Hi]]; [by apply H1|].
  rewrite <- (H2 _ _ Hi). f_equal. lia.
Qed.
Lemma words_at_ext a ws m m' :
  (forall j, a <= j < a + 2 * Z.of_nat (length ws) -> mget m' j = mget m j) -> words_at a ws m -> words_at a ws m'.
Proof.
  intros H Hw i w Hi. pose proof (lookup_lt_Some _ _ _ Hi). rewrite <- (Hw _ _ Hi). apply load_le_ext.
  intros j Hj. apply H. lia.
Qed.

Lemma sectors_snoc lba n : 0 <= n -> sectors sector lba (n + 1) = sectors sector lba n ++ sector (lba + n).
Proof.
  intros Hn. unfold sectors. rewrite seqZ_app by lia. rewrite flat_map_app. f_equal.
  rewrite Z.add_0_l, seqZ_cons by lia. cbn. apply app_nil_r.
Qed.

(** What a read leaves: the sectors in the buffer, the drive idle again. *)
Definition sectors_read (lba count buffer : Z) s s' : Prop :=
  words_at (kmap buffer) (sectors sector lba count) (k_mem s') /\
  (forall a, ~ (kmap buffer <= a < kmap buffer + 512 * count) -> mget (k_mem s') a = mget (k_mem s) a) /\
  s' = set_io (fun _ => k_io s') (set_mem (fun _ => k_mem s') s).

Lemma sectors_read_io lba count buffer s s1 s2 :
  sectors_read lba count buffer s s1 -> s2 = set_io (fun _ => k_io s2) s1 -> sectors_read lba count buffer s s2.
Proof.
  intros (H1 & H2 & H3) E. assert (Em : k_mem s2 = k_mem s1) by by rewrite E.
  split_and!; [by rewrite Em|by rewrite Em|]. rewrite E, H3. done.
Qed.

Lemma sectors_read_step lba i buffer s s1 s2 :
  0 <= i -> sectors_read lba i buffer s s1 ->
  words_at (kmap buffer + 512 * i) (sector (lba + i)) (k_mem s2) ->
  (forall a, a < kmap buffer + 512 * i \/ kmap buffer + 512 * i + 512 <= a -> mget (k_mem s2) a = mget (k_mem s1) a) ->
  s2 = set_io (fun _ => k_io s2) (set_mem (fun _ => k_mem s2) s1) ->
  sectors_read lba (i + 1) buffer s s2.
Proof.
  intros Hi (H1 & H2 & H3) Hw Hm E. split_and!.
  - rewrite sectors_snoc by done. apply words_at_app.
    + eapply words_at_ext; [|exact H1]. intros j. rewrite length_sectors by done. intros Hj. apply Hm. lia.
    + rewrite length_sectors by done. by replace (2 * (256 * i)) with (512 * i) by lia.
  - intros a Ha. rewrite Hm by lia. apply H2. lia.
  - rewrite E, H3. done.
Qed.

Lemma ata_read_drive lba count buffer s k :
  idle (k_io s) k -> (k < ATA_POLLS)%nat -> 0 < count < 256 -> 0 <= lba -> lba + count <= 2 ^ 28 ->
  window_ok buffer (buffer + 512 * count) ->
  wp (ata_read_sectors 0 lba count buffer) s (fun r s' => r = 0 /\ sectors_read lba count buffer s s' /\
    exists k', (k' < ATA_POLLS)%nat /\ idle (k_io s') k').
Proof.
  intros Hid Hk Hc Hl0 Hl Hw. unfold ata_read_sectors. cbn [Z.gtb Z.compare].
  rewrite (proj2 (Z.eqb_neq count 0)) by lia. apply wp_bind. wp_call wait_bsy_idle; [done|done|].
  intros b s1 (-> & Hid1 & E1). cbn [Z.eqb negb]. apply wp_bind. wp_call ata_command_events. intros _ s2 E2.
  destruct (idle_read _ lba count Hid1) as (k2 & Hk2 & Hse2); [lia|lia|]. apply wp_bind.
  apply (wp_for_n_ret (fun i s' => sectors_read lba i buffer s s' /\
    exists k', (k' < ATA_POLLS)%nat /\ sending (k_io s') k' (sectors sector (lba + i) (count - i)))).
  - split.
    + split_and!; [by intros i w Hi|intros a _; by rewrite E2, E1|rewrite E2, E1; by destruct s].
    + exists k2. split; [done|]. rewrite Z.add_0_r, Z.sub_0_r, E2. exact Hse2.
  - intros i s3 Hi (Hrd & k3 & Hk3 & Hse3). rewrite sectors_cons in Hse3 by lia.
    pose proof (sector_ok (lba + i)) as [Hlen Hwd]. destruct (sector (lba + i)) as [|w ws] eqn:Esec; [done|].
    apply wp_bind. wp_call (wait_drq_sending s3 k3); [exact Hse3|done|].
    intros d s4 (-> & Hse4 & E4). cbn [Z.eqb negb]. apply wp_bind.
    pose proof Hw as (W1 & W2 & W3). unfold sector_ptr. rewrite u64_small by lia. rewrite <- Hlen, <- Esec.
    wp_call (inw_rep_sending buffer (buffer + 512 * count) (buffer + 512 * i) s4 (sector (lba + i))
      (sectors sector (lba + i + 1) (count - i - 1)) 0); [done|lia|rewrite Esec, Hlen; lia|by rewrite Esec| |by rewrite Esec, Hlen|lia|done| |].
    { rewrite length_sectors by lia. rewrite Z.mul_comm. by apply Z.mod_mul. }
    { rewrite Esec. exact Hse4. }
    intros _ s5 (Hws & Hse5 & Hm5 & E5). apply wp_ret.
    assert (Eo : buffer + 512 * i - buffer = 512 * i) by lia. rewrite Eo in Hws, Hm5.
    rewrite Esec, Hlen in Hm5. split.
    + eapply sectors_read_step; [lia|by eapply sectors_read_io|exact Hws| |done].
      intros a Ha. apply Hm5. lia.
    + by replace (count - (i + 1)) with (count - i - 1) by lia; replace (lba + (i + 1)) with (lba + i + 1) by lia.
  - intros s' (Hrd & k3 & _ & Hse). apply wp_ret.
    replace (0 + Z.of_nat (Z.to_nat count)) with count in * by lia. rewrite Z.sub_diag in Hse.
    split_and!; [done|done|]. by eapply sending_done.
Qed.
End drive.

(** ** What the driver offers: a block device *)

(** The bytes of a disk, as its user sees them. *)
Definition word_bytes (w : Z) : list Z := [w mod 256; w / 256].
Definition disk_bytes (sector : Z -> list Z) (lba n : Z) : list Z := flat_map word_bytes (sectors sector lba n).

Class BlockDevice {P : Platform} := {
  disk : Z -> list Z;
  device_ready : kstate -> Prop;
  (** Ready is a matter of the ports alone. *)
  ready_io : forall s s', k_io s' = k_io s -> device_ready s -> device_ready s';
  disk_words : forall i, length (disk i) = 256%nat /\ Forall (fun w => 0 <= w < 65536) (disk i);
  device_read : forall s lba count buffer,
    device_ready s -> 0 < count < 256 -> 0 <= lba -> lba + count <= 2 ^ 28 ->
    window_ok buffer (buffer + 512 * count) ->
    wp (ata_read_sectors 0 lba count buffer) s (fun r s' =>
      r = 0 /\ device_ready s' /\
      read_bytes (Z.to_nat (512 * count)) (kmap buffer) (k_mem s') = disk_bytes disk lba count /\
      (forall a, ~ (kmap buffer <= a < kmap buffer + 512 * count) -> mget (k_mem s') a = mget (k_mem s) a) /\
      s' = set_io (fun _ => k_io s') (set_mem (fun _ => k_mem s') s));
}.

Lemma read_bytes_app n1 n2 a m :
  read_bytes (n1 + n2) a m = read_bytes n1 a m ++ read_bytes n2 (a + Z.of_nat n1) m.
Proof.
  revert a. induction n1 as [|n1 IH]; intros a; cbn [Nat.add read_bytes app].
  - by rewrite Z.add_0_r.
  - rewrite IH. do 3 f_equal. lia.
Qed.

Lemma words_bytes a ws m : words_at a ws m ->
  read_bytes (2 * length ws) a m = flat_map word_bytes ws.
Proof.
  revert a. induction ws as [|w ws IH]; intros a H; [done|].
  replace (2 * length (w :: ws))%nat with (2 + 2 * length ws)%nat by (cbn; lia).
  rewrite read_bytes_app. cbn [flat_map]. f_equal.
  - pose proof (H 0%nat w eq_refl) as Hw. rewrite Z.add_0_r in Hw. unfold load16 in Hw. unfold load_le in Hw.
    pose proof (mget_range m a). pose proof (mget_range m (a + 1)). unfold word_bytes. cbn [read_bytes].
    f_equal; [zlia|]. f_equal. zlia.
  - apply IH. intros i x Hi. specialize (H (S i) x Hi). rewrite <- H. f_equal. lia.
Qed.

Section offers.
Context {P : Platform} {D : AtaDrive}.

Definition ata_ready (s : kstate) : Prop := exists k, (k < ATA_POLLS)%nat /\ idle (k_io s) k.

Lemma ata_ready_io s s' : k_io s' = k_io s -> ata_ready s -> ata_ready s'.
Proof. unfold ata_ready. intros E. by rewrite E. Qed.

Lemma ata_device_read s lba count buffer :
  ata_ready s -> 0 < count < 256 -> 0 <= lba -> lba + count <= 2 ^ 28 ->
  window_ok buffer (buffer + 512 * count) ->
  wp (ata_read_sectors 0 lba count buffer) s (fun r s' =>
    r = 0 /\ ata_ready s' /\
    read_bytes (Z.to_nat (512 * count)) (kmap buffer) (k_mem s') = disk_bytes sector lba count /\
    (forall a, ~ (kmap buffer <= a < kmap buffer + 512 * count) -> mget (k_mem s') a = mget (k_mem s) a) /\
    s' = set_io (fun _ => k_io s') (set_mem (fun _ => k_mem s') s)).
Proof.
  intros (k & Hk & Hid) Hc H0 Hl Hw. eapply wp_mono; [by eapply ata_read_drive|].
  intros r s' (-> & (Hws & Hm & E) & Hid'). split_and!; [done|done| |done|done].
  pose proof (words_bytes _ _ _ Hws) as Hb. fold (disk_bytes sector lba count) in Hb. rewrite <- Hb. f_equal.
  pose proof (length_sectors lba count ltac:(lia)). lia.
Qed.

(** The driver on a drive is a block device. *)
#[export] Instance ata_block_device : BlockDevice := {|
  disk := sector;
  device_ready := ata_ready;
  ready_io := ata_ready_io;
  disk_words := sector_ok;
  device_read := ata_device_read;
|}.
End offers.

(** ** A drive that can exist

    A simulated drive: it remembers the registers written and, from a READ SECTORS
    command on, the words not read yet; it is never busy. *)

Record sim := mkSim { sim_sel : Z; sim_count : Z; sim_low : Z; sim_mid : Z; sim_high : Z; sim_out : list Z }.

Definition sim_lba (d : sim) : Z :=
  sim_low d + 256 * sim_mid d + 65536 * sim_high d + 16777216 * (sim_sel d mod 16).

Definition sim_step (image : Z -> list Z) (d : sim) (e : ioevent) : sim :=
  match e with
  | Out8 p v =>
      if p =? 0x1F6 then mkSim v (sim_count d) (sim_low d) (sim_mid d) (sim_high d) (sim_out d)
      else if p =? 0x1F2 then mkSim (sim_sel d) v (sim_low d) (sim_mid d) (sim_high d) (sim_out d)
      else if p =? 0x1F3 then mkSim (sim_sel d) (sim_count d) v (sim_mid d) (sim_high d) (sim_out d)
      else if p =? 0x1F4 then mkSim (sim_sel d) (sim_count d) (sim_low d) v (sim_high d) (sim_out d)
      else if p =? 0x1F5 then mkSim (sim_sel d) (sim_count d) (sim_low d) (sim_mid d) v (sim_out d)
      else if (p =? 0x1F7) && (v =? 0x20) then
        mkSim (sim_sel d) (sim_count d) (sim_low d) (sim_mid d) (sim_high d) (sectors image (sim_lba d) (sim_count d))
      else d
  | In16 p _ =>
      if p =? 0x1F0 then
        mkSim (sim_sel d) (sim_count d) (sim_low d) (sim_mid d) (sim_high d) (tail (sim_out d))
      else d
  | _ => d
  end.

Definition sim_of (image : Z -> list Z) (h : list ioevent) : sim :=
  fold_left (sim_step image) h (mkSim 0 0 0 0 0 []).

Definition sim_inb (image : Z -> list Z) (h : list ioevent) (p : Z) : Z :=
  if p =? 0x1F7 then match sim_out (sim_of image h) with [] => 0x40 | _ => 0x48 end else 0x60.
Definition sim_inw (image : Z -> list Z) (h : list ioevent) (p : Z) : Z := hd 0 (sim_out (sim_of image h)).

(** The machine of Demo.v with such a drive. *)
Definition demo_disk (image : Z -> list Z) : Platform := {|
  LIMINE_MEMMAP_USABLE := @LIMINE_MEMMAP_USABLE demo;
  lim_memmap := @lim_memmap demo;
  lim_hhdm := @lim_hhdm demo;
  lim_executable := @lim_executable demo;
  lim_framebuffers := @lim_framebuffers demo;
  lim_modules := @lim_modules demo;
  kmap := demo_kmap;
  dev_inb := sim_inb image;
  dev_inw := sim_inw image;
  sym_stacks := @sym_stacks demo;
  sym_gdt := @sym_gdt demo;
  sym_tss := @sym_tss demo;
  sym_idt := @sym_idt demo;
  sym_isr_stub := @sym_isr_stub demo;
  sym_syscall_entry_asm := @sym_syscall_entry_asm demo;
  sym_usermode_trampoline := @sym_usermode_trampoline demo;
  sym_yield_return := @sym_yield_return demo;
  sym_start_return := @sym_start_return demo;
  sym_trampoline_return := @sym_trampoline_return demo;
|}.

Section simulated.
Context (image : Z -> list Z).
Context (Himage : forall i, length (image i) = 256%nat /\ Forall (fun w => 0 <= w < 65536) (image i)).

Definition sim_idle (h : list ioevent) (k : nat) : Prop := k = 0%nat /\ sim_out (sim_of image h) = [].
Definition sim_sending (h : list ioevent) (k : nat) (ws : list Z) : Prop :=
  k = 0%nat /\ sim_out (sim_of image h) = ws /\ Forall (fun w => 0 <= w < 65536) ws.

Lemma sim_of_app h l : sim_of image (h ++ l) = fold_left (sim_step image) l (sim_of image h).
Proof. apply fold_left_app. Qed.

Lemma polls_positive : (0 < ATA_POLLS)%nat.
Proof. Transparent ATA_POLLS. unfold ATA_POLLS. lia. Opaque ATA_POLLS. Qed.

Lemma sim_idle_poll h k : sim_idle h k ->
  let v := u8 (sim_inb image h 0x1F7) in
  Z.testbit v 7 = negb (Nat.eqb k 0) /\ sim_idle (h ++ [In8 0x1F7 v]) (Nat.pred k).
Proof.
  intros [-> E]. unfold sim_inb. cbn [Z.eqb Pos.eqb]. rewrite E. split; [done|].
  split; [done|]. by rewrite sim_of_app.
Qed.

Lemma sim_lba_bytes lba : 0 <= lba < 2 ^ 28 ->
  u8 (Z.land lba 255) + 256 * u8 (Z.land (Z.shiftr lba 8) 255) + 65536 * u8 (Z.land (Z.shiftr lba 16) 255) +
  16777216 * (u8 (u8 (Z.lor 224 (Z.land (Z.shiftr lba 24) 15))) mod 16) = lba.
Proof.
  intros H. change 255 with (Z.ones 8). change 15 with (Z.ones 4). rewrite !Z.land_ones by lia.
  rewrite !Z.shiftr_div_pow2 by lia. change (2 ^ 8) with 256. change (2 ^ 16) with 65536. change (2 ^ 24) with 16777216.
  change (2 ^ 4) with 16. set (t := (lba / 16777216) mod 16).
  assert (Ht : 0 <= t < 16) by (unfold t; apply Z.mod_pos_bound; lia).
  rewrite lor_head by done. rewrite !u8_small by (rewrite ?u8_small; zlia). unfold t.
  change (2 ^ 28) with 268435456 in H. zlia.
Qed.

Lemma sim_idle_read h lba count : sim_idle h 0 -> 0 <= lba < 2 ^ 28 -> 0 < count < 256 ->
  exists k, (k < ATA_POLLS)%nat /\ sim_sending (h ++ read_command lba count) k (sectors image lba count).
Proof.
  intros [_ E] Hl Hc. exists 0%nat. split; [apply polls_positive|]. split; [done|]. split.
  - rewrite sim_of_app. unfold read_command. cbn [fold_left sim_step Z.eqb Pos.eqb andb].
    cbn [sim_out sim_sel sim_low sim_mid sim_high sim_count]. unfold sim_lba.
    cbn [sim_out sim_sel sim_low sim_mid sim_high sim_count]. rewrite sim_lba_bytes by done.
    by rewrite u8_small by lia.
  - unfold sectors. apply Forall_flat_map, Forall_forall. intros i _. apply Himage.
Qed.

Lemma sim_sending_poll h k w ws : sim_sending h k (w :: ws) ->
  let v := u8 (sim_inb image h 0x1F7) in
  Z.testbit v 3 = Nat.eqb k 0 /\ Z.testbit v 0 = false /\ sim_sending (h ++ [In8 0x1F7 v]) (Nat.pred k) (w :: ws).
Proof.
  intros (-> & E & Hr). unfold sim_inb. cbn [Z.eqb Pos.eqb]. rewrite E. split_and!; [done|done|].
  split; [done|]. by rewrite sim_of_app.
Qed.

Lemma sim_sending_word h w ws : sim_sending h 0 (w :: ws) ->
  u16 (sim_inw image h 0x1F0) = w /\
  exists k, (k < ATA_POLLS)%nat /\ (Z.of_nat (length ws) mod 256 <> 0 -> k = 0%nat) /\
    sim_sending (h ++ [In16 0x1F0 w]) k ws.
Proof.
  intros (_ & E & [Hw Hr]%Forall_cons). unfold sim_inw. rewrite E. split; [by apply u16_small|].
  exists 0%nat. split_and!; [apply polls_positive|done|]. split; [done|]. rewrite sim_of_app. cbn. by rewrite E.
Qed.

Lemma sim_sending_done h k : sim_sending h k [] -> exists j, (j < ATA_POLLS)%nat /\ sim_idle h j.
Proof. intros (-> & E & _). exists 0%nat. split; [apply polls_positive|done]. Qed.

Definition sim_drive : @AtaDrive (demo_disk image) := @Build_AtaDrive (demo_disk image) image sim_idle sim_sending
  Himage sim_idle_poll sim_idle_read sim_sending_poll sim_sending_word sim_sending_done.
End simulated.

(** ** Properties *)

(** C16: ata_read_sectors returns on every device and every argument: whatever the
    status register and the data port answer, it ends after its bounded polls with 0
    or -1, and it has written nothing but the [512 * count] bytes of the buffer and
    changed nothing but the console and the ports. *)
Theorem ata_read_sectors_total {P : Platform} (drive lba count buffer : Z) (s : kstate) :
  0 <= count < 256 -> window_ok buffer (buffer + 512 * count) ->
  wp (ata_read_sectors drive lba count buffer) s (fun r s' =>
    (r = 0 \/ r = -1) /\
    (forall a, ~ (kmap buffer <= a < kmap buffer + 512 * count) -> mget (k_mem s') a = mget (k_mem s) a) /\
    s' = set_con (fun _ => k_con s') (set_io (fun _ => k_io s') (set_mem (fun _ => k_mem s') s))).
Proof.
  intros Hc Hw. wp_call (ata_read_total drive lba count buffer s); [done|done|].
  intros r s' ((_ & Hm & E) & Hr). by split_and!.
Qed.

Lemma demo_buffer : window_ok 0x20000 (0x20000 + 512 * 2).
Proof.
  split_and!; [lia|lia|]. intros x Hx. unfold kmap, demo, demo_kmap, demo_hhdm.
  rewrite (proj2 (Z.leb_gt _ x)), (proj2 (Z.leb_gt _ 0x20000)) by lia. cbn [andb]. lia.
Qed.

Lemma ata_read_sectors_total_witness :
  wp (ata_read_sectors 0 7 2 0x20000) demo_boot (fun r s' => r = 0 \/ r = -1).
Proof.
  refine (wp_mono _ _ _ _ (ata_read_sectors_total 0 7 2 0x20000 demo_boot _ demo_buffer) _); [lia|].
  intros r s' [H _]. exact H.
Defined.

(** C6: On a drive that keeps the protocol of READ SECTORS, ata_read_sectors succeeds
    and the buffer holds exactly the bytes of the sectors asked for, for any count of
    1 to 255 sectors within 28-bit addresses; nothing else in memory changed, and the
    drive is ready for the next command. *)
Theorem ata_read_sectors_correct {P : Platform} {D : AtaDrive} (lba count buffer : Z) (s : kstate) :
  ata_ready s -> 0 < count < 256 -> 0 <= lba -> lba + count <= 2 ^ 28 ->
  window_ok buffer (buffer + 512 * count) ->
  wp (ata_read_sectors 0 lba count buffer) s (fun r s' =>
    r = 0 /\ ata_ready s' /\
    read_bytes (Z.to_nat (512 * count)) (kmap buffer) (k_mem s') = disk_bytes sector lba count /\
    (forall a, ~ (kmap buffer <= a < kmap buffer + 512 * count) -> mget (k_mem s') a = mget (k_mem s) a) /\
    s' = set_io (fun _ => k_io s') (set_mem (fun _ => k_mem s') s)).
Proof. apply ata_device_read. Qed.

(** A disk whose words spell their sector's number. *)
Definition demo_image (i : Z) : list Z := replicate 256 (u16 i).
Lemma demo_image_ok i : length (demo_image i) = 256%nat /\ Forall (fun w => 0 <= w < 65536) (demo_image i).
Proof. split; [apply length_replicate|]. apply Forall_replicate, u16_range. Qed.

Lemma ata_read_sectors_correct_witness :
  let P := demo_disk demo_image in
  wp (@ata_read_sectors P 0 7 2 0x20000) demo_boot (fun r s' =>
    r = 0 /\ read_bytes 1024 0x20000 (k_mem s') = disk_bytes demo_image 7 2).
Proof.
  intros P.
  refine (wp_mono _ _ _ _ (@ata_read_sectors_correct P (sim_drive demo_image demo_image_ok) 7 2 0x20000 demo_boot
    _ _ _ _ demo_buffer) _).
  - exists 0%nat. split; [exact polls_positive|]. split; reflexivity.
  - lia.
  - lia.
  - lia.
  - intros r s' (H1 & _ & H2 & _). split; [exact H1|exact H2].
Defined.

(** C24: ata_write_sectors sends to any device exactly what it was asked to write.  When
    it returns 0 the port events since the call are: polls until BSY is clear, the
    registers with the sector address, the count and the command, each once, and then
    for every sector in turn polls until DRQ is set followed by the 256 words of that
    sector at the data port 0x1F0.  When it returns -1 the events are such a sequence cut
    off at a sector boundary, followed by polls only.  Memory is only read. *)
Theorem ata_write_sectors_correct {P : Platform} (lba count buffer : Z) (s : kstate) :
  0 < count < 256 -> 0 <= lba < 2 ^ 28 -> window_ok buffer (buffer + 512 * count) ->
  wp (ata_write_sectors 0 lba count buffer) s (fun r s' =>
    (r = 0 /\ exists l, writing lba count buffer (k_mem s) (Z.to_nat count) l /\ io_did l s s') \/
    (r = -1 /\ exists l vs, io_did (l ++ status_reads vs) s s' /\
       (l = [] \/ exists n, (n < Z.to_nat count)%nat /\ writing lba count buffer (k_mem s) n l))).
Proof. apply ata_write_sent. Qed.

(** A device that always asks for data. *)
Definition demo_sink : Platform := {|
  LIMINE_MEMMAP_USABLE := @LIMINE_MEMMAP_USABLE demo;
  lim_memmap := @lim_memmap demo;
  lim_hhdm := @lim_hhdm demo;
  lim_executable := @lim_executable demo;
  lim_framebuffers := @lim_framebuffers demo;
  lim_modules := @lim_modules demo;
  kmap := demo_kmap;
  dev_inb := fun _ _ => 0x48;
  dev_inw := fun _ _ => 0;
  sym_stacks := @sym_stacks demo;
  sym_gdt := @sym_gdt demo;
  sym_tss := @sym_tss demo;
  sym_idt := @sym_idt demo;
  sym_isr_stub := @sym_isr_stub demo;
  sym_syscall_entry_asm := @sym_syscall_entry_asm demo;
  sym_usermode_trampoline := @sym_usermode_trampoline demo;
  sym_yield_return := @sym_yield_return demo;
  sym_start_return := @sym_start_return demo;
  sym_trampoline_return := @sym_trampoline_return demo;
|}.

Lemma ata_write_sectors_correct_witness :
  wp (@ata_write_sectors demo_sink 0 5 2 0x20000) demo_boot (fun r s' =>
    r = 0 /\ exists l, @writing demo_sink 5 2 0x20000 (k_mem demo_boot) 2 l /\ io_did l demo_boot s').
Proof.
  pose proof (@ata_write_sectors_correct demo_sink 5 2 0x20000 demo_boot ltac:(lia) ltac:(lia) demo_buffer) as H.
  assert (Hr : match @ata_write_sectors demo_sink 0 5 2 0x20000 demo_boot with Ret r _ => r | _ => 1 end = 0)
    by (vm_compute; reflexivity).
  unfold wp in *. destruct (@ata_write_sectors demo_sink 0 5 2 0x20000 demo_boot) as [r s'|s'|f s'|s']; [|exact H|exact H|exact H].
  destruct H as [H|[E _]]; [exact H|]. exfalso. rewrite E in Hr. discriminate Hr.
Defined.
