(* ===== verification/Ext2.v ===== *)
(** * The ext2 file system (kernel/ext2.c): operations

    Packed structures are byte sequences and their fields little-endian values at
    the offsets of ext2.h.  A structure that only exists as a local variable (an
    inode, the name of an entry) is the list of its bytes; a local array whose
    address is given to the driver has that address as an argument.  Physical
    pages are used as pointers, as the code does. *)
From S2P Require Import Prelude Memory State Pmm Ata.

Definition EXT2_MAGIC : Z := 0xEF53.
Definition EXT2_ROOT_INO : Z := 2.
Definition EXT2_FT_REG_FILE : Z := 1.
Definition EXT2_FT_DIR : Z := 2.
Definition EXT2_S_IFREG : Z := 0x8000.
Definition SUPERBLOCK_SIZE : Z := 1024.
Definition INODE_SIZE : Z := 128.

(** ** The packed structures *)

(** The little-endian field of [n] bytes at offset [off]. *)
Definition field (off n : nat) (l : list Z) : Z := le_value (take n (drop off l)).

Definition s_inodes_count := field 0 4.
Definition s_blocks_count := field 4 4.
Definition s_log_block_size := field 24 4.
Definition s_blocks_per_group := field 32 4.
Definition s_inodes_per_group := field 40 4.
Definition s_magic := field 56 2.
Definition s_rev_level := field 76 4.
Definition s_inode_size := field 88 2.

Definition i_mode := field 0 2.
Definition i_size := field 4 4.
Definition i_block (i : nat) := field (40 + 4 * i) 4.

Definition with_sb (b : list Z) (v : ext2_vars) : ext2_vars :=
  mkExt2 b (group_desc v) (block_size v) (ext2_ready v).
Definition with_group_desc (g : Z) (v : ext2_vars) : ext2_vars :=
  mkExt2 (sb v) g (block_size v) (ext2_ready v).
Definition with_block_size (b : Z) (v : ext2_vars) : ext2_vars :=
  mkExt2 (sb v) (group_desc v) b (ext2_ready v).
Definition with_ready (r : Z) (v : ext2_vars) : ext2_vars :=
  mkExt2 (sb v) (group_desc v) (block_size v) r.

Definition ext2 {A} (f : ext2_vars -> A) : K A := gets (fun s => f (k_ext2 s)).
Definition upd_ext2 (f : ext2_vars -> ext2_vars) : K unit := modify (set_ext2 f).

(** [a / b] and [a % b] on unsigned integers. *)
Definition udiv (a b : Z) : K Z := if b =? 0 then fails DivideError else ret (a / b).
Definition umod (a b : Z) : K Z := if b =? 0 then fails DivideError else ret (a mod b).

(** ** Strings *)

Definition i8 (z : Z) : Z := (z + 128) mod 256 - 128.

(** Cell [i] of the NUL-terminated string [l]. *)
Definition char_at (l : list Z) (i : nat) : option Z := (l ++ [0]) !! i.

(** A C string given by its bytes, the terminating NUL apart. *)
Fixpoint ext2_strlen (l : list Z) : Z :=
  match l with [] => 0 | c :: l => if c =? 0 then 0 else 1 + ext2_strlen l end.

Fixpoint strncmp_from (i n : nat) (a b : list Z) : option Z :=
  match n with
  | O => Some 0
  | S n =>
      match a !! i, char_at b i with
      | Some x, Some y =>
          if negb (x =? y) then Some (i8 x - i8 y)
          else if x =? 0 then Some 0
          else strncmp_from (S i) n a b
      | _, _ => None
      end
  end.
(** [a] is an array of at least [n] bytes, [b] a C string. *)
Definition ext2_strncmp (a b : list Z) (n : nat) : option Z := strncmp_from 0 n a b.

Fixpoint ext2_strcmp (a b : list Z) : Z :=
  match a, b with
  | x :: a', y :: b' => if negb (x =? 0) && (x =? y) then ext2_strcmp a' b' else x - y
  | x :: _, [] => x
  | [], y :: _ => - y
  | [], [] => 0
  end.

(** ** Operations *)

Section ext2.
Context {P : Platform}.

(** [for (i = 0; i < n; i++) dst[i] = src[i]] into a local array. *)
Fixpoint copy_in (n : nat) (src : Z) : K (list Z) :=
  match n with
  | O => ret []
  | S n => b <- rd8 src ;; l <- copy_in n (u64 (src + 1)) ;; ret (b :: l)
  end.

Definition ext2_read_block (block_num buffer : Z) : K Z :=
  bs <- ext2 block_size ;;
  let sector := u32 (block_num * bs) / 512 in
  let count := bs / 512 in
  ata_read_sectors 0 sector (u8 count) buffer.

(** The return value and, when it is 0, the bytes of the inode. *)
Definition ext2_read_inode (inode_num : Z) : K (Z * list Z) :=
  if inode_num =? 0 then kprintln "ext2: Invalid inode 0" ;;; ret (-1, [])
  else
    let inode_index := u32 (inode_num - 1) in
    v <- gets k_ext2 ;;
    group <- udiv inode_index (s_inodes_per_group (sb v)) ;;
    local_index <- umod inode_index (s_inodes_per_group (sb v)) ;;
    inode_table <- rd32 (u64 (group_desc v + 32 * group + 8)) ;;
    let inode_size := if s_rev_level (sb v) =? 0 then 128 else s_inode_size (sb v) in
    let offset := u32 (local_index * inode_size) in
    q <- udiv offset (block_size v) ;;
    let block := u32 (inode_table + q) in
    block_offset <- umod offset (block_size v) ;;
    block_buffer <- pmm_alloc_page ;;
    if block_buffer =? 0 then kprintln "ext2: Failed to allocate buffer" ;;; ret (1, [])
    else
      r <- ext2_read_block block block_buffer ;;
      if negb (r =? 0) then
        kprintln "ext2: Failed to read inode block" ;;;
        pmm_free_page block_buffer ;;;
        ret (-1, [])
      else
        inode <- copy_in (Z.to_nat INODE_SIZE) (u64 (block_buffer + block_offset)) ;;
        pmm_free_page block_buffer ;;;
        ret (0, inode).

(** The loop over the direct blocks; the result is what remains to be read, or
    [None] if the function returns -1. *)
Fixpoint read_data_blocks (n i : nat) (inode : list Z) (buffer remaining offset : Z) : K (option Z) :=
  match n with
  | O => ret (Some remaining)
  | S n =>
      if negb (remaining >? 0) then ret (Some remaining)
      else if i_block i inode =? 0 then ret (Some remaining)
      else
        block_buffer <- pmm_alloc_page ;;
        if block_buffer =? 0 then ret None
        else
          r <- ext2_read_block (i_block i inode) block_buffer ;;
          if negb (r =? 0) then pmm_free_page block_buffer ;;; ret None
          else
            bs <- ext2 block_size ;;
            let to_copy := if remaining >? bs then bs else remaining in
            for_range 0 to_copy (fun j =>
              b <- rd8 (u64 (block_buffer + j)) ;; wr8 (u64 (buffer + u32 (offset + j))) b) ;;;
            pmm_free_page block_buffer ;;;
            read_data_blocks n (S i) inode buffer (u32 (remaining - to_copy)) (u32 (offset + to_copy))
  end.

Definition ext2_read_inode_data (inode : list Z) (buffer max_size : Z) : K Z :=
  (when i_size inode >? max_size do kprintln "ext2: Warning - truncating file read") ;;;
  let size := if i_size inode >? max_size then max_size else i_size inode in
  r <- read_data_blocks 12 0 inode buffer size 0 ;;
  match r with
  | None => ret (-1)
  | Some remaining => ret (i32 (u32 (size - remaining)))
  end.

(** [1024 << log] on int. *)
Definition block_size_of (log : Z) : K Z := if log <? 21 then ret (Z.shiftl 1024 log) else fails BadShift.

Definition ext2_report (v : ext2_vars) : K unit :=
  kprintln "ext2: Found valid ext2 filesystem" ;;;
  kprint "  Block size: " ;;;
  kprint_dec (block_size v) ;;;
  con (CPrint ([10] ++ str "  Total blocks: ")) ;;;
  kprint_dec (s_blocks_count (sb v)) ;;;
  con (CPrint ([10] ++ str "  Total inodes: ")) ;;;
  kprint_dec (s_inodes_count (sb v)) ;;;
  con (CPrint ([10] ++ str "  Inodes per group: ")) ;;;
  kprint_dec (s_inodes_per_group (sb v)) ;;;
  kprintln "".

Definition ext2_init (sb_buffer : Z) : K Z :=
  kprintln "ext2: Initializing ext2 filesystem..." ;;;
  r <- ata_read_sectors 0 2 2 sb_buffer ;;
  if negb (r =? 0) then kprintln "ext2: Failed to read superblock" ;;; ret (-1)
  else
    bytes <- copy_in (Z.to_nat SUPERBLOCK_SIZE) sb_buffer ;;
    upd_ext2 (with_sb bytes) ;;;
    if negb (s_magic bytes =? EXT2_MAGIC) then
      kprint "ext2: Invalid magic number: " ;;;
      kprint_hex (s_magic bytes) ;;;
      kprintln "" ;;;
      ret (-1)
    else
      bs <- block_size_of (s_log_block_size bytes) ;;
      upd_ext2 (with_block_size bs) ;;;
      v <- gets k_ext2 ;;
      ext2_report v ;;;
      udiv (u32 (s_blocks_count bytes + s_blocks_per_group bytes - 1)) (s_blocks_per_group bytes) ;;;
      let bgdt_block := if bs =? 1024 then 2 else 1 in
      gd <- pmm_alloc_page ;;
      upd_ext2 (with_group_desc gd) ;;;
      if gd =? 0 then
        kprintln "ext2: Failed to allocate memory for group descriptors" ;;; ret (-1)
      else
        r <- ext2_read_block bgdt_block gd ;;
        if negb (r =? 0) then
          kprintln "ext2: Failed to read block group descriptor table" ;;;
          pmm_free_page gd ;;;
          upd_ext2 (with_group_desc 0) ;;;
          ret (-1)
        else
          upd_ext2 (with_ready 1) ;;;
          kprintln "ext2: Initialization complete" ;;;
          ret 0.

(** The fields of the directory entry at [p]. *)
Definition d_inode (p : Z) : K Z := rd32 p.
Definition d_rec_len (p : Z) : K Z := gets (fun s => load16 (kmap (u64 (p + 4))) (k_mem s)).
Definition d_name_len (p : Z) : K Z := rd8 (u64 (p + 6)).
Definition d_file_type (p : Z) : K Z := rd8 (u64 (p + 7)).

(** The loop of ext2_list_root; a record length of 0 makes it run for ever. *)
Fixpoint list_entries (fuel : nat) (dir_data bytes_read offset : Z) : K unit :=
  match fuel with
  | O => starve
  | S fuel =>
      if negb (offset <? bytes_read) then ret tt
      else
        let entry := u64 (dir_data + offset) in
        ino <- d_inode entry ;;
        rec_len <- d_rec_len entry ;;
        (if ino =? 0 then ret tt
         else
           kprint "  " ;;;
           len <- d_name_len entry ;;
           name_buf <- copy_in (Z.to_nat len) (u64 (entry + 8)) ;;
           kprint_bytes name_buf ;;;
           ft <- d_file_type entry ;;
           (if ft =? EXT2_FT_DIR then kprint " [DIR]"
            else if ft =? EXT2_FT_REG_FILE then kprint " [FILE]" else ret tt) ;;;
           kprint " (inode " ;;;
           kprint_dec ino ;;;
           kprintln ")") ;;;
        list_entries fuel dir_data bytes_read (u32 (offset + rec_len))
  end.

Definition ext2_list_root (fuel : nat) : K unit :=
  rdy <- ext2 ext2_ready ;;
  if rdy =? 0 then kprintln "ext2: Filesystem not initialized"
  else
    con (CPrint ([10] ++ str "Files in root directory:" ++ [10])) ;;;
    r <- ext2_read_inode EXT2_ROOT_INO ;;
    if negb (fst r =? 0) then kprintln "ext2: Failed to read root inode"
    else
      dir_data <- pmm_alloc_page ;;
      if dir_data =? 0 then kprintln "ext2: Failed to allocate buffer"
      else
        bytes_read <- ext2_read_inode_data (snd r) dir_data 4096 ;;
        if bytes_read <? 0 then
          kprintln "ext2: Failed to read directory data" ;;; pmm_free_page dir_data
        else
          list_entries fuel dir_data (u32 bytes_read) 0 ;;;
          kprintln "" ;;;
          pmm_free_page dir_data.

(** The loop of ext2_read_file over the directory: the inode found, or 0.  (The
    name is read as a whole before it is compared; reading has no effect.) *)
Fixpoint find_entry (fuel : nat) (dir_data bytes_read offset : Z) (filename : list Z) : K Z :=
  match fuel with
  | O => starve
  | S fuel =>
      if negb (offset <? bytes_read) then ret 0
      else
        let entry := u64 (dir_data + offset) in
        ino <- d_inode entry ;;
        hit <- (if ino =? 0 then ret false
                else
                  len <- d_name_len entry ;;
                  name <- copy_in (Z.to_nat len) (u64 (entry + 8)) ;;
                  c <- need OutOfBounds (ext2_strncmp name filename (Z.to_nat len)) ;;
                  ret ((c =? 0) && (ext2_strlen filename =? len))) ;;
        if (hit : bool) then ret ino
        else
          rec_len <- d_rec_len entry ;;
          find_entry fuel dir_data bytes_read (u32 (offset + rec_len)) filename
  end.

(** [path] is the bytes of the C string. *)
Definition strip_slash (path : list Z) : list Z :=
  match path with c :: l => if c =? 47 then l else path | [] => [] end.

Definition ext2_read_file (fuel : nat) (path : list Z) (buffer max_size : Z) : K Z :=
  rdy <- ext2 ext2_ready ;;
  if rdy =? 0 then kprintln "ext2: Filesystem not initialized" ;;; ret (-1)
  else
    let filename := strip_slash path in
    if existsb (fun c => c =? 47) filename then
      kprintln "ext2: Subdirectories not supported yet" ;;; ret (-1)
    else
      r <- ext2_read_inode EXT2_ROOT_INO ;;
      if negb (fst r =? 0) then ret (-1)
      else
        dir_data <- pmm_alloc_page ;;
        if dir_data =? 0 then ret (-1)
        else
          bytes_read <- ext2_read_inode_data (snd r) dir_data 4096 ;;
          if bytes_read <? 0 then pmm_free_page dir_data ;;; ret (-1)
          else
            target_inode <- find_entry fuel dir_data (u32 bytes_read) 0 filename ;;
            pmm_free_page dir_data ;;;
            if target_inode =? 0 then
              kprint "ext2: File not found: " ;;;
              kprint_bytes filename ;;;
              kprintln "" ;;;
              ret (-1)
            else
              f <- ext2_read_inode target_inode ;;
              if negb (fst f =? 0) then ret (-1)
              else if negb (Z.land (i_mode (snd f)) 0xF000 =? EXT2_S_IFREG) then
                kprintln "ext2: Not a regular file" ;;; ret (-1)
              else ext2_read_inode_data (snd f) buffer max_size.
End ext2.
