(* ===== verification/Ext2Theorems.v ===== *)
(** * The ext2 file system: what the operations read

    The specification is a set of functions on the contents of the disk: the bytes
    of a block, of an inode, of a file, the entries of a directory.  The operations
    are proved against the block device interface to return exactly those, and to
    give back every page they took. *)
From S2P Require Import Prelude Memory State Demo Pmm Cpu Ata Ext2.

(** ** Strings *)

(** The test by which ext2_read_file recognises a name. *)
Lemma strncmp_prefix i n a b :
  (i + n <= length a)%nat -> (i <= length b)%nat -> Forall (fun c => 0 < c < 256) b -> Forall (fun c => 0 <= c < 256) a ->
  exists z, strncmp_from i n a b = Some z /\
    (z = 0 -> ((i + n <= length b)%nat -> take n (drop i a) = take n (drop i b))) /\
    ((i + n <= length b)%nat -> take n (drop i a) = take n (drop i b) -> z = 0).
Proof.
  intros Ha Hi Hb Hra. revert i Ha Hi. induction n as [|n IH]; intros i Ha Hi; cbn [strncmp_from].
  { exists 0. by rewrite !take_0. }
  destruct (lookup_lt_is_Some_2 a i ltac:(lia)) as [x Hx].
  destruct (lookup_lt_is_Some_2 (b ++ [0]) i) as [y Hy]; [rewrite length_app; cbn; lia|].
  unfold char_at. rewrite Hx, Hy. pose proof (proj1 (Forall_lookup _ _) Hra _ _ Hx) as Hxr. cbv beta in Hxr.
  rewrite (drop_S a x i Hx). cbn [take].
  destruct (Z.eqb_spec x y) as [->|Hne]; cbn [negb].
  - destruct (decide (i < length b)%nat) as [Hlt|Hge].
    + rewrite lookup_app_l in Hy by done. rewrite (drop_S b y i Hy). cbn [take].
      pose proof (proj1 (Forall_lookup _ _) Hb _ _ Hy) as Hyr. cbv beta in Hyr.
      rewrite (proj2 (Z.eqb_neq y 0)) by lia. destruct (IH (S i)) as (z & Ez & H1 & H2); [lia|lia|].
      exists z. split; [done|]. split; intros.
      * f_equal. apply H1; [done|lia].
      * apply H2; [lia|congruence].
    + rewrite lookup_app_r in Hy by lia. replace (i - length b)%nat with 0%nat in Hy by lia.
      injection Hy as <-. rewrite Z.eqb_refl. exists 0. split; [done|]. split; intros; [lia|done].
  - assert (Hxy : i8 x - i8 y <> 0).
    { assert (0 <= y < 256) as Hyr.
      { apply lookup_app_Some in Hy as [Hy|[_ Hy]].
        - pose proof (proj1 (Forall_lookup _ _) Hb _ _ Hy) as Hyr. cbv beta in Hyr. lia.
        - destruct (i - length b)%nat; [injection Hy as <-; lia|done]. }
      unfold i8. zlia. }
    exists (i8 x - i8 y). split; [done|]. split; [done|]. intros Hlen E. exfalso.
    rewrite lookup_app_l in Hy by lia. rewrite (drop_S b y i Hy) in E. cbn [take] in E. congruence.
Qed.

Lemma strlen_eq l : Forall (fun c => 0 < c < 256) l -> ext2_strlen l = Z.of_nat (length l).
Proof.
  induction 1 as [|c l Hc Hl IH]; [done|]. cbn [ext2_strlen length].
  rewrite (proj2 (Z.eqb_neq c 0)) by lia. lia.
Qed.

Lemma name_test name filename :
  Forall (fun c => 0 <= c < 256) name -> Forall (fun c => 0 < c < 256) filename ->
  exists z, ext2_strncmp name filename (length name) = Some z /\
    (z =? 0) && (ext2_strlen filename =? Z.of_nat (length name)) = bool_decide (name = filename).
Proof.
  intros Hn Hf. destruct (strncmp_prefix 0 (length name) name filename) as (z & Ez & H1 & H2); [lia|lia|done|done|].
  exists z. split; [done|]. rewrite strlen_eq by done. rewrite !drop_0, firstn_all in H1, H2.
  destruct (Z.eqb_spec (Z.of_nat (length filename)) (Z.of_nat (length name))) as [El|El].
  - assert (Htake : take (length name) filename = filename) by (apply take_ge; lia). rewrite Htake in H1, H2.
    case_bool_decide as E; destruct (Z.eqb_spec z 0) as [Ez0|Ez0]; try done.
    + exfalso. apply Ez0, H2; [lia|done].
    + exfalso. apply E, H1; [done|lia].
  - rewrite andb_false_r. symmetry. apply bool_decide_eq_false. congruence.
Qed.

(** ** Bytes *)

Lemma copy_in_bytes {P : Platform} n lo hi src s :
  window_ok lo hi -> lo <= src -> src + Z.of_nat n <= hi ->
  copy_in n src s = Ret (read_bytes n (kmap lo + (src - lo)) (k_mem s)) s.
Proof.
  intros Hw. revert src. induction n as [|n IH]; intros src Hlo Hhi; cbn [copy_in read_bytes]; [done|].
  pose proof Hw as (W1 & W2 & W3). unfold rd8. erewrite (bind_ret (gets _)) by done.
  rewrite u64_small by lia. rewrite (bind_ret _ _ _ _ _ (IH (src + 1) ltac:(lia) ltac:(lia))). unfold ret.
  rewrite (W3 src) by lia. do 3 f_equal. lia.
Qed.

Lemma read_bytes_take n k a m : (k <= n)%nat -> take k (read_bytes n a m) = read_bytes k a m.
Proof.
  intros Hk. replace n with (k + (n - k))%nat by lia. rewrite read_bytes_app.
  apply take_app_length'. by rewrite length_read_bytes.
Qed.
Lemma read_bytes_drop n k a m : (k <= n)%nat ->
  drop k (read_bytes n a m) = read_bytes (n - k) (a + Z.of_nat k) m.
Proof.
  intros Hk. replace n with (k + (n - k))%nat at 1 by lia. rewrite read_bytes_app.
  apply drop_app_length'. by rewrite length_read_bytes.
Qed.
Lemma read_bytes_ext n a m m' :
  (forall i, a <= i < a + Z.of_nat n -> mget m' i = mget m i) -> read_bytes n a m' = read_bytes n a m.
Proof.
  revert a. induction n as [|n IH]; intros a H; cbn [read_bytes]; [done|].
  rewrite H by lia. f_equal. apply IH. intros i Hi. apply H. lia.
Qed.
Lemma read_bytes_range n a m : Forall (fun c => 0 <= c < 256) (read_bytes n a m).
Proof. revert a. induction n as [|n IH]; intros a; constructor; [apply mget_range|apply IH]. Qed.

(** A field of a structure in memory. *)
Lemma field_load off k n a m : (off + k <= n)%nat ->
  load_le k (a + Z.of_nat off) m = field off k (read_bytes n a m).
Proof.
  intros H. unfold field. rewrite read_bytes_drop, read_bytes_take by lia. apply load_le_value.
Qed.

(** ** The file system on the disk *)

Section layout.
Context (disk : Z -> list Z).

(** Block [b] when blocks have [bs] bytes. *)
Definition blk (bs b : Z) : list Z := disk_bytes disk (b * bs / 512) (bs / 512).

Definition superblock : list Z := disk_bytes disk 2 2.
Definition fs_block_size : Z := Z.shiftl 1024 (s_log_block_size superblock).
Definition group_block : Z := if fs_block_size =? 1024 then 2 else 1.

(** Where inode [n] lies: its block and its offset there. *)
Definition inode_offset (n : Z) : Z :=
  ((n - 1) mod s_inodes_per_group superblock) *
  (if s_rev_level superblock =? 0 then 128 else s_inode_size superblock).
Definition inode_table (n : Z) : Z :=
  field (Z.to_nat (32 * ((n - 1) / s_inodes_per_group superblock) + 8)) 4 (blk fs_block_size group_block).
Definition inode_block (n : Z) : Z := inode_table n + inode_offset n / fs_block_size.

Definition fs_inode (n : Z) : list Z :=
  take 128 (drop (Z.to_nat (inode_offset n mod fs_block_size)) (blk fs_block_size (inode_block n))).

(** The direct blocks of an inode from the [i]th on, up to the first hole. *)
Fixpoint direct_data (n i : nat) (inode : list Z) : list Z :=
  match n with
  | O => []
  | S n => if i_block i inode =? 0 then [] else blk fs_block_size (i_block i inode) ++ direct_data n (S i) inode
  end.

(** The first [max] bytes of a file, as far as its direct blocks go: ext2_read_inode_data
    follows neither indirect blocks nor holes, a block number 0 ends the file. *)
Definition fs_data (inode : list Z) (max : Z) : list Z :=
  take (Z.to_nat (Z.min (i_size inode) max)) (direct_data 12 0 inode).

(** The entries of a directory, record by record: the records fill the directory
    exactly and each is long enough for its name. *)
Record dirent := mkDirent { de_inode : Z; de_name : list Z; de_type : Z }.

Fixpoint parse_dir (fuel : nat) (l : list Z) : option (list dirent) :=
  match fuel, l with
  | _, [] => Some []
  | O, _ => None
  | S fuel, _ =>
      let rec_len := Z.to_nat (field 4 2 l) in
      let name_len := Z.to_nat (field 6 1 l) in
      if decide (8 + name_len <= rec_len <= length l)%nat then
        es ← parse_dir fuel (drop rec_len l);
        Some (mkDirent (field 0 4 l) (take name_len (drop 8 l)) (field 7 1 l) :: es)
      else None
  end.
Definition dir_entries (l : list Z) : option (list dirent) := parse_dir (length l) l.

(** The inode of the first entry in use with the given name, or 0. *)
Definition dir_lookup (es : list dirent) (name : list Z) : Z :=
  match List.find (fun e => negb (de_inode e =? 0) && bool_decide (de_name e = name)) es with
  | Some e => de_inode e
  | None => 0
  end.

Lemma parse_dir_length fuel l es : parse_dir fuel l = Some es -> (8 * length es <= length l)%nat.
Proof.
  revert l es. induction fuel as [|fuel IH]; intros [|b l] es H; cbn [parse_dir] in H; simplify_eq; cbn [length]; try lia.
  cbv zeta in H. case_decide as Hd; [|done]. apply bind_Some in H as (es' & Hes & H). simplify_eq.
  apply IH in Hes. rewrite length_drop in Hes. cbn [length] in *. lia.
Qed.

(** A block that the driver can address. *)
Definition block_ok (b : Z) : Prop := 0 <= b /\ (b + 1) * fs_block_size <= 4294967296.

Definition small_blocks : Prop := fs_block_size = 1024 \/ fs_block_size = 2048 \/ fs_block_size = 4096.

Record inode_ok (n : Z) : Prop := {
  io_num : 0 < n < 4294967296;
  io_group : 0 < s_inodes_per_group superblock;
  io_table : 32 * ((n - 1) / s_inodes_per_group superblock) + 12 <= fs_block_size;
  io_offset : inode_offset n < 4294967296;
  io_inside : inode_offset n mod fs_block_size + 128 <= fs_block_size;
  io_block : block_ok (inode_block n);
}.
Definition data_ok (inode : list Z) : Prop := forall i, (i < 12)%nat -> i_block i inode <> 0 -> block_ok (i_block i inode).

Context (Hwords : forall i, length (disk i) = 256%nat /\ Forall (fun w => 0 <= w < 65536) (disk i)).

Lemma disk_bytes_length lba n : 0 <= n -> Z.of_nat (length (disk_bytes disk lba n)) = 512 * n.
Proof.
  intros Hn. unfold disk_bytes, sectors.
  assert (H : forall l, Z.of_nat (length (flat_map word_bytes (flat_map (fun i => disk (lba + i)) l))) = 512 * Z.of_nat (length l)).
  { induction l as [|x l IH]; [done|]. cbn [flat_map]. rewrite flat_map_app, length_app, Nat2Z.inj_add, IH.
    assert (Hb : forall ws, length (flat_map word_bytes ws) = (2 * length ws)%nat)
      by (induction ws as [|w ws IHw]; [done|cbn; rewrite IHw; lia]).
    rewrite Hb, (proj1 (Hwords (lba + x))). cbn [length]. lia. }
  rewrite H, length_seqZ. lia.
Qed.

Lemma disk_bytes_range lba n : Forall (fun b => 0 <= b < 256) (disk_bytes disk lba n).
Proof.
  unfold disk_bytes, sectors. apply Forall_flat_map, Forall_flat_map, Forall_forall. intros i _.
  eapply Forall_impl; [apply Hwords|]. intros w Hw. cbv beta in Hw.
  repeat apply Forall_cons_2; [zlia|zlia|apply Forall_nil_2].
Qed.

Lemma le_value_nonneg l : Forall (fun b => 0 <= b < 256) l -> 0 <= le_value l.
Proof. induction 1 as [|b l Hb Hl IH]; cbn [le_value]; lia. Qed.

Lemma field_nonneg off k lba n : 0 <= field off k (disk_bytes disk lba n).
Proof. apply le_value_nonneg, Forall_take, Forall_drop, disk_bytes_range. Qed.

Lemma blk_length bs b : bs mod 512 = 0 -> 0 <= bs -> Z.of_nat (length (blk bs b)) = bs.
Proof. intros Hm Hb. unfold blk. rewrite disk_bytes_length by (apply Z.div_pos; lia). zlia. Qed.
End layout.

(** ** The operations *)

Section operations.
Context {P : Platform} {B : BlockDevice}.
Implicit Types s : kstate.

(** Low memory is mapped where it is: a physical page can be used as a pointer. *)
Definition identity_mapped : Prop := forall x, 0 <= x < PHYS_LIMIT -> kmap x = x.

(** The address belongs to a free page. *)
Definition free_at s (a : Z) : Prop := exists p, p ∈ free_list s /\ p <= a < p + PAGE_SIZE.

(** The file system is mounted. *)
Record mounted s : Prop := {
  mt_ready : ext2_ready (k_ext2 s) <> 0;
  mt_sb : sb (k_ext2 s) = superblock disk;
  mt_size : block_size (k_ext2 s) = fs_block_size disk;
  mt_small : small_blocks disk;
  mt_page : page_ok (group_desc (k_ext2 s));
  mt_taken : forall a, group_desc (k_ext2 s) <= a < group_desc (k_ext2 s) + PAGE_SIZE -> ~ free_at s a;
  mt_groups : read_bytes (Z.to_nat (fs_block_size disk)) (group_desc (k_ext2 s)) (k_mem s)
    = blk disk (fs_block_size disk) (group_block disk);
  mt_device : device_ready s;
  mt_pmm : pmm_inv s;
}.

(** What an operation may change: the console, the ports, free pages, and the
    addresses in [W]; in the end the free pages are the same. *)
Record scratch (W : Z -> Prop) s s' : Prop := {
  sc_free : free_list s' = free_list s;
  sc_pmm : pmm_inv s';
  sc_device : device_ready s';
  sc_mem : forall a, ~ W a -> ~ free_at s a -> mget (k_mem s') a = mget (k_mem s) a;
  sc_rest : s' = set_con (fun _ => k_con s') (set_io (fun _ => k_io s') (set_pmm (fun _ => k_pmm s')
    (set_mem (fun _ => k_mem s') s)));
}.

Lemma scratch_free_at W s s' a : scratch W s s' -> free_at s' a <-> free_at s a.
Proof. intros H. unfold free_at. by rewrite (sc_free _ _ _ H). Qed.

Lemma scratch_trans W s1 s2 s3 : scratch W s1 s2 -> scratch W s2 s3 -> scratch W s1 s3.
Proof.
  intros H1 H2. constructor; [|apply H2|apply H2| |].
  - by rewrite (sc_free _ _ _ H2), (sc_free _ _ _ H1).
  - intros a Ha Hf. rewrite (sc_mem _ _ _ H2), (sc_mem _ _ _ H1); [done|done|done|done|].
    by rewrite (scratch_free_at _ _ _ _ H1).
  - rewrite (sc_rest _ _ _ H2), (sc_rest _ _ _ H1). done.
Qed.
Lemma scratch_mono (W W' : Z -> Prop) s s' : (forall a, W a -> W' a) -> scratch W s s' -> scratch W' s s'.
Proof. intros HW [H1 H2 H3 H4 H5]. constructor; try done. intros a Ha. apply H4. auto. Qed.
Lemma scratch_ext2 W s s' : scratch W s s' -> k_ext2 s' = k_ext2 s.
Proof. intros H. by rewrite (sc_rest _ _ _ H). Qed.

Lemma scratch_con W s f : pmm_inv s -> device_ready s -> scratch W s (set_con f s).
Proof.
  intros Hp Hd. constructor; [done| | |done|by destruct s].
  - by destruct Hp.
  - by apply (ready_io s).
Qed.
Lemma scratch_refl W s : pmm_inv s -> device_ready s -> scratch W s s.
Proof. intros Hp Hd. constructor; try done. by destruct s. Qed.

Lemma scratch_set_con W s s' f : scratch W s s' -> scratch W s (set_con f s').
Proof. intros H. eapply scratch_trans; [exact H|]. apply scratch_con; apply H. Qed.

Lemma mounted_scratch (W : Z -> Prop) s s' :
  (forall a, W a -> ~ (group_desc (k_ext2 s) <= a < group_desc (k_ext2 s) + PAGE_SIZE)) ->
  scratch W s s' -> mounted s -> mounted s'.
Proof.
  intros HW Hs [H1 H2 H3 H4 H5 H6 H7 H8 H9]. pose proof (scratch_ext2 _ _ _ Hs) as E.
  constructor; rewrite ?E; try done; [|rewrite <- H7|apply Hs|apply Hs].
  - intros a Ha. rewrite (scratch_free_at _ _ _ _ Hs). by apply H6.
  - apply read_bytes_ext. intros a Ha.
    assert (Hp : group_desc (k_ext2 s) <= a < group_desc (k_ext2 s) + PAGE_SIZE).
    { unfold PAGE_SIZE. destruct H4 as [E4|[E4|E4]]; rewrite E4 in Ha; lia. }
    apply (sc_mem _ _ _ Hs); [|by apply H6]. intros Hw. by apply (HW a).
Qed.

Context (Hident : identity_mapped).

Lemma page_window p n : page_ok p -> 0 <= n <= PAGE_SIZE -> window_ok p (p + n).
Proof.
  intros (H1 & H2 & H3) Hn. unfold PAGE_SIZE, PHYS_LIMIT in *.
  split_and!; [lia|lia|]. intros x Hx. rewrite !Hident by (unfold PHYS_LIMIT; lia). lia.
Qed.
Lemma page_kmap p : page_ok p -> kmap p = p.
Proof. intros (H1 & H2 & H3). apply Hident. unfold PAGE_SIZE, PHYS_LIMIT in *. lia. Qed.

Lemma read_block_ok s b buffer bs :
  device_ready s -> small_blocks disk -> block_size (k_ext2 s) = bs -> bs = fs_block_size disk -> block_ok disk b ->
  window_ok buffer (buffer + bs) ->
  wp (ext2_read_block b buffer) s (fun r s' =>
    r = 0 /\ device_ready s' /\ read_bytes (Z.to_nat bs) (kmap buffer) (k_mem s') = blk disk bs b /\
    (forall a, ~ (kmap buffer <= a < kmap buffer + bs) -> mget (k_mem s') a = mget (k_mem s) a) /\
    s' = set_io (fun _ => k_io s') (set_mem (fun _ => k_mem s') s)).
Proof.
  intros Hd Hs Ebs Efs [Hb0 Hb1] Hw. unfold ext2_read_block, ext2. apply wp_bind, wp_gets. rewrite Ebs.
  assert (Hbs : bs = 1024 \/ bs = 2048 \/ bs = 4096) by (unfold small_blocks in Hs; rewrite <- Efs in Hs; done).
  rewrite <- Efs in Hb1. rewrite u32_small by nia. rewrite u8_small by (destruct Hbs as [->|[->| ->]]; vm_compute; split; congruence).
  assert (E512 : 512 * (bs / 512) = bs) by (destruct Hbs as [->|[->| ->]]; reflexivity).
  assert (H0 : 0 <= b * bs < 4294967296) by nia.
  wp_call (device_read s (b * bs / 512) (bs / 512) buffer);
    [done|destruct Hbs as [->|[->| ->]]; vm_compute; split; congruence|apply Z.div_pos; lia| |by rewrite E512|].
  - assert (bs / 512 <= 8) by (destruct Hbs as [->|[->| ->]]; vm_compute; congruence).
    assert (b * bs / 512 < 8388608) by (apply Z.div_lt_upper_bound; lia). lia.
  - rewrite E512. intros r s' (H1 & H2 & H3 & H4 & H5). by split_and!.
Qed.

Lemma elem_snoc {A} (l : list A) x : x ∈ l ++ [x].
Proof. apply elem_of_app. right. by apply list_elem_of_singleton. Qed.

(** Page [p] is on loan: taken from the free pages of [s], to be given back. *)
Record loan (W : Z -> Prop) (p : Z) s s1 : Prop := {
  ln_free : free_list s = free_list s1 ++ [p];
  ln_page : page_ok p;
  ln_pmm : pmm_inv s1;
  ln_pmm0 : pmm_inv s;
  ln_device : device_ready s1;
  ln_mem : forall a, ~ W a -> ~ free_at s a -> mget (k_mem s1) a = mget (k_mem s) a;
  ln_rest : s1 = set_con (fun _ => k_con s1) (set_io (fun _ => k_io s1) (set_pmm (fun _ => k_pmm s1)
    (set_mem (fun _ => k_mem s1) s)));
}.

Lemma loan_ext2 W p s s1 : loan W p s s1 -> k_ext2 s1 = k_ext2 s.
Proof. intros H. by rewrite (ln_rest _ _ _ _ H). Qed.

Lemma loan_page_free W p s s1 a : loan W p s s1 -> p <= a < p + PAGE_SIZE -> free_at s a.
Proof. intros H Ha. exists p. rewrite (ln_free _ _ _ _ H). split; [apply elem_snoc|done]. Qed.

Lemma loan_mono (W W' : Z -> Prop) p s s1 : (forall a, W a -> W' a) -> loan W p s s1 -> loan W' p s s1.
Proof. intros HW [H1 H2 H3 H4 H5 H6 H7]. constructor; try done. intros a Ha. apply H6. auto. Qed.

Lemma alloc_loan W s : pmm_inv s -> device_ready s -> free_list s <> [] ->
  wp pmm_alloc_page s (fun p s1 => p <> 0 /\ loan W p s s1).
Proof.
  intros Hp Hd Hne. wp_call pmm_alloc_ok; [done|done|].
  intros p s1 (Hf & Hpg & Hz & Hfr & Hp1 & _). split; [destruct Hpg; lia|]. unfold pmm_mem_frame in Hfr.
  constructor; try done.
  - apply (ready_io s); [by rewrite Hfr|done].
  - intros a _ Ha. rewrite Hz, decide_False; [done|]. intros Hin. apply Ha. exists p. rewrite Hf. split; [apply elem_snoc|done].
  - rewrite Hfr. by destruct s.
Qed.

(** Writing into the page or into [W], and the ports, keeps the loan. *)
Lemma loan_write (W : Z -> Prop) p s s1 s2 :
  loan W p s s1 -> device_ready s2 ->
  (forall a, ~ W a -> ~ (p <= a < p + PAGE_SIZE) -> mget (k_mem s2) a = mget (k_mem s1) a) ->
  s2 = set_con (fun _ => k_con s2) (set_io (fun _ => k_io s2) (set_mem (fun _ => k_mem s2) s1)) ->
  loan W p s s2.
Proof.
  intros Hl Hd Hm E. destruct Hl as [H1 H2 H3 H4 H5 H6 H7].
  assert (Ep : k_pmm s2 = k_pmm s1) by by rewrite E.
  assert (Ef : free_list s2 = free_list s1) by by apply free_list_ext.
  constructor; try done.
  - by rewrite Ef.
  - destruct H3 as [K1 K2 K3 K4 K5]. constructor; rewrite ?Ef, ?Ep; try done. unfold hhdm_ok in *. by rewrite E.
  - intros a Ha Hf. rewrite Hm; [by apply H6|done|]. intros Hin. apply Hf. exists p. rewrite H1. split; [apply elem_snoc|done].
  - rewrite E, H7. done.
Qed.

(** Giving the page back. *)
Lemma loan_return W p s s1 :
  loan W p s s1 -> wp (pmm_free_page p) s1 (fun _ s2 => scratch W s s2 /\ k_mem s2 = k_mem s1 /\ k_con s2 = k_con s1).
Proof.
  intros [H1 H2 H3 H4 H5 H6 H7].
  assert (Hlen : page_stack_top (k_pmm s1) < MAX_PAGES).
  { pose proof (length_free_list s1 (proj1 (inv_top _ H3))). pose proof (length_free_list s (proj1 (inv_top _ H4))) as Hl.
    rewrite H1, length_app in Hl. pose proof (inv_top _ H4). cbn [length] in Hl. lia. }
  assert (Hnd : p ∉ free_list s1).
  { pose proof (inv_nodup _ H4) as Hn. rewrite H1 in Hn. apply NoDup_app in Hn as (_ & Hx & _).
    intros Hin. apply (Hx p Hin). by apply list_elem_of_singleton. }
  wp_call pmm_free_inv; [done|done|done|done|]. intros _ s2 (Hf & Hfr & Ec & Hp2 & _). unfold pmm_frame in Hfr.
  assert (Em : k_mem s2 = k_mem s1) by by rewrite Hfr.
  split_and!; [|done|done]. constructor; [by rewrite Hf, H1|done| | |].
  - apply (ready_io s1); [by rewrite Hfr|done].
  - intros a Ha Hfa. rewrite Em. by apply H6.
  - rewrite Hfr, H7. done.
Qed.

(** A block read into a page on loan. *)
Lemma loan_read_block W p s s1 b bs :
  loan W p s s1 -> small_blocks disk -> block_size (k_ext2 s) = bs -> bs = fs_block_size disk -> block_ok disk b ->
  wp (ext2_read_block b p) s1 (fun r s2 =>
    r = 0 /\ loan W p s s2 /\ read_bytes (Z.to_nat bs) p (k_mem s2) = blk disk bs b).
Proof.
  intros Hl Hs Hbs Efs Hb. pose proof (ln_page _ _ _ _ Hl) as Hpg.
  assert (Hle : 0 <= bs <= PAGE_SIZE) by (unfold PAGE_SIZE; unfold small_blocks in Hs; lia).
  wp_call (read_block_ok s1 b p bs); [apply Hl|done|by rewrite (loan_ext2 _ _ _ _ Hl)|done|done|by apply page_window|].
  rewrite page_kmap by done. intros r s2 (-> & Hd & Hr & Hm & E). split_and!; [done| |done].
  eapply loan_write; [exact Hl|done| |].
  - intros a _ Ha. apply Hm. lia.
  - rewrite E. by destruct s1.
Qed.

(** Reading an inode. *)
Lemma read_inode_ok s n :
  mounted s -> free_list s <> [] -> inode_ok disk n ->
  wp (ext2_read_inode n) s (fun r s' => r = (0, fs_inode disk n) /\ scratch (fun _ => False) s s').
Proof.
  intros Hmt Hne [I1 I2 I3 I4 I5 I6]. pose proof Hmt as [M1 M2 M3 M4 M5 M6 M7 M8 M9].
  unfold ext2_read_inode. rewrite (proj2 (Z.eqb_neq n 0)) by lia. apply wp_bind, wp_gets.
  rewrite u32_small by lia. rewrite M2. unfold udiv, umod. rewrite (proj2 (Z.eqb_neq (s_inodes_per_group _) 0)) by lia.
  apply wp_bind, wp_ret, wp_bind, wp_ret. unfold rd32. apply wp_bind, wp_gets.
  assert (Hbs : 0 < fs_block_size disk <= 4096) by (unfold small_blocks in M4; lia).
  set (group := (n - 1) / s_inodes_per_group (superblock disk)) in *.
  assert (Hg : 0 <= group) by (apply Z.div_pos; lia).
  pose proof M5 as (Q1 & Q2 & Q3). unfold PAGE_SIZE, PHYS_LIMIT in Q3.
  rewrite (u64_small (group_desc (k_ext2 s) + 32 * group + 8)) by lia. rewrite Hident by (unfold PHYS_LIMIT; lia).
  assert (Et : load32 (group_desc (k_ext2 s) + 32 * group + 8) (k_mem s) = inode_table disk n).
  { unfold inode_table. fold group. rewrite <- M7. unfold load32.
    rewrite <- (field_load (Z.to_nat (32 * group + 8)) 4 (Z.to_nat (fs_block_size disk))) by lia. f_equal. lia. }
  rewrite Et. rewrite M3.
  change ((n - 1) mod s_inodes_per_group (superblock disk) *
    (if s_rev_level (superblock disk) =? 0 then 128 else s_inode_size (superblock disk))) with (inode_offset disk n).
  assert (Hoff : 0 <= inode_offset disk n).
  { unfold inode_offset. apply Z.mul_nonneg_nonneg; [apply Z.mod_pos_bound; lia|].
    destruct (_ =? 0); [lia|]. apply field_nonneg, disk_words. }
  rewrite (u32_small (inode_offset disk n)) by lia. rewrite (proj2 (Z.eqb_neq (fs_block_size disk) 0)) by lia.
  apply wp_bind, wp_ret, wp_bind, wp_ret. fold (inode_block disk n).
  rewrite u32_small by (destruct I6; nia). apply wp_bind. wp_call (alloc_loan (fun _ => False)); [done|done|done|].
  intros p s1 (Hp0 & Hl). rewrite (proj2 (Z.eqb_neq p 0)) by done. apply wp_bind.
  wp_call (loan_read_block (fun _ => False) p s s1 _ (fs_block_size disk)); [done|done|done|done|done|].
  intros r s2 (-> & Hl2 & Hr2). cbn [Z.eqb negb]. apply wp_bind.
  pose proof (ln_page _ _ _ _ Hl2) as Hpg. pose proof Hpg as (P1 & P2 & P3). unfold PAGE_SIZE, PHYS_LIMIT in P3.
  assert (Hmod : 0 <= inode_offset disk n mod fs_block_size disk) by (apply Z.mod_pos_bound; lia).
  rewrite u64_small by lia.
  eapply wp_eq; [apply (copy_in_bytes _ p (p + 4096)); [by apply page_window; [|unfold PAGE_SIZE; lia]|lia|unfold INODE_SIZE; lia]|].
  apply wp_bind. wp_call loan_return; [exact Hl2|]. intros _ s3 (Hsc & Em & _). apply wp_ret. split; [|done].
  f_equal. unfold fs_inode. rewrite page_kmap by done. rewrite <- Hr2.
  rewrite read_bytes_drop, read_bytes_take by lia. change (Z.to_nat INODE_SIZE) with 128%nat. f_equal. lia.
Qed.

(** The copy loop of ext2_read_inode_data. *)
Lemma copy_out_ok p buffer cap offset n s1 :
  page_ok p -> window_ok buffer (buffer + cap) -> cap < 4294967296 ->
  0 <= n <= PAGE_SIZE -> 0 <= offset -> offset + n <= cap ->
  (forall a, p <= a < p + PAGE_SIZE -> ~ (kmap buffer <= a < kmap buffer + cap)) ->
  wp (for_range 0 n (fun j =>
        b <- rd8 (u64 (p + j)) ;; wr8 (u64 (buffer + u32 (offset + j))) b)) s1 (fun _ s2 =>
    read_bytes (Z.to_nat n) (kmap buffer + offset) (k_mem s2) = read_bytes (Z.to_nat n) p (k_mem s1) /\
    (forall a, ~ (kmap buffer + offset <= a < kmap buffer + offset + n) -> mget (k_mem s2) a = mget (k_mem s1) a) /\
    s2 = set_mem (fun _ => k_mem s2) s1).
Proof.
  intros Hpg (W1 & W2 & W3) Hcap Hn Ho Hc Hdis. pose proof Hpg as (P1 & P2 & P3).
  unfold PAGE_SIZE, PHYS_LIMIT in *.
  apply (wp_for_range (fun j s2 =>
    (forall k, 0 <= k < j -> mget (k_mem s2) (kmap buffer + offset + k) = mget (k_mem s1) (p + k)) /\
    (forall a, ~ (kmap buffer + offset <= a < kmap buffer + offset + j) -> mget (k_mem s2) a = mget (k_mem s1) a) /\
    s2 = set_mem (fun _ => k_mem s2) s1)); [lia|split_and!; [lia|done|by destruct s1]| |].
  - intros j s2 Hj (H1 & H2 & H3). unfold rd8, wr8. wp_steps.
    rewrite (u32_small (offset + j)), !u64_small by lia. rewrite (Hident (p + j)) by (unfold PHYS_LIMIT; lia).
    rewrite (W3 (buffer + (offset + j))) by lia. cbn [k_mem set_mem].
    replace (kmap buffer + (buffer + (offset + j) - buffer)) with (kmap buffer + offset + j) by lia.
    split_and!.
    + intros k Hk. destruct (decide (k = j)) as [->|Hne].
      * rewrite mget_mput_eq. rewrite u8_small by apply mget_range. apply H2. intros Hin. apply (Hdis (p + j)); lia.
      * rewrite mget_mput_ne by lia. apply H1. lia.
    + intros a Ha. rewrite mget_mput_ne by lia. apply H2. lia.
    + rewrite H3. done.
  - intros s2 (H1 & H2 & H3). split_and!; [|done|done].
    apply list_eq. intros k. destruct (decide (k < Z.to_nat n)%nat) as [Hk|Hk].
    + rewrite !lookup_read_bytes by done. f_equal. apply H1. lia.
    + rewrite !lookup_ge_None_2 by (rewrite length_read_bytes; lia). done.
Qed.

(** The part of the buffer from [offset] on. *)
Definition rest_of (buffer cap offset : Z) (a : Z) : Prop := kmap buffer + offset <= a < kmap buffer + cap.

(** A buffer of [cap] bytes that is none of the pages the file system uses. *)
Record buffer_ok s (buffer cap : Z) : Prop := {
  bf_window : window_ok buffer (buffer + cap);
  bf_cap : 0 <= cap < 2147483648;
  bf_free : forall a, kmap buffer <= a < kmap buffer + cap -> ~ free_at s a;
  bf_groups : forall a, kmap buffer <= a < kmap buffer + cap ->
    ~ (group_desc (k_ext2 s) <= a < group_desc (k_ext2 s) + PAGE_SIZE);
}.

Lemma buffer_ok_scratch W s s' buffer cap : scratch W s s' -> buffer_ok s buffer cap -> buffer_ok s' buffer cap.
Proof.
  intros Hs [H1 H2 H3 H4]. constructor; try done.
  - intros a Ha. rewrite (scratch_free_at _ _ _ _ Hs). by apply H3.
  - by rewrite (scratch_ext2 _ _ _ Hs).
Qed.

Lemma small_blk b : small_blocks disk -> Z.of_nat (length (blk disk (fs_block_size disk) b)) = fs_block_size disk.
Proof.
  intros Hs. apply blk_length; [apply disk_words| |]; unfold small_blocks in Hs;
    destruct Hs as [->|[->| ->]]; done || lia.
Qed.

(** One block of a file: read into a page on loan, copied to the buffer. *)
Lemma data_block_ok s b buffer cap offset remaining :
  mounted s -> free_list s <> [] -> buffer_ok s buffer cap -> block_ok disk b ->
  0 < remaining -> 0 <= offset -> offset + remaining <= cap ->
  let n := Z.min remaining (fs_block_size disk) in
  wp (block_buffer <- pmm_alloc_page ;;
      if block_buffer =? 0 then ret None
      else
        r <- ext2_read_block b block_buffer ;;
        if negb (r =? 0) then pmm_free_page block_buffer ;;; ret None
        else
          bs <- ext2 block_size ;;
          let to_copy := if remaining >? bs then bs else remaining in
          for_range 0 to_copy (fun j =>
            b <- rd8 (u64 (block_buffer + j)) ;; wr8 (u64 (buffer + u32 (offset + j))) b) ;;;
          pmm_free_page block_buffer ;;;
          ret (Some to_copy)) s (fun o s' =>
    o = Some n /\ scratch (rest_of buffer cap offset) s s' /\
    read_bytes (Z.to_nat n) (kmap buffer + offset) (k_mem s') = take (Z.to_nat n) (blk disk (fs_block_size disk) b)).
Proof.
  intros Hmt Hne [B1 B2 B3 B4] Hb Hr Ho Hc n. pose proof (mt_small _ Hmt) as Hsm.
  assert (Hbs : 0 < fs_block_size disk <= 4096) by (unfold small_blocks in Hsm; lia).
  apply wp_bind. wp_call (alloc_loan (rest_of buffer cap offset)); [apply Hmt|apply Hmt|done|].
  intros p s1 (Hp0 & Hl). rewrite (proj2 (Z.eqb_neq p 0)) by done. apply wp_bind.
  wp_call (loan_read_block _ p s s1 b (fs_block_size disk)); [exact Hl|done|apply Hmt|done|done|].
  intros r s2 (-> & Hl2 & Hr2). cbn [Z.eqb negb]. unfold ext2. apply wp_bind, wp_gets.
  rewrite (loan_ext2 _ _ _ _ Hl2), (mt_size _ Hmt). cbv zeta.
  assert (Hto : (if remaining >? fs_block_size disk then fs_block_size disk else remaining) = n)
    by (unfold n; rewrite Z.gtb_ltb; destruct (Z.ltb_spec (fs_block_size disk) remaining); lia).
  rewrite Hto. apply wp_bind.
  assert (Hdis : forall a, p <= a < p + PAGE_SIZE -> ~ (kmap buffer <= a < kmap buffer + cap)).
  { intros a Ha Hin. apply (B3 a Hin). by eapply loan_page_free. }
  wp_call (copy_out_ok p buffer cap offset n s2);
    [apply Hl2|done|lia|unfold n, PAGE_SIZE; lia|done|unfold n; lia|done|].
  intros _ s3 (Hcp & Hm3 & E3). apply wp_bind.
  assert (Hl3 : loan (rest_of buffer cap offset) p s s3).
  { eapply loan_write; [exact Hl2| | |rewrite E3; by destruct s2].
    - apply (ready_io s2); [by rewrite E3|apply Hl2].
    - intros a Ha _. apply Hm3. unfold rest_of in Ha. unfold n. lia. }
  wp_call loan_return; [exact Hl3|]. intros _ s4 (Hsc & Em & _). apply wp_ret. split_and!; [done|done|].
  rewrite Em, Hcp, <- Hr2, read_bytes_take by (unfold n; lia). done.
Qed.

(** The loop is that block after block. *)
Lemma read_data_blocks_S n i inode buffer remaining offset s :
  read_data_blocks (S n) i inode buffer remaining offset s =
  (if negb (remaining >? 0) then ret (Some remaining)
   else if i_block i inode =? 0 then ret (Some remaining)
   else
     o <- (block_buffer <- pmm_alloc_page ;;
      if block_buffer =? 0 then ret None
      else
        r <- ext2_read_block (i_block i inode) block_buffer ;;
        if negb (r =? 0) then pmm_free_page block_buffer ;;; ret None
        else
          bs <- ext2 block_size ;;
          let to_copy := if remaining >? bs then bs else remaining in
          for_range 0 to_copy (fun j =>
            b <- rd8 (u64 (block_buffer + j)) ;; wr8 (u64 (buffer + u32 (offset + j))) b) ;;;
          pmm_free_page block_buffer ;;;
          ret (Some to_copy)) ;;
     match o with
     | None => ret None
     | Some to_copy => read_data_blocks n (S i) inode buffer (u32 (remaining - to_copy)) (u32 (offset + to_copy))
     end) s.
Proof.
  cbn [read_data_blocks]. destruct (negb _); [done|]. destruct (i_block i inode =? 0); [done|].
  unfold bind. destruct (pmm_alloc_page s) as [p s1|s1|f s1|s1]; try done.
  destruct (p =? 0); [done|].
  destruct (ext2_read_block _ p s1) as [r s2|s2|f s2|s2]; try done.
  destruct (negb (r =? 0)); [by destruct (pmm_free_page p s2)|].
  destruct (ext2 block_size s2) as [bs s3|s3|f s3|s3]; try done.
  destruct (for_range 0 _ _ s3) as [u s4|s4|f s4|s4]; try done.
  by destruct (pmm_free_page p s4).
Qed.

Lemma read_blocks_ok n i inode buffer cap remaining offset s :
  mounted s -> free_list s <> [] -> buffer_ok s buffer cap -> data_ok disk inode -> (i + n <= 12)%nat ->
  0 <= remaining -> 0 <= offset -> offset + remaining <= cap ->
  let data := take (Z.to_nat remaining) (direct_data disk n i inode) in
  wp (read_data_blocks n i inode buffer remaining offset) s (fun o s' =>
    o = Some (remaining - Z.of_nat (length data)) /\ scratch (rest_of buffer cap offset) s s' /\
    read_bytes (length data) (kmap buffer + offset) (k_mem s') = data).
Proof.
  revert i remaining offset s.
  assert (Hstop : forall remaining offset s, mounted s -> wp (ret (Some remaining)) s (fun o s' =>
    o = Some (remaining - 0) /\ scratch (rest_of buffer cap offset) s s' /\
    read_bytes 0 (kmap buffer + offset) (k_mem s') = [])).
  { intros r o s Hm. apply wp_ret. split_and!; [by rewrite Z.sub_0_r|apply scratch_refl; apply Hm|done]. }
  induction n as [|n IH]; intros i remaining offset s Hmt Hne Hbf Hd Hi Hr Ho Hc data.
  { unfold data. cbn [direct_data read_data_blocks]. rewrite take_nil. by apply Hstop. }
  unfold wp. rewrite read_data_blocks_S.
  match goal with |- match ?m s with _ => _ end => change (wp m s (fun o s' =>
    o = Some (remaining - Z.of_nat (length data)) /\ scratch (rest_of buffer cap offset) s s' /\
    read_bytes (length data) (kmap buffer + offset) (k_mem s') = data)) end.
  unfold data. cbn [direct_data]. rewrite Z.gtb_ltb.
  destruct (Z.ltb_spec 0 remaining) as [Hpos|Hz]; cbn [negb].
  2:{ replace remaining with 0 by lia. rewrite take_0. by apply Hstop. }
  destruct (Z.eqb_spec (i_block i inode) 0) as [Hb|Hb]; [rewrite take_nil; by apply Hstop|].
  apply wp_bind. wp_call (data_block_ok s (i_block i inode) buffer cap offset remaining);
    [done|done|done|apply Hd; [lia|done]|done|done|done|].
  set (bs := fs_block_size disk). set (m := Z.min remaining bs). set (b := blk disk bs (i_block i inode)).
  intros o s1 (-> & Hsc & Hrd). pose proof (mt_small _ Hmt) as Hsm.
  assert (Hbs : 0 < bs <= 4096) by (unfold small_blocks, bs in *; lia).
  assert (Hlb : length b = Z.to_nat bs) by (pose proof (small_blk (i_block i inode) Hsm); unfold b, bs; lia).
  pose proof (bf_cap _ _ _ Hbf). rewrite !u32_small by lia.
  wp_call (IH (S i) (remaining - m) (offset + m) s1); [|by rewrite (sc_free _ _ _ Hsc)|by eapply buffer_ok_scratch|done|lia|lia|lia|lia|].
  { eapply mounted_scratch; [|exact Hsc|done]. unfold rest_of. intros a Ha. apply (bf_groups _ _ _ Hbf). lia. }
  intros o s2 (-> & Hsc2 & Hrd2).
  assert (Htk : take (Z.to_nat remaining) (b ++ direct_data disk n (S i) inode)
    = take (Z.to_nat m) b ++ take (Z.to_nat (remaining - m)) (direct_data disk n (S i) inode)).
  { rewrite take_app, Hlb. unfold m. f_equal; [|f_equal; lia]. destruct (Z.min_spec remaining bs) as [[? ->]|[? ->]]; [done|].
    rewrite !take_ge by lia. done. }
  rewrite Htk, length_app. assert (Hlm : length (take (Z.to_nat m) b) = Z.to_nat m) by (rewrite length_take; lia).
  rewrite Hlm. split_and!.
  - f_equal. lia.
  - eapply scratch_trans; [exact Hsc|]. eapply scratch_mono; [|exact Hsc2]. unfold rest_of. intros a. lia.
  - rewrite read_bytes_app. f_equal.
    + rewrite <- Hrd. apply read_bytes_ext. intros a Ha. apply (sc_mem _ _ _ Hsc2); [unfold rest_of; lia|].
      rewrite (scratch_free_at _ _ _ _ Hsc). apply (bf_free _ _ _ Hbf). lia.
    + rewrite <- Hrd2 at 2. f_equal. lia.
Qed.

(** Reading the data of a file. *)
Lemma read_inode_data_ok inode buffer max s :
  mounted s -> free_list s <> [] -> buffer_ok s buffer max -> data_ok disk inode -> 0 <= i_size inode ->
  wp (ext2_read_inode_data inode buffer max) s (fun r s' =>
    r = Z.of_nat (length (fs_data disk inode max)) /\ scratch (rest_of buffer max 0) s s' /\
    read_bytes (length (fs_data disk inode max)) (kmap buffer) (k_mem s') = fs_data disk inode max).
Proof.
  intros Hmt Hne Hbf Hd Hsz. pose proof (bf_cap _ _ _ Hbf) as Hcap. unfold ext2_read_inode_data.
  assert (Hsize : (if i_size inode >? max then max else i_size inode) = Z.min (i_size inode) max)
    by (rewrite Z.gtb_ltb; destruct (Z.ltb_spec max (i_size inode)); lia).
  rewrite Hsize. apply wp_bind.
  assert (Hw : wp (when i_size inode >? max do kprintln "ext2: Warning - truncating file read") s
    (fun _ s1 => scratch (rest_of buffer max 0) s s1)).
  { destruct (i_size inode >? max); [apply wp_modify, scratch_con; apply Hmt|apply wp_ret, scratch_refl; apply Hmt]. }
  eapply wp_mono; [exact Hw|]. intros u s1 Hs1. cbv beta in Hs1. clear u. apply wp_bind.
  wp_call (read_blocks_ok 12 0 inode buffer max (Z.min (i_size inode) max) 0 s1);
    [|by rewrite (sc_free _ _ _ Hs1)|by eapply buffer_ok_scratch|done|lia|lia|lia|lia|].
  { eapply mounted_scratch; [|exact Hs1|done]. unfold rest_of. intros a Ha. apply (bf_groups _ _ _ Hbf). lia. }
  intros o s2 (-> & Hs2 & Hrd). fold (fs_data disk inode max) in *. apply wp_ret. split_and!.
  - assert (Hle : Z.of_nat (length (fs_data disk inode max)) <= Z.min (i_size inode) max)
      by (unfold fs_data; rewrite length_take; lia).
    rewrite u32_small, i32_small by (rewrite ?u32_small; lia). lia.
  - by eapply scratch_trans.
  - by rewrite Z.add_0_r in Hrd.
Qed.

(** The page on loan through an operation that leaves it taken. *)
Lemma loan_scratch (W V : Z -> Prop) p s s1 s2 :
  loan W p s s1 -> scratch V s1 s2 -> (forall a, V a -> W a \/ p <= a < p + PAGE_SIZE) -> loan W p s s2.
Proof.
  intros Hl Hs HV. pose proof Hl as [H1 H2 H3 H4 H5 H6 H7]. constructor; try done; [|apply Hs|apply Hs| |].
  - by rewrite (sc_free _ _ _ Hs).
  - intros a Ha Hf. rewrite (sc_mem _ _ _ Hs); [by apply H6| |].
    + intros [?|Hin]%HV; [done|]. apply Hf. by eapply loan_page_free.
    + intros (q & Hq & Hin). apply Hf. exists q. rewrite H1. split; [apply elem_of_app; by left|done].
  - rewrite (sc_rest _ _ _ Hs), H7. done.
Qed.

Lemma scratch_loan W p s s1 s2 : pmm_inv s -> scratch W s s1 -> loan W p s1 s2 -> loan W p s s2.
Proof.
  intros Hp Hs [H1 H2 H3 H4 H5 H6 H7]. constructor; try done.
  - by rewrite <- (sc_free _ _ _ Hs).
  - intros a Ha Hf. rewrite H6; [by apply (sc_mem _ _ _ Hs)|done|by rewrite (scratch_free_at _ _ _ _ Hs)].
  - rewrite H7, (sc_rest _ _ _ Hs). done.
Qed.

Lemma loan_free_at W p s s1 a : loan W p s s1 -> free_at s1 a -> free_at s a.
Proof.
  intros Hl (q & Hq & Hin). exists q. rewrite (ln_free _ _ _ _ Hl). split; [apply elem_of_app; by left|done].
Qed.

Lemma loan_mounted (W : Z -> Prop) p s s1 : loan W p s s1 ->
  (forall a, W a -> ~ (group_desc (k_ext2 s) <= a < group_desc (k_ext2 s) + PAGE_SIZE)) ->
  mounted s -> mounted s1.
Proof.
  intros Hl HW [H1 H2 H3 H4 H5 H6 H7 H8 H9]. pose proof (loan_ext2 _ _ _ _ Hl) as E.
  constructor; rewrite ?E; try done; [|rewrite <- H7|apply Hl|apply Hl].
  - intros a Ha Hf. apply (H6 a Ha). by eapply loan_free_at.
  - apply read_bytes_ext. intros a Ha.
    assert (Hp : group_desc (k_ext2 s) <= a < group_desc (k_ext2 s) + PAGE_SIZE)
      by (unfold PAGE_SIZE; unfold small_blocks in H4; lia).
    apply (ln_mem _ _ _ _ Hl); [|by apply H6]. intros Hw. by apply (HW a).
Qed.

(** Two pages that share an address are one. *)
Lemma page_unique p q a : page_ok p -> page_ok q ->
  p <= a < p + PAGE_SIZE -> q <= a < q + PAGE_SIZE -> p = q.
Proof. intros (H1 & H2 & H3) (K1 & K2 & K3) Hp Hq. unfold PAGE_SIZE in *. zlia. Qed.

(** A page on loan is not free. *)
Lemma loan_taken W p s s1 a : loan W p s s1 -> p <= a < p + PAGE_SIZE -> ~ free_at s1 a.
Proof.
  intros Hl Ha (q & Hq & Hin). pose proof (ln_page _ _ _ _ Hl) as Hpg.
  assert (Hqp : page_ok q) by (eapply Forall_forall in Hq; [exact Hq|]; apply (inv_pages _ (ln_pmm _ _ _ _ Hl))).
  rewrite (page_unique q p a) in Hq by done.
  pose proof (inv_nodup _ (ln_pmm0 _ _ _ _ Hl)) as Hn. rewrite (ln_free _ _ _ _ Hl) in Hn.
  apply NoDup_app in Hn as (_ & Hx & _). apply (Hx p Hq). by apply list_elem_of_singleton.
Qed.

(** A page on loan is a buffer for the file system itself. *)
Lemma loan_buffer W p s s1 : loan W p s s1 -> mounted s -> buffer_ok s1 p PAGE_SIZE.
Proof.
  intros Hl Hm. pose proof (ln_page _ _ _ _ Hl) as Hpg. constructor.
  - apply page_window; [done|unfold PAGE_SIZE; lia].
  - unfold PAGE_SIZE. lia.
  - rewrite page_kmap by done. intros a Ha. by eapply loan_taken.
  - rewrite page_kmap, (loan_ext2 _ _ _ _ Hl) by done. intros a Ha Hg. apply (mt_taken _ Hm a Hg). by eapply loan_page_free.
Qed.

(** *** The directory *)

(** The bytes of a directory from offset [off] on, [n] being its size. *)
Definition dir_rest (p n off : Z) s : list Z := read_bytes (Z.to_nat (n - off)) (p + off) (k_mem s).

(** The fields of the entry at that offset. *)
Lemma entry_reads p n off s : page_ok p -> 0 <= off -> off + 8 <= n -> n <= PAGE_SIZE ->
  let l := dir_rest p n off s in let e := u64 (p + off) in
  (8 + Z.to_nat (field 6 1 l) <= length l)%nat ->
  d_inode e s = Ret (field 0 4 l) s /\ d_rec_len e s = Ret (field 4 2 l) s /\
  d_name_len e s = Ret (field 6 1 l) s /\ d_file_type e s = Ret (field 7 1 l) s /\
  copy_in (Z.to_nat (field 6 1 l)) (u64 (e + 8)) s = Ret (take (Z.to_nat (field 6 1 l)) (drop 8 l)) s.
Proof.
  intros Hpg Ho H8 Hn l e Hlen. pose proof Hpg as (P1 & P2 & P3). unfold PAGE_SIZE, PHYS_LIMIT in *.
  assert (Hl : length l = Z.to_nat (n - off)) by apply length_read_bytes.
  assert (He : e = p + off) by (apply u64_small; lia).
  assert (Hk : forall i, 0 <= i < 8 -> kmap (u64 (e + i)) = p + off + i).
  { intros i Hi. rewrite He, u64_small by lia. apply Hident. unfold PHYS_LIMIT. lia. }
  assert (Hf : forall k c, (k + c <= 8)%nat -> field k c l = load_le c (p + off + Z.of_nat k) (k_mem s)).
  { intros k c Hkc. symmetry. apply field_load. lia. }
  assert (H1 : forall a m, load_le 1 a m = mget m a) by (intros a m; unfold load_le; lia).
  unfold d_inode, d_rec_len, d_name_len, d_file_type, rd32, rd8, gets. split_and!.
  - rewrite Hf by lia. rewrite He, Hident, Z.add_0_r by (unfold PHYS_LIMIT; lia). done.
  - rewrite Hk, Hf by lia. done.
  - rewrite Hk, Hf, H1 by lia. done.
  - rewrite Hk, Hf, H1 by lia. done.
  - rewrite He, u64_small by lia. rewrite Hl in Hlen.
    rewrite (copy_in_bytes _ p (p + 4096)); [|apply page_window; [done|unfold PAGE_SIZE; lia]|lia|lia].
    generalize dependent (Z.to_nat (field 6 1 l)). intros c Hlen. do 2 f_equal. unfold l, dir_rest. rewrite read_bytes_drop, read_bytes_take by lia. rewrite page_kmap by done.
    f_equal. lia.
Qed.

(** A record of a well-formed directory, and the rest. *)
Lemma parse_dir_cons k p n off s es : 0 <= off <= n -> parse_dir k (dir_rest p n off s) = Some es ->
  (off = n /\ es = []) \/
  exists k' es', let l := dir_rest p n off s in let r := field 4 2 l in
    es = mkDirent (field 0 4 l) (take (Z.to_nat (field 6 1 l)) (drop 8 l)) (field 7 1 l) :: es' /\
    0 <= field 6 1 l < 256 /\ 8 <= r /\ off + r <= n /\ (8 + Z.to_nat (field 6 1 l) <= length l)%nat /\
    parse_dir k' (dir_rest p n (off + r) s) = Some es'.
Proof.
  intros Ho H. assert (Hl : length (dir_rest p n off s) = Z.to_nat (n - off)) by apply length_read_bytes.
  destruct (decide (off = n)) as [->|Hne].
  { left. split; [done|]. unfold dir_rest in H. rewrite Z.sub_diag in H. cbn [Z.to_nat read_bytes] in H.
    by destruct k; injection H as <-. }
  right. set (l := dir_rest p n off s) in *. destruct k as [|k].
  { exfalso. destruct l; [cbn in Hl; lia|done]. }
  assert (E : parse_dir (S k) l = if decide (8 + Z.to_nat (field 6 1 l) <= Z.to_nat (field 4 2 l) <= length l)%nat then
      es ← parse_dir k (drop (Z.to_nat (field 4 2 l)) l);
      Some (mkDirent (field 0 4 l) (take (Z.to_nat (field 6 1 l)) (drop 8 l)) (field 7 1 l) :: es)
    else None) by (destruct l; [cbn in Hl; lia|done]).
  rewrite E in H. case_decide as Hd; [|done]. apply bind_Some in H as (es' & Hes & H). injection H as <-.
  exists k, es'. cbv zeta. fold l.
  assert (Hb : Forall (fun c => 0 <= c < 256) (take 1 (drop 6 l))) by apply Forall_take, Forall_drop, read_bytes_range.
  assert (H6 : 0 <= field 6 1 l < 256).
  { unfold field. destruct (take 1 (drop 6 l)) as [|c [|c' t]] eqn:Et; cbn [le_value].
    + lia.
    + apply Forall_cons in Hb as [Hb _]. lia.
    + exfalso. assert (Ht : (length (take 1 (drop 6 l)) <= 1)%nat) by (rewrite length_take; lia).
      rewrite Et in Ht. cbn in Ht. lia. }
  split_and!; [done|lia|lia|lia|lia|lia|].
  rewrite <- Hes. f_equal. generalize dependent (field 4 2 l). intros r **. unfold l, dir_rest.
  rewrite read_bytes_drop by lia. f_equal; lia.
Qed.

Lemma find_entry_ok k p n off filename fuel es s :
  page_ok p -> 0 <= off <= n -> n <= PAGE_SIZE -> Forall (fun c => 0 < c < 256) filename ->
  parse_dir k (dir_rest p n off s) = Some es -> (length es < fuel)%nat ->
  find_entry fuel p n off filename s = Ret (dir_lookup es filename) s.
Proof.
  intros Hpg Ho Hn Hfn. revert k off es Ho. induction fuel as [|fuel IH]; intros k off es Ho Hes Hfl; [lia|].
  pose proof (parse_dir_cons _ _ _ _ _ _ Ho Hes) as [(-> & ->)|(k' & es' & -> & Hnl & Hr8 & Hrn & Hlen & Hes')].
  { cbn [find_entry]. by rewrite Z.ltb_irrefl. }
  destruct (entry_reads p n off s Hpg ltac:(lia) ltac:(lia) Hn Hlen) as (E1 & E2 & E3 & _ & E5).
  set (l := dir_rest p n off s) in *. cbn [find_entry length] in *. rewrite (proj2 (Z.ltb_lt off n)) by lia. cbn [negb].
  rewrite (bind_ret _ _ _ _ _ E1). unfold dir_lookup. cbn [List.find de_inode de_name].
  assert (Hrest : (rec_len <- d_rec_len (u64 (p + off)) ;; find_entry fuel p n (u32 (off + rec_len)) filename) s
    = Ret (dir_lookup es' filename) s).
  { rewrite (bind_ret _ _ _ _ _ E2). unfold PAGE_SIZE in Hn. rewrite u32_small by lia. apply (IH k'); [lia|done|lia]. }
  destruct (Z.eqb_spec (field 0 4 l) 0) as [Hz|Hz]; cbn [negb andb]; [exact Hrest|].
  set (name := take (Z.to_nat (field 6 1 l)) (drop 8 l)) in *.
  assert (Hnm : length name = Z.to_nat (field 6 1 l)) by (unfold name; rewrite length_take, length_drop; lia).
  destruct (name_test name filename) as (z & Ez & Et);
    [apply Forall_take, Forall_drop, read_bytes_range|done|].
  erewrite (bind_ret (bind _ _)).
  2:{ rewrite (bind_ret _ _ _ _ _ E3), (bind_ret _ _ _ _ _ E5). rewrite <- Hnm, Ez. cbn [need]. unfold bind, ret. 
      replace (field 6 1 l) with (Z.of_nat (length name)) by lia. rewrite Et. reflexivity. }
  case_bool_decide; [done|exact Hrest].
Qed.

(** What ext2_list_root prints for an entry. *)
Definition list_events (e : dirent) : list conevent :=
  if de_inode e =? 0 then []
  else [CPrint (str "  "); CPrint (de_name e)] ++
       (if de_type e =? EXT2_FT_DIR then [CPrint (str " [DIR]")]
        else if de_type e =? EXT2_FT_REG_FILE then [CPrint (str " [FILE]")] else []) ++
       [CPrint (str " (inode "); CDec (de_inode e); CPrint (str ")" ++ [10])].

Lemma list_entries_ok k p n off fuel es s :
  page_ok p -> 0 <= off <= n -> n <= PAGE_SIZE ->
  parse_dir k (dir_rest p n off s) = Some es -> (length es < fuel)%nat ->
  list_entries fuel p n off s = Ret tt (printed (flat_map list_events es) s).
Proof.
  intros Hpg Ho Hn. revert k off es s Ho. induction fuel as [|fuel IH]; intros k off es s Ho Hes Hfl; [lia|].
  pose proof (parse_dir_cons _ _ _ _ _ _ Ho Hes) as [(-> & ->)|(k' & es' & -> & Hnl & Hr8 & Hrn & Hlen & Hes')].
  { cbn [list_entries flat_map]. by rewrite Z.ltb_irrefl, printed_nil. }
  assert (Hpr : forall l, dir_rest p n off (printed l s) = dir_rest p n off s) by done.
  set (l := dir_rest p n off s) in *. cbn [list_entries length] in *.
  rewrite (proj2 (Z.ltb_lt off n)) by lia. cbn [negb].
  assert (Hent : forall q, let s1 := printed q s in
    d_inode (u64 (p + off)) s1 = Ret (field 0 4 l) s1 /\ d_rec_len (u64 (p + off)) s1 = Ret (field 4 2 l) s1 /\
    d_name_len (u64 (p + off)) s1 = Ret (field 6 1 l) s1 /\ d_file_type (u64 (p + off)) s1 = Ret (field 7 1 l) s1 /\
    copy_in (Z.to_nat (field 6 1 l)) (u64 (u64 (p + off) + 8)) s1
      = Ret (take (Z.to_nat (field 6 1 l)) (drop 8 l)) s1).
  { intros q. apply (entry_reads p n off (printed q s)); [done|lia|lia|done|exact Hlen]. }
  destruct (Hent []) as (E1 & E2 & _). rewrite printed_nil in E1, E2.
  rewrite (bind_ret _ _ _ _ _ E1), (bind_ret _ _ _ _ _ E2).
  set (e := mkDirent (field 0 4 l) (take (Z.to_nat (field 6 1 l)) (drop 8 l)) (field 7 1 l)) in *.
  erewrite (bind_ret _ _ _ tt (printed (list_events e) s)).
  - unfold PAGE_SIZE in Hn. rewrite u32_small by lia. cbn [flat_map]. rewrite <- printed_app.
    apply (IH k'); [lia|exact Hes'|lia].
  - unfold list_events, e. cbn [de_inode de_name de_type].
    destruct (field 0 4 l =? 0); [by rewrite printed_nil|].
    unfold kprint, kprintln, kprint_bytes, kprint_dec.
    rewrite (bind_ret _ _ _ _ _ (con_printed _ s)).
    destruct (Hent [CPrint (str "  ")]) as (_ & _ & E3 & _ & E5).
    rewrite (bind_ret _ _ _ _ _ E3), (bind_ret _ _ _ _ _ E5), (bind_ret _ _ _ _ _ (con_printed _ _)), printed_app.
    edestruct (Hent) as (_ & _ & _ & E4 & _). rewrite (bind_ret _ _ _ _ _ E4).
    destruct (field 7 1 l =? EXT2_FT_DIR); [|destruct (field 7 1 l =? EXT2_FT_REG_FILE)];
      unfold bind; rewrite ?con_printed; unfold ret; rewrite ?con_printed, ?printed_app; done.
Qed.

(** *** Reading and listing *)

Lemma inode_size_nonneg n : 0 <= i_size (fs_inode disk n).
Proof.
  apply le_value_nonneg, Forall_take, Forall_drop, Forall_take, Forall_drop, disk_bytes_range, disk_words.
Qed.

(** A directory read into a page on loan. *)
Lemma loan_read_data (W : Z -> Prop) p s s1 inode :
  loan W p s s1 -> mounted s -> free_list s1 <> [] -> data_ok disk inode -> 0 <= i_size inode ->
  (forall a, W a -> ~ (group_desc (k_ext2 s) <= a < group_desc (k_ext2 s) + PAGE_SIZE)) ->
  wp (ext2_read_inode_data inode p PAGE_SIZE) s1 (fun r s2 =>
    loan W p s s2 /\ 0 <= r <= PAGE_SIZE /\ dir_rest p r 0 s2 = fs_data disk inode PAGE_SIZE).
Proof.
  intros Hl Hm Hne Hd Hsz HW. pose proof (page_kmap p (ln_page _ _ _ _ Hl)) as Ek.
  wp_call (read_inode_data_ok inode p PAGE_SIZE s1);
    [by eapply loan_mounted|done|by eapply loan_buffer|done|done|].
  rewrite Ek. intros r s2 (-> & Hs & Hrd). split_and!.
  - eapply loan_scratch; [done|exact Hs|]. unfold rest_of. rewrite Ek. intros a Ha. right. lia.
  - lia.
  - unfold fs_data. rewrite length_take. unfold PAGE_SIZE. lia.
  - unfold dir_rest. by rewrite Z.sub_0_r, Nat2Z.id, Z.add_0_r.
Qed.

(** A root directory with the entries [es]. *)
Record root_ok (es : list dirent) : Prop := {
  ro_inode : inode_ok disk EXT2_ROOT_INO;
  ro_data : data_ok disk (fs_inode disk EXT2_ROOT_INO);
  ro_entries : dir_entries (fs_data disk (fs_inode disk EXT2_ROOT_INO) PAGE_SIZE) = Some es;
}.

Lemma root_length es : root_ok es -> (length es <= 512)%nat.
Proof.
  intros [_ _ H]. apply parse_dir_length in H. unfold fs_data in H. rewrite length_take in H.
  unfold PAGE_SIZE in H. lia.
Qed.

Definition is_regular (inode : list Z) : bool := Z.land (i_mode inode) 0xF000 =? EXT2_S_IFREG.

(** How ext2_list_root and ext2_read_file begin: the root inode, a page, the
    directory in it, and then [k]. *)
Lemma root_dir_ok {A} (e1 e2 : K A) (e3 : Z -> K A) (k : Z -> Z -> K A) s :
  mounted s -> (2 <= length (free_list s))%nat ->
  inode_ok disk EXT2_ROOT_INO -> data_ok disk (fs_inode disk EXT2_ROOT_INO) ->
  exists p n s', loan (fun _ => False) p s s' /\ 0 <= n <= PAGE_SIZE /\
    dir_rest p n 0 s' = fs_data disk (fs_inode disk EXT2_ROOT_INO) PAGE_SIZE /\
    (r <- ext2_read_inode EXT2_ROOT_INO ;;
     if negb (fst r =? 0) then e1
     else
       dir_data <- pmm_alloc_page ;;
       if dir_data =? 0 then e2
       else
         bytes_read <- ext2_read_inode_data (snd r) dir_data 4096 ;;
         if bytes_read <? 0 then e3 dir_data else k dir_data bytes_read) s = k p n s'.
Proof.
  intros Hm H2 R1 R2. set (W := fun a : Z => False).
  assert (Hne : free_list s <> []) by (intros E; rewrite E in H2; cbn in H2; lia).
  destruct (wp_inv _ _ _ (read_inode_ok s _ Hm Hne R1)) as (r & s1 & E1 & -> & Hs1).
  assert (Hm1 : mounted s1) by (eapply mounted_scratch; [|exact Hs1|done]; done).
  destruct (wp_inv _ _ _ (alloc_loan W s1 (mt_pmm _ Hm1) (mt_device _ Hm1) ltac:(by rewrite (sc_free _ _ _ Hs1))))
    as (p & s2 & E2 & Hp0 & Hl2).
  assert (Hne2 : free_list s2 <> []).
  { intros E. pose proof (f_equal length (ln_free _ _ _ _ Hl2)) as F.
    rewrite (sc_free _ _ _ Hs1), E in F. cbn in F. lia. }
  destruct (wp_inv _ _ _ (loan_read_data W p s1 s2 _ Hl2 Hm1 Hne2 R2 (inode_size_nonneg _) ltac:(done)))
    as (n & s3 & E3 & Hl3 & Hn & Hdir).
  exists p, n, s3. split_and!; [by eapply scratch_loan; [apply Hm|..]|lia|lia|done|].
  rewrite (bind_ret _ _ _ _ _ E1). cbn [fst snd Z.eqb negb]. rewrite (bind_ret _ _ _ _ _ E2).
  rewrite (proj2 (Z.eqb_neq p 0)) by done. rewrite (bind_ret _ _ _ _ _ E3).
  by rewrite (proj2 (Z.ltb_ge n 0)) by lia.
Qed.

Lemma read_file_ok fuel path buffer max es s :
  mounted s -> (2 <= length (free_list s))%nat -> root_ok es -> (512 < fuel)%nat ->
  Forall (fun c => 0 < c < 256) (strip_slash path) -> existsb (fun c => c =? 47) (strip_slash path) = false ->
  buffer_ok s buffer max ->
  let ino := dir_lookup es (strip_slash path) in
  (ino <> 0 -> inode_ok disk ino) -> (ino <> 0 -> is_regular (fs_inode disk ino) = true -> data_ok disk (fs_inode disk ino)) ->
  wp (ext2_read_file fuel path buffer max) s (fun r s' =>
    scratch (rest_of buffer max 0) s s' /\
    if negb (ino =? 0) && is_regular (fs_inode disk ino) then
      let data := fs_data disk (fs_inode disk ino) max in
      r = Z.of_nat (length data) /\ read_bytes (length data) (kmap buffer) (k_mem s') = data
    else r = -1).
Proof.
  intros Hm H2 Hroot Hfu Hch Hsl Hbf ino Hino Hdata. pose proof (root_length _ Hroot) as Hes.
  pose proof Hroot as [R1 R2 R3]. pose proof (mt_ready _ Hm) as Hrdy.
  assert (Hne : free_list s <> []) by (intros E; rewrite E in H2; cbn in H2; lia).
  unfold ext2_read_file, ext2. apply wp_bind, wp_gets. rewrite (proj2 (Z.eqb_neq _ 0)) by exact Hrdy.
  rewrite Hsl. unfold wp at 1.
  edestruct (root_dir_ok (A := Z)) as (p & n & s3 & Hl3 & Hn & Hdir & E); [exact Hm|done|done|done|].
  rewrite E, (u32_small n) by (unfold PAGE_SIZE in Hn; lia). clear E. match goal with |- match ?m s3 with _ => _ end => change (wp m s3 (fun r s' =>
    scratch (rest_of buffer max 0) s s' /\
    if negb (ino =? 0) && is_regular (fs_inode disk ino) then
      let data := fs_data disk (fs_inode disk ino) max in
      r = Z.of_nat (length data) /\ read_bytes (length data) (kmap buffer) (k_mem s') = data
    else r = -1)) end.
  set (W := fun a : Z => False) in *.
  apply wp_bind. eapply wp_eq.
  { eapply (find_entry_ok _ p n 0); [apply Hl3|lia|lia|done|rewrite Hdir; exact R3|lia]. }
  fold ino. apply wp_bind. wp_call loan_return; [exact Hl3|]. intros _ s4 (Hs04 & _).
  assert (Hm4 : mounted s4) by (eapply mounted_scratch; [|exact Hs04|done]; done).
  assert (HW : forall t, scratch W s t -> scratch (rest_of buffer max 0) s t) by (intros t; by apply scratch_mono).
  destruct (Z.eqb_spec ino 0) as [Hz|Hz]; cbn [negb andb].
  { unfold kprint, kprintln, kprint_bytes, con. wp_steps. split; [|done]. apply HW.
    repeat apply scratch_set_con. exact Hs04. }
  apply wp_bind. wp_call (read_inode_ok s4 ino); [done|by rewrite (sc_free _ _ _ Hs04)|by apply Hino|].
  intros r s5 (-> & Hs5). cbn [fst snd Z.eqb negb]. fold (is_regular (fs_inode disk ino)).
  assert (Hs05 : scratch W s s5) by by eapply scratch_trans.
  destruct (is_regular (fs_inode disk ino)) eqn:Hreg; cbn [negb].
  - wp_call (read_inode_data_ok (fs_inode disk ino) buffer max s5);
      [eapply mounted_scratch; [|exact Hs05|done]; done|by rewrite (sc_free _ _ _ Hs05)
      |by eapply buffer_ok_scratch|by apply Hdata|apply inode_size_nonneg|].
    intros r s6 (Hr & Hs6 & Hrd). split; [|done]. eapply scratch_trans; [by apply HW|done].
  - unfold kprintln, con. wp_steps. split; [|done]. by apply HW, scratch_set_con.
Qed.

Lemma loan_printed W p s s1 l : loan W p s s1 -> loan W p s (printed l s1).
Proof.
  intros H. eapply loan_write; [exact H| |done|by destruct s1]. apply (ready_io s1); [done|apply H].
Qed.

Lemma list_root_ok fuel es s :
  mounted s -> (2 <= length (free_list s))%nat -> root_ok es -> (512 < fuel)%nat ->
  wp (ext2_list_root fuel) s (fun _ s' =>
    scratch (fun _ => False) s s' /\
    exists pre, k_con s' = pre ++ flat_map list_events es ++ [CPrint [10]]).
Proof.
  intros Hm H2 Hroot Hfu. pose proof (root_length _ Hroot) as Hes.
  pose proof Hroot as [R1 R2 R3]. pose proof (mt_ready _ Hm) as Hrdy. set (W := fun a : Z => False).
  unfold ext2_list_root, ext2. apply wp_bind, wp_gets. rewrite (proj2 (Z.eqb_neq _ 0)) by exact Hrdy.
  assert (Hs0 : forall f, scratch W s (set_con f s)) by (intros f; apply scratch_con; apply Hm).
  unfold con. apply wp_bind, wp_modify.
  match goal with |- wp _ ?t _ => set (s0 := t); specialize (Hs0 _ : scratch W s s0) end.
  assert (Hm0 : mounted s0) by (eapply mounted_scratch; [|exact Hs0|done]; done).
  unfold wp at 1.
  edestruct (root_dir_ok (A := unit)) as (p & n & s3 & Hl3 & Hn & Hdir & E); [exact Hm0|by rewrite (sc_free _ _ _ Hs0)|done|done|].
  rewrite E, (u32_small n) by (unfold PAGE_SIZE in Hn; lia). clear E. match goal with |- match ?m s3 with _ => _ end => change (wp m s3 (fun _ s' =>
    scratch W s s' /\ exists pre, k_con s' = pre ++ flat_map list_events es ++ [CPrint [10]])) end.
  apply wp_bind. eapply wp_eq.
  { eapply (list_entries_ok _ p n 0); [apply Hl3|lia|lia|rewrite Hdir; exact R3|lia]. }
  apply wp_bind. eapply wp_eq; [apply con_printed|].
  wp_call loan_return; [by do 2 apply loan_printed|]. intros _ s4 (Hs4 & _ & Ec). split; [by eapply scratch_trans|].
  exists (k_con s3). rewrite Ec, printed_app. done.
Qed.

(** *** Mounting *)

Lemma pmm_inv_ext s s' : k_pmm s' = k_pmm s -> hhdm_offset s' = hhdm_offset s -> pmm_inv s -> pmm_inv s'.
Proof.
  intros Ep Eh [H1 H2 H3 H4 H5]. pose proof (free_list_ext s s' Ep) as Ef.
  constructor; rewrite ?Ef, ?Ep; try done. unfold hhdm_ok in *. by rewrite Eh.
Qed.

(** A file system that ext2_init can mount. *)
Record fs_ok : Prop := {
  fo_log : 0 <= s_log_block_size (superblock disk) <= 2;
  fo_groups : s_blocks_per_group (superblock disk) <> 0;
}.

Lemma fs_ok_small : fs_ok -> small_blocks disk.
Proof.
  intros [H _]. unfold small_blocks, fs_block_size.
  assert (Hl : s_log_block_size (superblock disk) = 0 \/ s_log_block_size (superblock disk) = 1 \/
    s_log_block_size (superblock disk) = 2) by lia.
  destruct Hl as [-> | [-> | ->]]; auto.
Qed.

Lemma group_block_ok : small_blocks disk -> block_ok disk (group_block disk).
Proof. intros [H|[H|H]]; unfold block_ok, group_block; rewrite H; split; vm_compute; congruence. Qed.

(** The part of ext2_init after the superblock. *)
Lemma init_groups_ok s : fs_ok -> pmm_inv s -> device_ready s -> free_list s <> [] ->
  sb (k_ext2 s) = superblock disk -> block_size (k_ext2 s) = fs_block_size disk ->
  wp (gd <- pmm_alloc_page ;;
      upd_ext2 (with_group_desc gd) ;;;
      if gd =? 0 then
        kprintln "ext2: Failed to allocate memory for group descriptors" ;;; ret (-1)
      else
        r <- ext2_read_block (group_block disk) gd ;;
        if negb (r =? 0) then
          kprintln "ext2: Failed to read block group descriptor table" ;;;
          pmm_free_page gd ;;;
          upd_ext2 (with_group_desc 0) ;;;
          ret (-1)
        else
          upd_ext2 (with_ready 1) ;;;
          kprintln "ext2: Initialization complete" ;;;
          ret 0) s (fun r s' =>
    r = 0 /\ mounted s' /\ free_list s = free_list s' ++ [group_desc (k_ext2 s')] /\
    (forall a, ~ free_at s a -> mget (k_mem s') a = mget (k_mem s) a)).
Proof.
  intros Hfs Hp Hd Hne Hsb Hbs. pose proof (fs_ok_small Hfs) as Hsm. set (W := fun a : Z => False).
  apply wp_bind. wp_call (alloc_loan W s); [done|done|done|]. intros p s1 (Hp0 & Hl).
  unfold upd_ext2. apply wp_bind, wp_modify. rewrite (proj2 (Z.eqb_neq p 0)) by done. apply wp_bind.
  pose proof (ln_page _ _ _ _ Hl) as Hpg. pose proof (loan_ext2 _ _ _ _ Hl) as E1.
  assert (Hle : 0 <= fs_block_size disk <= PAGE_SIZE) by (unfold PAGE_SIZE; unfold small_blocks in Hsm; lia).
  wp_call (read_block_ok (set_ext2 (with_group_desc p) s1) (group_block disk) p (fs_block_size disk)).
  { apply (ready_io s1); [done|apply Hl]. }
  { done. }
  { cbn. by rewrite E1. }
  { done. }
  { by apply group_block_ok. }
  { by apply page_window. }
  rewrite page_kmap by done. intros r s2 (-> & Hd2 & Hr & Hm & E2). cbn [Z.eqb negb]. unfold kprintln, con. wp_steps.
  assert (Ef : free_list s2 = free_list s1) by (apply free_list_ext; by rewrite E2).
  assert (Ex : k_ext2 s2 = with_group_desc p (k_ext2 s)) by (rewrite E2; cbn; by rewrite E1).
  split_and!; [done| | |].
  - constructor; cbn [k_ext2 set_con set_ext2 k_mem]; rewrite ?Ex; cbn [with_group_desc with_ready ext2_ready sb block_size group_desc];
      try done.
    + intros a Ha (q & Hq & Hin). apply (loan_taken _ _ _ _ a Hl Ha). exists q. split; [|done]. by rewrite <- Ef.
    + by apply (ready_io s2).
    + eapply (pmm_inv_ext s1); [by rewrite E2|by rewrite E2|apply Hl].
  - change (free_list s = free_list s2 ++ [group_desc (k_ext2 s2)]). rewrite Ex, Ef. apply Hl.
  - intros a Ha. cbn [k_mem set_con set_ext2]. rewrite Hm; [apply (ln_mem _ _ _ _ Hl a); [by intros []|done]|]. intros Hin. apply Ha.
    eapply loan_page_free; [exact Hl|]. lia.
Qed.

Lemma init_ok sb_buffer s : pmm_inv s -> device_ready s -> free_list s <> [] ->
  window_ok sb_buffer (sb_buffer + 1024) -> (s_magic (superblock disk) = EXT2_MAGIC -> fs_ok) ->
  wp (ext2_init sb_buffer) s (fun r s' =>
    (if s_magic (superblock disk) =? EXT2_MAGIC then
       r = 0 /\ mounted s' /\ free_list s = free_list s' ++ [group_desc (k_ext2 s')]
     else r = -1 /\ ext2_ready (k_ext2 s') = ext2_ready (k_ext2 s) /\ free_list s' = free_list s) /\
    (forall a, ~ free_at s a -> ~ (kmap sb_buffer <= a < kmap sb_buffer + 1024) -> mget (k_mem s') a = mget (k_mem s) a)).
Proof.
  intros Hp Hd Hne Hw Hfs. unfold ext2_init, kprintln, con. apply wp_bind, wp_modify.
  set (s1 := set_con _ s). apply wp_bind.
  wp_call (device_read s1 2 2 sb_buffer); [by apply (ready_io s)|lia|lia|lia|done|].
  intros r s2 (-> & Hd2 & Hr2 & Hm2 & E2). cbn [Z.eqb negb]. apply wp_bind.
  assert (Hr : copy_in (Z.to_nat SUPERBLOCK_SIZE) sb_buffer s2 = Ret (superblock disk) s2).
  { rewrite (copy_in_bytes _ sb_buffer (sb_buffer + 1024)); [|done|lia|unfold SUPERBLOCK_SIZE; lia].
    change (Z.to_nat SUPERBLOCK_SIZE) with (Z.to_nat (512 * 2)).
    rewrite Z.sub_diag, Z.add_0_r, Hr2. done. }
  eapply wp_eq; [exact Hr|]. unfold upd_ext2. apply wp_bind, wp_modify.
  assert (Hp2 : k_pmm s2 = k_pmm s) by by rewrite E2.
  destruct (Z.eqb_spec (s_magic (superblock disk)) EXT2_MAGIC) as [Hmg|Hmg]; cbn [negb].
  2:{ unfold kprint, kprint_hex, con. wp_steps. split; [split_and!; [done|by rewrite E2|by apply free_list_ext]|].
      intros a _ Ha. cbn [k_mem set_con set_ext2]. by apply Hm2. }
  specialize (Hfs Hmg). pose proof Hfs as [F1 F2]. unfold block_size_of at 1. rewrite (proj2 (Z.ltb_lt _ 21)) by lia.
  apply wp_bind, wp_ret. fold (fs_block_size disk). apply wp_bind, wp_modify, wp_bind, wp_gets, wp_bind.
  unfold ext2_report, kprintln, kprint, kprint_dec, con. wp_steps. unfold udiv. rewrite (proj2 (Z.eqb_neq _ 0)) by done.
  apply wp_ret. fold (group_block disk).
  match goal with |- wp _ ?t _ => set (s3 := t) end.
  assert (Hp3 : k_pmm s3 = k_pmm s) by done.
  assert (Hh3 : hhdm_offset s3 = hhdm_offset s) by (change (hhdm_offset s2 = hhdm_offset s); by rewrite E2).
  assert (Hf3 : free_list s3 = free_list s) by by apply free_list_ext.
  wp_call (init_groups_ok s3); [done|by eapply pmm_inv_ext|by apply (ready_io s2)|by rewrite Hf3|done|done|].
  intros r s4 (-> & Hmt & Hfl & Hm4). rewrite Hf3 in Hfl. split; [done|]. intros a Ha Hb.
  rewrite Hm4; [by apply Hm2|]. unfold free_at. by rewrite Hf3.
Qed.

(** *** A record of length 0 *)

Lemma zero_record_loops p n filename fuel s :
  page_ok p -> n <= PAGE_SIZE -> let l := dir_rest p n 0 s in
  (8 + Z.to_nat (field 6 1 l) <= length l)%nat -> field 0 4 l = 0 -> field 4 2 l = 0 ->
  find_entry fuel p n 0 filename s = NoFuel s /\ list_entries fuel p n 0 s = NoFuel s.
Proof.
  intros Hpg Hn l Hlen Hino Hrec.
  assert (H8 : 8 <= n) by (unfold l, dir_rest in Hlen; rewrite length_read_bytes in Hlen; lia).
  destruct (entry_reads p n 0 s Hpg ltac:(lia) ltac:(lia) Hn Hlen) as (E1 & E2 & _). fold l in E1, E2.
  rewrite Hino in E1. rewrite Hrec in E2.
  induction fuel as [|fuel [IH1 IH2]]; [done|]. cbn [find_entry list_entries].
  rewrite (proj2 (Z.ltb_lt 0 n)) by lia. cbn [negb].
  rewrite !(bind_ret _ _ _ _ _ E1). cbn [Z.eqb]. unfold ret at 1, bind at 1. rewrite !(bind_ret _ _ _ _ _ E2).
  split; [exact IH1|exact IH2].
Qed.
End operations.
