(* ===== verification/Ext2Properties.v ===== *)
(** * The ext2 file system: properties

    Mounting, reading a file, listing the root directory, what is refused and what
    does not end, each applied to a small file system on the simulated drive. *)
From S2P Require Import Prelude Memory State Demo Pmm Cpu Ata Ext2 Ext2Theorems.

(** ** A file system on the simulated drive

    1 KiB blocks, one group, inode table at block 5; the root directory (block 10)
    has the entries "." and "init", the latter a file of five bytes (block 11). *)

Definition le_bytes (n : nat) (v : Z) : list Z := (fun i => v / 256 ^ i mod 256) <$> seqZ 0 (Z.of_nat n).

(** A disk given by the bytes at some addresses, zero elsewhere. *)
Definition image_byte (segs : list (Z * list Z)) (a : Z) : Z :=
  u8 (default 0 (list_find (fun g => fst g <= a < fst g + Z.of_nat (length (snd g))) segs ≫=
    fun g => snd (snd g) !! Z.to_nat (a - fst (snd g)))).
Definition image_of (segs : list (Z * list Z)) (i : Z) : list Z :=
  (fun k => image_byte segs (512 * i + 2 * k) + 256 * image_byte segs (512 * i + 2 * k + 1)) <$> seqZ 0 256.

Lemma image_of_ok segs i : length (image_of segs i) = 256%nat /\ Forall (fun w => 0 <= w < 65536) (image_of segs i).
Proof.
  split; [unfold image_of; by rewrite length_fmap, length_seqZ|]. apply Forall_fmap, Forall_forall. intros k _. cbn.
  pose proof (u8_range (default 0 (list_find (fun g => fst g <= 512 * i + 2 * k < fst g + Z.of_nat (length (snd g))) segs ≫=
    fun g => snd (snd g) !! Z.to_nat (512 * i + 2 * k - fst (snd g))))).
  pose proof (u8_range (default 0 (list_find (fun g => fst g <= 512 * i + 2 * k + 1 < fst g + Z.of_nat (length (snd g))) segs ≫=
    fun g => snd (snd g) !! Z.to_nat (512 * i + 2 * k + 1 - fst (snd g))))).
  unfold image_byte. lia.
Qed.

Definition demo_segs (dir : list Z) : list (Z * list Z) :=
  [(1024, le_bytes 4 16 ++ le_bytes 4 64); (* inodes, blocks *)
   (1024 + 32, le_bytes 4 8192); (1024 + 40, le_bytes 4 16); (* per group *)
   (1024 + 56, [0x53; 0xEF]);
   (2048 + 8, le_bytes 4 5); (* inode table *)
   (5120 + 128, le_bytes 2 0x41ED); (5120 + 132, le_bytes 4 1024); (5120 + 168, le_bytes 4 10); (* inode 2 *)
   (6144 + 256, le_bytes 2 0x81A4); (6144 + 260, le_bytes 4 5); (6144 + 296, le_bytes 4 11); (* inode 11 *)
   (10240, dir);
   (11264, str "hello")].
Definition demo_dir : list Z :=
  le_bytes 4 2 ++ le_bytes 2 12 ++ [1; 2] ++ str "." ++ [0; 0; 0] ++
  le_bytes 4 11 ++ le_bytes 2 1012 ++ [4; 1] ++ str "init".

Definition demo_fs_image : Z -> list Z := image_of (demo_segs demo_dir).
Definition loop_fs_image : Z -> list Z := image_of (demo_segs (replicate 8 0)).

Definition demo_device (segs : list (Z * list Z)) : @BlockDevice (demo_disk (image_of segs)) :=
  @ata_block_device (demo_disk (image_of segs)) (sim_drive (image_of segs) (image_of_ok segs)).

(** The machine with that file system mounted, the group descriptors at 2 MiB. *)
Definition mounted_on (s : kstate) (image : Z -> list Z) : kstate :=
  set_ext2 (fun _ => mkExt2 (superblock image) 0x200000 1024 1)
    (set_mem (fun _ => write_bytes (blk image 1024 2) 0x200000 ∅) s).
Definition demo_mounted : (Z -> list Z) -> kstate := mounted_on demo_pmm.

Lemma demo_free_low a : free_at demo_pmm a -> a < 0x110000.
Proof.
  intros (p & Hp & Ha).
  assert (Hl : Forall (fun p => p < 0x110000) (free_list demo_pmm)).
  { apply (bool_decide_unpack _). vm_compute. reflexivity. }
  rewrite Forall_forall in Hl. specialize (Hl p Hp). cbv beta in Hl.
  pose proof (inv_pages _ demo_pmm_inv) as Hpg. rewrite Forall_forall in Hpg. destruct (Hpg p Hp) as (H1 & _).
  unfold PAGE_SIZE in *. zlia.
Qed.

Lemma demo_pmm_io : k_io demo_pmm = [].
Proof. vm_compute. reflexivity. Qed.
#[local] Opaque demo_pmm.

Section demo.
Context (segs : list (Z * list Z)).
#[local] Existing Instance demo_device.

Lemma demo_identity : @identity_mapped (demo_disk (image_of segs)).
Proof.
  intros x Hx. unfold PHYS_LIMIT in Hx. cbn [kmap demo_disk]. unfold demo_kmap, demo_hhdm.
  by rewrite (proj2 (Z.leb_gt _ x)) by lia.
Qed.

Lemma demo_ready s : k_io s = [] -> @device_ready _ (demo_device segs) s.
Proof. intros E. exists 0%nat. split; [exact polls_positive|]. split; [done|]. by rewrite E. Qed.

Lemma demo_disk_pmm_inv : @pmm_inv (demo_disk (image_of segs)) demo_pmm.
Proof. destruct demo_pmm_inv as [H1 H2 H3 H4 H5]. constructor; [exact H1|exact H2|exact H3|exact H4|exact H5]. Qed.

Lemma mounted_on_ok s :
  k_io s = [] -> (forall a, free_at s a -> a < 0x110000) -> @pmm_inv (demo_disk (image_of segs)) s ->
  fs_block_size (image_of segs) = 1024 ->
  bool_decide (read_bytes 1024 0x200000 (k_mem (mounted_on s (image_of segs))) = blk (image_of segs) 1024 2) = true ->
  @mounted _ (demo_device segs) (mounted_on s (image_of segs)).
Proof.
  intros Hio Hlow Hinv Hbs Hg. apply bool_decide_eq_true in Hg. constructor.
  - discriminate.
  - reflexivity.
  - symmetry. exact Hbs.
  - left. exact Hbs.
  - change (page_ok 0x200000). unfold page_ok, PHYS_LIMIT, PAGE_SIZE. split; [reflexivity|lia].
  - change (group_desc _) with 0x200000. intros a Ha Hf. pose proof (Hlow a Hf). lia.
  - change (@disk _ (demo_device segs)) with (image_of segs). unfold group_block. rewrite Hbs. exact Hg.
  - by apply demo_ready.
  - by apply (pmm_inv_ext s).
Qed.

(** A buffer above the free pages and the group descriptors. *)
Lemma buffer_on_ok s cap : (forall a, free_at s a -> a < 0x110000) -> 0 <= cap <= 0x100000 ->
  @buffer_ok (demo_disk (image_of segs)) (mounted_on s (image_of segs)) 0x300000 cap.
Proof.
  intros Hlow Hc. assert (Hk : forall x, 0 <= x < 0x100000000000 -> demo_kmap x = x).
  { intros x Hx. unfold demo_kmap, demo_hhdm. by rewrite (proj2 (Z.leb_gt _ x)) by lia. }
  constructor; [|lia| |].
  - split_and!; [lia|lia|]. intros x Hx. cbn [kmap demo_disk]. rewrite !Hk by lia. lia.
  - cbn [kmap demo_disk]. rewrite Hk by lia. intros a Ha Hf. pose proof (Hlow a Hf). lia.
  - change (group_desc _) with 0x200000. cbn [kmap demo_disk]. rewrite Hk by lia. unfold PAGE_SIZE. lia.
Qed.

(** The layout conditions, by evaluation. *)
Definition block_okb (image : Z -> list Z) (b : Z) : bool :=
  (0 <=? b) && ((b + 1) * fs_block_size image <=? 4294967296).
Definition inode_okb (image : Z -> list Z) (n : Z) : bool :=
  (0 <? n) && (n <? 4294967296) && (0 <? s_inodes_per_group (superblock image)) &&
  (32 * ((n - 1) / s_inodes_per_group (superblock image)) + 12 <=? fs_block_size image) &&
  (inode_offset image n <? 4294967296) &&
  (inode_offset image n mod fs_block_size image + 128 <=? fs_block_size image) &&
  block_okb image (inode_block image n).
Definition data_okb (image : Z -> list Z) (inode : list Z) : bool :=
  forallb (fun i => (i_block i inode =? 0) || block_okb image (i_block i inode)) (seq 0 12).

Lemma block_okb_ok image b : block_okb image b = true -> block_ok image b.
Proof. unfold block_okb, block_ok. rewrite andb_true_iff, !Z.leb_le. done. Qed.
Lemma inode_okb_ok image n : inode_okb image n = true -> inode_ok image n.
Proof.
  unfold inode_okb. rewrite !andb_true_iff, !Z.leb_le, !Z.ltb_lt.
  intros [[[[[[H1 H2] H3] H4] H5] H6] H7%block_okb_ok]. by constructor.
Qed.
Lemma data_okb_ok image inode : data_okb image inode = true -> data_ok image inode.
Proof.
  unfold data_okb, data_ok. rewrite forallb_forall. intros H i Hi Hne.
  specialize (H i ltac:(apply in_seq; lia)). apply orb_true_iff in H as [H|H]; [by apply Z.eqb_eq in H|].
  by apply block_okb_ok.
Qed.
End demo.

(** ** Properties *)

(** C15: ext2_init on a disk whose superblock has the ext2 magic number mounts it: it
    returns 0, the superblock and the block size are those of the disk, the group
    descriptors are in a page taken from the allocator, and nothing outside that page
    and the local buffer was written; with any other magic number it returns -1, takes
    no page and does not become ready. *)
Theorem ext2_init_correct {P : Platform} {B : BlockDevice} (sb_buffer : Z) (s : kstate) :
  identity_mapped -> pmm_inv s -> device_ready s -> free_list s <> [] ->
  window_ok sb_buffer (sb_buffer + 1024) -> (s_magic (superblock disk) = EXT2_MAGIC -> fs_ok) ->
  wp (ext2_init sb_buffer) s (fun r s' =>
    (if s_magic (superblock disk) =? EXT2_MAGIC then
       r = 0 /\ mounted s' /\ free_list s = free_list s' ++ [group_desc (k_ext2 s')]
     else r = -1 /\ ext2_ready (k_ext2 s') = ext2_ready (k_ext2 s) /\ free_list s' = free_list s) /\
    (forall a, ~ free_at s a -> ~ (kmap sb_buffer <= a < kmap sb_buffer + 1024) -> mget (k_mem s') a = mget (k_mem s) a)).
Proof. intros. by apply init_ok. Qed.

(** C3: ext2_read_file on a mounted file system: if the root directory has an entry of
    that name for a regular file, it returns the number of bytes read, and the buffer
    holds exactly the first [max_size] bytes of the file's direct blocks; if there is
    no such entry or it is not a regular file it returns -1.  In every case all pages
    taken on the way are free again and nothing but the buffer, the console and the
    ports has changed.  513 rounds are enough for any directory of one page. *)
Theorem ext2_read_file_correct {P : Platform} {B : BlockDevice} (fuel : nat) (path : list Z) (buffer max_size : Z)
    (es : list dirent) (s : kstate) :
  identity_mapped -> mounted s -> (2 <= length (free_list s))%nat -> root_ok es -> (512 < fuel)%nat ->
  Forall (fun c => 0 < c < 256) (strip_slash path) -> existsb (fun c => c =? 47) (strip_slash path) = false ->
  buffer_ok s buffer max_size ->
  let ino := dir_lookup es (strip_slash path) in
  (ino <> 0 -> inode_ok disk ino) -> (ino <> 0 -> is_regular (fs_inode disk ino) = true -> data_ok disk (fs_inode disk ino)) ->
  wp (ext2_read_file fuel path buffer max_size) s (fun r s' =>
    scratch (rest_of buffer max_size 0) s s' /\
    if negb (ino =? 0) && is_regular (fs_inode disk ino) then
      let data := fs_data disk (fs_inode disk ino) max_size in
      r = Z.of_nat (length data) /\ read_bytes (length data) (kmap buffer) (k_mem s') = data
    else r = -1).
Proof. intros. by apply read_file_ok. Qed.

(** C29: ext2_list_root prints, for each entry in use of the root directory and in their
    order, its name, its kind and its inode number, and a final newline; it gives back
    every page it took and changes nothing but the console and the ports. *)
Theorem ext2_list_root_correct {P : Platform} {B : BlockDevice} (fuel : nat) (es : list dirent) (s : kstate) :
  identity_mapped -> mounted s -> (2 <= length (free_list s))%nat -> root_ok es -> (512 < fuel)%nat ->
  wp (ext2_list_root fuel) s (fun _ s' =>
    scratch (fun _ => False) s s' /\
    exists pre, k_con s' = pre ++ flat_map list_events es ++ [CPrint [10]]).
Proof. intros. by apply list_root_ok. Qed.

(** ext2_read_file refuses what it does not support before it touches the disk: an
    unmounted file system and a path with a directory in it give -1, and only a
    message was printed. *)
Theorem ext2_read_file_refuses {P : Platform} (fuel : nat) (path : list Z) (buffer max_size : Z) (s : kstate) :
  ext2_ready (k_ext2 s) = 0 \/ existsb (fun c => c =? 47) (strip_slash path) = true ->
  exists msg, ext2_read_file fuel path buffer max_size s = Ret (-1) (printed [CPrint msg] s).
Proof.
  intros H. unfold ext2_read_file, ext2, bind, gets.
  destruct (Z.eqb_spec (ext2_ready (k_ext2 s)) 0) as [Hz|Hz]; [by eexists|].
  destruct H as [H|H]; [done|]. rewrite H. by eexists.
Qed.

(** C30: A directory record of length 0 stops neither loop: if the root directory starts
    with an unused record whose length is 0, ext2_list_root and ext2_read_file do not
    return, whatever the number of rounds. *)
Theorem ext2_zero_record_hangs {P : Platform} {B : BlockDevice} (fuel : nat) (path : list Z) (buffer max_size : Z)
    (s : kstate) :
  identity_mapped -> mounted s -> (2 <= length (free_list s))%nat ->
  inode_ok disk EXT2_ROOT_INO -> data_ok disk (fs_inode disk EXT2_ROOT_INO) ->
  existsb (fun c => c =? 47) (strip_slash path) = false ->
  let l := fs_data disk (fs_inode disk EXT2_ROOT_INO) PAGE_SIZE in
  (8 + Z.to_nat (field 6 1 l) <= length l)%nat -> field 0 4 l = 0 -> field 4 2 l = 0 ->
  (exists s', ext2_read_file fuel path buffer max_size s = NoFuel s') /\
  (exists s', ext2_list_root fuel s = NoFuel s').
Proof.
  intros Hid Hm H2 R1 R2 Hsl l Hlen Hino Hrec. pose proof (mt_ready _ Hm) as Hrdy. split.
  - unfold ext2_read_file, ext2. unfold bind at 1, gets. rewrite (proj2 (Z.eqb_neq _ 0)) by exact Hrdy. rewrite Hsl.
    edestruct (root_dir_ok Hid (A := Z)) as (p & n & s3 & Hl3 & Hn & Hdir & E); [exact Hm|done|done|done|].
    rewrite E, (u32_small n) by (unfold PAGE_SIZE in Hn; lia). fold l in Hdir. rewrite <- Hdir in Hlen, Hino, Hrec.
    destruct (zero_record_loops Hid p n (strip_slash path) fuel s3) as (Hf & _); [apply Hl3|lia|done|done|done|].
    unfold bind at 1. rewrite Hf. by eexists.
  - unfold ext2_list_root, ext2. unfold bind at 1, gets. rewrite (proj2 (Z.eqb_neq _ 0)) by exact Hrdy.
    rewrite (bind_ret _ _ _ _ _ (con_printed _ _)).
    match goal with |- context [printed ?m s] => set (s0 := printed m s) end.
    assert (Hs0 : scratch (fun _ => False) s s0) by (apply scratch_con; apply Hm).
    assert (Hm0 : mounted s0) by (eapply mounted_scratch; [|exact Hs0|done]; done).
    edestruct (root_dir_ok Hid (A := unit)) as (p & n & s3 & Hl3 & Hn & Hdir & E); [exact Hm0|by rewrite (sc_free _ _ _ Hs0)|done|done|].
    rewrite E, (u32_small n) by (unfold PAGE_SIZE in Hn; lia). fold l in Hdir. rewrite <- Hdir in Hlen, Hino, Hrec.
    destruct (zero_record_loops Hid p n [] fuel s3) as (_ & Hf); [apply Hl3|lia|done|done|done|].
    unfold bind at 1. rewrite Hf. by eexists.
Qed.

(** *** Witnesses *)

Lemma ext2_init_correct_witness :
  let P := demo_disk (image_of (demo_segs demo_dir)) in
  wp (@ext2_init P 0x300000) demo_pmm (fun r s' => r = 0 /\ @mounted P (demo_device (demo_segs demo_dir)) s').
Proof.
  intros P.
  refine (wp_mono _ _ _ _ (@ext2_init_correct P (demo_device (demo_segs demo_dir)) 0x300000 demo_pmm
    (demo_identity _) (demo_disk_pmm_inv _) (demo_ready _ _ demo_pmm_io) _ _ _) _).
  - vm_compute. discriminate.
  - exact (bf_window _ _ _ (buffer_on_ok (demo_segs demo_dir) demo_pmm 1024 demo_free_low ltac:(lia))).
  - intros _. constructor; vm_compute; [split|]; discriminate.
  - intros r s' [H _]. change (s_magic _ =? EXT2_MAGIC) with true in H. destruct H as (H1 & H2 & _). split; [exact H1|exact H2].
Defined.

(** The two file systems mounted. *)
Lemma demo_mounted_ok : @mounted _ (demo_device (demo_segs demo_dir)) (demo_mounted demo_fs_image).
Proof.
  apply (mounted_on_ok (demo_segs demo_dir) demo_pmm demo_pmm_io demo_free_low (demo_disk_pmm_inv _));
    vm_compute; reflexivity.
Qed.
Lemma loop_mounted_ok : @mounted _ (demo_device (demo_segs (replicate 8 0))) (demo_mounted loop_fs_image).
Proof.
  apply (mounted_on_ok (demo_segs (replicate 8 0)) demo_pmm demo_pmm_io demo_free_low (demo_disk_pmm_inv _));
    vm_compute; reflexivity.
Qed.

Definition demo_entries : list dirent := [mkDirent 2 (str ".") 2; mkDirent 11 (str "init") 1].
Lemma demo_root_ok : @root_ok _ (demo_device (demo_segs demo_dir)) demo_entries.
Proof.
  constructor; [apply inode_okb_ok|apply data_okb_ok|]; vm_compute; reflexivity.
Qed.
Lemma mounted_on_free s image : free_list (mounted_on s image) = free_list s.
Proof. done. Qed.
Lemma demo_two_pages image : (2 <= length (free_list (demo_mounted image)))%nat.
Proof. unfold demo_mounted. rewrite mounted_on_free. vm_compute. lia. Qed.

Lemma ext2_read_file_correct_witness :
  wp (@ext2_read_file (demo_disk demo_fs_image) 513 (str "/init") 0x300000 4096) (demo_mounted demo_fs_image) (fun r s' =>
    r = 5 /\ read_bytes 5 0x300000 (k_mem s') = str "hello" /\ free_list s' = free_list (demo_mounted demo_fs_image)).
Proof.
  refine (wp_mono _ _ _ _ (@ext2_read_file_correct (demo_disk demo_fs_image) (demo_device (demo_segs demo_dir))
    513 (str "/init") 0x300000 4096 demo_entries (demo_mounted demo_fs_image) (demo_identity _) demo_mounted_ok
    (demo_two_pages _) demo_root_ok _ _ _ (buffer_on_ok (demo_segs demo_dir) demo_pmm 4096 demo_free_low _) _ _) _).
  - lia.
  - vm_compute. repeat constructor.
  - reflexivity.
  - lia.
  - intros _. apply inode_okb_ok. vm_compute. reflexivity.
  - intros _ _. apply data_okb_ok. vm_compute. reflexivity.
  - intros r s' [Hs H].
    assert (Hc : negb (dir_lookup demo_entries (strip_slash (str "/init")) =? 0) &&
      is_regular (fs_inode demo_fs_image (dir_lookup demo_entries (strip_slash (str "/init")))) = true)
      by (vm_compute; reflexivity).
    assert (Hd : fs_data demo_fs_image (fs_inode demo_fs_image (dir_lookup demo_entries (strip_slash (str "/init")))) 4096
      = str "hello") by (vm_compute; reflexivity).
    change (@disk _ (demo_device (demo_segs demo_dir))) with demo_fs_image in H. rewrite Hc in H. cbv zeta in H.
    rewrite Hd in H. destruct H as [Hr Hb]. split; [exact Hr|]. split; [exact Hb|]. exact (sc_free _ _ _ Hs).
Defined.

Lemma ext2_list_root_correct_witness :
  wp (@ext2_list_root (demo_disk demo_fs_image) 513) (demo_mounted demo_fs_image) (fun _ s' =>
    exists pre, k_con s' = pre ++ flat_map list_events demo_entries ++ [CPrint [10]]).
Proof.
  refine (wp_mono _ _ _ _ (@ext2_list_root_correct (demo_disk demo_fs_image) (demo_device (demo_segs demo_dir))
    513 demo_entries (demo_mounted demo_fs_image) (demo_identity _) demo_mounted_ok (demo_two_pages _) demo_root_ok _) _).
  - lia.
  - intros r s' [_ H]. exact H.
Defined.

Lemma ext2_read_file_refuses_witness :
  exists msg, @ext2_read_file demo 1 (str "/dir/file") 0x300000 4096 demo_boot = Ret (-1) (printed [CPrint msg] demo_boot).
Proof. apply (@ext2_read_file_refuses demo). left. reflexivity. Defined.

Lemma ext2_zero_record_hangs_witness :
  exists s', @ext2_list_root (demo_disk loop_fs_image) 1000 (demo_mounted loop_fs_image) = NoFuel s'.
Proof.
  refine (proj2 (@ext2_zero_record_hangs (demo_disk loop_fs_image) (demo_device (demo_segs (replicate 8 0)))
    1000 (str "init") 0x300000 4096 (demo_mounted loop_fs_image) (demo_identity _) loop_mounted_ok (demo_two_pages _)
    _ _ _ _ _ _)).
  - apply inode_okb_ok. vm_compute. reflexivity.
  - apply data_okb_ok. vm_compute. reflexivity.
  - reflexivity.
  - vm_compute. lia.
  - vm_compute. reflexivity.
  - vm_compute. reflexivity.
Defined.
