(* ===== verification/Limine.v ===== *)
(** * Boot information (kernel/limine.c)

    The responses of the boot loader are parameters of the model ([Platform]); a
    NULL response pointer is [None]. *)
From S2P Require Import Prelude Memory State Demo Pmm.

Section limine.
Context {P : Platform}.

Definition report_framebuffer : K unit :=
  match lim_framebuffers with
  | Some (fb :: _) =>
      kprint "  Framebuffer: " ;;;
      kprint_dec (fb_width fb) ;;;
      kprint "x" ;;;
      kprint_dec (fb_height fb) ;;;
      kprint "x" ;;;
      kprint_dec (fb_bpp fb) ;;;
      kprint " @ " ;;;
      kprint_hex (fb_address fb) ;;;
      kprintln ""
  | _ => kprintln "  Framebuffer: Not available"
  end.

(** The loop over the memory map: the first five entries, [i] counting up. *)
Fixpoint report_entries (n : nat) (i : Z) (l : list memmap_entry) : K unit :=
  match n, l with
  | S n, entry :: l =>
      kprint "    [" ;;;
      kprint_dec i ;;;
      kprint "] Base: " ;;;
      kprint_hex (mm_base entry) ;;;
      kprint ", Length: " ;;;
      kprint_hex (mm_length entry) ;;;
      kprint ", Type: " ;;;
      kprint_dec (mm_type entry) ;;;
      kprintln "" ;;;
      report_entries n (i + 1) l
  | _, _ => ret tt
  end.

Definition report_memmap : K unit :=
  match lim_memmap with
  | Some entries =>
      let entry_count := Z.of_nat (length entries) in
      kprint "  Memory map: " ;;;
      kprint_dec entry_count ;;;
      kprintln " entries" ;;;
      report_entries 5 0 entries ;;;
      (when entry_count >? 5 do
        (kprint "    ... (" ;;;
         kprint_dec (entry_count - 5) ;;;
         kprintln " more entries)"))
  | None => kprintln "  Memory map: Not available"
  end.

Definition limine_parse_info : K unit :=
  report_framebuffer ;;;
  report_memmap ;;;
  match lim_hhdm with
  | Some offset =>
      modify (set_hhdm_offset (fun _ => offset)) ;;;
      kprint "  HHDM offset: " ;;;
      kprint_hex offset ;;;
      kprintln ""
  | None => kprintln "  HHDM: Not available"
  end ;;;
  match lim_executable with
  | Some (physical_base, virtual_base) =>
      kprint "  Executable physical base: " ;;;
      kprint_hex physical_base ;;;
      kprintln "" ;;;
      kprint "  Executable virtual base: " ;;;
      kprint_hex virtual_base ;;;
      kprintln ""
  | None => kprintln "  Executable address: Not available"
  end.

(** ** The direct map *)

(** Only the console differs. *)
Definition con_frame (s s' : kstate) : Prop := s' = set_con (fun _ => k_con s') s.
Lemma con_frame_refl s : con_frame s s.
Proof. by destruct s. Qed.
Lemma con_frame_trans s1 s2 s3 : con_frame s1 s2 -> con_frame s2 s3 -> con_frame s1 s3.
Proof. unfold con_frame. intros H1 H2. rewrite H2, H1. done. Qed.

(** A computation that only prints. *)
Definition prints {A} (m : K A) : Prop := forall s, wp m s (fun _ s' => con_frame s s').
Lemma prints_con e : prints (con e).
Proof. intros s. apply wp_modify. by destruct s. Qed.
Lemma prints_ret {A} (a : A) : prints (ret a).
Proof. intros s. apply wp_ret, con_frame_refl. Qed.
Lemma prints_bind {A B} (m : K A) (k : A -> K B) : prints m -> (forall a, prints (k a)) -> prints (bind m k).
Proof.
  intros Hm Hk s. apply wp_bind. eapply wp_mono; [apply Hm|]. intros a s1 H1.
  eapply wp_mono; [apply Hk|]. intros b s2 H2. exact (con_frame_trans _ _ _ H1 H2).
Qed.
End limine.
#[export] Hint Resolve prints_con prints_ret prints_bind : kernel.

Section parse.
Context {P : Platform}.

Lemma prints_framebuffer : prints report_framebuffer.
Proof. unfold report_framebuffer. destruct lim_framebuffers as [[|fb l]|]; repeat (apply prints_bind; intros); apply prints_con. Qed.
Lemma prints_entries n i l : prints (report_entries n i l).
Proof.
  revert i l. induction n as [|n IH]; intros i [|e l]; cbn [report_entries]; try apply prints_ret.
  repeat (apply prints_bind; intros); apply prints_con || apply IH.
Qed.
Lemma prints_memmap : prints report_memmap.
Proof.
  unfold report_memmap. destruct lim_memmap as [l|]; [|apply prints_con].
  repeat (apply prints_bind; [|intros _]); try apply prints_con; [apply prints_entries|].
  destruct (_ >? 5); [|apply prints_ret]. repeat (apply prints_bind; intros); apply prints_con.
Qed.

Lemma parse_info_ok s :
  wp limine_parse_info s (fun _ s' =>
    s' = set_con (fun _ => k_con s') (set_hhdm_offset (fun h => default h lim_hhdm) s)).
Proof.
  unfold limine_parse_info. apply wp_bind. eapply wp_mono; [apply prints_framebuffer|]. intros u1 s1 H1.
  apply wp_bind. eapply wp_mono; [apply prints_memmap|]. intros u2 s2 H2.
  pose proof (con_frame_trans _ _ _ H1 H2) as H. clear H1 H2. apply wp_bind.
  apply (wp_mono _ _ (fun _ s3 => s3 = set_con (fun _ => k_con s3) (set_hhdm_offset (fun h => default h lim_hhdm) s))).
  { unfold con_frame in H. destruct lim_hhdm as [o|]; cbn [default].
    - unfold kprint, kprint_hex, kprintln, con. wp_steps. rewrite H. done.
    - unfold kprintln, con. wp_steps. rewrite H. by destruct s. }
  intros u3 s3 H3. cbv beta in H3.
  apply (wp_mono _ _ (fun _ s4 => con_frame s3 s4)); [|intros u4 s4 H4; unfold con_frame in H4; rewrite H4, H3; done].
  destruct lim_executable as [[p v]|]; [repeat (apply prints_bind; intros)|]; apply prints_con.
Qed.
End parse.
