(* ===== verification/Main.v ===== *)
(** * The kernel's main program (kernel/main.c)

    kernel_main brings the components up in order, loads the init program from the
    file system or from a boot module, maps and copies it into the low half of the
    kernel's address space, and starts the scheduler.  The two test threads of
    main.c are at the end.  Local arrays of the functions it calls have their
    addresses as arguments ([frame]). *)
From S2P Require Import Prelude Memory State Demo Serial Pmm PageTable Vmm Cpu Pointer Gdt Pit Idt Thread Ipc Syscall Ata Ext2 Limine.

(** The addresses of the local arrays identify_data (ata_init) and sb_buffer
    (ext2_init). *)
Record frame := mkFrame { identify_data : Z; sb_buffer : Z }.

Definition USER_CODE_VIRT : Z := 0x0000000000400000.
Definition USER_STACK_VIRT : Z := 0x00007FFFFFFFE000.

Section main.
Context {P : Platform}.

Definition hcf {A} : K A := cli ;;; halt.

(** [n] newlines after the literal [m]. *)
Definition kputs (m : string) (n : nat) : K unit := kprint_bytes (str m ++ replicate n 10).

(** The allocation test. *)
Definition memory_test : K unit :=
  kprintln "Testing memory allocation..." ;;;
  page1 <- pmm_alloc_page ;;
  page2 <- pmm_alloc_page ;;
  page3 <- pmm_alloc_page ;;
  kprint "  Allocated pages: " ;;;
  kprint_hex page1 ;;; kprint ", " ;;;
  kprint_hex page2 ;;; kprint ", " ;;;
  kprint_hex page3 ;;; kprintln "" ;;;
  pmm_free_page page2 ;;;
  kprintln "  Freed middle page" ;;;
  page4 <- pmm_alloc_page ;;
  kprint "  Reallocated: " ;;;
  kprint_hex page4 ;;;
  kprintln "" ;;;
  kputs "Memory allocation test passed!" 2.

(** kernel_main up to the creation of the test port. *)
Definition init_subsystems (fuel : nat) (fr : frame) : K unit :=
  serial_init ;;;
  kprintln "PlasmaOS Kernel v0.1.0" ;;;
  kputs "======================" 2 ;;;
  kprintln "Parsing Limine bootloader info..." ;;;
  limine_parse_info ;;;
  kprint_bytes ([10] ++ str "Initializing CPU infrastructure..." ++ [10]) ;;;
  kprintln "  - Setting up GDT (Global Descriptor Table)..." ;;;
  gdt_init ;;;
  kprintln "  - GDT loaded successfully" ;;;
  kprintln "  - Setting up IDT (Interrupt Descriptor Table)..." ;;;
  idt_init ;;;
  kprintln "  - IDT loaded successfully" ;;;
  kprintln "  - Initializing PIT (Programmable Interval Timer) at 100Hz..." ;;;
  pit_init 100 ;;;
  kprintln "  - PIT initialized, interrupts enabled" ;;;
  kprint_bytes ([10] ++ str "CPU infrastructure complete" ++ [10; 10]) ;;;
  kprintln "Initializing memory management..." ;;;
  kprintln "  - Initilizing PMM (Physical Memory Manager)..." ;;;
  pmm_init ;;;
  kprintln "  - Initializing VMM (Virtual Memory Manager)..." ;;;
  vmm_init ;;;
  kprint_bytes ([10] ++ str "Memory Management Complete!" ++ [10]) ;;;
  kprint "  * Free memory: " ;;;
  mem <- pmm_get_free_memory ;;
  kprint_dec (mem / 1024 / 1024) ;;;
  kputs " MB" 2 ;;;
  memory_test ;;;
  kprint_bytes ([10] ++ str "Initializing threading subsystem..." ++ [10]) ;;;
  thread_init ;;;
  kprintln "Initializing syscall interface..." ;;;
  syscall_init ;;;
  kputs "Syscalls initialized" 2 ;;;
  kprintln "Initializing disk I/O..." ;;;
  ata_init (identify_data fr) ;;;
  kputs "Disk I/O initialized" 2 ;;;
  kprintln "Initializing filesystem..." ;;;
  ext2_init (sb_buffer fr) ;;;
  ext2_list_root fuel ;;;
  kprintln "".

Definition create_test_port : K unit :=
  kprintln "Creating IPC test port..." ;;;
  p <- port_create ;;
  modify (set_test_port (fun _ => p)) ;;;
  match p with
  | None => kprintln "ERROR: Failed to create port!" ;;; hcf
  | Some _ => kputs "Port created successfully" 2
  end.

(** Where the init program is: init_data, init_size, loaded_from_disk. *)
Record image := mkImage { init_data : Z; init_size : Z; loaded_from_disk : bool }.

(** The size that ext2_read_file returned; 0 if there was no buffer. *)
Definition read_init (fuel : nat) (disk_buffer : Z) : K Z :=
  if disk_buffer =? 0 then ret 0
  else
    size <- ext2_read_file fuel (str "init.bin") disk_buffer 8192 ;;
    (when size >? 0 do
      (kprint "  Loaded init.bin from disk (" ;;;
       kprint_dec (u64 size) ;;;
       kprintln " bytes)")) ;;;
    ret size.

Definition locate_init (fuel : nat) (disk_buffer : Z) : K image :=
  size <- read_init fuel disk_buffer ;;
  if size >? 0 then ret (mkImage disk_buffer (u64 size) true)
  else
    match lim_modules with
    | Some (init_module :: _) =>
        kprint "  Loaded from Limine module: " ;;;
        kprint_bytes (file_path init_module) ;;;
        kprint " (" ;;;
        kprint_dec (file_size init_module) ;;;
        kprintln " bytes)" ;;;
        ret (mkImage (file_address init_module) (file_size init_module) false)
    | _ =>
        kprintln "ERROR: Could not load init from disk or modules!" ;;;
        (when negb (disk_buffer =? 0) do pmm_free_page disk_buffer) ;;;
        hcf
    end.

(** One page of user memory. *)
Definition map_code_page (i : Z) : K unit :=
  phys <- pmm_alloc_page ;;
  if phys =? 0 then kprintln "ERROR: Failed to allocate page for user code!" ;;; hcf
  else
    map_result <- vmm_map_page vmm_get_kernel_address_space (u64 (USER_CODE_VIRT + i * 0x1000)) phys
                    (Z.lor (Z.lor PAGE_PRESENT PAGE_WRITE) PAGE_USER) ;;
    (when negb (map_result =? 0) do (kprintln "ERROR: Failed to map user code page!" ;;; hcf)).

(** The bytes of page [i] of a program of [size] bytes at [data]. *)
Definition copy_code_page (data size i : Z) : K unit :=
  let src := u64 (data + i * 0x1000) in
  let dst := u64 (USER_CODE_VIRT + i * 0x1000) in
  for_range 0 (Z.min 0x1000 (size - i * 0x1000)) (fun j =>
    b <- rd8 (u64 (src + j)) ;; vwr8 (u64 (dst + j)) b).

Definition pages_needed (size : Z) : Z := u64 (size + 0xFFF) / 0x1000.

Definition load_user_code (data size : Z) : K unit :=
  for_range 0 (pages_needed size) map_code_page ;;;
  for_range 0 (pages_needed size) (copy_code_page data size).

Definition map_user_stack : K unit :=
  kprintln "  Allocating user stack..." ;;;
  user_stack_phys <- pmm_alloc_page ;;
  if user_stack_phys =? 0 then kprintln "ERROR: Failed to allocate user stack!" ;;; hcf
  else
    kprint "  Mapping user stack to virtual address: " ;;;
    kprint_hex USER_STACK_VIRT ;;;
    kprintln "" ;;;
    map_result <- vmm_map_page vmm_get_kernel_address_space USER_STACK_VIRT user_stack_phys
                    (Z.lor (Z.lor PAGE_PRESENT PAGE_WRITE) PAGE_USER) ;;
    if negb (map_result =? 0) then
      kprint "ERROR: Failed to map user stack! Error: " ;;;
      kprint_dec (u64 map_result) ;;;
      kprintln "" ;;;
      hcf
    else kprintln "  User stack mapped successfully".

Definition start_user_thread : K unit :=
  let user_stack_top := USER_STACK_VIRT + 0x1000 in
  kprintln "Creating userspace thread..." ;;;
  kprint "  Entry point: " ;;; kprint_hex USER_CODE_VIRT ;;; kprintln "" ;;;
  kprint "  Stack top: " ;;; kprint_hex user_stack_top ;;; kprintln "" ;;;
  thread_create_user USER_CODE_VIRT user_stack_top ;;;
  kputs "Userspace thread created" 2 ;;;
  kputs "Starting scheduler..." 2 ;;;
  started <- scheduler_start ;;
  if (started : bool) then ret tt
  else kprint_bytes ([10] ++ str "ERROR: Scheduler returned!" ++ [10]) ;;; hcf.

(** kernel_main from the place where the program has been found. *)
Definition enter_userspace (disk_buffer : Z) (img : image) : K unit :=
  kprint "  Allocating and mapping " ;;;
  kprint_dec (pages_needed (init_size img)) ;;;
  kprintln " pages for user code..." ;;;
  load_user_code (init_data img) (init_size img) ;;;
  (when loaded_from_disk img do pmm_free_page disk_buffer) ;;;
  kprint "  User code mapped successfully at " ;;;
  kprint_hex USER_CODE_VIRT ;;;
  kprintln "" ;;;
  map_user_stack ;;;
  start_user_thread.

(** Returns when the processor runs the first thread. *)
Definition kernel_main (fuel : nat) (fr : frame) : K unit :=
  init_subsystems fuel fr ;;;
  create_test_port ;;;
  kprintln "Loading userspace init program..." ;;;
  disk_buffer <- pmm_alloc_page ;;
  img <- locate_init fuel disk_buffer ;;
  enter_userspace disk_buffer img.

(** ** The test threads

    A thread that gave up the processor is where it will go on: inside recv with
    [rounds] rounds to go, between two yields of the sender, or in its last loop. *)

Inductive receiver_at := RecvWaits (rounds : nat) | RecvIdle.

(** What the receiver prints after recv returned [result]; [msg] is its address. *)
Definition receiver_report (msg result : Z) : K unit :=
  if result =? 0 then
    kprint "Receiver: Got message! ID=" ;;;
    id <- rd32 msg ;;
    kprint_dec id ;;;
    kprint " Data=[" ;;;
    for_range 0 4 (fun j =>
      d <- rd32 (u64 (msg + 4 + 4 * j)) ;; kprint_dec d ;;; kprint ", ") ;;;
    kprintln "]"
  else kprintln "Reciever: recv() failed with error code".

(** [for (;;) thread_yield();] until the processor is given away; with no other
    thread to run it spins. *)
Fixpoint idle_loop (fuel : nat) : K unit :=
  match fuel with
  | O => starve
  | S fuel => switched <- thread_yield ;; if (switched : bool) then ret tt else idle_loop fuel
  end.

Fixpoint receiver_loop (fuel rounds : nat) (msg : Z) : K receiver_at :=
  match rounds with
  | O =>
      kprintln "Receiver: Finished receiving 5 messages, exiting." ;;;
      idle_loop fuel ;;; ret RecvIdle
  | S rounds =>
      kprintln "Receiver: Calling recv() [will block if no message]..." ;;;
      p <- gets test_port ;;
      f <- recv p msg ;;
      match f with
      | Returns result => receiver_report msg result ;;; receiver_loop fuel rounds msg
      | Suspended => ret (RecvWaits rounds)
      end
  end.

Definition thread_receiver (fuel : nat) (msg : Z) : K receiver_at :=
  kprintln "Reciever: Starting and waiting for messages..." ;;;
  receiver_loop fuel 5 msg.

(** The receiver when it gets the processor back. *)
Definition receiver_resume (fuel : nat) (msg : Z) (a : receiver_at) : K receiver_at :=
  match a with
  | RecvWaits rounds =>
      o <- gets test_port ;;
      p <- need NullPointer o ;;
      result <- recv_resume p msg ;;
      receiver_report msg result ;;;
      receiver_loop fuel rounds msg
  | RecvIdle => idle_loop fuel ;;; ret RecvIdle
  end.

Inductive sender_at := SendWarm (yields : nat) | SendPause (i : Z) (yields : nat) | SendIdle.

Definition send_one (i : Z) : K unit :=
  kprintln "Sender: Sending message..." ;;;
  kprint_bytes [48 + i] ;;;
  kprintln "..." ;;;
  p <- gets test_port ;;
  result <- send p (u32 i) (u32 (i * 10)) (u32 (i * 20)) (u32 (i * 30)) (u32 (i * 40)) ;;
  if result =? 0 then kprintln "Sender: Message sent successfully" else kprintln "Sender: send() failed".

(** The sender from where it is; [fuel] bounds the yields it makes while no other
    thread can run. *)
Fixpoint sender_run (fuel : nat) (a : sender_at) : K sender_at :=
  match fuel with
  | O => starve
  | S fuel =>
      match a with
      | SendWarm O | SendPause _ O =>
          let i := match a with SendPause i _ => i + 1 | _ => 1 end in
          if i <=? 5 then send_one i ;;; sender_run fuel (SendPause i 3)
          else kprintln "Sender: Finished sending all messages, exiting." ;;; sender_run fuel SendIdle
      | SendWarm (S n) =>
          switched <- thread_yield ;;
          if (switched : bool) then ret (SendWarm n) else sender_run fuel (SendWarm n)
      | SendPause i (S n) =>
          switched <- thread_yield ;;
          if (switched : bool) then ret (SendPause i n) else sender_run fuel (SendPause i n)
      | SendIdle =>
          switched <- thread_yield ;;
          if (switched : bool) then ret SendIdle else sender_run fuel SendIdle
      end
  end.

Definition thread_sender (fuel : nat) : K sender_at :=
  kprintln "Sender: Starting, will send 5 messages..." ;;;
  sender_run fuel (SendWarm 2).
End main.

(** ** The test threads together

    Each thread is resumed when the scheduler has made it the current one. *)

Section together.
Context {P : Platform}.

Fixpoint run_both (n fuel : nat) (msg : Z) (r : option receiver_at) (a : option sender_at) : K unit :=
  match n with
  | O => ret tt
  | S n =>
      c <- sched current ;;
      if decide (c = Some 0%nat) then
        r' <- match r with None => thread_receiver fuel msg | Some x => receiver_resume fuel msg x end ;;
        run_both n fuel msg (Some r') a
      else
        a' <- match a with None => thread_sender fuel | Some x => sender_run fuel x end ;;
        run_both n fuel msg r (Some a')
  end.

(** A port, the two threads, the scheduler, and [n] turns. *)
Definition test_threads (n : nat) (receiver_entry sender_entry msg : Z) : K unit :=
  thread_init ;;;
  create_test_port ;;;
  thread_create receiver_entry ;;;
  thread_create sender_entry ;;;
  scheduler_start ;;;
  run_both n 10 msg None None.
End together.

(** The numbers printed. *)
Definition printed_numbers (l : list conevent) : list Z :=
  omap (fun e => match e with CDec v => Some v | _ => None end) l.

Definition demo_thread_boot : kstate :=
  set_regs (fun _ r => match r with RSP => 0xFFFFFFFF80018000 | _ => 0 end) demo_boot.

(** The two test threads of main.c, run by the scheduler on one port, exchange all
    five messages: the receiver blocks until a message is there and prints the
    identifier and the four words of every message, in the order they were sent. *)
Theorem test_threads_deliver :
  match test_threads 40 0xFFFFFFFF80006000 0xFFFFFFFF80007000 0xFFFFFFFF80090000 demo_thread_boot with
  | Ret _ s => printed_numbers (k_con s) = flat_map (fun i => [i; i * 10; i * 20; i * 30; i * 40]) [1; 2; 3; 4; 5]
  | _ => False
  end.
Proof. vm_compute. reflexivity. Qed.
