(* ===== verification/MainTheorems.v ===== *)
(** * The main program: loading the init program

    The program that kernel_main finds is mapped page by page and copied through
    the new mapping; afterwards the processor reads at the user addresses what was
    in the file. *)
From S2P Require Import Prelude Memory State Demo Serial Pmm PageTable Vmm VmmSpec VmmSpace VmmTheorems VmmFrame Cpu Pointer Gdt Pit Idt Thread Ipc Syscall Ata Ext2 Limine Main.

Section loading.
Context {P : Platform}.
Implicit Types s : kstate.

Definition code_page (i : Z) : Z := USER_CODE_VIRT + i * 0x1000.
Definition USER_FLAGS : Z := Z.lor (Z.lor PAGE_PRESENT PAGE_WRITE) PAGE_USER.

Lemma in_page_table s root p pi q : vm_ok s root -> p ∈ free_list s -> page_ok p ->
  (length pi <= 3)%nat -> Forall idx_ok pi -> tab (k_mem s) root pi = Some q -> forall x, in_page q x -> ~ in_page p x.
Proof.
  intros Hok Hp Hpg Hl Hf Hq x Hxq Hxp.
  destruct (tree_pages _ _ _ (vm_tree _ _ Hok) pi q Hl Hf Hq) as [Hqg Hqf].
  assert (q <> p) as Hne by (intros ->; done). pose proof (page_apart q p Hqg Hpg Hne). unfold in_page in *. lia.
Qed.

Lemma in_page_inj p q x : page_ok p -> page_ok q -> in_page p x -> in_page q x -> p = q.
Proof.
  intros Hp Hq Hx Hy. destruct (decide (p = q)) as [|Hne]; [done|].
  pose proof (page_apart p q Hp Hq Hne). unfold in_page in *. lia.
Qed.
Lemma free_page_ok s root p : vm_ok s root -> p ∈ free_list s -> page_ok p.
Proof. intros Hok. pose proof (inv_pages _ (vm_pmm _ _ Hok)) as H. rewrite Forall_forall in H. apply H. Qed.
Lemma table_page_ok s root q : vm_ok s root -> table (k_mem s) root q -> page_ok q /\ q ∉ free_list s.
Proof. intros Hok (pi & Hl & Hf & Hq). by apply (tree_pages _ _ _ (vm_tree _ _ Hok) pi). Qed.

(** Taking a page leaves the address space as it is. *)
Lemma vm_kept_alloc s root : vm_ok s root -> free_list s <> [] ->
  wp pmm_alloc_page s (fun p s' => p <> 0 /\ page_ok p /\ free_list s = free_list s' ++ [p] /\
    vm_ok s' root /\ vm_kept root s s' /\ same_walks root (k_mem s) (k_mem s') /\
    (forall q, table (k_mem s') root q -> table (k_mem s) root q) /\
    users_kept root (fun _ => False) (k_mem s) (k_mem s')).
Proof.
  intros Hok Hne. wp_call pmm_alloc_ok; [apply Hok|done|]. intros p s' (Hf & Hpg & Hz & Hfr & Hinv & _).
  assert (Hp : p ∈ free_list s) by (rewrite Hf; apply elem_of_app; right; by apply list_elem_of_singleton).
  assert (Hsame : forall pi q x, (length pi <= 3)%nat -> Forall idx_ok pi -> tab (k_mem s) root pi = Some q ->
    q <= x < q + PAGE_SIZE -> mget (k_mem s') x = mget (k_mem s) x).
  { intros pi q x Hl Hfi Hq Hx. rewrite Hz, decide_False; [done|]. by eapply in_page_table. }
  destruct (tree_frame (k_mem s) (k_mem s') root (free_list s) (free_list s')) as (Ht & Hw & Htab).
  - apply Hok.
  - exact Hsame.
  - intros x Hx. rewrite Hf. apply elem_of_app. by left.
  - assert (Htb : forall q, table (k_mem s') root q -> table (k_mem s) root q).
    { intros q (pi & Hl & Hfi & Hq). exists pi. rewrite <- Htab by (done || lia). done. }
    split_and!; [destruct Hpg; lia|done|done|by constructor| |done|done|by eapply users_kept_frame; [apply Hok|]]. constructor.
    + by exists [p].
    + intros x Hx _. rewrite Hz, decide_False; [done|]. intros Hin. apply Hx. by exists p.
    + intros q Hq. left. by apply Htb.
    + unfold pmm_mem_frame in Hfr. rewrite Hfr. by destruct s.
Qed.

(** The first [n] pages of the program are mapped to the frames [ps]. *)
Record mapping s root (n : Z) (ps : list Z) s1 : Prop := {
  mp_len : Z.of_nat (length ps) = n;
  mp_vm : vm_ok s1 root;
  mp_kept : vm_kept root s s1;
  mp_nodup : NoDup ps;
  mp_from : forall p, p ∈ ps -> p ∈ free_list s;
  mp_taken : forall p, p ∈ ps -> p ∉ free_list s1;
  mp_tab : forall p, p ∈ ps -> ~ table (k_mem s1) root p;
  mp_count : Z.of_nat (length (free_list s)) <= 4 * n + Z.of_nat (length (free_list s1));
  mp_in : forall k p, ps !! k = Some p -> walk (k_mem s1) root (idxs (code_page (Z.of_nat k))) = Some (Z.lor p USER_FLAGS, 0%nat);
  mp_out : forall ids, length ids = 4%nat -> Forall idx_ok ids ->
    (forall k, 0 <= k < n -> ids <> idxs (code_page k)) -> walk (k_mem s1) root ids = walk (k_mem s) root ids;
  mp_user : forall k p, ps !! k = Some p -> user_path (k_mem s1) root (idxs (code_page (Z.of_nat k))) = true;
}.

Lemma mapping_start s root : vm_ok s root -> mapping s root 0 [] s.
Proof.
  intros Hok. constructor; try done; [apply vm_kept_refl|constructor|..].
  - intros p Hp. by apply not_elem_of_nil in Hp.
  - intros p Hp. by apply not_elem_of_nil in Hp.
  - intros p Hp. by apply not_elem_of_nil in Hp.
Qed.

Lemma code_page_idxs i j : 0 <= i < 2 ^ 34 -> 0 <= j < 2 ^ 34 -> i <> j -> idxs (code_page i) <> idxs (code_page j).
Proof.
  intros Hi Hj Hne E. apply same_page_idxs in E. unfold same_page, code_page, USER_CODE_VIRT in E.
  rewrite !Z.div_add in E by lia. change (4194304 / 4096) with 1024 in E.
  change (2 ^ 34) with 17179869184 in *. change (2 ^ 36) with 68719476736 in E.
  rewrite !Z.mod_small in E by lia. lia.
Qed.

Lemma user_args p : page_ok p -> entry_args p USER_FLAGS.
Proof.
  intros (H1 & H2 & H3). unfold PAGE_SIZE, PHYS_LIMIT in *. unfold entry_args, PAGE_SIZE.
  change (2 ^ 52) with 4503599627370496. split_and!; try lia; try done; vm_compute; congruence.
Qed.

(** One more page. *)
Lemma map_code_page_ok s root n ps s1 :
  mapping s root n ps s1 -> as_points s AsKernel root -> 0 <= n < 2 ^ 33 ->
  no_huge (k_mem s) root (idxs (code_page n)) -> 4 * (n + 1) <= Z.of_nat (length (free_list s)) ->
  wp (map_code_page n) s1 (fun _ s2 => exists p, mapping s root (n + 1) (ps ++ [p]) s2).
Proof.
  intros Hmp Has Hn Hnh Hfree. pose proof Hmp as [M1 M2 M3 M4 M5 M6 M7 M8 M9 M10 M11].
  assert (Hidx : forall k, 0 <= k < n -> idxs (code_page n) <> idxs (code_page k)).
  { intros k Hk. change (2 ^ 33) with 8589934592 in Hn. apply code_page_idxs; change (2 ^ 34) with 17179869184; lia. }
  unfold map_code_page. apply wp_bind.
  wp_call (vm_kept_alloc s1 root); [done|intros E; rewrite E in M8; cbn in M8; lia|].
  intros p s2 (Hp0 & Hpg & Hf & Hok2 & Hk2 & Hw2 & Ht2 & Hu2). rewrite (proj2 (Z.eqb_neq p 0)) by done. fold USER_FLAGS.
  unfold vmm_get_kernel_address_space. change (USER_CODE_VIRT + n * 0x1000) with (code_page n).
  change (2 ^ 33) with 8589934592 in Hn. rewrite u64_small by (unfold code_page, USER_CODE_VIRT; lia).
  pose proof (vm_kept_trans _ _ _ _ M3 Hk2) as Hks2.
  assert (Has2 : as_points s2 AsKernel root)
    by (apply (as_points_kernel s); [done|by rewrite (kp_rest _ _ _ Hks2)|by rewrite (kp_rest _ _ _ Hks2)]).
  assert (Hnh2 : no_huge (k_mem s2) root (idxs (code_page n))).
  { unfold no_huge. rewrite (Hw2 (idxs (code_page n))), M10 by (done || apply idxs_ok). exact Hnh. }
  assert (Hfl2 : (length (free_list s1) = S (length (free_list s2)))%nat) by (rewrite Hf, length_app; cbn; lia).
  assert (Hpin : p ∈ free_list s1) by (rewrite Hf; apply elem_of_app; right; by apply list_elem_of_singleton).
  assert (Hpout : p ∉ free_list s2).
  { pose proof (inv_nodup _ (vm_pmm _ _ M2)) as Hnd. rewrite Hf in Hnd. apply NoDup_app in Hnd as (_ & Hd & _).
    intros Hx. apply (Hd _ Hx). by apply list_elem_of_singleton. }
  apply wp_bind. eapply wp_mono; [apply wp_conj|].
  { apply (vmm_map_page_spec s2 AsKernel root); [done|done|done|by apply user_args|done]. }
  { apply (vmm_map_page_kept s2 AsKernel root); [done|done|done|by apply user_args|done|done]. }
  intros r s3 [(Hok3 & _ & [(_ & Hlt & _)|(-> & [Hmi Hmo] & Hmu & _)]) (Hk3 & Hfl3 & Hu3)]; [lia|].
  cbn [Z.eqb negb]. apply wp_ret. exists p.
  assert (Hsub : forall x, x ∈ free_list s3 -> x ∈ free_list s2) by (intros x; by apply (vm_kept_subset root)).
  assert (Hwk : forall ids, length ids = 4%nat -> Forall idx_ok ids -> ids <> idxs (code_page n) ->
    walk (k_mem s3) root ids = walk (k_mem s1) root ids) by (intros ids H4 Hi Hne; by rewrite Hmo, Hw2).
  constructor.
  - rewrite length_app. cbn [length]. lia.
  - done.
  - by eapply vm_kept_trans.
  - apply NoDup_app. split_and!; [done| |by apply NoDup_singleton].
    intros x Hx Hy%list_elem_of_singleton. subst x. by apply (M6 p).
  - intros x [Hx|Hx%list_elem_of_singleton]%elem_of_app; [by apply M5|]. subst x.
    exact (vm_kept_subset _ _ _ _ M3 Hpin).
  - intros x [Hx|Hx%list_elem_of_singleton]%elem_of_app Hin; apply Hsub in Hin; [|by subst x].
    exact (M6 x Hx (vm_kept_subset _ _ _ _ Hk2 Hin)).
  - intros x [Hx|Hx%list_elem_of_singleton]%elem_of_app Htb; [|subst x]; destruct (kp_tab _ _ _ Hk3 _ Htb) as [Hq|Hq].
    + by apply (M7 x Hx), Ht2.
    + exact (M6 x Hx (vm_kept_subset _ _ _ _ Hk2 Hq)).
    + apply Ht2 in Hq as (pi & Hl & Hfi & Hq). by apply (free_not_table s1 root pi p).
    + done.
  - lia.
  - intros k x [Hk|[Hk Hx]]%lookup_app_Some.
    + pose proof (lookup_lt_Some _ _ _ Hk). rewrite Hwk; [by apply M9|done|apply idxs_ok|].
      intros E. apply (Hidx (Z.of_nat k)); [lia|done].
    + destruct (k - length ps)%nat as [|j] eqn:Ej; [|done]. injection Hx as <-.
      replace (Z.of_nat k) with n by lia. exact Hmi.
  - intros ids H4 Hi Hne. rewrite Hwk; [apply M10; [done|done|]|done|done|apply Hne; lia].
    intros k Hk. apply Hne. lia.
  - intros k x [Hk|[Hk Hx]]%lookup_app_Some.
    + pose proof (lookup_lt_Some _ _ _ Hk). pose proof (M9 k x Hk) as Hwx.
      apply (Hu3 _ (Z.lor x USER_FLAGS)); [done|apply idxs_ok| |by rewrite Hw2 by (done || apply idxs_ok)|].
      * intros E. apply (Hidx (Z.of_nat k)); [lia|done].
      * apply (Hu2 _ (Z.lor x USER_FLAGS)); [done|apply idxs_ok|tauto|done|by apply (M11 k x)].
    + destruct (k - length ps)%nat as [|j] eqn:Ej; [|done]. injection Hx as <-.
      replace (Z.of_nat k) with n by lia. by apply Hmu.
Qed.

Lemma map_code_ok s root n :
  vm_ok s root -> as_points s AsKernel root -> 0 <= n < 2 ^ 33 ->
  (forall i, 0 <= i < n -> no_huge (k_mem s) root (idxs (code_page i))) -> 4 * n <= Z.of_nat (length (free_list s)) ->
  wp (for_range 0 n map_code_page) s (fun _ s1 => exists ps, mapping s root n ps s1).
Proof.
  intros Hok Has Hn Hnh Hfree.
  apply (wp_for_range (fun i s1 => exists ps, mapping s root i ps s1)); [lia|exists []; by apply mapping_start| |done].
  intros i s1 Hi [ps Hmp]. wp_call (map_code_page_ok s root i ps s1); [done|done|lia|by apply Hnh|lia|].
  intros _ s2 [p Hmp2]. by exists (ps ++ [p]).
Qed.

(** *** The copy *)

Section copy.
Context (s s1 : kstate) (root n : Z) (ps : list Z) (Hmp : mapping s root n ps s1) (Hs : vm_ok s root).
Context (Hn : 0 <= n < 2 ^ 33).

Lemma frame_ok p : p ∈ ps -> page_ok p.
Proof.
  intros Hp. apply (mp_from _ _ _ _ _ Hmp) in Hp. pose proof (inv_pages _ (vm_pmm _ _ Hs)) as H.
  rewrite Forall_forall in H. by apply H.
Qed.

(** Where byte [u] of the program goes. *)
Definition target (u : Z) : Z := default 0 (ps !! Z.to_nat (u / 4096)) + u mod 4096.

Lemma target_page u : 0 <= u < 4096 * n -> exists p, ps !! Z.to_nat (u / 4096) = Some p /\ p ∈ ps /\
  target u = p + u mod 4096 /\ in_page p (target u).
Proof.
  intros Hu. assert (Hk : (Z.to_nat (u / 4096) < length ps)%nat) by (pose proof (mp_len _ _ _ _ _ Hmp); zlia).
  destruct (lookup_lt_is_Some_2 _ _ Hk) as [p Hp]. exists p. unfold target. rewrite Hp. cbn [default from_option id].
  split_and!; [done|by eapply list_elem_of_lookup_2|done|]. unfold in_page, PAGE_SIZE. zlia.
Qed.

Lemma target_inj u t : 0 <= u < 4096 * n -> 0 <= t < 4096 * n -> target u = target t -> u = t.
Proof.
  intros Hu Ht E. destruct (target_page u Hu) as (p & Hp & Hpi & Eu & Iu), (target_page t Ht) as (q & Hq & Hqi & Et & It).
  destruct (decide (p = q)) as [->|Hne].
  - pose proof (NoDup_lookup _ _ _ _ (mp_nodup _ _ _ _ _ Hmp) Hp Hq) as Ek.
    assert (u / 4096 = t / 4096) by (apply Z2Nat.inj; zlia). rewrite Eu, Et in E. zlia.
  - pose proof (page_apart p q (frame_ok _ Hpi) (frame_ok _ Hqi) Hne). rewrite E in Iu. unfold in_page in *. lia.
Qed.

(** [t] bytes are copied. *)
Record copied (data t : Z) (s2 : kstate) : Prop := {
  cp_rest : s2 = set_mem (fun _ => k_mem s2) s1;
  cp_out : forall x, (forall p, p ∈ ps -> ~ in_page p x) -> mget (k_mem s2) x = mget (k_mem s1) x;
  cp_in : forall u, 0 <= u < t -> mget (k_mem s2) (target u) = mget (k_mem s1) (kmap data + u);
}.

(** The tables are not touched by the copy. *)
Lemma copied_translate data t s2 u : copied data t s2 -> 0 <= u < 4096 * n ->
  translate (k_mem s2) root (USER_CODE_VIRT + u) = Some (target u).
Proof.
  intros Hc Hu. destruct (target_page u Hu) as (p & Hp & Hpi & Eu & _).
  destruct (tree_frame (k_mem s1) (k_mem s2) root (free_list s1) (free_list s1)) as (_ & Hw & _).
  - apply (mp_vm _ _ _ _ _ Hmp).
  - intros pi q x Hl Hf Hq Hx. apply (cp_out _ _ _ Hc). intros p' Hp' Hin.
    destruct (tree_pages _ _ _ (vm_tree _ _ (mp_vm _ _ _ _ _ Hmp)) pi q Hl Hf Hq) as [Hqg _].
    destruct (decide (q = p')) as [->|Hne]; [apply (mp_tab _ _ _ _ _ Hmp p' Hp'); by exists pi|].
    pose proof (page_apart q p' Hqg (frame_ok _ Hp') Hne). unfold in_page in *. lia.
  - done.
  - assert (Eid : idxs (USER_CODE_VIRT + u) = idxs (code_page (u / 4096))).
    { apply same_page_idxs. unfold same_page. f_equal. unfold code_page, USER_CODE_VIRT. zlia. }
    pose proof (mp_in _ _ _ _ _ Hmp _ _ Hp) as Hwk.
    replace (Z.of_nat (Z.to_nat (u / 4096))) with (u / 4096) in Hwk by zlia.
    unfold translate. rewrite Eid, Hw, Hwk by (done || apply idxs_ok).
    destruct (entry_args_lor _ _ (user_args p (frame_ok _ Hpi))) as (_ & _ & _ & _ & ->).
    rewrite Eu. f_equal. f_equal. unfold USER_CODE_VIRT. change (2 ^ 12) with 4096. zlia.
Qed.

Context (data size : Z) (Hwin : window_ok data (data + size)) (Hsize : 0 <= size <= 4096 * n).
Context (Hsrc : forall u p, 0 <= u < size -> p ∈ ps -> ~ in_page p (kmap data + u)).
Context (Hcr3 : cr3_root s1 = root).

Lemma copy_byte_ok i j s2 : 0 <= i -> 0 <= j -> i * 0x1000 + j < size -> copied data (i * 0x1000 + j) s2 ->
  wp (b <- rd8 (u64 (u64 (data + i * 0x1000) + j)) ;; vwr8 (u64 (u64 (USER_CODE_VIRT + i * 0x1000) + j)) b) s2
    (fun _ s3 => copied data (i * 0x1000 + (j + 1)) s3).
Proof.
  intros Hi Hj Hlt Hc. set (t := i * 0x1000 + j) in *.
  assert (Et : t = i * 0x1000 + j) by done. clearbody t. pose proof Hwin as (W1 & W2 & W3).
  change (2 ^ 33) with 8589934592 in Hn.
  unfold rd8. apply wp_bind, wp_gets. unfold vwr8. apply wp_bind, wp_gets.
  rewrite (u64_small (data + i * 0x1000)), (u64_small (USER_CODE_VIRT + i * 0x1000)),
    (u64_small (data + i * 0x1000 + j)), (u64_small (USER_CODE_VIRT + i * 0x1000 + j)) by (unfold USER_CODE_VIRT; lia).
  replace (data + i * 0x1000 + j) with (data + t) by lia.
  replace (USER_CODE_VIRT + i * 0x1000 + j) with (USER_CODE_VIRT + t) by lia.
  assert (Er : cr3_root s2 = root) by by rewrite (cp_rest _ _ _ Hc), <- Hcr3.
  unfold vaddr. rewrite (proj2 (Z.ltb_lt _ _)) by (unfold USER_CODE_VIRT, USER_LIMIT; lia).
  rewrite Er, (copied_translate _ _ _ t Hc) by lia. apply wp_bind. eapply wp_need; [done|].
  apply wp_modify. rewrite (W3 (data + t)) by lia. replace (kmap data + (data + t - data)) with (kmap data + t) by lia.
  destruct (target_page t ltac:(lia)) as (p & _ & Hp & _ & Hin).
  constructor.
  - rewrite (cp_rest _ _ _ Hc) at 1. by destruct s1.
  - intros x Hx. cbn [k_mem set_mem]. rewrite mget_mput_ne; [by apply (cp_out _ _ _ Hc)|].
    intros <-. by apply (Hx p).
  - intros u Hu. cbn [k_mem set_mem]. destruct (decide (u = t)) as [->|Hne].
    + rewrite mget_mput_eq, u8_small by apply mget_range. apply (cp_out _ _ _ Hc). intros q Hq. apply Hsrc; [lia|done].
    + rewrite mget_mput_ne; [apply (cp_in _ _ _ Hc); lia|]. intros E. apply Hne. symmetry.
      apply target_inj; [lia|lia|done].
Qed.

Lemma copy_code_ok : n = (size + 4095) / 4096 ->
  wp (for_range 0 n (copy_code_page data size)) s1 (fun _ s2 => copied data size s2).
Proof.
  intros En. apply (wp_for_range (fun i s2 => copied data (Z.min size (i * 0x1000)) s2)); [lia| | |].
  - constructor; [by destruct s1|done|]. intros u Hu. lia.
  - intros i s2 Hi Hc. unfold copy_code_page. change (2 ^ 33) with 8589934592 in Hn.
    assert (Hsz : i * 0x1000 < size) by zlia. set (m := Z.min 0x1000 (size - i * 0x1000)).
    apply (wp_for_range (fun j s3 => copied data (i * 0x1000 + j) s3)); [unfold m; lia| | |].
    + by replace (i * 0x1000 + 0) with (Z.min size (i * 0x1000)) by lia.
    + intros j s3 Hj Hc3. apply copy_byte_ok; [lia|lia|unfold m in Hj; lia|done].
    + intros s3 Hc3. by replace (Z.min size ((i + 1) * 0x1000)) with (i * 0x1000 + m) by (unfold m; lia).
  - intros s2 Hc. by replace (Z.min size (n * 0x1000)) with size in Hc by zlia.
Qed.
End copy.
End loading.

Section loaded.
Context {P : Platform}.
Implicit Types s : kstate.

(** The conditions under which a program of [size] bytes at [data] can be loaded:
    no large page where it goes, page frames for it and its page tables, and its
    bytes in neither free pages nor page tables. *)
Record loadable s root (data size : Z) : Prop := {
  ld_vm : vm_ok s root;
  ld_as : as_points s AsKernel root;
  ld_cr3 : cr3_root s = root;
  ld_size : 0 <= size < 2 ^ 32;
  ld_window : window_ok data (data + size);
  ld_huge : forall i, 0 <= i < pages_needed size -> no_huge (k_mem s) root (idxs (code_page i));
  ld_frames : 4 * pages_needed size <= Z.of_nat (length (free_list s));
  ld_source : forall u, 0 <= u < size -> ~ in_free s (kmap data + u) /\ ~ in_table (k_mem s) root (kmap data + u);
}.

Lemma pages_needed_eq size : 0 <= size < 2 ^ 32 -> pages_needed size = (size + 4095) / 4096 /\
  0 <= pages_needed size < 2 ^ 33 /\ size <= 4096 * pages_needed size.
Proof.
  change (2 ^ 32) with 4294967296. change (2 ^ 33) with 8589934592. intros H. unfold pages_needed.
  change 0xFFF with 4095. change 0x1000 with 4096. rewrite u64_small by lia. split; [done|zlia].
Qed.

(** The program of [size] bytes that was at [data] in [s0] is in place: every byte at its
    user address, in a frame that was free then and is no table, every page of it a
    4 KiB page open to ring 3. *)
Record program s0 root (data size : Z) s : Prop := {
  pg_bytes : forall u, 0 <= u < size -> exists pa, translate (k_mem s) root (USER_CODE_VIRT + u) = Some pa /\
    mget (k_mem s) pa = mget (k_mem s0) (kmap data + u) /\
    in_free s0 pa /\ ~ in_free s pa /\ ~ in_table (k_mem s) root pa;
  pg_user : forall i, 0 <= i < pages_needed size ->
    (exists e, walk (k_mem s) root (idxs (code_page i)) = Some (e, 0%nat)) /\
    user_path (k_mem s) root (idxs (code_page i)) = true;
}.

Lemma code_idxs u : 0 <= u -> idxs (USER_CODE_VIRT + u) = idxs (code_page (u / 4096)).
Proof. intros Hu. apply same_page_idxs. unfold same_page. f_equal. unfold code_page, USER_CODE_VIRT. zlia. Qed.

(** The program stays in place when its walks, their user bits and its frames do. *)
Lemma program_kept s0 root data size s s' : 0 <= size < 2 ^ 32 -> program s0 root data size s ->
  (forall i, 0 <= i < pages_needed size -> walk (k_mem s') root (idxs (code_page i)) = walk (k_mem s) root (idxs (code_page i))) ->
  users_kept root (eq (idxs USER_STACK_VIRT)) (k_mem s) (k_mem s') ->
  (forall x, in_free s0 x -> ~ in_free s x -> ~ in_table (k_mem s) root x ->
     mget (k_mem s') x = mget (k_mem s) x /\ ~ in_free s' x /\ ~ in_table (k_mem s') root x) ->
  program s0 root data size s'.
Proof.
  intros Hs [H1 H2] Hw Hu Hx. destruct (pages_needed_eq size Hs) as (_ & Hn & Hsz). constructor.
  - intros u Hur. destruct (H1 u Hur) as (pa & Ht & Hb & Hf & Hnf & Hnt). destruct (Hx pa Hf Hnf Hnt) as (E & Hnf' & Hnt').
    exists pa. split_and!; [|congruence|done|done|done]. rewrite <- Ht. unfold translate.
    rewrite code_idxs, Hw by zlia. done.
  - intros i Hi. destruct (H2 i Hi) as [[e Hwe] Hup]. split; [exists e; by rewrite Hw|].
    apply (Hu _ e); [done|apply idxs_ok| |done|done]. intros E%same_page_idxs. unfold same_page, code_page, USER_STACK_VIRT, USER_CODE_VIRT in E.
    change (2 ^ 33) with 8589934592 in Hn. change (2 ^ 36) with 68719476736 in E. zlia.
Qed.

Record loaded s root (data size : Z) s' : Prop := {
  lo_program : program s root data size s';
  lo_vm : vm_ok s' root;
  lo_kept : vm_kept root s s';
  lo_frames : Z.of_nat (length (free_list s)) <= 4 * pages_needed size + Z.of_nat (length (free_list s'));
  lo_walks : forall ids, length ids = 4%nat -> Forall idx_ok ids ->
    (forall i, 0 <= i < pages_needed size -> ids <> idxs (code_page i)) -> walk (k_mem s') root ids = walk (k_mem s) root ids;
}.

Lemma load_user_code_ok s root data size : loadable s root data size ->
  wp (load_user_code data size) s (fun _ s' => loaded s root data size s').
Proof.
  intros [L1 L2 L3 L4 L5 L6 L7 L8]. destruct (pages_needed_eq size L4) as (En & Hn & Hsz).
  set (n := pages_needed size) in *. unfold load_user_code. fold n. apply wp_bind.
  wp_call (map_code_ok s root n); [done|done|done|done|done|]. intros _ s1 [ps Hmp].
  pose proof (mp_kept _ _ _ _ _ Hmp) as Hk.
  assert (Hout : forall x p, ~ in_free s x -> p ∈ ps -> ~ in_page p x).
  { intros x p Hx Hp Hin. apply Hx. exists p. split; [by apply (mp_from _ _ _ _ _ Hmp)|done]. }
  assert (Hcr : cr3_root s1 = root) by (rewrite (kp_rest _ _ _ Hk); done).
  wp_call (copy_code_ok s s1 root n ps Hmp L1 Hn data size L5); [lia| |done|done|].
  { intros u p Hu. apply Hout. by apply L8. }
  intros _ s2 Hc.
  assert (Hsame : forall pi q x, (length pi <= 3)%nat -> Forall idx_ok pi -> tab (k_mem s1) root pi = Some q ->
    q <= x < q + PAGE_SIZE -> mget (k_mem s2) x = mget (k_mem s1) x).
  { intros pi q x Hl Hf Hq Hx. apply (cp_out _ _ _ _ _ Hc). intros p Hp Hin.
    destruct (tree_pages _ _ _ (vm_tree _ _ (mp_vm _ _ _ _ _ Hmp)) pi q Hl Hf Hq) as [Hqg _].
    destruct (decide (q = p)) as [->|Hne]; [apply (mp_tab _ _ _ _ _ Hmp p Hp); by exists pi|].
    pose proof (page_apart q p Hqg (frame_ok _ _ _ _ _ Hmp L1 _ Hp) Hne). unfold in_page in *. lia. }
  assert (Efl : free_list s2 = free_list s1) by (rewrite (cp_rest _ _ _ _ _ Hc); done).
  destruct (tree_frame (k_mem s1) (k_mem s2) root (free_list s1) (free_list s2)) as (Ht & Hw & Htab);
    [apply (mp_vm _ _ _ _ _ Hmp)|exact Hsame|by rewrite Efl|].
  assert (Htb : forall q, table (k_mem s2) root q -> table (k_mem s1) root q).
  { intros q (pi & Hl & Hfi & Hq). exists pi. rewrite <- Htab by (done || lia). done. }
  constructor.
  - constructor.
    2:{ intros i Hi. destruct (lookup_lt_is_Some_2 ps (Z.to_nat i)) as [p Hp]; [pose proof (mp_len _ _ _ _ _ Hmp); lia|].
        pose proof (mp_in _ _ _ _ _ Hmp _ _ Hp) as Hwi. pose proof (mp_user _ _ _ _ _ Hmp _ _ Hp) as Hui.
        rewrite Z2Nat.id in Hwi, Hui by lia. split; [eexists; rewrite Hw by (done || apply idxs_ok); exact Hwi|].
        eapply (users_kept_frame (k_mem s1) (k_mem s2) root); [apply (mp_vm _ _ _ _ _ Hmp)|exact Hsame|done|apply idxs_ok|tauto|exact Hwi|done]. }
    intros u Hu. destruct (target_page s s1 root n ps Hmp Hn u ltac:(lia)) as (p & _ & Hp & _ & Hin).
    exists (target ps u). split_and!.
    + by eapply (copied_translate s s1 root n ps Hmp); [done..|lia].
    + rewrite (cp_in _ _ _ _ _ Hc) by done. destruct (L8 u Hu). by apply (kp_mem _ _ _ Hk).
    + exists p. split; [by apply (mp_from _ _ _ _ _ Hmp)|done].
    + intros (q & Hq & Hqi). rewrite Efl in Hq. apply (mp_taken _ _ _ _ _ Hmp p Hp).
      rewrite (in_page_inj p q (target ps u)); [done|by eapply frame_ok|by apply (free_page_ok s1 root); [apply (mp_vm _ _ _ _ _ Hmp)|]|done|done].
    + intros (q & Hq & Hqi). apply Htb in Hq. apply (mp_tab _ _ _ _ _ Hmp p Hp).
      rewrite (in_page_inj p q (target ps u)); [done|by eapply frame_ok|by apply (table_page_ok s1 root); [apply (mp_vm _ _ _ _ _ Hmp)|]|done|done].
  - constructor; [|done]. rewrite (cp_rest _ _ _ _ _ Hc). apply pmm_inv_mem, (mp_vm _ _ _ _ _ Hmp).
  - constructor.
    + rewrite Efl. apply Hk.
    + intros x Hx Hxt. rewrite (cp_out _ _ _ _ _ Hc); [by apply (kp_mem _ _ _ Hk)|]. intros p Hp. by apply Hout.
    + intros q Hq. by apply (kp_tab _ _ _ Hk), Htb.
    + rewrite (cp_rest _ _ _ _ _ Hc), (kp_rest _ _ _ Hk). by destruct s.
  - rewrite Efl. apply (mp_count _ _ _ _ _ Hmp).
  - intros ids Hl Hf Hne. rewrite Hw by done. by apply (mp_out _ _ _ _ _ Hmp).
Qed.
End loaded.
