(* ===== verification/MainProperties.v ===== *)
(** * The main program: properties

    The boot information, the search for the init program and its loading; and one
    boot from power-on to ring 3, computed on a concrete machine. *)
From S2P Require Import Prelude Memory State Demo Serial Pmm PageTable Vmm VmmSpec VmmSpace VmmTheorems VmmFrame Cpu Pointer Gdt Pit Idt Thread Ipc Syscall Ata Ext2 Limine Main MainTheorems.

(** ** A machine that boots from a module

    The drive reports an error, so that init comes from the boot module: 200
    bytes at 5 MiB.  The page tables in force have their root at 6 MiB. *)

Definition boot_program : list Z := (fun i => (7 * i + 1) mod 256) <$> seqZ 0 200.

Definition demo_module : Platform := {|
  LIMINE_MEMMAP_USABLE := @LIMINE_MEMMAP_USABLE demo;
  lim_memmap := @lim_memmap demo;
  lim_hhdm := @lim_hhdm demo;
  lim_executable := @lim_executable demo;
  lim_framebuffers := Some [mkFb 1280 800 32 0xFFFF8000FD000000];
  lim_modules := Some [mkFile (str "/boot/init.bin") 200 0x500000];
  kmap := demo_kmap;
  dev_inb := fun _ _ => 0x61;
  dev_inw := fun _ _ => 0;
  sym_stacks := @sym_stacks demo;
  sym_gdt := @sym_gdt demo;
  sym_tss := @sym_tss demo;
  sym_idt := @sym_idt demo;
  sym_isr_stub := @sym_isr_stub demo;
  sym_syscall_entry_asm := @sym_syscall_entry_asm demo;
  sym_usermode_trampoline := @sym_usermode_trampoline demo;
  sym_yield_return := @sym_yield_return demo;
  sym_start_return := @sym_start_return demo;
  sym_trampoline_return := @sym_trampoline_return demo;
|}.

Definition boot_root : Z := 0x600000.
Definition boot_state : kstate :=
  power_on (write_bytes boot_program 0x500000 ∅)
    (fun r => match r with RSP => 0xFFFFFFFF80019000 | CR3 => boot_root | RFLAGS => 2 | _ => 0 end).
Definition boot_frame : frame := mkFrame 0xFFFFFFFF80018000 0xFFFFFFFF80018400.

(** The bytes the program sees at [v..v+n) through the page tables. *)
Definition user_bytes (m : gmap Z Z) (root v : Z) (n : Z) : list (option Z) :=
  (fun i => mget m <$> translate m root (v + i)) <$> seqZ 0 n.

Definition boot_run : K unit := @kernel_main demo_module 1 boot_frame ;;; @usermode_trampoline demo_module.

(** What the first instruction of the program finds: where it is and in which ring,
    its stack, the interrupt flag, the current thread, its memory. *)
Definition user_view (o : outcome kstate unit) :=
  match o with
  | Ret _ s =>
      Some (k_regs s RIP, k_regs s CS, k_regs s RSP, k_regs s SS, k_if s, current (k_sched s),
        user_path (k_mem s) boot_root (idxs USER_CODE_VIRT), user_path (k_mem s) boot_root (idxs USER_STACK_VIRT),
        user_bytes (k_mem s) boot_root USER_CODE_VIRT 200)
  | _ => None
  end.

(** ** Properties *)

(** C2: load_user_code, the part of kernel_main that builds the memory of the init
    program: with enough page frames it returns; every byte of the program is found at
    its user address through the page tables CR3 designates, the last partial page
    included; every other address translates as before, and memory outside the frames
    and page tables used is unchanged. *)
Theorem load_user_code_correct {P : Platform} (s : kstate) (root data size : Z) :
  loadable s root data size ->
  wp (load_user_code data size) s (fun _ s' =>
    vm_ok s' root /\
    (forall u, 0 <= u < size -> exists pa, translate (k_mem s') root (USER_CODE_VIRT + u) = Some pa /\
       mget (k_mem s') pa = mget (k_mem s) (kmap data + u)) /\
    (forall v, (forall i, 0 <= i < pages_needed size -> ~ same_page v (code_page i)) ->
       translate (k_mem s') root v = translate (k_mem s) root v) /\
    (forall x, ~ in_free s x -> ~ in_table (k_mem s) root x -> mget (k_mem s') x = mget (k_mem s) x)).
Proof.
  intros Hld. wp_call load_user_code_ok; [done|]. intros _ s' [[Hb _] Hok Hk _ Hw]. split_and!.
  - done.
  - intros u Hu. destruct (Hb u Hu) as (pa & H1 & H2 & _). by exists pa.
  - intros v Hv. unfold translate. rewrite Hw; [done|done|apply idxs_ok|]. intros i Hi E. by apply (Hv i Hi), same_page_idxs.
  - apply (kp_mem _ _ _ Hk).
Qed.

(** The machine of VmmTheorems.v: an empty root table below 0x110000, where all free
    pages are too. *)
Lemma demo_pages_low : Forall (fun p => p < 0x110000) (free_list demo_pmm).
Proof. apply (bool_decide_unpack _). vm_compute. reflexivity. Qed.
#[local] Opaque demo_pmm demo_top demo_vm.
Lemma demo_vm_free : free_list demo_vm = free_list demo_top.
Proof. apply free_list_ext. exact demo_vm_pmm. Qed.
Lemma demo_vm_low p : p ∈ free_list demo_vm -> p < 0x110000 /\ page_ok p.
Proof.
  rewrite demo_vm_free. intros Hp. destruct demo_top_spec as (Hf & _ & _ & Hinv). split.
  - pose proof demo_pages_low as Hl. rewrite Hf in Hl. apply Forall_app in Hl as [Hl _].
    exact (proj1 (Forall_forall _ _) Hl p Hp).
  - exact (proj1 (Forall_forall _ _) (inv_pages _ Hinv) p Hp).
Qed.
Lemma demo_vm_tables q : table (k_mem demo_vm) demo_root q -> q = demo_root.
Proof.
  intros ([|i pi] & _ & Hf & Hq); [by injection Hq as <-|]. apply Forall_cons in Hf as [Hi _].
  cbn [tab] in Hq. rewrite (demo_root_empty i Hi) in Hq. discriminate Hq.
Qed.

Lemma demo_loadable : loadable demo_vm demo_root 0x200000 5000.
Proof.
  assert (Hk : forall x, 0 <= x < 0x100000000000 -> demo_kmap x = x).
  { intros x Hx. unfold demo_kmap, demo_hhdm. by rewrite (proj2 (Z.leb_gt _ x)) by lia. }
  constructor.
  - exact demo_vm_ok.
  - exact demo_points.
  - vm_compute. reflexivity.
  - lia.
  - split; [lia|]. split; [lia|]. intros x Hx. cbn [kmap demo]. rewrite !Hk by lia. lia.
  - intros i _. exact (demo_no_huge _).
  - vm_compute. discriminate.
  - intros u Hu. cbn [kmap demo]. rewrite Hk by lia. split.
    + intros (p & Hp & Hin). destruct (demo_vm_low p Hp) as [Hlt (Hm & _)]. unfold in_page, PAGE_SIZE in *. zlia.
    + intros (q & Hq & Hin). rewrite (demo_vm_tables q Hq) in Hin. unfold in_page, demo_root, PAGE_SIZE in Hin. lia.
Qed.

Lemma load_user_code_correct_witness :
  wp (load_user_code 0x200000 5000) demo_vm (fun _ s' =>
    exists pa, translate (k_mem s') demo_root (USER_CODE_VIRT + 4999) = Some pa /\
      mget (k_mem s') pa = mget (k_mem demo_vm) (demo_kmap 0x200000 + 4999)).
Proof.
  refine (wp_mono _ _ _ _ (load_user_code_correct demo_vm demo_root 0x200000 5000 demo_loadable) _).
  intros u s' (_ & H & _). apply (H 4999). lia.
Defined.

(** One whole boot, from serial_init to ring 3: the entry point, the stack, the rings of
    the code and of the stack page, and the 200 bytes of the boot module. *)
Example boot_run_view :
  user_view (boot_run boot_state) =
  Some (USER_CODE_VIRT, 0x1B, USER_STACK_VIRT + 0x1000, 0x23, true, Some 0%nat, true, true, Some <$> boot_program).
Proof. vm_compute. reflexivity. Qed.

(** C31: Without a file system and without a boot module kernel_main gives up: the search
    for the init program frees the page it had taken, prints its error message and halts
    the processor with interrupts off. *)
Theorem locate_init_fails {P : Platform} (fuel : nat) (disk_buffer : Z) (s : kstate) :
  ext2_ready (k_ext2 s) = 0 -> lim_modules = None \/ lim_modules = Some [] ->
  pmm_inv s -> page_ok disk_buffer -> disk_buffer ∉ free_list s -> page_stack_top (k_pmm s) < MAX_PAGES ->
  exists s', locate_init fuel disk_buffer s = Halted s' /\ k_if s' = false /\
    free_list s' = free_list s ++ [disk_buffer] /\
    k_con s' = k_con s ++ [CPrint (str "ext2: Filesystem not initialized" ++ [10]);
                           CPrint (str "ERROR: Could not load init from disk or modules!" ++ [10])].
Proof.
  intros Hr Hm Hp Hpg Hnf Htop. assert (Hb : disk_buffer <> 0) by (destruct Hpg; lia).
  set (m1 := CPrint (str "ext2: Filesystem not initialized" ++ [10])).
  set (m2 := CPrint (str "ERROR: Could not load init from disk or modules!" ++ [10])).
  assert (Hread : read_init fuel disk_buffer s = Ret (-1) (printed [m1] s)).
  { unfold read_init. rewrite (proj2 (Z.eqb_neq _ 0)) by done.
    rewrite (bind_ret _ _ s (-1) (printed [m1] s)); [done|].
    unfold ext2_read_file, ext2, bind, gets. by rewrite Hr. }
  unfold locate_init. rewrite (bind_ret _ _ _ _ _ Hread). change (-1 >? 0) with false. cbv iota.
  assert (Hp2 : pmm_inv (printed [m1; m2] s)) by by destruct Hp.
  destruct (wp_inv _ _ _ (pmm_free_inv (printed [m1; m2] s) disk_buffer Hp2 Hpg Hnf Htop))
    as (u & s2 & E2 & Hf & _ & Hc & _).
  exists (set_if (fun _ => false) s2). split_and!; [|done|exact Hf|exact Hc].
  destruct Hm as [-> | ->]; unfold kprintln; rewrite con_run; cbn [app]; rewrite (proj2 (Z.eqb_neq _ 0)) by done;
    cbn [negb]; rewrite (bind_ret _ _ _ _ _ E2); done.
Qed.

Lemma locate_init_fails_witness :
  exists s', locate_init 1 0x200000 demo_pmm = Halted s' /\ k_if s' = false.
Proof.
  destruct (locate_init_fails 1 0x200000 demo_pmm) as (s' & H1 & H2 & _).
  - vm_compute. reflexivity.
  - left. reflexivity.
  - exact demo_pmm_inv.
  - unfold page_ok, PAGE_SIZE, PHYS_LIMIT. split; [reflexivity|lia].
  - apply (bool_decide_unpack _). vm_compute. reflexivity.
  - vm_compute. reflexivity.
  - exists s'. split; [exact H1|exact H2].
Defined.

(** C23: The boot order limine_parse_info, pmm_init, vmm_init establishes what the memory
    managers rely on: with a direct map at the offset the boot loader reports and a
    memory map whose usable entries do not overlap, the allocator's invariant holds, its
    free pages are those of the map, and the kernel's address space is the one CR3
    designates, reached through the direct map. *)
Theorem boot_memory_ready {P : Platform} (h pb vb : Z) (l : list memmap_entry) (s : kstate) :
  lim_hhdm = Some h -> lim_memmap = Some l -> lim_executable = Some (pb, vb) -> memmap_ok l ->
  0 <= h -> h + PHYS_LIMIT < 18446744073709551616 -> (forall p, 0 <= p < PHYS_LIMIT -> kmap (h + p) = p) ->
  let root := Z.land (k_regs s CR3) (u64 (Z.lnot 0xFFF)) in
  0 <= root < PHYS_LIMIT ->
  wp (limine_parse_info ;;; pmm_init ;;; vmm_init) s (fun _ s' =>
    pmm_inv s' /\ free_list s' = take (Z.to_nat MAX_PAGES) (mjoin (entry_pages <$> l)) /\
    as_points s' AsKernel root /\ cr3_value (kernel_address_space s') = root).
Proof.
  intros Hh Hl He Hok H0 H1 Hk root Hroot. apply wp_bind. wp_call parse_info_ok. intros _ s1 E1.
  rewrite Hh in E1. cbn [default from_option] in E1.
  assert (Hh1 : hhdm_ok s1) by (rewrite E1; by split_and!).
  apply wp_bind. eapply wp_mono; [apply wp_conj; [by apply (pmm_init_inv_lemma l)|by apply (pmm_init_spec l)]|].
  intros u s2 ((Hinv & _) & Hfr & _ & Hfl). unfold pmm_frame in Hfr.
  assert (Eh : hhdm_offset s2 = h) by (rewrite Hfr, E1; done).
  assert (Ec : k_regs s2 CR3 = k_regs s CR3) by (rewrite Hfr, E1; done).
  unfold vmm_init. rewrite He. unfold kprintln, kprint, kprint_hex, con, getr, phys_to_virt. wp_steps.
  cbn [k_regs set_con hhdm_offset]. rewrite Ec, Eh. fold root. rewrite u64_small by lia.
  split_and!; [by destruct Hinv|done| |done]. split; [discriminate|].
  unfold as_pml4, gets. cbn. rewrite Eh. f_equal. lia.
Qed.

Lemma boot_memory_ready_witness :
  let P := demo_module in
  wp (@limine_parse_info P ;;; @pmm_init P ;;; @vmm_init P) boot_state (fun _ s' =>
    @pmm_inv P s' /\ @as_points P s' AsKernel boot_root).
Proof.
  intros P.
  refine (wp_mono _ _ _ _ (@boot_memory_ready P demo_hhdm 0x7E00000 0xFFFFFFFF80000000 demo_memmap boot_state
    eq_refl eq_refl eq_refl demo_memmap_ok _ _ _ _) _).
  - unfold demo_hhdm. lia.
  - unfold demo_hhdm, PHYS_LIMIT. lia.
  - exact (proj2 (proj2 (demo_hhdm_ok demo_boot eq_refl))).
  - vm_compute. split; [discriminate|reflexivity].
  - intros u s' (H1 & _ & H2 & _). split; [exact H1|exact H2].
Defined.
