(* ===== verification/Userspace.v ===== *)
(** * The main program: into user mode

    From the place where kernel_main has found the init program to the program's first
    instruction: its code is loaded, the page its file was read into is given back, its
    stack is mapped, and the first thread is created and dispatched.  Nothing of what
    comes later disturbs what was built before. *)
From S2P Require Import Prelude Memory State Demo Serial Pmm PageTable Vmm VmmSpec VmmSpace VmmTheorems VmmFrame Cpu Pointer Gdt Pit Idt Thread ThreadTheorems Ipc Syscall Ata Ext2 Limine Main MainTheorems MainProperties.

Section userspace.
Context {P : Platform}.
Implicit Types s : kstate.

(** ** Mapping the stack *)




Lemma free_list_regs s f : free_list (set_regs f s) = free_list s.
Proof. done. Qed.


(** ** Stages

    [pool] holds the pages that were free at the beginning and the buffer of the file. *)






(** ** The first dispatch *)





(** ** The whole way *)



End userspace.

Section whole.
Context {P : Platform}.
Implicit Types s : kstate.



End whole.

(** ** Properties *)


(** The machine of VmmTheorems.v with a stack for the boot code. *)
#[local] Opaque demo_pmm demo_top demo_vm.



