(* ===== verification/Init.v ===== *)
(** * The init program (userland/init.c, the wrappers of include/syscall.h)

    A user program is the tree of its system calls: after each call it goes on with
    the result.  The calls are carried out by [int $0x80] on the kernel model.  The
    addresses of string literals and of local arrays are arguments. *)
From S2P Require Import Prelude Memory State Demo Pmm PageTable VmmTheorems Cpu Pointer Gdt Idt Thread Ipc Syscall Main MainTheorems MainProperties.

(** [Call num args k]: load the argument registers, [int $0x80], go on with RAX.
    [Store a l k]: write the bytes [l] of a local array at [a].  [Spin]: [for (;;);]. *)
Inductive user_prog :=
| Call (num : Z) (args : list Z) (k : Z -> user_prog)
| Store (a : Z) (l : list Z) (k : user_prog)
| Spin.

(** The argument registers in the order of the calls. *)
Definition arg_regs : list reg := [RDI; RSI; RDX; R10; R8; R9].

Definition syscall0 (num : Z) (k : Z -> user_prog) : user_prog := Call num [] k.
Definition syscall1 (num a1 : Z) (k : Z -> user_prog) : user_prog := Call num [a1] k.
Definition syscall2 (num a1 a2 : Z) (k : Z -> user_prog) : user_prog := Call num [a1; a2] k.
Definition syscall6 (num a1 a2 a3 a4 a5 a6 : Z) (k : Z -> user_prog) : user_prog :=
  Call num [a1; a2; a3; a4; a5; a6] k.

Definition user_send (port_id msg_id d0 d1 d2 d3 : Z) (k : Z -> user_prog) : user_prog :=
  syscall6 SYS_SEND (u32 port_id) (u32 msg_id) (u32 d0) (u32 d1) (u32 d2) (u32 d3) (fun r => k (i32 r)).
Definition user_recv (port_id msg_out : Z) (k : Z -> user_prog) : user_prog :=
  syscall2 SYS_RECV (u32 port_id) msg_out (fun r => k (i32 r)).
Definition user_exit (code : Z) : user_prog := syscall1 SYS_THREAD_EXIT (u64 code) (fun _ => Spin).
Definition user_yield (k : user_prog) : user_prog := syscall0 SYS_THREAD_YIELD (fun _ => k).
Definition user_port_create (k : Z -> user_prog) : user_prog := syscall0 SYS_PORT_CREATE (fun r => k (i32 r)).
Definition user_debug_print (p : Z) (k : user_prog) : user_prog := syscall1 SYS_DEBUG_PRINT p (fun _ => k).

Section init.
Context (lit : list Z -> Z) (msg num : Z).

(** user_debug_print of a literal followed by [n] newlines. *)
Definition say (m : string) (n : nat) (k : user_prog) : user_prog :=
  user_debug_print (lit (str m ++ replicate n 10)) k.

(** The loop of test 5. *)
Fixpoint yield_tests (n : nat) (i : Z) (k : user_prog) : user_prog :=
  match n with
  | O => k
  | S n =>
      say "[INIT]   Yield " 0
        (Store num [48 + i; 0]
          (user_debug_print num (say "" 1 (user_yield (yield_tests n (i + 1) k)))))
  end.

Definition test_4_5 : user_prog :=
  say "[INIT] Test 4: Testing thread yield..." 1 (
  user_yield (
  say "[INIT] SUCCESS: Yielded and returned" 2 (
  say "[INIT] Test 5: Multiple yields (spinning)..." 1 (
  yield_tests 5 0 (
  say "[INIT] SUCCESS: Multiple yields complete" 2 (
  say "======================================" 1 (
  say "[INIT] All tests passed!" 1 (
  say "[INIT] Userspace is working correctly" 1 (
  say "======================================" 2 (
  say "[INIT] Init process complete, exiting with code 0" 1 (
  user_exit 0))))))))))).

Definition test_3 (port_id : Z) : user_prog :=
  say "[INIT] Test 3: Receiving message..." 1 (
  user_recv port_id msg (fun result =>
  if result <? 0 then say "[INIT] FAILED: Could not receive message" 1 (user_exit 1)
  else
    say "[INIT] SUCCESS: Message received" 1 (
    say "[INIT]   Message ID: 42" 1 (
    say "[INIT]   Data: [100, 200, 300, 400]" 2 test_4_5)))).

Definition test_2 (port_id : Z) : user_prog :=
  say "[INIT] Test 2: Sending message to self..." 1 (
  user_send port_id 42 100 200 300 400 (fun result =>
  if result <? 0 then say "[INIT] FAILED: Could not send message" 1 (user_exit 1)
  else say "[INIT] SUCCESS: Message sent (ID=42, data=[100,200,300,400])" 2 (test_3 port_id))).

Definition _start : user_prog :=
  say "[INIT] PlasmaOS userspace init starting..." 1 (
  say "[INIT] Running in ring 3" 2 (
  say "[INIT] Test 1: Creating IPC port..." 1 (
  user_port_create (fun port_id =>
  if port_id <? 0 then say "[INIT] FAILED: Could not create port" 1 (user_exit 1)
  else say "[INIT] SUCCESS: Port created" 2 (test_2 port_id))))).
End init.

(** ** Execution *)

Section run.
Context {P : Platform}.

Fixpoint load_args (rs : list reg) (args : list Z) : K unit :=
  match rs, args with r :: rs, a :: args => setr r a ;;; load_args rs args | _, _ => ret tt end.

Fixpoint store_bytes (a : Z) (l : list Z) : K unit :=
  match l with [] => ret tt | b :: l => vwr8 a b ;;; store_bytes (u64 (a + 1)) l end.

(** A program that gave up the processor inside a call. *)
Inductive user_stop := Waiting (p : pending) (k : Z -> user_prog).

(** [fuel] bounds the strings printed, [junk] is what the kernel leaves in the
    caller-saved registers. *)
Fixpoint run_user (fuel : nat) (junk : regs) (p : user_prog) : K user_stop :=
  match p with
  | Call num args k =>
      setr RAX num ;;;
      load_args arg_regs args ;;;
      o <- int80 fuel junk ;;
      match o with
      | None => r <- getr RAX ;; run_user fuel junk (k (i64 r))
      | Some pend => ret (Waiting pend k)
      end
  | Store a l k => store_bytes a l ;;; run_user fuel junk k
  | Spin => starve
  end.
End run.

(** ** Init on a machine that boots it

    The boot module holds the data of the program: its string literals, 64 bytes
    apart.  kernel_main loads it at USER_CODE_VIRT, where the program finds them. *)

Definition say_literals : list (string * nat) :=
  [("[INIT] PlasmaOS userspace init starting...", 1%nat); ("[INIT] Running in ring 3", 2%nat);
   ("[INIT] Test 1: Creating IPC port...", 1%nat); ("[INIT] SUCCESS: Port created", 2%nat);
   ("[INIT] Test 2: Sending message to self...", 1%nat);
   ("[INIT] SUCCESS: Message sent (ID=42, data=[100,200,300,400])", 2%nat);
   ("[INIT] Test 3: Receiving message...", 1%nat); ("[INIT] SUCCESS: Message received", 1%nat);
   ("[INIT]   Message ID: 42", 1%nat); ("[INIT]   Data: [100, 200, 300, 400]", 2%nat);
   ("[INIT] Test 4: Testing thread yield...", 1%nat); ("[INIT] SUCCESS: Yielded and returned", 2%nat);
   ("[INIT] Test 5: Multiple yields (spinning)...", 1%nat); ("[INIT]   Yield ", 0%nat); ("", 1%nat);
   ("[INIT] SUCCESS: Multiple yields complete", 2%nat); ("======================================", 1%nat);
   ("[INIT] All tests passed!", 1%nat); ("[INIT] Userspace is working correctly", 1%nat);
   ("======================================", 2%nat);
   ("[INIT] Init process complete, exiting with code 0", 1%nat)]%string.
Definition literals : list (list Z) := (fun e => str (fst e) ++ replicate (snd e) 10) <$> say_literals.

Definition pad (n : nat) (l : list Z) : list Z := take n (l ++ replicate n 0).
Definition init_image : list Z := flat_map (pad 64) literals.

Definition demo_lit (l : list Z) : Z :=
  USER_CODE_VIRT + 64 * Z.of_nat (default 0%nat (fst <$> list_find (fun x => x = l) literals)).

Definition demo_init : Platform := {|
  LIMINE_MEMMAP_USABLE := @LIMINE_MEMMAP_USABLE demo;
  lim_memmap := @lim_memmap demo;
  lim_hhdm := @lim_hhdm demo;
  lim_executable := @lim_executable demo;
  lim_framebuffers := None;
  lim_modules := Some [mkFile (str "/boot/init.bin") 1344 0x500000];
  kmap := demo_kmap;
  dev_inb := fun _ _ => 0x61;
  dev_inw := fun _ _ => 0;
  sym_stacks := @sym_stacks demo;
  sym_gdt := @sym_gdt demo;
  sym_tss := @sym_tss demo;
  sym_idt := @sym_idt demo;
  sym_isr_stub := @sym_isr_stub demo;
  sym_syscall_entry_asm := @sym_syscall_entry_asm demo;
  sym_usermode_trampoline := @sym_usermode_trampoline demo;
  sym_yield_return := @sym_yield_return demo;
  sym_start_return := @sym_start_return demo;
  sym_trampoline_return := @sym_trampoline_return demo;
|}.
Definition init_state : kstate := set_mem (fun _ => write_bytes init_image 0x500000 ∅) boot_state.

(** The strings printed on behalf of the user. *)
Fixpoint user_output (l : list conevent) : list (list Z) :=
  match l with
  | CPrint t :: ((CPrint u :: _) as rest) => if decide (t = str "[USER] ") then u :: user_output rest else user_output rest
  | _ :: rest => user_output rest
  | [] => []
  end.

Definition init_run : K user_stop :=
  @kernel_main demo_init 1 boot_frame ;;;
  @usermode_trampoline demo_init ;;;
  @run_user demo_init 100 (fun _ => 0xDEAD) (_start demo_lit 0x7FFFFFFFEF00 0x7FFFFFFFEF80).

(** When the processor has halted: the user's output, the state of the first thread,
    and the 20 bytes of the message buffer as the program sees them. *)
Definition init_view {A} (o : outcome kstate A) :
    option (list (list Z) * option ThreadState * list (option Z)) :=
  match o with
  | Halted s =>
      Some (user_output (k_con s), t_state <$> (threads (k_sched s) !! 0%nat),
        user_bytes (k_mem s) boot_root 0x7FFFFFFFEF00 20)
  | _ => None
  end.

(** What init prints when every test succeeds. *)
Definition init_transcript : list (list Z) :=
  let at_ i := default [] (literals !! i) in
  (at_ <$> seq 0 13) ++ flat_map (fun i => [at_ 13%nat; [48 + i]; at_ 14%nat]) (seqZ 0 5) ++ (at_ <$> seq 15 6).

(** One run from kernel_main to the last system call, computed: the data in the pages
    kernel_main loaded, the local arrays on the stack it mapped. *)
Example init_run_view : init_view (init_run init_state) =
  Some (init_transcript, Some THREAD_DEAD, Some <$> flat_map (fun w => [w mod 256; w / 256; 0; 0]) [42; 100; 200; 300; 400]).
Proof. vm_compute. reflexivity. Qed.
