(* ===== verification/InitTheorems.v ===== *)
(** * The init program: its run on the kernel

    Init.v gives init.c as the tree of its system calls.  Here every call is followed
    through the kernel, for any machine on which init is the only runnable thread: each
    rule below is one kind of call, the program is the sequence of the rules. *)
From S2P Require Import Prelude Memory State Demo Pmm PageTable VmmSpec VmmSpace VmmTheorems VmmFrame Cpu Pointer Gdt Idt Thread ThreadTheorems Scheduler Ipc IpcTheorems Syscall Init.

(** ** The kernel's side of a call *)

Section calls.
Context {P : Platform}.
Implicit Types s : kstate.

(** A C string at [p]: its bytes and the NUL, none of them on the kernel stack of [s0]. *)
Record string_at s0 s (p : Z) (l : list Z) : Prop := {
  sa_low : 0 <= p /\ p + Z.of_nat (length l) < USER_LIMIT;
  sa_bytes : forall k b, (l ++ [0]) !! k = Some b -> exists pa,
    vaddr s (p + Z.of_nat k) = Some pa /\ mget (k_mem s) pa = b /\ ~ on_stack s0 pa;
  sa_text : Forall (fun b => b <> 0) l;
}.

Lemma string_at_tail s0 s p b l : string_at s0 s p (b :: l) -> string_at s0 s (p + 1) l.
Proof.
  intros [[H1 H2] H3 H4]. cbn [length] in H2. constructor; [lia| |by apply Forall_cons in H4 as [_ H4]].
  intros k x Hx. destruct (H3 (S k) x Hx) as (pa & Hpa). exists pa.
  replace (p + 1 + Z.of_nat k) with (p + Z.of_nat (S k)) by lia. done.
Qed.

Lemma c_string_ok s0 s l p fuel : string_at s0 s p l -> (length l < fuel)%nat -> c_string fuel p s = Ret l s.
Proof.
  revert p fuel. induction l as [|b l IH]; intros p [|fuel] Hs Hf; cbn [length] in Hf; try lia; cbn [c_string].
  - destruct (sa_bytes _ _ _ _ Hs 0%nat 0 eq_refl) as (pa & Hv & Hb & _). cbn in Hv. rewrite Z.add_0_r in Hv.
    rewrite (bind_ret (vrd8 p) _ s 0 s); [done|]. unfold vrd8, bind, gets. by rewrite Hv, <- Hb.
  - destruct (sa_bytes _ _ _ _ Hs 0%nat b eq_refl) as (pa & Hv & Hb & _). cbn in Hv. rewrite Z.add_0_r in Hv.
    rewrite (bind_ret (vrd8 p) _ s b s) by (unfold vrd8, bind, gets; by rewrite Hv, <- Hb).
    pose proof (sa_text _ _ _ _ Hs) as Ht. apply Forall_cons in Ht as [Hnz _].
    rewrite (proj2 (Z.eqb_neq _ _) Hnz). pose proof (sa_low _ _ _ _ Hs) as [H1 H2]. unfold USER_LIMIT in H2.
    cbn [length] in H2. rewrite u64_small by lia.
    rewrite (bind_ret _ _ _ _ _ (IH (p + 1) fuel (string_at_tail _ _ _ _ _ Hs) ltac:(lia))). done.
Qed.

(** The ids of ports. *)
Lemma port_to_id_eq p : (p < 16)%nat -> port_to_id (Some p) = Z.of_nat p + 1.
Proof.
  intros Hp. unfold port_to_id, MAX_PORTS. rewrite !u32_small by (rewrite ?u32_small; lia).
  by rewrite Z.geb_leb, (proj2 (Z.leb_gt _ _)) by lia.
Qed.
Lemma port_from_id_eq p : (p < 16)%nat -> port_from_id (Z.of_nat p + 1) = Some p.
Proof.
  intros Hp. unfold port_from_id, MAX_PORTS.
  rewrite (proj2 (Z.eqb_neq _ _)), Z.gtb_ltb, (proj2 (Z.ltb_ge _ _)) by lia. cbn. f_equal. lia.
Qed.

(** A yield with nobody else to run. *)
Lemma yield_alone s n c t : ring (k_sched s) n -> current (k_sched s) = Some c ->
  round_robin (k_sched s) c n = Some c -> threads (k_sched s) !! c = Some t ->
  exists g, thread_yield s = Ret false (set_gdt (fun _ => g) s) /\
    rsp0 (tss g) = if is_user_mode t =? 0 then rsp0 (tss (k_gdt s)) else kernel_rsp t.
Proof.
  intros Hr Hc Hj Ht. pose proof (rg_current _ _ Hr) as Hlt. rewrite Hc in Hlt.
  assert (E : set_sched (with_current (Some c)) s = s).
  { destruct s as [? ? ? ? ? ? ? ? ? ? ? ? v ? ?]. unfold set_sched, with_current. cbn in *. f_equal. destruct v. cbn in *. by subst. }
  exists (if is_user_mode t =? 0 then k_gdt s else with_tss (with_rsp0 (kernel_rsp t)) (k_gdt s)).
  unfold thread_yield, sched, upd_sched. rewrite (bind_ret (gets _) _ s (Some c) s) by (unfold gets; by rewrite Hc).
  rewrite (bind_ret _ _ _ _ _ (find_next_runnable_eq s c n Hr Hlt)), Hj.
  rewrite (bind_ret (modify _) _ s tt s) by (unfold modify; by rewrite E).
  rewrite (bind_ret _ _ _ _ _ (get_thread_eq s c t Ht)). unfold gdt_set_kernel_stack.
  destruct (is_user_mode t =? 0); cbn [negb].
  - rewrite (bind_ret (ret tt) _ s tt s) by done. rewrite decide_True by done. split; [|done]. by destruct s.
  - erewrite bind_ret by reflexivity. rewrite decide_True by done. by split.
Qed.
End calls.

(** ** Init as the only runnable thread *)

Section session.
Context {P : Platform}.
Implicit Types s : kstate.
Context (s0 : kstate) (c n fuel : nat) (lit : list Z -> Z) (msg num pm pn : Z) (junk : regs).

(** The memory that changes while init runs: the thread's kernel stack, the message
    buffer and the two bytes of [num]. *)
Definition changing (x : Z) : Prop := on_stack s0 x \/ pm <= x < pm + 20 \/ pn <= x < pn + 2.

(** The scheduler's variables: thread [c] runs, no other can; [r0] is its kernel stack. *)
Record solo (v : sched_vars) (r0 : Z) : Prop := {
  so_ring : ring v n;
  so_current : current v = Some c;
  so_runs : runnable v c = true;
  so_alone : forall i, (i < n)%nat -> i <> c -> runnable v i = false;
  so_stack : forall t, threads v !! c = Some t -> (is_user_mode t =? 0) = false -> kernel_rsp t = r0;
  so_ipc : exists q, ipc_ok v q;
}.

Record session s : Prop := {
  se_int : interruptible s;
  se_cs : k_regs s CS = k_regs s0 CS /\ k_regs s RSP = k_regs s0 RSP;
  se_cr3 : k_regs s CR3 = k_regs s0 CR3;
  se_tss : rsp0 (tss (k_gdt s)) = rsp0 (tss (k_gdt s0));
  se_mem : forall x, ~ changing x -> mget (k_mem s) x = mget (k_mem s0) x;
  se_solo : solo (k_sched s) (rsp0 (tss (k_gdt s0)));
}.

(** What init is given: its string literals, the two arrays on its stack, page tables
    that lie elsewhere, and a limit on the length of strings that they keep. *)
Record placed : Prop := {
  pl_session : session s0;
  pl_tree : tree_ok (k_mem s0) (cr3_root s0) [];
  pl_tables : forall x, changing x -> ~ in_table (k_mem s0) (cr3_root s0) x;
  pl_literals : forall l, l ∈ literals -> string_at s0 s0 (lit l) l /\
    forall k pa, (k <= length l)%nat -> vaddr s0 (lit l + Z.of_nat k) = Some pa -> ~ changing pa;
  pl_msg : user_buffer s0 msg 20 pm;
  pl_num : user_buffer s0 num 2 pn;
  pl_apart : forall x, pm <= x < pm + 20 -> ~ on_stack s0 x /\ ~ pn <= x < pn + 2;
  pl_apart_num : forall x, pn <= x < pn + 2 -> ~ on_stack s0 x;
  pl_nonnull : msg <> 0;
  pl_fuel : (64 < fuel)%nat;
  pl_junk : regs_u64 junk;
}.
Context (Hpl : placed).

Lemma session_entry s : session s -> entry_stack s = entry_stack s0.
Proof. intros Hs. unfold entry_stack. destruct (se_cs _ Hs) as [-> ->]. by rewrite (se_tss _ Hs). Qed.
Lemma session_on_stack s x : session s -> on_stack s x <-> on_stack s0 x.
Proof. intros Hs. unfold on_stack. by rewrite (session_entry s Hs). Qed.

(** Translations do not change. *)
Lemma vaddr_same s v : k_regs s CR3 = k_regs s0 CR3 -> (forall x, ~ changing x -> mget (k_mem s) x = mget (k_mem s0) x) ->
  vaddr s v = vaddr s0 v.
Proof.
  intros Hc Hm. unfold vaddr. assert (Er : cr3_root s = cr3_root s0) by (unfold cr3_root; by rewrite Hc).
  destruct (tree_frame (k_mem s0) (k_mem s) (cr3_root s0) [] []) as (_ & Hw & _); [apply Hpl| |done|].
  { intros pi q x Hl Hf Hq Hx. apply Hm. intros Hch. apply (pl_tables Hpl x Hch). exists q. split; [by exists pi|done]. }
  destruct (v <? USER_LIMIT); [|done]. unfold translate. by rewrite Er, Hw by (done || apply idxs_ok).
Qed.

(** The literals stay where they are. *)
Lemma literal_at s l : session s -> l ∈ literals -> string_at s0 s (lit l) l.
Proof.
  intros Hs Hl. destruct (pl_literals Hpl l Hl) as [[S1 S2 S3] Hn]. constructor; [done| |done].
  intros k b Hb. destruct (S2 k b Hb) as (pa & H1 & H2 & H3). exists pa.
  rewrite (vaddr_same s) by apply Hs. split_and!; [done| |done]. rewrite (se_mem _ Hs); [done|].
  apply (Hn k); [|done]. apply lookup_lt_Some in Hb. rewrite length_app in Hb. cbn in Hb. lia.
Qed.

(** Registers loaded for a call. *)
Lemma session_regs s l ws : session s -> Forall (fun v => 0 <= v < 18446744073709551616) ws ->
  (forall r, r ∈ l -> caller_saved r = true) -> session (set_regs (load_regs l ws) s).
Proof.
  intros [[I1 I2 I3] [S1 S1'] S2 S3 S4 S5] Hw Hl.
  assert (Hk : forall r, caller_saved r = false -> load_regs l ws (k_regs s) r = k_regs s r).
  { intros r Hr. clear - Hr Hl. revert ws. generalize (k_regs s). induction l as [|x l IH]; intros f [|w ws]; try done.
    cbn [load_regs]. rewrite IH by (intros y Hy; apply Hl; by apply elem_of_cons; right). apply rset_ne.
    intros E. rewrite (Hl r) in Hr; [done|]. apply elem_of_cons. left. congruence. }
  constructor; cbn [k_regs k_mem k_gdt k_sched set_regs]; rewrite ?Hk by done; try done.
  constructor; cbn [k_regs k_if set_regs]; [by apply load_regs_u64|by rewrite Hk|].
  unfold entry_stack. cbn [k_regs k_gdt set_regs]. by rewrite !Hk.
Qed.

(** *** The rule for a call that returns *)

(** [run_user] halts, after the console got [L], in a state of [F]. *)
Definition ends (F : kstate -> Prop) (p : user_prog) s (L : list conevent) : Prop :=
  wph (run_user fuel junk p) s (fun _ _ => False) (fun s' => k_con s' = k_con s ++ L /\ F s').

Lemma load_args_eq rs args s : load_args rs args s = Ret tt (set_regs (load_regs rs args) s).
Proof.
  revert args s. induction rs as [|r rs IH]; intros [|a args] s; cbn [load_args load_regs]; try by destruct s.
  unfold setr. erewrite bind_ret by reflexivity. rewrite IH. by destruct s.
Qed.

(** The state in which the handler starts. *)
Definition handler_start s s1 : Prop :=
  k_sched s1 = k_sched s /\ k_con s1 = k_con s /\ k_gdt s1 = k_gdt s /\ k_regs s1 CR3 = k_regs s0 CR3 /\
  forall x, ~ on_stack s0 x -> mget (k_mem s1) x = mget (k_mem s) x.

Definition call_regs (num : Z) (args : list Z) (f : regs) : regs := load_regs arg_regs args (rset RAX num f).

Lemma call_rule F s cn args k L (Q : Z -> kstate -> Prop) :
  session s -> 0 <= cn < 18446744073709551616 -> Forall (fun v => 0 <= v < 18446744073709551616) args ->
  (forall s1 f, handler_start s s1 -> f = call_regs cn args (k_regs s) ->
    wp (syscall_handler fuel cn (f RDI) (f RSI) (f RDX) (f R10) (f R8) (f R9)) s1 (fun r s2 =>
      exists v, r = SReturns v /\ Q v s2 /\
        s2 = set_con (fun _ => k_con s2) (set_gdt (fun _ => k_gdt s2) (set_sched (fun _ => k_sched s2)
               (set_mem (fun _ => k_mem s2) s1))) /\
        solo (k_sched s2) (rsp0 (tss (k_gdt s0))) /\ rsp0 (tss (k_gdt s2)) = rsp0 (tss (k_gdt s0)) /\
        forall x, ~ (pm <= x < pm + 20) -> mget (k_mem s2) x = mget (k_mem s1) x)) ->
  (forall v s2 s', Q v s2 -> session s' -> k_sched s' = k_sched s2 -> k_con s' = k_con s2 -> k_mem s' = k_mem s2 ->
    (forall x, ~ on_stack s0 x -> ~ (pm <= x < pm + 20) -> mget (k_mem s') x = mget (k_mem s) x) ->
    exists L1 L2, L = L1 ++ L2 /\ k_con s' = k_con s ++ L1 /\ ends F (k (i64 (u64 v))) s' L2) ->
  ends F (Call cn args k) s L.
Proof.
  intros Hs Hcn Ha Hh Hk. unfold ends. cbn [run_user]. unfold setr. apply wph_step, wp_modify, wph_step.
  eapply wp_eq; [apply load_args_eq|]. set (f := call_regs cn args (k_regs s)).
  assert (Hsa : session (set_regs (load_regs arg_regs args) (set_regs (rset RAX cn) s))).
  { apply session_regs; [apply (session_regs s [RAX] [cn])|done|]; [done|by apply Forall_singleton| |];
      intros r Hr; repeat (apply elem_of_cons in Hr as [->|Hr]; [done|]); by apply not_elem_of_nil in Hr. }
  set (sa := set_regs _ _) in *. apply wph_step.
  assert (Hra : k_regs sa RAX = cn).
  { cbn. unfold arg_regs. clear. destruct args as [|? [|? [|? [|? [|? [|? ?]]]]]]; cbn [load_regs]; by reg_simpl. }
  wp_call (int80_call sa fuel junk (fun v s2 => Q v s2 /\ solo (k_sched s2) (rsp0 (tss (k_gdt s0))) /\
    rsp0 (tss (k_gdt s2)) = rsp0 (tss (k_gdt s0)) /\
    forall x, ~ on_stack s0 x -> ~ (pm <= x < pm + 20) -> mget (k_mem s2) x = mget (k_mem s) x)); [apply Hsa| |].
  - intros s1 E1 Hc1 Hm1.
    assert (Hm1' : forall x, ~ on_stack s0 x -> mget (k_mem s1) x = mget (k_mem s) x).
    { intros x Hx. apply Hm1. by rewrite (session_on_stack sa) by done. }
    rewrite Hra. wp_call (Hh s1 f); [|done|].
    { split_and!; [by rewrite E1|by rewrite E1|by rewrite E1|rewrite Hc1; apply Hsa|done]. }
    intros r s2 (v & -> & HQ & E2 & Hso & Hr0 & Hm2). exists v. split_and!; [done|done|done|done| |exact E2|].
    + intros x Hx Hp. rewrite Hm2 by done. by apply Hm1'.
    + intros x Hx. apply Hm2. intros Hp. rewrite (session_on_stack sa) in Hx by done. by destruct (pl_apart Hpl x Hp).
  - intros o s' (-> & (v & s2 & Hv & (HQ & Hso & Hr0 & Hm2) & Es & Em & Ec & Eg) & Hkept & Hu & Hif & E).
    unfold getr. apply wph_step, wp_gets. rewrite Hv.
    assert (Hs' : session s').
    { destruct Hsa as [[I1 I2 I3] [S1 S1'] S2 S3 S4 S5].
      assert (K1 : k_regs s' CS = k_regs sa CS) by (apply Hkept; by apply (bool_decide_unpack _)).
      assert (K2 : k_regs s' RSP = k_regs sa RSP) by (apply Hkept; by apply (bool_decide_unpack _)).
      assert (K3 : k_regs s' CR3 = k_regs sa CR3) by (apply Hkept; by apply (bool_decide_unpack _)).
      assert (K4 : k_regs s' RFLAGS = k_regs sa RFLAGS) by (apply Hkept; by apply (bool_decide_unpack _)).
      constructor.
      - constructor; [by apply Hu, Hpl|by rewrite K4, Hif|].
        unfold entry_stack in *. by rewrite K1, K2, Eg, Hr0, <- S3.
      - by rewrite K1, K2.
      - by rewrite K3.
      - by rewrite Eg.
      - intros x Hx. rewrite Em, Hm2 by (intros Hy; apply Hx; unfold changing; tauto). by apply (se_mem _ Hs).
      - by rewrite Es. }
    destruct (Hk v s2 s') as (L1 & L2 & -> & Hc1 & He); [done|done|done|done|done|by rewrite Em|].
    unfold ends, wph in He. unfold wph. destruct (run_user _ _ _ _); try done.
    destruct He as [He HF]. split; [|done]. by rewrite He, Hc1, app_assoc.
Qed.

(** *** One rule per call *)

(** Nothing but the console and the kernel stack has changed. *)
Definition quiet s s' : Prop :=
  k_sched s' = k_sched s /\ forall x, ~ on_stack s0 x -> mget (k_mem s') x = mget (k_mem s) x.

(** What the kernel prints for a string of the user. *)
Definition said (ls : list (list Z)) : list conevent :=
  flat_map (fun l => [CPrint (str "[USER] "); CPrint l]) ls.

Lemma start_vaddr s s1 v : session s -> handler_start s s1 -> vaddr s1 v = vaddr s v.
Proof.
  intros Hs (_ & _ & _ & Hc & Hm). rewrite (vaddr_same s1 v); [rewrite (vaddr_same s v); [done|apply Hs|apply Hs]|done|].
  intros x Hx. rewrite Hm; [by apply (se_mem _ Hs)|]. intros Hy. apply Hx. by left.
Qed.

Lemma print_rule F s p l k L : session s -> string_at s0 s p l -> (length l <= 64)%nat ->
  (forall s', session s' -> quiet s s' -> ends F k s' L) -> ends F (user_debug_print p k) s (said [l] ++ L).
Proof.
  intros Hs Hl Hlen Hk. pose proof (sa_low _ _ _ _ Hl) as [Hp0 Hp1]. unfold USER_LIMIT in Hp1. pose proof (pl_fuel Hpl).
  apply (call_rule F s SYS_DEBUG_PRINT [p] (fun _ => k) _ (fun v s2 => v = 0 /\ k_con s2 = k_con s ++ said [l] /\ quiet s s2));
    [done|unfold SYS_DEBUG_PRINT; lia|by apply Forall_singleton; lia| |].
  - intros s1 f Hst ->. pose proof Hst as (E1 & E2 & E3 & E4 & E5). unfold syscall_handler.
    change (call_regs SYS_DEBUG_PRINT [p] (k_regs s) RDI) with p.
    cbn [Z.eqb Pos.eqb SYS_DEBUG_PRINT SYS_SEND SYS_RECV SYS_THREAD_EXIT SYS_THREAD_YIELD SYS_PORT_CREATE SYS_PORT_DESTROY].
    unfold kprint, kprint_bytes, con. apply wp_bind, wp_modify, wp_bind.
    eapply wp_eq; [apply (c_string_ok s0 _ l); [|lia]|].
    { destruct Hl as [S1 S2 S3]. constructor; [done| |done]. intros j b Hb. destruct (S2 j b Hb) as (pa & H1 & H2 & H3).
      exists pa. split_and!; [|by cbn; rewrite E5|done]. rewrite <- H1. by apply (start_vaddr s s1). }
    apply wp_bind, wp_modify, wp_ret. exists 0. cbn [k_sched k_con k_gdt k_mem set_con]. split_and!.
    + done.
    + done.
    + rewrite E2. by rewrite <- app_assoc.
    + done.
    + by destruct s1.
    + rewrite E1. apply Hs.
    + rewrite E3. apply Hs.
    + done.
  - intros v s2 s' (-> & Hc & Hq1 & Hq2) Hs' Es Ec Em _. exists (said [l]), L. split_and!; [done|congruence|].
    apply Hk; [done|]. split; [congruence|by rewrite Em].
Qed.

Lemma say_rule F s m j k L : session s -> str m ++ replicate j 10 ∈ literals -> (length (str m ++ replicate j 10%Z) <= 64)%nat ->
  (forall s', session s' -> quiet s s' -> ends F k s' L) ->
  ends F (say lit m j k) s (said [str m ++ replicate j 10] ++ L).
Proof. intros Hs Hl Hlen Hk. apply print_rule; [done|by apply literal_at|done|done]. Qed.

Lemma yield_rule F s k L : session s -> (forall s', session s' -> quiet s s' -> ends F k s' L) -> ends F (user_yield k) s L.
Proof.
  intros Hs Hk. pose proof (se_solo _ Hs) as [O1 O2 O3 O4 O5 O6].
  apply (call_rule F s SYS_THREAD_YIELD [] (fun _ => k) _ (fun v s2 => v = 0 /\ k_con s2 = k_con s /\ quiet s s2));
    [done|unfold SYS_THREAD_YIELD; lia|by apply Forall_nil| |].
  - intros s1 f (E1 & E2 & E3 & E4 & E5) ->. unfold syscall_handler.
    cbn [Z.eqb Pos.eqb SYS_THREAD_YIELD SYS_SEND SYS_RECV SYS_THREAD_EXIT]. apply wp_bind.
    assert (Hlt : (c < n)%nat) by (pose proof (rg_current _ _ O1) as H; by rewrite O2 in H).
    destruct (rg_next _ _ O1 c Hlt) as (t & Ht & _).
    destruct (yield_alone s1 n c t) as (g & Ey & Hg); [by rewrite E1|by rewrite E1| |by rewrite E1|].
    { rewrite E1. destruct (round_robin (k_sched s) c n) as [j|] eqn:Ej.
      - destruct (round_robin_some _ _ _ _ Hlt Ej) as (Hj & Hr & _). destruct (decide (j = c)) as [->|Hne]; [done|].
        by rewrite O4 in Hr.
      - by rewrite (round_robin_none _ _ _ Ej c Hlt) in O3. }
    eapply wp_eq; [exact Ey|]. apply wp_ret. exists 0. cbn [k_sched k_con k_gdt k_mem set_gdt]. split_and!; try done.
    + rewrite E1. by constructor.
    + rewrite Hg, E3, (se_tss _ Hs). destruct (is_user_mode t =? 0) eqn:Eu; [done|]. by apply (O5 t).
  - intros v s2 s' (-> & Hc & Hq1 & Hq2) Hs' Es Ec Em _. exists [], L. rewrite app_nil_r. split_and!; [done|congruence|].
    apply Hk; [done|]. split; [congruence|by rewrite Em].
Qed.

(** Test 5 writes a digit and a NUL into [num]. *)
Lemma store_rule F s b k L : session s -> 0 < b < 256 ->
  (forall s', session s' -> k_sched s' = k_sched s ->
    (forall x, ~ pn <= x < pn + 2 -> mget (k_mem s') x = mget (k_mem s) x) -> string_at s0 s' num [b] -> ends F k s' L) ->
  ends F (Store num [b; 0] k) s L.
Proof.
  intros Hs Hb Hk. pose proof (pl_num Hpl) as Hub. pose proof (ub_low _ _ _ _ Hub) as [U0 U1]. unfold USER_LIMIT in U1.
  assert (Hch : forall i, 0 <= i < 2 -> changing (pn + i)) by (intros i Hi; right; right; lia).
  assert (Hv : forall m i, 0 <= i < 2 -> (forall x, ~ changing x -> mget m x = mget (k_mem s0) x) ->
    vaddr (set_mem (fun _ => m) s) (num + i) = Some (pn + i)).
  { intros m i Hi Hm. rewrite vaddr_same; [|apply Hs|exact Hm]. by apply (dest_now s0 num 2 (fun i => pn + i)); [apply user_dest|]. }
  unfold ends. cbn [run_user store_bytes]. apply wph_step.
  set (m1 := mput (k_mem s) pn b). set (m2 := mput m1 (pn + 1) 0).
  assert (Hm1 : forall x, ~ changing x -> mget m1 x = mget (k_mem s0) x).
  { intros x Hx. unfold m1. rewrite mget_mput_ne; [by apply (se_mem _ Hs)|]. intros <-. apply Hx.
    replace pn with (pn + 0) by lia. by apply Hch. }
  assert (Hm2 : forall x, ~ changing x -> mget m2 x = mget (k_mem s0) x).
  { intros x Hx. unfold m2. rewrite mget_mput_ne; [by apply Hm1|]. intros <-. apply Hx. by apply Hch. }
  assert (Es : set_mem (fun _ => k_mem s) s = s) by by destruct s.
  assert (E1 : vwr8 num b s = Ret tt (set_mem (fun _ => m1) s)).
  { unfold vwr8, bind, gets. rewrite <- (Z.add_0_r num) at 1. rewrite <- Es at 1. rewrite (Hv (k_mem s) 0) by (apply Hs || lia).
    rewrite Z.add_0_r. done. }
  assert (E2 : vwr8 (u64 (num + 1)) 0 (set_mem (fun _ => m1) s) = Ret tt (set_mem (fun _ => m2) s)).
  { unfold vwr8, bind, gets. rewrite u64_small, (Hv m1 1) by (done || lia). done. }
  unfold wp. rewrite (bind_ret _ _ _ _ _ E1), (bind_ret _ _ _ _ _ E2). apply (Hk (set_mem (fun _ => m2) s)).
  - destruct Hs as [[I1 I2 I3] S1 S2 S3 S4 S5]. by constructor.
  - done.
  - intros x Hx. cbn. unfold m2, m1. rewrite !mget_mput_ne by lia. done.
  - constructor; [cbn; unfold USER_LIMIT; lia| |by apply Forall_singleton; lia].
    intros j x Hj. exists (pn + Z.of_nat j). assert (Hj2 : (j < 2)%nat) by (by apply lookup_lt_Some in Hj).
    rewrite (Hv m2) by (done || lia). split_and!; [done| |apply (pl_apart_num Hpl); lia].
    destruct j as [|[|j]]; [| |lia]; injection Hj as <-; cbn; unfold m2, m1.
    + rewrite mget_mput_ne, Z.add_0_r, mget_mput_eq by lia. by apply u8_small; lia.
    + by rewrite mget_mput_eq.
Qed.

Lemma small_result v : 0 <= v < 2147483648 -> i32 (i64 (u64 v)) = v.
Proof. intros H. by rewrite u64_small, i64_small, i32_small by lia. Qed.

Lemma solo_ports v r0 v' : solo v r0 -> threads v' = threads v -> thread_count v' = thread_count v ->
  thread_list v' = thread_list v -> current v' = current v -> (exists q, ipc_ok v' q) -> solo v' r0.
Proof.
  intros [O1 O2 O3 O4 O5 O6] E1 E2 E3 E4 Hq.
  constructor; unfold runnable in *; rewrite ?E1; try done; [by apply (ring_vars v)|congruence].
Qed.

Lemma create_rule F s k L : session s -> 0 <= port_count (k_sched s) < 16 ->
  (forall s' p, session s' -> (p < 16)%nat -> waiting (k_sched s') p = [] -> ports (k_sched s') !! p = Some null_port ->
    message_pool_next (k_sched s') = message_pool_next (k_sched s) -> ends F (k (Z.of_nat p + 1)) s' L) ->
  ends F (user_port_create k) s L.
Proof.
  intros Hs Hn Hk. pose proof (se_solo _ Hs) as Hso. destruct (so_ipc _ _ Hso) as [q Hq].
  set (p := Z.to_nat (port_count (k_sched s))). assert (Hp : (p < 16)%nat) by lia.
  apply (call_rule F s SYS_PORT_CREATE [] (fun r => k (i32 r)) _ (fun v s2 => v = Z.of_nat p + 1 /\ k_con s2 = k_con s /\
    waiting (k_sched s2) p = [] /\ ports (k_sched s2) !! p = Some null_port /\
    message_pool_next (k_sched s2) = message_pool_next (k_sched s)));
    [done|unfold SYS_PORT_CREATE; lia|by apply Forall_nil| |].
  - intros s1 f (E1 & E2 & E3 & E4 & E5) ->. unfold syscall_handler.
    cbn [Z.eqb Pos.eqb SYS_PORT_CREATE SYS_SEND SYS_RECV SYS_THREAD_EXIT SYS_THREAD_YIELD]. apply wp_bind.
    assert (Hl : length (ports (k_sched s1)) = 16%nat) by (rewrite E1; apply Hq).
    eapply wp_eq; [apply (port_create_eq s1 p); [rewrite E1; lia|done|done]|]. apply wp_ret.
    exists (Z.of_nat p + 1). set (s2 := set_sched _ _).
    assert (Hok2 : ipc_ok (k_sched s2) (set_queue q p [])).
    { apply (empty_port_ok (k_sched s1)); [by rewrite E1|lia|done..|].
      change (length (threads (k_sched s1)) = 8%nat). rewrite E1. apply Hq. }
    split_and!.
    + by rewrite port_to_id_eq.
    + done.
    + exact E2.
    + by rewrite (empty_port_waiting (k_sched s1) _ p p), decide_True by (done || lia).
    + apply list_lookup_insert_eq. cbn. lia.
    + by rewrite <- E1.
    + done.
    + rewrite <- E1 in Hso. eapply solo_ports; [exact Hso|done..|by eexists].
    + change (k_gdt s2) with (k_gdt s1). rewrite E3. apply Hs.
    + done.
  - intros v s2 s' (-> & Hc & H1 & H2 & H3) Hs' Es Ec Em _. exists [], L. rewrite app_nil_r. split_and!; [done|congruence|].
    rewrite small_result by lia. apply Hk; by rewrite ?Es.
Qed.

Lemma send_rule F s p x id d0 d1 d2 d3 k L : session s -> (p < 16)%nat -> ports (k_sched s) !! p = Some x ->
  blocked_thread x = None -> waiting (k_sched s) p = [] -> message_pool_next (k_sched s) < 64 ->
  Forall is_u32 [id; d0; d1; d2; d3] ->
  (forall s', session s' -> waiting (k_sched s') p = [(id, [d0; d1; d2; d3])] -> ends F (k 0) s' L) ->
  ends F (user_send (Z.of_nat p + 1) id d0 d1 d2 d3 k) s L.
Proof.
  intros Hs Hp Hx Hb Hw Hn Hu Hk. pose proof (se_solo _ Hs) as Hso. destruct (so_ipc _ _ Hso) as [q Hq].
  assert (Hu' : Forall (fun v => 0 <= v < 4294967296) [id; d0; d1; d2; d3]) by exact Hu.
  pose proof Hu' as Hu2. rewrite !Forall_cons in Hu2. destruct Hu2 as (U0 & U1 & U2 & U3 & U4 & _).
  unfold user_send, syscall6. rewrite !u32_small by (unfold is_u32 in *; lia).
  apply (call_rule F s SYS_SEND [Z.of_nat p + 1; id; d0; d1; d2; d3] (fun r => k (i32 r)) _ (fun v s2 => v = 0 /\ k_con s2 = k_con s /\
    waiting (k_sched s2) p = [(id, [d0; d1; d2; d3])]));
    [done|unfold SYS_SEND; lia|repeat apply Forall_cons_2; apply Forall_nil_2 || lia| |].
  - intros s1 f (E1 & E2 & E3 & E4 & E5) ->. unfold syscall_handler. rewrite Z.eqb_refl.
    unfold call_regs, arg_regs. cbn [load_regs]. reg_simpl. rewrite !u32_small by lia.
    rewrite port_from_id_eq by lia. apply wp_bind.
    wp_call (send_ok s1 q p id d0 d1 d2 d3); [by rewrite E1|done|by rewrite E1|done|].
    intros r s2 (-> & [S1 S2 S3 S4 S5 (S6 & S7 & S8 & S9) S10 S11]). apply wp_ret. exists 0.
    specialize (S3 x ltac:(by rewrite E1)). rewrite Hb, E1 in S3.
    split_and!; [done|done|by rewrite S10| |by rewrite S10| |by rewrite S10; cbn; rewrite E3; apply Hs|by rewrite S10].
    + by rewrite S2, decide_True, E1, Hw by done.
    + eapply solo_ports; [exact Hso|done|congruence|congruence|congruence|by eexists].
  - intros v s2 s' (-> & Hc & H1) Hs' Es Ec Em _. exists [], L. rewrite app_nil_r. split_and!; [done|congruence|].
    rewrite small_result by lia. apply Hk; by rewrite ?Es.
Qed.

Lemma recv_rule F s p d k L : session s -> (p < 16)%nat -> waiting (k_sched s) p = [d] ->
  (forall s', session s' -> delivered (fun i => pm + i) d (k_mem s') -> ends F (k 0) s' L) ->
  ends F (user_recv (Z.of_nat p + 1) msg k) s L.
Proof.
  intros Hs Hp Hw Hk. pose proof (se_solo _ Hs) as Hso. destruct (so_ipc _ _ Hso) as [q Hq].
  pose proof (pl_msg Hpl) as Hub. pose proof (ub_low _ _ _ _ Hub) as [V0 V1]. unfold USER_LIMIT in V1.
  unfold user_recv, syscall2. rewrite u32_small by lia.
  apply (call_rule F s SYS_RECV [Z.of_nat p + 1; msg] (fun r => k (i32 r)) _ (fun v s2 => v = 0 /\ k_con s2 = k_con s /\
    delivered (fun i => pm + i) d (k_mem s2)));
    [done|unfold SYS_RECV; lia|repeat apply Forall_cons_2; apply Forall_nil_2 || lia| |].
  - intros s1 f Hst ->. pose proof Hst as (E1 & E2 & E3 & E4 & E5). unfold syscall_handler.
    change (SYS_RECV =? SYS_SEND) with false. rewrite Z.eqb_refl.
    unfold call_regs, arg_regs. cbn [load_regs]. reg_simpl. rewrite !u32_small by lia.
    rewrite port_from_id_eq by lia. apply wp_bind. unfold recv. rewrite (proj2 (Z.eqb_neq _ _) (pl_nonnull Hpl)). apply wp_bind.
    wp_call (recv_take_ok s1 q p msg (fun i => pm + i)); [by rewrite E1|done|by rewrite E1, Hw| |].
    { apply user_dest, (user_buffer_kept s0); [done|done|]. intros x Hx. assert (Hch : ~ changing x) by (intros Hc; by apply (pl_tables Hpl x)).
      rewrite E5; [by apply (se_mem _ Hs)|]. intros Hy. apply Hch. by left. }
    intros r s2 (-> & Hrc). apply wp_ret, wp_ret. exists 0. pose proof (rc_frame _ _ _ _ _ Hrc) as Efr.
    destruct (rc_vars _ _ _ _ _ Hrc) as (R1 & R2 & R3 & R4 & R5 & R6).
    split_and!; [done|done|by rewrite Efr| | | |by rewrite Efr; cbn; rewrite E3; apply Hs|].
    + destruct (rc_message _ _ _ _ _ Hrc) as (d' & Ed & Hd). rewrite E1, Hw in Ed. by injection Ed as <- _.
    + rewrite Efr. by destruct s1.
    + eapply solo_ports; [exact Hso|congruence|congruence|congruence|congruence|eexists; apply Hrc].
    + intros x Hx. apply (rc_mem _ _ _ _ _ Hrc). intros j Hj ->. lia.
  - intros v s2 s' (-> & Hc & H1) Hs' Es Ec Em _. exists [], L. rewrite app_nil_r. split_and!; [done|congruence|].
    rewrite small_result by lia. apply Hk; by rewrite ?Em.
Qed.

Definition exit_events (code : Z) : list conevent :=
  [CPrint (str "Thread exiting with code: "); CHex code; CPrint [10]].

(** The exit of the only runnable thread. *)
Lemma exit_rule (F : kstate -> Prop) s code : session s -> 0 <= code < 18446744073709551616 ->
  (forall s', t_state <$> threads (k_sched s') !! c = Some THREAD_DEAD -> k_if s' = false ->
    (forall x, ~ on_stack s0 x -> mget (k_mem s') x = mget (k_mem s) x) -> F s') ->
  ends F (user_exit code) s (exit_events code).
Proof.
  intros Hs Hcode HF. pose proof (se_solo _ Hs) as [O1 O2 O3 O4 O5 O6].
  assert (Hlt : (c < n)%nat) by (pose proof (rg_current _ _ O1) as H; by rewrite O2 in H).
  unfold ends, user_exit, syscall1. rewrite u64_small by done. cbn [run_user]. unfold setr. apply wph_step, wp_modify, wph_step.
  eapply wp_eq; [apply load_args_eq|].
  assert (Hsa : session (set_regs (load_regs arg_regs [code]) (set_regs (rset RAX SYS_THREAD_EXIT) s))).
  { apply session_regs; [apply (session_regs s [RAX] [SYS_THREAD_EXIT])|by apply Forall_singleton|]; [done|by apply Forall_singleton| |];
      intros r Hr; repeat (apply elem_of_cons in Hr as [->|Hr]; [done|]); by apply not_elem_of_nil in Hr. }
  set (sa := set_regs _ _) in *. apply wph_bind, stub_enter; [apply Hsa|]. intros s1 _ _ Hm1 E1. apply wph_bind.
  change (k_regs sa RAX) with SYS_THREAD_EXIT. change (k_regs sa RDI) with code.
  assert (Es : k_sched s1 = k_sched s) by by rewrite E1.
  assert (Hr1 : ring (k_sched s1) n) by by rewrite Es. assert (Hc1 : current (k_sched s1) = Some c) by by rewrite Es.
  set (s2 := set_sched (dead_vars c) (printed (exit_events code) s1)).
  assert (Hy : thread_yield s2 = Ret false s2).
  { destruct (wp_inv _ _ _ (thread_yield_spec s2 n c ltac:(by apply ring_alter) Hc1)) as (b & s' & E & Hy).
    unfold yielded in Hy. rewrite round_robin_nobody in Hy; [by destruct Hy as [-> ->]|done|].
    intros i Hi. change (k_sched s2) with (dead_vars c (k_sched s1)). rewrite Es, dead_runnable.
    destruct (decide (i = c)); [done|by apply O4]. }
  eapply wph_halted.
  { rewrite (exit_run s1 fuel n c) by done. fold (exit_events code). fold s2. rewrite (bind_ret _ _ _ _ _ Hy). reflexivity. }
  split; [by cbn; rewrite E1|]. apply HF.
  - cbn. rewrite list_lookup_alter_eq, Es. destruct (rg_next _ _ O1 c Hlt) as (t & -> & _). done.
  - done.
  - intros x Hx. cbn. apply Hm1. rewrite <- (session_on_stack sa) in Hx by done. unfold on_stack in Hx. lia.
Qed.

(** ** The program *)

Definition init_message : payload := (42, [100; 200; 300; 400]).

(** The end of a successful run. *)
Definition init_done s : Prop :=
  t_state <$> threads (k_sched s) !! c = Some THREAD_DEAD /\ k_if s = false /\
  delivered (fun i => pm + i) init_message (k_mem s).

Lemma delivered_same m m' : (forall j, 0 <= j < 20 -> mget m' (pm + j) = mget m (pm + j)) ->
  delivered (fun i => pm + i) init_message m -> delivered (fun i => pm + i) init_message m'.
Proof.
  intros Hm [H1 H2]. split; [rewrite <- H1; apply word_at_ext; intros j Hj; apply Hm; lia|].
  intros i w Hi. rewrite <- (H2 i w Hi). pose proof (lookup_lt_Some _ _ _ Hi). cbn in H.
  apply word_at_ext. intros j Hj. apply Hm. lia.
Qed.
Lemma delivered_quiet s s' : quiet s s' -> delivered (fun i => pm + i) init_message (k_mem s) ->
  delivered (fun i => pm + i) init_message (k_mem s').
Proof. intros [_ Hm]. apply delivered_same. intros j Hj. apply Hm. apply (pl_apart Hpl). lia. Qed.

Lemma ends_eq F p s L L' : ends F p s L -> L = L' -> ends F p s L'.
Proof. by intros H <-. Qed.
Lemma said_app l1 l2 : said (l1 ++ l2) = said l1 ++ said l2.
Proof. unfold said. by rewrite flat_map_app. Qed.

Ltac literal := apply (bool_decide_unpack _); vm_compute; exact I.
(** The next line of init is a literal. *)
Ltac say_next st Hs' Hq := eapply say_rule; [eassumption|literal|vm_compute; lia|intros st Hs' Hq].

Definition yield_lines (i : Z) (k : nat) : list (list Z) :=
  flat_map (fun j => [str "[INIT]   Yield "; [48 + j]; [10]]) (seqZ i (Z.of_nat k)).

Lemma yield_tests_ends k s i p L : session s -> delivered (fun i => pm + i) init_message (k_mem s) ->
  0 <= i -> i + Z.of_nat k <= 10 ->
  (forall s', session s' -> delivered (fun i => pm + i) init_message (k_mem s') -> ends init_done p s' L) ->
  ends init_done (yield_tests lit num k i p) s (said (yield_lines i k) ++ L).
Proof.
  revert s i. induction k as [|k IH]; intros s i Hs Hd Hi Hik Hp; cbn [yield_tests]; [by apply Hp|].
  eapply ends_eq.
  - say_next t1 H1 Q1. apply store_rule; [done|lia|]. intros s2 H2 E2 M2 N2.
    eapply print_rule; [done|exact N2|vm_compute; lia|]. intros s3 H3 Q3. say_next t4 H4 Q4.
    apply yield_rule; [done|]. intros s5 H5 Q5. apply (IH s5 (i + 1)); [done| |lia|lia|done].
    apply (delivered_quiet _ _ Q5), (delivered_quiet _ _ Q4), (delivered_quiet _ _ Q3).
    eapply delivered_same; [|exact (delivered_quiet _ _ Q1 Hd)]. intros j Hj. apply M2, (pl_apart Hpl). lia.
  - unfold yield_lines. rewrite Nat2Z.inj_succ, (seqZ_cons i) by lia. replace (Z.pred (Z.succ (Z.of_nat k))) with (Z.of_nat k) by lia.
    replace (Z.succ i) with (i + 1) by lia. reflexivity.
Qed.

Lemma test_4_5_ends s : session s -> delivered (fun i => pm + i) init_message (k_mem s) ->
  exists L, ends init_done (test_4_5 lit num) s L /\ L = said (drop 10 init_transcript) ++ exit_events 0.
Proof.
  intros Hs Hd. eexists. split.
  - unfold test_4_5. say_next t1 H1 Q1. apply yield_rule; [done|]. intros s2 H2 Q2. say_next t3 H3 Q3. say_next t4 H4 Q4.
    apply yield_tests_ends; [done| |lia|lia|].
    { by apply (delivered_quiet _ _ Q4), (delivered_quiet _ _ Q3), (delivered_quiet _ _ Q2), (delivered_quiet _ _ Q1). }
    intros s5 H5 D5. say_next t6 H6 Q6. say_next t7 H7 Q7. say_next t8 H8 Q8. say_next t9 H9 Q9. say_next t10 H10 Q10. say_next t11 H11 Q11.
    apply exit_rule; [done|lia|]. intros s' F1 F2 F3. split_and!; [done|done|].
    apply (delivered_same (k_mem t11)); [intros j Hj; apply F3, (pl_apart Hpl); lia|].
    by apply (delivered_quiet _ _ Q11), (delivered_quiet _ _ Q10), (delivered_quiet _ _ Q9), (delivered_quiet _ _ Q8),
      (delivered_quiet _ _ Q7), (delivered_quiet _ _ Q6).
  - vm_compute. reflexivity.
Qed.

Lemma start_ends : 0 <= port_count (k_sched s0) < 16 -> message_pool_next (k_sched s0) < 64 ->
  ends init_done (_start lit msg num) s0 (said init_transcript ++ exit_events 0).
Proof.
  intros Hpc Hmp. eapply ends_eq.
  - pose proof (pl_session Hpl) as H0. unfold _start. say_next t1 H1 Q1. say_next t2 H2 Q2. say_next t3 H3 Q3.
    assert (E3 : k_sched t3 = k_sched s0) by (rewrite (proj1 Q3), (proj1 Q2); apply Q1).
    apply create_rule; [done|by rewrite E3|]. intros t4 p H4 Hp W4 X4 N4. rewrite (proj2 (Z.ltb_ge _ _)) by lia.
    say_next t5 H5 Q5. unfold test_2. say_next t6 H6 Q6.
    assert (E6 : k_sched t6 = k_sched t4) by (rewrite (proj1 Q6); apply Q5).
    eapply (send_rule _ _ p null_port); [done|done|by rewrite E6|done|by rewrite E6|rewrite E6, N4, E3; done| |].
    { repeat apply Forall_cons_2; apply Forall_nil_2 || (unfold is_u32; lia). }
    intros t7 H7 W7. rewrite (proj2 (Z.ltb_ge 0 0)) by lia. say_next t8 H8 Q8. unfold test_3. say_next t9 H9 Q9.
    apply (recv_rule _ _ p init_message); [done|done|rewrite (proj1 Q9), (proj1 Q8); exact W7|].
    intros t10 H10 D10. rewrite (proj2 (Z.ltb_ge 0 0)) by lia. say_next t11 H11 Q11. say_next t12 H12 Q12. say_next t13 H13 Q13.
    destruct (test_4_5_ends t13 H13) as (L & HL & EL); [|rewrite EL in HL; exact HL].
    by apply (delivered_quiet _ _ Q13), (delivered_quiet _ _ Q12), (delivered_quiet _ _ Q11).
  - vm_compute. reflexivity.
Qed.
End session.

(** ** A machine on which init runs

    The stack and the literals of init lie in one 1 GiB page; init is the only thread. *)

Definition text_base : Z := 0x7FFFF0000000.
Definition text_lit (l : list Z) : Z :=
  text_base + 64 * Z.of_nat (default 0%nat (fst <$> list_find (fun x => x = l) literals)).
Definition text_mem : gmap Z Z := write_bytes init_image 0x70000000 recv_mem.
Definition demo_session : kstate :=
  set_mem (fun _ => text_mem) (set_regs (fun f r => match r with CR3 => 0x200000 | r => f r end)
    (set_sched (fun v => mkSched (Some 0%nat) (Some 0%nat)
      (mkThread 0xFFFFFFFF80010FC8 THREAD_RUNNING None (Some 0%nat) 0xFFFFFFFF80011000 0x7FFFFFFFF000 1 :: replicate 7 null_thread)
      1 (ports v) (port_count v) (message_pool v) (message_pool_next v)) demo_user)).

Lemma image_length : length init_image = 1344%nat.
Proof. vm_compute. reflexivity. Qed.

Definition literal_placed (i : nat) : bool :=
  match literals !! i with
  | Some l => bool_decide (text_lit l = text_base + 64 * Z.of_nat i /\ (length l < 64)%nat /\
      take (S (length l)) (drop (64 * i) init_image) = l ++ [0] /\ Forall (fun b => 0 < b /\ b < 256) l)
  | None => true
  end.

(** The literals are found where [text_lit] says, NUL-terminated. *)
Lemma image_literals i l : literals !! i = Some l ->
  text_lit l = text_base + 64 * Z.of_nat i /\ (length l < 64)%nat /\ (i < 21)%nat /\
  take (S (length l)) (drop (64 * i) init_image) = l ++ [0] /\ Forall (fun b => 0 < b < 256) l.
Proof.
  intros Hi. assert (Hlt : (i < 21)%nat) by (apply lookup_lt_Some in Hi; exact Hi).
  assert (H : List.forallb literal_placed (seq 0 21) = true) by (vm_compute; reflexivity).
  rewrite List.forallb_forall in H. specialize (H i ltac:(apply in_seq; lia)). unfold literal_placed in H. rewrite Hi in H.
  apply bool_decide_eq_true in H as (H1 & H2 & H3 & H4). done.
Qed.

Lemma text_mem_low x : x < 0x70000000 -> mget text_mem x = mget recv_mem x.
Proof. intros Hx. apply mget_write_bytes_out. by left. Qed.
Lemma recv_tree : tree_ok recv_mem 0x200000 [].
Proof.
  pose proof (ub_tree _ _ _ _ demo_receiver_buffer) as H. by destruct demo_receiver_spec as (_ & _ & E); rewrite E in H.
Qed.
Lemma text_frame : tree_ok text_mem 0x200000 [] /\ same_walks 0x200000 recv_mem text_mem /\
  forall ids, (length ids <= 4)%nat -> Forall idx_ok ids -> tab text_mem 0x200000 ids = tab recv_mem 0x200000 ids.
Proof.
  apply (tree_frame recv_mem text_mem 0x200000 [] []); [exact recv_tree| |done].
  intros pi q x _ Hf Hq Hx. apply text_mem_low. unfold PAGE_SIZE in Hx.
  destruct (recv_mem_tab pi q Hf Hq) as [[_ ->]|[_ ->]]; lia.
Qed.
Lemma text_tables x : in_table text_mem 0x200000 x -> x < 0x202000.
Proof.
  intros (q & (pi & Hl & Hf & Hq) & Hx). rewrite (proj2 (proj2 text_frame)) in Hq by (done || lia). unfold in_page, PAGE_SIZE in Hx.
  destruct (recv_mem_tab pi q Hf Hq) as [[_ ->]|[_ ->]]; lia.
Qed.
Lemma text_translate v : 0x7FFFC0000000 <= v < 0x800000000000 -> translate text_mem 0x200000 v = Some (0x40000000 + v mod 2 ^ 30).
Proof.
  intros Hv. assert (E1 : pml4_index v = 255).
  { unfold pml4_index. change 0x1FF with (Z.ones 9). rewrite Z.land_ones, Z.shiftr_div_pow2 by lia.
    change (2 ^ 39) with 549755813888. assert (v / 549755813888 = 255) as -> by zlia. reflexivity. }
  assert (E2 : pdpt_index v = 511).
  { unfold pdpt_index. change 0x1FF with (Z.ones 9). rewrite Z.land_ones, Z.shiftr_div_pow2 by lia.
    change (2 ^ 30) with 1073741824. assert (v / 1073741824 = 131071) as -> by zlia. reflexivity. }
  unfold translate. rewrite (proj1 (proj2 text_frame)) by (done || apply idxs_ok).
  assert (W : walk recv_mem 0x200000 (idxs v) = Some (0x40000087, 2%nat)); [|rewrite W; f_equal; done].
  unfold idxs. rewrite E1, E2. reflexivity.
Qed.

Lemma demo_session_stack x : on_stack demo_session x -> 0xFFFFFFFF80010000 <= x.
Proof. intros [Hx _]. etransitivity; [|exact Hx]. vm_compute. congruence. Qed.
Lemma demo_session_solo : solo 0 1 (k_sched demo_session) 0xFFFFFFFF80011000.
Proof.
  constructor; try reflexivity.
  - constructor; try reflexivity; [lia|cbn; lia|]. intros i Hi. destruct i as [|i]; [|lia]. eexists. split; reflexivity.
  - intros i Hi Hc. lia.
  - intros t [= <-] _. reflexivity.
  - exists (fun _ => []). apply ipc_ok_fresh; reflexivity.
Qed.

Lemma text_string i l s : literals !! i = Some l -> k_mem s = text_mem -> cr3_root s = 0x200000 ->
  forall k b, (l ++ [0]) !! k = Some b ->
  vaddr s (text_lit l + Z.of_nat k) = Some (0x70000000 + Z.of_nat (64 * i + k)) /\
  mget (k_mem s) (0x70000000 + Z.of_nat (64 * i + k)) = b.
Proof.
  intros Hi Em Er k b Hb. destruct (image_literals i l Hi) as (-> & Hlen & Hlt & Htk & Hbs).
  assert (Hk : (k < S (length l))%nat) by (apply lookup_lt_Some in Hb; rewrite length_app in Hb; cbn in Hb; lia).
  split.
  - unfold vaddr, text_base. rewrite (proj2 (Z.ltb_lt _ _)) by (unfold USER_LIMIT; lia). rewrite Em, Er, text_translate by lia.
    f_equal. change (2 ^ 30) with 1073741824. zlia.
  - rewrite Em. unfold text_mem. rewrite <- Htk, lookup_take_lt, lookup_drop in Hb by lia.
    rewrite (mget_write_bytes_in _ _ _ _ b Hb). apply u8_small.
    rewrite <- lookup_drop, <- (lookup_take_lt _ (S (length l))), Htk in Hb by lia.
    apply lookup_app_Some in Hb as [Hb|[_ Hb]]; [apply (Forall_lookup_1 _ _ _ _ Hbs) in Hb; lia|].
    destruct (k - length l)%nat as [|j]; [injection Hb as <-; lia|done].
Qed.

Lemma demo_session_buffer v len : 0x7FFFC0000000 <= v -> 0 <= len -> v mod 4096 + len <= 4096 -> v < 0x7FFFFFFFF000 ->
  user_buffer demo_session v len (0x40000000 + v mod 2 ^ 30).
Proof.
  intros Hv Hl Hp Hhi. constructor.
  - exact (proj1 text_frame).
  - unfold USER_LIMIT. zlia.
  - done.
  - apply text_translate. lia.
  - intros i Hi Hx. apply text_tables in Hx. change (2 ^ 30) with 1073741824 in Hx. zlia.
Qed.

Lemma demo_placed : placed demo_session 0 1 100 text_lit 0x7FFFFFFFEF00 0x7FFFFFFFEF80 0x7FFFEF00 0x7FFFEF80 (fun _ => 0x77).
Proof.
  assert (Hcr : cr3_root demo_session = 0x200000) by reflexivity.
  constructor.
  - constructor; [|split; reflexivity|reflexivity|reflexivity|reflexivity|exact demo_session_solo].
    destruct demo_interruptible as [I1 I2 I3]. constructor; [|exact I2|exact I3]. intros []; vm_compute; split; congruence.
  - exact (proj1 text_frame).
  - intros x Hx Ht. apply text_tables in Ht. destruct Hx as [Hx%demo_session_stack|Hx]; lia.
  - intros l [i Hi]%list_elem_of_lookup. pose proof (text_string i l demo_session Hi eq_refl Hcr) as Hb.
    destruct (image_literals i l Hi) as (El & Hlen & Hlt & _ & Hbs). split.
    + constructor; [rewrite El; unfold text_base, USER_LIMIT; lia| |eapply Forall_impl; [exact Hbs|]; cbn; lia].
      intros k b Hk. destruct (Hb k b Hk) as [H1 H2]. eexists. split_and!; [exact H1|exact H2|].
      apply lookup_lt_Some in Hk. rewrite length_app in Hk. cbn in Hk. intros Hx%demo_session_stack. lia.
    + intros k pa Hk Hpa. destruct (lookup_lt_is_Some_2 (l ++ [0]) k) as [b Hkb]; [rewrite length_app; cbn; lia|].
      destruct (Hb k b Hkb) as [H1 _]. rewrite Hpa in H1. injection H1 as ->. intros [Hx%demo_session_stack|Hx]; lia.
  - exact (demo_session_buffer 0x7FFFFFFFEF00 20 ltac:(lia) ltac:(lia) ltac:(vm_compute; congruence) ltac:(lia)).
  - exact (demo_session_buffer 0x7FFFFFFFEF80 2 ltac:(lia) ltac:(lia) ltac:(vm_compute; congruence) ltac:(lia)).
  - intros x Hx. split; [intros Hs%demo_session_stack|]; lia.
  - intros x Hx Hs%demo_session_stack. lia.
  - lia.
  - lia.
  - intros r. lia.
Qed.

(** ** Properties *)

(** C8: The init program passes its tests: on every machine on which it is the only
    runnable thread, with its literals and its two local arrays reachable through the
    page tables, a port to be had and a message left, init.c runs to its end.  Each of
    its system calls goes through [int $0x80] and returns, none of the failure branches
    is taken, the console shows exactly the transcript of success and the exit message,
    the message init sent to itself (42 with the words 100 to 400) is in its buffer, and
    after the exit of the thread, which is then DEAD, the processor halts with interrupts
    off. *)
Theorem init_tests_pass {P : Platform} (s : kstate) (c n fuel : nat) (lit : list Z -> Z) (msg num pm pn : Z) (junk : regs) :
  placed s c n fuel lit msg num pm pn junk ->
  0 <= port_count (k_sched s) < 16 -> message_pool_next (k_sched s) < 64 ->
  exists s', run_user fuel junk (_start lit msg num) s = Halted s' /\
    k_con s' = k_con s ++ said init_transcript ++ exit_events 0 /\
    t_state <$> threads (k_sched s') !! c = Some THREAD_DEAD /\ k_if s' = false /\
    delivered (fun i => pm + i) (42, [100; 200; 300; 400]) (k_mem s').
Proof.
  intros Hpl Hpc Hmp. destruct (wph_halts _ _ _ (start_ends s c n fuel lit msg num pm pn junk Hpl Hpc Hmp))
    as (s' & E & Hc & F1 & F2 & F3). by exists s'.
Qed.

Lemma init_tests_pass_witness :
  exists s', run_user 100 (fun _ => 0x77) (_start text_lit 0x7FFFFFFFEF00 0x7FFFFFFFEF80) demo_session = Halted s' /\
    k_con s' = said init_transcript ++ exit_events 0.
Proof.
  destruct (init_tests_pass demo_session 0 1 100 text_lit 0x7FFFFFFFEF00 0x7FFFFFFFEF80 0x7FFFEF00 0x7FFFEF80 (fun _ => 0x77)
    demo_placed) as (s' & H1 & H2 & _).
  - vm_compute. split; [congruence|reflexivity].
  - vm_compute. reflexivity.
  - exists s'. split; [exact H1|exact H2].
Defined.
